(* ===== verification/_CoqProject ===== *)
-Q . S2P
Prelude.v
Base64.v
Utf8.v
JsonText.v
Decimal.v
Json.v
JsonNul.v
Packet.v
PacketSpec.v
PacketProps.v
PacketSound.v
Fmt.v
Pipeline.v
Cipher.v
Crypto.v
CryptoSpec.v
KeyStores.v
Interfaces.v
UDPServer.v
UDPServerSpec.v
UDPServerProps.v
ServerDrain.v
ServerThreads.v
ServerThreadsProps.v
Channel.v
CryptoServer.v
Processors.v
Throttle.v
ThrottleProps.v
ThrottleHist.v
UDPClient.v
UDPClientProps.v
ClientSafety.v
Network.v
ThrottledServer.v
ThrottledDrain.v
ThrottledClient.v
ThrottledNetwork.v
EchoServer.v
LoadClient.v
Handshake.v
SecureRelay.v
SecuredServer.v
CryptoExample.v
ExampleWorld.v
ExampleMain.v
TCPServer.v
TCPServerProps.v
TCPConnProps.v
TCPThreads.v
Samples.v
PacketWitnesses.v
CryptoWitnesses.v
ServerWitnesses.v
ClientWitnesses.v
ThrottledWitnesses.v
ExampleWitnesses.v
SecuredWitnesses.v
