(* ===== verification/Prelude.v ===== *)
(** * Concord: a verification development

    Concord (src/) is a Go library for request/response messaging over UDP: a
    client and a server exchange packets, a packet names a target on the server,
    the target's callbacks compose the response, and extensions transform the
    bytes that go in and out.  This library models the program operation by
    operation and proves what each part promises, how the parts work together,
    and where the code fails.

    ** The program and its model

    - Packets (src/packet).  A [JSONPkt] reaches one metadata map through two
      references, the wire struct and the accessor; a pool hands packets out
      again.  [Packet] models maps and packets as a heap, [sync.Pool] with an
      arbitrary choice (the [oracle]), and every method as a computation on the
      heap.  The parts of the Go library the wire format rests on are modelled
      in [Base64], [Utf8], [JsonText], [Decimal], [Json] (encoding/json,
      encoding/base64, UTF-8 and big integers in JSON) and [Fmt] (the formatting
      of a message passed as a format to fmt.Errorf).  [Interfaces] has the
      interfaces of packet.go as type classes with their contract, and the JSON
      packets as an instance.
    - Pipelines (src/core/data_pipeline.go, packet_pipeline.go, extension.go):
      [Pipeline].  Transforms and callbacks are computations on the state of the
      process that return the context they leave.  [Processors] has the interfaces
      of extension.go as type classes, with laws that the pipelines keep, and a
      processor built to the comments of that file keeps too (they say nothing of
      a locked processor, nor of what follows a status other than 0, where code
      and comments differ), the pipelines as an instance, and [Crypto.Extend] as a client of them.
    - Cryptographic extension (src/core/crypto): [Cipher] (aes_cipher.go),
      [Crypto] (crypto.go, server.go, the handles of client.go) and [Handshake]
      (ServerKEx, ClientKEx, ConfigureClient).  [KeyStores] has the key stores
      behind pointers, each access a step, for packets processed at the same
      time.
    - Throttle (src/core/throttle): [Throttle].  Rates at their machine width,
      the pause after an operation, the read and write routines with their
      buffered channels and the time at which each may go on.
    - UDP server (src/server/udp_server.go, server.go): [UDPServer].  The two
      handlers and the routines as a step relation on whole handlers;
      [ServerThreads] has the same handlers as sequences of atomic actions that
      are interleaved; [ThrottledServer] puts them on the throttle, so that only
      the connection is left to the environment.
    - UDP client (src/client/udp_client.go): [UDPClient].  [Send] and
      [processIncoming] cut where they wait for another goroutine, and a step
      relation that interleaves the pieces with an arbitrary connection.
      [ClientSafety] adds users with packets of their own, [ThrottledClient] the
      throttle.
    - TCP server (src/server/tcp_server.go): [TCPServer].  The accept loop, the
      registration of connections, the handlers, and the three routines of a
      connection as a step relation.  [TCPThreads] has any number of connections
      over one packet creator, with the actions of their handlers interleaved.
    - Examples (src/examples): [EchoServer] (both servers, the echo client),
      [LoadClient] (the load generator's goroutines as a step relation),
      [CryptoExample] (the parts of the two clients that talk through the server),
      [ExampleWorld] (the process of the two clients, with the one packet creator
      they share) and [ExampleMain] (their whole program as goroutines, with the
      clients' routines, the network and the server's threads).

    This file holds what they share: the monad [M] of computations that change a
    state, return a value or panic, its rules ([wp]: the computation does not
    panic and ends in a state that satisfies a predicate), the interface [Has]
    through which a component's operation runs inside a bigger state, bytes and
    strings, the hint databases and tactics.

    ** What is proved

    - [PacketSpec] and [PacketProps]: JSON packets refine the abstract packet of
      the Packet and Writer interfaces under the heap invariant [heap_ok]; the
      wire round trip; the initial pool; what a reused packet carries over and
      how a hostile document damages it.  [JsonNul]: no JSON document contains a
      NUL byte.  [PacketSound]: no document and no call corrupts the heap; the
      only panic is a write to a nil map.
    - [Pipeline]: order and stopping of transforms and callbacks.
    - [CryptoSpec]: the transport transforms on every branch, round trips, key
      agreement, and the failures (short data, incomplete keys, the packet in
      clear after an exchange).
    - [UDPServerSpec] and [UDPServerProps]: the ownership invariant [inv] of the
      server's packets is kept by every handler for all callbacks and transforms
      that meet the interface classes [CallbackSafe] and [OutSafe], hence in
      every reachable state; what each kind of datagram makes the server send;
      the loop of an unusable key.  [ServerThreads] and [ServerThreadsProps]:
      handlers run alone are those of [UDPServer], whose executions are
      executions of the interleaved ones, and the ownership of packets and the
      absence of panics hold under every interleaving of the handlers' actions.
      [ServerDrain]: the sending routines terminate, and write what waited
      exactly once.  [CryptoServer]: the extension meets the interface.
      [SecuredServer]: under every interleaving, what a secured server writes to a
      client with a secret is sealed, as long as no key exchange arrives; such an
      exchange needs no secret, and a secret belongs to one text of an address.
    - [ThrottledServer] and [ThrottledDrain]: the server on its throttle has
      exactly the executions of the interleaved handlers on datagrams that fit
      the read buffer; order and rate of its reads and writes; it stops at the
      fifth read error; and it can always finish its work.  The safety theorems
      of servers, client and connections are for data that the processors handle
      safely ([processor_safe], [stages_safe]): a document that sets the metadata
      to null, and with the extension short data and incomplete public keys, can
      take the process down, as other theorems show.
    - [KeyStores]: one packet at a time, the accesses to the key stores are the
      transform of [Crypto]; once the flag is set no packet without the mark to
      skip the extension leaves in clear without an error; before that, packets
      processed at the same time can all do.
    - [Interfaces]: end-to-end encryption over the wire, for every implementation
      of the packet interfaces that keeps their contract.
    - [Channel]: what one end with the extension sends, the other end receives
      as it was.  [Processors]: what [Extend] changes and the same channel, for
      every implementation of the processor interfaces that keeps their laws.
    - [ThrottleProps]: the pause is exact, the rate is respected in every window
      of time, order of data and statuses, Shutdown blocks.  [ThrottleHist]: what
      follows for a process whose one writer waits for each status.
    - [UDPClientProps]: responses are matched with requests in every
      interleaving (for extensions that meet the class [KeepsT]); what Send and
      processIncoming do; the race between a response and the registration of
      its request.  [ClientSafety]: ownership of packets between the client and
      its users, and no panics.  [ThrottledClient]: refinement of the client with
      an arbitrary connection, order, the report of failed writes and how it
      blocks the writer, the end of reading after Cleanup.
    - [Network], [ThrottledNetwork], [Handshake] and [SecureRelay]: client and
      server together, a request and its response (by handlers, and through both
      throttles), the key exchange with the server and between
      clients, the exchanges that are refused, and end-to-end encrypted packets
      through the relay target.
    - [EchoServer], [LoadClient], [CryptoExample], [ExampleMain]: the example
      programs do what they show; the load generator ends, or waits for ever
      exactly when a response is lost; the encryption example has an execution
      that returns with both messages delivered.
    - [TCPServerProps] and [TCPConnProps]: backoff, ownership, why no connection
      is served, that the incoming handler is the one of the UDP server, and
      that a served connection would never write.  [TCPThreads]: ownership and
      absence of panics between all connections, and their silence, under every
      interleaving.
    - [Samples] holds instances of the interfaces and concrete states;
      [PacketWitnesses], [CryptoWitnesses], [ServerWitnesses],
      [ClientWitnesses], [ThrottledWitnesses], [ExampleWitnesses] and
      [SecuredWitnesses] apply the theorems to them.

    ** Interfaces to code outside the repository

    [AEAD] (AES-GCM: decryption inverts encryption and accepts nothing else),
    [Curve] (scalar multiplication with the Diffie-Hellman property) and
    [Resolver] (net.ResolveUDPAddr).  Randomness is a list of results.  Since a
    receiver tries to open everything, the theorems that follow a packet which
    leaves in clear assume of that packet's text that it does not by accident
    authenticate under the receiver's secret ([deliverable], and [clear_text] of
    the four such packets in [ExampleMain]).

    ** Fuel

    [Json.parse] gives its parser two more units than the text has bytes;
    [Json.parse_fuel] shows that a result obtained with any fuel is obtained
    with as many units as bytes were consumed, so the fuel is never the reason
    of a failure.  [dec_fuel] and [BigBytes] take the number of bits, which
    bounds the number of digits ([dec_digits_fuel], [length_be_bytes]).
    [duration_loop] takes one unit a character and every round consumes one.

    ** Abstractions

    A method under a mutex is atomic; the transform that reads and sets a flag
    under two locks is one step in [Crypto] and several in [KeyStores].  In [UDPServer] a handler runs as a whole
    between two steps; in [ServerThreads] every method call, transform and
    callback of a handler is a step of its own (the incoming transforms, which
    have no packet yet, are one), and the safety theorems are proved there.  The
    values that wait on an unbuffered channel are a list, and any of them may be
    received next; a thread that has handed a value over may go on at once, so
    the executions include those in which it waits for the receiver.  In
    [TCPServer] handlers run as a whole, in [TCPThreads] by actions.  Addresses
    are their texts.  The clock of the echo server is a parameter.  A function
    that waits for a response is cut there.  In [CryptoExample] each client has a
    heap of its own; in [ExampleMain] both share the heap of the process, a
    call on a client, an extension or the packet creator is one action of a
    goroutine, [Send] being cut between the hand-over of its data and the
    registration of the request, and the network may delay, reorder and lose
    datagrams; [ExampleWorld.exchange] is the computation its executions follow
    from one hand-over to the next.  In [LoadClient] a request whose response
    never comes is one that is lost.

    Not modelled: the network itself (what is delivered is arbitrary), logging
    outside the encryption example, the parsing of flags, and the interfaces of
    throttle.go, server.go and client.go as such: each has one implementation
    that is used, which is modelled.  An operation of the throttle on the
    connection takes less than 292 years less a second ([max_dur]), so that the
    remaining time does not wrap. *)

From Stdlib Require Import ZArith Lia Ascii String.
From stdpp Require Import base gmap strings list fin_maps relations.

(** [lia] with division and remainder by constants. *)
Ltac Zify.zify_post_hook ::= Z.to_euclidean_division_equations.

(** ** Go panics and fallible, state-passing computations

    A Go computation either returns a value in a new state or panics.  An
    unrecovered panic takes the process down, so it carries no state. *)

Inductive panic :=
  | NilMapWrite      (* assignment to an entry of a nil map *)
  | NilDeref         (* method call or field access through a nil pointer *)
  | SliceBounds      (* slice bounds out of range *)
  | DivByZero        (* integer divide by zero *)
  | SendOnClosed     (* send on a closed channel *)
  | CloseOfClosed.   (* close of a closed channel *)

Inductive Res (A : Type) :=
  | Ok (a : A)
  | Panic (p : panic).
Arguments Ok {A} _.
Arguments Panic {A} _.

(** [M S A]: a computation on state [S] that returns an [A]. *)
Definition M (S A : Type) : Type := S -> Res (A * S).

Definition ret {S A} (a : A) : M S A := fun s => Ok (a, s).

Definition bind {S A B} (m : M S A) (k : A -> M S B) : M S B :=
  fun s => match m s with
           | Ok (a, s') => k a s'
           | Panic p => Panic p
           end.

Definition throw {S A} (p : panic) : M S A := fun _ => Panic p.
Definition get {S} : M S S := fun s => Ok (s, s).
Definition gets {S A} (f : S -> A) : M S A := fun s => Ok (f s, s).
Definition modify {S} (f : S -> S) : M S unit := fun s => Ok (tt, f s).

(** The state a computation leaves. *)
Definition exec {S A} (m : M S A) (s : S) : S := match m s with Ok (_, s') => s' | Panic _ => s end.

Declare Scope go_scope.
Delimit Scope go_scope with go.
Notation "'let*' x ':=' m 'in' k" := (bind m (fun x => k))
  (at level 10, x pattern, m at level 100, k at level 200,
   format "'[v' 'let*'  x  ':='  m  'in' '//' k ']'") : go_scope.
Notation "m ';;;' k" := (bind m (fun _ => k))
  (at level 199, k at level 200, right associativity,
   format "'[v' m ';;;' '//' k ']'") : go_scope.
Open Scope go_scope.

(** Weakest preconditions: [wp m Q s] says that [m] run from [s] does not
    panic and ends with a result and a state satisfying [Q]. *)
Definition wp {S A} (m : M S A) (Q : A -> S -> Prop) (s : S) : Prop :=
  match m s with
  | Ok (a, s') => Q a s'
  | Panic _ => False
  end.

(** [wlp]: the same, a panic being allowed. *)
Definition wlp {S A} (m : M S A) (Q : A -> S -> Prop) (s : S) : Prop :=
  match m s with
  | Ok (a, s') => Q a s'
  | Panic _ => True
  end.

Section wp_rules.
Context {S : Type}.

Lemma wp_ret {A} (a : A) (Q : A -> S -> Prop) s : wp (ret a) Q s <-> Q a s.
Proof. reflexivity. Qed.

Lemma wp_bind {A B} (m : M S A) (k : A -> M S B) Q s :
  wp (bind m k) Q s <-> wp m (fun a s' => wp (k a) Q s') s.
Proof. unfold wp, bind. destruct (m s) as [[a s']|p]; reflexivity. Qed.

Lemma wp_gets {A} (f : S -> A) (Q : A -> S -> Prop) s :
  wp (gets f) Q s <-> Q (f s) s.
Proof. reflexivity. Qed.

Lemma wp_modify (f : S -> S) (Q : unit -> S -> Prop) s :
  wp (modify f) Q s <-> Q tt (f s).
Proof. reflexivity. Qed.

Lemma wp_mono {A} (m : M S A) (P Q : A -> S -> Prop) s :
  wp m P s -> (forall a s', P a s' -> Q a s') -> wp m Q s.
Proof. unfold wp. destruct (m s) as [[a s']|p]; eauto. Qed.

Lemma wlp_bind {A B} (m : M S A) (k : A -> M S B) Q s :
  wlp (bind m k) Q s <-> wlp m (fun a s' => wlp (k a) Q s') s.
Proof. unfold wlp, bind. destruct (m s) as [[a s']|p]; reflexivity. Qed.

Lemma wlp_ret {A} (a : A) (Q : A -> S -> Prop) s : wlp (ret a) Q s <-> Q a s.
Proof. reflexivity. Qed.

Lemma wlp_mono {A} (m : M S A) (P Q : A -> S -> Prop) s :
  wlp m P s -> (forall a s', P a s' -> Q a s') -> wlp m Q s.
Proof. unfold wlp. destruct (m s) as [[a s']|p]; eauto. Qed.

Lemma wp_wlp {A} (m : M S A) (Q : A -> S -> Prop) s : wp m Q s -> wlp m Q s.
Proof. unfold wp, wlp. destruct (m s) as [[a s']|p]; tauto. Qed.

Lemma wp_ok {A} (m : M S A) (Q : A -> S -> Prop) s a s' :
  m s = Ok (a, s') -> Q a s' -> wp m Q s.
Proof. unfold wp. now intros ->. Qed.

Lemma wp_inv {A} (m : M S A) (Q : A -> S -> Prop) s :
  wp m Q s -> exists a s', m s = Ok (a, s') /\ Q a s'.
Proof. unfold wp. destruct (m s) as [[a s']|p]; [eauto | tauto]. Qed.

Lemma bind_ok {A B} (m : M S A) (k : A -> M S B) s a s' :
  m s = Ok (a, s') -> bind m k s = k a s'.
Proof. unfold bind. now intros ->. Qed.

Lemma bind_panic {A B} (m : M S A) (k : A -> M S B) s p :
  m s = Panic p -> bind m k s = Panic p.
Proof. unfold bind. now intros ->. Qed.
End wp_rules.

(** ** Sub-states

    A component works on its own state; a process embeds the components'
    states in one record.  [Has S W] is the interface through which a
    component's operation runs inside a bigger state. *)
Class Has (S W : Type) := {
  proj : W -> S;
  upd : S -> W -> W;
  proj_upd : forall s w, proj (upd s w) = s;
  upd_proj : forall w, upd (proj w) w = w;
  upd_upd : forall s s' w, upd s (upd s' w) = upd s w;
}.

#[export] Instance Has_refl S : Has S S.
Proof. by refine {| proj w := w; upd s _ := s |}. Defined.

Definition lift {S W A} `{Has S W} (m : M S A) : M W A :=
  fun w => match m (proj w) with
           | Ok (a, s') => Ok (a, upd s' w)
           | Panic p => Panic p
           end.

Lemma wp_lift {S W A} `{Has S W} (m : M S A) (Q : A -> W -> Prop) w :
  wp (lift m) Q w <-> wp m (fun a s' => Q a (upd s' w)) (proj w).
Proof. unfold wp, lift. destruct (m (proj w)) as [[a s']|p]; reflexivity. Qed.

Lemma wlp_lift {S W A} `{Has S W} (m : M S A) (Q : A -> W -> Prop) w :
  wlp (lift m) Q w <-> wlp m (fun a s' => Q a (upd s' w)) (proj w).
Proof. unfold wlp, lift. destruct (m (proj w)) as [[a s']|p]; reflexivity. Qed.

Lemma lift_ok {S W A} `{Has S W} (m : M S A) w a s' :
  m (proj w) = Ok (a, s') -> lift m w = Ok (a, upd s' w).
Proof. unfold lift. now intros ->. Qed.

(** Two components of one state that do not overlap. *)
Class Disjoint (S1 S2 W : Type) `{Has S1 W} `{Has S2 W} := {
  proj1_upd2 : forall (s : S2) w, proj (S := S1) (upd s w) = proj w;
  proj2_upd1 : forall (s : S1) w, proj (S := S2) (upd s w) = proj w;
  upd_upd_comm : forall (s1 : S1) (s2 : S2) w, upd s1 (upd s2 w) = upd s2 (upd s1 w);
}.

(** ** Simulations

    Every step of one system, from a state that satisfies an invariant, keeps the
    invariant and is a sequence of steps of another one. *)
Section simulation.
Context {A B : Type} (R1 : relation A) (R2 : relation B) (f : A -> B) (I : A -> Prop).
Hypothesis simulate : forall a a', R1 a a' -> I a -> I a' /\ rtc R2 (f a) (f a').

Lemma rtc_simulate a a' : rtc R1 a a' -> I a -> I a' /\ rtc R2 (f a) (f a').
Proof.
  induction 1 as [a|a a1 a' H1 H2 IH]; intros Ia; [by split|].
  destruct (simulate _ _ H1 Ia) as [I1 S1]. destruct (IH I1) as [I2 S2].
  split; [done | by etransitivity].
Qed.
End simulation.

(** ** Bytes and strings

    A Go [string] is a Rocq [string] (a sequence of bytes); a [[]byte] is a
    list of [ascii].  Bytes are read as integers with [zb] and built with
    [bz], which wraps modulo 256. *)
Abbreviation bytes := (list ascii).

Definition zb (c : ascii) : Z := Z.of_N (N_of_ascii c).
Definition bz (z : Z) : ascii := ascii_of_N (Z.to_N (z mod 256)).
Abbreviation b_of_s := list_ascii_of_string.
Abbreviation s_of_b := string_of_list_ascii.

Lemma zb_range c : (0 <= zb c < 256)%Z.
Proof. unfold zb. pose proof (N_ascii_bounded c). lia. Qed.

Lemma bz_zb c : bz (zb c) = c.
Proof.
  unfold bz. rewrite Z.mod_small by apply zb_range.
  unfold zb. rewrite N2Z.id. apply ascii_N_embedding.
Qed.

Lemma zb_bz z : zb (bz z) = (z mod 256)%Z.
Proof.
  unfold bz, zb. pose proof (Z.mod_pos_bound z 256 eq_refl).
  rewrite N_ascii_embedding by lia. lia.
Qed.

Lemma zb_inj c d : zb c = zb d -> c = d.
Proof. intros H. rewrite <- (bz_zb c), <- (bz_zb d). congruence. Qed.

Lemma b_of_s_of_b l : b_of_s (s_of_b l) = l.
Proof. apply list_ascii_of_string_of_list_ascii. Qed.

Lemma s_of_b_of_s s : s_of_b (b_of_s s) = s.
Proof. apply string_of_list_ascii_of_string. Qed.

Lemma b_of_s_inj s t : b_of_s s = b_of_s t -> s = t.
Proof. intros H. by rewrite <- (s_of_b_of_s s), H, s_of_b_of_s. Qed.

Lemma b_of_s_app s t : b_of_s (s +:+ t) = b_of_s s ++ b_of_s t.
Proof. induction s as [|c s IH]; simpl; [done | by rewrite IH]. Qed.

Lemma s_of_b_app l k : s_of_b (l ++ k) = s_of_b l +:+ s_of_b k.
Proof. induction l as [|c l IH]; simpl; [done | by rewrite IH]. Qed.

(** A property of every byte, checked by evaluation. *)
Definition all_bytes : bytes := map (fun n => ascii_of_nat n) (seq 0 256).

Lemma all_bytes_spec (P : ascii -> bool) :
  forallb P all_bytes = true -> forall c, P c = true.
Proof.
  intros H c. rewrite forallb_forall in H. apply H.
  unfold all_bytes. apply in_map_iff. exists (nat_of_ascii c). split.
  - apply ascii_nat_embedding.
  - apply in_seq. pose proof (nat_ascii_bounded c). lia.
Qed.

(** ** Automation *)
Create HintDb concord.
Create Rewrite HintDb concord.
#[export] Hint Resolve zb_range : concord.
#[export] Hint Rewrite @b_of_s_of_b @s_of_b_of_s @b_of_s_app @zb_bz @bz_zb : concord.

(** One step of symbolic execution of a computation under [wp]. *)
Ltac wp_step :=
  first
    [ rewrite wp_bind | rewrite wp_ret | rewrite wp_gets | rewrite wp_modify
    | rewrite wp_lift ]; cbn beta.
Ltac wp_steps := repeat wp_step.

(** Case analysis on every [match] of the goal, recording the equations. *)
Ltac case_all :=
  repeat (case_match; simplify_eq/=; try done).

(** The range of every byte in the context. *)
Ltac bytes_range :=
  repeat match goal with
  | a : ascii |- _ =>
      lazymatch goal with
      | _ : (0 <= zb a < 256)%Z |- _ => fail
      | _ => pose proof (zb_range a)
      end
  end.
