(* ===== verification/Base64.v ===== *)
(** * Base64: the standard encoding of encoding/base64

    [encode] and [decode] model [base64.StdEncoding.EncodeToString] and
    [DecodeString], which packet/json_packet.go uses for the data section of
    a packet: the padded standard alphabet, carriage returns and line feeds
    ignored on input, trailing bits of the last quantum not checked (the
    encoding is not strict). *)

From Stdlib Require Import ZArith Lia Ascii String.
From stdpp Require Import base list strings.
From S2P Require Import Prelude.
Open Scope Z_scope.

Definition alphabet : bytes :=
  b_of_s "ABCDEFGHIJKLMNOPQRSTUVWXYZabcdefghijklmnopqrstuvwxyz0123456789+/".

Definition enc_char (v : Z) : ascii := nth (Z.to_nat v) alphabet "A"%char.

(** The position of a character in the alphabet (Go's decodeMap). *)
Fixpoint index_of (c : ascii) (l : bytes) (i : Z) : option Z :=
  match l with
  | [] => None
  | d :: r => if Ascii.eqb c d then Some i else index_of c r (i + 1)
  end.

Definition dec_char (c : ascii) : option Z := index_of c alphabet 0.

Fixpoint encode (src : bytes) : bytes :=
  match src with
  | a :: b :: c :: r =>
      let v := zb a * 65536 + zb b * 256 + zb c in
      enc_char (v / 262144) :: enc_char (v / 4096 mod 64)
        :: enc_char (v / 64 mod 64) :: enc_char (v mod 64) :: encode r
  | [a; b] =>
      let v := zb a * 65536 + zb b * 256 in
      [enc_char (v / 262144); enc_char (v / 4096 mod 64);
       enc_char (v / 64 mod 64); "="%char]
  | [a] =>
      let v := zb a * 65536 in
      [enc_char (v / 262144); enc_char (v / 4096 mod 64); "="%char; "="%char]
  | [] => []
  end.

Definition is_newline (c : ascii) : bool :=
  Ascii.eqb c "010"%char || Ascii.eqb c "013"%char.

(** The quanta of an input without line breaks. *)
Fixpoint decode_quanta (s : bytes) : option bytes :=
  match s with
  | [] => Some []
  | c0 :: c1 :: c2 :: c3 :: r =>
      match dec_char c0, dec_char c1 with
      | Some v0, Some v1 =>
          if Ascii.eqb c2 "=" then
            if Ascii.eqb c3 "=" && bool_decide (r = [])
            then Some [bz (v0 * 4 + v1 / 16)] else None
          else
            match dec_char c2 with
            | None => None
            | Some v2 =>
                if Ascii.eqb c3 "=" then
                  if bool_decide (r = [])
                  then Some [bz (v0 * 4 + v1 / 16); bz (v1 mod 16 * 16 + v2 / 4)]
                  else None
                else
                  match dec_char c3, decode_quanta r with
                  | Some v3, Some t =>
                      Some (bz (v0 * 4 + v1 / 16) :: bz (v1 mod 16 * 16 + v2 / 4)
                              :: bz (v2 mod 4 * 64 + v3) :: t)
                  | _, _ => None
                  end
            end
      | _, _ => None
      end
  | _ => None
  end.

Definition decode (s : bytes) : option bytes :=
  decode_quanta (List.filter (fun c => negb (is_newline c)) s).

(** ** Round trip *)

Definition sextets : list Z := map Z.of_nat (seq 0 64).

Lemma in_sextets v : 0 <= v < 64 -> In v sextets.
Proof.
  intros H. apply in_map_iff. exists (Z.to_nat v). split; [lia|].
  apply in_seq. lia.
Qed.

(** Facts about the 64 characters of the alphabet, by evaluation. *)
Lemma enc_char_facts v :
  0 <= v < 64 ->
  dec_char (enc_char v) = Some v /\ Ascii.eqb (enc_char v) "=" = false
  /\ is_newline (enc_char v) = false.
Proof.
  intros H%in_sextets. revert v H.
  cut (Forall (fun v => dec_char (enc_char v) = Some v
        /\ Ascii.eqb (enc_char v) "=" = false
        /\ is_newline (enc_char v) = false) sextets).
  { intros HF v Hv. rewrite List.Forall_forall in HF. auto. }
  cbv. repeat constructor.
Qed.

Lemma dec_enc_char v : 0 <= v < 64 -> dec_char (enc_char v) = Some v.
Proof. apply enc_char_facts. Qed.
Lemma enc_char_not_pad v : 0 <= v < 64 -> Ascii.eqb (enc_char v) "=" = false.
Proof. apply enc_char_facts. Qed.
Lemma enc_char_no_newline v : 0 <= v < 64 -> is_newline (enc_char v) = false.
Proof. apply enc_char_facts. Qed.

(** Induction three bytes at a time. *)
Lemma bytes3_ind (P : bytes -> Prop) :
  P [] -> (forall a, P [a]) -> (forall a b, P [a; b]) ->
  (forall a b c r, P r -> P (a :: b :: c :: r)) -> forall l, P l.
Proof.
  intros H0 H1 H2 H3.
  fix IH 1. intros [|a [|b [|c r]]]; [exact H0 | apply H1 | apply H2 |].
  apply H3, IH.
Qed.

Lemma bz_eq z c : z mod 256 = zb c -> bz z = c.
Proof. intros H. apply zb_inj. by rewrite zb_bz. Qed.

Lemma decode_quanta_encode l : decode_quanta (encode l) = Some l.
Proof.
  induction l as [| a | a b | a b c r IH] using bytes3_ind; [done | ..];
    bytes_range; cbn [encode decode_quanta];
    rewrite !dec_enc_char by lia; rewrite ?enc_char_not_pad by lia;
    cbn [Ascii.eqb Bool.eqb andb]; rewrite ?bool_decide_true by done; cbn.
  - do 2 f_equal. apply bz_eq. lia.
  - f_equal. f_equal; [|f_equal]; apply bz_eq; lia.
  - rewrite IH. f_equal. repeat f_equal; apply bz_eq; lia.
Qed.

Lemma encode_no_newline l :
  List.filter (fun c => negb (is_newline c)) (encode l) = encode l.
Proof.
  induction l as [| a | a b | a b c r IH] using bytes3_ind; [done | ..];
    bytes_range; cbn [encode List.filter];
    rewrite !enc_char_no_newline by lia; cbn; by rewrite ?IH.
Qed.

Lemma decode_encode l : decode (encode l) = Some l.
Proof. unfold decode. rewrite encode_no_newline. apply decode_quanta_encode. Qed.

(** Three bytes become four characters. *)
Lemma length_encode l :
  Z.of_nat (length (encode l)) = (Z.of_nat (length l) + 2) / 3 * 4.
Proof.
  induction l as [| a | a b | a b c r IH] using bytes3_ind; [done.. |].
  cbn [encode length]. lia.
Qed.

(** The alphabet is printable ASCII other than the two characters JSON
    escapes in strings and the three it escapes for HTML. *)
Definition plain_char (c : ascii) : bool :=
  (32 <=? zb c) && (zb c <? 128)
  && negb (Ascii.eqb c "034") && negb (Ascii.eqb c "\")
  && negb (Ascii.eqb c "<") && negb (Ascii.eqb c ">") && negb (Ascii.eqb c "&").

Lemma enc_char_plain v : 0 <= v < 64 -> plain_char (enc_char v) = true.
Proof.
  intros H%in_sextets. revert v H.
  cut (Forall (fun v => plain_char (enc_char v) = true) sextets).
  { intros HF v Hv. rewrite List.Forall_forall in HF. auto. }
  cbv. repeat constructor.
Qed.

Lemma encode_plain l : forallb plain_char (encode l) = true.
Proof.
  induction l as [| a | a b | a b c r IH] using bytes3_ind; [done | ..];
    bytes_range; cbn [encode forallb];
    rewrite !enc_char_plain by lia; by rewrite ?IH.
Qed.
