(* ===== verification/Utf8.v ===== *)
(** * Utf8: the parts of unicode/utf8 and unicode/utf16 that encoding/json uses

    [decode_rune] is [utf8.DecodeRune] (with the [first]/[acceptRanges] tables
    written out as range tests), [encode_rune] is [utf8.EncodeRune].  Masks and
    shifts on bytes are written as remainders and multiplications. *)

From Stdlib Require Import ZArith Lia Ascii String.
From stdpp Require Import base list strings.
From S2P Require Import Prelude.
Open Scope Z_scope.

Definition rune_error : Z := 65533.

Definition in_range (lo hi : Z) (c : ascii) : bool := (lo <=? zb c) && (zb c <=? hi).
Definition cont (c : ascii) : bool := in_range 128 191 c.

(** The rune at the head of [p] and its width; [(rune_error, 1)] when the
    bytes are not a valid encoding, [(rune_error, 0)] on the empty input. *)
Definition decode_rune (p : bytes) : Z * nat :=
  match p with
  | [] => (rune_error, 0%nat)
  | c0 :: r =>
      let p0 := zb c0 in
      if p0 <? 128 then (p0, 1%nat)
      else if p0 <? 194 then (rune_error, 1%nat)
      else if p0 <? 224 then
        match r with
        | c1 :: _ =>
            if cont c1 then (p0 mod 32 * 64 + zb c1 mod 64, 2%nat)
            else (rune_error, 1%nat)
        | _ => (rune_error, 1%nat)
        end
      else if p0 <? 240 then
        match r with
        | c1 :: c2 :: _ =>
            if in_range (if p0 =? 224 then 160 else 128)
                        (if p0 =? 237 then 159 else 191) c1 && cont c2
            then (p0 mod 16 * 4096 + zb c1 mod 64 * 64 + zb c2 mod 64, 3%nat)
            else (rune_error, 1%nat)
        | _ => (rune_error, 1%nat)
        end
      else if p0 <? 245 then
        match r with
        | c1 :: c2 :: c3 :: _ =>
            if in_range (if p0 =? 240 then 144 else 128)
                        (if p0 =? 244 then 143 else 191) c1 && cont c2 && cont c3
            then (p0 mod 8 * 262144 + zb c1 mod 64 * 4096 + zb c2 mod 64 * 64
                  + zb c3 mod 64, 4%nat)
            else (rune_error, 1%nat)
        | _ => (rune_error, 1%nat)
        end
      else (rune_error, 1%nat)
  end.

Definition is_surrogate (r : Z) : bool := (55296 <=? r) && (r <? 57344).

(** The three bytes of U+FFFD, the replacement character. *)
Definition replacement : bytes := ["239"; "191"; "189"]%char.

Definition encode_rune (r : Z) : bytes :=
  if (r <? 0) || (1114111 <? r) || is_surrogate r then replacement
  else if r <=? 127 then [bz r]
  else if r <=? 2047 then [bz (192 + r / 64); bz (128 + r mod 64)]
  else if r <=? 65535 then
    [bz (224 + r / 4096); bz (128 + r / 64 mod 64); bz (128 + r mod 64)]
  else [bz (240 + r / 262144); bz (128 + r / 4096 mod 64);
        bz (128 + r / 64 mod 64); bz (128 + r mod 64)].

(** [utf16.DecodeRune]: the code point of a surrogate pair. *)
Definition utf16_decode (r1 r2 : Z) : Z :=
  if (55296 <=? r1) && (r1 <? 56320) && (56320 <=? r2) && (r2 <? 57344)
  then (r1 - 55296) * 1024 + (r2 - 56320) + 65536
  else rune_error.

(** A byte sequence is invalid at its head when decoding gives the error rune
    with width one. *)
Definition bad_head (s : bytes) : bool :=
  let '(r, n) := decode_rune s in (r =? rune_error) && (n =? 1)%nat.

(** ** Facts *)

Lemma decode_rune_width s : s <> [] -> (1 <= snd (decode_rune s) <= 4)%nat.
Proof.
  intros Hs. unfold decode_rune.
  repeat case_match; try done; simpl; lia.
Qed.

Lemma decode_rune_width_le s : (snd (decode_rune s) <= length s)%nat.
Proof.
  unfold decode_rune. repeat case_match; simpl; lia.
Qed.

Ltac byte_tests :=
  repeat match goal with
  | H : context [in_range _ _ _] |- _ => unfold in_range in H
  | H : context [cont _] |- _ => unfold cont, in_range in H
  | H : (_ && _)%bool = true |- _ => apply andb_prop in H; destruct H
  | H : (_ <=? _) = true |- _ => apply Z.leb_le in H
  | H : (_ <? _) = true |- _ => apply Z.ltb_lt in H
  | H : (_ <? _) = false |- _ => apply Z.ltb_ge in H
  | H : (_ =? _) = true |- _ => apply Z.eqb_eq in H
  | H : (_ =? _) = false |- _ => apply Z.eqb_neq in H
  end.

(** Two bytes. *)
Lemma encode_rune_2 x y :
  194 <= zb x < 224 -> 128 <= zb y <= 191 ->
  encode_rune (zb x mod 32 * 64 + zb y mod 64) = [x; y].
Proof.
  intros Hx Hy. set (r := zb x mod 32 * 64 + zb y mod 64).
  assert (Hr : 128 <= r <= 2047) by (subst r; lia).
  assert (Ex : 192 + r / 64 = zb x) by (subst r; lia).
  assert (Ey : 128 + r mod 64 = zb y) by (subst r; lia).
  unfold encode_rune, is_surrogate. clearbody r.
  rewrite (proj2 (Z.ltb_ge r 0)), (proj2 (Z.ltb_ge 1114111 r)),
    (proj2 (Z.leb_gt 55296 r)), (proj2 (Z.leb_gt r 127)), (proj2 (Z.leb_le r 2047))
    by lia; cbn [orb andb].
  by rewrite Ex, Ey, !bz_zb.
Qed.

(** Three bytes: no surrogate, no overlong form. *)
Lemma encode_rune_3 x y z :
  224 <= zb x < 240 -> 128 <= zb y <= 191 -> 128 <= zb z <= 191 ->
  (zb x = 224 -> 160 <= zb y) -> (zb x = 237 -> zb y <= 159) ->
  encode_rune (zb x mod 16 * 4096 + zb y mod 64 * 64 + zb z mod 64) = [x; y; z].
Proof.
  intros Hx Hy Hz Hlo Hhi.
  set (r := zb x mod 16 * 4096 + zb y mod 64 * 64 + zb z mod 64).
  assert (Hr : 2048 <= r <= 65535) by (subst r; lia).
  assert (Hs : r < 55296 \/ 57344 <= r) by (subst r; lia).
  assert (Ex : 224 + r / 4096 = zb x) by (subst r; lia).
  assert (Ey : 128 + r / 64 mod 64 = zb y) by (subst r; lia).
  assert (Ez : 128 + r mod 64 = zb z) by (subst r; lia).
  unfold encode_rune, is_surrogate. clearbody r.
  rewrite (proj2 (Z.ltb_ge r 0)), (proj2 (Z.ltb_ge 1114111 r)),
    (proj2 (Z.leb_gt r 127)), (proj2 (Z.leb_gt r 2047)), (proj2 (Z.leb_le r 65535))
    by lia; cbn [orb].
  replace ((55296 <=? r) && (r <? 57344)) with false.
  - by rewrite Ex, Ey, Ez, !bz_zb.
  - symmetry. apply andb_false_iff.
    destruct Hs; [left; apply Z.leb_gt | right; apply Z.ltb_ge]; lia.
Qed.

(** Four bytes. *)
Lemma encode_rune_4 x y z w :
  240 <= zb x < 245 -> 128 <= zb y <= 191 -> 128 <= zb z <= 191 ->
  128 <= zb w <= 191 ->
  (zb x = 240 -> 144 <= zb y) -> (zb x = 244 -> zb y <= 143) ->
  encode_rune (zb x mod 8 * 262144 + zb y mod 64 * 4096 + zb z mod 64 * 64
               + zb w mod 64) = [x; y; z; w].
Proof.
  intros Hx Hy Hz Hw Hlo Hhi.
  set (r := zb x mod 8 * 262144 + zb y mod 64 * 4096 + zb z mod 64 * 64 + zb w mod 64).
  assert (Hr : 65536 <= r <= 1114111) by (subst r; lia).
  assert (Ex : 240 + r / 262144 = zb x) by (subst r; lia).
  assert (Ey : 128 + r / 4096 mod 64 = zb y) by (subst r; lia).
  assert (Ez : 128 + r / 64 mod 64 = zb z) by (subst r; lia).
  assert (Ew : 128 + r mod 64 = zb w) by (subst r; lia).
  unfold encode_rune, is_surrogate. clearbody r.
  rewrite (proj2 (Z.ltb_ge r 0)), (proj2 (Z.ltb_ge 1114111 r)),
    (proj2 (Z.ltb_ge r 57344)), (proj2 (Z.leb_gt r 127)), (proj2 (Z.leb_gt r 2047)),
    (proj2 (Z.leb_gt r 65535)) by lia; rewrite andb_false_r; cbn [orb].
  by rewrite Ex, Ey, Ez, Ew, !bz_zb.
Qed.

(** Re-encoding a rune that was decoded from a valid sequence gives back the
    bytes it was decoded from. *)
Lemma encode_decode_rune s :
  s <> [] -> bad_head s = false ->
  encode_rune (fst (decode_rune s)) = take (snd (decode_rune s)) s.
Proof.
  intros Hs. unfold bad_head, decode_rune.
  destruct s as [|c0 r]; [done|]. bytes_range.
  repeat case_match; simplify_eq/=; intros Hb; try done; byte_tests.
  all: try (rewrite encode_rune_2; [done | lia..]).
  all: try (rewrite encode_rune_3; [done | repeat case_match; byte_tests; lia..]).
  all: try (rewrite encode_rune_4; [done | repeat case_match; byte_tests; lia..]).
  unfold encode_rune, is_surrogate.
  rewrite (proj2 (Z.ltb_ge _ 0)), (proj2 (Z.ltb_ge 1114111 _)),
    (proj2 (Z.leb_gt 55296 _)), (proj2 (Z.leb_le _ 127)) by lia; cbn [orb andb].
  by rewrite bz_zb.
Qed.

(** Decoding looks no further than the bytes it consumes. *)
Lemma decode_rune_app s t :
  s <> [] -> bad_head s = false ->
  decode_rune (take (snd (decode_rune s)) s ++ t) = decode_rune s.
Proof.
  intros Hs. unfold bad_head.
  destruct s as [|c0 r]; [done|]. unfold decode_rune at 1 3 4.
  repeat case_match; simplify_eq/=; intros Hb; try done;
    repeat match goal with H : ?b = _ |- context [if ?b then _ else _] => rewrite H end;
    by cbn -[zb].
Qed.
