(* ===== verification/JsonText.v ===== *)
(** * JsonText: JSON string literals as encoding/json writes and reads them

    [quote] is the encoder's [encodeState.string] with HTML escaping on (the
    default of [json.Marshal]); [scan_string] is the scanner's acceptance of a
    string literal; [unquote] is the decoder's [unquoteBytes].  The main lemma,
    [unquote_quote], says what survives a round trip: every byte sequence comes
    back with the bytes that are not valid UTF-8 replaced by U+FFFD, so valid
    UTF-8 comes back unchanged. *)

From Stdlib Require Import ZArith Lia Ascii String.
From stdpp Require Import base list strings.
From S2P Require Import Prelude Base64 Utf8.
Open Scope Z_scope.

(** ** Left-to-right rewriting of a byte sequence

    The three loops over strings consume one or more bytes at a time and emit
    some bytes for them.  [chunked f] is such a loop: [f] looks at the rest of
    the input and says what to emit and how many bytes were consumed. *)
Fixpoint chunked (f : bytes -> bytes * nat) (skip : nat) (s : bytes) : bytes :=
  match s with
  | [] => []
  | _ :: r =>
      match skip with
      | S k => chunked f k r
      | O => let '(e, n) := f s in e ++ chunked f (pred n) r
      end
  end.

Lemma chunked_skip f k s : chunked f k s = chunked f 0 (drop k s).
Proof. revert s; induction k as [|k IH]; intros [|c s]; simpl; auto. Qed.

Lemma chunked_step f s :
  s <> [] -> (1 <= snd (f s))%nat ->
  chunked f 0 s = fst (f s) ++ chunked f 0 (drop (snd (f s)) s).
Proof.
  destruct s as [|c s]; [done|]. intros _ Hn. cbn [chunked].
  destruct (f (c :: s)) as [e n]; simpl in *.
  destruct n as [|n]; [lia|]. simpl. by rewrite chunked_skip.
Qed.

(** ** Encoding *)

Definition dquote : ascii := "034"%char.
Definition backslash : ascii := "\"%char.

Definition hex_digit (v : Z) : ascii :=
  nth (Z.to_nat v) (b_of_s "0123456789abcdef") "0"%char.

Definition html_safe (c : ascii) : bool :=
  (32 <=? zb c) && negb (Ascii.eqb c dquote) && negb (Ascii.eqb c backslash)
  && negb (Ascii.eqb c "<") && negb (Ascii.eqb c ">") && negb (Ascii.eqb c "&").

(** What is written for a byte below 0x80. *)
Definition escape_ascii (c : ascii) : bytes :=
  if html_safe c then [c]
  else if Ascii.eqb c backslash || Ascii.eqb c dquote then [backslash; c]
  else if Ascii.eqb c "010" then [backslash; "n"%char]
  else if Ascii.eqb c "013" then [backslash; "r"%char]
  else if Ascii.eqb c "009" then [backslash; "t"%char]
  else [backslash; "u"; "0"; "0"; hex_digit (zb c / 16); hex_digit (zb c mod 16)]%char.

Definition quote_step (s : bytes) : bytes * nat :=
  match s with
  | [] => ([], 1%nat)
  | c :: _ =>
      if zb c <? 128 then (escape_ascii c, 1%nat)
      else
        let '(r, n) := decode_rune s in
        if (r =? rune_error) && (n =? 1)%nat
        then (backslash :: b_of_s "ufffd", 1%nat)
        else if (r =? 8232) || (r =? 8233)
        then (backslash :: b_of_s "u202" ++ [hex_digit (r mod 16)], n)
        else (take n s, n)
  end.

Definition quote_body (s : bytes) : bytes := chunked quote_step 0 s.

(** The literal, with its quotes. *)
Definition quote (s : string) : bytes :=
  dquote :: quote_body (b_of_s s) ++ [dquote].

(** ** Decoding *)

Definition hex_val (c : ascii) : option Z :=
  let v := zb c in
  if (48 <=? v) && (v <=? 57) then Some (v - 48)
  else if (97 <=? v) && (v <=? 102) then Some (v - 87)
  else if (65 <=? v) && (v <=? 70) then Some (v - 55)
  else None.

Definition hex4 (h1 h2 h3 h4 : ascii) : option Z :=
  match hex_val h1, hex_val h2, hex_val h3, hex_val h4 with
  | Some a, Some b, Some c, Some d => Some (a * 4096 + b * 256 + c * 16 + d)
  | _, _, _, _ => None
  end.

Definition is_escape (e : ascii) : bool :=
  existsb (Ascii.eqb e) (dquote :: backslash :: b_of_s "/bfnrt").

(** The raw text of a string literal up to its closing quote, and the rest of
    the input: [None] when the literal is malformed or unterminated. *)
Fixpoint scan_string (s : bytes) : option (bytes * bytes) :=
  match s with
  | [] => None
  | c :: r =>
      if Ascii.eqb c dquote then Some ([], r)
      else if zb c <? 32 then None
      else if Ascii.eqb c backslash then
        match r with
        | e :: r1 =>
            if Ascii.eqb e "u" then
              match r1 with
              | h1 :: h2 :: h3 :: h4 :: r2 =>
                  match hex4 h1 h2 h3 h4, scan_string r2 with
                  | Some _, Some (raw, rest) =>
                      Some (c :: e :: h1 :: h2 :: h3 :: h4 :: raw, rest)
                  | _, _ => None
                  end
              | _ => None
              end
            else if is_escape e then
              match scan_string r1 with
              | Some (raw, rest) => Some (c :: e :: raw, rest)
              | None => None
              end
            else None
        | [] => None
        end
      else
        match scan_string r with
        | Some (raw, rest) => Some (c :: raw, rest)
        | None => None
        end
  end.

(** [getu4]: the value of a [\uXXXX] escape at the head of the input. *)
Definition getu4 (s : bytes) : option Z :=
  match s with
  | c :: e :: r =>
      if Ascii.eqb c backslash && Ascii.eqb e "u" then
        match r with
        | h1 :: h2 :: h3 :: h4 :: _ => hex4 h1 h2 h3 h4
        | _ => None
        end
      else None
  | _ => None
  end.

Definition simple_escape (e : ascii) : ascii :=
  if Ascii.eqb e "b" then "008"%char
  else if Ascii.eqb e "f" then "012"%char
  else if Ascii.eqb e "n" then "010"%char
  else if Ascii.eqb e "r" then "013"%char
  else if Ascii.eqb e "t" then "009"%char
  else e.

Definition unquote_step (s : bytes) : bytes * nat :=
  match s with
  | [] => ([], 1%nat)
  | c :: r =>
      if Ascii.eqb c backslash then
        match getu4 s with
        | Some rr =>
            if is_surrogate rr then
              let rr1 := default (-1) (getu4 (drop 6 s)) in
              let dec := utf16_decode rr rr1 in
              if dec =? rune_error then (encode_rune rune_error, 6%nat)
              else (encode_rune dec, 12%nat)
            else (encode_rune rr, 6%nat)
        | None =>
            match r with
            | e :: _ => ([simple_escape e], 2%nat)
            | [] => ([], 1%nat)
            end
        end
      else if zb c <? 128 then ([c], 1%nat)
      else let '(rr, n) := decode_rune s in (encode_rune rr, n)
  end.

Definition unquote_body (s : bytes) : bytes := chunked unquote_step 0 s.

(** ** UTF-8 validity *)

Definition sanitize_step (s : bytes) : bytes * nat :=
  if bad_head s then (replacement, 1%nat)
  else let n := snd (decode_rune s) in (take n s, n).

(** The text with every invalid byte replaced by U+FFFD. *)
Definition to_valid_utf8 (s : bytes) : bytes := chunked sanitize_step 0 s.

Definition valid_utf8 (s : bytes) : bool := bool_decide (to_valid_utf8 s = s).

(** Strings that survive JSON. *)
Definition utf8_string (s : string) : Prop := valid_utf8 (b_of_s s) = true.

(** ** Chunk by chunk *)

(** [Transparent q raw]: scanning [q] in front of anything keeps it. *)
Definition scan_keeps (q : bytes) : Prop :=
  forall t, scan_string (q ++ t) =
    match scan_string t with
    | Some (raw, rest) => Some (q ++ raw, rest)
    | None => None
    end.

Lemma scan_keeps_nil : scan_keeps [].
Proof. intros t. simpl. by destruct (scan_string t) as [[? ?]|]. Qed.

Lemma scan_keeps_app p q : scan_keeps p -> scan_keeps q -> scan_keeps (p ++ q).
Proof.
  intros Hp Hq t. rewrite <- app_assoc, Hp, Hq.
  destruct (scan_string t) as [[raw rest]|]; [|done]. by rewrite app_assoc.
Qed.

Lemma scan_keeps_high c : 128 <= zb c -> scan_keeps [c].
Proof.
  intros Hc t. cbn [app scan_string].
  assert (Ascii.eqb c dquote = false) as ->.
  { apply Ascii.eqb_neq. intros ->. by vm_compute in Hc. }
  assert (Ascii.eqb c backslash = false) as ->.
  { apply Ascii.eqb_neq. intros ->. by vm_compute in Hc. }
  rewrite (proj2 (Z.ltb_ge _ _)) by lia. done.
Qed.

Lemma scan_keeps_escape_ascii c : zb c < 128 -> scan_keeps (escape_ascii c).
Proof.
  intros Hc t. destruct c as [[] [] [] [] [] [] [] []]; try (by vm_compute in Hc);
    cbn; by destruct (scan_string t) as [[? ?]|].
Qed.

Lemma scan_keeps_highs q : Forall (fun c => 128 <= zb c) q -> scan_keeps q.
Proof.
  induction 1 as [|c q Hc Hq IH]; [apply scan_keeps_nil|].
  apply (scan_keeps_app [c] q); auto using scan_keeps_high.
Qed.

(** The bytes of a valid multi-byte sequence are all at least 0x80. *)
Lemma decode_rune_high c r :
  128 <= zb c -> bad_head (c :: r) = false ->
  Forall (fun c => 128 <= zb c) (take (snd (decode_rune (c :: r))) (c :: r)).
Proof.
  intros Hc. unfold bad_head, decode_rune.
  repeat case_match; simplify_eq/=; intros Hb; try done; byte_tests;
    try (exfalso; done); repeat constructor; repeat case_match; lia.
Qed.

Lemma quote_step_width s :
  s <> [] -> snd (quote_step s) = snd (decode_rune s).
Proof.
  destruct s as [|c r]; [done|]. intros _. unfold quote_step.
  destruct (zb c <? 128) eqn:E; [simpl; by rewrite E|].
  destruct (decode_rune (c :: r)) as [rr n] eqn:Ed. simpl.
  destruct ((rr =? rune_error) && (n =? 1)%nat) eqn:Eb; simpl.
  - apply andb_prop in Eb as [_ Eb]. apply Nat.eqb_eq in Eb. congruence.
  - by destruct ((rr =? 8232) || (rr =? 8233)).
Qed.

Lemma sanitize_step_width s :
  s <> [] -> snd (sanitize_step s) = snd (decode_rune s).
Proof.
  intros Hs. unfold sanitize_step. destruct (bad_head s) eqn:E; [|done].
  unfold bad_head in E. destruct (decode_rune s) as [rr n].
  apply andb_prop in E as [_ E]. by apply Nat.eqb_eq in E as ->.
Qed.

(** The cases of one step of the encoder. *)
Lemma quote_step_cases (P : bytes -> Prop) s :
  s <> [] ->
  (forall c r, s = c :: r -> zb c < 128 -> P (escape_ascii c)) ->
  (bad_head s = true -> P (backslash :: b_of_s "ufffd")) ->
  (forall d, fst (decode_rune s) = 8232 + d -> d = 0 \/ d = 1 -> bad_head s = false ->
     P (backslash :: b_of_s "u202" ++ [hex_digit (8 + d)])) ->
  (forall c r, s = c :: r -> 128 <= zb c -> bad_head s = false ->
     P (take (snd (decode_rune s)) s)) ->
  P (fst (quote_step s)).
Proof.
  intros Hs Ha Hb Hd Hv. destruct s as [|c r]; [done|].
  unfold quote_step, bad_head in *. destruct (zb c <? 128) eqn:E.
  { apply Z.ltb_lt in E. eapply Ha; eauto. }
  apply Z.ltb_ge in E. destruct (decode_rune (c :: r)) as [rr n]; simpl in *.
  destruct ((rr =? rune_error) && (n =? 1)%nat); [auto|].
  destruct ((rr =? 8232) || (rr =? 8233)) eqn:El; [|eauto].
  apply orb_prop in El as [->%Z.eqb_eq | ->%Z.eqb_eq].
  - apply (Hd 0); auto.
  - apply (Hd 1); auto.
Qed.

Lemma scan_keeps_quote_step s : s <> [] -> scan_keeps (fst (quote_step s)).
Proof.
  intros Hs. apply quote_step_cases; [done | ..].
  - intros c r -> Hc. by apply scan_keeps_escape_ascii.
  - intros _ t. cbn. by destruct (scan_string t) as [[? ?]|].
  - intros d _ [-> | ->] _ t; cbn; by destruct (scan_string t) as [[? ?]|].
  - intros c r -> Hc Hb. by apply scan_keeps_highs, decode_rune_high.
Qed.

Lemma drop_shorter {A} (s : list A) n :
  s <> [] -> (1 <= n)%nat -> (length (drop n s) < length s)%nat.
Proof.
  intros Hs Hn. rewrite length_drop. destruct s; [done|]. simpl. lia.
Qed.

(** Induction on a text, one rune (or one invalid byte) at a time. *)
Lemma rune_ind (P : bytes -> Prop) :
  P [] ->
  (forall s, s <> [] -> P (drop (snd (decode_rune s)) s) -> P s) ->
  forall s, P s.
Proof.
  intros H0 HS s. induction s as [s IH] using (induction_ltof1 _ (@length _)).
  destruct (decide (s = [])) as [->|Hs]; [done|].
  apply HS; [done|]. apply IH, drop_shorter; [done|].
  by apply decode_rune_width.
Qed.

Lemma quote_body_step s :
  s <> [] ->
  quote_body s = fst (quote_step s) ++ quote_body (drop (snd (decode_rune s)) s).
Proof.
  intros Hs. unfold quote_body. rewrite chunked_step; [|done|].
  - by rewrite quote_step_width.
  - rewrite quote_step_width by done. by apply decode_rune_width.
Qed.

Lemma to_valid_utf8_step s :
  s <> [] ->
  to_valid_utf8 s = fst (sanitize_step s) ++ to_valid_utf8 (drop (snd (decode_rune s)) s).
Proof.
  intros Hs. unfold to_valid_utf8. rewrite chunked_step; [|done|].
  - by rewrite sanitize_step_width.
  - rewrite sanitize_step_width by done. by apply decode_rune_width.
Qed.

Lemma scan_quote_body s t :
  scan_string (quote_body s ++ dquote :: t) = Some (quote_body s, t).
Proof.
  assert (H : scan_keeps (quote_body s)).
  { induction s as [|s Hs IH] using rune_ind; [apply scan_keeps_nil|].
    rewrite quote_body_step by done.
    apply scan_keeps_app; auto using scan_keeps_quote_step. }
  rewrite H. cbn. by rewrite app_nil_r.
Qed.

(** [unquotes_to q e]: reading [q] in front of anything gives [e]. *)
Definition unquotes_to (q e : bytes) : Prop :=
  forall t, unquote_body (q ++ t) = e ++ unquote_body t.

Lemma unquotes_to_step q e :
  q <> [] -> (forall t, unquote_step (q ++ t) = (e, length q)) -> unquotes_to q e.
Proof.
  intros Hq H t. unfold unquote_body.
  rewrite chunked_step by (rewrite ?H; destruct q; simpl; done || lia).
  rewrite H. simpl. by rewrite drop_app_length.
Qed.

Lemma unquotes_escape_ascii c : zb c < 128 -> unquotes_to (escape_ascii c) [c].
Proof.
  intros Hc. apply unquotes_to_step.
  - destruct c as [[] [] [] [] [] [] [] []]; by vm_compute.
  - intros t. destruct c as [[] [] [] [] [] [] [] []];
      try (by vm_compute in Hc); reflexivity.
Qed.

Lemma sanitize_ascii c r : zb c < 128 -> fst (sanitize_step (c :: r)) = [c].
Proof.
  intros Hc. unfold sanitize_step, bad_head, decode_rune.
  rewrite (proj2 (Z.ltb_lt _ _) Hc).
  rewrite (proj2 (Z.eqb_neq (zb c) rune_error)) by (unfold rune_error; lia). done.
Qed.

Lemma unquote_step_high s t :
  bad_head s = false ->
  (exists c r, s = c :: r /\ 128 <= zb c) ->
  unquote_step (take (snd (decode_rune s)) s ++ t)
  = (encode_rune (fst (decode_rune s)), snd (decode_rune s)).
Proof.
  intros Hb (c & r & -> & Hc).
  pose proof (decode_rune_app (c :: r) t ltac:(done) Hb) as Ha.
  pose proof (decode_rune_width (c :: r) ltac:(done)) as Hw.
  destruct (snd (decode_rune (c :: r))) as [|n] eqn:En; [lia|].
  cbn [take app] in *. unfold unquote_step.
  assert (Ascii.eqb c backslash = false) as ->.
  { apply Ascii.eqb_neq. intros ->. by vm_compute in Hc. }
  rewrite (proj2 (Z.ltb_ge _ _)) by lia. rewrite Ha.
  destruct (decode_rune (c :: r)); simpl in *. congruence.
Qed.

Lemma decode_rune_lit s d :
  fst (decode_rune s) = 8232 + d -> d = 0 \/ d = 1 -> bad_head s = false ->
  s <> [] -> fst (sanitize_step s) = encode_rune (8232 + d).
Proof.
  intros Hr Hd Hb Hs. unfold sanitize_step. rewrite Hb. simpl.
  by rewrite <- encode_decode_rune, Hr.
Qed.

(** One step of the encoder is undone by the decoder, up to invalid bytes. *)
Lemma unquotes_quote_step s :
  s <> [] -> unquotes_to (fst (quote_step s)) (fst (sanitize_step s)).
Proof.
  intros Hs. apply quote_step_cases; [done | ..].
  - intros c r -> Hc. rewrite sanitize_ascii by done. by apply unquotes_escape_ascii.
  - intros Hb. unfold sanitize_step. rewrite Hb. by apply unquotes_to_step.
  - intros d Hr Hd Hb. rewrite (decode_rune_lit s d) by done.
    destruct Hd as [-> | ->]; by apply unquotes_to_step.
  - intros c r -> Hc Hb. pose proof (decode_rune_width (c :: r) Hs).
    unfold sanitize_step. rewrite Hb. simpl fst. apply unquotes_to_step.
    + intros E%(f_equal length). rewrite length_take in E. simpl in *. lia.
    + intros t. rewrite unquote_step_high by eauto.
      rewrite encode_decode_rune by done. f_equal.
      rewrite length_take. pose proof (decode_rune_width_le (c :: r)). lia.
Qed.

(** ** Round trip of string literals *)

Lemma unquote_quote_body s : unquote_body (quote_body s) = to_valid_utf8 s.
Proof.
  induction s as [|s Hs IH] using rune_ind; [done|].
  rewrite quote_body_step, to_valid_utf8_step by done.
  by rewrite (unquotes_quote_step s Hs), IH.
Qed.

Lemma unquote_quote s :
  utf8_string s -> s_of_b (unquote_body (quote_body (b_of_s s))) = s.
Proof.
  unfold utf8_string, valid_utf8. intros H%bool_decide_eq_true.
  by rewrite unquote_quote_body, H, s_of_b_of_s.
Qed.

(** ** ASCII and base64 texts *)

Lemma decode_rune_ascii c r : zb c < 128 -> decode_rune (c :: r) = (zb c, 1%nat).
Proof. intros H. unfold decode_rune. by rewrite (proj2 (Z.ltb_lt _ _) H). Qed.

Lemma to_valid_utf8_ascii s : Forall (fun c => zb c < 128) s -> to_valid_utf8 s = s.
Proof.
  induction 1 as [|c s Hc Hs IH]; [done|].
  rewrite to_valid_utf8_step by done.
  rewrite sanitize_ascii, decode_rune_ascii by done. simpl. by rewrite drop_0, IH.
Qed.

Lemma utf8_ascii s : Forall (fun c => zb c < 128) (b_of_s s) -> utf8_string s.
Proof.
  intros H. unfold utf8_string, valid_utf8. apply bool_decide_eq_true.
  by apply to_valid_utf8_ascii.
Qed.

Lemma utf8_base64 l : utf8_string (s_of_b (Base64.encode l)).
Proof.
  apply utf8_ascii. rewrite b_of_s_of_b.
  pose proof (Base64.encode_plain l) as H.
  rewrite forallb_forall in H. apply List.Forall_forall. intros c Hc.
  specialize (H c Hc). unfold Base64.plain_char in H.
  repeat (apply andb_prop in H as [H ?]). by apply Z.ltb_lt.
Qed.
