(* ===== verification/Decimal.v ===== *)
(** * Decimal: printing and reading integers in base ten

    [dec] is what [strconv.Itoa], the verb [%d] and [big.Int.MarshalJSON] write;
    [dec_value] is the value of a run of digits. *)

From Stdlib Require Import ZArith Lia Ascii String.
From stdpp Require Import base list strings.
From S2P Require Import Prelude.
Open Scope Z_scope.

Definition is_digit (c : ascii) : bool := (48 <=? zb c) && (zb c <=? 57).
Definition digit (v : Z) : ascii := bz (48 + v).

(** The digits of [z >= 0], most significant first; one unit of fuel a digit. *)
Fixpoint dec_digits (fuel : nat) (z : Z) : bytes :=
  match fuel with
  | O => []
  | S f => if z <? 10 then [digit z] else dec_digits f (z / 10) ++ [digit (z mod 10)]
  end.

(** A number has at most as many decimal digits as bits. *)
Definition dec_fuel (z : Z) : nat := S (Z.to_nat (Z.log2 z)).

Definition dec_nat (z : Z) : bytes := dec_digits (dec_fuel z) z.

Definition dec (z : Z) : bytes :=
  if z <? 0 then "-"%char :: dec_nat (- z) else dec_nat z.

Definition dec_string (z : Z) : string := s_of_b (dec z).

(** The value of a run of digits, continuing from [acc]. *)
Definition dec_value (acc : Z) (l : bytes) : Z :=
  fold_left (fun a c => a * 10 + (zb c - 48)) l acc.

(** ** Facts *)

Lemma zb_digit v : 0 <= v < 10 -> zb (digit v) = 48 + v.
Proof. intros H. unfold digit. rewrite zb_bz. lia. Qed.

Lemma is_digit_digit v : 0 <= v < 10 -> is_digit (digit v) = true.
Proof.
  intros H. unfold is_digit. rewrite zb_digit by done.
  apply andb_true_intro. rewrite !Z.leb_le. lia.
Qed.

Lemma log2_div10 z : 10 <= z -> Z.log2 (z / 10) < Z.log2 z.
Proof.
  intros H. assert (z / 10 <= z / 2) by (apply Z.div_le_compat_l; lia).
  pose proof (Z.log2_le_mono (z / 10) (z / 2) ltac:(lia)) as Hm.
  replace (z / 2) with (Z.shiftr z 1) in Hm by (rewrite Z.shiftr_div_pow2; lia).
  rewrite Z.log2_shiftr in Hm by lia.
  pose proof (Z.log2_pos z ltac:(lia)). lia.
Qed.

(** Any amount of fuel above the number of bits gives the same digits. *)
Lemma dec_digits_fuel f g z :
  0 <= z -> Z.log2 z < Z.of_nat f -> Z.log2 z < Z.of_nat g ->
  dec_digits f z = dec_digits g z.
Proof.
  revert g z. induction f as [|f IH]; intros [|g] z Hz Hf Hg;
    try (pose proof (Z.log2_nonneg z); lia).
  simpl. destruct (z <? 10) eqn:E; [done|]. apply Z.ltb_ge in E.
  pose proof (log2_div10 z E).
  rewrite (IH g (z / 10)); [done | lia..].
Qed.

Lemma dec_nat_small z : 0 <= z < 10 -> dec_nat z = [digit z].
Proof. intros H. unfold dec_nat, dec_fuel. simpl. by rewrite (proj2 (Z.ltb_lt _ _)) by lia. Qed.

Lemma dec_nat_step z : 10 <= z -> dec_nat z = dec_nat (z / 10) ++ [digit (z mod 10)].
Proof.
  intros H. unfold dec_nat at 1, dec_fuel. simpl.
  rewrite (proj2 (Z.ltb_ge _ _)) by lia. f_equal.
  pose proof (log2_div10 z H). pose proof (Z.log2_nonneg (z / 10)).
  apply dec_digits_fuel; unfold dec_fuel; lia.
Qed.

(** Induction on the number of digits. *)
Lemma dec_ind (P : Z -> Prop) :
  (forall z, 0 <= z < 10 -> P z) -> (forall z, 10 <= z -> P (z / 10) -> P z) ->
  forall z, 0 <= z -> P z.
Proof.
  intros H0 HS z Hz. revert Hz.
  induction z as [z IH] using (induction_ltof1 _ Z.to_nat). intros Hz.
  destruct (Z.lt_ge_cases z 10); [auto|].
  apply HS; [done|]. apply IH; unfold ltof; lia.
Qed.

Lemma dec_value_app acc l k : dec_value acc (l ++ k) = dec_value (dec_value acc l) k.
Proof. apply fold_left_app. Qed.

Lemma dec_nat_value z : 0 <= z -> dec_value 0 (dec_nat z) = z.
Proof.
  revert z. apply dec_ind.
  - intros z H. rewrite dec_nat_small by done. unfold dec_value. simpl.
    rewrite zb_digit by done. lia.
  - intros z H IH. rewrite dec_nat_step, dec_value_app, IH by done.
    unfold dec_value. simpl. rewrite zb_digit by lia. lia.
Qed.

Lemma dec_nat_digits z : 0 <= z -> forallb is_digit (dec_nat z) = true.
Proof.
  revert z. apply dec_ind.
  - intros z H. rewrite dec_nat_small by done. simpl. by rewrite is_digit_digit.
  - intros z H IH. rewrite dec_nat_step, forallb_app, IH by done. simpl.
    by rewrite is_digit_digit by lia.
Qed.

(** No leading zero: the first digit of a positive number is not zero. *)
Lemma dec_nat_head z :
  0 < z -> exists c l, dec_nat z = c :: l /\ 49 <= zb c <= 57.
Proof.
  intros Hz. assert (Hz' : 0 <= z) by lia. revert z Hz' Hz. apply (dec_ind (fun z => 0 < z -> _)).
  - intros z H Hp. rewrite dec_nat_small by done. exists (digit z), [].
    rewrite zb_digit by done. split; [done | lia].
  - intros z H IH _. destruct IH as (c & l & E & Hc); [lia|].
    rewrite dec_nat_step, E by done. simpl. eauto.
Qed.

Lemma dec_value_mono acc l : 0 <= acc -> forallb is_digit l = true -> acc <= dec_value acc l.
Proof.
  revert acc. induction l as [|c l IH]; intros acc Ha Hd; [simpl; lia|].
  simpl in Hd. apply andb_prop in Hd as [Hc Hd].
  unfold is_digit in Hc. apply andb_prop in Hc as [Hc1 Hc2].
  apply Z.leb_le in Hc1, Hc2. change (dec_value acc (c :: l))
    with (dec_value (acc * 10 + (zb c - 48)) l).
  specialize (IH (acc * 10 + (zb c - 48)) ltac:(lia) Hd). lia.
Qed.
