(* ===== verification/Json.v ===== *)
(** * Json: JSON documents as encoding/json reads and writes them

    [json] is the abstract syntax of a document, [parse] accepts exactly the
    documents the scanner of [json.Unmarshal] accepts (RFC 8259 grammar, white
    space, nothing after the top-level value).  The [render_*] functions write
    the documents this program marshals. *)

From Stdlib Require Import ZArith Lia Ascii String.
From stdpp Require Import base list strings gmap fin_maps sorting.
From S2P Require Import Prelude Base64 Utf8 JsonText Decimal.
Open Scope Z_scope.

#[warnings="-register-all"]
Inductive json :=
  | JNull
  | JBool (b : bool)
  | JNum (lit : bytes)
  | JStr (s : string)
  | JArr (l : list json)
  | JObj (m : list (string * json)).

(** ** Reading *)

Definition is_ws (c : ascii) : bool :=
  Ascii.eqb c " " || Ascii.eqb c "009" || Ascii.eqb c "010" || Ascii.eqb c "013".

Fixpoint skip_ws (s : bytes) : bytes :=
  match s with
  | c :: r => if is_ws c then skip_ws r else s
  | [] => []
  end.

Fixpoint span_digits (s : bytes) : bytes * bytes :=
  match s with
  | c :: r => if is_digit c then let '(d, t) := span_digits r in (c :: d, t) else ([], s)
  | [] => ([], [])
  end.

(** The integer part: a single zero, or digits that do not start with zero. *)
Definition scan_int (s : bytes) : option (bytes * bytes) :=
  match s with
  | c :: r =>
      if Ascii.eqb c "0" then Some ([c], r)
      else if is_digit c then let '(d, t) := span_digits r in Some (c :: d, t)
      else None
  | [] => None
  end.

Definition scan_frac (s : bytes) : option (bytes * bytes) :=
  match s with
  | c :: r =>
      if Ascii.eqb c "." then
        match span_digits r with
        | ([], _) => None
        | (d, t) => Some (c :: d, t)
        end
      else Some ([], s)
  | [] => Some ([], [])
  end.

Definition scan_exp (s : bytes) : option (bytes * bytes) :=
  match s with
  | c :: r =>
      if Ascii.eqb c "e" || Ascii.eqb c "E" then
        let '(sign, r1) :=
          match r with
          | g :: r1 => if Ascii.eqb g "+" || Ascii.eqb g "-" then ([g], r1) else ([], r)
          | [] => ([], [])
          end in
        match span_digits r1 with
        | ([], _) => None
        | (d, t) => Some (c :: sign ++ d, t)
        end
      else Some ([], s)
  | [] => Some ([], [])
  end.

Definition scan_number (s : bytes) : option (bytes * bytes) :=
  let '(sign, s1) :=
    match s with
    | c :: r => if Ascii.eqb c "-" then ([c], r) else ([], s)
    | [] => ([], [])
    end in
  match scan_int s1 with
  | Some (i, s2) =>
      match scan_frac s2 with
      | Some (f, s3) =>
          match scan_exp s3 with
          | Some (e, s4) => Some (sign ++ i ++ f ++ e, s4)
          | None => None
          end
      | None => None
      end
  | None => None
  end.

Fixpoint strip_prefix (p s : bytes) : option bytes :=
  match p, s with
  | [], _ => Some s
  | a :: p', b :: s' => if Ascii.eqb a b then strip_prefix p' s' else None
  | _ :: _, [] => None
  end.

(** A value, the members of a non-empty object, the elements of a non-empty
    array.  Every call with less fuel has consumed at least one byte. *)
Fixpoint parse_value (n : nat) (s : bytes) {struct n} : option (json * bytes) :=
  match n with
  | O => None
  | S n =>
      match skip_ws s with
      | [] => None
      | c :: r =>
          if Ascii.eqb c "{" then
            match skip_ws r with
            | d :: t =>
                if Ascii.eqb d "}" then Some (JObj [], t)
                else match parse_members n r with
                     | Some (ms, t) => Some (JObj ms, t)
                     | None => None
                     end
            | [] => None
            end
          else if Ascii.eqb c "[" then
            match skip_ws r with
            | d :: t =>
                if Ascii.eqb d "]" then Some (JArr [], t)
                else match parse_elements n r with
                     | Some (vs, t) => Some (JArr vs, t)
                     | None => None
                     end
            | [] => None
            end
          else if Ascii.eqb c dquote then
            match scan_string r with
            | Some (raw, t) => Some (JStr (s_of_b (unquote_body raw)), t)
            | None => None
            end
          else if Ascii.eqb c "t" then
            match strip_prefix (b_of_s "true") (c :: r) with
            | Some t => Some (JBool true, t)
            | None => None
            end
          else if Ascii.eqb c "f" then
            match strip_prefix (b_of_s "false") (c :: r) with
            | Some t => Some (JBool false, t)
            | None => None
            end
          else if Ascii.eqb c "n" then
            match strip_prefix (b_of_s "null") (c :: r) with
            | Some t => Some (JNull, t)
            | None => None
            end
          else
            match scan_number (c :: r) with
            | Some (lit, t) => Some (JNum lit, t)
            | None => None
            end
      end
  end
with parse_members (n : nat) (s : bytes) {struct n}
    : option (list (string * json) * bytes) :=
  match n with
  | O => None
  | S n =>
      match skip_ws s with
      | [] => None
      | c :: r =>
          if Ascii.eqb c dquote then
            match scan_string r with
            | Some (raw, r1) =>
                match skip_ws r1 with
                | [] => None
                | d :: r2 =>
                    if Ascii.eqb d ":" then
                      match parse_value n r2 with
                      | Some (v, r3) =>
                          let kv := (s_of_b (unquote_body raw), v) in
                          match skip_ws r3 with
                          | [] => None
                          | e :: r4 =>
                              if Ascii.eqb e "," then
                                match parse_members n r4 with
                                | Some (ms, t) => Some (kv :: ms, t)
                                | None => None
                                end
                              else if Ascii.eqb e "}" then Some ([kv], r4)
                              else None
                          end
                      | None => None
                      end
                    else None
                end
            | None => None
            end
          else None
      end
  end
with parse_elements (n : nat) (s : bytes) {struct n} : option (list json * bytes) :=
  match n with
  | O => None
  | S n =>
      match parse_value n s with
      | Some (v, r) =>
          match skip_ws r with
          | [] => None
          | e :: r1 =>
              if Ascii.eqb e "," then
                match parse_elements n r1 with
                | Some (vs, t) => Some (v :: vs, t)
                | None => None
                end
              else if Ascii.eqb e "]" then Some ([v], r1)
              else None
          end
      | None => None
      end
  end.

(** A whole document. *)
Definition parse (s : bytes) : option json :=
  match parse_value (S (S (length s))) s with
  | Some (v, r) => match skip_ws r with [] => Some v | _ :: _ => None end
  | None => None
  end.

(** ** Field names

    A field is selected by an exact match of its name or, failing that, by a
    case-insensitive one; for names made of ASCII letters other than k and s
    the comparison masks bit 5 of every byte ([simpleLetterEqualFold]). *)
Definition fold_eq (name key : string) : bool :=
  let l := b_of_s name in let k := b_of_s key in
  Nat.eqb (length l) (length k)
  && forallb (fun '(a, b) => Z.land (zb a) 223 =? Z.land (zb b) 223) (combine l k).

Definition field_match (name key : string) : bool := String.eqb name key || fold_eq name key.

(** ** Writing *)

(** The members of an object whose values are strings. *)
Fixpoint render_members (l : list (string * string)) : bytes :=
  match l with
  | [] => []
  | [(k, v)] => quote k ++ ":"%char :: quote v
  | (k, v) :: r => quote k ++ ":"%char :: quote v ++ ","%char :: render_members r
  end.

Definition render_strings (l : list (string * string)) : bytes :=
  "{"%char :: render_members l ++ ["}"%char].

(** Map keys are written in increasing byte order. *)
Definition key_le (a b : string * string) : Prop := String.leb a.1 b.1 = true.
#[export] Instance key_le_dec a b : Decision (key_le a b).
Proof. unfold key_le. apply _. Defined.

Definition sorted_entries (m : gmap string string) : list (string * string) :=
  merge_sort key_le (map_to_list m).

Definition render_map (m : gmap string string) : bytes := render_strings (sorted_entries m).

(** An optional map (nil is [null]). *)
Definition render_omap (o : option (gmap string string)) : bytes :=
  match o with
  | Some m => render_map m
  | None => b_of_s "null"
  end.

(** An optional integer (a nil [*big.Int] is [null]). *)
Definition render_oint (o : option Z) : bytes :=
  match o with
  | Some z => dec z
  | None => b_of_s "null"
  end.

(** ** Fuel

    A parse that succeeds with some fuel succeeds, with the same result, with
    any fuel at least the number of bytes it consumes: the bound [parse] uses
    is enough for every document. *)

Lemma skip_ws_le s : (length (skip_ws s) <= length s)%nat.
Proof. induction s as [|c s IH]; simpl; [lia|]. destruct (is_ws c); simpl; lia. Qed.

Lemma skip_ws_cons s c r : skip_ws s = c :: r -> (length r < length s)%nat.
Proof. intros H. pose proof (skip_ws_le s) as L. rewrite H in L. simpl in L. lia. Qed.

Lemma scan_string_len s raw rest :
  scan_string s = Some (raw, rest) -> (length rest < length s)%nat.
Proof.
  revert raw rest. induction s as [s IH] using (induction_ltof1 _ (@length _)).
  intros raw rest. destruct s as [|c r]; [done|]. cbn [scan_string].
  repeat case_match; intros E; simplify_eq/=; try lia;
    match goal with H : scan_string ?t = Some _ |- _ =>
      apply IH in H; [simpl; lia | unfold ltof; simpl; lia] end.
Qed.

Lemma span_digits_len s d t : span_digits s = (d, t) -> (length t <= length s)%nat.
Proof.
  revert d t. induction s as [|c s IH]; simpl; intros d t E; [by simplify_eq|].
  destruct (is_digit c); [|by simplify_eq].
  destruct (span_digits s) as [d' t'] eqn:Es. simplify_eq.
  specialize (IH _ _ eq_refl). lia.
Qed.

Lemma scan_int_len s d t : scan_int s = Some (d, t) -> (length t < length s)%nat.
Proof.
  unfold scan_int. destruct s as [|c s]; [done|]. repeat case_match; intros E; simplify_eq/=.
  - lia.
  - match goal with H : span_digits _ = _ |- _ => apply span_digits_len in H end. lia.
Qed.

Lemma scan_frac_len s d t : scan_frac s = Some (d, t) -> (length t <= length s)%nat.
Proof.
  unfold scan_frac. repeat case_match; intros E; simplify_eq/=; try lia.
  match goal with H : span_digits _ = _ |- _ => apply span_digits_len in H end. lia.
Qed.

Lemma scan_exp_len s d t : scan_exp s = Some (d, t) -> (length t <= length s)%nat.
Proof.
  unfold scan_exp. repeat case_match; intros E; simplify_eq; try (simpl; lia);
    match goal with H : span_digits _ = _ |- _ => apply span_digits_len in H end;
    simpl in *; lia.
Qed.

Lemma scan_number_len s d t : scan_number s = Some (d, t) -> (length t < length s)%nat.
Proof.
  unfold scan_number. repeat case_match; intros E; simplify_eq;
    repeat match goal with
    | H : scan_int _ = Some _ |- _ => apply scan_int_len in H
    | H : scan_frac _ = Some _ |- _ => apply scan_frac_len in H
    | H : scan_exp _ = Some _ |- _ => apply scan_exp_len in H
    end; simpl in *; lia.
Qed.

Lemma strip_prefix_len p s t :
  strip_prefix p s = Some t -> (length t + length p = length s)%nat.
Proof.
  revert s. induction p as [|a p IH]; intros [|b s] E; simplify_eq/=; try lia.
  destruct (Ascii.eqb a b); [|done]. apply IH in E. lia.
Qed.

(** The fuel lemma for one of the three functions [p]: consumption and
    independence of the fuel. *)
Definition fuel_ok {A} (p : nat -> bytes -> option (A * bytes)) (n : nat) : Prop :=
  forall s v r, p n s = Some (v, r) ->
    (length r < length s)%nat /\
    forall m, (length s - length r <= m)%nat -> p m s = Some (v, r).

Ltac use_fuel :=
  repeat match goal with
  | H : skip_ws _ = _ :: _ |- _ => pose proof (skip_ws_cons _ _ _ H); revert H
  | H : scan_string _ = Some _ |- _ => pose proof (scan_string_len _ _ _ H); revert H
  | H : scan_number _ = Some _ |- _ => let L := fresh "L" in pose proof (scan_number_len _ _ _ H) as L; simpl in L; revert H
  | H : strip_prefix _ _ = Some _ |- _ => let L := fresh "L" in pose proof (strip_prefix_len _ _ _ H) as L; simpl in L; revert H
  | IH : fuel_ok ?p ?n, H : ?p ?n _ = Some _ |- _ =>
      let L := fresh "L" in let F := fresh "F" in
      destruct (IH _ _ _ H) as [L F]; clear H
  end; intros.

Ltac rerun :=
  repeat match goal with
  | H : ?x = Some _ |- context [?x] => rewrite H
  | H : ?x = true |- context [?x] => rewrite H
  | H : ?x = false |- context [?x] => rewrite H
  | H : skip_ws ?x = _ |- context [skip_ws ?x] => rewrite H
  | F : forall m, _ -> ?p m ?s = _ |- context [?p _ ?s] => rewrite F by (simpl in *; lia)
  end.

Lemma parse_value_fuel_step n :
  fuel_ok parse_members n -> fuel_ok parse_elements n -> fuel_ok parse_value (S n).
Proof.
  intros IHm IHe s v r. cbn [parse_value].
  repeat case_match; intros E; simplify_eq; use_fuel;
    (split; [simpl in *; lia|]);
    intros [|m] Hm; simpl in Hm; try lia; cbn [parse_value]; rerun; done.
Qed.

Lemma parse_members_fuel_step n :
  fuel_ok parse_value n -> fuel_ok parse_members n -> fuel_ok parse_members (S n).
Proof.
  intros IHv IHm s v r. cbn [parse_members].
  repeat case_match; intros E; simplify_eq; use_fuel;
    (split; [simpl in *; lia|]);
    intros [|m] Hm; simpl in Hm; try lia; cbn [parse_members]; rerun; done.
Qed.

Lemma parse_elements_fuel_step n :
  fuel_ok parse_value n -> fuel_ok parse_elements n -> fuel_ok parse_elements (S n).
Proof.
  intros IHv IHe s v r. cbn [parse_elements].
  repeat case_match; intros E; simplify_eq; use_fuel;
    (split; [simpl in *; lia|]);
    intros [|m] Hm; simpl in Hm; try lia; cbn [parse_elements]; rerun; done.
Qed.

Lemma parse_fuel n :
  fuel_ok parse_value n /\ fuel_ok parse_members n /\ fuel_ok parse_elements n.
Proof.
  induction n as [|n (IHv & IHm & IHe)]; [by repeat split|].
  split; [|split]; eauto using parse_value_fuel_step, parse_members_fuel_step, parse_elements_fuel_step.
Qed.

(** A document accepted with some fuel is accepted by [parse]. *)
Lemma parse_enough n s v : parse_value n s = Some (v, []) -> parse s = Some v.
Proof.
  intros H. destruct (parse_fuel n) as [Hv _]. destruct (Hv _ _ _ H) as [_ F].
  unfold parse. rewrite F by (simpl; lia). done.
Qed.

(** ** Reading back what was written *)

Lemma skip_ws_not c r : is_ws c = false -> skip_ws (c :: r) = c :: r.
Proof. intros H. simpl. by rewrite H. Qed.

Lemma quote_app s t : quote s ++ t = dquote :: quote_body (b_of_s s) ++ dquote :: t.
Proof. unfold quote. simpl. by rewrite <- app_assoc. Qed.

Lemma parse_quote n s t :
  utf8_string s -> parse_value (S n) (quote s ++ t) = Some (JStr s, t).
Proof.
  intros Hs. rewrite quote_app. cbn -[quote_body unquote_body scan_string].
  rewrite scan_quote_body. by rewrite unquote_quote.
Qed.

Definition utf8_entry (kv : string * string) : Prop :=
  utf8_string kv.1 /\ utf8_string kv.2.

(** One member, whose value is written as [vb], and the separator after it. *)
Lemma parse_member n k vb v sep t :
  utf8_string k -> is_ws sep = false ->
  parse_value n (vb ++ sep :: t) = Some (v, sep :: t) ->
  parse_members (S n) (quote k ++ ":"%char :: vb ++ sep :: t) =
    (if Ascii.eqb sep "," then
       match parse_members n t with
       | Some (ms, u) => Some ((k, v) :: ms, u)
       | None => None
       end
     else if Ascii.eqb sep "}" then Some ([(k, v)], t) else None).
Proof.
  intros Hk Hsep Hv. cbn [parse_members].
  rewrite quote_app, skip_ws_not by done. cbn [Ascii.eqb dquote Bool.eqb].
  rewrite scan_quote_body. rewrite skip_ws_not by done. cbn [Ascii.eqb Bool.eqb].
  rewrite Hv, skip_ws_not by done. by rewrite unquote_quote.
Qed.

(** A non-empty object. *)
Lemma parse_object n k t :
  parse_value (S n) ("{"%char :: quote k ++ t) =
    match parse_members n (quote k ++ t) with
    | Some (ms, u) => Some (JObj ms, u)
    | None => None
    end.
Proof.
  cbn [parse_value]. rewrite skip_ws_not by done. cbn [Ascii.eqb Bool.eqb].
  rewrite quote_app. by rewrite skip_ws_not.
Qed.

Lemma parse_render_members l n t :
  Forall utf8_entry l -> l <> [] -> (length l < n)%nat ->
  parse_members n (render_members l ++ "}"%char :: t)
  = Some (map (fun kv => (kv.1, JStr kv.2)) l, t).
Proof.
  revert n. induction l as [|[k v] l IH]; intros n Hl Hne Hn; [done|].
  inversion Hl as [|? ? [Hk Hv] Hl']; subst. simpl in Hk, Hv.
  destruct n as [|[|n]]; simpl in Hn; [lia..|].
  destruct l as [|kv l].
  - cbn [render_members]. rewrite <- app_assoc, <- app_comm_cons.
    by rewrite (parse_member _ _ _ (JStr v)) by (done || by apply parse_quote).
  - cbn [render_members]. destruct kv as [k' v'].
    rewrite <- app_assoc, <- app_comm_cons, <- app_assoc, <- app_comm_cons.
    rewrite (parse_member _ _ _ (JStr v)) by (done || by apply parse_quote).
    cbn [Ascii.eqb Bool.eqb].
    by rewrite IH by (done || simpl in *; lia).
Qed.

Lemma render_members_head k v l :
  exists r, render_members ((k, v) :: l) = dquote :: r.
Proof. destruct l; simpl; eauto. Qed.

Lemma parse_render_strings l n t :
  Forall utf8_entry l -> (S (length l) < n)%nat ->
  parse_value n (render_strings l ++ t)
  = Some (JObj (map (fun kv => (kv.1, JStr kv.2)) l), t).
Proof.
  intros Hl Hn. destruct n as [|n]; [lia|].
  unfold render_strings. rewrite <- app_comm_cons, <- app_assoc.
  cbn [parse_value]. rewrite skip_ws_not by done. cbn [Ascii.eqb Bool.eqb app].
  destruct l as [|[k v] l]; [done|].
  rewrite (parse_render_members ((k, v) :: l) n t) by (done || lia).
  destruct (render_members_head k v l) as [r ->].
  cbn [app]. by rewrite skip_ws_not.
Qed.

(** ** Maps *)

Lemma sorted_entries_perm m : Permutation (sorted_entries m) (map_to_list m).
Proof. apply merge_sort_Permutation. Qed.

Lemma list_to_map_sorted_entries (m : gmap string string) :
  list_to_map (sorted_entries m) = m.
Proof.
  rewrite <- (list_to_map_to_list m) at 2. apply list_to_map_proper.
  - rewrite sorted_entries_perm. apply NoDup_fst_map_to_list.
  - apply sorted_entries_perm.
Qed.

(** Metadata whose keys and values are valid UTF-8. *)
Definition utf8_map (m : gmap string string) : Prop :=
  map_Forall (fun k v => utf8_string k /\ utf8_string v) m.

Lemma utf8_sorted_entries m : utf8_map m -> Forall utf8_entry (sorted_entries m).
Proof.
  intros H. rewrite sorted_entries_perm. apply list.Forall_forall.
  intros [k v] Hkv. apply elem_of_map_to_list in Hkv. apply (H k v Hkv).
Qed.

Lemma parse_render_map m n t :
  utf8_map m -> (S (size m) < n)%nat ->
  parse_value n (render_map m ++ t)
  = Some (JObj (map (fun kv => (kv.1, JStr kv.2)) (sorted_entries m)), t).
Proof.
  intros Hm Hn. apply parse_render_strings; [by apply utf8_sorted_entries|].
  rewrite (Permutation_length (sorted_entries_perm m)). rewrite length_map_to_list. done.
Qed.

(** ** Integers *)

Lemma span_digits_all d c t :
  forallb is_digit d = true -> is_digit c = false ->
  span_digits (d ++ c :: t) = (d, c :: t).
Proof.
  intros Hd Hc. induction d as [|a d IH]; simpl in *; [by rewrite Hc|].
  apply andb_prop in Hd as [Ha Hd]. by rewrite Ha, IH.
Qed.

(** A byte that ends a number. *)
Definition ends_number (c : ascii) : bool :=
  negb (is_digit c) && negb (Ascii.eqb c ".") && negb (Ascii.eqb c "e")
  && negb (Ascii.eqb c "E").

Lemma eqb_of_zb c d : zb c <> zb d -> Ascii.eqb c d = false.
Proof. intros H. apply Ascii.eqb_neq. by intros ->. Qed.

Lemma scan_int_dec z c t :
  0 <= z -> is_digit c = false -> scan_int (dec_nat z ++ c :: t) = Some (dec_nat z, c :: t).
Proof.
  intros Hz Hc. pose proof (dec_nat_digits z Hz) as Hd.
  destruct (Z.eq_dec z 0) as [-> | Hnz]; [done|].
  destruct (dec_nat_head z ltac:(lia)) as (a & l & E & Ha). rewrite E in *.
  cbn [app scan_int]. simpl in Hd. apply andb_prop in Hd as [Hd1 Hd].
  rewrite eqb_of_zb by (change (zb "0") with 48; lia).
  rewrite Hd1. by rewrite span_digits_all.
Qed.

Lemma scan_number_dec z c t :
  ends_number c = true -> scan_number (dec z ++ c :: t) = Some (dec z, c :: t).
Proof.
  unfold ends_number. rewrite !andb_true_iff, !negb_true_iff.
  intros [[[Hd Hp] He] HE].
  assert (Hf : scan_frac (c :: t) = Some ([], c :: t)) by (cbn; by rewrite Hp).
  assert (Hx : scan_exp (c :: t) = Some ([], c :: t)) by (cbn; by rewrite He, HE).
  unfold dec. destruct (z <? 0) eqn:Ez.
  - apply Z.ltb_lt in Ez. cbn [app scan_number Ascii.eqb Bool.eqb].
    rewrite scan_int_dec, Hf, Hx by (done || lia). by rewrite !app_nil_r.
  - apply Z.ltb_ge in Ez. unfold scan_number.
    assert (exists a l, dec_nat z = a :: l /\ Ascii.eqb a "-" = false) as (a & l & E & Ha).
    { destruct (Z.eq_dec z 0) as [-> | Hnz]; [by eexists _, _|].
      destruct (dec_nat_head z ltac:(lia)) as (a & l & E & Hr). exists a, l.
      split; [done|]. apply eqb_of_zb. change (zb "-") with 45. lia. }
    rewrite E. cbn [app]. rewrite Ha. rewrite app_comm_cons, <- E.
    rewrite scan_int_dec, Hf, Hx by done. by rewrite !app_nil_r.
Qed.

(** [big.Int.UnmarshalJSON] on a JSON number: an integer literal. *)
Definition int_of_lit (lit : bytes) : option Z :=
  match lit with
  | c :: r =>
      if Ascii.eqb c "-"
      then if forallb is_digit r && negb (bool_decide (r = [])) then Some (- dec_value 0 r) else None
      else if forallb is_digit lit then Some (dec_value 0 lit) else None
  | [] => None
  end.

Lemma int_of_dec z : int_of_lit (dec z) = Some z.
Proof.
  unfold dec. destruct (z <? 0) eqn:Ez.
  - apply Z.ltb_lt in Ez. simpl. rewrite dec_nat_digits by lia.
    destruct (dec_nat_head (- z) ltac:(lia)) as (a & l & E & _).
    rewrite bool_decide_false by (by rewrite E). simpl.
    rewrite dec_nat_value by lia. f_equal. lia.
  - apply Z.ltb_ge in Ez. pose proof (dec_nat_digits z Ez) as Hd.
    assert (exists a l, dec_nat z = a :: l) as (a & l & E).
    { destruct (Z.eq_dec z 0) as [-> | Hnz]; [by eexists _, _|].
      destruct (dec_nat_head z ltac:(lia)) as (a & l & E & _). eauto. }
    pose proof (dec_nat_value z Ez) as Hv. rewrite E in *. cbn [int_of_lit].
    simpl in Hd. apply andb_prop in Hd as [Ha Hl].
    rewrite eqb_of_zb.
    + simpl. by rewrite Ha, Hl, <- Hv.
    + unfold is_digit in Ha. apply andb_prop in Ha as [Ha _]. apply Z.leb_le in Ha.
      change (zb "-") with 45. lia.
Qed.

Lemma dec_head_not z :
  exists a l, dec z = a :: l /\ 45 <= zb a <= 57.
Proof.
  unfold dec. destruct (z <? 0) eqn:Ez.
  - eexists _, _. split; [done|]. vm_compute. split; discriminate.
  - apply Z.ltb_ge in Ez. destruct (Z.eq_dec z 0) as [-> | Hnz].
    + eexists _, _. split; [done|]. vm_compute. split; discriminate.
    + destruct (dec_nat_head z ltac:(lia)) as (a & l & E & Ha). exists a, l. split; [done|lia].
Qed.

Lemma parse_dec n z c t :
  ends_number c = true ->
  parse_value (S n) (dec z ++ c :: t) = Some (JNum (dec z), c :: t).
Proof.
  intros Hc. cbn [parse_value]. pose proof (scan_number_dec z c t Hc) as Hs.
  destruct (dec_head_not z) as (a & l & E & Ha). rewrite E in *. cbn [app] in *.
  assert (Hne : forall d, zb d < 45 \/ 57 < zb d -> Ascii.eqb a d = false).
  { intros d Hd. apply eqb_of_zb. lia. }
  rewrite skip_ws_not.
  - rewrite !Hne by (vm_compute; (left; reflexivity) || (right; reflexivity)).
    by rewrite Hs.
  - unfold is_ws. by rewrite !Hne by (vm_compute; (left; reflexivity) || (right; reflexivity)).
Qed.
