(* ===== verification/JsonNul.v ===== *)
(** * JsonNul: no JSON document contains a NUL byte

    Every function of the parser consumes only bytes other than NUL, so a NUL
    in the text is still there when the parser stops, and the text is not a
    document. *)

From Stdlib Require Import ZArith Lia Ascii String.
From stdpp Require Import base list strings.
From S2P Require Import Prelude Base64 Utf8 JsonText Decimal Json.
Open Scope Z_scope.

Definition is_nul (c : ascii) : bool := Ascii.eqb c "000".

(** A NUL of [s] is one of [r]. *)
Definition passes (s r : bytes) : Prop := existsb is_nul s = true -> existsb is_nul r = true.

Lemma passes_refl s : passes s s.
Proof. unfold passes. auto. Qed.
#[local] Hint Resolve passes_refl : core.

Lemma passes_cons c s r : is_nul c = false -> passes s r -> passes (c :: s) r.
Proof. unfold passes. simpl. intros ->. done. Qed.

Lemma passes_trans s t r : passes s t -> passes t r -> passes s r.
Proof. unfold passes. auto. Qed.

Lemma eqb_not_nul c d : Ascii.eqb c d = true -> is_nul d = false -> is_nul c = false.
Proof. by intros ->%Ascii.eqb_eq. Qed.

Lemma ws_not_nul c : is_ws c = true -> is_nul c = false.
Proof.
  unfold is_nul. intros H. apply Ascii.eqb_neq. intros ->. vm_compute in H. done.
Qed.

Lemma digit_not_nul c : is_digit c = true -> is_nul c = false.
Proof.
  unfold is_nul. intros H. apply Ascii.eqb_neq. intros ->. vm_compute in H. done.
Qed.

Lemma skip_ws_passes s : passes s (skip_ws s).
Proof.
  induction s as [|c s IH]; simpl; [done|].
  destruct (is_ws c) eqn:Ew; [|done]. eauto using passes_cons, ws_not_nul.
Qed.

Lemma span_digits_passes s d t : span_digits s = (d, t) -> passes s t.
Proof.
  revert d t. induction s as [|c s IH]; simpl; intros d t E; [by simplify_eq|].
  destruct (is_digit c) eqn:Ed; [|by simplify_eq].
  destruct (span_digits s) as [d' t'] eqn:Es. simplify_eq. eauto using passes_cons, digit_not_nul.
Qed.

(** The byte at the head of the text was compared with a literal, or is a
    digit. *)
Ltac head_not_nul :=
  repeat match goal with
  | H : (_ || _)%bool = true |- _ => apply orb_prop in H as [H|H]
  end;
  match goal with
  | H : Ascii.eqb ?c _ = true |- is_nul ?c = false => by apply (eqb_not_nul _ _ H)
  | H : is_digit ?c = true |- is_nul ?c = false => by apply digit_not_nul
  end.

Ltac passes_step :=
  first
    [ apply passes_refl
    | apply passes_cons; [by head_not_nul|]
    | match goal with
      | H : span_digits ?s = (_, ?t) |- passes ?s ?t => by apply (span_digits_passes _ _ _ H)
      end ].

Lemma scan_int_passes s d t : scan_int s = Some (d, t) -> passes s t.
Proof.
  unfold scan_int. repeat case_match; intros E; simplify_eq; repeat passes_step.
Qed.

Lemma scan_frac_passes s d t : scan_frac s = Some (d, t) -> passes s t.
Proof.
  unfold scan_frac. repeat case_match; intros E; simplify_eq; repeat passes_step.
Qed.

Lemma scan_exp_passes s d t : scan_exp s = Some (d, t) -> passes s t.
Proof.
  unfold scan_exp. repeat case_match; intros E; simplify_eq; repeat passes_step.
Qed.

Lemma scan_number_passes s d t : scan_number s = Some (d, t) -> passes s t.
Proof.
  unfold scan_number. repeat case_match; intros E; simplify_eq; repeat passes_step;
    repeat match goal with
    | H : scan_int _ = Some _ |- _ => apply scan_int_passes in H
    | H : scan_frac _ = Some _ |- _ => apply scan_frac_passes in H
    | H : scan_exp _ = Some _ |- _ => apply scan_exp_passes in H
    end; unfold passes in *; auto.
Qed.

Lemma strip_prefix_passes p s t :
  forallb (fun c => negb (is_nul c)) p = true -> strip_prefix p s = Some t -> passes s t.
Proof.
  revert s. induction p as [|a p IH]; intros [|b s] Hp E; simplify_eq/=; try done.
  apply andb_prop in Hp as [Ha Hp]. destruct (Ascii.eqb a b) eqn:Eab; [|done].
  apply Ascii.eqb_eq in Eab as <-. apply passes_cons; [by destruct (is_nul a) | by apply IH].
Qed.

Lemma hex_not_nul h1 h2 h3 h4 v :
  hex4 h1 h2 h3 h4 = Some v ->
  is_nul h1 = false /\ is_nul h2 = false /\ is_nul h3 = false /\ is_nul h4 = false.
Proof.
  unfold is_nul. intros H. split_and!; apply Ascii.eqb_neq; intros ->; revert H; unfold hex4;
    repeat case_match; simplify_eq; intros; discriminate.
Qed.

Lemma scan_string_passes s raw rest : scan_string s = Some (raw, rest) -> passes s rest.
Proof.
  revert raw rest. induction s as [s IH] using (induction_ltof1 _ (@length _)).
  intros raw rest. destruct s as [|c r]; [done|]. cbn [scan_string].
  assert (Hc : (zb c <? 32) = false -> is_nul c = false).
  { intros H. unfold is_nul. apply Ascii.eqb_neq. intros ->. vm_compute in H. done. }
  repeat case_match; intros E; simplify_eq; try passes_step; try done.
  all: match goal with H : scan_string ?t = Some _ |- _ =>
    apply IH in H; [|unfold ltof; simpl; lia] end.
  - match goal with H : hex4 _ _ _ _ = Some _ |- _ => apply hex_not_nul in H as (? & ? & ? & ?) end.
    repeat (apply passes_cons; [done || by head_not_nul|]). done.
  - apply passes_cons; [|done]. unfold is_nul. apply Ascii.eqb_neq. intros ->. done.
  - auto using passes_cons.
Qed.

(** ** The parser *)

Definition nul_ok {A} (p : nat -> bytes -> option (A * bytes)) (n : nat) : Prop :=
  forall s v r, p n s = Some (v, r) -> passes s r.

Lemma skip_ws_cons_passes s c r t : skip_ws s = c :: r -> passes (c :: r) t -> passes s t.
Proof. intros H. eapply passes_trans. rewrite <- H. apply skip_ws_passes. Qed.

(** One consumed piece of the text. *)
Ltac use_nul :=
  match goal with
  | |- passes ?s ?s => apply passes_refl
  | H : scan_string ?s = Some (_, _) |- passes ?s _ =>
      eapply passes_trans; [apply (scan_string_passes _ _ _ H)|]
  | H : scan_number ?s = Some (_, _) |- passes ?s _ => by apply (scan_number_passes _ _ _ H)
  | H : strip_prefix _ ?s = Some _ |- passes ?s _ => by refine (strip_prefix_passes _ _ _ _ H)
  | IH : nul_ok ?p ?n, H : ?p ?n ?s = Some _ |- passes ?s _ =>
      eapply passes_trans; [apply (IH _ _ _ H)|]
  | H : skip_ws ?s = _ :: _ |- passes ?s _ => apply (skip_ws_cons_passes _ _ _ _ H)
  | |- passes (_ :: _) _ => apply passes_cons; [by head_not_nul|]
  end.

Lemma parse_nul n : nul_ok parse_value n /\ nul_ok parse_members n /\ nul_ok parse_elements n.
Proof.
  induction n as [|n (IHv & IHm & IHe)]; [by repeat split|].
  split_and!; intros s v r; cbn [parse_value parse_members parse_elements];
    repeat case_match; intros E; simplify_eq; repeat use_nul.
Qed.

(** A text with a NUL byte is not a document. *)
Lemma nul_not_parsed s : existsb is_nul s = true -> parse s = None.
Proof.
  intros Hs. unfold parse. destruct (parse_value _ s) as [[v r]|] eqn:Ep; [|done].
  destruct (parse_nul (S (S (length s)))) as [Hv _]. apply Hv in Ep.
  pose proof (skip_ws_passes r (Ep Hs)) as Hr. by destruct (skip_ws r).
Qed.

(** ** The encoder

    What is written has no NUL byte either. *)

Definition nul_free (s : bytes) : Prop := existsb is_nul s = false.

Lemma nul_free_app s t : nul_free s -> nul_free t -> nul_free (s ++ t).
Proof. unfold nul_free. intros Hs Ht. by rewrite existsb_app, Hs, Ht. Qed.

Lemma nul_free_cons c s : is_nul c = false -> nul_free s -> nul_free (c :: s).
Proof. unfold nul_free. simpl. by intros ->. Qed.

Lemma quote_nul_free s : nul_free (quote s).
Proof.
  apply nul_free_cons; [done|]. unfold nul_free.
  destruct (existsb is_nul (quote_body (b_of_s s) ++ [dquote])) eqn:E; [|done].
  by apply (scan_string_passes _ _ _ (scan_quote_body (b_of_s s) [])) in E.
Qed.

Lemma member_nul_free k v s : nul_free s -> nul_free (quote k ++ ":"%char :: quote v ++ s).
Proof.
  intros Hs. apply nul_free_app; [apply quote_nul_free|]. apply nul_free_cons; [done|].
  by apply nul_free_app; [apply quote_nul_free|].
Qed.

Lemma render_members_nul_free l : nul_free (render_members l).
Proof.
  induction l as [|[k v] [|kv l] IH]; [done | |].
  - simpl. rewrite <- (app_nil_r (quote v)). by apply member_nul_free.
  - apply (member_nul_free k v ("," :: render_members (kv :: l))%char). by apply nul_free_cons.
Qed.

Lemma render_omap_nul_free o : nul_free (render_omap o).
Proof.
  destruct o as [m|]; [|done]. apply nul_free_cons; [done|].
  apply nul_free_app; [apply render_members_nul_free | done].
Qed.
