(* ===== verification/Packet.v ===== *)
(** * Packet: metadata, JSON packets and the packet pool (src/packet)

    Go maps are shared by reference: a JSON packet reaches one map through two
    paths, the field [Meta] of the wire struct [jsonPkt] and the field [meta]
    of its [KVMeta].  The model keeps a heap of maps and a heap of packets, so
    that writes through one path are seen through the other exactly as long as
    the two references agree, and a nil map is the absence of a reference.

    The mutexes of [KVMeta] and [JSONPkt] make each method atomic; a method is
    one computation here. *)

From Stdlib Require Import ZArith Lia Ascii String.
From stdpp Require Import base list strings gmap fin_maps.
From S2P Require Import Prelude Base64 Utf8 JsonText Decimal Json.

(** Metadata keys (packet.go) *)
Definition KeySvrStatus : string := "_stat".
Definition KeySvrMsg : string := "_msg".
Definition KeyRef : string := "_ref".
Definition KeyTarget : string := "_tgt".

(** ** State *)

(** A reference to a map: nil, or a location. *)
Abbreviation mref := (option nat).

(** The wire struct (json tags "m" and "d"). *)
Record jsonPkt := mk_jsonPkt { Meta : mref; Data : string }.

Record JSONPkt := mk_JSONPkt {
  wire : jsonPkt;      (* the embedded *jsonPkt *)
  buff : bytes;        (* contents of the bytes.Buffer *)
  meta : mref;         (* the map of the KVMeta *)
  dest : string;
}.

(** The heap of one process, with the pool of a packet creator.  [oracle]
    resolves the choice [sync.Pool.Get] leaves open. *)
Record Heap := mk_Heap {
  maps : gmap nat (gmap string string);
  pkts : gmap nat JSONPkt;
  pool : list nat;
  next : nat;
  oracle : list nat;
}.

Definition set_maps f h := mk_Heap (f (maps h)) (pkts h) (pool h) (next h) (oracle h).
Definition set_pkts f h := mk_Heap (maps h) (f (pkts h)) (pool h) (next h) (oracle h).
Definition set_pool f h := mk_Heap (maps h) (pkts h) (f (pool h)) (next h) (oracle h).

Definition set_wire w p := mk_JSONPkt w (buff p) (meta p) (dest p).
Definition set_buff b p := mk_JSONPkt (wire p) b (meta p) (dest p).
Definition set_meta m p := mk_JSONPkt (wire p) (buff p) m (dest p).
Definition set_dest d p := mk_JSONPkt (wire p) (buff p) (meta p) d.

(** Allocation. *)
Definition alloc_map (m : gmap string string) : M Heap nat := fun h =>
  Ok (next h, mk_Heap (<[next h := m]> (maps h)) (pkts h) (pool h) (S (next h)) (oracle h)).

Definition alloc_pkt (p : JSONPkt) : M Heap nat := fun h =>
  Ok (next h, mk_Heap (maps h) (<[next h := p]> (pkts h)) (pool h) (S (next h)) (oracle h)).

(** Access through a packet pointer. *)
Definition load (l : nat) : M Heap JSONPkt := fun h =>
  match pkts h !! l with
  | Some p => Ok (p, h)
  | None => Panic NilDeref
  end.

Definition store (l : nat) (p : JSONPkt) : M Heap unit := modify (set_pkts <[l := p]>).

(** ** KVMeta (metadata.go), on the map reference it holds *)

Definition map_at (h : Heap) (r : nat) : gmap string string := default ∅ (maps h !! r).

Definition NewKVMeta : M Heap nat := alloc_map ∅.

Definition KVMeta_Add (m : mref) (key val : string) : M Heap unit :=
  match m with
  | None => throw NilMapWrite
  | Some r => modify (fun h => set_maps <[r := <[key := val]> (map_at h r)]> h)
  end.

Definition KVMeta_Get (m : mref) (key : string) : M Heap string :=
  match m with
  | None => ret ""%string
  | Some r => gets (fun h => default ""%string (map_at h r !! key))
  end.

Definition KVMeta_Clear (m : mref) : M Heap unit :=
  match m with
  | None => ret tt
  | Some r => modify (set_maps <[r := ∅]>)
  end.

(** [setMeta] on the KVMeta of a packet. *)
Definition setMeta (l : nat) (m : mref) : M Heap unit :=
  let* p := load l in store l (set_meta m p).

(** ** JSONPkt (json_packet.go) *)

Definition SetDest (l : nat) (d : string) : M Heap unit :=
  let* p := load l in store l (set_dest d p).

Definition Dest (l : nat) : M Heap string :=
  let* p := load l in ret (dest p).

(** [pkt.Meta().Add] and [pkt.Meta().Get]. *)
Definition Meta_Add (l : nat) (key val : string) : M Heap unit :=
  let* p := load l in KVMeta_Add (meta p) key val.

Definition Meta_Get (l : nat) (key : string) : M Heap string :=
  let* p := load l in KVMeta_Get (meta p) key.

Definition Meta_Clear (l : nat) : M Heap unit :=
  let* p := load l in KVMeta_Clear (meta p).

Definition PktData (l : nat) : M Heap bytes :=
  let* p := load l in ret (buff p).

(** [json.Marshal] of the wire struct. *)
Definition render_pkt (m : option (gmap string string)) (data : string) : bytes :=
  "{"%char :: quote "m" ++ ":"%char :: render_omap m ++ ","%char
    :: quote "d" ++ ":"%char :: quote data ++ ["}"%char].

Definition Marshal (l : nat) : M Heap (option bytes) :=
  let* p := load l in
  let* m := match Meta (wire p) with
            | None => ret None
            | Some r => gets (fun h => Some (map_at h r))
            end in
  ret (Some (render_pkt m (Data (wire p)))).

(** [json.Unmarshal] into an existing map: entries are added; an element that
    is not a string leaves the empty string and flags a type error. *)
Definition decode_entry (acc : gmap string string * bool) (kv : string * json)
    : gmap string string * bool :=
  let '(m, err) := acc in
  match kv.2 with
  | JStr s => (<[kv.1 := s]> m, err)
  | JNull => (<[kv.1 := ""%string]> m, err)
  | _ => (<[kv.1 := ""%string]> m, true)
  end.

Definition decode_entries (ms : list (string * json)) (m : gmap string string)
    : gmap string string * bool := fold_left decode_entry ms (m, false).

(** The field "m": null sets the map to nil, an object is decoded into the
    map in place (a new one if it is nil), anything else is a type error. *)
Definition decode_m (v : json) (w : jsonPkt) : M Heap (jsonPkt * bool) :=
  match v with
  | JNull => ret (mk_jsonPkt None (Data w), false)
  | JObj ms =>
      let* r := match Meta w with
                | Some r => ret r
                | None => alloc_map ∅
                end in
      let* m := gets (fun h => map_at h r) in
      let '(m', err) := decode_entries ms m in
      modify (set_maps <[r := m']>) ;;;
      ret (mk_jsonPkt (Some r) (Data w), err)
  | _ => ret (w, true)
  end.

(** The field "d": null leaves the string, anything but a string is a type
    error. *)
Definition decode_d (v : json) (w : jsonPkt) : jsonPkt * bool :=
  match v with
  | JStr s => (mk_jsonPkt (Meta w) s, false)
  | JNull => (w, false)
  | _ => (w, true)
  end.

Fixpoint decode_members (ms : list (string * json)) (w : jsonPkt) : M Heap (jsonPkt * bool) :=
  match ms with
  | [] => ret (w, false)
  | (k, v) :: r =>
      let* (w1, e1) :=
        (if field_match "m" k then decode_m v w
         else if field_match "d" k then ret (decode_d v w)
         else ret (w, false)) in
      let* (w2, e2) := decode_members r w1 in
      ret (w2, e1 || e2)
  end.

(** [json.Unmarshal(bin, p.jsonPkt)]: the new wire struct and whether an error
    is returned.  A syntax error changes nothing; a type error is reported
    after the rest of the document has been decoded. *)
Definition unmarshal_wire (bin : bytes) (w : jsonPkt) : M Heap (jsonPkt * bool) :=
  match parse bin with
  | None => ret (w, true)
  | Some (JObj ms) => decode_members ms w
  | Some JNull => ret (w, false)
  | Some _ => ret (w, true)
  end.

(** [true]: success; [false]: an error is returned. *)
Definition Unmarshal (l : nat) (bin : bytes) : M Heap bool :=
  let* p := load l in
  let* (w, err) := unmarshal_wire bin (wire p) in
  store l (set_wire w p) ;;;
  if (err : bool) then ret false
  else
    setMeta l (Meta w) ;;;
    match Base64.decode (b_of_s (Data w)) with
    | None => ret false
    | Some d => let* p := load l in store l (set_buff d p) ;;; ret true
    end.

Definition Clear (l : nat) : M Heap unit :=
  let* p := load l in store l (set_buff [] p).

Definition Write (l : nat) (d : bytes) : M Heap unit :=
  let* p := load l in store l (set_buff (buff p ++ d) p).

Definition Close (l : nat) : M Heap unit :=
  let* p := load l in
  store l (set_wire (mk_jsonPkt (Meta (wire p)) (s_of_b (Base64.encode (buff p)))) p).

(** ** JSONPktCreator (json_packet_creator.go) *)

(** The pool's [New]. *)
Definition pool_New : M Heap nat :=
  let* r := alloc_map ∅ in
  let* k := NewKVMeta in
  let* l := alloc_pkt (mk_JSONPkt (mk_jsonPkt (Some r) "") [] (Some k) "") in
  setMeta l (Some r) ;;;
  ret l.

Definition pool_Put (l : nat) : M Heap unit := modify (set_pool (fun ls => ls ++ [l])).

(** [sync.Pool.Get] removes an arbitrary item, or behaves as if the pool were
    empty and calls [New]. *)
Definition pool_Get : M Heap nat := fun h =>
  let i := hd (length (pool h)) (oracle h) in
  let h' := mk_Heap (maps h) (pkts h) (delete i (pool h)) (next h) (tl (oracle h)) in
  match pool h !! i with
  | Some l => Ok (l, h')
  | None => pool_New (mk_Heap (maps h) (pkts h) (pool h) (next h) (tl (oracle h)))
  end.

Fixpoint Warmup (numPackets : nat) : M Heap unit :=
  match numPackets with
  | O => ret tt
  | S n => (let* l := pool_New in pool_Put l) ;;; Warmup n
  end.

Definition NewJSONPktCreator (numPkts : nat) : M Heap unit := Warmup numPkts.

Definition PutBack (l : nat) : M Heap unit := pool_Put l.

Definition NewPkt (ref dst : string) : M Heap nat :=
  let* l := pool_Get in
  Meta_Clear l ;;;
  Clear l ;;;
  SetDest l dst ;;;
  Meta_Add l KeyRef ref ;;;
  ret l.

Definition NewErrPkt (ref dst msg : string) : M Heap nat :=
  let* l := NewPkt ref dst in
  Meta_Add l KeySvrStatus "-1" ;;;
  Meta_Add l KeySvrMsg msg ;;;
  ret l.
