(* ===== verification/PacketSpec.v ===== *)
(** * PacketSpec: what packets promise, and that JSON packets keep the promise

    The abstract packet [APkt] is what the [Packet] and [Writer] interfaces of
    packet.go describe: metadata, a data buffer, the committed data that
    [Marshal] sends and a destination.  A concrete packet represents an
    abstract one ([abs]) when the two references to its metadata map agree.
    [heap_ok] is the heap invariant; every operation is shown to preserve it
    and to act on the abstraction as the interface says, leaving every other
    packet alone. *)

From Stdlib Require Import ZArith Lia Ascii String.
From stdpp Require Import base list strings gmap fin_maps.
From S2P Require Import Prelude Base64 Utf8 JsonText Decimal Json Packet.

(** ** The abstract packet *)

Record APkt := mk_APkt {
  a_meta : gmap string string;
  a_buff : bytes;
  a_data : string;      (* committed data, base64 *)
  a_dest : string;
}.

Definition a_add (k v : string) (a : APkt) : APkt :=
  mk_APkt (<[k := v]> (a_meta a)) (a_buff a) (a_data a) (a_dest a).
Definition a_get (k : string) (a : APkt) : string := default ""%string (a_meta a !! k).
Definition a_set_meta (m : gmap string string) (a : APkt) : APkt :=
  mk_APkt m (a_buff a) (a_data a) (a_dest a).
Definition a_set_buff (b : bytes) (a : APkt) : APkt :=
  mk_APkt (a_meta a) b (a_data a) (a_dest a).
Definition a_set_dest (d : string) (a : APkt) : APkt :=
  mk_APkt (a_meta a) (a_buff a) (a_data a) d.
Definition a_write (d : bytes) (a : APkt) : APkt := a_set_buff (a_buff a ++ d) a.
Definition a_close (a : APkt) : APkt :=
  mk_APkt (a_meta a) (a_buff a) (s_of_b (Base64.encode (a_buff a))) (a_dest a).

(** ** Representation *)

Definition abs_pkt (h : Heap) (p : JSONPkt) : option APkt :=
  match Meta (wire p), meta p with
  | Some r, Some r' =>
      if decide (r = r')
      then Some (mk_APkt (map_at h r) (buff p) (Data (wire p)) (dest p))
      else None
  | _, _ => None
  end.

Definition abs (h : Heap) (l : nat) : option APkt :=
  match pkts h !! l with
  | Some p => abs_pkt h p
  | None => None
  end.

(** The map references of a packet. *)
Definition refs (p : JSONPkt) (r : nat) : Prop := Meta (wire p) = Some r \/ meta p = Some r.

Record heap_ok (h : Heap) : Prop := {
  ok_pkts : forall l p, pkts h !! l = Some p -> (l < next h)%nat;
  ok_maps : forall r, is_Some (maps h !! r) -> (r < next h)%nat;
  ok_refs : forall l p r, pkts h !! l = Some p -> refs p r -> is_Some (maps h !! r);
  ok_sep : forall l1 l2 p1 p2 r,
    pkts h !! l1 = Some p1 -> pkts h !! l2 = Some p2 -> refs p1 r -> refs p2 r -> l1 = l2;
  ok_pool_nodup : NoDup (pool h);
  ok_pool_pkts : forall l, l ∈ pool h -> is_Some (pkts h !! l);
}.

(** [frame l h h']: what an operation on the packet [l] may not change. *)
Record frame (l : nat) (h h' : Heap) : Prop := {
  fr_ok : heap_ok h';
  fr_pool : pool h' = pool h;
  fr_pkts : forall k, is_Some (pkts h' !! k) <-> is_Some (pkts h !! k);
  fr_abs : forall k, k <> l -> abs h' k = abs h k;
}.

(** [acts m l f r]: on a packet [l] that represents [a], the computation [m]
    does not panic, returns [r a], makes [l] represent [f a] and changes
    nothing else. *)
Definition acts {A} (m : M Heap A) (l : nat) (f : APkt -> APkt) (r : APkt -> A) : Prop :=
  forall h a, heap_ok h -> abs h l = Some a ->
    wp m (fun x h' => x = r a /\ frame l h h' /\ abs h' l = Some (f a)) h.

Lemma frame_refl l h : heap_ok h -> frame l h h.
Proof. by split. Qed.

Lemma frame_trans l h1 h2 h3 : frame l h1 h2 -> frame l h2 h3 -> frame l h1 h3.
Proof.
  intros [O1 P1 K1 A1] [O2 P2 K2 A2]. split; [done | congruence | |].
  - intros k. by rewrite K2.
  - intros k Hk. by rewrite A2, A1.
Qed.

(** Composition of actions on one packet. *)
Lemma acts_bind {A B} (m : M Heap A) (k : A -> M Heap B) l f g r s :
  acts m l f r -> (forall x, acts (k x) l g (s x)) ->
  acts (bind m k) l (fun a => g (f a)) (fun a => s (r a) (f a)).
Proof.
  intros Hm Hk h a Hok Ha. rewrite wp_bind. eapply wp_mono; [by apply Hm|].
  intros x h1 (-> & F1 & A1). eapply wp_mono; [apply Hk; [apply F1 | done]|].
  intros y h2 (-> & F2 & A2). eauto using frame_trans.
Qed.

Lemma acts_seq {A B} (m : M Heap A) (k : M Heap B) l f g r s :
  acts m l f r -> acts k l g s ->
  acts (m ;;; k) l (fun a => g (f a)) (fun a => s (f a)).
Proof. intros Hm Hk. by apply (acts_bind m (fun _ => k) l f g r (fun _ => s)). Qed.

Lemma acts_ext {A} (m : M Heap A) l f f' r r' :
  acts m l f r -> (forall a, f a = f' a) -> (forall a, r a = r' a) -> acts m l f' r'.
Proof.
  intros Hm Hf Hr h a Hok Ha. eapply wp_mono; [by apply Hm|].
  intros x h' (-> & F & A'). by rewrite <- Hf, <- Hr.
Qed.

Lemma acts_ret {A} (x : A) l : acts (ret x) l (fun a => a) (fun _ => x).
Proof. intros h a Hok Ha. apply wp_ret. auto using frame_refl. Qed.

(** ** The two primitive updates *)

Lemma abs_inv h l a :
  abs h l = Some a ->
  exists p r, pkts h !! l = Some p /\ Meta (wire p) = Some r /\ meta p = Some r
    /\ a = mk_APkt (map_at h r) (buff p) (Data (wire p)) (dest p).
Proof.
  unfold abs, abs_pkt. destruct (pkts h !! l) as [p|] eqn:Ep; [|done].
  destruct (Meta (wire p)) as [r|] eqn:Er, (meta p) as [r'|] eqn:Er'; try done.
  case_decide; [subst|done]. intros [= <-]. eauto 10.
Qed.

Lemma abs_intro h l p r :
  pkts h !! l = Some p -> Meta (wire p) = Some r -> meta p = Some r ->
  abs h l = Some (mk_APkt (map_at h r) (buff p) (Data (wire p)) (dest p)).
Proof. intros Hp H1 H2. unfold abs, abs_pkt. rewrite Hp, H1, H2. by rewrite decide_True. Qed.

(** Map references a packet [l] may hold: to existing maps no other packet
    refers to. *)
Definition may_refer (h : Heap) (l r : nat) : Prop :=
  is_Some (maps h !! r) /\ forall k q, pkts h !! k = Some q -> refs q r -> k = l.

Lemma refs_may_refer h l p r : heap_ok h -> pkts h !! l = Some p -> refs p r -> may_refer h l r.
Proof. intros Hok Hp Hr. split; [by eapply ok_refs | intros; by eapply ok_sep]. Qed.

Lemma heap_ok_store h l p p' :
  heap_ok h -> pkts h !! l = Some p -> (forall r, refs p' r -> may_refer h l r) ->
  heap_ok (set_pkts <[l := p']> h).
Proof.
  intros [K Ms R S ND PP] Hp Hr.
  assert (Hlk : forall k q, <[l := p']> (pkts h) !! k = Some q ->
     (k = l /\ q = p') \/ (k <> l /\ pkts h !! k = Some q)).
  { intros k q Hq. destruct (decide (k = l)) as [->|Hne].
    - rewrite lookup_insert_eq in Hq. simplify_eq. by left.
    - rewrite lookup_insert_ne in Hq by done. by right. }
  split; simpl; try done.
  - intros k q Hq. destruct (Hlk _ _ Hq) as [[-> _] | [_ Hq']]; eauto.
  - intros k q r Hq Hqr. destruct (Hlk _ _ Hq) as [[-> ->] | [_ Hq']]; [by apply Hr | eauto].
  - intros k1 k2 q1 q2 r H1 H2 R1 R2.
    destruct (Hlk _ _ H1) as [[-> ->] | [N1 H1']], (Hlk _ _ H2) as [[-> ->] | [N2 H2']]; [done | | | eauto].
    + symmetry. by apply (proj2 (Hr _ R1) k2 q2).
    + by apply (proj2 (Hr _ R2) k1 q1).
  - intros k Hk. destruct (decide (k = l)) as [->|Hne];
      [rewrite lookup_insert_eq; eauto | rewrite lookup_insert_ne; eauto].
Qed.

Lemma heap_ok_set_map h r m :
  heap_ok h -> is_Some (maps h !! r) -> heap_ok (set_maps <[r := m]> h).
Proof.
  intros [K Ms R S ND PP] Hr.
  assert (Hdom : forall k, is_Some (<[r := m]> (maps h) !! k) <-> is_Some (maps h !! k)).
  { intros k. destruct (decide (k = r)) as [->|Hne];
      [rewrite lookup_insert_eq; split; eauto | by rewrite lookup_insert_ne]. }
  split; simpl; try done.
  - intros k Hk. apply Ms, Hdom, Hk.
  - intros k q r' Hq Hqr. apply Hdom. eauto.
Qed.

(** Replacing a packet by one with the same map references. *)
Lemma frame_store h l p p' :
  heap_ok h -> pkts h !! l = Some p -> (forall r, refs p' r -> refs p r) ->
  frame l h (set_pkts <[l := p']> h).
Proof.
  intros Hok Hp Hr. split; [|done | simpl | simpl].
  - apply (heap_ok_store h l p); [done.. |]. intros r Hr'. eapply refs_may_refer; eauto.
  - intros k. destruct (decide (k = l)) as [->|Hne];
      [rewrite lookup_insert_eq, Hp; split; eauto | by rewrite lookup_insert_ne].
  - intros k Hk. unfold abs. simpl. by rewrite lookup_insert_ne.
Qed.

(** Changing the contents of a map of packet [l]. *)
Lemma frame_set_map h l p r m :
  heap_ok h -> pkts h !! l = Some p -> refs p r ->
  frame l h (set_maps <[r := m]> h).
Proof.
  intros Hok Hp Hr. split; [|done | done |].
  - apply heap_ok_set_map; [done | by eapply ok_refs].
  - intros k Hk. unfold abs, abs_pkt, map_at. simpl.
    destruct (pkts h !! k) as [q|] eqn:Hq; [|done].
    destruct (Meta (wire q)) as [r1|] eqn:E1, (meta q) as [r2|] eqn:E2; try done.
    case_decide; [|done]. rewrite lookup_insert_ne; [done|].
    intros ->. apply Hk. eapply (ok_sep _ Hok); eauto. by left.
Qed.

(** ** Operations *)

Definition a_of (m : gmap string string) (p : JSONPkt) : APkt :=
  mk_APkt m (buff p) (Data (wire p)) (dest p).

Lemma load_ok h l p : pkts h !! l = Some p -> load l h = Ok (p, h).
Proof. unfold load. by intros ->. Qed.

(** Methods that replace fields of the packet struct. *)
Lemma acts_store l (g : JSONPkt -> JSONPkt) f :
  (forall p, Meta (wire (g p)) = Meta (wire p)) -> (forall p, meta (g p) = meta p) ->
  (forall m p, a_of m (g p) = f (a_of m p)) ->
  acts (let* p := load l in store l (g p)) l f (fun _ => tt).
Proof.
  intros Hw Hm Hf h a Hok Ha.
  destruct (abs_inv _ _ _ Ha) as (p & r & Hp & Hr & Hr' & ->).
  rewrite wp_bind. eapply wp_ok; [by apply load_ok|].
  unfold store. apply wp_modify. split; [done|]. split.
  - eapply frame_store; eauto. unfold refs. intros r'. by rewrite Hw, Hm.
  - erewrite abs_intro; [f_equal; apply Hf | by apply lookup_insert_eq | by rewrite Hw
      | by rewrite Hm].
Qed.

(** Methods that only read the packet struct. *)
Lemma acts_read {A} l (g : JSONPkt -> A) (r : APkt -> A) :
  (forall m p, r (a_of m p) = g p) ->
  acts (let* p := load l in ret (g p)) l (fun a => a) r.
Proof.
  intros Hg h a Hok Ha. destruct (abs_inv _ _ _ Ha) as (p & r' & Hp & Hr & Hr' & ->).
  rewrite wp_bind. eapply wp_ok; [by apply load_ok|]. apply wp_ret.
  split; [symmetry; apply Hg|]. auto using frame_refl.
Qed.

(** Methods that change the contents of the metadata map. *)
Lemma acts_map l (g : gmap string string -> gmap string string) (m : mref -> M Heap unit) :
  (forall r h, m (Some r) h = Ok (tt, set_maps <[r := g (map_at h r)]> h)) ->
  acts (let* p := load l in m (meta p)) l (fun a => a_set_meta (g (a_meta a)) a) (fun _ => tt).
Proof.
  intros Hm h a Hok Ha. destruct (abs_inv _ _ _ Ha) as (p & r & Hp & Hr & Hr' & ->).
  rewrite wp_bind. eapply wp_ok; [by apply load_ok|]. rewrite Hr'.
  eapply wp_ok; [apply Hm|]. split; [done|]. split.
  - eapply frame_set_map; eauto. by right.
  - erewrite abs_intro by eauto. unfold map_at at 1. simpl. by rewrite lookup_insert_eq.
Qed.

Lemma SetDest_acts l d : acts (SetDest l d) l (a_set_dest d) (fun _ => tt).
Proof. by apply acts_store. Qed.
Lemma Clear_acts l : acts (Clear l) l (a_set_buff []) (fun _ => tt).
Proof. by apply acts_store. Qed.
Lemma Write_acts l d : acts (Write l d) l (a_write d) (fun _ => tt).
Proof. by apply (acts_store l (fun p => set_buff (buff p ++ d) p)). Qed.
Lemma Close_acts l : acts (Close l) l a_close (fun _ => tt).
Proof.
  by apply (acts_store l (fun p =>
    set_wire (mk_jsonPkt (Meta (wire p)) (s_of_b (Base64.encode (buff p)))) p)).
Qed.
Lemma Dest_acts l : acts (Dest l) l (fun a => a) a_dest.
Proof. by apply acts_read. Qed.
Lemma PktData_acts l : acts (PktData l) l (fun a => a) a_buff.
Proof. by apply acts_read. Qed.
Lemma Meta_Add_acts l k v : acts (Meta_Add l k v) l (a_add k v) (fun _ => tt).
Proof.
  by apply (acts_map l (fun m => <[k := v]> m) (fun m => KVMeta_Add m k v)).
Qed.
Lemma Meta_Clear_acts l : acts (Meta_Clear l) l (a_set_meta ∅) (fun _ => tt).
Proof. by apply (acts_map l (fun _ => ∅)). Qed.

Lemma Meta_Get_acts l k : acts (Meta_Get l k) l (fun a => a) (a_get k).
Proof.
  intros h a Hok Ha. destruct (abs_inv _ _ _ Ha) as (p & r & Hp & Hr & Hr' & ->).
  unfold Meta_Get. rewrite wp_bind. eapply wp_ok; [by apply load_ok|].
  rewrite Hr'. simpl. apply wp_gets. auto using frame_refl.
Qed.

Lemma Marshal_acts l :
  acts (Marshal l) l (fun a => a) (fun a => Some (render_pkt (Some (a_meta a)) (a_data a))).
Proof.
  intros h a Hok Ha. destruct (abs_inv _ _ _ Ha) as (p & r & Hp & Hr & Hr' & ->).
  unfold Marshal. rewrite wp_bind. eapply wp_ok; [by apply load_ok|].
  rewrite Hr, wp_bind. apply wp_gets, wp_ret. auto using frame_refl.
Qed.

(** A packet operation that only reads. *)
Definition reads {B} (m : M Heap B) (l : nat) (r : APkt -> B) : Prop :=
  forall h a, heap_ok h -> abs h l = Some a -> m h = Ok (r a, h).

Lemma Meta_Get_reads l k : reads (Meta_Get l k) l (a_get k).
Proof.
  intros h a Hok Ha. destruct (abs_inv _ _ _ Ha) as (p & r & Hp & Hr & Hr' & ->).
  unfold Meta_Get. erewrite bind_ok by (by apply load_ok). by rewrite Hr'.
Qed.

Lemma Dest_reads l : reads (Dest l) l a_dest.
Proof.
  intros h a Hok Ha. destruct (abs_inv _ _ _ Ha) as (p & r & Hp & Hr & Hr' & ->).
  unfold Dest. by erewrite bind_ok by (by apply load_ok).
Qed.

Lemma PktData_reads l : reads (PktData l) l a_buff.
Proof.
  intros h a Hok Ha. destruct (abs_inv _ _ _ Ha) as (p & r & Hp & Hr & Hr' & ->).
  unfold PktData. by erewrite bind_ok by (by apply load_ok).
Qed.

Lemma Marshal_reads l :
  reads (Marshal l) l (fun a => Some (render_pkt (Some (a_meta a)) (a_data a))).
Proof.
  intros h a Hok Ha. destruct (abs_inv _ _ _ Ha) as (p & r & Hp & Hr & Hr' & ->).
  unfold Marshal. erewrite bind_ok by (by apply load_ok). by rewrite Hr.
Qed.

#[export] Hint Resolve SetDest_acts Clear_acts Write_acts Close_acts Dest_acts PktData_acts
  Meta_Add_acts Meta_Clear_acts Meta_Get_acts Marshal_acts acts_ret : concord.

(** ** Decoding a document *)

(** No member that selects the metadata is null. *)
Definition meta_null (kv : string * json) : bool :=
  field_match "m" kv.1 && match kv.2 with JNull => true | _ => false end.

Definition no_null_meta (ms : list (string * json)) : bool := forallb (fun kv => negb (meta_null kv)) ms.

(** What decoding does to the metadata map and the data string. *)
Definition pure_member (st : gmap string string * string * bool) (kv : string * json)
    : gmap string string * string * bool :=
  let '(m, d, e) := st in
  if field_match "m" kv.1 then
    match kv.2 with
    | JObj ms => let '(m', e') := decode_entries ms m in (m', d, e || e')
    | _ => (m, d, true)
    end
  else if field_match "d" kv.1 then
    let '(w, e') := decode_d kv.2 (mk_jsonPkt None d) in (m, Data w, e || e')
  else (m, d, e).

Definition pure_members ms st := fold_left pure_member ms st.

Lemma pure_members_err ms m d e :
  pure_members ms (m, d, e) =
    let '(m', d', e') := pure_members ms (m, d, false) in (m', d', e || e').
Proof.
  revert m d e. induction ms as [|[k v] ms IH]; intros m d e.
  { simpl. by rewrite orb_false_r. }
  change (pure_members ((k, v) :: ms) ?st) with (pure_members ms (pure_member st (k, v))).
  assert (Hs : pure_member (m, d, e) (k, v) =
     let '(m', d', e') := pure_member (m, d, false) (k, v) in (m', d', e || e')).
  { unfold pure_member; simpl. repeat case_match; simplify_eq; by rewrite ?orb_true_r, ?orb_false_r. }
  rewrite Hs. destruct (pure_member (m, d, false) (k, v)) as [[m1 d1] e1].
  rewrite (IH m1 d1 (e || e1)), (IH m1 d1 e1).
  destruct (pure_members ms (m1, d1, false)) as [[m2 d2] e2]. by rewrite orb_assoc.
Qed.

Lemma set_maps_id h r m : maps h !! r = Some m -> set_maps <[r := m]> h = h.
Proof. intros H. destruct h. unfold set_maps; simpl in *. by rewrite insert_id. Qed.

Lemma set_maps_twice h r m m' :
  set_maps <[r := m']> (set_maps <[r := m]> h) = set_maps <[r := m']> h.
Proof. unfold set_maps; simpl. by rewrite insert_insert_eq. Qed.

Lemma decode_members_pure ms w r h m m' d' e' :
  Meta w = Some r -> maps h !! r = Some m -> no_null_meta ms = true ->
  pure_members ms (m, Data w, false) = (m', d', e') ->
  decode_members ms w h = Ok ((mk_jsonPkt (Some r) d', e'), set_maps <[r := m']> h).
Proof.
  revert w h m m' d' e'. induction ms as [|[k v] ms IH]; intros w h m m' d' e' Hw Hm Hn Hp.
  { simpl in *. simplify_eq. rewrite set_maps_id by done. destruct w; simpl in *. by subst. }
  simpl in Hn. apply andb_prop in Hn as [Hn1 Hn2].
  change (pure_members ((k, v) :: ms) ?st) with (pure_members ms (pure_member st (k, v))) in Hp.
  destruct (pure_member (m, Data w, false) (k, v)) as [[m1 d1] e1] eqn:E1.
  rewrite pure_members_err in Hp.
  destruct (pure_members ms (m1, d1, false)) as [[m2 d2] e2] eqn:E2. simplify_eq.
  assert (Hstep : (if field_match "m" k then decode_m v w
         else if field_match "d" k then ret (decode_d v w)
         else ret (w, false)) h
       = Ok ((mk_jsonPkt (Some r) d1, e1), set_maps <[r := m1]> h)).
  { unfold pure_member in E1; simpl in E1. unfold meta_null in Hn1; simpl in Hn1.
    destruct (field_match "m" k); [|destruct (field_match "d" k)].
    - destruct v; try done; simplify_eq; simpl; rewrite ?(set_maps_id h r m1) by done;
        try (unfold ret; do 3 f_equal; destruct w; simpl in *; congruence).
      rewrite Hw. unfold bind, ret, gets, modify, map_at. rewrite Hm. simpl.
      destruct (decode_entries _ m) as [m3 e3]. by simplify_eq.
    - simplify_eq. destruct v; simplify_eq/=; rewrite set_maps_id by done; unfold ret;
        do 3 f_equal; destruct w; simpl in *; congruence.
    - simplify_eq. rewrite set_maps_id by done. unfold ret; do 3 f_equal.
      destruct w; simpl in *; congruence. }
  cbn [decode_members]. erewrite bind_ok by exact Hstep. cbn beta iota.
  erewrite bind_ok.
  2: { eapply (IH _ _ m1); [done | simpl; by rewrite lookup_insert_eq | done | done]. }
  cbn beta iota. unfold ret. by rewrite set_maps_twice.
Qed.

(** The document does not set the metadata to nil. *)
Definition keeps_meta (bin : bytes) : bool :=
  match parse bin with
  | Some (JObj ms) => no_null_meta ms
  | _ => true
  end.

(** The metadata, data string and error flag after decoding [bin]. *)
Definition pure_doc (bin : bytes) (m : gmap string string) (d : string)
    : gmap string string * string * bool :=
  match parse bin with
  | Some (JObj ms) => pure_members ms (m, d, false)
  | Some JNull => (m, d, false)
  | _ => (m, d, true)
  end.

(** [Unmarshal] on the abstract packet. *)
Definition a_unmarshal (bin : bytes) (a : APkt) : APkt * bool :=
  let '(m, d, e) := pure_doc bin (a_meta a) (a_data a) in
  let a' := mk_APkt m (a_buff a) d (a_dest a) in
  if e then (a', false)
  else match Base64.decode (b_of_s d) with
       | Some b => (a_set_buff b a', true)
       | None => (a', false)
       end.

Lemma unmarshal_wire_pure bin w r h m m' d' e' :
  Meta w = Some r -> maps h !! r = Some m -> keeps_meta bin = true ->
  pure_doc bin m (Data w) = (m', d', e') ->
  unmarshal_wire bin w h = Ok ((mk_jsonPkt (Some r) d', e'), set_maps <[r := m']> h).
Proof.
  intros Hw Hm Hk Hp. unfold unmarshal_wire, pure_doc, keeps_meta in *.
  assert (Hid : forall e : bool, ret (w, e) h = Ok (mk_jsonPkt (Some r) (Data w), e, set_maps <[r := m]> h)).
  { intros e. rewrite set_maps_id by done. unfold ret. do 3 f_equal. destruct w; simpl in *; congruence. }
  destruct (parse bin) as [[]|]; simplify_eq; try apply Hid.
  by apply (decode_members_pure _ _ _ _ m).
Qed.

Lemma Unmarshal_acts l bin :
  keeps_meta bin = true ->
  acts (Unmarshal l bin) l (fun a => (a_unmarshal bin a).1) (fun a => (a_unmarshal bin a).2).
Proof.
  intros Hk h a Hok Ha. destruct (abs_inv _ _ _ Ha) as (p & r & Hp & Hr & Hr' & ->).
  destruct (ok_refs h Hok l p r Hp ltac:(by left)) as [m Hm].
  unfold a_unmarshal; simpl. replace (map_at h r) with m by (unfold map_at; by rewrite Hm).
  destruct (pure_doc bin m (Data (wire p))) as [[m' d'] e'] eqn:Ed.
  unfold Unmarshal. rewrite wp_bind. eapply wp_ok; [by apply load_ok|].
  rewrite wp_bind. eapply wp_ok; [by apply (unmarshal_wire_pure bin _ r h m m' d' e')|].
  set (p1 := set_wire (mk_jsonPkt (Some r) d') p).
  set (h1 := set_maps <[r := m']> h).
  assert (F1 : frame l h h1) by (eapply frame_set_map; eauto; by left).
  assert (Hrefs : forall p2, Meta (wire p2) = Some r -> meta p2 = Some r ->
     forall r2, refs p2 r2 -> refs p r2).
  { unfold refs. intros p2 -> ->. rewrite Hr, Hr'. tauto. }
  assert (Hm1 : forall ps, map_at (set_pkts ps h1) r = m').
  { intros ps. unfold map_at, h1. simpl. by rewrite lookup_insert_eq. }
  assert (F2 : forall p2, Meta (wire p2) = Some r -> meta p2 = Some r ->
     frame l h (set_pkts <[l := p2]> h1)
     /\ abs (set_pkts <[l := p2]> h1) l = Some (a_of m' p2)).
  { intros p2 E1 E2. split.
    - eapply frame_trans; [exact F1|]. eapply frame_store; [apply F1 | exact Hp |].
      intros r2. by apply Hrefs.
    - erewrite abs_intro; [by rewrite Hm1 | by apply lookup_insert_eq | done..]. }
  unfold store. wp_steps. destruct e'; wp_steps.
  { split; [done|]. by apply (F2 p1). }
  unfold setMeta. wp_steps. eapply wp_ok; [by apply load_ok, lookup_insert_eq|].
  unfold store. wp_steps.
  assert (Hss : forall q q', set_pkts <[l := q]> (set_pkts <[l := q']> h1) = set_pkts <[l := q]> h1).
  { intros q q'. unfold set_pkts. simpl. by rewrite insert_insert_eq. }
  rewrite Hss. cbn [Data Meta]. destruct (Base64.decode (b_of_s d')) as [b|]; wp_steps.
  - eapply wp_ok; [by apply load_ok, lookup_insert_eq|]. wp_steps. rewrite Hss.
    split; [done|]. by apply F2.
  - split; [done|]. by apply F2.
Qed.

(** ** The pool *)

(** A freshly created packet. *)
Definition blank : APkt := mk_APkt ∅ [] "" "".

(** Every pooled packet still represents a packet.  This is what [NewPkt]
    relies on; [Unmarshal] of hostile input can break it (see below). *)
Definition healthy (h : Heap) : Prop := forall l, l ∈ pool h -> is_Some (abs h l).

Lemma healthy_frame l h h' a : frame l h h' -> abs h' l = Some a -> healthy h -> healthy h'.
Proof.
  intros F Ha Hh k Hk. rewrite (fr_pool _ _ _ F) in Hk.
  destruct (decide (k = l)) as [->|Hne]; [eauto|]. rewrite (fr_abs _ _ _ F) by done. by apply Hh.
Qed.

(** [got l h h']: packet [l] was taken from the pool, or is new. *)
Record got (l : nat) (h h' : Heap) : Prop := {
  got_ok : heap_ok h';
  got_pool : pool h ≡ₚ l :: pool h' \/ (pkts h !! l = None /\ pool h' = pool h);
  got_live : is_Some (pkts h' !! l);
  got_pkts : forall k, k <> l -> is_Some (pkts h' !! k) <-> is_Some (pkts h !! k);
  got_abs : forall k, k <> l -> abs h' k = abs h k;
}.

Lemma got_frame l h h1 h2 : got l h h1 -> frame l h1 h2 -> got l h h2.
Proof.
  intros [O P L K A] [O2 P2 K2 A2]. split; [done | by rewrite P2 | by apply K2 | |].
  - intros k Hk. by rewrite K2, K.
  - intros k Hk. by rewrite A2, A.
Qed.

Lemma got_not_pooled l h h' : heap_ok h -> got l h h' -> l ∉ pool h'.
Proof.
  intros Hok [O P _ _ _] Hin. destruct P as [P | [Hn E]].
  - pose proof (ok_pool_nodup h Hok) as ND. rewrite P in ND.
    apply list.NoDup_cons in ND. tauto.
  - rewrite E in Hin. destruct (ok_pool_pkts h Hok l Hin). congruence.
Qed.

Lemma got_healthy l h h' : heap_ok h -> healthy h -> got l h h' -> healthy h'.
Proof.
  intros Hok Hh Hg k Hk. assert (k <> l) by (intros ->; by eapply got_not_pooled).
  rewrite (got_abs _ _ _ Hg) by done. apply Hh.
  destruct (got_pool _ _ _ Hg) as [P | [_ E]].
  - rewrite P. by right.
  - by rewrite <- E.
Qed.

(** The state after [pool_New]. *)
Definition after_New (h : Heap) : Heap :=
  let n := next h in
  mk_Heap (<[S n := ∅]> (<[n := ∅]> (maps h)))
    (<[S (S n) := mk_JSONPkt (mk_jsonPkt (Some n) "") [] (Some n) ""]> (pkts h))
    (pool h) (S (S (S n))) (oracle h).

Lemma pool_New_eq h : pool_New h = Ok (S (S (next h)), after_New h).
Proof.
  unfold pool_New, bind, ret, alloc_map, NewKVMeta, alloc_pkt, setMeta, load, store, modify.
  cbn -[insert]. unfold bind, modify. cbn -[insert]. rewrite lookup_insert_eq. cbn -[insert].
  unfold after_New, set_pkts. cbn -[insert]. by rewrite insert_insert_eq.
Qed.

(** Maps below the allocation pointer are not touched by allocation. *)
Lemma after_New_map h r : (r < next h)%nat -> maps (after_New h) !! r = maps h !! r.
Proof. intros H. simpl. by rewrite !lookup_insert_ne by lia. Qed.

Lemma abs_pkt_maps h h' p :
  (forall r, refs p r -> maps h' !! r = maps h !! r) -> abs_pkt h' p = abs_pkt h p.
Proof.
  intros H. unfold abs_pkt, map_at.
  destruct (Meta (wire p)) as [r|] eqn:Er; [|done].
  destruct (meta p) as [r'|]; [|done]. case_decide; [|done]. by rewrite H by (by left).
Qed.

Lemma heap_ok_after_New h : heap_ok h -> heap_ok (after_New h).
Proof.
  intros [K Ms R S ND PP].
  assert (Hlk : forall k q, pkts (after_New h) !! k = Some q ->
    (k = Datatypes.S (Datatypes.S (next h)) /\ forall r, refs q r -> r = next h)
    \/ (pkts h !! k = Some q /\ forall r, refs q r -> (r < next h)%nat)).
  { intros k q. simpl. destruct (decide (k = Datatypes.S (Datatypes.S (next h)))) as [->|Hne].
    - rewrite lookup_insert_eq. intros [= <-]. left. split; [done|].
      intros r [E | E]; by simplify_eq/=.
    - rewrite lookup_insert_ne by done. intros Hq. right. split; [done|]. eauto. }
  assert (Hfresh : forall k q, pkts h !! k = Some q -> (k < next h)%nat) by eauto.
  split; simpl.
  - intros k q Hq. destruct (Hlk k q Hq) as [[-> _] | [Hq' _]]; [lia|]. apply K in Hq'. lia.
  - intros r. rewrite !lookup_insert. repeat case_decide; subst; [lia..|].
    intros Hr%Ms. lia.
  - intros k q r Hq Hr. destruct (Hlk k q Hq) as [[_ Hn] | [Hq' Hn]].
    + apply Hn in Hr as ->. rewrite lookup_insert_ne, lookup_insert_eq by lia. eauto.
    + specialize (Hn r Hr). rewrite !lookup_insert_ne by lia. eauto.
  - intros k1 k2 q1 q2 r H1 H2 R1 R2.
    destruct (Hlk _ _ H1) as [[-> E1] | [Q1 E1]], (Hlk _ _ H2) as [[-> E2] | [Q2 E2]];
      try done; try (specialize (E1 r R1); specialize (E2 r R2); lia). eauto.
  - done.
  - intros k Hk. destruct (PP k Hk) as [q Hq]. pose proof (K _ _ Hq).
    rewrite lookup_insert_ne by lia. eauto.
Qed.

Lemma pool_New_got h :
  heap_ok h ->
  wp pool_New (fun l h' => got l h h' /\ (l ∉ pool h) /\ abs h' l = Some blank) h.
Proof.
  intros Hok. eapply wp_ok; [apply pool_New_eq|].
  pose proof (ok_pkts h Hok) as K. pose proof (heap_ok_after_New h Hok) as Hok'.
  assert (Hnone : pkts h !! S (S (next h)) = None).
  { destruct (pkts h !! _) eqn:E; [|done]. apply K in E. lia. }
  split; [split; [done | by right | simpl; rewrite lookup_insert_eq; eauto | |] | split].
  - intros k Hk. simpl. by rewrite lookup_insert_ne.
  - intros k Hk. unfold abs. simpl. rewrite lookup_insert_ne by done.
    destruct (pkts h !! k) as [q|] eqn:Hq; [|done]. apply abs_pkt_maps.
    intros r Hr. apply after_New_map. apply (ok_maps h Hok), (ok_refs h Hok k q r Hq Hr).
  - intros Hin. destruct (ok_pool_pkts h Hok _ Hin). congruence.
  - erewrite abs_intro; [| by apply lookup_insert_eq | done..].
    unfold map_at. simpl. by rewrite lookup_insert_ne, lookup_insert_eq by lia.
Qed.

(** Dropping the pool's choice changes no packet. *)
Lemma heap_ok_pool h ls o :
  heap_ok h -> NoDup ls -> (forall l, l ∈ ls -> is_Some (pkts h !! l)) ->
  heap_ok (mk_Heap (maps h) (pkts h) ls (next h) o).
Proof. intros [K Ms R S ND PP] H1 H2. by split. Qed.

Lemma abs_pool h ls o l : abs (mk_Heap (maps h) (pkts h) ls (next h) o) l = abs h l.
Proof. reflexivity. Qed.

(** The packet the pool hands out, when its choice is a pooled one. *)
Definition chosen (h : Heap) (l : nat) : Prop :=
  forall k, pool h !! hd (length (pool h)) (oracle h) = Some k -> l = k.

(** [Get] returns a pooled packet as it was put back, or a new one. *)
Lemma pool_Get_got h :
  heap_ok h ->
  wp pool_Get (fun l h' => got l h h' /\ chosen h l /\
    (l ∈ pool h /\ abs h' l = abs h l \/ (l ∉ pool h) /\ abs h' l = Some blank)) h.
Proof.
  intros Hok. pose proof (ok_pool_nodup h Hok) as ND.
  unfold wp, pool_Get, chosen. destruct (pool h !! hd (length (pool h)) (oracle h)) as [l|] eqn:E.
  - pose proof (delete_Permutation _ _ _ E) as P.
    assert (Hin : l ∈ pool h) by (rewrite P; by left).
    pose proof ND as ND'. rewrite P in ND'. apply list.NoDup_cons in ND' as [Hnin ND'].
    split; [split; simpl; try done | split; [by intros k [= <-] | left; split; [done | apply abs_pool]]].
    + apply heap_ok_pool; [done..|]. intros k Hk. apply (ok_pool_pkts h Hok).
      rewrite P. by right.
    + by left.
    + by apply (ok_pool_pkts h Hok).
  - set (h1 := mk_Heap (maps h) (pkts h) (pool h) (next h) (tl (oracle h))).
    assert (Hok1 : heap_ok h1) by (apply heap_ok_pool; [done..|]; apply (ok_pool_pkts h Hok)).
    pose proof (pool_New_got h1 Hok1) as HN. unfold wp in HN.
    destruct (pool_New h1) as [[l h']|]; [|done]. destruct HN as ([O P L K A] & Hl & Ha).
    split; [by split | split; [done | by right]].
Qed.

(** What [NewPkt] returns: exactly the requested metadata, an empty buffer and
    the destination.  The committed data is whatever the packet was last
    used for. *)
Definition fresh_pkt (ref dst data : string) : APkt := mk_APkt {[KeyRef := ref]} [] data dst.

(** The committed data a packet taken from the pool of [h] may carry. *)
Definition stale_data (h : Heap) (l : nat) (d : string) : Prop :=
  (exists a, l ∈ pool h /\ abs h l = Some a /\ d = a_data a) \/ ((l ∉ pool h) /\ d = ""%string).

Lemma reset_acts l ref dst :
  acts (Meta_Clear l ;;; Clear l ;;; SetDest l dst ;;; Meta_Add l KeyRef ref ;;; ret l) l
    (fun a => fresh_pkt ref dst (a_data a)) (fun _ => l).
Proof.
  eapply acts_ext.
  - repeat (eapply acts_seq; [eauto with concord|]). eauto with concord.
  - reflexivity.
  - reflexivity.
Qed.

Lemma NewPkt_spec h ref dst :
  heap_ok h -> healthy h ->
  wp (NewPkt ref dst) (fun l h' => got l h h' /\ chosen h l /\
    exists d, stale_data h l d /\ abs h' l = Some (fresh_pkt ref dst d)) h.
Proof.
  intros Hok Hh. unfold NewPkt. rewrite wp_bind.
  eapply wp_mono; [by apply pool_Get_got|]. intros l h1 (G & C & Hl).
  assert (exists a, abs h1 l = Some a /\ stale_data h l (a_data a)) as (a & Ha & Hs).
  { destruct Hl as [[Hin E] | [Hn E]].
    - destruct (Hh l Hin) as [a Ha]. exists a. rewrite E, Ha. split; [done|]. left. eauto.
    - exists blank. split; [done|]. by right. }
  eapply wp_mono; [apply (reset_acts l ref dst h1 a); [apply G | done]|].
  intros x h2 (-> & F & A). eauto 10 using got_frame.
Qed.

(** The error packet: status -1, the message, the reference. *)
Definition err_pkt (ref dst msg data : string) : APkt :=
  a_add KeySvrMsg msg (a_add KeySvrStatus "-1" (fresh_pkt ref dst data)).

Lemma NewErrPkt_spec h ref dst msg :
  heap_ok h -> healthy h ->
  wp (NewErrPkt ref dst msg) (fun l h' => got l h h' /\ chosen h l /\
    exists d, stale_data h l d /\ abs h' l = Some (err_pkt ref dst msg d)) h.
Proof.
  intros Hok Hh. unfold NewErrPkt. rewrite wp_bind.
  eapply wp_mono; [by apply NewPkt_spec|]. intros l h1 (G & C & d & Hs & Ha).
  rewrite wp_bind. eapply wp_mono; [apply (Meta_Add_acts l _ _ h1 _ (got_ok _ _ _ G) Ha)|].
  intros _ h2 (_ & F2 & A2). rewrite wp_bind.
  eapply wp_mono; [apply (Meta_Add_acts l _ _ h2 _ (fr_ok _ _ _ F2) A2)|].
  intros _ h3 (_ & F3 & A3). apply wp_ret. eauto 10 using got_frame, frame_trans.
Qed.

(** [PutBack] of a packet that is not pooled. *)
Lemma PutBack_spec h l :
  heap_ok h -> is_Some (pkts h !! l) -> l ∉ pool h ->
  wp (PutBack l) (fun _ h' => heap_ok h' /\ pool h' = pool h ++ [l]
    /\ (forall k, abs h' k = abs h k) /\ pkts h' = pkts h) h.
Proof.
  intros Hok Hl Hn. unfold PutBack, pool_Put. apply wp_modify. split; [|done].
  destruct Hok as [K Ms R S ND PP]. split; simpl; try done.
  - apply list.NoDup_app. split; [done|]. split; [|apply NoDup_singleton].
    intros x Hx ->%list_elem_of_singleton. done.
  - intros k [Hk | ->%list_elem_of_singleton]%elem_of_app; auto.
Qed.
