(* ===== verification/PacketProps.v ===== *)
(** * PacketProps: the properties of packets and of the packet pool

    Refinement of the abstract packet, the wire round trip, what a pooled
    packet carries over from its previous use, and how a received document
    can damage a pooled packet. *)

From Stdlib Require Import ZArith Lia Ascii String.
From stdpp Require Import base list strings gmap fin_maps.
From S2P Require Import Prelude Base64 Utf8 JsonText Decimal Json Packet PacketSpec.

(** The empty heap of a process that has not created a packet. *)
Definition heap0 (o : list nat) : Heap := mk_Heap ∅ ∅ [] 0 o.

Lemma heap0_ok o : heap_ok (heap0 o).
Proof.
  split; simpl.
  - intros l p. by rewrite lookup_empty.
  - intros r [m Hm]. by rewrite lookup_empty in Hm.
  - intros l p r. by rewrite lookup_empty.
  - intros l1 l2 p1 p2 r. by rewrite lookup_empty.
  - apply NoDup_nil_2.
  - intros l Hl. by apply not_elem_of_nil in Hl.
Qed.

(** (C1) Refinement: on a packet whose two metadata references agree, every
    method of the packet and writer interfaces returns what the abstract packet
    returns, updates it as the abstract operation does, never panics and leaves
    every other packet, the pool and the heap invariant as they were.
    [Unmarshal] is covered for the documents that do not set the metadata to
    null ([keeps_meta]), well-formed or not; a document that does takes the
    packet out of the abstraction ([null_meta_panics]). *)
Theorem packet_refines l :
  (forall k v, acts (Meta_Add l k v) l (a_add k v) (fun _ => tt)) /\
  (forall k, acts (Meta_Get l k) l (fun a => a) (a_get k)) /\
  acts (Meta_Clear l) l (a_set_meta ∅) (fun _ => tt) /\
  (forall d, acts (SetDest l d) l (a_set_dest d) (fun _ => tt)) /\
  acts (Dest l) l (fun a => a) a_dest /\
  acts (PktData l) l (fun a => a) a_buff /\
  acts (Clear l) l (a_set_buff []) (fun _ => tt) /\
  (forall d, acts (Write l d) l (a_write d) (fun _ => tt)) /\
  acts (Close l) l a_close (fun _ => tt) /\
  acts (Marshal l) l (fun a => a) (fun a => Some (render_pkt (Some (a_meta a)) (a_data a))) /\
  (forall bin, keeps_meta bin = true ->
     acts (Unmarshal l bin) l (fun a => (a_unmarshal bin a).1) (fun a => (a_unmarshal bin a).2)).
Proof. repeat split; intros; auto using Unmarshal_acts with concord. Qed.

(** ** The wire format *)

Definition strings_json (l : list (string * string)) : list (string * json) :=
  map (fun kv => (kv.1, JStr kv.2)) l.

Lemma parse_render_pkt m d :
  utf8_map m -> utf8_string d ->
  parse (render_pkt (Some m) d)
  = Some (JObj [("m"%string, JObj (strings_json (sorted_entries m))); ("d"%string, JStr d)]).
Proof.
  intros Hm Hd. apply (parse_enough (5 + size m)). unfold render_pkt. cbn [Nat.add].
  rewrite parse_object.
  rewrite (parse_member _ _ _ (JObj (strings_json (sorted_entries m)))).
  - cbn [Ascii.eqb Bool.eqb]. by rewrite (parse_member _ _ _ (JStr d)) by (done || by apply parse_quote).
  - done.
  - done.
  - by apply parse_render_map; [|lia].
Qed.

Lemma decode_strings_gen l m e :
  NoDup l.*1 ->
  fold_left decode_entry (strings_json l) (m, e) = (list_to_map l ∪ m, e).
Proof.
  revert m. induction l as [|[k v] l IH]; intros m ND; simpl.
  { by rewrite (left_id_L ∅ _ m). }
  apply list.NoDup_cons in ND as [Hk ND]. rewrite IH by done. f_equal.
  rewrite <- insert_union_l. symmetry. apply insert_union_r. by apply not_elem_of_list_to_map_1.
Qed.

Lemma decode_map_entries (m m0 : gmap string string) :
  decode_entries (strings_json (sorted_entries m)) m0 = (m ∪ m0, false).
Proof.
  unfold decode_entries. rewrite decode_strings_gen.
  - by rewrite list_to_map_sorted_entries.
  - rewrite sorted_entries_perm. apply NoDup_fst_map_to_list.
Qed.

Lemma pure_doc_render m d m0 d0 :
  utf8_map m -> utf8_string d ->
  pure_doc (render_pkt (Some m) d) m0 d0 = (m ∪ m0, d, false).
Proof.
  intros Hm Hd. unfold pure_doc. rewrite parse_render_pkt by done.
  cbn -[decode_entries]. unfold pure_member. cbn -[decode_entries].
  by rewrite decode_map_entries.
Qed.

Lemma keeps_meta_render m d :
  utf8_map m -> utf8_string d -> keeps_meta (render_pkt (Some m) d) = true.
Proof. intros Hm Hd. unfold keeps_meta. by rewrite parse_render_pkt. Qed.

(** Sending and receiving a packet: the sender commits and marshals, the
    receiver decodes into a packet of its own pool. *)
Definition receive_into (bin : bytes) : M Heap (nat * bool) :=
  let* l := NewPkt "" "" in
  let* ok := Unmarshal l bin in
  ret (l, ok).

Lemma receive_spec bin hr :
  heap_ok hr -> healthy hr -> keeps_meta bin = true ->
  wp (receive_into bin) (fun res h' => got res.1 hr h' /\ exists d,
    stale_data hr res.1 d /\
    abs h' res.1 = Some (a_unmarshal bin (fresh_pkt "" "" d)).1 /\
    res.2 = (a_unmarshal bin (fresh_pkt "" "" d)).2) hr.
Proof.
  intros Hok Hh Hk. unfold receive_into. rewrite wp_bind.
  eapply wp_mono; [by apply NewPkt_spec|]. intros l h1 (G & C & d & Hs & Ha).
  rewrite wp_bind.
  eapply wp_mono; [apply (Unmarshal_acts l bin Hk h1 _ (got_ok _ _ _ G) Ha)|].
  intros ok h2 (-> & F & A). apply wp_ret. eauto 10 using got_frame.
Qed.

(** (C2) Round trip over the wire: a packet of a well-formed heap whose metadata
    is valid UTF-8, committed with [Close] and marshalled, is decoded without an
    error by a receiver with a well-formed heap in which the two metadata
    references of every pooled packet agree and are not nil ([healthy]),
    whichever packet its pool hands out. The decoded packet has the data of the
    sent one and its metadata, with an empty entry for the reference added if
    the sent one had none. *)
Theorem packet_roundtrip hs ls a hr :
  heap_ok hs -> abs hs ls = Some a -> utf8_map (a_meta a) ->
  heap_ok hr -> healthy hr ->
  wp (Close ls ;;; Marshal ls) (fun ob _ => exists bin, ob = Some bin /\
    wp (receive_into bin) (fun res h' => res.2 = true /\
      abs h' res.1 = Some (mk_APkt (a_meta a ∪ {[KeyRef := ""%string]}) (a_buff a)
                             (s_of_b (Base64.encode (a_buff a))) "")) hr) hs.
Proof.
  intros Hoks Ha Hu Hokr Hh.
  assert (HM : acts (Close ls ;;; Marshal ls) ls a_close
    (fun a => Some (render_pkt (Some (a_meta a)) (a_data (a_close a))))).
  { eapply acts_ext; [eapply acts_seq; eauto with concord | done | done]. }
  eapply wp_mono; [by apply HM|]. intros ob _ (-> & _ & _). eexists. split; [done|].
  eapply wp_mono.
  { apply receive_spec; [done..|]. apply keeps_meta_render; [done | apply utf8_base64]. }
  intros [l ok] h' (_ & d & _ & A & E). simpl in *. unfold a_unmarshal in A, E. simpl in A, E.
  rewrite pure_doc_render in A, E by (done || apply utf8_base64).
  rewrite b_of_s_of_b, Base64.decode_encode in A, E. done.
Qed.

(** ** What pooled packets carry over *)

(** A received document without a data member yields the data of the
    packet's previous use: the pooled packet [l] last committed [b], and after
    [Unmarshal] of an object that has only metadata, [Data] returns [b]. *)
Theorem unmarshal_stale h l a b bin ms :
  heap_ok h -> abs h l = Some a -> a_data a = s_of_b (Base64.encode b) ->
  parse bin = Some (JObj ms) -> no_null_meta ms = true ->
  forallb (fun kv => negb (field_match "d" kv.1)) ms = true ->
  (pure_doc bin (a_meta a) (a_data a)).2 = false ->
  wp (let* ok := Unmarshal l bin in let* d := PktData l in ret (ok, d))
     (fun res _ => res = (true, b)) h.
Proof.
  intros Hok Ha Hd Hp Hn Hms Herr.
  assert (Hdata : (pure_doc bin (a_meta a) (a_data a)).1.2 = a_data a).
  { unfold pure_doc. rewrite Hp. generalize (a_meta a) as m, false as e. clear -Hms.
    induction ms as [|[k v] ms IH]; intros m e; [done|].
    simpl in Hms. apply andb_prop in Hms as [H1 H2]. apply negb_true_iff in H1.
    change (pure_members ((k, v) :: ms) ?st) with (pure_members ms (pure_member st (k, v))).
    unfold pure_member. simpl. rewrite H1.
    repeat case_match; simplify_eq; by apply IH. }
  assert (Hk : keeps_meta bin = true) by (unfold keeps_meta; by rewrite Hp).
  rewrite wp_bind. eapply wp_mono; [by apply (Unmarshal_acts l bin Hk h a)|].
  intros ok h1 (-> & F & A). rewrite wp_bind.
  eapply wp_mono; [apply (PktData_acts l h1 _ (fr_ok _ _ _ F) A)|].
  intros d h2 (-> & _ & _). apply wp_ret. unfold a_unmarshal.
  destruct (pure_doc bin (a_meta a) (a_data a)) as [[m d'] e]. simpl in *. subst.
  by rewrite Hd, b_of_s_of_b, Base64.decode_encode.
Qed.

(** An error packet is sent with the data of the pooled packet it reuses:
    [NewErrPkt] never commits its (empty) buffer, so when the pool hands out a
    packet that last carried the data [a_data a], the marshalled error packet
    contains that data next to the error metadata. *)
Theorem err_pkt_leaks h l a ref dst msg :
  heap_ok h -> healthy h ->
  pool h !! hd (length (pool h)) (oracle h) = Some l -> abs h l = Some a ->
  wp (let* e := NewErrPkt ref dst msg in Marshal e)
     (fun ob _ => ob = Some (render_pkt
        (Some (<[KeySvrMsg := msg]> (<[KeySvrStatus := "-1"%string]> {[KeyRef := ref]})))
        (a_data a))) h.
Proof.
  intros Hok Hh Hc Ha. rewrite wp_bind. eapply wp_mono; [by apply NewErrPkt_spec|].
  intros e h1 (G & C & d & Hs & A).
  eapply wp_mono; [apply (Marshal_acts e h1 _ (got_ok _ _ _ G) A)|].
  intros ob h2 (-> & _ & _). simpl. do 2 f_equal.
  pose proof (C l Hc) as ->.
  destruct Hs as [(a' & _ & Ha' & ->) | [Hn _]]; [congruence|].
  destruct Hn. apply list_elem_of_lookup. eauto.
Qed.

(** ** Documents that damage a pooled packet *)

(** [{"m":null}] and [{"m":null,"d":0}]. *)
Definition null_meta_doc : bytes := "{"%char :: quote "m" ++ b_of_s ":null}".
Definition split_meta_doc : bytes :=
  "{"%char :: quote "m" ++ b_of_s ":null," ++ quote "d" ++ b_of_s ":0}".

Lemma unmarshal_null_meta w : unmarshal_wire null_meta_doc w = ret (mk_jsonPkt None (Data w), false).
Proof. reflexivity. Qed.

Lemma unmarshal_split_meta w : unmarshal_wire split_meta_doc w = ret (mk_jsonPkt None (Data w), true).
Proof. reflexivity. Qed.

(** The choice of the packet that was just put back. *)
Lemma pool_Get_last h l o :
  oracle h = length (pool h) :: o ->
  (PutBack l ;;; pool_Get) h = Ok (l, mk_Heap (maps h) (pkts h) (pool h) (next h) o).
Proof.
  intros Ho. unfold PutBack, pool_Put, pool_Get, bind, modify, set_pool. cbn [pool oracle maps pkts next].
  rewrite Ho. cbn [hd tl]. rewrite lookup_app_r by lia. rewrite Nat.sub_diag. cbn.
  do 3 f_equal. rewrite delete_middle. by rewrite app_nil_r.
Qed.

(** [NewPkt] on the packet that was just put back. *)
Lemma NewPkt_last h l o ref dst :
  oracle h = length (pool h) :: o ->
  (PutBack l ;;; NewPkt ref dst) h =
  (Meta_Clear l ;;; Clear l ;;; SetDest l dst ;;; Meta_Add l KeyRef ref ;;; ret l)
    (mk_Heap (maps h) (pkts h) (pool h) (next h) o).
Proof.
  intros Ho. pose proof (pool_Get_last h l o Ho) as E. unfold NewPkt.
  unfold bind in E |- *. destruct (PutBack l h) as [[[] h1]|]; [|done]. by rewrite E.
Qed.

(** Symbolic execution of packet operations on an explicit heap. *)
Ltac heap_step :=
  progress (unfold wp, Meta_Clear, Clear, SetDest, Meta_Add, Meta_Get, Close, Marshal, setMeta,
    KVMeta_Clear, KVMeta_Add, KVMeta_Get, store, modify, gets, bind, load, ret, throw,
    set_pkts, set_maps, map_at; cbn -[insert lookup Base64.decode Base64.encode])
  || rewrite lookup_insert_eq
  || rewrite insert_insert_eq
  || match goal with
     | H : meta ?p = _ |- context [meta ?p] => rewrite H
     | H : Base64.decode ?d = Some _ |- context [Base64.decode ?d] => rewrite H
     end.
Ltac heap_run := repeat heap_step.

(** The packet a null-metadata document leaves behind. *)
Definition nil_meta_pkt (p : JSONPkt) (b : bytes) : JSONPkt :=
  mk_JSONPkt (mk_jsonPkt None (Data (wire p))) b None (dest p).

Lemma Unmarshal_null_meta h l p b :
  pkts h !! l = Some p -> Base64.decode (b_of_s (Data (wire p))) = Some b ->
  Unmarshal l null_meta_doc h = Ok (true, set_pkts <[l := nil_meta_pkt p b]> h).
Proof.
  intros Hp Hb. unfold Unmarshal. erewrite bind_ok by (by apply load_ok).
  rewrite unmarshal_null_meta. heap_run. done.
Qed.

(** (C34) A received packet with null metadata is accepted, and reusing the
    packet it was decoded into takes the process down: once it is back in the
    pool and is handed out again, [NewPkt] writes to a nil map and panics. *)
Theorem null_meta_panics h l a b o ref dst :
  abs h l = Some a -> Base64.decode (b_of_s (a_data a)) = Some b ->
  oracle h = length (pool h) :: o ->
  (let* ok := Unmarshal l null_meta_doc in
   if (ok : bool) then PutBack l ;;; NewPkt ref dst else ret l) h = Panic NilMapWrite.
Proof.
  intros Ha Hb Ho. destruct (abs_inv _ _ _ Ha) as (p & r & Hp & _ & _ & ->). simpl in Hb.
  erewrite bind_ok by (by apply Unmarshal_null_meta). cbn beta iota.
  rewrite (NewPkt_last _ l o) by done.
  heap_run. done.
Qed.

(** The packet a document with null metadata and a type error leaves behind:
    the wire struct lost its map, the metadata accessor kept it. *)
Lemma Unmarshal_split_meta h l p :
  pkts h !! l = Some p ->
  Unmarshal l split_meta_doc h
  = Ok (false, set_pkts <[l := set_wire (mk_jsonPkt None (Data (wire p))) p]> h).
Proof.
  intros Hp. unfold Unmarshal. erewrite bind_ok by (by apply load_ok).
  by rewrite unmarshal_split_meta.
Qed.

(** Lost metadata: after a rejected document with null metadata, the next
    packet made from the same pool entry accepts metadata (it reads back), but
    what is sent has none: the reference and every key set on it are missing
    on the wire. *)
Theorem split_meta_lost h l a o ref dst k v :
  abs h l = Some a -> oracle h = length (pool h) :: o ->
  wp (let* ok := Unmarshal l split_meta_doc in
      let* e := (PutBack l ;;; NewPkt ref dst) in
      Meta_Add e k v ;;; Close e ;;;
      let* v' := Meta_Get e k in
      let* ob := Marshal e in ret (ok, v', ob))
     (fun res _ => res = (false, v, Some (render_pkt None ""))) h.
Proof.
  intros Ha Ho. destruct (abs_inv _ _ _ Ha) as (p & r & Hp & Hr & Hr' & ->).
  rewrite wp_bind. eapply wp_ok; [by apply Unmarshal_split_meta|].
  rewrite wp_bind. unfold wp at 1. rewrite (NewPkt_last _ l o) by done.
  heap_run. done.
Qed.

(** ** The packet creator *)

(** The packets [Warmup] adds to the pool. *)
Lemma Warmup_spec n h :
  heap_ok h -> healthy h ->
  wp (Warmup n) (fun _ h' => heap_ok h' /\ healthy h' /\
    exists ls, pool h' = pool h ++ ls /\ length ls = n /\
      Forall (fun l => abs h' l = Some blank) ls /\
      forall k, is_Some (pkts h !! k) -> abs h' k = abs h k) h.
Proof.
  revert h. induction n as [|n IH]; intros h Hok Hh; cbn [Warmup].
  { apply wp_ret. split; [done|]. split; [done|]. exists []. by rewrite app_nil_r. }
  rewrite wp_bind, wp_bind. unfold wp at 1. rewrite pool_New_eq.
  pose proof (pool_New_got h Hok) as G. unfold wp in G. rewrite pool_New_eq in G.
  destruct G as (G & Hn & A1). set (l := S (S (next h))) in *. set (h1 := after_New h) in *.
  eapply wp_mono.
  { apply (PutBack_spec h1 l);
      [apply (got_ok _ _ _ G) | apply (got_live _ _ _ G) | by apply (got_not_pooled l h)]. }
  intros [] h2 (O2 & P2 & A2 & K2).
  assert (Hl : is_Some (pkts h2 !! l)) by (rewrite K2; apply (got_live _ _ _ G)).
  assert (Hh2 : healthy h2).
  { intros k. rewrite P2, A2, elem_of_app, list_elem_of_singleton.
    intros [Hk | ->]; [by apply (got_healthy l h h1) | by rewrite A1]. }
  eapply wp_mono; [by apply IH|]. intros [] h3 (O3 & Hh3 & ls & P3 & L3 & F3 & A3).
  split; [done|]. split; [done|]. exists (l :: ls). rewrite P3, P2. simpl. split_and!.
  - by rewrite <- app_assoc.
  - by rewrite L3.
  - constructor; [|done]. by rewrite A3, A2.
  - intros k Hk. assert (k <> l).
    { intros ->. destruct Hk as [q Hq]. apply (ok_pkts h Hok) in Hq. unfold l in Hq. lia. }
    rewrite A3, A2; [by apply (got_abs _ _ _ G)|]. rewrite K2. by apply (got_pkts _ _ _ G).
Qed.

Lemma creator_heap n o :
  wp (NewJSONPktCreator n) (fun _ h => heap_ok h /\ healthy h /\
    length (pool h) = n /\ NoDup (pool h) /\
    forall l, l ∈ pool h -> abs h l = Some blank) (heap0 o).
Proof.
  eapply wp_mono.
  { apply Warmup_spec; [apply heap0_ok|]. intros l Hl. by apply not_elem_of_nil in Hl. }
  intros [] h (Hok & Hh & ls & P & L & F & _). simpl in P. rewrite P.
  split; [done|]. split; [done|]. split; [done|]. split.
  - rewrite <- P. apply Hok.
  - by apply list.Forall_forall.
Qed.

(** A new packet creator: in the heap of a new process,
    [NewJSONPktCreator n] fills the pool with exactly [n] different packets,
    all blank, and the heap is in the state the other properties ask for. *)
Theorem creator_pool n o :
  wp (NewJSONPktCreator n) (fun _ h => heap_ok h /\ healthy h /\
    length (pool h) = n /\ NoDup (pool h) /\
    forall l, l ∈ pool h -> abs h l = Some blank) (heap0 o).
Proof. apply creator_heap. Qed.
