(* ===== verification/PacketSound.v ===== *)
(** * PacketSound: no document and no call corrupts the heap of packets

    [PacketSpec] describes packets whose two metadata references agree.  Here
    nothing is assumed of the packet: a hostile document may have set its map to
    nil or split the references.  Every operation still leaves a well-formed
    heap ([heap_ok]), and the one panic it can cause is a write to a nil map. *)

From Stdlib Require Import ZArith Lia Ascii String.
From stdpp Require Import base list strings gmap fin_maps.
From S2P Require Import Prelude Base64 Utf8 JsonText Decimal Json Packet PacketSpec PacketProps.

(** The packets of [h] exist in [h'] too. *)
Definition grows (h h' : Heap) : Prop := forall k, is_Some (pkts h !! k) -> is_Some (pkts h' !! k).

Lemma grows_refl h : grows h h.
Proof. by intros k. Qed.
#[local] Hint Resolve grows_refl : core.

Lemma grows_trans h1 h2 h3 : grows h1 h2 -> grows h2 h3 -> grows h1 h3.
Proof. unfold grows. auto. Qed.

(** [m] leaves a well-formed heap, or, if it [may] panic, panics with a write to
    a nil map. *)
Definition sound (may : bool) {A} (m : M Heap A) (Q : A -> Heap -> Prop) (h : Heap) : Prop :=
  match m h with
  | Ok (a, h') => heap_ok h' /\ grows h h' /\ Q a h'
  | Panic e => may = true /\ e = NilMapWrite
  end.

Section sound.
Variable may : bool.
Local Abbreviation sound := (sound may).

Lemma sound_bind {A B} (m : M Heap A) (k : A -> M Heap B) P Q h :
  sound m P h -> (forall a h', heap_ok h' -> grows h h' -> P a h' -> sound (k a) Q h') ->
  sound (bind m k) Q h.
Proof.
  unfold sound, bind. intros Hm Hk. destruct (m h) as [[a h1]|e]; [|done].
  destruct Hm as (O1 & G1 & P1). specialize (Hk a h1 O1 G1 P1).
  destruct (k a h1) as [[b h2]|e]; [|done]. destruct Hk as (O2 & G2 & Q2).
  split_and!; [done | by eapply grows_trans | done].
Qed.

Lemma sound_ret {A} (a : A) (Q : A -> Heap -> Prop) h : heap_ok h -> Q a h -> sound (ret a) Q h.
Proof. intros Ho Hq. by split_and!. Qed.

Lemma sound_mono {A} (m : M Heap A) (P Q : A -> Heap -> Prop) h :
  sound m P h -> (forall a h', P a h' -> Q a h') -> sound m Q h.
Proof. unfold sound. intros Hm H. destruct (m h) as [[a h1]|e]; [|done].
  destruct Hm as (O1 & G1 & P1). auto. Qed.

Definition live (l : nat) (h : Heap) : Prop := is_Some (pkts h !! l).

Lemma sound_load l (Q : JSONPkt -> Heap -> Prop) h :
  heap_ok h -> live l h -> (forall p, pkts h !! l = Some p -> Q p h) -> sound (load l) Q h.
Proof. intros Ho [p Hp] HQ. unfold sound, load. rewrite Hp. split_and!; [done | done | auto]. Qed.

Lemma sound_store l p p' h :
  heap_ok h -> pkts h !! l = Some p -> (forall r, refs p' r -> may_refer h l r) ->
  sound (store l p') (fun _ h' => h' = set_pkts <[l := p']> h) h.
Proof.
  intros Ho Hp Hr. unfold sound, store. simpl. split_and!; [by eapply heap_ok_store | | done].
  intros k Hk. simpl. destruct (decide (k = l)) as [->|Hne];
    [rewrite lookup_insert_eq; eauto | by rewrite lookup_insert_ne].
Qed.

(** Methods that replace fields of the struct, read it, or go through the
    metadata accessor. *)
Lemma sound_field l (g : JSONPkt -> JSONPkt) h :
  heap_ok h -> live l h -> (forall p r, refs (g p) r -> refs p r) ->
  sound (let* p := load l in store l (g p)) (fun _ h' => pool h' = pool h) h.
Proof.
  intros Ho Hl Hg. eapply sound_bind; [by apply (sound_load l (fun p h' => h' = h /\ pkts h !! l = Some p))|].
  intros p h' _ _ [-> Hp]. eapply sound_mono; [eapply sound_store; [done | done |] | by intros ? ? ->].
  intros r Hr. eapply refs_may_refer; eauto.
Qed.

Lemma sound_read {A} l (g : JSONPkt -> A) h :
  heap_ok h -> live l h -> sound (let* p := load l in ret (g p)) (fun _ h' => pool h' = pool h) h.
Proof. intros Ho [p Hp]. unfold sound, bind, load. by rewrite Hp. Qed.

Lemma sound_meta {A} l (m : mref -> M Heap A) h :
  heap_ok h -> live l h ->
  (forall o, (forall r, o = Some r -> is_Some (maps h !! r)) ->
     sound (m o) (fun _ h' => pool h' = pool h) h) ->
  sound (let* p := load l in m (meta p)) (fun _ h' => pool h' = pool h) h.
Proof.
  intros Ho Hl Hm. eapply sound_bind; [by apply (sound_load l (fun p h' => h' = h /\ pkts h !! l = Some p))|].
  intros p h' _ _ [-> Hp]. apply Hm. intros r Hr. eapply (ok_refs _ Ho); [done | by right].
Qed.

Lemma sound_set_map r m h :
  heap_ok h -> is_Some (maps h !! r) ->
  sound (modify (set_maps <[r := m]>)) (fun _ h' => h' = set_maps <[r := m]> h) h.
Proof. intros Ho Hr. unfold sound. simpl. split_and!; [by apply heap_ok_set_map | by intros k | done]. Qed.

Lemma sound_alloc_map m h :
  heap_ok h ->
  sound (alloc_map m) (fun r h' => r = next h /\ pkts h' = pkts h /\ pool h' = pool h /\
    maps h' = <[next h := m]> (maps h)) h.
Proof.
  intros [K Ms R S ND PP]. unfold sound, alloc_map. split; [|by split_and!; [intros k|..]].
  split; simpl; try done.
  - intros l p Hp. apply K in Hp. lia.
  - intros r Hr. destruct (decide (r = next h)) as [->|Hne]; [lia|].
    rewrite lookup_insert_ne in Hr by done. apply Ms in Hr. lia.
  - intros l p r Hp Hr. pose proof (Ms r (R l p r Hp Hr)).
    rewrite lookup_insert_ne by lia. by eapply R.
Qed.

(** ** Decoding *)

(** The wire struct that is being decoded belongs to packet [l] of [h0]. *)
Definition wire_of (l : nat) (h0 : Heap) (w : jsonPkt) (h : Heap) : Prop :=
  pkts h = pkts h0 /\ pool h = pool h0 /\ forall r, Meta w = Some r -> may_refer h l r.

Lemma sound_decode_m l h0 v w h :
  heap_ok h -> wire_of l h0 w h -> sound (decode_m v w) (fun x h' => wire_of l h0 x.1 h') h.
Proof.
  intros Ho (P & Q & Hw). destruct v as [|b|z|s|ms|ms]; simpl; try (by apply sound_ret).
  eapply (sound_bind _ _ (fun r h' => pkts h' = pkts h0 /\ pool h' = pool h0 /\ may_refer h' l r)).
  - destruct (Meta w) as [r|] eqn:Er; [apply sound_ret; [done | split_and!; [done | done | by apply Hw]]|].
    eapply sound_mono; [by apply sound_alloc_map|].
    intros r h' (-> & P' & Q' & E'). split_and!; [congruence | congruence |].
    split; [rewrite E', lookup_insert_eq; eauto|]. intros k q Hq Hr. rewrite P' in Hq.
    pose proof (ok_maps _ Ho (next h) (ok_refs _ Ho _ _ _ Hq Hr)). lia.
  - intros r h' Ho' _ (P' & Q' & Hr & Hsep). destruct (decode_entries ms (map_at h' r)) as [m' err] eqn:Ed.
    unfold sound, bind, gets, modify, ret. simpl. rewrite Ed. split_and!; [by apply heap_ok_set_map | by intros k |]. split_and!; [done | done |]. intros r' [= <-]. split; [|done]. simpl. rewrite lookup_insert_eq. eauto.
Qed.

Lemma sound_decode_members l h0 ms w h :
  heap_ok h -> wire_of l h0 w h -> sound (decode_members ms w) (fun x h' => wire_of l h0 x.1 h') h.
Proof.
  revert w h. induction ms as [|[k v] ms IH]; intros w h Ho Hw; [by apply sound_ret|].
  cbn [decode_members]. eapply (sound_bind _ _ (fun x h' => wire_of l h0 x.1 h')).
  - destruct (field_match "m" k); [by apply sound_decode_m|].
    destruct (field_match "d" k); apply sound_ret; try done. by destruct v, Hw as (? & ? & ?).
  - intros [w1 e1] h1 Ho1 _ Hw1. eapply sound_bind; [by apply IH|].
    intros [w2 e2] h2 Ho2 _ Hw2. by apply sound_ret.
Qed.

Lemma sound_unmarshal_wire l h0 bin w h :
  heap_ok h -> wire_of l h0 w h -> sound (unmarshal_wire bin w) (fun x h' => wire_of l h0 x.1 h') h.
Proof.
  intros Ho Hw. unfold unmarshal_wire.
  destruct (parse bin) as [[]|]; try (by apply sound_ret). by apply sound_decode_members.
Qed.

Lemma sound_Unmarshal l bin h :
  heap_ok h -> live l h -> sound (Unmarshal l bin) (fun _ h' => pool h' = pool h) h.
Proof.
  intros Ho Hl. unfold Unmarshal.
  eapply sound_bind; [by apply (sound_load l (fun p h' => h' = h /\ pkts h !! l = Some p))|].
  intros p h1 _ _ [-> Hp]. eapply sound_bind.
  { apply (sound_unmarshal_wire l h); [done|]. split_and!; [done | done |].
    intros r Hr. eapply refs_may_refer; [done | done | by left]. }
  intros [w err] h2 Ho2 _ (P2 & Q2 & Hw). simpl in Hw. rewrite <- P2 in Hp.
  eapply sound_bind; [eapply sound_store; [done | done |]|].
  { intros r [Hr|Hr]; [by apply Hw|]. eapply refs_may_refer; [done | done | by right]. }
  intros [] h3 Ho3 _ E3. destruct err; [apply sound_ret; [done | by rewrite E3]|].
  set (p3 := set_wire w p) in *.
  assert (Hp3 : pkts h3 !! l = Some p3) by (rewrite E3; apply lookup_insert_eq).
  eapply (sound_bind _ _ (fun _ h' => pool h' = pool h /\ live l h')).
  - unfold setMeta. eapply sound_bind.
    { apply (sound_load l (fun p h' => h' = h3 /\ p = p3)); [done | by eexists |]. intros q Hq. by simplify_eq. }
    intros q h' _ _ [-> ->]. eapply sound_mono; [eapply sound_store; [done | done |]|].
    + intros r [Hr|Hr]; (eapply refs_may_refer; [done | done | by left]).
    + intros [] h' ->. simpl. rewrite E3. split; [done|]. unfold live. simpl. rewrite lookup_insert_eq. eauto.
  - intros [] h4 Ho4 _ [Q4 L4]. destruct (Base64.decode _) as [d|]; [|by apply sound_ret].
    eapply sound_bind; [apply (sound_load l (fun p h' => h' = h4 /\ pkts h4 !! l = Some p)); auto|].
    intros q h5 _ _ [-> Hq]. eapply sound_bind; [eapply sound_store; [done | done |]|].
    { intros r Hr. eapply refs_may_refer; [done | done | exact Hr]. }
    intros [] h5 Ho5 _ ->. by apply sound_ret.
Qed.

(** ** The creator *)

Lemma sound_pool_Get h :
  heap_ok h -> sound pool_Get (fun l h' => live l h' /\ l ∉ pool h') h.
Proof.
  intros Ho. pose proof (pool_Get_got h Ho) as H. unfold wp, sound in *.
  destruct (pool_Get h) as [[l h']|]; [|done]. destruct H as (G & _).
  split_and!; [by eapply got_ok | | by eapply got_live | by eapply got_not_pooled].
  intros k Hk. destruct (decide (k = l)) as [->|Hne]; [by eapply got_live | by apply (got_pkts _ _ _ G)].
Qed.

Lemma sound_Meta_Clear l h :
  heap_ok h -> live l h -> sound (Meta_Clear l) (fun _ h' => pool h' = pool h) h.
Proof.
  intros Ho Hl. apply (sound_meta l KVMeta_Clear); [done | done |]. intros [r|] Hr; [|by apply sound_ret].
  eapply sound_mono; [apply sound_set_map; [done | by apply Hr] | by intros ? ? ->].
Qed.

Lemma sound_Marshal l h :
  heap_ok h -> live l h -> sound (Marshal l) (fun _ h' => pool h' = pool h) h.
Proof.
  intros Ho [p Hp]. unfold Marshal, sound, bind, load. rewrite Hp. by destruct (Meta (wire p)).
Qed.
End sound.

Lemma sound_Meta_Add l key val h :
  heap_ok h -> live l h -> sound true (Meta_Add l key val) (fun _ h' => pool h' = pool h) h.
Proof.
  intros Ho Hl. apply (sound_meta true l (fun o => KVMeta_Add o key val)); [done | done |].
  intros [r|] Hr; [|done].
  eapply sound_mono; [apply (sound_set_map true r); [done | by apply Hr] | by intros ? ? ->].
Qed.

(** A method of the packet a computation has just taken from the pool. *)
Definition taken (l : nat) (h : Heap) : Prop := live l h /\ l ∉ pool h.

Lemma sound_taken {A B} (m : M Heap A) (k : M Heap B) l (Q : B -> Heap -> Prop) h :
  sound true m (fun _ h' => pool h' = pool h) h -> taken l h ->
  (forall h', heap_ok h' -> taken l h' -> sound true k Q h') -> sound true (m ;;; k) Q h.
Proof.
  intros Hm [Hl Hn] Hk. eapply sound_bind; [exact Hm|]. intros a h' Ho' Hg' P'. apply Hk; [done|].
  split; [by apply Hg' | by rewrite P'].
Qed.

Lemma sound_NewPkt ref dst h : heap_ok h -> sound true (NewPkt ref dst) taken h.
Proof.
  intros Ho. unfold NewPkt. eapply sound_bind; [by apply sound_pool_Get|]. intros l h0 Ho0 _ T0.
  eapply sound_taken; [apply sound_Meta_Clear; [done | apply T0] | done |]. intros h1 Ho1 T1.
  eapply sound_taken; [apply sound_field; [done | apply T1 | done] | done |]. intros h2 Ho2 T2.
  eapply sound_taken; [apply sound_field; [done | apply T2 | done] | done |]. intros h3 Ho3 T3.
  eapply sound_taken; [apply sound_Meta_Add; [done | apply T3] | done |]. intros h4 Ho4 T4.
  by apply sound_ret.
Qed.

Lemma sound_NewErrPkt ref dst msg h : heap_ok h -> sound true (NewErrPkt ref dst msg) taken h.
Proof.
  intros Ho. unfold NewErrPkt. eapply sound_bind; [by apply sound_NewPkt|]. intros l h0 Ho0 _ T0.
  eapply sound_taken; [apply sound_Meta_Add; [done | apply T0] | done |]. intros h1 Ho1 T1.
  eapply sound_taken; [apply sound_Meta_Add; [done | apply T1] | done |]. intros h2 Ho2 T2.
  by apply sound_ret.
Qed.

(** (C21) Type soundness of the packets' heap: on a well-formed heap every method
    of every packet, whatever documents it was decoded from, leaves a
    well-formed heap in which all packets live on, and does not touch the pool;
    only the metadata's [Add] can panic, and only with a write to a nil map.
    [NewPkt] and [NewErrPkt] return an existing packet that is not pooled, or
    panic in the same way. *)
Theorem packets_sound h :
  heap_ok h ->
  (forall l, live l h ->
     let method may {A} (m : M Heap A) := sound may m (fun _ h' => pool h' = pool h) h in
     (forall d, method false (SetDest l d)) /\ method false (Dest l) /\ method false (PktData l) /\
     (forall k, method false (Meta_Get l k)) /\ method false (Meta_Clear l) /\
     method false (Clear l) /\ (forall d, method false (Write l d)) /\ method false (Close l) /\
     method false (Marshal l) /\ (forall bin, method false (Unmarshal l bin)) /\
     forall k v, method true (Meta_Add l k v)) /\
  (forall ref dst, sound true (NewPkt ref dst) taken h) /\
  (forall ref dst msg, sound true (NewErrPkt ref dst msg) taken h) /\
  (forall l, taken l h -> sound false (PutBack l) (fun _ h' => pool h' = pool h ++ [l]) h).
Proof.
  intros Ho. split_and!.
  - intros l Hl method. unfold method. split_and!; intros;
      first [by apply sound_field | by apply (sound_read false) | by apply sound_Meta_Clear
        | by apply sound_Marshal | by apply sound_Unmarshal | by apply sound_Meta_Add
        | apply (sound_meta false l (fun o => KVMeta_Get o k)); [done | done |]; by intros [r|] Hr].
  - intros. by apply sound_NewPkt.
  - intros. by apply sound_NewErrPkt.
  - intros l [Hl Hn]. pose proof (PutBack_spec h l Ho Hl Hn) as H. unfold wp, sound in *.
    destruct (PutBack l h) as [[[] h']|]; [|done]. destruct H as (Ho' & P' & _ & K').
    split_and!; [done | | done]. intros k. by rewrite K'.
Qed.
