(* ===== verification/Fmt.v ===== *)
(** * Fmt: fmt.Errorf called with a format and no operands

    The program builds most errors as [fmt.Errorf(text)], with the text in the
    place of the format.  [Errorf] is the text of the resulting error: what
    [fmt]'s [doPrintf] writes when there are no operands.  Without a percent
    sign the text is unchanged. *)

From Stdlib Require Import ZArith Lia Ascii String.
From stdpp Require Import base list strings.
From S2P Require Import Prelude Base64 Utf8 JsonText Decimal.
Open Scope Z_scope.

Definition is_flag (c : ascii) : bool := existsb (Ascii.eqb c) (b_of_s "#0+- ").

Fixpoint skip_flags (s : bytes) : bytes :=
  match s with
  | c :: r => if is_flag c then skip_flags r else s
  | [] => []
  end.

(** [parsenum]: whether a number was read and the rest; a number above a
    million consumes everything and counts as absent. *)
Fixpoint parsenum (num : Z) (isnum : bool) (s : bytes) : bool * bytes :=
  match s with
  | c :: r =>
      if is_digit c then
        if 1000000 <? num then (false, [])
        else parsenum (num * 10 + (zb c - 48)) true r
      else (isnum, s)
  | [] => (isnum, [])
  end.

(** The text between brackets, and what follows the closing one. *)
Fixpoint bracketed (s : bytes) : option (bytes * bytes) :=
  match s with
  | c :: r =>
      if Ascii.eqb c "]" then Some ([], r)
      else match bracketed r with
           | Some (l, t) => Some (c :: l, t)
           | None => None
           end
  | [] => None
  end.

(** [argNumber] with no operands: any index is out of range.  The result is
    the rest of the format, whether an index was seen (and clears the
    directive), and whether one was well formed. *)
Definition argNumber (s : bytes) : bytes * bool * bool :=
  match s with
  | c :: r =>
      if Ascii.eqb c "[" then
        match bracketed r with
        | Some (l, t) =>
            if (length s <? 3)%nat then (r, true, false)
            else
              let '(isnum, rest) := parsenum 0 false l in
              (t, true, isnum && bool_decide (rest = []))
        | None => (r, true, false)
        end
      else (s, false, false)
  | [] => ([], false, false)
  end.

Definition verb_text (s : bytes) : bytes := take (snd (decode_rune s)) s.

(** What is written for the directive after a percent sign, and the rest. *)
Definition directive (s : bytes) : bytes * bytes :=
  let s1 := skip_flags s in
  let '(s2, bad1, after1) := argNumber s1 in
  let '(out1, s3, bad2, after2) :=
    match s2 with
    | c :: r =>
        if Ascii.eqb c "*" then (b_of_s "%!(BADWIDTH)", r, bad1, false)
        else let '(isnum, t) := parsenum 0 false s2 in
             ([], t, bad1 || (after1 && isnum), after1)
    | [] => ([], [], bad1, after1)
    end in
  let '(out2, s4, bad3, after3) :=
    match s3 with
    | c :: r =>
        if Ascii.eqb c "." then
          let '(s5, bad, after) := argNumber r in
          let bad' := bad2 || after2 || bad in
          match s5 with
          | d :: r5 =>
              if Ascii.eqb d "*" then (b_of_s "%!(BADPREC)", r5, bad', false)
              else ([], (parsenum 0 false s5).2, bad', after)
          | [] => ([], [], bad', after)
          end
        else ([], s3, bad2, after2)
    | [] => ([], [], bad2, after2)
    end in
  let '(s6, bad4, _) := if after3 : bool then (s4, false, true) else argNumber s4 in
  let out := out1 ++ out2 in
  match s6 with
  | [] => (out ++ b_of_s "%!(NOVERB)", [])
  | v :: _ =>
      let rest := drop (snd (decode_rune s6)) s6 in
      if Ascii.eqb v "%" then (out ++ ["%"%char], rest)
      else if bad3 || bad4
      then (out ++ b_of_s "%!" ++ verb_text s6 ++ b_of_s "(BADINDEX)", rest)
      else (out ++ b_of_s "%!" ++ verb_text s6 ++ b_of_s "(MISSING)", rest)
  end.

Definition fmt_step (s : bytes) : bytes * nat :=
  match s with
  | [] => ([], 1%nat)
  | c :: r =>
      if Ascii.eqb c "%" then
        let '(out, rest) := directive r in (out, (length s - length rest)%nat)
      else ([c], 1%nat)
  end.

Definition Errorf (format : string) : string := s_of_b (chunked fmt_step 0 (b_of_s format)).

(** The text has no percent sign. *)
Definition no_percent (s : string) : bool := forallb (fun c => negb (Ascii.eqb c "%")) (b_of_s s).

Lemma Errorf_plain s : no_percent s = true -> Errorf s = s.
Proof.
  unfold no_percent, Errorf. intros H.
  enough (E : chunked fmt_step 0 (b_of_s s) = b_of_s s) by (by rewrite E, s_of_b_of_s).
  induction (b_of_s s) as [|c l IH]; [done|]. simpl in H. apply andb_prop in H as [Hc Hl].
  apply negb_true_iff in Hc. cbn [chunked fmt_step]. rewrite Hc. simpl. by rewrite IH.
Qed.

Lemma no_percent_app s t : no_percent (s +:+ t) = no_percent s && no_percent t.
Proof. unfold no_percent. by rewrite b_of_s_app, forallb_app. Qed.

Example Errorf_percent : Errorf "100% done" = "100%!d(MISSING)one"%string.
Proof. reflexivity. Qed.
