(* ===== verification/Pipeline.v ===== *)
(** * Pipeline: the data and packet pipelines (src/core)

    A data pipeline is a named list of buffer transforms, a packet pipeline a
    list of callbacks per target.  Transforms and callbacks are computations on
    the state [W] of the process; they receive their context by reference, so
    each returns the context it leaves.  The read-write mutexes only make the
    lookup of the list atomic and are not modelled further. *)

From Stdlib Require Import ZArith Lia Ascii String.
From stdpp Require Import base list strings gmap fin_maps.
From S2P Require Import Prelude Fmt.
Open Scope Z_scope.

(** Context status codes (extension.go) *)
Definition CodeContinue : Z := 0.
Definition CodeStopError : Z := -1.
Definition CodeStopCloseSend : Z := 1.
Definition CodeStopNoop : Z := 2.
Definition CodeRelay : Z := 3.

Record PipelineCtx := mk_PipelineCtx {
  Pkt : option nat;        (* nil in the pipelines for incoming data *)
  Stat : Z;
  Msg : string;
}.

Record TransformContext := mk_TransformContext {
  t_ctx : PipelineCtx;
  PipelineName : string;
  t_From : string;
}.

Record TargetCtx := mk_TargetCtx {
  c_ctx : PipelineCtx;
  TargetName : string;
  c_From : string;
}.

Definition set_stat (s : Z) (m : string) (c : PipelineCtx) : PipelineCtx :=
  mk_PipelineCtx (Pkt c) s m.
Definition t_stop (s : Z) (m : string) (c : TransformContext) : TransformContext :=
  mk_TransformContext (set_stat s m (t_ctx c)) (PipelineName c) (t_From c).
Definition c_stop (s : Z) (m : string) (c : TargetCtx) : TargetCtx :=
  mk_TargetCtx (set_stat s m (c_ctx c)) (TargetName c) (c_From c).

(** How the loops of both [Process] methods react to a status. *)
Inductive verdict := VError | VStop | VGo.

Definition judge (stat : Z) : verdict :=
  if stat =? CodeStopError then VError
  else if (stat =? CodeStopNoop) || (stat =? CodeStopCloseSend) then VStop
  else VGo.

Section pipelines.
Context {W : Type}.

(** [func(ctx *TransformContext, buff []byte) []byte] *)
Definition BufferTransform : Type := TransformContext -> bytes -> M W (TransformContext * bytes).

(** [func(ctx *TargetCtx, pw packet.Writer)]; a writer is a packet. *)
Definition TargetCallback : Type := TargetCtx -> nat -> M W TargetCtx.

(** ** DataPipeline *)
Record DataPipeline := mk_DataPipeline {
  locked : bool;
  pipelines : gmap string (list BufferTransform);
}.

Definition NewDataPipeline : DataPipeline := mk_DataPipeline false ∅.

Definition Lock (d : DataPipeline) : DataPipeline := mk_DataPipeline true (pipelines d).
Definition Unlock (d : DataPipeline) : DataPipeline := mk_DataPipeline false (pipelines d).

Definition transforms (d : DataPipeline) (name : string) : list BufferTransform :=
  default [] (pipelines d !! name).

Definition AddTransform (name : string) (t : BufferTransform) (d : DataPipeline) : DataPipeline :=
  mk_DataPipeline (locked d) (<[name := transforms d name ++ [t]]> (pipelines d)).

(** The loop of [Process]: the context, the data and the error. *)
Fixpoint run_transforms (ts : list BufferTransform) (ctx : TransformContext) (data : bytes)
    : M W (TransformContext * bytes * option string) :=
  match ts with
  | [] => ret (ctx, data, None)
  | t :: r =>
      let* (ctx', data') := t ctx data in
      match judge (Stat (t_ctx ctx')) with
      | VError => ret (ctx', data', Some (Errorf ("pipeline terminated: " +:+ Msg (t_ctx ctx'))))
      | VStop => ret (ctx', data', None)
      | VGo => run_transforms r ctx' data'
      end
  end.

Definition DataProcess (d : DataPipeline) (ctx : TransformContext) (data : bytes)
    : M W (TransformContext * bytes * option string) :=
  run_transforms (transforms d (PipelineName ctx)) ctx data.

(** ** PacketPipeline *)
Record PacketPipeline := mk_PacketPipeline {
  callbackQueues : gmap string (list TargetCallback);
}.

Definition NewPacketPipeline : PacketPipeline := mk_PacketPipeline ∅.

Definition AddCallback (target : string) (cb : TargetCallback) (pp : PacketPipeline)
    : PacketPipeline :=
  mk_PacketPipeline
    (<[target := default [] (callbackQueues pp !! target) ++ [cb]]> (callbackQueues pp)).

Fixpoint run_callbacks (cbs : list TargetCallback) (ctx : TargetCtx) (pw : nat)
    : M W (TargetCtx * option string) :=
  match cbs with
  | [] => ret (ctx, None)
  | cb :: r =>
      let* ctx' := cb ctx pw in
      match judge (Stat (c_ctx ctx')) with
      | VError => ret (ctx', Some (Errorf (Msg (c_ctx ctx'))))
      | VStop => ret (ctx', None)
      | VGo => run_callbacks r ctx' pw
      end
  end.

Definition PacketProcess (pp : PacketPipeline) (ctx : TargetCtx) (pw : nat)
    : M W (TargetCtx * option string) :=
  match callbackQueues pp !! TargetName ctx with
  | None => ret (ctx, Some (Errorf "target not found"))
  | Some cbs => run_callbacks cbs ctx pw
  end.
End pipelines.
Arguments BufferTransform : clear implicits.
Arguments TargetCallback : clear implicits.
Arguments DataPipeline : clear implicits.
Arguments PacketPipeline : clear implicits.

(** ** Properties *)

Section pipeline_props.
Context {W : Type}.

Definition going (c : TransformContext) : bool :=
  match judge (Stat (t_ctx c)) with VGo => true | _ => false end.
Definition c_going (c : TargetCtx) : bool :=
  match judge (Stat (c_ctx c)) with VGo => true | _ => false end.

Lemma bind_assoc {S A B C} (m : M S A) (f : A -> M S B) (g : B -> M S C) s :
  bind (bind m f) g s = bind m (fun a => bind (f a) g) s.
Proof. unfold bind. by destruct (m s) as [[a s']|]. Qed.

Lemma bind_ext {S A B} (m : M S A) (f g : A -> M S B) s :
  (forall a s', m s = Ok (a, s') -> f a s' = g a s') -> bind m f s = bind m g s.
Proof. unfold bind. destruct (m s) as [[a s']|]; auto. Qed.

(** Running a list of transforms in two parts: the second part runs exactly
    when the first one ended with a status that continues. *)
Lemma run_transforms_app (ts1 ts2 : list (BufferTransform W)) ctx data w :
  going ctx = true ->
  run_transforms (ts1 ++ ts2) ctx data w =
    (let* (c, d, e) := run_transforms ts1 ctx data in
     if going c then run_transforms ts2 c d else ret (c, d, e)) w.
Proof.
  revert ctx data w. induction ts1 as [|t ts1 IH]; intros ctx data w Hg; cbn [app run_transforms].
  { unfold bind, ret. by rewrite Hg. }
  rewrite bind_assoc. apply bind_ext. intros [c d] w' _. unfold going.
  destruct (judge (Stat (t_ctx c))) eqn:E.
  - unfold bind, ret. by rewrite E.
  - unfold bind, ret. by rewrite E.
  - apply IH. unfold going. by rewrite E.
Qed.

Lemma run_callbacks_app (cs1 cs2 : list (TargetCallback W)) ctx pw w :
  c_going ctx = true ->
  run_callbacks (cs1 ++ cs2) ctx pw w =
    (let* (c, e) := run_callbacks cs1 ctx pw in
     if c_going c then run_callbacks cs2 c pw else ret (c, e)) w.
Proof.
  revert ctx w. induction cs1 as [|t cs1 IH]; intros ctx w Hg; cbn [app run_callbacks].
  { unfold bind, ret. by rewrite Hg. }
  rewrite bind_assoc. apply bind_ext. intros c w' _. unfold c_going.
  destruct (judge (Stat (c_ctx c))) eqn:E.
  - unfold bind, ret. by rewrite E.
  - unfold bind, ret. by rewrite E.
  - apply IH. unfold c_going. by rewrite E.
Qed.

(** A pipeline without transforms passes the data on. *)
Lemma DataProcess_none (d : DataPipeline W) ctx data :
  transforms d (PipelineName ctx) = [] -> DataProcess d ctx data = ret (ctx, data, None).
Proof. unfold DataProcess. by intros ->. Qed.

(** Adding a transform to a data pipeline: processing then runs the
    existing transforms and, exactly when none of them stopped the pipeline, the
    new one on what they produced; the other pipelines are not affected. *)
Theorem AddTransform_runs_last (d : DataPipeline W) name t ctx data w :
  going ctx = true ->
  DataProcess (AddTransform name t d) ctx data w =
    if String.eqb name (PipelineName ctx) then
      (let* (c, dt, e) := DataProcess d ctx data in
       if going c then run_transforms [t] c dt else ret (c, dt, e)) w
    else DataProcess d ctx data w.
Proof.
  intros Hg. unfold DataProcess, transforms, AddTransform. simpl.
  destruct (String.eqb_spec name (PipelineName ctx)) as [->|Hne].
  - rewrite lookup_insert_eq. simpl. by apply run_transforms_app.
  - by rewrite lookup_insert_ne.
Qed.

(** Adding a callback to a target: packets for the target run the existing
    queue and then, exactly when it did not stop, the new callback; a target
    without callbacks comes into being with this one; the other targets (unknown
    ones included, which report "target not found") are not affected. *)
Theorem AddCallback_runs_last (pp : PacketPipeline W) target cb ctx pw w :
  c_going ctx = true ->
  PacketProcess (AddCallback target cb pp) ctx pw w =
    if String.eqb target (TargetName ctx) then
      match callbackQueues pp !! target with
      | None => run_callbacks [cb] ctx pw w
      | Some _ =>
          (let* (c, e) := PacketProcess pp ctx pw in
           if c_going c then run_callbacks [cb] c pw else ret (c, e)) w
      end
    else PacketProcess pp ctx pw w.
Proof.
  intros Hg. unfold PacketProcess, AddCallback. simpl.
  destruct (String.eqb_spec target (TargetName ctx)) as [->|Hne].
  - rewrite lookup_insert_eq. destruct (callbackQueues pp !! TargetName ctx); [|done].
    by apply run_callbacks_app.
  - by rewrite lookup_insert_ne.
Qed.

(** A status other than the three stop codes does not stop the queue, in
    particular not [CodeRelay], which the documentation says stops it: the
    callbacks after one that asks for a relay still run. *)
Theorem relay_does_not_stop (cb : TargetCallback W) rest ctx pw w ctx' w' :
  cb ctx pw w = Ok (ctx', w') -> Stat (c_ctx ctx') = CodeRelay ->
  run_callbacks (cb :: rest) ctx pw w = run_callbacks rest ctx' pw w'.
Proof. intros Hcb Hs. cbn [run_callbacks]. erewrite bind_ok by done. by rewrite Hs. Qed.

(** The lock of a data pipeline is not consulted: a transform added to a
    locked pipeline is installed like any other. *)
Theorem Lock_not_enforced (d : DataPipeline W) name t :
  transforms (AddTransform name t (Lock d)) name = transforms d name ++ [t].
Proof. unfold transforms at 1, AddTransform. simpl. by rewrite lookup_insert_eq. Qed.
End pipeline_props.
