(* ===== verification/Cipher.v ===== *)
(** * Cipher: AES-GCM encryption of byte strings (src/core/crypto/aes_cipher.go)

    The key-size rule of [crypto/aes], the nonce layout and the slicing of the
    two functions are modelled; the authenticated encryption itself is the
    interface [AEAD], with the documented behaviour of GCM as laws.  Randomness
    is a stream of the results [io.ReadFull(rand.Reader, nonce)] will give. *)

From Stdlib Require Import ZArith Lia Ascii String.
From stdpp Require Import base list strings.
From S2P Require Import Prelude Decimal Fmt.
Open Scope Z_scope.

(** ** Interface to crypto/cipher *)

(** [Seal key nonce plaintext] and [Open key nonce ciphertext] of a GCM with
    the standard nonce and tag sizes, without additional data. *)
Class AEAD := {
  Seal : bytes -> bytes -> bytes -> bytes;
  Open : bytes -> bytes -> bytes -> option bytes;
}.

(** Decryption inverts encryption, and accepts nothing but what encryption
    under the same key and nonce produces. *)
Class AEADLaws (A : AEAD) := {
  open_seal : forall k n p, Open k n (Seal k n p) = Some p;
  open_sound : forall k n c p, Open k n c = Some p -> c = Seal k n p;
}.

Definition nonceSize : nat := 12.

(** [aes.NewCipher]: the three key sizes of AES. *)
Definition key_ok (key : bytes) : bool :=
  let k := length key in (k =? 16)%nat || (k =? 24)%nat || (k =? 32)%nat.

Definition key_error (key : bytes) : string :=
  "crypto/aes: invalid key size " +:+ dec_string (Z.of_nat (length key)).

(** ** Randomness *)

(** What the next reads of the random source give: bytes or an error text. *)
Abbreviation Rand := (list (string + bytes)).

Definition read_rand : M Rand (string + bytes) := fun r =>
  match r with
  | x :: r' => Ok (x, r')
  | [] => Ok (inl "EOF"%string, [])
  end.

(** ** aes_cipher.go *)

Section cipher.
Context `{AEAD}.

(** The result and the error, as Go returns them. *)
Definition encryptAES (key data : bytes) : M Rand (bytes * option string) :=
  if key_ok key then
    let* nonce := read_rand in
    match nonce with
    | inl err => ret (data, Some (Errorf ("nonce gen fail: " +:+ err)))
    | inr n => ret (n ++ Seal key n data, None)
    end
  else ret (data, Some (Errorf ("cipher init fail: " +:+ key_error key))).

(** [data[:nonceSize]] and [data[nonceSize:]] panic on shorter data. *)
Definition decryptAES {S} (key data : bytes) : M S (bytes * option string) :=
  if key_ok key then
    if (length data <? nonceSize)%nat then throw SliceBounds
    else
      match Open key (take nonceSize data) (drop nonceSize data) with
      | None => ret (data, Some (Errorf "decrypt fail: cipher: message authentication failed"))
      | Some d => ret (d, None)
      end
  else ret (data, Some (Errorf ("cipher init fail: " +:+ key_error key))).
End cipher.

(** ** big.Int.Bytes *)

(** The big-endian bytes of [z >= 0] without leading zeros. *)
Fixpoint be_bytes (fuel : nat) (z : Z) : bytes :=
  match fuel with
  | O => []
  | S f => if z =? 0 then [] else be_bytes f (z / 256) ++ [bz (z mod 256)]
  end.

Definition BigBytes (z : Z) : bytes := be_bytes (S (Z.to_nat (Z.log2 (Z.abs z)))) (Z.abs z).

Lemma log2_div256 z : 0 < z -> z / 256 = 0 \/ (0 < z / 256 /\ Z.log2 (z / 256) < Z.log2 z).
Proof.
  intros H. destruct (Z.lt_ge_cases z 256); [left; lia|]. right. split; [lia|].
  replace (z / 256) with (Z.shiftr z 8) by (rewrite Z.shiftr_div_pow2; lia).
  rewrite Z.log2_shiftr by lia.
  assert (8 <= Z.log2 z) by (change 8 with (Z.log2 256); apply Z.log2_le_mono; lia). lia.
Qed.

(** With enough fuel, the number of bytes is given by the size of the number. *)
Lemma length_be_bytes f z n :
  0 <= z < 256 ^ Z.of_nat n -> (z <> 0 -> 256 ^ (Z.of_nat n - 1) <= z) ->
  (z = 0 -> n = 0%nat) -> (z <> 0 -> Z.log2 z < Z.of_nat f) ->
  length (be_bytes f z) = n.
Proof.
  revert z n. induction f as [|f IH]; intros z n Hz Hlo H0 Hf.
  { destruct (Z.eq_dec z 0) as [E|E]; [rewrite H0 by done; done|].
    specialize (Hf E). pose proof (Z.log2_nonneg z). lia. }
  simpl. destruct (Z.eqb_spec z 0) as [E|E]; [by rewrite H0|].
  rewrite length_app; simpl. destruct n as [|n].
  { simpl in Hz. lia. }
  specialize (Hlo E). specialize (Hf E). rewrite Nat2Z.inj_succ, Z.pow_succ_r in Hz by lia.
  replace (Z.of_nat (S n) - 1) with (Z.of_nat n) in Hlo by lia.
  assert (Hd := log2_div256 z ltac:(lia)).
  rewrite (IH (z / 256) n); [lia | split; [lia | apply Z.div_lt_upper_bound; lia] | ..].
  - intros Hne. destruct n as [|n]; [simpl in *; lia|].
    replace (Z.of_nat (S n) - 1) with (Z.of_nat n) by lia.
    rewrite Nat2Z.inj_succ, Z.pow_succ_r in Hlo by lia. apply Z.div_le_lower_bound; lia.
  - intros Hz0. destruct n as [|n]; [done|]. exfalso.
    rewrite Nat2Z.inj_succ, Z.pow_succ_r in Hlo by lia.
    assert (0 < 256 ^ Z.of_nat n) by (apply Z.pow_pos_nonneg; lia). lia.
  - intros Hne. lia.
Qed.

Lemma length_BigBytes z n :
  0 < z -> 256 ^ (Z.of_nat n - 1) <= z < 256 ^ Z.of_nat n -> length (BigBytes z) = n.
Proof.
  intros Hz Hn. unfold BigBytes. rewrite Z.abs_eq by lia.
  apply length_be_bytes; [lia | tauto | lia |]. pose proof (Z.log2_nonneg z). lia.
Qed.

Lemma key_ok_256 z : 2 ^ 248 <= z < 2 ^ 256 -> key_ok (BigBytes z) = true.
Proof.
  intros Hz. unfold key_ok. rewrite (length_BigBytes z 32); [done | lia |].
  change (256 ^ (Z.of_nat 32 - 1)) with (2 ^ 248).
  change (256 ^ Z.of_nat 32) with (2 ^ 256). lia.
Qed.

(** The number of bytes is the number of bits divided by eight, rounded up. *)
Lemma length_BigBytes_log2 z :
  0 < z -> length (BigBytes z) = Z.to_nat (Z.log2 z / 8 + 1).
Proof.
  intros Hz. pose proof (Z.log2_nonneg z). pose proof (Z.log2_spec z Hz) as [H1 H2].
  apply length_BigBytes; [done|]. rewrite Z2Nat.id by lia.
  change 256 with (2 ^ 8). rewrite <- !Z.pow_mul_r by lia. split.
  - etransitivity; [|exact H1]. apply Z.pow_le_mono_r; lia.
  - eapply Z.lt_le_trans; [exact H2|]. apply Z.pow_le_mono_r; lia.
Qed.

(** A 256-bit secret with its first byte zero (and not as many as eight zero
    bytes) is not an AES key. *)
Lemma key_not_ok z : 2 ^ 192 <= z < 2 ^ 248 -> key_ok (BigBytes z) = false.
Proof.
  intros Hz. assert (0 < z) by lia.
  assert (192 <= Z.log2 z < 248).
  { split; [apply Z.log2_le_pow2; lia | apply Z.log2_lt_pow2; lia]. }
  unfold key_ok. rewrite length_BigBytes_log2 by done.
  assert (24 < Z.to_nat (Z.log2 z / 8 + 1) < 32)%nat as Hl by lia.
  rewrite !(proj2 (Nat.eqb_neq _ _)) by lia. done.
Qed.
