(* ===== verification/Crypto.v ===== *)
(** * Crypto: the cryptographic extension (src/core/crypto)

    Key stores, key exchange and the transport transforms (crypto.go,
    server.go), and the client's handles on them (client.go).  Elliptic-curve
    arithmetic is the interface [Curve]; encryption is [Cipher].  The extension
    works on any process state that contains a packet heap and a [Crypto]
    state. *)

From Stdlib Require Import ZArith Lia Ascii String.
From stdpp Require Import base list strings gmap fin_maps.
From S2P Require Import Prelude Base64 Utf8 JsonText Decimal Json Packet PacketSpec.
From S2P Require Import Fmt Pipeline Cipher.
Open Scope Z_scope.

(** ** Constants (crypto.go) *)
Definition TargetKeyExchangeServer : string := "crypto.kex-cs".
Definition TargetKeyExchangeClient : string := "crypto.kex-cc".
Definition KeyNoCrypto : string := "_no_crypto".

(** ** Interface to crypto/elliptic

    [ScalarMult x y k] is [Curve.ScalarMult]; [keypair d x y] says that [(x, y)]
    is the public point of the private scalar [d], as [ecdsa.GenerateKey]
    returns it.  The law is the Diffie-Hellman property. *)
Class Curve := {
  ScalarMult : Z -> Z -> bytes -> Z * Z;
  keypair : Z -> Z -> Z -> Prop;
}.

Class CurveLaws (C : Curve) := {
  ecdh : forall d1 x1 y1 d2 x2 y2, keypair d1 x1 y1 -> keypair d2 x2 y2 ->
    (ScalarMult x1 y1 (BigBytes d2)).1 = (ScalarMult x2 y2 (BigBytes d1)).1;
}.

(** ** Data *)

(** [PublicKey] holds two pointers, either of which may be nil. *)
Record PublicKey := mk_PublicKey { X : option Z; Y : option Z }.

Record keyStore := mk_keyStore { keySent : bool; shared : Z; public : PublicKey }.

Record PrivateKey := mk_PrivateKey { D : Z; PX : Z; PY : Z }.

Record Crypto := mk_Crypto {
  keys : gmap string keyStore;
  privKey : PrivateKey;
  publicKey : bytes;
  rnd : Rand;
}.

#[export] Instance Has_rnd : Has Rand Crypto.
Proof.
  refine {| proj := rnd; upd r c := mk_Crypto (keys c) (privKey c) (publicKey c) r |};
    by intros; try destruct w.
Defined.

(** ** JSON of public keys and of the client key-exchange request *)

Definition render_pk (pk : PublicKey) : bytes :=
  "{"%char :: quote "x" ++ ":"%char :: render_oint (X pk) ++ ","%char
    :: quote "y" ++ ":"%char :: render_oint (Y pk) ++ ["}"%char].

(** [big.Int.UnmarshalJSON] through a pointer field: null gives nil, an integer
    literal a number, anything else an error that ends the decoding. *)
Definition decode_bigint (v : json) : option (option Z) :=
  match v with
  | JNull => Some None
  | JNum lit => match int_of_lit lit with Some z => Some (Some z) | None => None end
  | _ => None
  end.

Fixpoint decode_pk_members (ms : list (string * json)) (pk : PublicKey) : option PublicKey :=
  match ms with
  | [] => Some pk
  | (k, v) :: r =>
      if field_match "x" k then
        match decode_bigint v with
        | Some x => decode_pk_members r (mk_PublicKey x (Y pk))
        | None => None
        end
      else if field_match "y" k then
        match decode_bigint v with
        | Some y => decode_pk_members r (mk_PublicKey (X pk) y)
        | None => None
        end
      else decode_pk_members r pk
  end.

(** [json.Unmarshal(data, &pk)] for a zero [PublicKey]; [None] is an error. *)
Definition decode_pk (data : bytes) : option PublicKey :=
  match parse data with
  | Some (JObj ms) => decode_pk_members ms (mk_PublicKey None None)
  | Some JNull => Some (mk_PublicKey None None)
  | _ => None
  end.

(** A struct with one string field, such as [{IP string `json:"ip"`}]: the
    value and whether there was a type error. *)
Definition decode_member (field : string) (acc : string * bool) (kv : string * json) : string * bool :=
  if field_match field kv.1 then
    match kv.2 with
    | JStr s => (s, acc.2)
    | JNull => acc
    | _ => (acc.1, true)
    end
  else acc.

Definition decode_field (field : string) (data : bytes) : option string :=
  match parse data with
  | Some (JObj ms) =>
      let '(v, err) := fold_left (decode_member field) ms (""%string, false) in
      if err : bool then None else Some v
  | Some JNull => Some ""%string
  | _ => None
  end.

Definition decode_ip (data : bytes) : option string := decode_field "ip" data.

(** The five spellings that make the extension skip a packet. *)
Definition skips_crypto (v : string) : bool :=
  existsb (String.eqb v) ["true"; "t"; "yes"; "y"; "1"]%string.

(** The extension of a private key, without keys of others ([json.Marshal] of a
    public key does not fail). *)
Definition crypto_of (k : PrivateKey) (r : Rand) : Crypto :=
  mk_Crypto ∅ k (render_pk (mk_PublicKey (Some (PX k)) (Some (PY k)))) r.

(** [NewCrypto]: nil asks for a new key; [generated] is what [ecdsa.GenerateKey]
    returns then. *)
Definition NewCrypto (priv : option PrivateKey) (generated : string + PrivateKey) (r : Rand) : string + Crypto :=
  match priv with
  | Some k => inr (crypto_of k r)
  | None => match generated with inl e => inl e | inr k => inr (crypto_of k r) end
  end.

Definition setKeyStore (addr : string) (ks : keyStore) : M Crypto unit :=
  modify (fun c => mk_Crypto (<[addr := ks]> (keys c)) (privKey c) (publicKey c) (rnd c)).

Definition getKeyStore (addr : string) : M Crypto (option keyStore) :=
  gets (fun c => keys c !! addr).

(** [setKeySent] through the pointer stored at [addr]. *)
Definition setKeySent (addr : string) (s : bool) : M Crypto unit :=
  modify (fun c => mk_Crypto
    (alter (fun ks => mk_keyStore s (shared ks) (public ks)) addr (keys c))
    (privKey c) (publicKey c) (rnd c)).

Definition IsKeyExchanged (addr : string) : M Crypto bool :=
  let* ks := getKeyStore addr in
  ret (match ks with Some _ => true | None => false end).

(** The two pipelines of a server or client. *)
Record Processor (W : Type) := mk_Processor {
  DataProcessor : DataPipeline W;
  PacketProcessor : PacketPipeline W;
}.
Arguments mk_Processor {W} _ _.
Arguments DataProcessor {W} _.
Arguments PacketProcessor {W} _.

Section crypto.
Context `{AEAD, Curve}.

Definition computeSharedKey (pk : PublicKey) : M Crypto Z :=
  match X pk, Y pk with
  | Some x, Some y => gets (fun c => (ScalarMult x y (BigBytes (D (privKey c)))).1)
  | _, _ => throw NilDeref
  end.

Section on_state.
Context {W : Type} `{Has Heap W} `{Has Crypto W}.

Definition crypt {A} (m : M Crypto A) : M W A := lift m.
Definition heap {A} (m : M Heap A) : M W A := lift m.

(** The packet of a context; using a nil one is a panic. *)
Definition ctx_pkt (c : PipelineCtx) : M W nat :=
  match Pkt c with Some l => ret l | None => throw NilDeref end.

(** ** Transport encryption (crypto.go) *)

Definition encryptTransport : BufferTransform W := fun ctx buff =>
  let* l := ctx_pkt (t_ctx ctx) in
  let* v := heap (Meta_Get l KeyNoCrypto) in
  if skips_crypto v then ret (ctx, buff)
  else
    let* dst := heap (Dest l) in
    let* k := crypt (getKeyStore dst) in
    match k with
    | None => ret (ctx, buff)
    | Some ks =>
        if keySent ks then
          let* (ciphertext, err) := crypt (lift (encryptAES (BigBytes (shared ks)) buff)) in
          match err with
          | Some e => ret (t_stop CodeStopError ("encryption error: " +:+ e) ctx, buff)
          | None => ret (ctx, ciphertext)
          end
        else crypt (setKeySent dst true) ;;; ret (ctx, buff)
    end.

Definition decryptTransport : BufferTransform W := fun ctx buff =>
  let* k := crypt (getKeyStore (t_From ctx)) in
  match k with
  | None => ret (ctx, buff)
  | Some ks =>
      let* (decrypted, err) := decryptAES (BigBytes (shared ks)) buff in
      match err with
      | Some _ => ret (ctx, buff)
      | None => ret (ctx, decrypted)
      end
  end.

(** ** Key exchange on the server (server.go) *)

Definition keyExchangeServer : TargetCallback W := fun ctx pw =>
  let* l := ctx_pkt (c_ctx ctx) in
  let* data := heap (PktData l) in
  match decode_pk data with
  | None => ret (c_stop CodeStopError "malformed packet" ctx)
  | Some pk =>
      let* s := crypt (computeSharedKey pk) in
      crypt (setKeyStore (c_From ctx) (mk_keyStore false s pk)) ;;;
      heap (Meta_Add pw KeyNoCrypto "true") ;;;
      let* pub := crypt (gets publicKey) in
      heap (Write pw pub) ;;;
      ret (c_stop CodeStopCloseSend (Msg (c_ctx ctx)) ctx)
  end.

Definition keyExchangeClient : TargetCallback W := fun ctx pw =>
  let* l := ctx_pkt (c_ctx ctx) in
  let* data := heap (PktData l) in
  match decode_ip data with
  | None => ret (c_stop CodeStopError "malformed packet" ctx)
  | Some ip =>
      let* k := crypt (getKeyStore ip) in
      match k with
      | None => ret (c_stop CodeStopError "client non-existent" ctx)
      | Some ks =>
          heap (Meta_Add pw KeyNoCrypto "true") ;;;
          heap (Write pw (render_pk (public ks))) ;;;
          ret ctx
      end
  end.

Definition installOnServer (p : Processor W) : Processor W :=
  mk_Processor (DataProcessor p)
    (AddCallback TargetKeyExchangeClient keyExchangeClient
       (AddCallback TargetKeyExchangeServer keyExchangeServer (PacketProcessor p))).

Definition installOnClient (p : Processor W) : Processor W := p.

(** [Extend]: the extended processor and the error. *)
Definition Extend (kind : string) (target : Processor W) : Processor W * option string :=
  let target :=
    mk_Processor
      (AddTransform "_out_" encryptTransport
         (AddTransform "_in_" decryptTransport (DataProcessor target)))
      (PacketProcessor target) in
  if String.eqb kind "server" then (installOnServer target, None)
  else if String.eqb kind "client" then (installOnClient target, None)
  else (target, Some (Errorf ("unknown processor kind: " +:+ String "034" kind +:+ String "034" ""))).

(** ** Client handles (client.go) *)

Definition ConfigureKeyExClientPkt (addr : string) (pw : nat) : M W unit :=
  heap (Clear pw) ;;;
  heap (Meta_Add pw KeyTarget TargetKeyExchangeClient) ;;;
  heap (Write pw ("{"%char :: dquote :: b_of_s "ip" ++ dquote :: ":"%char :: dquote
                   :: b_of_s addr ++ [dquote; "}"%char])) ;;;
  heap (Close pw).

Definition ConfigureKeyExServerPkt (pw : nat) : M W unit :=
  heap (Clear pw) ;;;
  heap (Meta_Add pw KeyTarget TargetKeyExchangeServer) ;;;
  let* pub := crypt (gets publicKey) in
  heap (Write pw pub) ;;;
  heap (Close pw).

Definition EncryptFor (addr : string) (data : bytes) : M W (string + bytes) :=
  let* k := crypt (getKeyStore addr) in
  match k with
  | None => ret (inl (Errorf "keys not exchanged"))
  | Some ks =>
      let* (encrypted, err) := crypt (lift (encryptAES (BigBytes (shared ks)) data)) in
      match err with
      | Some e => ret (inl (Errorf ("encryption error: " +:+ e)))
      | None => ret (inr encrypted)
      end
  end.

Definition DecryptFrom (addr : string) (data : bytes) : M W (string + bytes) :=
  let* k := crypt (getKeyStore addr) in
  match k with
  | None => ret (inl (Errorf "keys not exchanged"))
  | Some ks =>
      let* (decrypted, err) := decryptAES (BigBytes (shared ks)) data in
      match err with
      | Some e => ret (inl (Errorf ("encryption error: " +:+ e)))
      | None => ret (inr decrypted)
      end
  end.

(** Replacing the data of a packet. *)
Definition rewrite_data (pkt : nat) (data : bytes) : M W unit :=
  heap (Clear pkt) ;;; heap (Write pkt data) ;;; heap (Close pkt).

Definition EncryptE2E (to : string) (pkt : nat) : M W (option string) :=
  let* data := heap (PktData pkt) in
  let* res := EncryptFor to data in
  match res with
  | inl e => ret (Some ("e2e encrypt error: " +:+ e))
  | inr encrypted => rewrite_data pkt encrypted ;;; ret None
  end.

Definition DecryptE2E (sender : string) (pkt : nat) : M W (option string) :=
  let* data := heap (PktData pkt) in
  let* res := DecryptFrom sender data in
  match res with
  | inl e => ret (Some ("e2e decrypt error: " +:+ e))
  | inr decrypted => rewrite_data pkt decrypted ;;; ret None
  end.

(** [true]: the key was stored; [false]: the response did not decode. *)
Definition ProcessKeyExResp (addr : string) (resp : nat) : M W bool :=
  let* data := heap (PktData resp) in
  match decode_pk data with
  | None => ret false
  | Some pk =>
      let* s := crypt (computeSharedKey pk) in
      crypt (setKeyStore addr (mk_keyStore true s pk)) ;;;
      ret true
  end.
End on_state.
End crypto.
