(* ===== verification/CryptoSpec.v ===== *)
(** * CryptoSpec: what the cryptographic extension guarantees

    Behaviour of the transport transforms on every branch, agreement of the
    two ends of a key exchange, round trips of transport and end-to-end
    encryption, and the cases in which the extension fails. *)

From Stdlib Require Import ZArith Lia Ascii String.
From stdpp Require Import base list strings gmap fin_maps.
From S2P Require Import Prelude Base64 Utf8 JsonText Decimal Json Packet PacketSpec.
From S2P Require Import Fmt Pipeline Cipher Crypto.
Open Scope Z_scope.

(** ** Public keys on the wire *)

Lemma parse_oint n o c t :
  ends_number c = true -> is_ws c = false ->
  parse_value (S n) (render_oint o ++ c :: t)
  = Some (match o with Some z => JNum (dec z) | None => JNull end, c :: t).
Proof. intros Hc Hw. destruct o as [z|]; [by apply parse_dec|]. reflexivity. Qed.

Lemma decode_bigint_render o :
  decode_bigint (match o with Some z => JNum (dec z) | None => JNull end) = Some o.
Proof. destruct o; simpl; [by rewrite int_of_dec | done]. Qed.

Lemma decode_render_pk pk : decode_pk (render_pk pk) = Some pk.
Proof.
  unfold decode_pk. set (f := fun o => match o with Some z => JNum (dec z) | None => JNull end).
  rewrite (parse_enough 4 _ (JObj [("x"%string, f (X pk)); ("y"%string, f (Y pk))])).
  - simpl. unfold f. rewrite !decode_bigint_render. simpl. by destruct pk.
  - unfold render_pk. rewrite parse_object.
    rewrite (parse_member _ _ _ (f (X pk))); [| done | done | by apply parse_oint].
    cbn [Ascii.eqb Bool.eqb].
    rewrite (parse_member _ _ _ (f (Y pk))); [done | done | done | by apply parse_oint].
Qed.

(** ** Encryption and decryption *)

Section cipher_spec.
Context `{A : AEAD} `{!AEADLaws A}.

Lemma encryptAES_ok key data n r :
  key_ok key = true -> encryptAES key data (inr n :: r) = Ok ((n ++ Seal key n data, None), r).
Proof. intros Hk. unfold encryptAES. by rewrite Hk. Qed.

Lemma decryptAES_sealed {S} key data n (s : S) :
  key_ok key = true -> length n = nonceSize ->
  decryptAES key (n ++ Seal key n data) s = Ok ((data, None), s).
Proof.
  intros Hk Hn. unfold decryptAES. rewrite Hk.
  rewrite (proj2 (Nat.ltb_ge _ _)) by (rewrite length_app; lia).
  rewrite take_app_length', drop_app_length' by done.
  by rewrite open_seal.
Qed.

Lemma decryptAES_short {S} key data (s : S) :
  key_ok key = true -> (length data < nonceSize)%nat ->
  decryptAES key data s = Panic SliceBounds.
Proof.
  intros Hk Hn. unfold decryptAES. rewrite Hk. by rewrite (proj2 (Nat.ltb_lt _ _)).
Qed.
End cipher_spec.

Section transport.
Context `{A : AEAD} `{!AEADLaws A} `{C : Curve} `{!CurveLaws C}.
Context {W : Type} `{HH : Has Heap W} `{HC : Has Crypto W} `{DJ : !Disjoint Heap Crypto W}.

Abbreviation hp w := (proj (S := Heap) w).
Abbreviation cr w := (proj (S := Crypto) w).

(** A packet operation inside the process state. *)
Lemma wp_heap {B} (m : M Heap B) l f r w a (Q : B -> W -> Prop) :
  acts m l f r -> heap_ok (hp w) -> abs (hp w) l = Some a ->
  (forall h', frame l (hp w) h' -> abs h' l = Some (f a) -> Q (r a) (upd h' w)) ->
  wp (heap m) Q w.
Proof.
  intros Hm Hok Ha HQ. unfold heap. apply wp_lift.
  eapply wp_mono; [by apply Hm|]. intros x h' (-> & F & A'). auto.
Qed.

Lemma heap_reads {B} (m : M Heap B) l r w a :
  reads m l r -> heap_ok (hp w) -> abs (hp w) l = Some a -> heap m w = Ok (r a, w).
Proof.
  intros Hm Hok Ha. unfold heap, lift. rewrite (Hm _ a) by done. by rewrite upd_proj.
Qed.

Lemma crypt_gets {B} (f : Crypto -> B) w : crypt (gets f) w = Ok (f (cr w), w).
Proof. unfold crypt, lift. simpl. by rewrite upd_proj. Qed.

(** The reference behaviour of [encryptTransport] on a packet [a]: what goes
    out, and the key stores and randomness it leaves. *)
Inductive out_result :=
  | OutClear               (* sent as it is *)
  | OutFirst               (* sent as it is, and the key counts as sent *)
  | OutSealed (n : bytes) (key : bytes)  (* sealed under the key with nonce n *)
  | OutError (e : string). (* the pipeline stops with an error *)

Definition out_decision (a : APkt) (c : Crypto) : out_result :=
  if skips_crypto (a_get KeyNoCrypto a) then OutClear
  else match keys c !! a_dest a with
       | None => OutClear
       | Some ks =>
           if keySent ks then
             let key := BigBytes (shared ks) in
             if key_ok key then
               match rnd c with
               | inr n :: _ => OutSealed n key
               | inl e :: _ => OutError (Errorf ("nonce gen fail: " +:+ e))
               | [] => OutError (Errorf "nonce gen fail: EOF")
               end
             else OutError (Errorf ("cipher init fail: " +:+ key_error key))
           else OutFirst
       end.

Definition out_crypto (a : APkt) (c : Crypto) : Crypto :=
  match out_decision a c with
  | OutFirst => mk_Crypto (alter (fun ks => mk_keyStore true (shared ks) (public ks)) (a_dest a) (keys c))
                  (privKey c) (publicKey c) (rnd c)
  | OutSealed _ _ => mk_Crypto (keys c) (privKey c) (publicKey c) (tl (rnd c))
  | OutError _ =>
      match keys c !! a_dest a with
      | Some ks => if key_ok (BigBytes (shared ks))
                   then mk_Crypto (keys c) (privKey c) (publicKey c) (tl (rnd c)) else c
      | None => c
      end
  | OutClear => c
  end.

Definition out_ctx (a : APkt) (c : Crypto) (ctx : TransformContext) : TransformContext :=
  match out_decision a c with
  | OutError e => t_stop CodeStopError ("encryption error: " +:+ e) ctx
  | _ => ctx
  end.

Definition out_data (a : APkt) (c : Crypto) (buff : bytes) : bytes :=
  match out_decision a c with
  | OutSealed n key => n ++ Seal key n buff
  | _ => buff
  end.

Lemma crypto_eta c : mk_Crypto (keys c) (privKey c) (publicKey c) (rnd c) = c.
Proof. by destruct c. Qed.

Lemma encryptTransport_eq w ctx l a buff :
  Pkt (t_ctx ctx) = Some l -> heap_ok (hp w) -> abs (hp w) l = Some a ->
  encryptTransport ctx buff w
  = Ok ((out_ctx a (cr w) ctx, out_data a (cr w) buff), upd (out_crypto a (cr w)) w).
Proof.
  intros Hl Hok Ha. unfold encryptTransport, ctx_pkt. rewrite Hl.
  erewrite bind_ok by done. erewrite bind_ok by (eapply heap_reads; [apply Meta_Get_reads | done | done]).
  unfold out_ctx, out_data, out_crypto, out_decision.
  destruct (skips_crypto (a_get KeyNoCrypto a)) eqn:Es; [by rewrite upd_proj|].
  erewrite bind_ok by (eapply heap_reads; [apply Dest_reads | done | done]).
  unfold getKeyStore. erewrite bind_ok by apply crypt_gets.
  destruct (keys (cr w) !! a_dest a) as [ks|] eqn:Ek; [|by rewrite upd_proj].
  destruct (keySent ks) eqn:Et; [|done].
  unfold encryptAES. destruct (key_ok (BigBytes (shared ks))) eqn:Eo.
  - unfold crypt, bind, lift, read_rand. simpl. by destruct (rnd (cr w)) as [|[e|n] r].
  - unfold crypt, bind, lift. simpl. by rewrite crypto_eta.
Qed.

(** The reference behaviour of [decryptTransport]. *)
Definition in_data (c : Crypto) (from : string) (buff : bytes) : Res bytes :=
  match keys c !! from with
  | None => Ok buff
  | Some ks =>
      let key := BigBytes (shared ks) in
      if key_ok key then
        if (length buff <? nonceSize)%nat then Panic SliceBounds
        else Ok (default buff (Open key (take nonceSize buff) (drop nonceSize buff)))
      else Ok buff
  end.

Lemma decryptTransport_eq w ctx buff :
  decryptTransport ctx buff w =
    match in_data (cr w) (t_From ctx) buff with
    | Ok d => Ok ((ctx, d), w)
    | Panic p => Panic p
    end.
Proof.
  unfold decryptTransport, getKeyStore. erewrite bind_ok by apply crypt_gets.
  unfold in_data. destruct (keys (cr w) !! t_From ctx) as [ks|]; [|done].
  unfold bind, decryptAES. destruct (key_ok (BigBytes (shared ks))); [|done].
  destruct (length buff <? nonceSize)%nat; [done|].
  by destruct (Open _ _ _).
Qed.

(** What [keyExchangeServer] stores for a well-formed key. *)
Definition exchanged (sent : bool) (c : Crypto) (x y : Z) : keyStore :=
  mk_keyStore sent (ScalarMult x y (BigBytes (D (privKey c)))).1 (mk_PublicKey (Some x) (Some y)).

Definition store_key (addr : string) (ks : keyStore) (c : Crypto) : Crypto :=
  mk_Crypto (<[addr := ks]> (keys c)) (privKey c) (publicKey c) (rnd c).

Lemma keyExchangeServer_spec w ctx l pw a b x y :
  Pkt (c_ctx ctx) = Some l -> heap_ok (hp w) ->
  abs (hp w) l = Some a -> abs (hp w) pw = Some b ->
  decode_pk (a_buff a) = Some (mk_PublicKey (Some x) (Some y)) ->
  wp (keyExchangeServer ctx pw) (fun ctx' w' =>
    ctx' = c_stop CodeStopCloseSend (Msg (c_ctx ctx)) ctx /\
    cr w' = store_key (c_From ctx) (exchanged false (cr w) x y) (cr w) /\
    frame pw (hp w) (hp w') /\
    abs (hp w') pw = Some (a_write (publicKey (cr w)) (a_add KeyNoCrypto "true" b)) /\
    exists h : Heap, w' = upd h (upd (cr w') w)) w.
Proof.
  intros Hl Hok Ha Hb Hd. unfold keyExchangeServer, ctx_pkt. rewrite Hl, wp_bind.
  eapply wp_ok; [done|]. rewrite wp_bind.
  eapply wp_ok; [eapply heap_reads; [apply PktData_reads | done | done]|].
  rewrite Hd, wp_bind. unfold computeSharedKey. simpl.
  eapply wp_ok; [apply crypt_gets|]. rewrite wp_bind.
  eapply wp_ok; [by apply lift_ok|]. rewrite wp_bind.
  set (w1 := upd (mk_Crypto _ _ _ _) w).
  assert (E1 : hp w1 = hp w) by apply proj1_upd2.
  assert (C1 : cr w1 = store_key (c_From ctx) (exchanged false (cr w) x y) (cr w)) by apply proj_upd.
  eapply wp_heap; [apply Meta_Add_acts | by rewrite E1 | by rewrite E1 |].
  intros h2 F2 A2. rewrite E1 in F2. rewrite wp_bind.
  eapply wp_ok; [apply crypt_gets|]. rewrite wp_bind.
  eapply wp_heap; [apply Write_acts | rewrite proj_upd; apply F2 | by rewrite proj_upd|].
  rewrite proj_upd. intros h3 F3 A3. apply wp_ret.
  assert (C3 : cr (upd h3 (upd h2 w1)) = cr w1) by (by rewrite !proj2_upd1).
  rewrite C3, C1, !proj_upd. rewrite !proj2_upd1 in A3. split; [done|]. split; [done|].
  split; [by eapply frame_trans|]. split.
  - rewrite A3, C1. done.
  - exists h3. by rewrite upd_upd.
Qed.

Lemma ProcessKeyExResp_spec w addr resp a x y :
  heap_ok (hp w) -> abs (hp w) resp = Some a ->
  decode_pk (a_buff a) = Some (mk_PublicKey (Some x) (Some y)) ->
  ProcessKeyExResp addr resp w
  = Ok (true, upd (store_key addr (exchanged true (cr w) x y) (cr w)) w).
Proof.
  intros Hok Ha Hd. unfold ProcessKeyExResp.
  erewrite bind_ok by (eapply heap_reads; [apply PktData_reads | done | done]).
  rewrite Hd. unfold computeSharedKey. simpl. erewrite bind_ok by apply crypt_gets.
  by erewrite bind_ok by (by apply lift_ok).
Qed.

Lemma EncryptFor_ok w addr data ks n r :
  keys (cr w) !! addr = Some ks -> key_ok (BigBytes (shared ks)) = true ->
  rnd (cr w) = inr n :: r ->
  EncryptFor addr data w =
    Ok (inr (n ++ Seal (BigBytes (shared ks)) n data),
        upd (mk_Crypto (keys (cr w)) (privKey (cr w)) (publicKey (cr w)) r) w).
Proof.
  intros Hk Ho Hr. unfold EncryptFor, getKeyStore. erewrite bind_ok by apply crypt_gets.
  rewrite Hk. erewrite bind_ok.
  2: { apply lift_ok. apply lift_ok. simpl. rewrite Hr. by apply encryptAES_ok. }
  done.
Qed.

Lemma DecryptFrom_ok w addr data ks n :
  keys (cr w) !! addr = Some ks -> key_ok (BigBytes (shared ks)) = true ->
  length n = nonceSize ->
  DecryptFrom addr (n ++ Seal (BigBytes (shared ks)) n data) w = Ok (inr data, w).
Proof.
  intros Hk Ho Hn. unfold DecryptFrom, getKeyStore. erewrite bind_ok by apply crypt_gets.
  rewrite Hk. by erewrite bind_ok by (by apply decryptAES_sealed).
Qed.

(** [rewrite_data] replaces buffer and committed data. *)
Lemma rewrite_data_spec w l a d :
  heap_ok (hp w) -> abs (hp w) l = Some a ->
  wp (rewrite_data l d) (fun _ w' => cr w' = cr w /\ frame l (hp w) (hp w') /\
    abs (hp w') l = Some (a_close (a_set_buff d a)) /\ exists h : Heap, w' = upd h w) w.
Proof.
  intros Hok Ha. unfold rewrite_data. rewrite wp_bind.
  eapply wp_heap; [apply Clear_acts | done | done |]. intros h1 F1 A1. rewrite wp_bind.
  eapply wp_heap; [apply Write_acts | rewrite proj_upd; apply F1 | by rewrite proj_upd|].
  rewrite proj_upd. intros h2 F2 A2.
  eapply wp_heap; [apply Close_acts | rewrite proj_upd; apply F2 | by rewrite proj_upd|].
  rewrite proj_upd. intros h3 F3 A3. rewrite !proj2_upd1, proj_upd.
  split; [done|]. split; [eauto using frame_trans|]. split; [done|].
  exists h3. by rewrite !upd_upd.
Qed.

(** [EncryptE2E] and [DecryptE2E] with the keys they need. *)
Lemma EncryptE2E_ok w to l a ks n r :
  heap_ok (hp w) -> abs (hp w) l = Some a -> keys (cr w) !! to = Some ks ->
  key_ok (BigBytes (shared ks)) = true -> rnd (cr w) = inr n :: r ->
  wp (EncryptE2E to l) (fun err w' => err = None /\ frame l (hp w) (hp w') /\
    abs (hp w') l = Some (a_close (a_set_buff (n ++ Seal (BigBytes (shared ks)) n (a_buff a)) a)) /\
    exists h : Heap,
      w' = upd h (upd (mk_Crypto (keys (cr w)) (privKey (cr w)) (publicKey (cr w)) r) w)) w.
Proof.
  intros Hok Ha Hk Hkey Hr. unfold EncryptE2E. rewrite wp_bind.
  eapply wp_ok; [eapply heap_reads; [apply PktData_reads | done | done]|].
  rewrite wp_bind. eapply wp_ok; [by apply EncryptFor_ok|]. cbn beta iota.
  rewrite wp_bind. set (w1 := upd _ w).
  assert (E1 : hp w1 = hp w) by apply proj1_upd2.
  eapply wp_mono; [apply (rewrite_data_spec w1 l a); by rewrite E1|].
  rewrite E1. intros _ w2 (_ & F2 & A2 & h & ->). apply wp_ret. eauto.
Qed.

Lemma DecryptE2E_ok w from l a ks n data :
  heap_ok (hp w) -> abs (hp w) l = Some a -> keys (cr w) !! from = Some ks ->
  key_ok (BigBytes (shared ks)) = true -> length n = nonceSize ->
  a_buff a = n ++ Seal (BigBytes (shared ks)) n data ->
  wp (DecryptE2E from l) (fun err w' => err = None /\ frame l (hp w) (hp w') /\
    abs (hp w') l = Some (a_close (a_set_buff data a)) /\ exists h : Heap, w' = upd h w) w.
Proof.
  intros Hok Ha Hk Hkey Hn Hb. unfold DecryptE2E. rewrite wp_bind.
  eapply wp_ok; [eapply heap_reads; [apply PktData_reads | done | done]|].
  rewrite wp_bind, Hb. eapply wp_ok; [by apply DecryptFrom_ok|].
  cbn beta iota. rewrite wp_bind.
  eapply wp_mono; [by apply (rewrite_data_spec w l a)|].
  intros _ w3 (_ & F3 & A3 & E3). by apply wp_ret.
Qed.

(** ** Theorems *)

(** (C26) The outgoing transform on every branch: a packet marked to skip the
    extension or without a key for its destination leaves unchanged; the first
    other packet after a key exchange leaves unchanged and marks the key as
    sent; later ones leave as the nonce followed by the data sealed under the
    shared key; an unusable key or a failing random source stops the pipeline
    with an error.  Nothing but the extension's state changes. *)
Theorem encryptTransport_behaviour w ctx l a buff :
  Pkt (t_ctx ctx) = Some l -> heap_ok (hp w) -> abs (hp w) l = Some a ->
  encryptTransport ctx buff w
  = Ok ((out_ctx a (cr w) ctx, out_data a (cr w) buff), upd (out_crypto a (cr w)) w).
Proof. apply encryptTransport_eq. Qed.

(** Transport round trip: what the sender's outgoing transform seals for
    an address is opened to the same bytes by the incoming transform of a
    receiver that holds the same shared secret for the sender. *)
Theorem transport_roundtrip w wr ctx ctxr l a buff ks ksr n :
  Pkt (t_ctx ctx) = Some l -> heap_ok (hp w) -> abs (hp w) l = Some a ->
  skips_crypto (a_get KeyNoCrypto a) = false ->
  keys (cr w) !! a_dest a = Some ks -> keySent ks = true ->
  key_ok (BigBytes (shared ks)) = true ->
  rnd (cr w) !! 0%nat = Some (inr n) -> length n = nonceSize ->
  keys (cr wr) !! t_From ctxr = Some ksr -> shared ksr = shared ks ->
  exists w' sealed,
    encryptTransport ctx buff w = Ok ((ctx, sealed), w') /\
    decryptTransport ctxr sealed wr = Ok ((ctxr, buff), wr).
Proof.
  intros Hl Hok Ha Hs Hk Hsent Ho Hr Hn Hkr Hsh.
  destruct (rnd (cr w)) as [|x r] eqn:Er; [done|]. simplify_eq/=.
  rewrite (encryptTransport_eq w ctx l a) by done.
  unfold out_ctx, out_data, out_decision. rewrite Hs, Hk, Hsent, Ho, Er.
  eexists _, _. split; [done|]. rewrite decryptTransport_eq. unfold in_data.
  rewrite Hkr, Hsh, Ho. rewrite (proj2 (Nat.ltb_ge _ _)) by (rewrite length_app; lia).
  by rewrite take_app_length', drop_app_length', open_seal by done.
Qed.

(** Incoming data shorter than a nonce from an address with a usable key
    panics (the slice expressions of [decryptAES] are out of range). *)
Theorem decryptTransport_short_panics w ctx buff ks :
  keys (cr w) !! t_From ctx = Some ks -> key_ok (BigBytes (shared ks)) = true ->
  (length buff < nonceSize)%nat ->
  decryptTransport ctx buff w = Panic SliceBounds.
Proof.
  intros Hk Ho Hn. rewrite decryptTransport_eq. unfold in_data. rewrite Hk, Ho.
  by rewrite (proj2 (Nat.ltb_lt _ _)).
Qed.

(** Otherwise incoming data is never refused: it is replaced by its
    decryption when it authenticates under the sender's key, and is passed on
    unchanged in every other case (no key, unusable key, not authentic). *)
Theorem decryptTransport_behaviour w ctx buff :
  (nonceSize <= length buff)%nat ->
  exists d, decryptTransport ctx buff w = Ok ((ctx, d), w) /\
    (d = buff \/ exists ks, keys (cr w) !! t_From ctx = Some ks /\
       drop nonceSize buff = Seal (BigBytes (shared ks)) (take nonceSize buff) d).
Proof.
  intros Hn. rewrite decryptTransport_eq. unfold in_data.
  destruct (keys (cr w) !! t_From ctx) as [ks|] eqn:Ek; [|eauto].
  destruct (key_ok (BigBytes (shared ks))); [|eauto].
  rewrite (proj2 (Nat.ltb_ge _ _)) by done.
  destruct (Open _ _ _) as [d|] eqn:Eo; simpl; [|eauto].
  exists d. split; [done|]. right. exists ks. split; [done|]. by apply open_sound.
Qed.

(** Key agreement: when a client with key pair [kc] sends its public key
    to a server with key pair [ks] and processes the server's response, both
    ends store the same shared secret for each other.  (The response [resp] that
    reaches the client carries what the server wrote.) *)
Theorem key_agreement ws wc ctx l pw a b resp ar addr :
  Pkt (c_ctx ctx) = Some l -> heap_ok (hp ws) -> heap_ok (hp wc) ->
  abs (hp ws) l = Some a -> abs (hp ws) pw = Some b -> abs (hp wc) resp = Some ar ->
  keypair (D (privKey (cr ws))) (PX (privKey (cr ws))) (PY (privKey (cr ws))) ->
  keypair (D (privKey (cr wc))) (PX (privKey (cr wc))) (PY (privKey (cr wc))) ->
  publicKey (cr ws) = publicKey (crypto_of (privKey (cr ws)) []) ->
  publicKey (cr wc) = publicKey (crypto_of (privKey (cr wc)) []) ->
  a_buff a = publicKey (cr wc) -> a_buff b = [] ->
  wp (keyExchangeServer ctx pw) (fun _ ws' =>
    forall b', abs (hp ws') pw = Some b' -> a_buff ar = a_buff b' ->
    exists wc' kss ksc,
      ProcessKeyExResp addr resp wc = Ok (true, wc') /\
      keys (cr ws') !! c_From ctx = Some kss /\ keys (cr wc') !! addr = Some ksc /\
      shared kss = shared ksc) ws.
Proof.
  intros Hl Hoks Hokc Ha Hb Hr KPs KPc Ps Pc Ea Eb.
  eapply wp_mono.
  { eapply keyExchangeServer_spec; try done. rewrite Ea, Pc. apply decode_render_pk. }
  intros ctx' ws' (_ & Ec & _ & Eab & _) b' Hb' Hdata.
  rewrite Eab in Hb'. simplify_eq/=. rewrite Eb in Hdata. simpl in Hdata.
  erewrite ProcessKeyExResp_spec; try done.
  2: { rewrite Hdata, Ps. apply decode_render_pk. }
  eexists _, _, _. split; [done|]. rewrite Ec, proj_upd. simpl. rewrite !lookup_insert_eq.
  split; [done|]. split; [done|]. simpl. by apply ecdh.
Qed.

(** (C22) The packet that follows a key exchange is sent in clear: after
    [keyExchangeServer] has accepted a complete public key, with a product that
    is a key of AES and a nonce at hand, the response passes [encryptTransport]
    unchanged by its mark and does not count as the key having been sent; so an
    unmarked packet to that client that comes next also leaves unchanged, and
    only the one after it is sealed. *)
Theorem packet_after_exchange_in_clear w ctx l pw a b x y tctx tctx2 l2 a2 buf buf2 n :
  Pkt (c_ctx ctx) = Some l -> Pkt (t_ctx tctx) = Some pw -> Pkt (t_ctx tctx2) = Some l2 ->
  heap_ok (hp w) -> l2 <> pw ->
  abs (hp w) l = Some a -> abs (hp w) pw = Some b -> abs (hp w) l2 = Some a2 ->
  decode_pk (a_buff a) = Some (mk_PublicKey (Some x) (Some y)) ->
  a_dest a2 = c_From ctx -> skips_crypto (a_get KeyNoCrypto a2) = false ->
  let key := BigBytes (shared (exchanged false (cr w) x y)) in
  key_ok key = true -> rnd (cr w) !! 0%nat = Some (inr n) ->
  wp (keyExchangeServer ctx pw ;;;
      let* r1 := encryptTransport tctx buf in
      let* r2 := encryptTransport tctx2 buf2 in
      let* r3 := encryptTransport tctx2 buf2 in
      ret (r1.2, r2.2, r3.2))
     (fun res _ => res = (buf, buf2, n ++ Seal key n buf2)) w.
Proof.
  intros Hl Hp Hl2 Hok Hne Ha Hb Ha2 Hd Hdst Hsk key Hkey Hr.
  rewrite wp_bind. eapply wp_mono; [by eapply keyExchangeServer_spec|].
  intros ctx' w1 (_ & C1 & F1 & A1 & _).
  assert (A2 : abs (hp w1) l2 = Some a2) by (by rewrite (fr_abs _ _ _ F1)).
  assert (O1 : heap_ok (hp w1)) by apply F1.
  destruct (rnd (cr w)) as [|? r] eqn:Er; simplify_eq/=.
  (* the response *)
  rewrite wp_bind. eapply wp_ok; [by eapply encryptTransport_eq|].
  unfold out_data, out_crypto, out_decision. simpl.
  replace (a_get KeyNoCrypto (a_write (publicKey (cr w)) (a_add KeyNoCrypto "true" b)))
    with "true"%string by (unfold a_get; simpl; by rewrite lookup_insert_eq).
  simpl. rewrite upd_proj.
  (* the next packet *)
  rewrite wp_bind. eapply wp_ok; [by eapply encryptTransport_eq|].
  unfold out_data at 1, out_crypto, out_decision.
  rewrite Hsk, Hdst, C1. simpl. rewrite lookup_insert_eq. simpl.
  set (w2 := upd _ w1).
  assert (E2 : hp w2 = hp w1) by apply proj1_upd2.
  assert (C2 : cr w2 = store_key (c_From ctx) (exchanged true (cr w) x y) (cr w)).
  { unfold w2. rewrite proj_upd. unfold store_key. f_equal. by rewrite alter_insert_eq. }
  (* the one after it *)
  rewrite wp_bind. eapply wp_ok; [eapply encryptTransport_eq; by rewrite ?E2|].
  apply wp_ret. simpl. f_equal. unfold out_data, out_decision.
  rewrite Hsk, Hdst, C2. simpl. rewrite lookup_insert_eq. simpl.
  unfold key in Hkey. simpl in Hkey. by rewrite Hkey, Er.
Qed.

(** A key-exchange request whose public key lacks a coordinate (such as
    the empty object) panics: the nil coordinate reaches the curve. *)
Theorem keyExchangeServer_nil_panics w ctx l pw a pk :
  Pkt (c_ctx ctx) = Some l -> heap_ok (hp w) -> abs (hp w) l = Some a ->
  decode_pk (a_buff a) = Some pk -> X pk = None \/ Y pk = None ->
  keyExchangeServer ctx pw w = Panic NilDeref.
Proof.
  intros Hl Hok Ha Hd Hxy. unfold keyExchangeServer, ctx_pkt. rewrite Hl.
  erewrite bind_ok by done.
  erewrite bind_ok by (eapply heap_reads; [apply PktData_reads | done | done]).
  rewrite Hd. apply bind_panic. unfold crypt, lift, computeSharedKey.
  destruct pk as [[x|] [y|]]; simpl in *; by destruct Hxy.
Qed.

(** End-to-end round trip: a packet whose data is encrypted for a client
    and decrypted there, with the same shared secret on both sides, has its
    original data again, in the buffer and as committed for sending. *)
Theorem e2e_roundtrip w wr l lr a ar to from ks ksr n :
  heap_ok (hp w) -> abs (hp w) l = Some a -> heap_ok (hp wr) -> abs (hp wr) lr = Some ar ->
  keys (cr w) !! to = Some ks -> keys (cr wr) !! from = Some ksr ->
  shared ksr = shared ks -> key_ok (BigBytes (shared ks)) = true ->
  rnd (cr w) !! 0%nat = Some (inr n) -> length n = nonceSize ->
  wp (EncryptE2E to l) (fun err w' => err = None /\ forall a',
    abs (hp w') l = Some a' -> a_buff ar = a_buff a' ->
    wp (DecryptE2E from lr) (fun err wr' => err = None /\
      abs (hp wr') lr = Some (a_close (a_set_buff (a_buff a) ar))) wr) w.
Proof.
  intros Hok Ha Hokr Har Hk Hkr Hsh Hkey Hr Hn.
  destruct (rnd (cr w)) as [|? r] eqn:Er; simplify_eq/=.
  eapply wp_mono; [by apply EncryptE2E_ok|]. intros err w2 (-> & _ & A2 & _).
  split; [done|]. intros a' Ha' Hbuf. rewrite A2 in Ha'. simplify_eq/=.
  eapply wp_mono; [by eapply DecryptE2E_ok; rewrite ?Hsh|]. by intros err' w3 (-> & _ & A3 & _).
Qed.
End transport.
