(* ===== verification/KeyStores.v ===== *)
(** * KeyStores: the key stores of the extension under concurrency

    [Crypto] looks up a key store, reads its flag and sets it as one step.  The
    code does this through a pointer, with a lock for each access
    ([getKeyStore], [getKeySent], [setKeySent]), and every outgoing packet runs
    [encryptTransport] in a goroutine of its own.  Here the stores are objects,
    an outgoing packet is a thread that makes one access at a time, and key
    exchanges replace stores in between. *)

From Stdlib Require Import ZArith Lia Ascii String.
From stdpp Require Import base list strings gmap fin_maps relations.
From S2P Require Import Prelude Base64 Utf8 JsonText Decimal Json Packet PacketSpec.
From S2P Require Import Fmt Pipeline Cipher Crypto CryptoSpec.
Open Scope Z_scope.

(** ** Stores behind pointers *)

Record PCrypto := mk_PCrypto {
  ptrs : gmap string nat;      (* the field keys *)
  objs : list keyStore;        (* the stores, by pointer *)
  p_priv : PrivateKey;
  p_pub : bytes;
  p_rnd : Rand;
}.

#[export] Instance Has_p_rnd : Has Rand PCrypto.
Proof.
  refine {| proj := p_rnd; upd r c := mk_PCrypto (ptrs c) (objs c) (p_priv c) (p_pub c) r |};
    by intros; try destruct w.
Defined.

Definition set_objs (f : list keyStore -> list keyStore) : M PCrypto unit :=
  modify (fun c => mk_PCrypto (ptrs c) (f (objs c)) (p_priv c) (p_pub c) (p_rnd c)).

Definition getKeyStore_ptr (addr : string) : M PCrypto (option nat) := gets (fun c => ptrs c !! addr).

Definition setKeyStore_ptr (addr : string) (ks : keyStore) : M PCrypto unit :=
  modify (fun c => mk_PCrypto (<[addr := length (objs c)]> (ptrs c)) (objs c ++ [ks]) (p_priv c) (p_pub c) (p_rnd c)).

(** Using a pointer that is not an object does not happen: [get_obj] panics. *)
Definition get_obj (p : nat) : M PCrypto keyStore := fun c =>
  match objs c !! p with Some ks => Ok (ks, c) | None => Panic NilDeref end.

Definition getKeySent (p : nat) : M PCrypto bool := let* ks := get_obj p in ret (keySent ks).

Definition mark (ks : keyStore) (s : bool) : keyStore := mk_keyStore s (shared ks) (public ks).

Definition setKeySent_ptr (p : nat) (s : bool) : M PCrypto unit :=
  let* ks := get_obj p in set_objs <[p := mark ks s]>.

(** ** [encryptTransport], one access at a time *)

Inductive enc :=
  | EBegin (v dst : string) (buff : bytes)  (* before the test of the packet's mark [v] *)
  | EStart (dst : string) (buff : bytes)    (* before getKeyStore *)
  | EFound (p : nat) (buff : bytes)         (* before getKeySent *)
  | EUnsent (p : nat) (buff : bytes)        (* before setKeySent *)
  | ESent (p : nat) (buff : bytes)          (* before encryptAES *)
  | EClear (buff : bytes)                   (* returned the plaintext *)
  | ESealed (c : bytes)                     (* returned the ciphertext *)
  | EError (e : string) (buff : bytes).     (* returned the plaintext and an error *)

Section keystores.
Context `{A : AEAD}.

Definition enc_step (t : enc) : M PCrypto enc :=
  match t with
  | EBegin v dst b => ret (if skips_crypto v then EClear b else EStart dst b)
  | EStart dst b =>
      let* p := getKeyStore_ptr dst in
      ret (match p with Some p => EFound p b | None => EClear b end)
  | EFound p b => let* s := getKeySent p in ret (if s : bool then ESent p b else EUnsent p b)
  | EUnsent p b => setKeySent_ptr p true ;;; ret (EClear b)
  | ESent p b =>
      let* ks := get_obj p in
      let* (c, err) := lift (encryptAES (BigBytes (shared ks)) b) in
      ret (match err with Some e => EError e b | None => ESealed c end)
  | t => ret t
  end.

(** The thread alone: the test and three accesses. *)
Definition run_enc (t : enc) : M PCrypto enc :=
  let* t := enc_step t in let* t := enc_step t in let* t := enc_step t in enc_step t.

(** Goroutines and key exchanges; [ex addr] says that keys with [addr] may be
    exchanged meanwhile. *)
Inductive ks_step (ex : string -> Prop) : PCrypto * list enc -> PCrypto * list enc -> Prop :=
  | ks_enc c c' ts1 t t' ts2 :
      enc_step t c = Ok (t', c') -> ks_step ex (c, ts1 ++ t :: ts2) (c', ts1 ++ t' :: ts2)
  | ks_start c ts v dst b : ks_step ex (c, ts) (c, ts ++ [EBegin v dst b])
  | ks_exchange c c' ts addr ks :
      ex addr -> setKeyStore_ptr addr ks c = Ok (tt, c') -> ks_step ex (c, ts) (c', ts).

(** ** The stores as [Crypto] has them *)

Definition flat (c : PCrypto) : Crypto :=
  mk_Crypto (omap (fun p => objs c !! p) (ptrs c)) (p_priv c) (p_pub c) (p_rnd c).

(** No two addresses share a store, and every pointer is an object. *)
Record ks_ok (c : PCrypto) : Prop := {
  ko_inj : forall a b p, ptrs c !! a = Some p -> ptrs c !! b = Some p -> a = b;
  ko_obj : forall a p, ptrs c !! a = Some p -> is_Some (objs c !! p);
}.

Lemma flat_keys c addr : keys (flat c) !! addr = ptrs c !! addr ≫= (fun p => objs c !! p).
Proof. apply lookup_omap. Qed.

(** A new store for an address. *)
Lemma setKeyStore_flat c addr ks :
  ks_ok c ->
  exists c', setKeyStore_ptr addr ks c = Ok (tt, c') /\ ks_ok c' /\ flat c' = store_key addr ks (flat c).
Proof.
  intros [K1 K2]. eexists. split; [done|]. split; [split; simpl|].
  - intros a b p. destruct (decide (a = addr)) as [->|Ha], (decide (b = addr)) as [->|Hb];
      rewrite ?lookup_insert_eq, ?lookup_insert_ne by done; try done; try by apply K1.
    + intros [= <-] [x Hx%lookup_lt_Some]%K2. lia.
    + intros [x Hx%lookup_lt_Some]%K2 [= <-]. lia.
  - intros a p. destruct (decide (a = addr)) as [->|Ha];
      rewrite ?lookup_insert_eq, ?lookup_insert_ne by done.
    + intros [= <-]. rewrite list_lookup_middle by done. eauto.
    + intros [x Hx]%K2. exists x. by apply lookup_app_l_Some.
  - unfold flat, store_key. simpl. f_equal. apply map_eq. intros a. rewrite lookup_omap.
    destruct (decide (a = addr)) as [->|Ha].
    + rewrite !lookup_insert_eq. simpl. by apply list_lookup_middle.
    + rewrite !lookup_insert_ne, lookup_omap by done. destruct (ptrs c !! a) as [p|] eqn:Ep; [|done]. simpl.
      destruct (K2 _ _ Ep) as [x Hx]. by rewrite Hx, (lookup_app_l_Some _ _ _ _ Hx).
Qed.

(** Setting the flag of the store of an address. *)
Lemma setKeySent_flat c addr p s :
  ks_ok c -> ptrs c !! addr = Some p ->
  exists c', setKeySent_ptr p s c = Ok (tt, c') /\ ks_ok c' /\
    flat c' = mk_Crypto (alter (fun ks => mark ks s) addr (keys (flat c))) (p_priv c) (p_pub c) (p_rnd c).
Proof.
  intros [K1 K2] Hp. destruct (K2 _ _ Hp) as [ks Hks].
  eexists. unfold setKeySent_ptr, get_obj, bind. rewrite Hks. split; [done|].
  split; [split; simpl; [done|]|].
  - intros a q [x Hx]%K2. apply lookup_lt_is_Some. rewrite length_insert. by eapply lookup_lt_Some.
  - unfold flat. simpl. f_equal. apply map_eq. intros a. rewrite lookup_omap.
    destruct (decide (a = addr)) as [->|Ha].
    + rewrite lookup_alter_eq, lookup_omap, Hp. simpl. rewrite Hks. simpl.
      apply list_lookup_insert_eq. by eapply lookup_lt_Some.
    + rewrite lookup_alter_ne, lookup_omap by done. destruct (ptrs c !! a) as [q|] eqn:Eq; [|done]. simpl.
      apply list_lookup_insert_ne. intros ->. apply Ha. by eapply K1.
Qed.

(** ** A thread on its own *)

(** What the transform returns when the thread is done. *)
Definition enc_ctx (t : enc) (ctx : TransformContext) : TransformContext :=
  match t with EError e _ => t_stop CodeStopError ("encryption error: " +:+ e) ctx | _ => ctx end.

Definition enc_data (t : enc) : bytes :=
  match t with EBegin _ _ b | EStart _ b | EFound _ b | EUnsent _ b | ESent _ b | EClear b | EError _ b => b | ESealed c => c end.

Lemma run_enc_flat a buff c :
  ks_ok c ->
  exists t c', run_enc (EBegin (a_get KeyNoCrypto a) (a_dest a) buff) c = Ok (t, c') /\ ks_ok c' /\
    flat c' = out_crypto a (flat c) /\ enc_data t = out_data a (flat c) buff /\
    forall ctx, enc_ctx t ctx = out_ctx a (flat c) ctx.
Proof.
  intros K. unfold out_crypto, out_data, out_ctx, out_decision. rewrite flat_keys.
  unfold run_enc, bind, enc_step at 1, ret.
  destruct (skips_crypto _); [by exists (EClear buff), c|].
  unfold enc_step at 1, getKeyStore_ptr, gets, bind, ret.
  destruct (ptrs c !! a_dest a) as [p|] eqn:Ep; simpl; [|by exists (EClear buff), c].
  destruct (ko_obj _ K _ _ Ep) as [ks Hks]. rewrite Hks. simpl.
  unfold getKeySent, get_obj, bind, ret. rewrite Hks.
  destruct (keySent ks) eqn:Et; simpl.
  - unfold get_obj, bind. rewrite Hks. unfold lift, encryptAES. simpl.
    destruct (key_ok (BigBytes (shared ks))) eqn:Eo; simpl.
    + unfold bind, read_rand. destruct (p_rnd c) as [|[e|n] rr] eqn:Er; simpl;
        eexists _, _; (split; [done|]);
        (split; [by destruct K|]); by split_and!.
    + eexists _, _. split; [done|]. simpl.
      split; [by destruct K|]. by split_and!.
  - destruct (setKeySent_flat c _ p true K Ep) as (c' & Hset & K' & F'). unfold bind, ret. rewrite Hset.
    exists (EClear buff), c'. by split_and!.
Qed.

(** ** Many threads *)

Lemma ks_thread ex c c' t t' ts1 ts2 s :
  enc_step t c = Ok (t', c') -> rtc (ks_step ex) (c', ts1 ++ t' :: ts2) s -> rtc (ks_step ex) (c, ts1 ++ t :: ts2) s.
Proof. intros H. apply rtc_l. by apply ks_enc. Qed.

(** All threads make the same access, and all but the first find the state as
    the first leaves it. *)
Lemma ks_all ex (f g : bytes -> enc) c c' bs :
  (forall b, enc_step (f b) c = Ok (g b, c')) -> (forall b, enc_step (f b) c' = Ok (g b, c')) ->
  bs <> [] -> rtc (ks_step ex) (c, f <$> bs) (c', g <$> bs).
Proof.
  intros H1 H2. assert (Hrest : forall bs pre, rtc (ks_step ex) (c', pre ++ (f <$> bs)) (c', pre ++ (g <$> bs))).
  { clear bs. induction bs as [|b bs IH]; intros pre; [done|]. simpl.
    eapply ks_thread; [apply H2|]. specialize (IH (pre ++ [g b])). by rewrite <- !app_assoc in IH. }
  destruct bs as [|b bs]; [done|]. intros _. simpl. apply (ks_thread ex c c' _ (g b) []); [apply H1|].
  apply (Hrest bs [g b]).
Qed.

Lemma setKeySent_ptr_eq p ks c :
  objs c !! p = Some ks ->
  setKeySent_ptr p true c
  = Ok (tt, mk_PCrypto (ptrs c) (<[p := mark ks true]> (objs c)) (p_priv c) (p_pub c) (p_rnd c)).
Proof. intros H. unfold setKeySent_ptr, get_obj, bind. by rewrite H. Qed.

(** The store of [dst] is at [p] with its flag set and the secret [sh]. *)
Definition sent_store (dst : string) (p : nat) (sh : Z) (c : PCrypto) : Prop :=
  ptrs c !! dst = Some p /\ exists ks, objs c !! p = Some ks /\ keySent ks = true /\ shared ks = sh.

(** A thread for [dst] that can only seal under the secret [sh]. *)
Definition sealing (dst : string) (p : nat) (sh : Z) (b : bytes) (t : enc) : Prop :=
  match t with
  | EBegin v d x => skips_crypto v = false /\ d = dst /\ x = b
  | EStart d x => d = dst /\ x = b
  | EFound q x | ESent q x => q = p /\ x = b
  | ESealed c => exists n, c = n ++ Seal (BigBytes sh) n b /\ key_ok (BigBytes sh) = true
  | EError _ x => x = b
  | EUnsent _ _ | EClear _ => False
  end.

Lemma sent_store_step ex dst p sh c ts c' ts' :
  ks_step ex (c, ts) (c', ts') -> ~ ex dst -> sent_store dst p sh c -> sent_store dst p sh c'.
Proof.
  intros Hs Hex (Hp & ks & Hks & Hst & Hsh).
  inversion Hs as [c1 c2 ts1 t t' ts2 Hrun | | c1 c2 ts1 addr ks' Ha Hrun]; subst; [|by split; eauto|].
  - destruct t as [v d b|d b|q b|q b|q b|b|x|e b]; simpl in Hrun; try by injection Hrun as <- <-; split; eauto.
    + unfold getKeySent, get_obj, bind, ret in Hrun. destruct (objs c !! q); [|done].
      injection Hrun as <- <-. by split; eauto.
    + unfold setKeySent_ptr, get_obj, bind in Hrun. destruct (objs c !! q) as [ko|] eqn:Eq; [|done].
      injection Hrun as <- <-. split; [done|]. simpl. destruct (decide (q = p)) as [->|Hne].
      * rewrite list_lookup_insert_eq by (by eapply lookup_lt_Some). simplify_eq. eexists. by split_and!.
      * rewrite list_lookup_insert_ne by done. eauto.
    + unfold get_obj, bind, lift in Hrun. destruct (objs c !! q); [|done].
      destruct (encryptAES _ _ _) as [[[x [e|]] r']|]; [| |done]; injection Hrun as <- <-; by split; eauto.
  - injection Hrun as <-. split; simpl.
    + rewrite lookup_insert_ne; [done|]. by intros ->.
    + exists ks. split; [by apply lookup_app_l_Some | done].
Qed.

Lemma sealing_step dst p sh b t t' c c' :
  enc_step t c = Ok (t', c') -> sent_store dst p sh c -> sealing dst p sh b t -> sealing dst p sh b t'.
Proof.
  intros Hrun (Hp & ks & Hks & Hst & <-) Ht.
  destruct t as [v d x|d x|q x|q x|q x|x|x|e x]; simpl in Hrun, Ht; try done.
  - destruct Ht as (Hv & -> & ->). rewrite Hv in Hrun. by injection Hrun as <- <-.
  - destruct Ht as [-> ->]. injection Hrun as <- <-. by rewrite Hp.
  - destruct Ht as [-> ->]. unfold getKeySent, get_obj, bind, ret in Hrun. rewrite Hks, Hst in Hrun.
    by injection Hrun as <- <-.
  - destruct Ht as [-> ->]. unfold get_obj, bind, lift in Hrun. rewrite Hks in Hrun.
    unfold encryptAES in Hrun. destruct (key_ok _) eqn:Eo; [|by injection Hrun as <- <-].
    unfold bind, read_rand in Hrun. destruct (proj (S := Rand) c) as [|[e|n] rr]; simpl in Hrun;
      injection Hrun as <- <-; [done | done |]. simpl. eauto.
  - by injection Hrun as <- <-.
  - by injection Hrun as <- <-.
Qed.

Lemma sealing_reach ex dst p sh b i s s' :
  rtc (ks_step ex) s s' -> ~ ex dst -> sent_store dst p sh s.1 ->
  (exists t, s.2 !! i = Some t /\ sealing dst p sh b t) ->
  sent_store dst p sh s'.1 /\ exists t, s'.2 !! i = Some t /\ sealing dst p sh b t.
Proof.
  intros Hr Hex. induction Hr as [|[c ts] [c1 ts1] s' Hs _ IH]; intros Hc (t & Hi & Ht); [by eauto|].
  simpl in *. apply IH; [by eapply sent_store_step|]. clear IH s'.
  inversion Hs as [c2 c3 ts2 x x' ts3 Hrun | c2 ts2 v d y | ]; subst; [| |by eauto].
  - destruct (decide (i = length ts2)) as [->|Hne].
    + rewrite list_lookup_middle in Hi |- * by done. simplify_eq. eexists. split; [done|].
      by eapply sealing_step.
    + exists t. split; [|done]. destruct (decide (i < length ts2)%nat).
      * rewrite lookup_app_l in Hi |- * by done. done.
      * rewrite lookup_app_r in Hi |- * by lia. destruct (i - length ts2)%nat eqn:Ei; [lia|]. done.
  - exists t. split; [by apply lookup_app_l_Some | done].
Qed.

(** ** Theorems *)

Section equivalence.
Context `{C : Curve} {W : Type} `{HH : Has Heap W} `{HC : Has Crypto W} `{DJ : !Disjoint Heap Crypto W}.

(** One packet at a time, the accesses through pointers and locks are the
    transform of [Crypto]: run on its own, the thread returns the bytes, the
    status and the key stores that [encryptTransport] returns as one step. *)
Theorem keystores_sequential (w : W) ctx l a buff c :
  Pkt (t_ctx ctx) = Some l -> heap_ok (proj (S := Heap) w) -> abs (proj (S := Heap) w) l = Some a ->
  ks_ok c -> proj (S := Crypto) w = flat c ->
  exists t c', run_enc (EBegin (a_get KeyNoCrypto a) (a_dest a) buff) c = Ok (t, c') /\ ks_ok c' /\
    encryptTransport ctx buff w = Ok ((enc_ctx t ctx, enc_data t), upd (flat c') w).
Proof.
  intros Hl Hok Ha K Hc. destruct (run_enc_flat a buff c K) as (t & c' & Hrun & K' & F & D & X).
  exists t, c'. split; [done|]. split; [done|]. rewrite (encryptTransport_eq w ctx l a) by done.
  by rewrite Hc, F, D, X.
Qed.
End equivalence.

(** (C36) Reading the flag and setting it are not one step: after a key exchange
    any number of packets to the peer that are processed at the same time can
    all leave in clear, although the transform means to let one pass. *)
Theorem keystores_race ex c dst p ks bs :
  ptrs c !! dst = Some p -> objs c !! p = Some ks -> keySent ks = false -> bs <> [] ->
  exists c', rtc (ks_step ex) (c, EStart dst <$> bs) (c', EClear <$> bs) /\
    sent_store dst p (shared ks) c'.
Proof.
  intros Hp Hks Hst Hne.
  exists (mk_PCrypto (ptrs c) (<[p := mark ks true]> (objs c)) (p_priv c) (p_pub c) (p_rnd c)). split.
  - etransitivity; [apply (ks_all ex (EStart dst) (EFound p) c c); try done; intros b; simpl;
      unfold bind; simpl; by rewrite Hp|].
    etransitivity; [apply (ks_all ex (EFound p) (EUnsent p) c c); try done; intros b; simpl;
      unfold getKeySent, get_obj, bind, ret; by rewrite Hks, Hst|].
    pose proof (lookup_lt_Some _ _ _ Hks) as Hlt.
    apply ks_all; [| |done]; intros b; simpl; unfold bind.
    + by rewrite (setKeySent_ptr_eq p ks).
    + erewrite (setKeySent_ptr_eq p (mark ks true)); [|simpl; by rewrite list_lookup_insert_eq].
      simpl. by rewrite list_insert_insert_eq.
  - split; [done|]. simpl. eexists. split; [apply list_lookup_insert_eq; by eapply lookup_lt_Some|]. done.
Qed.

(** (C24) Once the flag is set, a packet that is not marked to skip the extension
    does not leave in clear: in every interleaving with other packets and with
    key exchanges with other peers, a packet without the mark that
    [encryptTransport] has not looked at when the flag is set is never returned
    in clear without an error; when it is returned without an error, it is sealed
    under the secret the flag belongs to, which is a key of AES. *)
Theorem keystores_sealed ex c ts v dst p sh b i c' ts' t :
  sent_store dst p sh c -> ~ ex dst -> skips_crypto v = false -> ts !! i = Some (EBegin v dst b) ->
  rtc (ks_step ex) (c, ts) (c', ts') -> ts' !! i = Some t ->
  (forall x, t <> EClear x) /\
  forall x, t = ESealed x -> exists n, x = n ++ Seal (BigBytes sh) n b /\ key_ok (BigBytes sh) = true.
Proof.
  intros Hc Hex Hv Hi Hr Ht.
  destruct (sealing_reach ex dst p sh b i _ _ Hr Hex Hc) as (_ & t' & Ht' & Hs); [by eexists|].
  simpl in Ht'. simplify_eq. split; [by intros x ->|]. by intros x ->.
Qed.
End keystores.
