(* ===== verification/Interfaces.v ===== *)
(** * Interfaces: the packet interfaces and what their users rely on

    Servers, clients and extensions use packets only through the interfaces of
    src/packet/packet.go.  The operations are type classes, their contract a
    class of laws over what a packet holds; the JSON packets and their creator
    are an instance.  The end-to-end functions of the cryptographic extension
    are proved against the contract, for any kind of packet. *)

From Stdlib Require Import ZArith Lia Ascii String.
From stdpp Require Import base list strings gmap fin_maps.
From S2P Require Import Prelude Base64 Utf8 JsonText Decimal Json Packet PacketSpec PacketProps.
From S2P Require Import Fmt Pipeline Cipher Crypto CryptoSpec.
Open Scope Z_scope.

(** ** Operations *)

(** [Metadata], through the packet that has it. *)
Class Metadata (S P : Type) := {
  MAdd : P -> string -> string -> M S unit;
  MGet : P -> string -> M S string;
  MClear : P -> M S unit;
}.

Class Writer (S P : Type) := {
  WMeta :: Metadata S P;
  WWrite : P -> bytes -> M S unit;
  WClose : P -> M S unit;
  WClear : P -> M S unit;
}.

(** [Packet]; an encoding or decoding error is [None] or [false]. *)
Class IPacket (S P : Type) := {
  IWriter :: Writer S P;
  IDest : P -> M S string;
  ISetDest : P -> string -> M S unit;
  IData : P -> M S bytes;
  IMarshal : P -> M S (option bytes);
  IUnmarshal : P -> bytes -> M S bool;
}.

Class IPacketCreator (S P : Type) := {
  IWarmup : nat -> M S unit;
  IPutBack : P -> M S unit;
  INewPkt : string -> string -> M S P;
  INewErrPkt : string -> string -> string -> M S P;
}.

(** ** Contract *)

(** What users see of a packet. *)
Record contents := mk_contents { c_meta : gmap string string; c_data : bytes; c_dest : string }.

Section method.
Context {S P : Type} (view : S -> P -> option contents) (valid : S -> Prop) (free : S -> P -> Prop).

(** A method of [p] with the effect [f] and the result [r] leaves all other
    packets alone. *)
Definition method {A} (m : M S A) (p : P) (f : contents -> contents) (r : contents -> A) : Prop :=
  forall s c, valid s -> view s p = Some c ->
    wp m (fun x s' => x = r c /\ valid s' /\ view s' p = Some (f c) /\
      (forall q, q <> p -> view s' q = view s q) /\ (forall q, free s' q <-> free s q)) s.

(** A call of the creator returns a packet that nobody holds. *)
Definition creates (m : M S P) (mt : gmap string string) (dst : string) : Prop :=
  forall s, valid s ->
    wp m (fun p s' => valid s' /\ view s' p = Some (mk_contents mt [] dst) /\ ~ free s' p /\
      forall q, ~ free s q -> is_Some (view s q) -> q <> p /\ view s' q = view s q) s.
End method.

Definition c_with_meta m c := mk_contents m (c_data c) (c_dest c).
Definition c_with_data d c := mk_contents (c_meta c) d (c_dest c).
Definition c_with_dest d c := mk_contents (c_meta c) (c_data c) d.

Class PacketLaws (S P : Type) `{IPacket S P} `{IPacketCreator S P} := {
  view : S -> P -> option contents;   (* [None]: not a usable packet *)
  valid : S -> Prop;
  free : S -> P -> Prop;              (* in the pool *)
  encodable : gmap string string -> Prop;
  law_Add : forall p k v, method view valid free (MAdd p k v) p (fun c => c_with_meta (<[k := v]> (c_meta c)) c) (fun _ => tt);
  law_Get : forall p k, method view valid free (MGet p k) p (fun c => c) (fun c => default ""%string (c_meta c !! k));
  law_MClear : forall p, method view valid free (MClear p) p (c_with_meta ∅) (fun _ => tt);
  law_Dest : forall p, method view valid free (IDest p) p (fun c => c) c_dest;
  law_SetDest : forall p d, method view valid free (ISetDest p d) p (c_with_dest d) (fun _ => tt);
  law_Data : forall p, method view valid free (IData p) p (fun c => c) c_data;
  law_Write : forall p d, method view valid free (WWrite p d) p (fun c => c_with_data (c_data c ++ d) c) (fun _ => tt);
  law_Close : forall p, method view valid free (WClose p) p (fun c => c) (fun _ => tt);
  law_Clear : forall p, method view valid free (WClear p) p (c_with_data []) (fun _ => tt);
  law_New : forall ref dst, creates view valid free (INewPkt ref dst) {[KeyRef := ref]} dst;
  law_NewErr : forall ref dst msg, creates view valid free (INewErrPkt ref dst msg)
    (<[KeySvrMsg := msg]> (<[KeySvrStatus := "-1"%string]> {[KeyRef := ref]})) dst;
  law_PutBack : forall p s, valid s -> is_Some (view s p) -> ~ free s p ->
    wp (IPutBack p) (fun _ s' => valid s' /\ free s' p /\ (forall q, view s' q = view s q) /\
      forall q, q <> p -> free s' q <-> free s q) s;
  (* a closed packet travels: its encoding decodes into any packet *)
  law_wire : forall p s c, valid s -> view s p = Some c -> encodable (c_meta c) ->
    wp (WClose p ;;; IMarshal p) (fun ob s' => exists bin, ob = Some bin /\ valid s' /\
      forall q, method view valid free (IUnmarshal q bin) q
        (fun c2 => mk_contents (c_meta c ∪ c_meta c2) (c_data c) (c_dest c2)) (fun _ => true)) s;
}.

(** ** The JSON packets *)

#[export] Instance json_meta : Metadata Heap nat := {| MAdd := Meta_Add; MGet := Meta_Get; MClear := Meta_Clear |}.
#[export] Instance json_writer : Writer Heap nat := {| WWrite := Write; WClose := Close; WClear := Clear |}.
#[export] Instance json_packet : IPacket Heap nat :=
  {| IDest := Dest; ISetDest := SetDest; IData := PktData; IMarshal := Marshal; IUnmarshal := Unmarshal |}.
#[export] Instance json_creator : IPacketCreator Heap nat :=
  {| IWarmup := Warmup; IPutBack := PutBack; INewPkt := NewPkt; INewErrPkt := NewErrPkt |}.

Definition contents_of (a : APkt) : contents := mk_contents (a_meta a) (a_buff a) (a_dest a).
Definition json_view (h : Heap) (l : nat) : option contents := contents_of <$> abs h l.
Definition json_valid (h : Heap) : Prop := heap_ok h /\ healthy h.
Definition json_free (h : Heap) (l : nat) : Prop := l ∈ pool h.

Lemma json_method {A} (m : M Heap A) l f g r r' :
  acts m l f r -> (forall a, contents_of (f a) = g (contents_of a)) -> (forall a, r a = r' (contents_of a)) ->
  method json_view json_valid json_free m l g r'.
Proof.
  intros Hm Hf Hr h c [Hok Hh] Hv. apply fmap_Some in Hv as (a & Ha & ->).
  eapply wp_mono; [by apply Hm|]. intros x h' (-> & F & A'). unfold json_view, json_free.
  rewrite (fr_pool _ _ _ F), A'. split_and!; [done | | by simpl; rewrite Hf | | done].
  - split; [apply F | by eapply healthy_frame].
  - intros q Hq. by rewrite (fr_abs _ _ _ F).
Qed.

Lemma json_creates m (mk : string -> APkt) mt dst :
  (forall h, heap_ok h -> healthy h -> wp m (fun l h' => got l h h' /\ exists d, abs h' l = Some (mk d)) h) ->
  (forall d, contents_of (mk d) = mk_contents mt [] dst) ->
  creates json_view json_valid json_free m mt dst.
Proof.
  intros Hm Hc h [Hok Hh]. eapply wp_mono; [by apply Hm|]. intros l h' (G & d & Ha).
  unfold json_view, json_free. rewrite Ha. simpl. split_and!; [| by rewrite Hc | by eapply got_not_pooled |].
  - split; [apply G | by eapply got_healthy].
  - intros q Hq Hs. assert (Hne : q <> l).
    { intros ->. destruct (got_pool _ _ _ G) as [Pm | [Hn _]]; [apply Hq; rewrite Pm; by left|].
      unfold abs in Hs. rewrite Hn in Hs. by destruct Hs. }
    split; [done|]. by rewrite (got_abs _ _ _ G).
Qed.

Lemma json_wire l h c :
  json_valid h -> json_view h l = Some c -> utf8_map (c_meta c) ->
  wp (Close l ;;; Marshal l) (fun ob h' => exists bin, ob = Some bin /\ json_valid h' /\
    forall q, method json_view json_valid json_free (Unmarshal q bin) q
      (fun c2 => mk_contents (c_meta c ∪ c_meta c2) (c_data c) (c_dest c2)) (fun _ => true)) h.
Proof.
  intros [Hok Hh] Hv Hu. apply fmap_Some in Hv as (a & Ha & ->). simpl in Hu.
  assert (HM : acts (Close l ;;; Marshal l) l a_close
    (fun a => Some (render_pkt (Some (a_meta a)) (a_data (a_close a))))).
  { eapply acts_ext; [eapply acts_seq; eauto with concord | done | done]. }
  eapply wp_mono; [by apply HM|]. intros ob h' (-> & F & A'). eexists. split; [done|].
  split; [split; [apply F | by eapply healthy_frame]|]. intros q. simpl.
  eapply json_method; [apply Unmarshal_acts, keeps_meta_render; [done | apply utf8_base64] | |];
    intros a2; unfold a_unmarshal; rewrite pure_doc_render by (done || apply utf8_base64);
    by rewrite b_of_s_of_b, Base64.decode_encode.
Qed.

Lemma json_PutBack l h :
  json_valid h -> is_Some (json_view h l) -> ~ json_free h l ->
  wp (PutBack l) (fun _ h' => json_valid h' /\ json_free h' l /\ (forall q, json_view h' q = json_view h q) /\
    forall q, q <> l -> json_free h' q <-> json_free h q) h.
Proof.
  intros [Hok Hh] [c Hv] Hn. apply fmap_Some in Hv as (a & Ha & ->).
  assert (is_Some (pkts h !! l)) by (unfold abs in Ha; destruct (pkts h !! l); [eauto | done]).
  eapply wp_mono; [by apply PutBack_spec|]. intros _ h' (Hok' & Pl & A' & _).
  unfold json_valid, json_free, json_view. rewrite Pl. split_and!; [done | | | |].
  - intros k. rewrite Pl, A', elem_of_app, list_elem_of_singleton. intros [Hk | ->]; [by apply Hh | eauto].
  - rewrite elem_of_app, list_elem_of_singleton. auto.
  - intros q. by rewrite A'.
  - intros q Hq. rewrite elem_of_app, list_elem_of_singleton. split; [by intros [?|?] | by left].
Qed.

#[export] Instance json_laws : PacketLaws Heap nat.
Proof.
  refine {| view := json_view; valid := json_valid; free := json_free; encodable := utf8_map;
            law_wire := json_wire; law_PutBack := json_PutBack |}; intros;
    try (by eapply json_method; [eauto with concord | done | done]).
  - apply (json_creates _ (fresh_pkt ref dst)); [|done]. intros h Hok Hh.
    eapply wp_mono; [by apply NewPkt_spec|]. intros l h' (G & _ & d & _ & Ha). eauto.
  - apply (json_creates _ (err_pkt ref dst msg)); [|done]. intros h Hok Hh.
    eapply wp_mono; [by apply NewErrPkt_spec|]. intros l h' (G & _ & d & _ & Ha). eauto.
Defined.

(** ** End-to-end encryption of any packet (src/core/crypto/client.go) *)

Section e2e.
Context `{A : AEAD} `{!AEADLaws A}.
Context {S P W : Type} `{PacketLaws S P} `{HS : Has S W} `{HC : Has Crypto W} `{DJ : !Disjoint S Crypto W}.
Abbreviation cr w := (proj (S := Crypto) w).
Abbreviation st w := (proj (S := S) w).

Definition on_pkt {B} (m : M S B) : M W B := lift m.

Definition rewrite_any (p : P) (data : bytes) : M W unit :=
  on_pkt (WClear p) ;;; on_pkt (WWrite p data) ;;; on_pkt (WClose p).

Definition EncryptE2E_any (to : string) (p : P) : M W (option string) :=
  let* data := on_pkt (IData p) in
  let* res := EncryptFor to data in
  match res with
  | inl e => ret (Some ("e2e encrypt error: " +:+ e))
  | inr encrypted => rewrite_any p encrypted ;;; ret None
  end.

Definition DecryptE2E_any (sender : string) (p : P) : M W (option string) :=
  let* data := on_pkt (IData p) in
  let* res := DecryptFrom sender data in
  match res with
  | inl e => ret (Some ("e2e decrypt error: " +:+ e))
  | inr decrypted => rewrite_any p decrypted ;;; ret None
  end.

(** A method call inside the process state. *)
Lemma wp_method {B} (m : M S B) p f r (w : W) c (Q : B -> W -> Prop) :
  method view valid free m p f r -> valid (st w) -> view (st w) p = Some c ->
  (forall s, valid s -> view s p = Some (f c) -> Q (r c) (upd s w)) -> wp (on_pkt m) Q w.
Proof.
  intros Hm Hv Hc HQ. unfold on_pkt. apply wp_lift. eapply wp_mono; [by apply Hm|].
  intros x s' (-> & Hv' & Hc' & _). by apply HQ.
Qed.

Lemma rewrite_any_spec p d c (w : W) (Q : unit -> W -> Prop) :
  valid (st w) -> view (st w) p = Some c ->
  (forall s, valid s -> view s p = Some (c_with_data d c) -> Q tt (upd s w)) -> wp (rewrite_any p d) Q w.
Proof.
  intros Hv Hc HQ. unfold rewrite_any. rewrite wp_bind. eapply wp_method; [apply law_Clear | done | done |].
  intros s1 V1 C1. rewrite wp_bind. eapply wp_method; [apply law_Write | by rewrite proj_upd | by rewrite proj_upd |].
  intros s2 V2 C2. eapply wp_method; [apply law_Close | by rewrite !proj_upd | by rewrite !proj_upd |].
  intros s3 V3 C3. rewrite !upd_upd. by apply HQ.
Qed.

(** (C16) End-to-end encryption over the wire, for every implementation of the
    packet interfaces that keeps their contract: a packet whose data is
    encrypted for a client, closed and encoded, and which that client, holding
    the same secret for the sender, decodes into a packet of its own and
    decrypts, has its original data and metadata there. *)
Theorem e2e_any_packet (w wr : W) p c to from ks ksr n :
  valid (st w) -> view (st w) p = Some c -> encodable (c_meta c) -> valid (st wr) ->
  keys (cr w) !! to = Some ks -> keys (cr wr) !! from = Some ksr ->
  shared ksr = shared ks -> key_ok (BigBytes (shared ks)) = true ->
  rnd (cr w) !! 0%nat = Some (inr n) -> length n = nonceSize ->
  wp (let* e := EncryptE2E_any to p in
      let* ob := on_pkt (WClose p ;;; IMarshal p) in ret (e, ob))
    (fun '(e, ob) _ => e = None /\ exists bin, ob = Some bin /\
      wp (let* q := on_pkt (INewPkt "" "") in
          let* ok := on_pkt (IUnmarshal q bin) in
          let* e := DecryptE2E_any from q in ret (q, ok, e))
        (fun '(q, ok, e) wr' => ok = true /\ e = None /\
          view (st wr') q = Some (mk_contents (c_meta c ∪ {[KeyRef := ""%string]}) (c_data c) "")) wr) w.
Proof.
  intros Hv Hc He Hvr Hk Hkr Hsh Hkey Hr Hn. destruct (rnd (cr w)) as [|x r] eqn:Er; simplify_eq/=.
  rewrite wp_bind. unfold EncryptE2E_any. rewrite wp_bind.
  eapply wp_method; [apply law_Data | done | done |]. intros s1 V1 C1. rewrite wp_bind.
  eapply wp_ok; [apply (EncryptFor_ok _ _ _ ks n r); by rewrite ?proj2_upd1|]. rewrite !proj2_upd1. cbn beta iota. rewrite wp_bind.
  eapply rewrite_any_spec; [by rewrite proj1_upd2, proj_upd | by rewrite proj1_upd2, proj_upd |].
  intros s2 V2 C2. apply wp_ret. rewrite wp_bind. unfold on_pkt at 1. apply wp_lift. rewrite proj_upd.
  eapply wp_mono; [by apply (law_wire p s2 _ V2 C2)|]. intros ob s3 (bin & -> & _ & Hdec).
  apply wp_ret. split; [done|]. exists bin. split; [done|].
  rewrite wp_bind. unfold on_pkt at 1. apply wp_lift. eapply wp_mono; [by apply law_New|].
  intros q s4 (V4 & C4 & _). rewrite wp_bind.
  eapply wp_method; [apply Hdec | by rewrite proj_upd | by rewrite proj_upd |]. intros s5 V5 C5.
  rewrite wp_bind. unfold DecryptE2E_any. rewrite wp_bind.
  eapply wp_method; [apply law_Data | by rewrite proj_upd | by rewrite proj_upd |]. intros s6 V6 C6.
  rewrite wp_bind. simpl c_data. rewrite <- Hsh.
  eapply wp_ok; [apply DecryptFrom_ok; rewrite ?proj2_upd1, ?Hsh; done|]. cbn beta iota. rewrite wp_bind.
  eapply rewrite_any_spec; [by rewrite proj_upd | by rewrite proj_upd |]. intros s7 V7 C7.
  apply wp_ret, wp_ret. rewrite proj_upd. by rewrite C7.
Qed.
End e2e.

(** On JSON packets they are the functions of [Crypto]. *)
Lemma e2e_json `{AEAD} {W} `{Has Heap W} `{Has Crypto W} to from l :
  EncryptE2E_any (S := Heap) (P := nat) (W := W) to l = EncryptE2E to l /\
  DecryptE2E_any (S := Heap) (P := nat) (W := W) from l = DecryptE2E from l.
Proof. done. Qed.
