(* ===== verification/UDPServer.v ===== *)
(** * UDPServer: the UDP server (src/server/udp_server.go, server.go)

    The state of the server process is its packet heap, the state [E] of the
    installed extension, the packets handed to [sendStream] and not yet
    processed, and the datagrams handed to [writeStream] and not yet written.
    A send on an unbuffered channel leaves the sender's goroutine waiting until
    a receiver comes; the waiting values are the list.  Each handler
    ([processIncoming], [processOutgoing]) runs in its own goroutine; [svr_step]
    interleaves whole handlers with the channel operations of the server's
    routines. *)

From Stdlib Require Import ZArith Lia Ascii String.
From stdpp Require Import base list strings gmap fin_maps.
From S2P Require Import Prelude Base64 Utf8 JsonText Decimal Json Packet PacketSpec.
From S2P Require Import Fmt Pipeline Cipher Crypto.
Open Scope Z_scope.

(** Default relay target and metadata keys (server.go) *)
Definition TargetRelay : string := "svr.relay".
Definition KeyRelayFrom : string := "_relay_src".
Definition KeyRelayTo : string := "_relay_dst".

(** [net.ResolveUDPAddr("udp", s)], an address being its text form; [None] is
    an error. *)
Class Resolver := { ResolveUDPAddr : string -> option string }.

Record writePacket := mk_writePacket { w_data : bytes; w_addr : string }.

Record SvrState (E : Type) := mk_SvrState {
  s_heap : Heap;
  s_ext : E;
  sendStream : list nat;
  writeStream : list writePacket;
  closed : bool;          (* both streams, closed when Serve returns *)
}.
Arguments mk_SvrState {E} _ _ _ _ _.
Arguments s_heap {E} _.
Arguments s_ext {E} _.
Arguments sendStream {E} _.
Arguments writeStream {E} _.
Arguments closed {E} _.

#[export] Instance Has_svr_heap E : Has Heap (SvrState E).
Proof.
  refine {| proj := s_heap;
            upd h w := mk_SvrState h (s_ext w) (sendStream w) (writeStream w) (closed w) |};
    by intros; try destruct w.
Defined.

#[export] Instance Has_svr_ext E : Has E (SvrState E).
Proof.
  refine {| proj := s_ext;
            upd e w := mk_SvrState (s_heap w) e (sendStream w) (writeStream w) (closed w) |};
    by intros; try destruct w.
Defined.

#[export] Instance Disjoint_svr E : Disjoint Heap E (SvrState E).
Proof. by split. Defined.

(** An extension next to other state of the program, such as the variables of
    its callbacks. *)
#[export] Instance Has_svr_fst A B : Has A (SvrState (A * B)).
Proof.
  refine {| proj w := (s_ext w).1;
            upd a w := mk_SvrState (s_heap w) (a, (s_ext w).2) (sendStream w) (writeStream w) (closed w) |};
    by intros; try destruct w as [h [x y] q o c].
Defined.

#[export] Instance Has_svr_snd A B : Has B (SvrState (A * B)).
Proof.
  refine {| proj w := (s_ext w).2;
            upd b w := mk_SvrState (s_heap w) ((s_ext w).1, b) (sendStream w) (writeStream w) (closed w) |};
    by intros; try destruct w as [h [x y] q o c].
Defined.

#[export] Instance Disjoint_svr_fst A B : Disjoint Heap A (SvrState (A * B)).
Proof. by split. Defined.
#[export] Instance Disjoint_svr_snd A B : Disjoint Heap B (SvrState (A * B)).
Proof. by split. Defined.

(** The state [S] is part of the extension's state. *)
Class InExt (S E : Type) `{Has S (SvrState E)} : Prop :=
  in_ext : forall s w, exists e,
    upd s w = mk_SvrState (s_heap w) e (sendStream w) (writeStream w) (closed w).

#[export] Instance InExt_ext E : InExt E E.
Proof. intros e w. by exists e. Qed.
#[export] Instance InExt_fst A B : InExt A (A * B).
Proof. intros a w. by eexists. Qed.
#[export] Instance InExt_snd A B : InExt B (A * B).
Proof. intros b w. by eexists. Qed.

Section server.
Context {E : Type} `{Resolver}.
Abbreviation W := (SvrState E).

Definition pk {A} (m : M Heap A) : M W A := lift m.

(** [svr.send() <- pkt] and [svr.dist() <- p]. *)
Definition send (l : nat) : M W unit := fun w =>
  if closed w then Panic SendOnClosed
  else Ok (tt, mk_SvrState (s_heap w) (s_ext w) (sendStream w ++ [l]) (writeStream w) (closed w)).

Definition dist (p : writePacket) : M W unit := fun w =>
  if closed w then Panic SendOnClosed
  else Ok (tt, mk_SvrState (s_heap w) (s_ext w) (sendStream w) (writeStream w ++ [p]) (closed w)).

Definition svr_pkt (c : PipelineCtx) : M W nat :=
  match Pkt c with Some l => ret l | None => throw NilDeref end.

Definition relayCallback : TargetCallback W := fun ctx _ =>
  let* l := svr_pkt (c_ctx ctx) in
  let* ref := pk (Meta_Get l KeyRef) in
  let* relayAddr := pk (Meta_Get l KeyRelayTo) in
  let* fwdPkt := pk (NewPkt ref relayAddr) in
  pk (Meta_Add fwdPkt KeyRelayFrom (c_From ctx)) ;;;
  let* d := pk (PktData l) in
  pk (Write fwdPkt d) ;;;
  pk (Close fwdPkt) ;;;
  send fwdPkt ;;;
  ret (c_stop CodeStopNoop "packet forwarded" ctx).

(** The pipelines of a new server: the relay target is installed. *)
Definition NewUDPServer : Processor W :=
  mk_Processor NewDataPipeline (AddCallback TargetRelay relayCallback NewPacketPipeline).

(** The initial state: no packet waits, the channels are open. *)
Definition svr_init (h : Heap) (e : E) : W := mk_SvrState h e [] [] false.

Definition send_err (ref dst msg : string) : M W unit :=
  let* l := pk (NewErrPkt ref dst msg) in send l.

(** The tail of [processIncoming]: what is done with the response. *)
Definition respond (ctx : TargetCtx) (resp : nat) : M W unit :=
  if Stat (c_ctx ctx) =? CodeStopNoop then pk (PutBack resp)
  else if Stat (c_ctx ctx) =? CodeRelay then
    let* relayAddr := pk (Meta_Get resp KeyRelayTo) in
    if String.eqb relayAddr "" then pk (PutBack resp)
    else
      pk (SetDest resp relayAddr) ;;;
      pk (Meta_Add resp KeyRelayFrom (c_From ctx)) ;;;
      pk (Close resp) ;;;
      send resp
  else pk (Close resp) ;;; send resp.

(** The middle: the packet [pkt] has been decoded. *)
Definition process_pkt (p : Processor W) (pkt : nat) (sender : string) : M W unit :=
  let* ref := pk (Meta_Get pkt KeyRef) in
  let* resp := pk (NewPkt ref sender) in
  let* target := pk (Meta_Get pkt KeyTarget) in
  let ctx := mk_TargetCtx (mk_PipelineCtx (Some pkt) 0 "") target sender in
  let* (ctx, err) := PacketProcess (PacketProcessor p) ctx resp in
  match err with
  | Some e =>
      pk (PutBack resp) ;;;
      send_err ref sender ("packet pipeline error: " +:+ e)
  | None => respond ctx resp
  end.

Definition processIncoming (p : Processor W) (data : bytes) (sender : string) : M W unit :=
  let tctx := mk_TransformContext (mk_PipelineCtx None 0 "") "_in_" sender in
  let* (tctx, data, err) := DataProcess (DataProcessor p) tctx data in
  match err with
  | Some e => send_err "" sender ("data pipeline error: " +:+ e)
  | None =>
      if Stat (t_ctx tctx) =? CodeStopNoop then ret tt
      else
        let* pkt := pk (NewPkt "" "") in
        let* ok := pk (Unmarshal pkt data) in
        (if ok : bool then process_pkt p pkt sender
         else send_err "" sender "malformed packet") ;;;
        pk (PutBack pkt)      (* deferred *)
  end.

Definition processOutgoing (p : Processor W) (pkt : nat) : M W unit :=
  (let* bin := pk (Marshal pkt) in
   match bin with
   | None => ret tt
   | Some bin =>
       let* dst := pk (Dest pkt) in
       match ResolveUDPAddr dst with
       | None => ret tt
       | Some addr =>
           let tctx := mk_TransformContext (mk_PipelineCtx (Some pkt) 0 "") "_out_" "" in
           let* (tctx, bin, err) := DataProcess (DataProcessor p) tctx bin in
           match err with
           | Some e =>
               let* ref := pk (Meta_Get pkt KeyRef) in
               let* dst := pk (Dest pkt) in
               send_err ref dst ("pipeline error: " +:+ e)
           | None =>
               if Stat (t_ctx tctx) =? CodeStopNoop then ret tt
               else dist (mk_writePacket bin addr)
           end
       end
   end) ;;;
  pk (PutBack pkt).           (* deferred *)

(** ** The routines

    [Serve] starts one [sendPkts], one [writePkts] and five [readPkts]; when the
    last reader has seen a read error it closes both streams.  [wire] is what
    has been written to the connection. *)
Record Server := mk_Server {
  svr : W;
  readers : nat;
  wire_out : list writePacket;
}.

(** [adm] is the set of datagrams the network may deliver. *)
Inductive svr_step (p : Processor W) (adm : bytes -> Prop) : Server -> Server -> Prop :=
  | step_read w w' n out data sender :
      (* a reader got a datagram and starts processIncoming *)
      (0 < n)%nat -> adm data ->
      processIncoming p data sender w = Ok (tt, w') ->
      svr_step p adm (mk_Server w n out) (mk_Server w' n out)
  | step_send w w' n out q1 l q2 :
      (* sendPkts receives a packet and starts processOutgoing *)
      sendStream w = q1 ++ l :: q2 ->
      processOutgoing p l
        (mk_SvrState (s_heap w) (s_ext w) (q1 ++ q2) (writeStream w) (closed w)) = Ok (tt, w') ->
      svr_step p adm (mk_Server w n out) (mk_Server w' n out)
  | step_write w n out q1 d q2 :
      (* writePkts receives a datagram and writes it *)
      writeStream w = q1 ++ d :: q2 ->
      svr_step p adm (mk_Server w n out)
        (mk_Server (mk_SvrState (s_heap w) (s_ext w) (sendStream w) (q1 ++ q2) (closed w)) n
           (out ++ [d]))
  | step_read_error w n out :
      (* a reader sees an error and returns; Serve returns with the last one *)
      (n = 0%nat -> sendStream w = [] /\ writeStream w = []) ->
      svr_step p adm (mk_Server w (S n) out)
        (mk_Server (mk_SvrState (s_heap w) (s_ext w) (sendStream w) (writeStream w)
                      (closed w || (n =? 0)%nat)) n out).

(** The ways in which the process goes down: a handler panics, or a channel is
    closed while a goroutine waits to send on it. *)
Inductive svr_panic (p : Processor W) (adm : bytes -> Prop) : Server -> panic -> Prop :=
  | panic_read w n out data sender e :
      (0 < n)%nat -> adm data -> processIncoming p data sender w = Panic e ->
      svr_panic p adm (mk_Server w n out) e
  | panic_send w n out q1 l q2 e :
      sendStream w = q1 ++ l :: q2 ->
      processOutgoing p l
        (mk_SvrState (s_heap w) (s_ext w) (q1 ++ q2) (writeStream w) (closed w)) = Panic e ->
      svr_panic p adm (mk_Server w n out) e
  | panic_close w out :
      sendStream w <> [] \/ writeStream w <> [] ->
      svr_panic p adm (mk_Server w 1 out) SendOnClosed.

Definition Serve_init (w : W) : Server := mk_Server w 5 [].

(** [Serve] locks the data pipeline before it starts its routines. *)
Definition Serve_lock (p : Processor W) : Processor W :=
  mk_Processor (Lock (DataProcessor p)) (PacketProcessor p).

Inductive reachable (p : Processor W) (adm : bytes -> Prop) (s0 : Server) : Server -> Prop :=
  | reach_init : reachable p adm s0 s0
  | reach_step s s' :
      reachable p adm s0 s -> svr_step p adm s s' -> reachable p adm s0 s'.
End server.
Arguments Server : clear implicits.
