(* ===== verification/UDPServerSpec.v ===== *)
(** * UDPServerSpec: ownership of packets in the server, and its handlers

    [inv F w]: the heap is well formed, every pooled packet is usable, and the
    packets of the running handler ([F]) and the ones waiting in [sendStream]
    are pairwise different, not pooled and usable.  The handlers keep it, so no
    packet is ever pooled twice or reused while it is in flight. *)

From Stdlib Require Import ZArith Lia Ascii String.
From stdpp Require Import base list strings gmap fin_maps.
From S2P Require Import Prelude Base64 Utf8 JsonText Decimal Json Packet PacketSpec PacketProps.
From S2P Require Import Fmt Pipeline Cipher Crypto UDPServer.
Open Scope Z_scope.

Section spec.
Context {E : Type} `{R : Resolver}.
Abbreviation W := (SvrState E).
Abbreviation ab w l := (abs (s_heap w) l).

Record inv (F : list nat) (w : W) : Prop := {
  inv_heap : heap_ok (s_heap w);
  inv_healthy : healthy (s_heap w);
  inv_nodup : NoDup (F ++ sendStream w);
  inv_live : forall l, l ∈ F ++ sendStream w -> (l ∉ pool (s_heap w)) /\ is_Some (ab w l);
  inv_open : closed w = false;
}.

(** Everything but the packet [l] is as before. *)
Record only (l : nat) (w w' : W) : Prop := {
  on_ext : s_ext w' = s_ext w;
  on_send : sendStream w' = sendStream w;
  on_write : writeStream w' = writeStream w;
  on_abs : forall k, k <> l -> ab w' k = ab w k;
}.

Lemma inv_owned F w l : inv F w -> l ∈ F -> exists a, ab w l = Some a.
Proof. intros I Hl. destruct (inv_live _ _ I l) as [_ [a Ha]]; [set_solver|]. eauto. Qed.

(** The response packet is none of the others. *)
Lemma inv_response pkt pw F w : inv (pkt :: pw :: F) w -> forall k, k ∈ pkt :: F -> k <> pw.
Proof.
  intros I k Hk ->. pose proof (inv_nodup _ _ I) as ND. simpl in ND.
  apply list.NoDup_cons in ND as [H1 H2]. apply list.NoDup_cons in H2 as [H2 _].
  apply elem_of_cons in Hk as [->|Hk]; [apply H1; by left | apply H2; set_solver].
Qed.

Lemma inv_perm F F' w : F ≡ₚ F' -> inv F w -> inv F' w.
Proof.
  intros P [A B C D O]. split; try done.
  - by rewrite <- P.
  - intros l Hl. apply D. by rewrite P.
Qed.

Lemma abs_live h l a : abs h l = Some a -> is_Some (pkts h !! l).
Proof. unfold abs. destruct (pkts h !! l); [eauto | done]. Qed.

(** A change of one owned packet (and of the extension's state) keeps the
    invariant. *)
Lemma inv_frame F w l h' e a :
  inv F w -> frame l (s_heap w) h' -> abs h' l = Some a ->
  inv F (mk_SvrState h' e (sendStream w) (writeStream w) (closed w)).
Proof.
  intros [I1 I2 I3 I4 I5] Fr Ha. pose proof (healthy_frame _ _ _ _ Fr Ha I2) as Hh.
  destruct Fr as [G1 G2 G3 G4]. split; simpl; try done.
  - intros k Hk. rewrite G2. split; [by apply I4|].
    destruct (decide (k = l)) as [->|Hne]; [eauto|]. rewrite G4 by done. by apply I4.
Qed.

(** A method call on an owned packet. *)
Lemma wp_pkt {A} (m : M Heap A) l f r F w a (Q : A -> W -> Prop) :
  acts m l f r -> inv F w -> l ∈ F -> ab w l = Some a ->
  (forall w', inv F w' -> only l w w' -> ab w' l = Some (f a) -> Q (r a) w') ->
  wp (pk m) Q w.
Proof.
  intros Hm I Hl Ha HQ. unfold pk. apply wp_lift.
  eapply wp_mono; [apply Hm; [apply I | done]|]. intros x h' (-> & Fr & A').
  apply HQ; [by eapply inv_frame | | done].
  destruct Fr as [G1 G2 G3 G4]. split; simpl; auto.
Qed.

(** A method that only reads. *)
Lemma wp_read {A} (m : M Heap A) l r F w a (Q : A -> W -> Prop) :
  reads m l r -> inv F w -> ab w l = Some a -> Q (r a) w -> wp (pk m) Q w.
Proof.
  intros Hm I Ha HQ. unfold pk. apply wp_lift.
  eapply wp_ok; [apply Hm; [apply I | exact Ha]|]. by rewrite upd_proj.
Qed.

(** Taking a packet from the creator. *)
Lemma inv_got F w l h' a :
  inv F w -> got l (s_heap w) h' -> abs h' l = Some a ->
  inv (l :: F) (mk_SvrState h' (s_ext w) (sendStream w) (writeStream w) (closed w)) /\
  l ∉ F ++ sendStream w.
Proof.
  intros [I1 I2 I3 I4 I5] G Ha.
  assert (Hnew : l ∉ F ++ sendStream w).
  { intros Hl. destruct (I4 l Hl) as [Hp [a' Ha']].
    destruct (got_pool _ _ _ G) as [P | [Hn _]].
    - apply Hp. rewrite P. by left.
    - destruct (abs_live _ _ _ Ha') as [q Hq]. congruence. }
  split; [|done]. split; simpl.
  - apply G.
  - eapply got_healthy; eauto.
  - apply list.NoDup_cons. done.
  - intros k [-> | Hk]%elem_of_cons.
    + split; [eapply got_not_pooled; eauto | simpl; eauto].
    + assert (k <> l) by (intros ->; done). rewrite (got_abs _ _ _ G) by done.
      destruct (I4 k Hk) as [Hp Hs]. split; [|done]. intros Hin. apply Hp.
      destruct (got_pool _ _ _ G) as [P | [_ Ep]]; [rewrite P; by right | by rewrite <- Ep].
  - done.
Qed.

Lemma only_got w l h' :
  got l (s_heap w) h' ->
  only l w (mk_SvrState h' (s_ext w) (sendStream w) (writeStream w) (closed w)).
Proof. intros G. split; simpl; try done. intros k Hk. by apply (got_abs _ _ _ G). Qed.

Lemma wp_NewPkt ref dst F w (Q : nat -> W -> Prop) :
  inv F w ->
  (forall l w' d, inv (l :: F) w' -> only l w w' -> l ∉ F ++ sendStream w ->
     ab w' l = Some (fresh_pkt ref dst d) -> stale_data (s_heap w) l d -> Q l w') ->
  wp (pk (NewPkt ref dst)) Q w.
Proof.
  intros I HQ. unfold pk. apply wp_lift.
  eapply wp_mono; [apply NewPkt_spec; apply I|]. intros l h' (G & _ & d & Hs & Ha).
  destruct (inv_got F w l h' _ I G Ha) as [I' Hn].
  by apply (HQ l _ d); [| apply only_got | | |].
Qed.

Lemma wp_NewErrPkt ref dst msg F w (Q : nat -> W -> Prop) :
  inv F w ->
  (forall l w' d, inv (l :: F) w' -> only l w w' -> l ∉ F ++ sendStream w ->
     ab w' l = Some (err_pkt ref dst msg d) -> stale_data (s_heap w) l d -> Q l w') ->
  wp (pk (NewErrPkt ref dst msg)) Q w.
Proof.
  intros I HQ. unfold pk. apply wp_lift.
  eapply wp_mono; [apply NewErrPkt_spec; apply I|]. intros l h' (G & _ & d & Hs & Ha).
  destruct (inv_got F w l h' _ I G Ha) as [I' Hn].
  by apply (HQ l _ d); [| apply only_got | | |].
Qed.

(** Returning an owned packet to the pool. *)
Lemma wp_PutBack l F w (Q : unit -> W -> Prop) :
  inv (l :: F) w ->
  (forall w', inv F w' -> s_ext w' = s_ext w -> sendStream w' = sendStream w ->
     writeStream w' = writeStream w -> (forall k, ab w' k = ab w k) ->
     pool (s_heap w') = pool (s_heap w) ++ [l] -> Q tt w') ->
  wp (pk (PutBack l)) Q w.
Proof.
  intros [I1 I2 I3 I4 I5] HQ. unfold pk. apply wp_lift.
  simpl in I3. apply list.NoDup_cons in I3 as [Hl I3].
  destruct (I4 l ltac:(by left)) as [Hp [a Ha]].
  eapply wp_mono; [apply PutBack_spec; eauto using abs_live|].
  intros [] h' (O & P & A & K). apply HQ; try done. split; simpl; try done.
  - intros k Hk. rewrite A. rewrite P in Hk.
    apply elem_of_app in Hk as [Hk | ->%list_elem_of_singleton]; eauto.
  - intros k Hk. rewrite A, P. destruct (I4 k ltac:(by right)) as [Hk1 Hk2]. split; [|done].
    rewrite elem_of_app, list_elem_of_singleton. intros [Hk3 | ->]; done.
Qed.

(** Handing an owned packet to [sendStream]. *)
Lemma wp_send l F w (Q : unit -> W -> Prop) :
  inv (l :: F) w ->
  (inv F (mk_SvrState (s_heap w) (s_ext w) (sendStream w ++ [l]) (writeStream w) (closed w)) ->
   Q tt (mk_SvrState (s_heap w) (s_ext w) (sendStream w ++ [l]) (writeStream w) (closed w))) ->
  wp (send l) Q w.
Proof.
  intros [I1 I2 I3 I4 I5] HQ. unfold wp, send. rewrite I5. rewrite I5 in HQ. apply HQ.
  assert (P : l :: F ++ sendStream w ≡ₚ F ++ sendStream w ++ [l]) by solve_Permutation.
  split; simpl; try done.
  - rewrite <- P. done.
  - intros k Hk. apply I4. simpl. by rewrite P.
Qed.

(** [sent l w w']: packet [l], new to everyone, was added to [sendStream] and
    nothing else changed for the packets that existed. *)
Record sent (l : nat) (w w' : W) : Prop := {
  st_ext : s_ext w' = s_ext w;
  st_send : sendStream w' = sendStream w ++ [l];
  st_write : writeStream w' = writeStream w;
  st_abs : forall k, k <> l -> ab w' k = ab w k;
}.

Lemma only_trans l w1 w2 w3 : only l w1 w2 -> only l w2 w3 -> only l w1 w3.
Proof.
  intros [A1 A2 A3 A4] [B1 B2 B3 B4]. split; [congruence.. |].
  intros k Hkl. by rewrite B4, A4.
Qed.

Lemma only_sent l w w' w'' :
  only l w w' -> w'' = mk_SvrState (s_heap w') (s_ext w') (sendStream w' ++ [l]) (writeStream w') (closed w') ->
  sent l w w''.
Proof. intros [A1 A2 A3 A4] ->. split; simpl; congruence || done. Qed.

Lemma wp_send_err ref dst msg F w (Q : unit -> W -> Prop) :
  inv F w ->
  (forall l w' d, inv F w' -> sent l w w' -> l ∉ F ++ sendStream w ->
     ab w' l = Some (err_pkt ref dst msg d) -> Q tt w') ->
  wp (send_err ref dst msg) Q w.
Proof.
  intros I HQ. unfold send_err. rewrite wp_bind. eapply wp_NewErrPkt; [done|].
  intros l w1 d I1 O1 Hn A1 _. eapply wp_send; [done|]. intros I2.
  apply (HQ l _ d); [done | by eapply only_sent | done | done].
Qed.

(** ** What the server asks of the callbacks it runs

    A safe callback works on the request and the response packet it is given:
    it does not panic on admissible requests, keeps both packets usable and
    unshared, keeps the request in its context, and leaves the request and the
    packets of other handlers ([F]) as they are. *)
Class CallbackSafe (adm : APkt -> Prop) (cb : TargetCallback W) : Prop :=
  callback_safe : forall F w ctx pkt pw a,
    Pkt (c_ctx ctx) = Some pkt -> inv (pkt :: pw :: F) w -> ab w pkt = Some a -> adm a ->
    wp (cb ctx pw) (fun ctx' w' => Pkt (c_ctx ctx') = Some pkt /\
      inv (pkt :: pw :: F) w' /\ forall k, k ∈ pkt :: F -> ab w' k = ab w k) w.

Definition queues_safe (adm : APkt -> Prop) (pp : PacketPipeline W) : Prop :=
  forall target cbs, callbackQueues pp !! target = Some cbs ->
    Forall (CallbackSafe (fun a => adm a /\ a_get KeyTarget a = target)) cbs.

Lemma queues_safe_new adm : queues_safe adm NewPacketPipeline.
Proof. intros t cbs. unfold NewPacketPipeline. simpl. by rewrite lookup_empty. Qed.

Lemma queues_safe_add adm target cb pp :
  CallbackSafe (fun a => adm a /\ a_get KeyTarget a = target) cb -> queues_safe adm pp ->
  queues_safe adm (AddCallback target cb pp).
Proof.
  intros Hcb Hpp t cbs. unfold AddCallback. simpl.
  destruct (decide (t = target)) as [->|Hne].
  - rewrite lookup_insert_eq. intros [= <-]. apply Forall_app. split; [|by constructor].
    destruct (callbackQueues pp !! target) as [l|] eqn:El; [by eapply Hpp | by constructor].
  - rewrite lookup_insert_ne by done. apply Hpp.
Qed.

Lemma run_callbacks_safe adm cbs F w ctx pkt pw a :
  Forall (CallbackSafe adm) cbs -> Pkt (c_ctx ctx) = Some pkt ->
  inv (pkt :: pw :: F) w -> ab w pkt = Some a -> adm a ->
  wp (run_callbacks cbs ctx pw) (fun _ w' => inv (pkt :: pw :: F) w') w.
Proof.
  intros Hs. revert w ctx. induction Hs as [|cb cbs Hcb Hs IH]; intros w ctx Hp I Ha Had.
  { by apply wp_ret. }
  cbn [run_callbacks]. rewrite wp_bind. eapply wp_mono; [by eapply Hcb|].
  intros ctx' w' (Hp' & I' & Ha'). destruct (judge _); [by apply wp_ret.. |].
  eapply IH; [done | done | | done]. by rewrite Ha' by (by left).
Qed.

(** The packet that is forwarded. *)
Definition relayed (a : APkt) (sender : string) : APkt :=
  mk_APkt (<[KeyRelayFrom := sender]> {[KeyRef := a_get KeyRef a]}) (a_buff a)
    (s_of_b (Base64.encode (a_buff a))) (a_get KeyRelayTo a).

Lemma relayCallback_spec F w ctx pkt pw a :
  Pkt (c_ctx ctx) = Some pkt -> inv (pkt :: pw :: F) w -> ab w pkt = Some a ->
  wp (relayCallback ctx pw) (fun ctx' w' =>
    ctx' = c_stop CodeStopNoop "packet forwarded" ctx /\ inv (pkt :: pw :: F) w' /\
    exists l, sent l w w' /\ (l ∉ pkt :: pw :: F ++ sendStream w) /\
      ab w' l = Some (relayed a (c_From ctx))) w.
Proof.
  intros Hp I Ha. unfold relayCallback, svr_pkt. rewrite Hp, wp_bind. apply wp_ret.
  rewrite wp_bind. eapply wp_read; [apply Meta_Get_reads | exact I | done |].
  rewrite wp_bind. eapply wp_read; [apply Meta_Get_reads | exact I | done |].
  rewrite wp_bind. eapply wp_NewPkt; [done|]. intros l w1 d I1 O1 Hn A1 _.
  assert (Hne : pkt <> l) by (intros ->; apply Hn; by left).
  assert (A1' : ab w1 pkt = Some a) by (by rewrite (on_abs _ _ _ O1)).
  rewrite wp_bind. eapply wp_pkt; [apply Meta_Add_acts | done | by left | done |].
  intros w2 I2 O2 A2.
  assert (A2' : ab w2 pkt = Some a) by (by rewrite (on_abs _ _ _ O2)).
  rewrite wp_bind. eapply wp_read; [apply PktData_reads | exact I2 | done |].
  rewrite wp_bind. eapply wp_pkt; [apply Write_acts | done | by left | done |].
  intros w3 I3 O3 A3.
  rewrite wp_bind. eapply wp_pkt; [apply Close_acts | done | by left | done |].
  intros w4 I4 O4 A4. rewrite wp_bind. eapply wp_send; [done|]. intros I5. apply wp_ret.
  split; [done|]. split; [done|]. exists l.
  split; [|split; [done | exact A4]].
  eapply only_sent; [|done]. eauto using only_trans.
Qed.

#[global] Instance relayCallback_safe adm : CallbackSafe adm relayCallback.
Proof.
  intros F w ctx pkt pw a Hp I Ha _.
  eapply wp_mono; [by eapply relayCallback_spec|].
  intros ctx' w' (-> & I' & l & S & Hn & _). split; [done|]. split; [done|].
  intros k Hk. apply (st_abs _ _ _ S). intros ->. apply Hn.
  apply elem_of_cons in Hk as [->|Hk]; [by left|]. do 2 right. apply elem_of_app. by left.
Qed.

Lemma respond_safe ctx resp F w :
  inv (resp :: F) w -> wp (respond ctx resp) (fun _ w' => inv F w') w.
Proof.
  intros I. destruct (inv_owned _ _ resp I ltac:(by left)) as [a Ha].
  assert (Hclose : forall w1 a1, inv (resp :: F) w1 -> ab w1 resp = Some a1 ->
     wp (pk (Close resp) ;;; send resp) (fun _ w' => inv F w') w1).
  { intros w1 a1 I1 A1. rewrite wp_bind.
    eapply wp_pkt; [apply Close_acts | done | by left | done |].
    intros w2 I2 _ _. by eapply wp_send. }
  unfold respond. destruct (Stat (c_ctx ctx) =? CodeStopNoop); [by eapply wp_PutBack|].
  destruct (Stat (c_ctx ctx) =? CodeRelay); [|by eapply Hclose].
  rewrite wp_bind. eapply wp_pkt; [apply Meta_Get_acts | done | by left | done |].
  intros w1 I1 _ A1. destruct (String.eqb _ _); [by eapply wp_PutBack|].
  rewrite wp_bind. eapply wp_pkt; [apply SetDest_acts | done | by left | done |].
  intros w2 I2 _ A2. rewrite wp_bind.
  eapply wp_pkt; [apply Meta_Add_acts | done | by left | done |]. intros w3 I3 _ A3.
  by eapply Hclose.
Qed.

(** A decoded request: the callbacks run on it and on a new response, which the
    handler then [finish]es. *)
Section finish.
Variable finish : TargetCtx -> nat -> M W unit.
Hypothesis finish_safe : forall ctx resp F w,
  inv (resp :: F) w -> wp (finish ctx resp) (fun _ w' => inv F w') w.

Lemma callbacks_safe adm p pkt sender F w a :
  queues_safe adm (PacketProcessor p) -> inv (pkt :: F) w -> ab w pkt = Some a -> adm a ->
  wp (let* ref := pk (Meta_Get pkt KeyRef) in
      let* resp := pk (NewPkt ref sender) in
      let* target := pk (Meta_Get pkt KeyTarget) in
      let ctx := mk_TargetCtx (mk_PipelineCtx (Some pkt) 0 "") target sender in
      let* (ctx, err) := PacketProcess (PacketProcessor p) ctx resp in
      match err with
      | Some e =>
          pk (PutBack resp) ;;;
          send_err ref sender ("packet pipeline error: " +:+ e)
      | None => finish ctx resp
      end) (fun _ w' => inv (pkt :: F) w') w.
Proof.
  intros Hq I Ha Had. rewrite wp_bind.
  eapply wp_pkt; [apply Meta_Get_acts | done | by left | done |]. intros w1 I1 O1 A1.
  rewrite wp_bind. eapply wp_NewPkt; [done|]. intros resp w2 d I2 O2 Hn A2 _.
  assert (Hne : pkt <> resp) by (intros ->; apply Hn; by left).
  assert (A2' : ab w2 pkt = Some a) by (by rewrite (on_abs _ _ _ O2)).
  rewrite wp_bind. eapply wp_pkt; [apply Meta_Get_acts | done | by right; left | done |].
  intros w3 I3 O3 A3. apply (inv_perm _ (pkt :: resp :: F)) in I3; [|apply Permutation_swap].
  assert (Hresp : forall w', inv (pkt :: resp :: F) w' -> inv (resp :: pkt :: F) w').
  { intros w' Iw. eapply inv_perm; [apply Permutation_swap | done]. }
  rewrite wp_bind. unfold PacketProcess. cbn [TargetName].
  assert (Herr : forall w' (e : option string) ctx, inv (pkt :: resp :: F) w' ->
    wp (match e with
        | Some e => pk (PutBack resp) ;;;
                    send_err (a_get KeyRef a) sender ("packet pipeline error: " +:+ e)
        | None => finish ctx resp
        end) (fun _ w' => inv (pkt :: F) w') w').
  { intros w' [e|] ctx Iw; [|by apply finish_safe, Hresp].
    rewrite wp_bind. eapply wp_PutBack; [by apply Hresp|]. intros w4 I4 _ _ _ _ _.
    by eapply wp_send_err. }
  destruct (callbackQueues (PacketProcessor p) !! _) as [cbs|] eqn:Ecb.
  - eapply wp_mono; [eapply run_callbacks_safe; [by eapply Hq | done.. ]|].
    intros [ctx' e] w4 I4. by apply Herr.
  - apply wp_ret. by apply (Herr w3 (Some _) (mk_TargetCtx (mk_PipelineCtx None 0 "") "" "")).
Qed.
End finish.

Lemma process_pkt_safe adm p pkt sender F w a :
  queues_safe adm (PacketProcessor p) -> inv (pkt :: F) w -> ab w pkt = Some a -> adm a ->
  wp (process_pkt p pkt sender) (fun _ w' => inv (pkt :: F) w') w.
Proof. apply (callbacks_safe respond). intros. by apply respond_safe. Qed.

(** ** What the server asks of the transforms *)

(** An outgoing transform gets the packet in its context; it leaves the packets
    of other handlers as they are. *)
Class OutSafe (t : BufferTransform W) : Prop :=
  out_safe : forall F w ctx pkt data,
    Pkt (t_ctx ctx) = Some pkt -> inv (pkt :: F) w ->
    wp (t ctx data) (fun res w' => Pkt (t_ctx res.1) = Some pkt /\ inv (pkt :: F) w' /\
      forall k, k ∈ F -> ab w' k = ab w k) w.

Lemma run_out_safe ts F w ctx pkt data :
  Forall OutSafe ts -> Pkt (t_ctx ctx) = Some pkt -> inv (pkt :: F) w ->
  wp (run_transforms ts ctx data) (fun _ w' => inv (pkt :: F) w') w.
Proof.
  intros Hs. revert w ctx data. induction Hs as [|t ts Ht Hs IH]; intros w ctx data Hp I.
  { by apply wp_ret. }
  cbn [run_transforms]. rewrite wp_bind. eapply wp_mono; [by eapply Ht|].
  intros [ctx' d'] w' (Hp' & I' & _). simpl in Hp'.
  destruct (judge _); [by apply wp_ret.. |]. by eapply IH.
Qed.

Definition in_ctx (sender : string) : TransformContext :=
  mk_TransformContext (mk_PipelineCtx None 0 "") "_in_" sender.

(** The incoming stage on admissible datagrams: no panic, the handlers' packets
    are left alone, and what it hands to the decoder does not set the metadata
    to nil and decodes to an admissible request. *)
Definition decodes (admp : APkt -> Prop) (dt : bytes) : Prop :=
  keeps_meta dt = true /\
  forall s, (a_unmarshal dt (fresh_pkt "" "" s)).2 = true ->
    admp (a_unmarshal dt (fresh_pkt "" "" s)).1.

Definition in_stage_safe (adm : bytes -> Prop) (admp : APkt -> Prop) (d : DataPipeline W) : Prop :=
  forall F w sender data, inv F w -> adm data ->
    wp (DataProcess d (in_ctx sender) data) (fun '(_, dt, e) w' => inv F w' /\
      (forall k, k ∈ F -> ab w' k = ab w k) /\ (e = None -> decodes admp dt)) w.

Record processor_safe (adm : bytes -> Prop) (admp : APkt -> Prop) (p : Processor W) : Prop := {
  ps_in : in_stage_safe adm admp (DataProcessor p);
  ps_out : Forall OutSafe (transforms (DataProcessor p) "_out_");
  ps_cb : queues_safe admp (PacketProcessor p);
}.

(** Decoding and processing of what the incoming stage lets through. *)
Lemma decoded_safe (k : nat -> M W unit) (admp : APkt -> Prop) sender dt w :
  (forall pkt w a, inv [pkt] w -> ab w pkt = Some a -> admp a ->
     wp (k pkt) (fun _ w' => inv [pkt] w') w) ->
  inv [] w -> decodes admp dt ->
  wp (let* pkt := pk (NewPkt "" "") in
      let* ok := pk (Unmarshal pkt dt) in
      (if ok : bool then k pkt else send_err "" sender "malformed packet") ;;;
      pk (PutBack pkt)) (fun _ w' => inv [] w') w.
Proof.
  intros Hk I [Hkm Hadm].
  rewrite wp_bind. eapply wp_NewPkt; [done|]. intros pkt w2 s I2 _ _ A2 _.
  rewrite wp_bind. eapply wp_pkt; [by apply Unmarshal_acts | done | by left | done |].
  intros w3 I3 _ A3. rewrite wp_bind.
  assert (Hfin : forall w', inv [pkt] w' -> wp (pk (PutBack pkt)) (fun _ w' => inv [] w') w').
  { intros w' Iw. by eapply wp_PutBack. }
  destruct (a_unmarshal dt _).2 eqn:Eu.
  - eapply wp_mono; [eapply Hk; [done | done | by apply Hadm] | auto].
  - eapply wp_send_err; [done|]. intros; auto.
Qed.

Lemma processIncoming_safe adm admp p data sender w :
  processor_safe adm admp p -> inv [] w -> adm data ->
  wp (processIncoming p data sender) (fun _ w' => inv [] w') w.
Proof.
  intros [Pi Po Pc] I Hd. unfold processIncoming. rewrite wp_bind.
  eapply wp_mono; [by apply Pi|]. intros [[tctx dt] e] w1 (I1 & _ & Hk).
  destruct e as [e|]; [by eapply wp_send_err|].
  destruct (Stat _ =? CodeStopNoop); [by apply wp_ret|].
  apply (decoded_safe _ admp); [|done|by apply Hk]. intros; by eapply process_pkt_safe.
Qed.

(** The end of an outgoing handler: an error is reported to the destination,
    the data otherwise handed to the writer. *)
Lemma outgoing_end_safe pkt (tctx : TransformContext) (e : option string) msg x w :
  inv [pkt] w ->
  wp (match e with
      | Some e =>
          let* ref := pk (Meta_Get pkt KeyRef) in
          let* dst := pk (Dest pkt) in
          send_err ref dst (msg +:+ e)
      | None => if Stat (t_ctx tctx) =? CodeStopNoop then ret tt else dist x
      end) (fun _ w' => inv [pkt] w') w.
Proof.
  intros I. destruct (inv_owned _ _ pkt I ltac:(by left)) as [a Ha]. destruct e as [e|].
  - rewrite wp_bind. eapply wp_read; [apply Meta_Get_reads | exact I | done |].
    rewrite wp_bind. eapply wp_read; [apply Dest_reads | exact I | done |].
    by eapply wp_send_err.
  - destruct (Stat _ =? CodeStopNoop); [by apply wp_ret|].
    unfold wp, dist. rewrite (inv_open _ _ I). by destruct I.
Qed.

Lemma processOutgoing_safe adm admp p pkt w :
  processor_safe adm admp p -> inv [pkt] w ->
  wp (processOutgoing p pkt) (fun _ w' => inv [] w') w.
Proof.
  intros [Pi Po Pc] I. destruct (inv_owned _ _ pkt I ltac:(by left)) as [a Ha].
  unfold processOutgoing. rewrite wp_bind.
  assert (Hfin : forall w', inv [pkt] w' -> wp (pk (PutBack pkt)) (fun _ w' => inv [] w') w').
  { intros w' Iw. by eapply wp_PutBack. }
  rewrite wp_bind. eapply wp_pkt; [apply Marshal_acts | done | by left | done |].
  intros w1 I1 _ A1. rewrite wp_bind.
  eapply wp_pkt; [apply Dest_acts | done | by left | done |]. intros w2 I2 _ A2.
  destruct (ResolveUDPAddr _) as [addr|]; [|by apply wp_ret, Hfin].
  rewrite wp_bind. eapply wp_mono; [by eapply run_out_safe|].
  intros [[tctx bin] e] w3 I3. eapply wp_mono; [by apply outgoing_end_safe | auto].
Qed.

(** Receiving a waiting packet makes it the handler's. *)
Lemma inv_received F w q1 l q2 :
  inv F w -> sendStream w = q1 ++ l :: q2 ->
  inv (l :: F) (mk_SvrState (s_heap w) (s_ext w) (q1 ++ q2) (writeStream w) (closed w)).
Proof.
  intros [I1 I2 I3 I4 I5] Eq. rewrite Eq in I3, I4.
  assert (P : F ++ q1 ++ l :: q2 ≡ₚ l :: F ++ q1 ++ q2) by solve_Permutation.
  split; simpl; try done.
  - by rewrite <- P.
  - intros k Hk. apply I4. by rewrite P.
Qed.

Lemma inv_receive w q1 l q2 :
  inv [] w -> sendStream w = q1 ++ l :: q2 ->
  inv [l] (mk_SvrState (s_heap w) (s_ext w) (q1 ++ q2) (writeStream w) (closed w)).
Proof. apply inv_received. Qed.

Lemma svr_step_inv adm admp p s s' :
  processor_safe adm admp p -> svr_step p adm s s' ->
  ((0 < readers s)%nat -> inv [] (svr s)) -> (0 < readers s')%nat -> inv [] (svr s').
Proof.
  intros Hp Hs. destruct Hs as [w w' n out data sender Hn Hd Hrun | w w' n out q1 l q2 Hq Hrun
    | w n out q1 d q2 Hq | w n out Hc]; simpl; intros I Hr.
  - pose proof (processIncoming_safe adm admp p data sender w Hp (I Hn) Hd) as Hwp.
    unfold wp in Hwp. by rewrite Hrun in Hwp.
  - pose proof (processOutgoing_safe adm admp p l _ Hp (inv_receive w q1 l q2 (I Hr) Hq)) as Hwp.
    unfold wp in Hwp. by rewrite Hrun in Hwp.
  - destruct (I Hr). by split.
  - destruct (I ltac:(lia)) as [I1 I2 I3 I4 I5]. split; simpl; try done.
    rewrite I5. destruct n; [lia | done].
Qed.

Lemma reachable_inv adm admp p s0 s :
  processor_safe adm admp p -> inv [] (svr s0) -> reachable p adm s0 s ->
  (0 < readers s)%nat -> inv [] (svr s).
Proof. intros Hp I0 Hr. induction Hr as [|s s' Hr IH Hs]; [done|]. by eapply svr_step_inv. Qed.
End spec.
