(* ===== verification/UDPServerProps.v ===== *)
(** * UDPServerProps: the properties of the UDP server

    Safety of every reachable state, what each kind of datagram makes the
    server send, what is written for a packet, and the failure loop of an
    unusable shared secret. *)

From Stdlib Require Import ZArith Lia Ascii String.
From stdpp Require Import base list strings gmap fin_maps.
From S2P Require Import Prelude Base64 Utf8 JsonText Decimal Json Packet PacketSpec PacketProps.
From S2P Require Import Fmt Pipeline Cipher Crypto CryptoSpec UDPServer UDPServerSpec.
Open Scope Z_scope.

Section props.
Context {E : Type} `{R : Resolver}.
Abbreviation W := (SvrState E).
Abbreviation ab w l := (abs (s_heap w) l).

(** Ownership in every reachable state: as long as the server reads, no
    packet is in the pool twice, no packet waits to be sent twice, no waiting
    packet is pooled, and every pooled or waiting packet is usable.  This holds
    for every interleaving of handlers, for every choice of the pool, for all
    installed callbacks and transforms that keep to the server's conditions. *)
Theorem server_ownership adm admp (p : Processor W) w s :
  processor_safe adm admp p -> inv [] w ->
  reachable p adm (Serve_init w) s -> (0 < readers s)%nat ->
  NoDup (pool (s_heap (svr s)) ++ sendStream (svr s)) /\
  forall l, l ∈ pool (s_heap (svr s)) ++ sendStream (svr s) -> is_Some (ab (svr s) l).
Proof.
  intros Hp I Hr Hn. destruct (reachable_inv adm admp p (Serve_init w) s Hp I Hr Hn) as [I1 I2 I3 I4 I5].
  simpl in *. split.
  - apply list.NoDup_app. split; [apply (ok_pool_nodup _ I1)|]. split; [|done].
    intros l H1 H2. by apply (I4 l H2).
  - intros l [H1 | H2]%elem_of_app; [by apply I2 | by apply I4].
Qed.

(** Panic freedom: in every such state no handler panics on an admissible
    datagram or a waiting packet; the only way to go down is closing the
    channels, when the last reader returns, while a goroutine waits to send. *)
Theorem server_no_panic adm admp (p : Processor W) w s e :
  processor_safe adm admp p -> inv [] w ->
  reachable p adm (Serve_init w) s -> (0 < readers s)%nat ->
  svr_panic p adm s e -> e = SendOnClosed /\ readers s = 1%nat.
Proof.
  intros Hp I Hr Hn Hpan. pose proof (reachable_inv adm admp p (Serve_init w) s Hp I Hr Hn) as Is.
  destruct Hpan as [w' n out data sender e Hn' Hd Hrun | w' n out q1 l q2 e Hq Hrun | w' out Hq];
    simpl in *.
  - pose proof (processIncoming_safe adm admp p data sender w' Hp Is Hd) as Hwp.
    unfold wp in Hwp. by rewrite Hrun in Hwp.
  - pose proof (processOutgoing_safe adm admp p l _ Hp (inv_receive w' q1 l q2 Is Hq)) as Hwp.
    unfold wp in Hwp. by rewrite Hrun in Hwp.
  - done.
Qed.

(** A server without data transforms whose callbacks are safe meets the
    conditions, for the datagrams that do not null the metadata. *)
Lemma plain_processor_safe (p : Processor W) :
  transforms (DataProcessor p) "_in_" = [] -> transforms (DataProcessor p) "_out_" = [] ->
  queues_safe (fun _ => True) (PacketProcessor p) ->
  processor_safe (fun d => keeps_meta d = true) (fun _ => True) p.
Proof.
  intros Hi Ho Hq. split; [| by rewrite Ho | done].
  intros F w sender data I Hd. rewrite DataProcess_none by done. by apply wp_ret.
Qed.

Lemma NewUDPServer_safe :
  processor_safe (fun d => keeps_meta d = true) (fun _ => True) (NewUDPServer (E := E)).
Proof.
  apply plain_processor_safe; [done.. |]. apply queues_safe_add; [apply _ | apply queues_safe_new].
Qed.

(** ** What a datagram makes the server send *)

Section incoming.
Variable p : Processor W.
Hypothesis no_in : transforms (DataProcessor p) "_in_" = [].

(** The decoded request. *)
Definition request (m : gmap string string) (b : bytes) : APkt :=
  mk_APkt (m ∪ {[KeyRef := ""%string]}) b (s_of_b (Base64.encode b)) "".

Definition datagram (m : gmap string string) (b : bytes) : bytes :=
  render_pkt (Some m) (s_of_b (Base64.encode b)).

Lemma request_get m b k : a_get k (request m b) = default ""%string (m !! k).
Proof.
  unfold a_get, request. simpl. rewrite lookup_union.
  destruct (decide (k = KeyRef)) as [->|Hne].
  - rewrite lookup_singleton_eq. by destruct (m !! KeyRef).
  - rewrite lookup_singleton_ne by done. by destruct (m !! k).
Qed.

(** The part of [processIncoming] up to the decoded packet, if the incoming
    stage turns what arrived into a datagram. *)
Lemma wp_incoming_pass m b raw sender w (Q : unit -> W -> Prop) :
  DataProcess (DataProcessor p) (in_ctx sender) raw w
    = Ok ((in_ctx sender, datagram m b, None), w) ->
  inv [] w -> utf8_map m ->
  (forall pkt w', inv [pkt] w' -> only pkt w w' -> pkt ∉ sendStream w ->
     ab w' pkt = Some (request m b) ->
     wp (process_pkt p pkt sender ;;; pk (PutBack pkt)) Q w') ->
  wp (processIncoming p raw sender) Q w.
Proof.
  intros Hpass I Hm HQ. unfold processIncoming. rewrite wp_bind.
  eapply wp_ok; [exact Hpass|].
  cbn [Stat t_ctx in_ctx]. change (0 =? CodeStopNoop) with false. cbn iota.
  rewrite wp_bind. eapply wp_NewPkt; [done|].
  intros pkt w1 d I1 O1 Hn A1 _. rewrite wp_bind.
  eapply wp_pkt; [apply Unmarshal_acts | done | by left | done |].
  { apply keeps_meta_render; [done | apply utf8_base64]. }
  intros w2 I2 O2 A2. unfold a_unmarshal, datagram in *. simpl in A2 |- *.
  rewrite pure_doc_render in A2 |- * by (done || apply utf8_base64).
  rewrite b_of_s_of_b, Base64.decode_encode in A2 |- *. simpl.
  apply HQ; [done | by eapply only_trans | done | done].
Qed.

Lemma wp_incoming m b sender w (Q : unit -> W -> Prop) :
  inv [] w -> utf8_map m ->
  (forall pkt w', inv [pkt] w' -> only pkt w w' -> pkt ∉ sendStream w ->
     ab w' pkt = Some (request m b) ->
     wp (process_pkt p pkt sender ;;; pk (PutBack pkt)) Q w') ->
  wp (processIncoming p (datagram m b) sender) Q w.
Proof. apply wp_incoming_pass. by rewrite DataProcess_none. Qed.

(** The part of [process_pkt] up to the callbacks. *)
Lemma wp_process_pkt pkt sender a w (Q : unit -> W -> Prop) :
  inv [pkt] w -> ab w pkt = Some a ->
  (forall resp w' d, inv [pkt; resp] w' -> only resp w w' -> resp ∉ pkt :: sendStream w ->
     ab w' resp = Some (fresh_pkt (a_get KeyRef a) sender d) ->
     wp (let* (ctx, err) := PacketProcess (PacketProcessor p)
           (mk_TargetCtx (mk_PipelineCtx (Some pkt) 0 "") (a_get KeyTarget a) sender) resp in
         match err with
         | Some e => pk (PutBack resp) ;;;
             send_err (a_get KeyRef a) sender ("packet pipeline error: " +:+ e)
         | None => respond ctx resp
         end) Q w') ->
  wp (process_pkt p pkt sender) Q w.
Proof.
  intros I Ha HQ. unfold process_pkt. rewrite wp_bind. eapply wp_read; [apply Meta_Get_reads | exact I | done |].
  rewrite wp_bind. eapply wp_NewPkt; [done|]. intros resp w1 d I1 O1 Hn A1 _.
  assert (Hne : pkt <> resp) by (intros ->; apply Hn; by left).
  rewrite wp_bind. eapply wp_read; [apply Meta_Get_reads | exact I1 | by rewrite (on_abs _ _ _ O1) |]. apply (HQ resp w1 d); [|done..].
  eapply inv_perm; [apply Permutation_swap | done].
Qed.

(** The outcome of a datagram that makes the server send one packet: it is the
    only addition to the waiting packets, nothing is written directly and the
    extension's state is as before. *)
Definition sends_one (w w' : W) (a : APkt -> Prop) : Prop :=
  inv [] w' /\ s_ext w' = s_ext w /\ writeStream w' = writeStream w /\
  exists l x, sendStream w' = sendStream w ++ [l] /\ ab w' l = Some x /\ a x.

(** The error packet with the given text; its committed data is whatever the
    reused packet carried. *)
Definition is_err (ref dst msg : string) (x : APkt) : Prop :=
  exists d, x = err_pkt ref dst msg d.

(** Decoding fails on a text that is not a JSON document. *)
Lemma wp_malformed (k : nat -> M W unit) data sender w :
  inv [] w -> parse data = None ->
  wp (let* pkt := pk (NewPkt "" "") in
      let* ok := pk (Unmarshal pkt data) in
      (if ok : bool then k pkt else send_err "" sender "malformed packet") ;;;
      pk (PutBack pkt)) (fun _ w' => sends_one w w' (is_err "" sender "malformed packet")) w.
Proof.
  intros I Hp. rewrite wp_bind. eapply wp_NewPkt; [done|].
  intros pkt w1 d I1 O1 Hn A1 _. rewrite wp_bind.
  eapply wp_pkt; [apply Unmarshal_acts | done | by left | done |].
  { unfold keeps_meta. by rewrite Hp. }
  intros w2 I2 O2 A2. unfold a_unmarshal, pure_doc. rewrite Hp. cbn.
  rewrite wp_bind. eapply wp_send_err; [done|]. intros l w3 d3 I3 S3 Hn3 A3.
  eapply wp_PutBack; [done|]. intros w4 I4 E4 S4 W4 A4 _.
  pose proof (only_trans _ _ _ _ O1 O2) as O.
  split; [done|]. rewrite E4, W4, S4, (st_ext _ _ _ S3), (st_write _ _ _ S3), (st_send _ _ _ S3).
  rewrite (on_ext _ _ _ O), (on_write _ _ _ O), (on_send _ _ _ O).
  split; [done|]. split; [done|]. eexists l, _. rewrite A4. split; [done|]. split; [done|].
  by exists d3.
Qed.

(** A datagram that is not a JSON document makes the server send one
    error packet, "malformed packet", without a reference, to the sender. *)
Theorem malformed_reported data sender w :
  inv [] w -> parse data = None ->
  wp (processIncoming p data sender)
     (fun _ w' => sends_one w w' (is_err "" sender "malformed packet")) w.
Proof.
  intros I Hp. unfold processIncoming. rewrite wp_bind, DataProcess_none by done.
  apply wp_ret. cbn [Stat t_ctx]. change (0 =? CodeStopNoop) with false. cbn iota.
  by apply wp_malformed.
Qed.

(** The response is dropped and an error reported. *)
Lemma wp_drop_report pkt resp ref sender msg w0 w1 w :
  inv [pkt; resp] w -> only pkt w0 w1 -> only resp w1 w ->
  wp (pk (PutBack resp) ;;; send_err ref sender msg)
     (fun _ w' => wp (pk (PutBack pkt)) (fun _ w'' => sends_one w0 w'' (is_err ref sender msg)) w') w.
Proof.
  intros I2 O1 O2. rewrite wp_bind.
  eapply wp_PutBack; [eapply inv_perm; [apply Permutation_swap | done]|].
  intros w3 I3 E3 S3 W3 A3 _. eapply wp_send_err; [done|]. intros l w4 d4 I4 S4 Hn4 A4.
  eapply wp_PutBack; [done|]. intros w5 I5 E5 S5 W5 A5 _.
  split; [done|]. rewrite E5, W5, S5, (st_ext _ _ _ S4), (st_write _ _ _ S4), (st_send _ _ _ S4).
  rewrite E3, W3, S3, (on_ext _ _ _ O2), (on_write _ _ _ O2), (on_send _ _ _ O2).
  rewrite (on_ext _ _ _ O1), (on_write _ _ _ O1), (on_send _ _ _ O1).
  split; [done|]. split; [done|]. eexists l, _. rewrite A5. split; [done|]. split; [done|].
  by exists d4.
Qed.

(** A well-formed packet for a target without callbacks makes the server
    send one error packet to the sender, with the packet's reference and the
    text "packet pipeline error: target not found". *)
Theorem unknown_target_reported m b sender w :
  inv [] w -> utf8_map m ->
  callbackQueues (PacketProcessor p) !! default ""%string (m !! KeyTarget) = None ->
  wp (processIncoming p (datagram m b) sender)
     (fun _ w' => sends_one w w' (is_err (default ""%string (m !! KeyRef)) sender
        "packet pipeline error: target not found")) w.
Proof.
  intros I Hm Ht. apply wp_incoming; [done | done |].
  intros pkt w1 I1 O1 Hn1 A1. rewrite wp_bind.
  eapply wp_process_pkt; [done | done |]. intros resp w2 d I2 O2 Hn2 A2.
  rewrite wp_bind. unfold PacketProcess. cbn [TargetName]. rewrite !request_get, Ht.
  apply wp_ret. by eapply wp_drop_report.
Qed.

(** A callback that only fills in the response: [f request response]. *)
Definition answers (cb : TargetCallback W) (f : APkt -> APkt -> APkt) : Prop :=
  forall w ctx pkt pw a b,
    Pkt (c_ctx ctx) = Some pkt -> inv [pkt; pw] w -> ab w pkt = Some a -> ab w pw = Some b ->
    wp (cb ctx pw) (fun ctx' w' => ctx' = ctx /\ inv [pkt; pw] w' /\ only pw w w' /\
      ab w' pw = Some (f a b)) w.

(** The status with which a single callback has the response sent. *)
Definition completes (ctx : TargetCtx) : Prop :=
  Stat (c_ctx ctx) = CodeContinue \/ Stat (c_ctx ctx) = CodeStopCloseSend.

(** A callback on the request [q] of [sender], in a state of the server whose
    extension is in state [e]: it applies [f] to the response and leaves the
    extension in state [e']. *)
Definition answers_in (sender : string) (e : E) (q : APkt) (cb : TargetCallback W)
    (f : APkt -> APkt) (e' : E) : Prop :=
  forall w ctx pkt pw b, s_ext w = e -> c_From ctx = sender -> Stat (c_ctx ctx) = CodeContinue ->
    Pkt (c_ctx ctx) = Some pkt -> inv [pkt; pw] w -> ab w pkt = Some q -> ab w pw = Some b ->
    wp (cb ctx pw) (fun ctx' w' => completes ctx' /\ inv [pkt; pw] w' /\ only pw (upd e' w) w' /\
      ab w' pw = Some (f b)) w.

(** The same for a callback that refuses the request with a message. *)
Definition refuses_in (e : E) (q : APkt) (cb : TargetCallback W) (msg : string) : Prop :=
  forall w ctx pkt pw b, s_ext w = e ->
    Pkt (c_ctx ctx) = Some pkt -> inv [pkt; pw] w -> ab w pkt = Some q -> ab w pw = Some b ->
    cb ctx pw w = Ok (c_stop CodeStopError msg ctx, w).

Lemma answers_answers_in sender e q cb f : answers cb f -> answers_in sender e q cb (f q) e.
Proof.
  intros Hcb w ctx pkt pw b <- _ Hs Hp I Ha Hb. eapply wp_mono; [by eapply Hcb|].
  intros ctx' w' (-> & I' & O' & A'). split; [by left|]. split; [done|]. split; [|done].
  change (s_ext w) with (proj (S := E) w). by rewrite upd_proj.
Qed.

(** A response of a single callback is closed and sent. *)
Lemma wp_respond ctx pkt resp a w (Q : unit -> W -> Prop) :
  completes ctx -> inv [pkt; resp] w -> ab w resp = Some a ->
  (forall w', inv [] w' -> s_ext w' = s_ext w -> writeStream w' = writeStream w ->
     sendStream w' = sendStream w ++ [resp] -> ab w' resp = Some (a_close a) -> Q tt w') ->
  wp (respond ctx resp ;;; pk (PutBack pkt)) Q w.
Proof.
  intros Hc I Ha HQ. rewrite wp_bind. unfold respond.
  replace (Stat (c_ctx ctx) =? CodeStopNoop) with false by (by destruct Hc as [-> | ->]).
  replace (Stat (c_ctx ctx) =? CodeRelay) with false by (by destruct Hc as [-> | ->]).
  rewrite wp_bind.
  eapply wp_pkt; [apply Close_acts | done | by right; left | done |]. intros w4 I4 O4 A4.
  eapply wp_send; [eapply inv_perm; [apply Permutation_swap | done]|]. intros I5.
  eapply wp_PutBack; [done|]. intros w6 I6 E6 S6 W6 A6 _. simpl in *.
  apply HQ; [done | by rewrite E6, (on_ext _ _ _ O4) | by rewrite W6, (on_write _ _ _ O4)
    | by rewrite S6, (on_send _ _ _ O4) | by rewrite A6].
Qed.

Lemma request_stage m b raw sender w cb f e' :
  DataProcess (DataProcessor p) (in_ctx sender) raw w
    = Ok ((in_ctx sender, datagram m b, None), w) ->
  inv [] w -> utf8_map m -> answers_in sender (s_ext w) (request m b) cb f e' ->
  callbackQueues (PacketProcessor p) !! default ""%string (m !! KeyTarget) = Some [cb] ->
  wp (processIncoming p raw sender)
     (fun _ w' => sends_one (upd e' w) w' (fun x => exists d,
        x = a_close (f (fresh_pkt (default ""%string (m !! KeyRef)) sender d)))) w.
Proof.
  intros Hst I Hm Hcb Ht. eapply wp_incoming_pass; [exact Hst | done | done |].
  intros pkt w1 I1 O1 Hn1 A1. rewrite wp_bind.
  eapply wp_process_pkt; [done | done |]. intros resp w2 d I2 O2 Hn2 A2.
  rewrite wp_bind. unfold PacketProcess. cbn [TargetName]. rewrite !request_get, Ht.
  assert (Hne : pkt <> resp) by (intros ->; apply Hn2; by left).
  cbn [run_callbacks]. rewrite wp_bind.
  eapply wp_mono.
  { eapply Hcb; [by rewrite (on_ext _ _ _ O2), (on_ext _ _ _ O1) | done | done | done | done
      | by rewrite (on_abs _ _ _ O2) | done]. }
  intros ctx' w3 (Hc & I3 & O3 & A3).
  assert (Hrun : wp (respond ctx' resp ;;; pk (PutBack pkt)) (fun _ w' => sends_one (upd e' w) w'
    (fun x => exists d, x = a_close (f (fresh_pkt (default ""%string (m !! KeyRef)) sender d)))) w3).
  { eapply wp_respond; [done | done | done |]. intros w4 I4 E4 W4 S4 A4. split; [done|].
    rewrite E4, W4, S4, (on_ext _ _ _ O3), (on_write _ _ _ O3), (on_send _ _ _ O3). simpl.
    rewrite (on_write _ _ _ O2), (on_send _ _ _ O2), (on_write _ _ _ O1), (on_send _ _ _ O1).
    split; [done|]. split; [done|]. eexists resp, _. rewrite request_get in A4. eauto. }
  rewrite wp_bind in Hrun. destruct Hc as [Hc|Hc]; rewrite Hc; cbn; by apply wp_ret.
Qed.

Lemma refusal_stage m b raw sender w cb msg :
  DataProcess (DataProcessor p) (in_ctx sender) raw w
    = Ok ((in_ctx sender, datagram m b, None), w) ->
  inv [] w -> utf8_map m -> refuses_in (s_ext w) (request m b) cb msg ->
  callbackQueues (PacketProcessor p) !! default ""%string (m !! KeyTarget) = Some [cb] ->
  wp (processIncoming p raw sender)
     (fun _ w' => sends_one w w' (is_err (default ""%string (m !! KeyRef)) sender
        ("packet pipeline error: " +:+ Errorf msg))) w.
Proof.
  intros Hst I Hm Hcb Ht. eapply wp_incoming_pass; [exact Hst | done | done |].
  intros pkt w1 I1 O1 Hn1 A1. rewrite wp_bind.
  eapply wp_process_pkt; [done | done |]. intros resp w2 d I2 O2 Hn2 A2.
  rewrite wp_bind. unfold PacketProcess. cbn [TargetName]. rewrite !request_get, Ht.
  assert (Hne : pkt <> resp) by (intros ->; apply Hn2; by left).
  cbn [run_callbacks]. rewrite wp_bind. eapply wp_ok.
  { eapply Hcb; [by rewrite (on_ext _ _ _ O2), (on_ext _ _ _ O1) | done | done
      | by rewrite (on_abs _ _ _ O2) | done]. }
  cbn. apply wp_ret. by eapply wp_drop_report.
Qed.

Lemma request_sent m b sender w cb f :
  inv [] w -> utf8_map m -> answers cb f ->
  callbackQueues (PacketProcessor p) !! default ""%string (m !! KeyTarget) = Some [cb] ->
  wp (processIncoming p (datagram m b) sender)
     (fun _ w' => sends_one w w' (fun x => exists d,
        x = a_close (f (request m b) (fresh_pkt (default ""%string (m !! KeyRef)) sender d)))) w.
Proof.
  intros I Hm Hcb Ht.
  pose proof (request_stage m b (datagram m b) sender w cb (f (request m b)) (s_ext w)) as Hr.
  change (s_ext w) with (proj (S := E) w) in Hr at 3. rewrite upd_proj in Hr.
  apply Hr; [by rewrite DataProcess_none | done | done | by apply answers_answers_in | exact Ht].
Qed.

(** (C9) Request and response on a server without incoming transforms in a
    well-formed state: a datagram that encodes a packet with UTF-8 metadata for
    a target whose queue is one callback that only fills in the response makes
    [processIncoming] send exactly one packet, the committed response, created
    with the request's reference and addressed to the sender. *)
Theorem request_answered m b sender w cb f :
  inv [] w -> utf8_map m -> answers cb f ->
  callbackQueues (PacketProcessor p) !! default ""%string (m !! KeyTarget) = Some [cb] ->
  wp (processIncoming p (datagram m b) sender)
     (fun _ w' => sends_one w w' (fun x => exists d,
        x = a_close (f (request m b) (fresh_pkt (default ""%string (m !! KeyRef)) sender d)))) w.
Proof. apply request_sent. Qed.

(** The packet the relay target sends on. *)
Definition forwarded (m : gmap string string) (b : bytes) (sender : string) : APkt :=
  mk_APkt (<[KeyRelayFrom := sender]> {[KeyRef := default ""%string (m !! KeyRef)]}) b
    (s_of_b (Base64.encode b)) (default ""%string (m !! KeyRelayTo)).

Lemma relay_stage m b raw sender w :
  DataProcess (DataProcessor p) (in_ctx sender) raw w
    = Ok ((in_ctx sender, datagram m b, None), w) ->
  inv [] w -> utf8_map m -> m !! KeyTarget = Some TargetRelay ->
  callbackQueues (PacketProcessor p) !! TargetRelay = Some [relayCallback] ->
  wp (processIncoming p raw sender) (fun _ w' => sends_one w w' (eq (forwarded m b sender))) w.
Proof.
  intros Hst I Hm Htgt Ht. eapply wp_incoming_pass; [exact Hst | done | done |].
  intros pkt w1 I1 O1 Hn1 A1. rewrite wp_bind.
  eapply wp_process_pkt; [done | done |]. intros resp w2 d I2 O2 Hn2 A2.
  rewrite wp_bind. unfold PacketProcess. cbn [TargetName]. rewrite !request_get, Htgt. simpl default.
  rewrite Ht. assert (Hne : pkt <> resp) by (intros ->; apply Hn2; by left).
  cbn [run_callbacks]. rewrite wp_bind.
  eapply wp_mono; [eapply relayCallback_spec; [done | done | by rewrite (on_abs _ _ _ O2)]|].
  intros ctx' w3 (-> & I3 & l & S3 & Hn3 & A3). apply wp_ret. cbn iota beta. unfold respond.
  cbn [Stat c_ctx c_stop set_stat]. change (CodeStopNoop =? CodeStopNoop) with true. cbn iota.
  eapply wp_PutBack; [eapply inv_perm; [apply Permutation_swap | done]|].
  intros w4 I4 E4 S4 W4 A4 _. eapply wp_PutBack; [done|]. intros w5 I5 E5 S5 W5 A5 _.
  split; [done|]. rewrite E5, W5, S5, E4, W4, S4.
  rewrite (st_ext _ _ _ S3), (st_write _ _ _ S3), (st_send _ _ _ S3).
  rewrite (on_ext _ _ _ O2), (on_write _ _ _ O2), (on_send _ _ _ O2).
  rewrite (on_ext _ _ _ O1), (on_write _ _ _ O1), (on_send _ _ _ O1).
  split; [done|]. split; [done|]. eexists l, _. rewrite A5, A4. split; [done|]. split; [done|].
  unfold relayed, forwarded. by rewrite !request_get.
Qed.

End incoming.

(** ** What is written for a packet *)

Definition out_tctx (pkt : nat) : TransformContext :=
  mk_TransformContext (mk_PipelineCtx (Some pkt) 0 "") "_out_" "".

(** The outgoing handler if the outgoing stage turns the data into [bin'] and
    leaves the extension in state [e]. *)
Lemma outgoing_stage (p : Processor W) pkt a bin' e w :
  DataProcess (DataProcessor p) (out_tctx pkt) (render_pkt (Some (a_meta a)) (a_data a)) w
    = Ok ((out_tctx pkt, bin', None), upd e w) ->
  inv [pkt] w -> ab w pkt = Some a ->
  wp (processOutgoing p pkt) (fun _ w' => inv [] w' /\
    s_ext w' = (match ResolveUDPAddr (a_dest a) with Some _ => e | None => s_ext w end) /\
    sendStream w' = sendStream w /\ (forall k, ab w' k = ab w k) /\
    pool (s_heap w') = pool (s_heap w) ++ [pkt] /\
    writeStream w' = writeStream w ++
      match ResolveUDPAddr (a_dest a) with
      | Some addr => [mk_writePacket bin' addr]
      | None => []
      end) w.
Proof.
  intros Hpass I Ha. unfold processOutgoing. rewrite !wp_bind.
  eapply wp_read; [apply Marshal_reads | exact I | done |].
  rewrite wp_bind. eapply wp_read; [apply Dest_reads | exact I | done |].
  destruct (ResolveUDPAddr (a_dest a)) as [addr|].
  - rewrite wp_bind. eapply wp_ok; [exact Hpass|]. cbn [Stat t_ctx out_tctx].
    change (0 =? CodeStopNoop) with false. cbn iota. unfold wp at 1, dist. simpl closed.
    rewrite (inv_open _ _ I). eapply (wp_PutBack pkt []); [by destruct I|].
    intros w' I' E' S' W' A' P'. simpl in *. by split_and!.
  - apply wp_ret. eapply (wp_PutBack pkt []); [done|].
    intros w' I' E' S' W' A' P'. rewrite app_nil_r. by split_and!.
Qed.

(** The same if the stage lets the data through. *)
Lemma outgoing_pass (p : Processor W) pkt a w :
  let bin := render_pkt (Some (a_meta a)) (a_data a) in
  DataProcess (DataProcessor p) (out_tctx pkt) bin w = Ok ((out_tctx pkt, bin, None), w) ->
  inv [pkt] w -> ab w pkt = Some a ->
  wp (processOutgoing p pkt) (fun _ w' => inv [] w' /\ s_ext w' = s_ext w /\
    sendStream w' = sendStream w /\
    pool (s_heap w') = pool (s_heap w) ++ [pkt] /\
    writeStream w' = writeStream w ++
      match ResolveUDPAddr (a_dest a) with
      | Some addr => [mk_writePacket bin addr]
      | None => []
      end) w.
Proof.
  intros bin Hpass I Ha. eapply wp_mono.
  { eapply (outgoing_stage p pkt a bin (s_ext w)); [|done..].
    change (s_ext w) with (proj (S := E) w). by rewrite upd_proj. }
  intros [] w' (I' & E' & S' & _ & H'). split; [done|]. split; [by destruct (ResolveUDPAddr _)|]. done.
Qed.

Lemma outgoing_sent (p : Processor W) pkt a w :
  transforms (DataProcessor p) "_out_" = [] -> inv [pkt] w -> ab w pkt = Some a ->
  wp (processOutgoing p pkt) (fun _ w' => inv [] w' /\ s_ext w' = s_ext w /\
    sendStream w' = sendStream w /\
    pool (s_heap w') = pool (s_heap w) ++ [pkt] /\
    writeStream w' = writeStream w ++
      match ResolveUDPAddr (a_dest a) with
      | Some addr => [mk_writePacket (render_pkt (Some (a_meta a)) (a_data a)) addr]
      | None => []
      end) w.
Proof. intros Ho. apply outgoing_pass. by rewrite DataProcess_none. Qed.

(** A waiting packet of a server without outgoing transforms: when its
    destination resolves, exactly one datagram, the packet's wire form, is
    handed to the writer for that address, otherwise nothing is; in both cases
    the packet goes back to the pool and nothing new waits to be sent. *)
Theorem outgoing_written (p : Processor W) pkt a w :
  transforms (DataProcessor p) "_out_" = [] -> inv [pkt] w -> ab w pkt = Some a ->
  wp (processOutgoing p pkt) (fun _ w' => inv [] w' /\ s_ext w' = s_ext w /\
    sendStream w' = sendStream w /\
    pool (s_heap w') = pool (s_heap w) ++ [pkt] /\
    writeStream w' = writeStream w ++
      match ResolveUDPAddr (a_dest a) with
      | Some addr => [mk_writePacket (render_pkt (Some (a_meta a)) (a_data a)) addr]
      | None => []
      end) w.
Proof. apply outgoing_sent. Qed.
End props.

(** ** A server with the cryptographic extension *)

Section with_crypto.
Context `{A : AEAD} `{C : Curve} `{R : Resolver}.
Abbreviation WC := (SvrState Crypto).

(** The pipelines of a server extended with [Extend "server"]. *)
Lemma Extend_server_out (p : Processor WC) :
  transforms (DataProcessor (Extend "server" p).1) "_out_"
  = transforms (DataProcessor p) "_out_" ++ [encryptTransport].
Proof.
  simpl. unfold transforms at 1. unfold AddTransform at 1. simpl.
  rewrite lookup_insert_eq. simpl. unfold transforms, AddTransform. simpl.
  by rewrite lookup_insert_ne.
Qed.

(** Packets wait, all of them for a client whose shared secret is no key of AES,
    none of them marked to skip the extension. *)
Definition bound_for (dst : string) (w : WC) (l : nat) : Prop :=
  exists a, abs (s_heap w) l = Some a /\ a_dest a = dst /\ skips_crypto (a_get KeyNoCrypto a) = false.

Record doomed (dst : string) (w : WC) : Prop := {
  dm_inv : inv [] w;
  dm_key : exists ks, keys (s_ext w) !! dst = Some ks /\ keySent ks = true /\
    key_ok (BigBytes (shared ks)) = false;
  dm_wait : Forall (bound_for dst w) (sendStream w);
  dm_some : sendStream w <> [];
}.

Lemma err_pkt_not_skipped ref dst msg d :
  skips_crypto (a_get KeyNoCrypto (err_pkt ref dst msg d)) = false.
Proof.
  unfold a_get, err_pkt, fresh_pkt. simpl.
  by rewrite !lookup_insert_ne, lookup_singleton_ne.
Qed.

Lemma encryptTransport_doomed (w : WC) F ctx pkt a ks buff :
  inv F w -> Pkt (t_ctx ctx) = Some pkt -> abs (s_heap w) pkt = Some a ->
  keys (s_ext w) !! a_dest a = Some ks -> keySent ks = true ->
  key_ok (BigBytes (shared ks)) = false -> skips_crypto (a_get KeyNoCrypto a) = false ->
  exists e, encryptTransport ctx buff w = Ok ((t_stop CodeStopError e ctx, buff), w).
Proof.
  intros I Hp Ha Hk Hs Hko Hsk.
  rewrite (encryptTransport_eq (W := WC) w ctx pkt a buff); [| done | apply I | exact Ha].
  unfold out_ctx, out_data, out_crypto, out_decision. simpl.
  rewrite Hsk, Hk, Hs, Hko. eexists. by destruct w.
Qed.

Section loop.
Variables (p : Processor WC) (dst addr : string).
Hypothesis p_out : transforms (DataProcessor p) "_out_" = [encryptTransport].
Hypothesis resolves : ResolveUDPAddr dst = Some addr.

(** Processing one of the packets replaces it by another one of the kind. *)
Lemma doomed_outgoing w q1 l q2 :
  doomed dst w -> sendStream w = q1 ++ l :: q2 ->
  wp (processOutgoing p l) (fun _ w' => doomed dst w' /\ writeStream w' = writeStream w /\
      length (sendStream w') = length (sendStream w))
    (mk_SvrState (s_heap w) (s_ext w) (q1 ++ q2) (writeStream w) (closed w)).
Proof.
  intros [I (ks & Hk & Hsent & Hko) Hall _] Hq.
  pose proof (inv_receive w q1 l q2 I Hq) as I1. set (w1 := mk_SvrState _ _ _ _ _) in I1 |- *.
  rewrite Hq in Hall. apply Forall_app in Hall as [Ha1 [(a & Ha & Hd & Hsk) Ha2]%list.Forall_cons].
  assert (Hrest : Forall (bound_for dst w) (q1 ++ q2)) by (by apply Forall_app).
  unfold processOutgoing. rewrite !wp_bind. eapply wp_read; [apply Marshal_reads | exact I1 | done |].
  rewrite wp_bind. eapply wp_read; [apply Dest_reads | exact I1 | done |]. rewrite Hd, resolves, wp_bind.
  unfold DataProcess. cbn [PipelineName]. rewrite p_out. cbn [run_transforms]. rewrite wp_bind.
  destruct (encryptTransport_doomed w1 [l]
    (mk_TransformContext (mk_PipelineCtx (Some l) 0 "") "_out_" "") l a ks
    (render_pkt (Some (a_meta a)) (a_data a))) as [e He]; try done; [by rewrite Hd|].
  eapply wp_ok; [exact He|]. apply wp_ret. cbn iota beta. rewrite wp_bind.
  eapply wp_read; [apply Meta_Get_reads | exact I1 | done |]. rewrite wp_bind.
  eapply wp_read; [apply Dest_reads | exact I1 | done |].
  eapply wp_send_err; [exact I1|]. intros l' w2 d I2 S2 Hn A2.
  eapply wp_PutBack; [done|]. intros w3 I3 E3 S3 W3 A3 _.
  assert (Es : sendStream w3 = (q1 ++ q2) ++ [l']) by (by rewrite S3, (st_send _ _ _ S2)).
  rewrite W3, (st_write _ _ _ S2), Es, Hq. split; [|split; [done | rewrite !length_app; simpl; lia]].
  split; [done | exists ks; by rewrite E3, (st_ext _ _ _ S2) | |].
  - rewrite Es. apply Forall_app. split.
    + apply Forall_forall. intros k Hin. destruct (proj1 (Forall_forall _ _) Hrest k Hin) as (b & Hb & Hbs).
      exists b. rewrite A3, (st_abs _ _ _ S2); [done|]. intros ->. apply Hn, elem_of_app. by right.
    + constructor; [|done]. eexists. rewrite A3. split; [exact A2|]. split; [done | apply err_pkt_not_skipped].
  - rewrite Es. by destruct (q1 ++ q2).
Qed.

(** No datagram arrives. *)
Abbreviation nothing := (fun _ : bytes => False).

Lemma doomed_step s s' :
  svr_step p nothing s s' -> doomed dst (svr s) ->
  doomed dst (svr s') /\ length (sendStream (svr s')) = length (sendStream (svr s)) /\
  wire_out s' ++ writeStream (svr s') ≡ₚ wire_out s ++ writeStream (svr s).
Proof.
  intros Hs Hd. destruct Hs as [| w w' n out q1 l q2 Hq Hrun | w n out q1 d q2 Hq | w n out Hc]; simpl in *; [done|..].
  - pose proof (doomed_outgoing w q1 l q2 Hd Hq) as Hwp. unfold wp in Hwp. rewrite Hrun in Hwp.
    destruct Hwp as (Hd' & -> & Hl). done.
  - split_and!; [by destruct Hd as [[] Hk Hw Hn]; split | done |]. rewrite Hq. solve_Permutation.
  - split_and!; [|done..]. destruct Hd as [[I1 I2 I3 I4 I5] Hk Hw Hn]. split; try done. split; try done. simpl in *.
    rewrite I5. destruct n; [|done]. by destruct (Hc eq_refl).
Qed.

Lemma doomed_goes_on s : doomed dst (svr s) -> exists s', svr_step p nothing s s'.
Proof.
  intros Hd. destruct s as [w n out]. simpl in Hd. destruct (sendStream w) as [|l q] eqn:Eq; [by destruct Hd|].
  destruct (wp_inv _ _ _ (doomed_outgoing w [] l q Hd Eq)) as ([] & w' & Hrun & _).
  exists (mk_Server w' n out). by apply (step_send p _ w w' n out [] l q).
Qed.
End loop.

(** (C37) The failure loop of an unusable secret: on a server whose one outgoing
    transform is that of the extension, at least one packet waits to be sent,
    all of them go to one client whose address resolves and are not marked to
    skip the extension, and the client's secret, whose key counts as sent, has a
    number of bytes that AES rejects (its leading zero bytes are dropped). Then,
    as long as no datagram arrives, in every execution of the sending and
    writing routines, whatever their order: as many such packets wait as before,
    each failed one replaced by an error packet for the same client, nothing is
    added to what is written or waits to be written, and the server never comes
    to rest. *)
Theorem unusable_key_loops (p : Processor WC) dst addr s s' :
  transforms (DataProcessor p) "_out_" = [encryptTransport] ->
  ResolveUDPAddr dst = Some addr -> doomed dst (svr s) ->
  rtc (svr_step p (fun _ => False)) s s' ->
  doomed dst (svr s') /\ length (sendStream (svr s')) = length (sendStream (svr s)) /\
  wire_out s' ++ writeStream (svr s') ≡ₚ wire_out s ++ writeStream (svr s) /\
  exists s'', svr_step p (fun _ => False) s' s''.
Proof.
  intros Ht Hr Hd Hs. assert (H : doomed dst (svr s') /\ length (sendStream (svr s')) = length (sendStream (svr s)) /\
    wire_out s' ++ writeStream (svr s') ≡ₚ wire_out s ++ writeStream (svr s)).
  { revert Hd. induction Hs as [s|s s1 s' Hs1 _ IH]; intros Hd; [done|].
    destruct (doomed_step p dst addr Ht Hr s s1 Hs1 Hd) as (Hd1 & L1 & P1).
    destruct (IH Hd1) as (Hd2 & L2 & P2). split; [done|]. split; [congruence | by rewrite P2]. }
  destruct H as (Hd' & L & P). split_and!; try done. by apply (doomed_goes_on p dst addr Ht Hr).
Qed.
End with_crypto.
