(* ===== verification/ServerDrain.v ===== *)
(** * ServerDrain: what waits in the server is written, once

    The steps of [sendPkts] and [writePkts] without new datagrams, for a server
    without outgoing transforms: they terminate, they stop only when nothing
    waits, and the datagrams on the wire are then those of the waiting packets,
    each exactly once.  (With the cryptographic extension and an unusable key
    they need not terminate, see the failure loop in [UDPServerProps].) *)

From Stdlib Require Import ZArith Lia Ascii String.
From stdpp Require Import base list strings gmap fin_maps relations.
From S2P Require Import Prelude Base64 Utf8 JsonText Decimal Json Packet PacketSpec PacketProps.
From S2P Require Import Fmt Pipeline Cipher Crypto UDPServer UDPServerSpec UDPServerProps.
Open Scope Z_scope.

Section drain.
Context {E : Type} `{R : Resolver}.
Abbreviation W := (SvrState E).
Variable p : Processor W.
Hypothesis no_out : transforms (DataProcessor p) "_out_" = [].

(** A step of [sendPkts] or [writePkts]: no datagram arrives and no reader
    returns. *)
Definition work (s s' : Server E) : Prop :=
  svr_step p (fun _ => False) s s' /\ readers s' = readers s.

(** The datagram of a packet, if its destination resolves. *)
Definition wire_form (a : APkt) : list writePacket :=
  match ResolveUDPAddr (a_dest a) with
  | Some addr => [mk_writePacket (render_pkt (Some (a_meta a)) (a_data a)) addr]
  | None => []
  end.

Definition pkt_form (h : Heap) (l : nat) : list writePacket :=
  match abs h l with Some a => wire_form a | None => [] end.

(** Written, waiting to be written, and still to be made from waiting packets. *)
Definition outcome (s : Server E) : list writePacket :=
  wire_out s ++ writeStream (svr s) ++ (sendStream (svr s) ≫= pkt_form (s_heap (svr s))).

(** The work that is left. *)
Definition load (s : Server E) : nat :=
  2 * length (sendStream (svr s)) + length (writeStream (svr s)).

Lemma outgoing_form pkt a (w : W) :
  inv [pkt] w -> abs (s_heap w) pkt = Some a ->
  wp (processOutgoing p pkt) (fun _ w' => inv [] w' /\ sendStream w' = sendStream w /\
    (forall k, abs (s_heap w') k = abs (s_heap w) k) /\
    writeStream w' = writeStream w ++ wire_form a) w.
Proof.
  intros I Ha. eapply wp_mono.
  { eapply (outgoing_stage p pkt a _ (s_ext w)); [|done..]. rewrite DataProcess_none by done.
    change (s_ext w) with (proj (S := E) w). by rewrite upd_proj. }
  intros [] w' (I' & _ & S' & A' & _ & W'). by split_and!.
Qed.

Lemma pkt_form_ext h h' q :
  (forall k, abs h' k = abs h k) -> q ≫= pkt_form h' = q ≫= pkt_form h.
Proof. intros A. induction q as [|l q IH]; [done|]. cbn. unfold pkt_form at 1 3. by rewrite A, IH. Qed.

Lemma wire_form_length a : (length (wire_form a) <= 1)%nat.
Proof. unfold wire_form. destruct (ResolveUDPAddr _); simpl; lia. Qed.

(** One step: the invariant holds again, there is less left to do and the
    outcome is the same. *)
Lemma work_step s s' :
  inv [] (svr s) -> work s s' ->
  inv [] (svr s') /\ (load s' < load s)%nat /\ outcome s' ≡ₚ outcome s.
Proof.
  intros I [Hs Hr]. destruct Hs as [w w' n out data sender Hn [] | w w' n out q1 l q2 Hq Hrun
    | w n out q1 d q2 Hq | w n out Hc]; simpl in *; [| |lia].
  - assert (I1 := inv_receive w q1 l q2 I Hq).
    destruct (inv_owned _ _ l I1 ltac:(by left)) as [a Ha]. simpl in Ha.
    pose proof (outgoing_form l a _ I1 Ha) as Hwp. unfold wp in Hwp. rewrite Hrun in Hwp.
    destruct Hwp as (I' & S' & A' & W'). simpl in S', A', W'. split; [done|].
    unfold load, outcome. simpl. rewrite S', W', Hq, (pkt_form_ext _ _ _ A'). split.
    + rewrite !length_app. cbn [length]. pose proof (wire_form_length a). lia.
    + rewrite !bind_app, bind_cons. unfold pkt_form at 4. rewrite Ha. solve_Permutation.
  - split; [by destruct I|]. unfold load, outcome. simpl. rewrite Hq. split.
    + rewrite !length_app. simpl. lia.
    + solve_Permutation.
Qed.

(** Something waits: a step is possible. *)
Lemma work_progress s :
  inv [] (svr s) -> load s <> 0%nat -> exists s', work s s'.
Proof.
  intros I Hl. destruct s as [w n out]. simpl in *. unfold load in Hl. simpl in Hl.
  destruct (writeStream w) as [|d q] eqn:Ew.
  - destruct (sendStream w) as [|l q] eqn:Es; [done|].
    assert (I1 := inv_receive w [] l q I Es).
    destruct (inv_owned _ _ l I1 ltac:(by left)) as [a Ha]. simpl in Ha.
    destruct (wp_inv _ _ _ (outgoing_form l a _ I1 Ha)) as ([] & w' & Hrun & _).
    exists (mk_Server w' n out). split; [|done]. by apply (step_send p _ w w' n out [] l q).
  - eexists. split; [by apply (step_write p _ w n out [] d q) | done].
Qed.

Lemma work_steps n s s' :
  nsteps work n s s' -> inv [] (svr s) ->
  inv [] (svr s') /\ (n + load s' <= load s)%nat /\ outcome s' ≡ₚ outcome s.
Proof.
  induction 1 as [s|n s s1 s' Hs Hn IH]; intros I; [by split_and!|].
  destruct (work_step _ _ I Hs) as (I1 & L1 & O1). destruct (IH I1) as (I2 & L2 & O2).
  split_and!; [done | lia | by rewrite O2].
Qed.

Lemma load_idle s : load s = 0%nat -> sendStream (svr s) = [] /\ writeStream (svr s) = [].
Proof. unfold load. destruct (sendStream _), (writeStream _); simpl; done. Qed.

Lemma work_finishes k s :
  (load s <= k)%nat -> inv [] (svr s) -> exists s', rtc work s s' /\ load s' = 0%nat.
Proof.
  revert s. induction k as [|k IH]; intros s Hk I; (destruct (decide (load s = 0%nat)) as [H0|H0];
    [exists s; split; [apply rtc_refl | done]|]); [lia|].
  destruct (work_progress s I H0) as [s1 Hs]. destruct (work_step _ _ I Hs) as (I1 & L1 & _).
  destruct (IH s1 ltac:(lia) I1) as (s' & Hr & H'). exists s'. split; [by eapply rtc_l | done].
Qed.

(** (C17) The server drains: without new datagrams no execution of the sending
    and writing routines has more than twice as many steps as packets wait, plus
    one for every waiting datagram; some execution ends with nothing waiting,
    every execution that cannot go on does, and then the wire has received, in
    some order, what waited to be written and for every waiting packet with a
    resolvable destination its wire form, each exactly once. *)
Theorem server_drains s :
  inv [] (svr s) ->
  (forall n s', nsteps work n s s' -> (n <= load s)%nat) /\
  (exists s', rtc work s s' /\ load s' = 0%nat) /\
  forall s', rtc work s s' -> (forall s'', ~ work s' s'') ->
    sendStream (svr s') = [] /\ writeStream (svr s') = [] /\
    wire_out s' ≡ₚ wire_out s ++ writeStream (svr s) ++
      (sendStream (svr s) ≫= pkt_form (s_heap (svr s))).
Proof.
  intros I. split_and!.
  - intros n s' Hn. destruct (work_steps _ _ _ Hn I) as (_ & L & _). lia.
  - by eapply (work_finishes (load s)).
  - intros s' [n Hn]%rtc_nsteps Hstuck. destruct (work_steps _ _ _ Hn I) as (I' & _ & O).
    destruct (decide (load s' = 0%nat)) as [H0|H0].
    + destruct (load_idle _ H0) as [S0 W0]. split_and!; [done | done |].
      change (wire_out s' ≡ₚ outcome s). rewrite <- O. unfold outcome.
      rewrite S0, W0. cbn. by rewrite app_nil_r.
    + destruct (work_progress s' I' H0) as [s'' Hs]. by apply Hstuck in Hs.
Qed.
End drain.
