(* ===== verification/ServerThreads.v ===== *)
(** * ServerThreads: the UDP server with interleaved handlers

    [UDPServer.svr_step] runs a handler as a whole.  Here a handler is a thread:
    a sequence of atomic actions (a method call on a packet, a call to the
    packet creator, a transform, a callback, an operation on a channel) that the
    scheduler interleaves with the actions of all other threads.  Run alone, the
    threads compute what the handlers of [UDPServer] compute. *)

From Stdlib Require Import ZArith Lia Ascii String.
From stdpp Require Import base list strings gmap fin_maps relations.
From S2P Require Import Prelude Base64 Utf8 JsonText Decimal Json Packet PacketSpec PacketProps.
From S2P Require Import Fmt Pipeline Cipher Crypto UDPServer.
Open Scope Z_scope.

Section threads.
Context {E : Type} `{R : Resolver}.
Abbreviation W := (SvrState E).

Inductive prog : Type :=
  | Done
  | Act (B : Type) (m : M W B) (k : B -> prog).
Arguments Act {B} _ _.

Local Notation "'let!' x ':=' m 'in' k" := (Act m (fun x => k))
  (at level 10, x pattern, m at level 100, k at level 200).
Local Notation "m '!!;' k" := (Act m (fun _ => k)) (at level 199, k at level 200, right associativity).

(** A thread that is not interrupted. *)
Fixpoint run_thread (t : prog) : M W unit :=
  match t with
  | Done => ret tt
  | Act m k => let* b := m in run_thread (k b)
  end.

(** ** The handlers *)

Definition send_err_prog (ref dst msg : string) (k : prog) : prog :=
  let! l := pk (NewErrPkt ref dst msg) in send l !!; k.

Definition respond_prog (ctx : TargetCtx) (resp : nat) (k : prog) : prog :=
  if Stat (c_ctx ctx) =? CodeStopNoop then pk (PutBack resp) !!; k
  else if Stat (c_ctx ctx) =? CodeRelay then
    let! relayAddr := pk (Meta_Get resp KeyRelayTo) in
    if String.eqb relayAddr "" then pk (PutBack resp) !!; k
    else
      pk (SetDest resp relayAddr) !!;
      pk (Meta_Add resp KeyRelayFrom (c_From ctx)) !!;
      pk (Close resp) !!;
      send resp !!; k
  else pk (Close resp) !!; send resp !!; k.

Fixpoint callbacks_prog (cbs : list (TargetCallback W)) (ctx : TargetCtx) (pw : nat)
    (k : TargetCtx -> option string -> prog) : prog :=
  match cbs with
  | [] => k ctx None
  | cb :: r =>
      let! ctx' := cb ctx pw in
      match judge (Stat (c_ctx ctx')) with
      | VError => k ctx' (Some (Errorf (Msg (c_ctx ctx'))))
      | VStop => k ctx' None
      | VGo => callbacks_prog r ctx' pw k
      end
  end.

Definition process_prog (p : Processor W) (pkt : nat) (sender : string) (k : prog) : prog :=
  let! ref := pk (Meta_Get pkt KeyRef) in
  let! resp := pk (NewPkt ref sender) in
  let! target := pk (Meta_Get pkt KeyTarget) in
  let ctx := mk_TargetCtx (mk_PipelineCtx (Some pkt) 0 "") target sender in
  let finish ctx err :=
    match err with
    | Some e => pk (PutBack resp) !!; send_err_prog ref sender ("packet pipeline error: " +:+ e) k
    | None => respond_prog ctx resp k
    end in
  match callbackQueues (PacketProcessor p) !! target with
  | None => finish ctx (Some (Errorf "target not found"))
  | Some cbs => callbacks_prog cbs ctx resp finish
  end.

(** The incoming transforms have no packet yet; they run as one action. *)
Definition incoming_prog (p : Processor W) (data : bytes) (sender : string) : prog :=
  let tctx := mk_TransformContext (mk_PipelineCtx None 0 "") "_in_" sender in
  let! (tctx, data, err) := DataProcess (DataProcessor p) tctx data in
  match err with
  | Some e => send_err_prog "" sender ("data pipeline error: " +:+ e) Done
  | None =>
      if Stat (t_ctx tctx) =? CodeStopNoop then Done
      else
        let! pkt := pk (NewPkt "" "") in
        let! ok := pk (Unmarshal pkt data) in
        let deferred := pk (PutBack pkt) !!; Done in
        if ok : bool then process_prog p pkt sender deferred
        else send_err_prog "" sender "malformed packet" deferred
  end.

Fixpoint transforms_prog (ts : list (BufferTransform W)) (ctx : TransformContext) (data : bytes)
    (k : TransformContext -> bytes -> option string -> prog) : prog :=
  match ts with
  | [] => k ctx data None
  | t :: r =>
      let! (ctx', data') := t ctx data in
      match judge (Stat (t_ctx ctx')) with
      | VError => k ctx' data' (Some (Errorf ("pipeline terminated: " +:+ Msg (t_ctx ctx'))))
      | VStop => k ctx' data' None
      | VGo => transforms_prog r ctx' data' k
      end
  end.

Definition outgoing_prog (p : Processor W) (pkt : nat) : prog :=
  let deferred := pk (PutBack pkt) !!; Done in
  let! bin := pk (Marshal pkt) in
  match bin with
  | None => deferred
  | Some bin =>
      let! dst := pk (Dest pkt) in
      match ResolveUDPAddr dst with
      | None => deferred
      | Some addr =>
          let tctx := mk_TransformContext (mk_PipelineCtx (Some pkt) 0 "") "_out_" "" in
          transforms_prog (transforms (DataProcessor p) "_out_") tctx bin (fun tctx bin err =>
            match err with
            | Some e =>
                let! ref := pk (Meta_Get pkt KeyRef) in
                let! dst := pk (Dest pkt) in
                send_err_prog ref dst ("pipeline error: " +:+ e) deferred
            | None =>
                if Stat (t_ctx tctx) =? CodeStopNoop then deferred
                else dist (mk_writePacket bin addr) !!; deferred
            end)
      end
  end.

(** ** The server *)

Record Threads := mk_Threads {
  state : W;
  threads : list prog;
  th_readers : nat;
  th_wire : list writePacket;
}.

Definition threads_init (w : W) : Threads := mk_Threads w [] 5 [].

Inductive th_step (p : Processor W) (adm : bytes -> Prop) : Threads -> Threads -> Prop :=
  | th_read w ts n out data sender :
      (* a reader got a datagram: go svr.processIncoming *)
      (0 < n)%nat -> adm data ->
      th_step p adm (mk_Threads w ts n out) (mk_Threads w (ts ++ [incoming_prog p data sender]) n out)
  | th_act w w' t1 B (m : M W B) k b t2 n out :
      (* some thread goes on *)
      m w = Ok (b, w') ->
      th_step p adm (mk_Threads w (t1 ++ Act m k :: t2) n out) (mk_Threads w' (t1 ++ k b :: t2) n out)
  | th_end w t1 t2 n out :
      th_step p adm (mk_Threads w (t1 ++ Done :: t2) n out) (mk_Threads w (t1 ++ t2) n out)
  | th_recv w ts n out q1 l q2 :
      (* sendPkts receives a packet: go svr.processOutgoing *)
      sendStream w = q1 ++ l :: q2 ->
      th_step p adm (mk_Threads w ts n out)
        (mk_Threads (mk_SvrState (s_heap w) (s_ext w) (q1 ++ q2) (writeStream w) (closed w))
           (ts ++ [outgoing_prog p l]) n out)
  | th_write w ts n out q1 d q2 :
      (* writePkts receives a datagram and writes it *)
      writeStream w = q1 ++ d :: q2 ->
      th_step p adm (mk_Threads w ts n out)
        (mk_Threads (mk_SvrState (s_heap w) (s_ext w) (sendStream w) (q1 ++ q2) (closed w)) ts n
           (out ++ [d]))
  | th_read_error w ts n out :
      (* a reader sees an error and returns; Serve returns with the last one *)
      (n = 0%nat -> sendStream w = [] /\ writeStream w = []) ->
      th_step p adm (mk_Threads w ts (S n) out)
        (mk_Threads (mk_SvrState (s_heap w) (s_ext w) (sendStream w) (writeStream w)
                       (closed w || (n =? 0)%nat)) ts n out).

Inductive th_panic (s : Threads) : panic -> Prop :=
  | th_panic_act t1 B (m : M W B) k t2 e :
      threads s = t1 ++ Act m k :: t2 -> m (state s) = Panic e -> th_panic s e
  | th_panic_close :
      (* the last reader returns while a goroutine waits to send *)
      th_readers s = 1%nat -> sendStream (state s) <> [] \/ writeStream (state s) <> [] ->
      th_panic s SendOnClosed.

(** ** Threads and handlers *)

Lemma run_last (m : M W unit) w : run_thread (m !!; Done) w = m w.
Proof. cbn [run_thread]. unfold bind, ret. by destruct (m w) as [[[] ?]|]. Qed.

Lemma run_send_err ref dst msg k w :
  run_thread (send_err_prog ref dst msg k) w = (send_err ref dst msg ;;; run_thread k) w.
Proof. unfold send_err. rewrite bind_assoc. done. Qed.

Lemma run_respond ctx resp k w :
  run_thread (respond_prog ctx resp k) w = (respond ctx resp ;;; run_thread k) w.
Proof.
  unfold respond_prog, respond. destruct (_ =? _); [done|]. destruct (_ =? _); [|by rewrite bind_assoc].
  rewrite bind_assoc. apply bind_ext. intros a w1 _. destruct (String.eqb _ _); [done|].
  by repeat (rewrite bind_assoc; apply bind_ext; intros [] ? _).
Qed.

Lemma run_callbacks_prog cbs ctx pw k w :
  run_thread (callbacks_prog cbs ctx pw k) w
  = (let* (ctx', err) := run_callbacks cbs ctx pw in run_thread (k ctx' err)) w.
Proof.
  revert ctx w. induction cbs as [|cb cbs IH]; intros ctx w; [done|].
  cbn [callbacks_prog run_callbacks run_thread]. rewrite bind_assoc. apply bind_ext. intros c w1 _.
  destruct (judge _); [done | done | apply IH].
Qed.

Lemma run_transforms_prog ts ctx data k w :
  run_thread (transforms_prog ts ctx data k) w
  = (let* (ctx', data', err) := run_transforms ts ctx data in run_thread (k ctx' data' err)) w.
Proof.
  revert ctx data w. induction ts as [|t ts IH]; intros ctx data w; [done|].
  cbn [transforms_prog run_transforms run_thread]. rewrite bind_assoc. apply bind_ext. intros [c d] w1 _.
  destruct (judge _); [done | done | apply IH].
Qed.

Lemma run_process p pkt sender k w :
  run_thread (process_prog p pkt sender k) w = (process_pkt p pkt sender ;;; run_thread k) w.
Proof.
  unfold process_prog, process_pkt. cbn [run_thread]. rewrite bind_assoc. apply bind_ext. intros ref w1 _.
  rewrite bind_assoc. apply bind_ext. intros resp w2 _. rewrite bind_assoc. apply bind_ext. intros target w3 _.
  cbv zeta. rewrite bind_assoc. unfold PacketProcess. cbn [TargetName].
  assert (Hf : forall ctx err w, run_thread (match err with
      | Some e => pk (PutBack resp) !!; send_err_prog ref sender ("packet pipeline error: " +:+ e) k
      | None => respond_prog ctx resp k end) w
    = (match err with
       | Some e => pk (PutBack resp) ;;; send_err ref sender ("packet pipeline error: " +:+ e)
       | None => respond ctx resp end ;;; run_thread k) w).
  { intros ctx [e|] w4; [|apply run_respond]. cbn [run_thread]. rewrite bind_assoc. apply bind_ext.
    intros [] w5 _. apply run_send_err. }
  destruct (callbackQueues _ !! target) as [cbs|]; [|exact (Hf (mk_TargetCtx (mk_PipelineCtx (Some pkt) 0 "") target sender) (Some _) w3)].
  rewrite run_callbacks_prog. apply bind_ext. intros [ctx err] w4 _. apply Hf.
Qed.

Lemma run_incoming p data sender w :
  run_thread (incoming_prog p data sender) w = processIncoming p data sender w.
Proof.
  unfold incoming_prog, processIncoming. cbn [run_thread]. apply bind_ext. intros [[tctx dt] err] w1 _.
  destruct err as [e|].
  { rewrite run_send_err. exact (run_last (send_err _ _ _) w1). }
  destruct (_ =? _); [done|]. cbn [run_thread]. apply bind_ext. intros pkt w2 _. apply bind_ext. intros ok w3 _.
  pose proof (run_last (pk (PutBack pkt))) as Hd.
  destruct ok; [rewrite run_process | rewrite run_send_err]; apply bind_ext; auto.
Qed.

Lemma run_outgoing p pkt w : run_thread (outgoing_prog p pkt) w = processOutgoing p pkt w.
Proof.
  unfold outgoing_prog, processOutgoing.
  pose proof (run_last (pk (PutBack pkt))) as Hd.
  set (deferred := pk (PutBack pkt) !!; Done) in *. cbv zeta. cbn [run_thread].
  rewrite bind_assoc. apply bind_ext. intros [bin|] w1 _; [|by rewrite Hd].
  cbn [run_thread]. rewrite bind_assoc. apply bind_ext. intros dst w2 _.
  destruct (ResolveUDPAddr dst) as [addr|]; [|by rewrite Hd].
  rewrite run_transforms_prog, bind_assoc. unfold DataProcess. cbn [PipelineName].
  apply bind_ext. intros [[tctx b] [e|]] w3 _.
  - cbn [run_thread]. rewrite bind_assoc. apply bind_ext. intros ref w4 _.
    rewrite bind_assoc. apply bind_ext. intros d w5 _. rewrite run_send_err. by apply bind_ext.
  - destruct (_ =? _); [by rewrite Hd|]. cbn [run_thread]. by apply bind_ext.
Qed.

(** Threads that are not interrupted are the handlers: run to their end
    they return the same state or panic in the same way, for every datagram,
    packet, pipeline and state. *)
Theorem threads_handlers (p : Processor W) data sender pkt w :
  run_thread (incoming_prog p data sender) w = processIncoming p data sender w /\
  run_thread (outgoing_prog p pkt) w = processOutgoing p pkt w.
Proof. split; [apply run_incoming | apply run_outgoing]. Qed.

(** ** Whole handlers are executions of threads *)

Lemma run_steps p adm t w w' ts n out :
  run_thread t w = Ok (tt, w') ->
  rtc (th_step p adm) (mk_Threads w (ts ++ [t]) n out) (mk_Threads w' ts n out).
Proof.
  revert w. induction t as [|B m k IH]; intros w Hrun.
  - injection Hrun as <-. apply rtc_once. pose proof (th_end p adm w ts [] n out) as H.
    by rewrite app_nil_r in H.
  - cbn [run_thread] in Hrun. unfold bind in Hrun. destruct (m w) as [[b w1]|] eqn:Em; [|done].
    eapply rtc_l; [by apply (th_act p adm w w1 ts B m k b [] n out) | by apply IH].
Qed.

(** The server with whole handlers as one without running threads. *)
Definition idle_threads (s : Server E) : Threads := mk_Threads (svr s) [] (readers s) (wire_out s).

Lemma svr_step_threads p adm s s' :
  svr_step p adm s s' -> rtc (th_step p adm) (idle_threads s) (idle_threads s').
Proof.
  intros [w w' n out data sender Hn Hd Hrun | w w' n out q1 l q2 Hq Hrun | w n out q1 d q2 Hq | w n out Hc];
    unfold idle_threads; simpl.
  - eapply rtc_l; [by apply (th_read p adm w [] n out data sender)|].
    apply (run_steps p adm _ w w' []). by rewrite run_incoming.
  - eapply rtc_l; [by apply (th_recv p adm w [] n out q1 l q2)|].
    apply (run_steps p adm _ _ w' []). by rewrite run_outgoing.
  - apply rtc_once. by apply th_write.
  - apply rtc_once. by apply th_read_error.
Qed.

Lemma reachable_threads p adm s s' :
  reachable p adm s s' -> rtc (th_step p adm) (idle_threads s) (idle_threads s').
Proof.
  induction 1 as [|s1 s2 Hr IH Hs]; [done|].
  etransitivity; [exact IH | by apply svr_step_threads].
Qed.

(** The server of whole handlers is simulated by the one of threads: every
    state it reaches is reached, with no thread running, by an interleaving of
    the handlers' actions. *)
Theorem threads_simulate (p : Processor W) adm s s' :
  reachable p adm s s' -> rtc (th_step p adm) (idle_threads s) (idle_threads s').
Proof. apply reachable_threads. Qed.
End threads.
Arguments prog : clear implicits.
Arguments Threads : clear implicits.
Arguments Act {E B} _ _.
Arguments Done {E}.
