(* ===== verification/ServerThreadsProps.v ===== *)
(** * ServerThreadsProps: ownership of packets between interleaved handlers

    A thread owns the packets it has taken from the creator or received and not
    yet put back or sent: it knows what they hold ([holds]), and no other thread
    changes them.  [tsafe] says so of every action a thread still has to do,
    whatever the others do in between.  The rules are proved for any further
    invariant [J] of the extension's state and the data that waits to be written. *)

From Stdlib Require Import ZArith Lia Ascii String.
From stdpp Require Import base list strings gmap fin_maps relations.
From S2P Require Import Prelude Base64 Utf8 JsonText Decimal Json Packet PacketSpec PacketProps.
From S2P Require Import Fmt Pipeline Cipher Crypto UDPServer UDPServerSpec ServerThreads.
Open Scope Z_scope.

Section safety.
Context {E : Type} `{R : Resolver}.
Abbreviation W := (SvrState E).
Abbreviation ab w l := (abs (s_heap w) l).

(** The packets of a thread and what they hold. *)
Abbreviation owns := (list (nat * APkt)).

Definition holds (o : owns) (w : W) : Prop := Forall (fun x => ab w x.1 = Some x.2) o.

Section invariant.
Variable J : W -> Prop.

Fixpoint tsafe_in (t : prog E) (o : owns) : Prop :=
  match t with
  | Done => o = []
  | Act m k => forall G w, inv (o.*1 ++ G) w -> holds o w -> J w ->
      wp m (fun b w' => exists o', inv (o'.*1 ++ G) w' /\ holds o' w' /\
        (forall l, l ∈ G -> ab w' l = ab w l) /\ J w' /\ tsafe_in (k b) o') w
  end.

(** A computation that keeps [J]. *)
Definition kept {A} (m : M W A) : Prop := forall w x w', J w -> m w = Ok (x, w') -> J w'.

Lemma wp_kept {A} (m : M W A) Q w : kept m -> J w -> wp m Q w -> wp m (fun x w' => Q x w' /\ J w') w.
Proof. intros Hm HJ. unfold wp. destruct (m w) as [[x w']|] eqn:Em; [|done]. split; [done | by eapply Hm]. Qed.

(** [J] speaks about the extension and what waits to be written only. *)
Hypothesis J_frame : forall w w',
  s_ext w' = s_ext w -> writeStream w' = writeStream w -> J w -> J w'.

(** ** Rules *)

Lemma holds_kept o w w' :
  holds o w -> (forall l, l ∈ o.*1 -> ab w' l = ab w l) -> holds o w'.
Proof.
  intros Ho H. apply Forall_forall. intros [l a] Hl. simpl. rewrite H; [|by apply (list_elem_of_fmap_2 fst _ (l, a))].
  by apply (proj1 (Forall_forall _ _) Ho (l, a)).
Qed.

Lemma tsafe_perm t o o' : o ≡ₚ o' -> tsafe_in t o -> tsafe_in t o'.
Proof.
  intros P. destruct t as [|B m k]; simpl.
  - intros ->. by apply Permutation_nil in P.
  - intros H G w I Ho HJ. apply H; [|by unfold holds; rewrite P|done].
    eapply inv_perm; [|exact I]. by rewrite P.
Qed.

(** A method call on an own packet. *)
Lemma tsafe_method {A} (m : M Heap A) l f r a o (k : A -> prog E) :
  acts m l f r -> tsafe_in (k (r a)) ((l, f a) :: o) -> tsafe_in (Act (pk m) k) ((l, a) :: o).
Proof.
  intros Hm Hk G w I Ho HJ. apply list.Forall_cons in Ho as [Ha Ho]. simpl in Ha.
  assert (Hl : l ∉ o.*1 ++ G).
  { pose proof (inv_nodup _ _ I) as ND. simpl in ND. apply list.NoDup_cons in ND as [ND _].
    intros Hl. apply ND, elem_of_app. by left. }
  eapply wp_pkt; [exact Hm | exact I | by left | exact Ha |]. intros w' I' O' A'.
  assert (Hkeep : forall j, j ∈ o.*1 ++ G -> ab w' j = ab w j).
  { intros j Hj. apply (on_abs _ _ _ O'). by intros ->. }
  exists ((l, f a) :: o). split_and!; [done | | by intros; apply Hkeep, elem_of_app; right | | done].
  { constructor; [done|]. eapply holds_kept; [done|]. intros j Hj. apply Hkeep, elem_of_app. by left. }
  eapply J_frame; [apply O' | apply O' | done].
Qed.

(** A new packet. *)
Lemma tsafe_got (m : M Heap nat) (mk : string -> APkt) o (k : nat -> prog E) :
  (forall G w (Q : nat -> W -> Prop), inv G w ->
     (forall l w' d, inv (l :: G) w' -> only l w w' -> l ∉ G ++ sendStream w ->
        ab w' l = Some (mk d) -> Q l w') -> wp (pk m) Q w) ->
  (forall l d, tsafe_in (k l) ((l, mk d) :: o)) -> tsafe_in (Act (pk m) k) o.
Proof.
  intros Hm Hk G w I Ho HJ. eapply Hm; [exact I|]. intros l w' d I' O' Hn A'.
  assert (Hkeep : forall j, j ∈ o.*1 ++ G -> ab w' j = ab w j).
  { intros j Hj. apply (on_abs _ _ _ O'). intros ->. apply Hn, elem_of_app. by left. }
  exists ((l, mk d) :: o). split_and!; [done | | by intros; apply Hkeep, elem_of_app; right | | apply Hk].
  { constructor; [done|]. eapply holds_kept; [done|]. intros j Hj. apply Hkeep, elem_of_app. by left. }
  eapply J_frame; [apply O' | apply O' | done].
Qed.

Lemma tsafe_NewPkt ref dst o (k : nat -> prog E) :
  (forall l d, tsafe_in (k l) ((l, fresh_pkt ref dst d) :: o)) -> tsafe_in (Act (pk (NewPkt ref dst)) k) o.
Proof.
  apply tsafe_got. intros G w Q I HQ. eapply wp_NewPkt; [done|]. intros. by eapply HQ.
Qed.

Lemma tsafe_NewErrPkt ref dst msg o (k : nat -> prog E) :
  (forall l d, tsafe_in (k l) ((l, err_pkt ref dst msg d) :: o)) -> tsafe_in (Act (pk (NewErrPkt ref dst msg)) k) o.
Proof.
  apply tsafe_got. intros G w Q I HQ. eapply wp_NewErrPkt; [done|]. intros. by eapply HQ.
Qed.

(** Giving a packet away. *)
Lemma tsafe_PutBack l a o (k : prog E) :
  tsafe_in k o -> tsafe_in (Act (pk (PutBack l)) (fun _ => k)) ((l, a) :: o).
Proof.
  intros Hk G w I Ho HJ. apply list.Forall_cons in Ho as [_ Ho].
  eapply wp_PutBack; [exact I|]. intros w' I' E' _ W' A' _. exists o. split_and!; [done | | done | | done].
  - eapply holds_kept; [done | auto].
  - by eapply (J_frame w).
Qed.

Lemma tsafe_send l a o (k : prog E) :
  tsafe_in k o -> tsafe_in (Act (send l) (fun _ => k)) ((l, a) :: o).
Proof.
  intros Hk G w I Ho HJ. apply list.Forall_cons in Ho as [_ Ho].
  eapply wp_send; [exact I|]. intros I'. exists o. split_and!; try done. by eapply (J_frame w).
Qed.

Lemma tsafe_dist x o (k : prog E) : kept (dist x) -> tsafe_in k o -> tsafe_in (Act (dist x) (fun _ => k)) o.
Proof.
  intros HJx Hk G w I Ho HJ. specialize (HJx w tt). unfold wp, dist in *. rewrite (inv_open _ _ I) in *.
  exists o. split_and!; try done; [by destruct I | by eapply HJx].
Qed.

Lemma tsafe_send_err ref dst msg o (k : prog E) : tsafe_in k o -> tsafe_in (send_err_prog ref dst msg k) o.
Proof. intros Hk. apply tsafe_NewErrPkt. intros l d. by apply tsafe_send. Qed.

(** ** The handlers *)

Lemma tsafe_respond ctx resp b o (k : prog E) :
  tsafe_in k o -> tsafe_in (respond_prog ctx resp k) ((resp, b) :: o).
Proof.
  intros Hk. unfold respond_prog. destruct (_ =? _); [by apply tsafe_PutBack|].
  assert (Hclose : forall b', tsafe_in (Act (pk (Close resp)) (fun _ => Act (send resp) (fun _ => k)))
    ((resp, b') :: o)).
  { intros b'. eapply tsafe_method; [apply Close_acts|]. by apply tsafe_send. }
  destruct (_ =? _); [|apply Hclose].
  eapply tsafe_method; [apply Meta_Get_acts|]. destruct (String.eqb _ _); [by apply tsafe_PutBack|].
  eapply tsafe_method; [apply SetDest_acts|]. eapply tsafe_method; [apply Meta_Add_acts|]. apply Hclose.
Qed.

Lemma tsafe_callbacks adm cbs ctx pkt pw a b k :
  Forall (CallbackSafe adm) cbs -> Forall (fun cb => forall ctx, kept (cb ctx pw)) cbs ->
  Pkt (c_ctx ctx) = Some pkt -> adm a ->
  (forall ctx' e b', tsafe_in (k ctx' e) [(pkt, a); (pw, b')]) ->
  tsafe_in (callbacks_prog cbs ctx pw k) [(pkt, a); (pw, b)].
Proof.
  intros Hs Hks Hp Had Hk. revert ctx b Hp. induction Hs as [|cb cbs Hcb Hs IH]; intros ctx b Hp; [apply Hk|].
  apply list.Forall_cons in Hks as [Hkc Hks].
  intros G w I Ho HJ. pose proof Ho as Ho'. apply list.Forall_cons in Ho' as [Ha _].
  eapply wp_mono; [apply wp_kept; [apply Hkc | done | by eapply (Hcb G)]|].
  intros ctx' w' [(Hp' & I' & A') HJ']. simpl in Ha.
  destruct (inv_owned _ _ pw I' ltac:(by right; left)) as [b' Hb'].
  exists [(pkt, a); (pw, b')]. split_and!; [done | | by intros; apply A'; right | done |].
  - repeat constructor; [|done]. simpl. by rewrite A' by (by left).
  - destruct (judge _); [apply Hk.. | by apply IH].
Qed.

(** The callbacks of a packet's target keep [J]. *)
Definition target_kept (p : Processor W) (a : APkt) : Prop :=
  forall cbs, callbackQueues (PacketProcessor p) !! a_get KeyTarget a = Some cbs ->
    Forall (fun cb => forall ctx pw, kept (cb ctx pw)) cbs.

Lemma tsafe_process adm p pkt sender a k :
  queues_safe adm (PacketProcessor p) -> target_kept p a -> adm a -> tsafe_in k [(pkt, a)] ->
  tsafe_in (process_prog p pkt sender k) [(pkt, a)].
Proof.
  intros Hq Hqk Had Hk. unfold process_prog. eapply tsafe_method; [apply Meta_Get_acts|].
  apply tsafe_NewPkt. intros resp d. eapply tsafe_perm; [apply Permutation_swap|].
  eapply tsafe_method; [apply Meta_Get_acts|]. cbv beta zeta.
  assert (Hf : forall ctx e b, tsafe_in (match e with
      | Some e => Act (pk (PutBack resp)) (fun _ => send_err_prog (a_get KeyRef a) sender
          ("packet pipeline error: " +:+ e) k)
      | None => respond_prog ctx resp k end) [(pkt, a); (resp, b)]).
  { intros ctx e b. eapply tsafe_perm; [apply Permutation_swap|].
    destruct e; [apply tsafe_PutBack; by apply tsafe_send_err | by apply tsafe_respond]. }
  destruct (callbackQueues _ !! _) as [cbs|] eqn:Ec; [|by apply (Hf (mk_TargetCtx (mk_PipelineCtx None 0 "") "" "") (Some _))].
  eapply tsafe_callbacks; [by eapply Hq | | done | done | exact Hf].
  eapply Forall_impl; [by apply (Hqk cbs)|]. auto.
Qed.

Lemma tsafe_incoming adm admp p data sender :
  processor_safe adm admp p -> kept (DataProcess (DataProcessor p) (in_ctx sender) data) ->
  (forall a, admp a -> target_kept p a) -> adm data -> tsafe_in (incoming_prog p data sender) [].
Proof.
  intros [Pi Po Pc] Hki Hkc Hd G w I _ HJ. eapply wp_mono; [apply wp_kept; [apply Hki | done | by apply Pi]|].
  intros [[tctx dt] err] w1 [(I1 & A1 & Hdec) HJ1]. exists []. split_and!; [done | constructor | done | done |].
  destruct err as [e|]; [by apply tsafe_send_err|]. destruct (_ =? _); [done|].
  destruct (Hdec eq_refl) as [Hkm Hadm]. apply tsafe_NewPkt. intros pkt s.
  eapply tsafe_method; [by apply Unmarshal_acts|]. cbv beta.
  destruct (a_unmarshal dt _).2 eqn:Eu.
  - eapply tsafe_process; [done | by apply Hkc, Hadm | by apply Hadm | by apply tsafe_PutBack].
  - apply tsafe_send_err. by apply tsafe_PutBack.
Qed.

Lemma tsafe_transforms ts ctx data pkt a k :
  Forall OutSafe ts -> Forall (fun t => forall ctx d, kept (t ctx d)) ts -> Pkt (t_ctx ctx) = Some pkt ->
  (forall ctx' d e a', tsafe_in (k ctx' d e) [(pkt, a')]) ->
  tsafe_in (transforms_prog ts ctx data k) [(pkt, a)].
Proof.
  intros Hs Hks Hp Hk. revert ctx data a Hp. induction Hs as [|t ts Ht Hs IH]; intros ctx data a Hp; [apply Hk|].
  apply list.Forall_cons in Hks as [Hkt Hks].
  intros G w I Ho HJ. eapply wp_mono; [apply wp_kept; [apply Hkt | done | by eapply (Ht G)]|].
  intros [ctx' d'] w' [(Hp' & I' & A') HJ'].
  destruct (inv_owned _ _ pkt I' ltac:(by left)) as [a' Ha']. exists [(pkt, a')].
  split_and!; [done | by repeat constructor | done | done |]. simpl in Hp'.
  destruct (judge _); [apply Hk.. | by apply IH].
Qed.

Lemma tsafe_outgoing adm admp p pkt a :
  processor_safe adm admp p ->
  Forall (fun t => forall ctx d, kept (t ctx d)) (transforms (DataProcessor p) "_out_") ->
  (forall x, kept (dist x)) -> tsafe_in (outgoing_prog p pkt) [(pkt, a)].
Proof.
  intros [Pi Po Pc] Hko Hkd. assert (Hd : forall a', tsafe_in (Act (pk (PutBack pkt)) (fun _ => Done)) [(pkt, a')])
    by (intros a'; by apply tsafe_PutBack).
  unfold outgoing_prog. cbv zeta. eapply tsafe_method; [apply Marshal_acts|].
  eapply tsafe_method; [apply Dest_acts|]. destruct (ResolveUDPAddr _) as [addr|]; [|apply Hd].
  apply tsafe_transforms; [done | done | done |]. intros ctx d [e|] a'.
  - eapply tsafe_method; [apply Meta_Get_acts|]. eapply tsafe_method; [apply Dest_acts|].
    by apply tsafe_send_err.
  - destruct (_ =? _); [apply Hd|]. by apply tsafe_dist.
Qed.

(** ** The server *)

(** Every thread is safe with its packets, no two threads own the same one and
    none of them is pooled or waits. *)
Definition threads_in (s : Threads E) : Prop :=
  exists os, Forall2 tsafe_in (threads s) os /\
    inv (concat os).*1 (state s) /\ holds (concat os) (state s) /\ J (state s).

(** One thread among the others. *)
Lemma owns_split (os1 os2 : list owns) o :
  concat (os1 ++ o :: os2) ≡ₚ o ++ concat (os1 ++ os2).
Proof. rewrite !concat_app. simpl. solve_Permutation. Qed.

Lemma inv_owns (o o' : owns) (w : W) : o ≡ₚ o' -> inv o.*1 w -> inv o'.*1 w.
Proof. intros P. apply inv_perm. by rewrite P. Qed.

Lemma thread_act t1 B (m : M W B) k t2 w n out :
  threads_in (mk_Threads w (t1 ++ Act m k :: t2) n out) ->
  wp m (fun b w' => threads_in (mk_Threads w' (t1 ++ k b :: t2) n out)) w.
Proof.
  intros (os & Hts & I & Ho & HJ). simpl in *.
  apply Forall2_app_inv_l in Hts as (os1 & os2 & H1 & H2 & ->).
  apply Forall2_cons_inv_l in H2 as (o & os3 & Ht & H3 & ->).
  pose proof (owns_split os1 os3 o) as P. apply (inv_owns _ _ _ P) in I. rewrite fmap_app in I.
  unfold holds in Ho. rewrite P in Ho. apply Forall_app in Ho as [Ho Hr].
  eapply wp_mono; [by apply (Ht _ w I)|]. intros b w' (o' & I' & Ho' & A' & HJ' & Hk).
  exists (os1 ++ o' :: os3). simpl. split_and!.
  - apply Forall2_app; [done|]. by constructor.
  - apply (inv_owns (o' ++ concat (os1 ++ os3))); [by rewrite owns_split | by rewrite fmap_app].
  - unfold holds. rewrite owns_split. apply Forall_app. split; [done | by eapply holds_kept].
  - done.
Qed.

(** A new thread. *)
Lemma thread_spawn (t : prog E) o ts w w' n out :
  tsafe_in t o -> threads_in (mk_Threads w ts n out) ->
  (forall os, inv os.*1 w -> holds os w -> inv (o ++ os).*1 w' /\ holds (o ++ os) w') -> (J w -> J w') ->
  threads_in (mk_Threads w' (ts ++ [t]) n out).
Proof.
  intros Ht (os & Hts & I & Ho & HJ) Hw HJw. simpl in *. destruct (Hw _ I Ho) as [I' Ho'].
  exists (os ++ [o]). simpl. split_and!.
  - apply Forall2_app; [done|]. by repeat constructor.
  - apply (inv_owns (o ++ concat os)); [rewrite owns_split; by rewrite app_nil_r | done].
  - unfold holds. rewrite owns_split, app_nil_r. done.
  - by apply HJw.
Qed.

(** A thread that is over. *)
Lemma thread_end t1 t2 w n out :
  threads_in (mk_Threads w (t1 ++ Done :: t2) n out) -> threads_in (mk_Threads w (t1 ++ t2) n out).
Proof.
  intros (os & Hts & Iw & Ho & HJ). simpl in *.
  apply Forall2_app_inv_l in Hts as (os1 & os2 & H1 & H2 & ->).
  apply Forall2_cons_inv_l in H2 as (o & os3 & Ht & H3 & ->). simpl in Ht. subst o.
  rewrite concat_app in Iw, Ho. simpl in Iw, Ho. rewrite <- concat_app in Iw, Ho.
  exists (os1 ++ os3). split_and!; [by apply Forall2_app | done | done | done].
Qed.

Section steps.
Variables (adm : bytes -> Prop) (okp : APkt -> Prop) (p : Processor W).
Hypothesis handlers_in : forall data sender, adm data -> tsafe_in (incoming_prog p data sender) [].
Hypothesis handlers_out : forall l a, okp a -> tsafe_in (outgoing_prog p l) [(l, a)].
Hypothesis J_written : forall w q1 d q2, writeStream w = q1 ++ d :: q2 -> J w ->
  J (mk_SvrState (s_heap w) (s_ext w) (sendStream w) (q1 ++ q2) (closed w)).

(** Steps from a state in which the packets that wait to be sent satisfy [okp]. *)
Definition step_with (s s' : Threads E) : Prop :=
  (forall l a, l ∈ sendStream (state s) -> ab (state s) l = Some a -> okp a) /\ th_step p adm s s'.

Lemma th_step_in s s' :
  step_with s s' ->
  ((0 < th_readers s)%nat -> threads_in s) -> (0 < th_readers s')%nat -> threads_in s'.
Proof.
  intros [Hok Hs]. destruct Hs as [w ts n out data sender Hn Hd | w w' t1 B m k b t2 n out Hm
    | w t1 t2 n out | w ts n out q1 l q2 Hq | w ts n out q1 d q2 Hq | w ts n out Hc]; simpl; intros I Hr.
  - eapply (thread_spawn _ []); [by eapply handlers_in | by apply I | by intros | done].
  - pose proof (thread_act _ _ _ _ _ _ _ _ (I Hr)) as Hwp. unfold wp in Hwp. by rewrite Hm in Hwp.
  - by apply thread_end, I.
  - destruct (I Hr) as (os & _ & Iw & _). simpl in Iw.
    destruct (inv_owned _ _ l (inv_received _ w q1 l q2 Iw Hq) ltac:(by left)) as [a Ha]. simpl in Ha.
    apply (thread_spawn _ [(l, a)] _ w); [| by apply I | | by apply J_frame].
    { apply handlers_out, (Hok l); [|done]. simpl. rewrite Hq. set_solver. }
    intros o I' Ho. split; [by apply inv_received | by constructor].
  - destruct (I Hr) as (os & Hts & [I1 I2 I3 I4 I5] & Ho & HJ). exists os. split_and!; try done. by eapply J_written.
  - destruct (I ltac:(lia)) as (os & Hts & [I1 I2 I3 I4 I5] & Ho & HJ). exists os. split_and!; try done.
    { split; try done. simpl in *. rewrite I5. by destruct n; [lia|]. }
    by eapply (J_frame w).
Qed.

Lemma threads_init_in (w : W) : inv [] w -> J w -> threads_in (threads_init w).
Proof. intros I HJ. exists []. by split_and!; [constructor | | constructor |]. Qed.

Lemma threads_reach_in w s :
  inv [] w -> J w -> rtc step_with (threads_init w) s -> (0 < th_readers s)%nat -> threads_in s.
Proof.
  intros I HJ Hr. revert s Hr. apply (rtc_ind_r (fun s => (0 < th_readers s)%nat -> threads_in s)).
  - intros _. by apply threads_init_in.
  - intros s1 s2 _ Hs IH Hn. by eapply th_step_in.
Qed.
End steps.
End invariant.

(** ** Without a further invariant *)

Definition tsafe : prog E -> owns -> Prop := tsafe_in (fun _ => True).
Definition threads_ok : Threads E -> Prop := threads_in (fun _ => True).

Lemma threads_reach adm admp p w s :
  processor_safe adm admp p -> inv [] w -> rtc (th_step p adm) (threads_init w) s ->
  (0 < th_readers s)%nat -> threads_ok s.
Proof.
  intros Hp I Hr. assert (Hr' : rtc (step_with adm (fun _ => True) p) (threads_init w) s)
    by (eapply rtc_subrel; [|exact Hr]; by split).
  revert Hr'. apply (threads_reach_in (fun _ => True)); try done.
  - intros data sender Hd. eapply tsafe_incoming; try done. intros a _ cbs _.
    apply Forall_forall. by intros.
  - intros l a _. eapply tsafe_outgoing; try done. apply Forall_forall. by intros.
Qed.

(** Only the last reader's return can take the process down. *)
Lemma threads_ok_panic s e :
  threads_ok s -> th_panic s e -> e = SendOnClosed /\ th_readers s = 1%nat.
Proof.
  intros Hok Hpan. destruct Hpan as [t1 B m k t2 e Et Hm | H1 _]; [|done].
  destruct s as [ws ts n out]. simpl in *. subst ts.
  pose proof (thread_act _ _ _ _ _ _ _ _ _ Hok) as Hwp. unfold wp in Hwp. by rewrite Hm in Hwp.
Qed.

(** All packets there are: pooled, waiting, or owned by one thread. *)
Lemma threads_ok_owned s :
  threads_ok s ->
  exists os, Forall2 tsafe (threads s) os /\
    let all := pool (s_heap (state s)) ++ sendStream (state s) ++ (concat os).*1 in
    NoDup all /\ forall l, l ∈ all -> is_Some (ab (state s) l).
Proof.
  intros (os & Hts & [I1 I2 I3 I4 I5] & Ho).
  exists os. split; [done|]. cbv zeta.
  assert (P : sendStream (state s) ++ (concat os).*1 ≡ₚ (concat os).*1 ++ sendStream (state s))
    by apply Permutation_app_comm.
  rewrite P. split.
  - apply list.NoDup_app. split; [apply (ok_pool_nodup _ I1)|]. split; [|done].
    intros l H1 H2. by apply (I4 l H2).
  - intros l. rewrite elem_of_app. intros [H1|H2]; [by apply I2|].
    apply I4. by rewrite <- P.
Qed.

(** (C5) Ownership under every interleaving of the handlers' actions and every
    choice of the pool: in every state the server reaches while a reader is
    left, if it started well-formed and only admissible datagrams arrive, no
    packet is in the pool twice, waits to be sent twice, or is pooled while it
    waits, every pooled or waiting packet is usable, and the running handlers
    own packets that are different from each other, from the pooled and from the
    waiting ones, and with which each can finish. Admissible datagrams (adm) are
    those for which the processor is safe ([processor_safe]): without transforms
    and with safe callbacks, every document that does not set the metadata to
    null; with the Crypto extension, data of at least 12 bytes which, as it is
    and opened under any key, neither sets the metadata to null nor asks for a
    key exchange with the server with an incomplete public key. *)
Theorem threads_ownership adm admp (p : Processor W) w s :
  processor_safe adm admp p -> inv [] w ->
  rtc (th_step p adm) (threads_init w) s -> (0 < th_readers s)%nat ->
  exists os, Forall2 tsafe (threads s) os /\
    let all := pool (s_heap (state s)) ++ sendStream (state s) ++ (concat os).*1 in
    NoDup all /\ forall l, l ∈ all -> is_Some (ab (state s) l).
Proof.
  intros Hp I Hr Hn. by eapply threads_ok_owned, threads_reach.
Qed.

(** Panic freedom under every interleaving: in every such state no
    handler's next action panics; the only way to go down is closing the
    channels, when the last reader returns, while a goroutine waits to send. *)
Theorem threads_no_panic adm admp (p : Processor W) w s e :
  processor_safe adm admp p -> inv [] w ->
  rtc (th_step p adm) (threads_init w) s -> (0 < th_readers s)%nat ->
  th_panic s e -> e = SendOnClosed /\ th_readers s = 1%nat.
Proof.
  intros Hp I Hr Hn. by eapply threads_ok_panic, threads_reach.
Qed.
End safety.
