(* ===== verification/Channel.v ===== *)
(** * Channel: transport encryption between two ends

    The stages of a pipeline that holds only the transforms of the cryptographic
    extension, and when what one end sends reaches the other end as it was: the
    sender's outgoing stage followed by the receiver's incoming stage. *)

From Stdlib Require Import ZArith Lia Ascii String.
From stdpp Require Import base list strings gmap fin_maps.
From S2P Require Import Prelude Base64 Utf8 JsonText Decimal Json Packet PacketSpec PacketProps.
From S2P Require Import Fmt Pipeline Cipher Crypto CryptoSpec UDPServer UDPServerSpec UDPServerProps.
Open Scope Z_scope.

Section channel.
Context `{A : AEAD} `{!AEADLaws A} `{C : Curve}.

(** ** The stages *)

Section stages.
Context {W : Type} `{HH : Has Heap W} `{HC : Has Crypto W} `{DJ : !Disjoint Heap Crypto W}.
Variable d : DataPipeline W.

Lemma in_stage (w : W) sender raw data :
  transforms d "_in_" = [decryptTransport] ->
  in_data (proj (S := Crypto) w) sender raw = Ok data ->
  DataProcess d (in_ctx sender) raw w = Ok ((in_ctx sender, data, None), w).
Proof.
  intros Ht Hd. unfold DataProcess. cbn [in_ctx PipelineName]. rewrite Ht. cbn [run_transforms].
  erewrite bind_ok; [|rewrite decryptTransport_eq; cbn [t_From in_ctx]; by rewrite Hd]. done.
Qed.

Lemma out_stage_crypto (w : W) pkt a bin :
  let c := proj (S := Crypto) w in
  transforms d "_out_" = [encryptTransport] ->
  heap_ok (proj (S := Heap) w) -> abs (proj (S := Heap) w) pkt = Some a ->
  out_ctx a c (out_tctx pkt) = out_tctx pkt ->
  DataProcess d (out_tctx pkt) bin w
  = Ok ((out_tctx pkt, out_data a c bin, None), upd (out_crypto a c) w).
Proof.
  intros c Ht Hok Ha Hc. unfold DataProcess. cbn [out_tctx PipelineName]. rewrite Ht.
  cbn [run_transforms]. erewrite bind_ok; [|by eapply encryptTransport_eq].
  fold c. rewrite Hc. done.
Qed.
End stages.

(** ** Two ends that share a secret *)

(** The sender, in state [c], holds for the address [dst] the secret that the
    receiver, in state [c'], holds for [src]; it is usable as [key]. *)
Definition linked (key : bytes) (c c' : Crypto) (dst src : string) : Prop :=
  exists ks ks', keys c !! dst = Some ks /\ keys c' !! src = Some ks' /\
    BigBytes (shared ks) = key /\ BigBytes (shared ks') = key /\ key_ok key = true.

Lemma linked_sym key c c' dst src : linked key c c' dst src -> linked key c' c src dst.
Proof. intros (ks & ks' & H). exists ks', ks. tauto. Qed.

(** Two states of the extension with the same secrets: what an end stores
    besides (which keys count as sent, the random source) does not matter for
    its links. *)
Definition same_secrets (c c' : Crypto) : Prop :=
  forall addr, shared <$> keys c !! addr = shared <$> keys c' !! addr.

#[global] Instance same_secrets_equiv : Equivalence same_secrets.
Proof.
  split; [by intros c addr | by intros c c' H addr |].
  intros c1 c2 c3 H1 H2 addr. by rewrite H1.
Qed.

#[global] Instance linked_proper key :
  Proper (same_secrets ==> same_secrets ==> eq ==> eq ==> iff) (linked key).
Proof.
  assert (Hone : forall c1 c2 d1 d2 dst src, same_secrets c1 c2 -> same_secrets d1 d2 ->
    linked key c1 d1 dst src -> linked key c2 d2 dst src).
  { intros c1 c2 d1 d2 dst src Hc Hd (ks & ks' & Hk & Hk' & Hr).
    specialize (Hc dst). specialize (Hd src). rewrite Hk in Hc. rewrite Hk' in Hd.
    destruct (keys c2 !! dst) as [k|] eqn:E1; [|done]. destruct (keys d2 !! src) as [k'|] eqn:E2; [|done].
    simplify_eq/=. exists k, k'. by rewrite <- Hc, <- Hd. }
  intros c1 c2 Hc d1 d2 Hd dst ? <- src ? <-. split; apply Hone; done.
Qed.

(** The transport stage keeps them. *)
Lemma out_crypto_same a c : same_secrets (out_crypto a c) c.
Proof.
  intros addr. unfold out_crypto. destruct (out_decision a c); [done | | done | by repeat case_match].
  simpl. destruct (decide (addr = a_dest a)) as [->|Hne].
  - rewrite lookup_alter_eq. by destruct (keys c !! a_dest a).
  - by rewrite lookup_alter_ne.
Qed.

(** The wire form of a packet is longer than a nonce. *)
Lemma render_pkt_long m data : (nonceSize <= length (render_pkt m data))%nat.
Proof.
  unfold render_pkt. change nonceSize with 12%nat. cbn [length].
  repeat (rewrite length_app; cbn [length]).
  change (length (quote "m")) with 3%nat. change (length (quote "d")) with 3%nat.
  unfold quote. cbn [length]. rewrite length_app. cbn [length]. lia.
Qed.

(** What the sender does with a packet can be undone: it does not fail, and if
    it sends in clear, the text is not by accident a sealed one. *)
Definition deliverable (key : bytes) (a : APkt) (c : Crypto) (bin : bytes) : Prop :=
  match out_decision a c with
  | OutError _ => False
  | OutSealed n _ => length n = nonceSize
  | OutClear | OutFirst => Open key (take nonceSize bin) (drop nonceSize bin) = None
  end.

Lemma deliverable_ctx key a c bin ctx : deliverable key a c bin -> out_ctx a c ctx = ctx.
Proof. unfold deliverable, out_ctx. by destruct (out_decision a c). Qed.

Lemma out_sealed_key a c n key :
  out_decision a c = OutSealed n key ->
  exists ks, keys c !! a_dest a = Some ks /\ key = BigBytes (shared ks).
Proof. unfold out_decision. repeat case_match; intros [= <- <-]; simplify_eq. eauto. Qed.

(** Sent by one end, received by the other. *)
Lemma channel key a c c' src bin :
  linked key c c' (a_dest a) src -> deliverable key a c bin ->
  (nonceSize <= length bin)%nat ->
  in_data c' src (out_data a c bin) = Ok bin.
Proof.
  intros (ks & ks' & Hk & Hk' & E & E' & Hok) Hd Hlen.
  unfold in_data. rewrite Hk', E', Hok. unfold deliverable in Hd. unfold out_data.
  destruct (out_decision a c) as [| |n k|e] eqn:Ed; [..|done].
  - rewrite (proj2 (Nat.ltb_ge _ _)) by done. by rewrite Hd.
  - rewrite (proj2 (Nat.ltb_ge _ _)) by done. by rewrite Hd.
  - apply out_sealed_key in Ed as (ks2 & Hk2 & ->). simplify_eq.
    rewrite (proj2 (Nat.ltb_ge _ _)) by (rewrite length_app; lia).
    by rewrite take_app_length', drop_app_length', open_seal by done.
Qed.
End channel.
