(* ===== verification/CryptoServer.v ===== *)
(** * CryptoServer: the extended server meets the server's conditions

    The transforms and callbacks the cryptographic extension installs satisfy
    the interface the server asks of them ([OutSafe], [CallbackSafe],
    [in_stage_safe]), so the safety theorems of the server apply to a server
    extended with [Extend "server"]. *)

From Stdlib Require Import ZArith Lia Ascii String.
From stdpp Require Import base list strings gmap fin_maps.
From S2P Require Import Prelude Base64 Utf8 JsonText Decimal Json Packet PacketSpec PacketProps.
From S2P Require Import Fmt Pipeline Cipher Crypto CryptoSpec UDPServer UDPServerSpec UDPServerProps.
Open Scope Z_scope.

Section crypto_server.
Context `{A : AEAD} `{C : Curve} `{R : Resolver}.

(** The extension's state may be part of a bigger one. *)
Section embedded.
Context {E : Type} {HC : Has Crypto (SvrState E)} {DJ : Disjoint Heap Crypto (SvrState E)}.
Context {IE : InExt Crypto E}.
Abbreviation W := (SvrState E).
Abbreviation ab w l := (abs (s_heap w) l).

(** The invariant does not mention the extension's state. *)
Lemma inv_ext F (w : W) (e : E) :
  inv F w -> inv F (mk_SvrState (s_heap w) e (sendStream w) (writeStream w) (closed w)).
Proof. by intros [I1 I2 I3 I4 I5]. Qed.

#[global] Instance encryptTransport_safe : OutSafe (E := E) encryptTransport.
Proof.
  intros F w ctx pkt data Hp I. destruct (inv_owned _ _ pkt I ltac:(by left)) as [a Ha].
  eapply wp_ok.
  { apply (encryptTransport_eq (W := W) w ctx pkt a data); [done | apply I | exact Ha]. }
  simpl. destruct (in_ext (out_crypto a (proj w)) w) as [e ->].
  split; [|by split; [apply inv_ext|]]. unfold out_ctx. by destruct (out_decision _ _).
Qed.

(** A method call on an owned packet, as the extension writes it. *)
Lemma wp_heap_pkt {B} (m : M Heap B) l f r F (w : W) a (Q : B -> W -> Prop) :
  acts m l f r -> inv F w -> l ∈ F -> ab w l = Some a ->
  (forall w', inv F w' -> only l w w' -> ab w' l = Some (f a) -> Q (r a) w') ->
  wp (heap m) Q w.
Proof. apply wp_pkt. Qed.

#[global] Instance keyExchangeClient_safe adm : CallbackSafe (E := E) adm keyExchangeClient.
Proof.
  intros F w ctx pkt pw a Hp I Ha _. unfold keyExchangeClient, ctx_pkt. rewrite Hp, wp_bind.
  apply wp_ret. rewrite wp_bind.
  eapply (wp_read _ _ _ _ w a); [apply PktData_reads | exact I | done |].
  destruct (decode_ip (a_buff a)) as [ip|]; [|by apply wp_ret].
  unfold getKeyStore. rewrite wp_bind. eapply wp_ok; [apply (crypt_gets (W := W))|].
  destruct (keys _ !! ip) as [ks|]; [|by apply wp_ret].
  destruct (inv_owned _ _ pw I ltac:(by right; left)) as [b Hb].
  pose proof (inv_response _ _ _ _ I) as Hne.
  rewrite wp_bind. eapply wp_heap_pkt; [apply Meta_Add_acts | done | by right; left | done |].
  intros w1 I1 O1 A1. rewrite wp_bind.
  eapply wp_heap_pkt; [apply Write_acts | done | by right; left | done |].
  intros w2 I2 O2 A2. apply wp_ret. split; [done|]. split; [done|].
  intros k Hk. apply Hne in Hk. by rewrite (on_abs _ _ _ O2), (on_abs _ _ _ O1).
Qed.

(** If the request is for a key exchange with the server and its data is a public
    key, the key has both coordinates. *)
Definition full_key (a : APkt) : Prop :=
  a_get KeyTarget a = TargetKeyExchangeServer ->
  forall pk, decode_pk (a_buff a) = Some pk -> X pk <> None /\ Y pk <> None.

#[global] Instance keyExchangeServer_safe :
  CallbackSafe (E := E) (fun a => full_key a /\ a_get KeyTarget a = TargetKeyExchangeServer) keyExchangeServer.
Proof.
  intros F w ctx pkt pw a Hp I Ha [Hfull Htgt]. specialize (Hfull Htgt).
  destruct (decode_pk (a_buff a)) as [[x y]|] eqn:Ed.
  - destruct (Hfull _ eq_refl) as [Hx Hy]. simpl in Hx, Hy. destruct x as [x|], y as [y|]; try done.
    destruct (inv_owned _ _ pw I ltac:(by right; left)) as [b Hb].
    pose proof (inv_response _ _ _ _ I) as Hne.
    eapply wp_mono.
    { eapply (keyExchangeServer_spec (W := W)); [done | apply I | exact Ha | exact Hb | done]. }
    intros ctx' w' (-> & _ & Fr & A' & h & Ew).
    destruct (in_ext (proj (S := Crypto) w') w) as [e Ee]. rewrite Ee in Ew. rewrite Ew in *.
    split; [done|]. split; [by eapply (inv_frame _ w)|].
    intros k Hk. apply (fr_abs _ _ _ Fr). by apply Hne.
  - unfold keyExchangeServer, ctx_pkt. rewrite Hp, wp_bind. apply wp_ret. rewrite wp_bind.
    eapply (wp_read _ _ _ _ w a); [apply PktData_reads | exact I | done |]. rewrite Ed. by apply wp_ret.
Qed.

(** Datagrams that are long enough to hold a nonce and that decode to admissible
    requests as they are and under every key they authenticate with. *)
Definition crypto_adm_as (admp : APkt -> Prop) (d : bytes) : Prop :=
  (nonceSize <= length d)%nat /\ decodes admp d /\
  forall key d', Open key (take nonceSize d) (drop nonceSize d) = Some d' -> decodes admp d'.

(** The metadata is not nulled and the public key of a key exchange is complete. *)
Definition crypto_adm : bytes -> Prop := crypto_adm_as full_key.

Lemma decrypt_in_stage admp (dp : DataPipeline W) :
  transforms dp "_in_" = [decryptTransport] -> in_stage_safe (crypto_adm_as admp) admp dp.
Proof.
  intros Ht F w sender data I (Hlen & Hd & Ho). unfold DataProcess. cbn [in_ctx PipelineName].
  rewrite Ht. cbn [run_transforms]. rewrite wp_bind. unfold wp at 1.
  rewrite (decryptTransport_eq (W := W)). unfold in_data. cbn [t_From in_ctx].
  assert (Hok : forall d, decodes admp d ->
    wp (match judge (Stat (t_ctx (in_ctx sender))) with
        | VError => ret (in_ctx sender, d, Some (Errorf ("pipeline terminated: " +:+ "")))
        | VStop => ret (in_ctx sender, d, None)
        | VGo => ret (in_ctx sender, d, None)
        end) (fun '(_, dt, e) w' => inv F w' /\ (forall k, k ∈ F -> ab w' k = ab w k) /\
           (e = None -> decodes admp dt)) w).
  { intros d Hdec. by apply wp_ret. }
  destruct (keys _ !! sender) as [ks|]; [|by apply Hok].
  destruct (key_ok _); [|by apply Hok].
  rewrite (proj2 (Nat.ltb_ge _ _)) by done.
  destruct (Open _ _ _) as [d'|] eqn:Eo; [apply Hok; by eapply Ho | by apply Hok].
Qed.

(** An extended server whose callbacks are safe for requests with complete
    keys. *)
Lemma extended_safe_as (admp : APkt -> Prop) (p : Processor W) :
  (forall a, admp a -> full_key a) ->
  transforms (DataProcessor p) "_in_" = [] -> transforms (DataProcessor p) "_out_" = [] ->
  queues_safe admp (PacketProcessor p) ->
  processor_safe (crypto_adm_as admp) admp (Extend "server" p).1.
Proof.
  intros Hf Hi Ho Hq. split; simpl.
  - apply decrypt_in_stage. unfold transforms, AddTransform. simpl.
    rewrite lookup_insert_ne, lookup_insert_eq by done. simpl. by rewrite Hi.
  - unfold transforms at 1, AddTransform. simpl. rewrite lookup_insert_eq. simpl.
    unfold transforms. simpl. rewrite lookup_insert_ne by done.
    change (default [] _) with (transforms (DataProcessor p) "_out_"). rewrite Ho.
    repeat constructor. apply encryptTransport_safe.
  - apply queues_safe_add; [apply _|]. apply queues_safe_add; [|done].
    intros F w ctx pkt pw a Hp I Ha [Had Ht]. eapply keyExchangeServer_safe; try done. by split; [apply Hf|].
Qed.

Lemma extended_safe (p : Processor W) :
  transforms (DataProcessor p) "_in_" = [] -> transforms (DataProcessor p) "_out_" = [] ->
  queues_safe full_key (PacketProcessor p) ->
  processor_safe crypto_adm full_key (Extend "server" p).1.
Proof. by apply extended_safe_as. Qed.
End embedded.

(** A server extended with [Extend "server"] meets the conditions of the
    server's safety theorems, for datagrams long enough for a nonce whose
    documents, in clear or decrypted, neither null the metadata nor ask for a key
    exchange with an incomplete public key. *)
Theorem extended_server_safe :
  (Extend "server" (NewUDPServer (E := Crypto))).2 = None /\
  processor_safe crypto_adm full_key (Extend "server" (NewUDPServer (E := Crypto))).1.
Proof.
  split; [done|]. apply extended_safe; [done | done |]. apply queues_safe_add; [apply _ | apply queues_safe_new].
Qed.
End crypto_server.
