(* ===== verification/Processors.v ===== *)
(** * Processors: the interfaces an extension is installed through

    Servers and clients hand their pipelines to extensions as a [Processor], and
    an extension knows them only through the interfaces [DataProcessor] and
    [PacketProcessor] of src/core/extension.go.  The interfaces are type classes
    and what their users rely on is a class of laws; the pipelines of src/core
    are an instance.  The cryptographic extension is proved against the laws:
    what [Extend] changes, and that two extended processors of any kind form an
    encrypted channel. *)

From Stdlib Require Import ZArith Lia Ascii String.
From stdpp Require Import base list strings gmap fin_maps.
From S2P Require Import Prelude Base64 Utf8 JsonText Decimal Json Packet PacketSpec.
From S2P Require Import Fmt Pipeline Cipher Crypto CryptoSpec UDPServer UDPServerSpec UDPServerProps Channel.
Open Scope Z_scope.

(** ** Operations *)

Class IDataProcessor (W D : Type) := {
  dp_Lock : D -> D;
  dp_Unlock : D -> D;
  dp_AddTransform : string -> BufferTransform W -> D -> D;
  dp_Process : D -> TransformContext -> bytes -> M W (TransformContext * bytes * option string);
}.

Class IPacketProcessor (W P : Type) := {
  pp_AddCallback : string -> TargetCallback W -> P -> P;
  pp_Process : P -> TargetCtx -> nat -> M W (TargetCtx * option string);
}.

(** [core.Processor]: both accessors return references, so an operation on a
    processor's pipeline changes the processor. *)
Class IProcessor (W D P T : Type) := {
  proc_data :: IDataProcessor W D;
  proc_packet :: IPacketProcessor W P;
  proc_DataProcessor : T -> D;
  proc_PacketProcessor : T -> P;
  proc_with : D -> P -> T -> T;
}.

(** [core.Extension] *)
Class IExtension (W D P T : Type) `{IProcessor W D P T} :=
  ext_Extend : string -> T -> T * option string.

(** ** What users rely on

    The laws say no more than the comments of extension.go: where the pipelines
    of src/core do otherwise (a locked processor, a queue after [CodeRelay]),
    nothing is assumed. *)

(** The outcome [c], [d] of the last transform that was run, or [c] of the last
    callback; an error is returned exactly if it set the status to that. *)
Definition ends_data {W} (r : Res (TransformContext * bytes * option string * W))
    (c : TransformContext) (d : bytes) (w : W) : Prop :=
  exists e, r = Ok ((c, d, e), w) /\ (e = None <-> Stat (t_ctx c) <> CodeStopError).

Definition ends_packet {W} (r : Res (TargetCtx * option string * W)) (c : TargetCtx) (w : W) : Prop :=
  exists e, r = Ok ((c, e), w) /\ (e = None <-> Stat (c_ctx c) <> CodeStopError).

(** Transforms run in succession, the later ones on what the earlier ones leave,
    until one sets the status to an error; a transform is added at the end of the
    named pipeline of an unlocked processor, other pipelines are not affected;
    locking does not change what is processed. *)
Class DataProcessorLaws (W D : Type) `{IDataProcessor W D} := {
  dp_locked : D -> bool;
  law_Lock_locked : forall d, dp_locked (dp_Lock d) = true;
  law_Unlock_locked : forall d, dp_locked (dp_Unlock d) = false;
  law_Lock : forall d ctx data w, dp_Process (dp_Lock d) ctx data w = dp_Process d ctx data w;
  law_Unlock : forall d ctx data w, dp_Process (dp_Unlock d) ctx data w = dp_Process d ctx data w;
  law_Add_locked : forall d name t, dp_locked (dp_AddTransform name t d) = dp_locked d;
  law_Add_other : forall d name t ctx data w, dp_locked d = false -> PipelineName ctx <> name ->
    dp_Process (dp_AddTransform name t d) ctx data w = dp_Process d ctx data w;
  law_Add_runs : forall d t ctx data w c dt w1 c' dt' w2, dp_locked d = false -> Stat (t_ctx ctx) = 0 ->
    dp_Process d ctx data w = Ok ((c, dt, None), w1) -> Stat (t_ctx c) = 0 ->
    t c dt w1 = Ok ((c', dt'), w2) ->
    ends_data (dp_Process (dp_AddTransform (PipelineName ctx) t d) ctx data w) c' dt' w2;
  law_Add_stopped : forall d t ctx data w c dt e w1, dp_locked d = false -> Stat (t_ctx ctx) = 0 ->
    dp_Process d ctx data w = Ok ((c, dt, e), w1) -> Stat (t_ctx c) = CodeStopError ->
    dp_Process (dp_AddTransform (PipelineName ctx) t d) ctx data w = dp_Process d ctx data w;
}.

(** A target exists when a callback has been added to it; callbacks run in
    succession until one sets one of the stopping codes. *)
Class PacketProcessorLaws (W P : Type) `{IPacketProcessor W P} := {
  pp_known : P -> string -> bool;
  law_known : forall p target cb t, pp_known (pp_AddCallback target cb p) t
    = String.eqb target t || pp_known p t;
  law_Cb_other : forall p target cb ctx pw w, TargetName ctx <> target ->
    pp_Process (pp_AddCallback target cb p) ctx pw w = pp_Process p ctx pw w;
  law_Cb_first : forall p cb ctx pw w c w1, pp_known p (TargetName ctx) = false -> Stat (c_ctx ctx) = 0 ->
    cb ctx pw w = Ok (c, w1) ->
    ends_packet (pp_Process (pp_AddCallback (TargetName ctx) cb p) ctx pw w) c w1;
  law_Cb_runs : forall p cb ctx pw w c w1 c' w2, pp_known p (TargetName ctx) = true -> Stat (c_ctx ctx) = 0 ->
    pp_Process p ctx pw w = Ok ((c, None), w1) -> Stat (c_ctx c) = 0 -> cb c pw w1 = Ok (c', w2) ->
    ends_packet (pp_Process (pp_AddCallback (TargetName ctx) cb p) ctx pw w) c' w2;
  law_Cb_stopped : forall p cb ctx pw w c e w1, pp_known p (TargetName ctx) = true -> Stat (c_ctx ctx) = 0 ->
    pp_Process p ctx pw w = Ok ((c, e), w1) ->
    Stat (c_ctx c) = CodeStopError \/ Stat (c_ctx c) = CodeStopCloseSend \/ Stat (c_ctx c) = CodeStopNoop ->
    pp_Process (pp_AddCallback (TargetName ctx) cb p) ctx pw w = pp_Process p ctx pw w;
}.

Class ProcessorLaws (W D P T : Type) `{IProcessor W D P T} := {
  plaw_data :: DataProcessorLaws W D;
  plaw_packet :: PacketProcessorLaws W P;
  law_get_data : forall d p (t : T), proc_DataProcessor (proc_with d p t) = d;
  law_get_packet : forall d p (t : T), proc_PacketProcessor (proc_with d p t) = p;
}.

(** ** The pipelines of src/core *)

Section pipelines.
Context {W : Type}.

#[export] Instance data_pipeline : IDataProcessor W (DataPipeline W) :=
  {| dp_Lock := Lock; dp_Unlock := Unlock; dp_AddTransform := AddTransform; dp_Process := DataProcess |}.

#[export] Instance packet_pipeline : IPacketProcessor W (PacketPipeline W) :=
  {| pp_AddCallback := AddCallback; pp_Process := PacketProcess |}.

#[export] Instance pipelines_processor : IProcessor W (DataPipeline W) (PacketPipeline W) (Processor W) :=
  {| proc_DataProcessor := DataProcessor; proc_PacketProcessor := PacketProcessor;
     proc_with d p _ := mk_Processor d p |}.

Lemma run_one_transform t (c : TransformContext) dt (w1 : W) c' dt' w2 :
  t c dt w1 = Ok ((c', dt'), w2) -> ends_data (run_transforms [t] c dt w1) c' dt' w2.
Proof.
  intros Ht. cbn [run_transforms]. erewrite bind_ok by exact Ht. unfold judge.
  destruct (Z.eqb_spec (Stat (t_ctx c')) CodeStopError) as [Hs|Hs]; [eexists; split; [done|]; by split|].
  destruct (_ || _); eexists; (split; [done|]); by split.
Qed.

Lemma run_one_callback cb (c : TargetCtx) pw (w1 : W) c' w2 :
  cb c pw w1 = Ok (c', w2) -> ends_packet (run_callbacks [cb] c pw w1) c' w2.
Proof.
  intros Ht. cbn [run_callbacks]. erewrite bind_ok by exact Ht. unfold judge.
  destruct (Z.eqb_spec (Stat (c_ctx c')) CodeStopError) as [Hs|Hs]; [eexists; split; [done|]; by split|].
  destruct (_ || _); eexists; (split; [done|]); by split.
Qed.

Lemma going_zero (c : TransformContext) : Stat (t_ctx c) = 0 -> going c = true.
Proof. unfold going. by intros ->. Qed.
Lemma c_going_zero (c : TargetCtx) : Stat (c_ctx c) = 0 -> c_going c = true.
Proof. unfold c_going. by intros ->. Qed.

#[export] Instance data_pipeline_laws : DataProcessorLaws W (DataPipeline W).
Proof.
  refine {| dp_locked := locked |}; try done.
  - intros d name t ctx data w _ Hne. cbn [dp_Process dp_AddTransform data_pipeline].
    unfold DataProcess, transforms, AddTransform. simpl. by rewrite lookup_insert_ne.
  - intros d t ctx data w c dt w1 c' dt' w2 _ Hs Hd Hc Ht. cbn [dp_Process dp_AddTransform data_pipeline] in *.
    rewrite AddTransform_runs_last, String.eqb_refl by (by apply going_zero).
    erewrite bind_ok by exact Hd. cbv beta iota. rewrite going_zero by done. by apply run_one_transform.
  - intros d t ctx data w c dt e w1 _ Hs Hd Hc. cbn [dp_Process dp_AddTransform data_pipeline] in *.
    rewrite AddTransform_runs_last, String.eqb_refl by (by apply going_zero).
    erewrite bind_ok by exact Hd. cbv beta iota. unfold going. by rewrite Hc.
Defined.

#[export] Instance packet_pipeline_laws : PacketProcessorLaws W (PacketPipeline W).
Proof.
  refine {| pp_known p t := bool_decide (is_Some (callbackQueues p !! t)) |}.
  - intros p target cb t. simpl. destruct (String.eqb_spec target t) as [->|Hne].
    + rewrite lookup_insert_eq. by apply bool_decide_true.
    + by rewrite lookup_insert_ne.
  - intros p target cb ctx pw w Hne. cbn [pp_Process pp_AddCallback packet_pipeline].
    unfold PacketProcess, AddCallback. simpl. by rewrite lookup_insert_ne.
  - intros p cb ctx pw w c w1 Hk%bool_decide_eq_false Hs Hcb. cbn [pp_Process pp_AddCallback packet_pipeline] in *.
    rewrite AddCallback_runs_last, String.eqb_refl by (by apply c_going_zero).
    destruct (callbackQueues p !! TargetName ctx); [destruct Hk; eauto | by apply run_one_callback].
  - intros p cb ctx pw w c w1 c' w2 Hk%bool_decide_eq_true Hs Hp Hc Hcb.
    cbn [pp_Process pp_AddCallback packet_pipeline] in *.
    rewrite AddCallback_runs_last, String.eqb_refl by (by apply c_going_zero).
    destruct Hk as [q ->]. erewrite bind_ok by exact Hp. cbv beta iota. rewrite c_going_zero by done. by apply run_one_callback.
  - intros p cb ctx pw w c e w1 Hk%bool_decide_eq_true Hs Hp Hc.
    cbn [pp_Process pp_AddCallback packet_pipeline] in *.
    rewrite AddCallback_runs_last, String.eqb_refl by (by apply c_going_zero).
    destruct Hk as [q ->]. erewrite bind_ok by exact Hp. cbv beta iota. unfold c_going. by destruct Hc as [-> | [-> | ->]].
Defined.

#[export] Instance pipelines_laws : ProcessorLaws W (DataPipeline W) (PacketPipeline W) (Processor W).
Proof. split; [apply _ | apply _ | done | done]. Defined.
End pipelines.

(** ** The cryptographic extension on any processor *)

Section extension.
Context `{A : AEAD} `{C : Curve}.
Context {W : Type} `{HH : Has Heap W} `{HC : Has Crypto W} `{DJ : !Disjoint Heap Crypto W}.
Context {D P T : Type} `{IP : !IProcessor W D P T} `{LP : !ProcessorLaws W D P T}.

Definition extend_data (t : T) : T :=
  proc_with (dp_AddTransform "_out_" encryptTransport
    (dp_AddTransform "_in_" decryptTransport (proc_DataProcessor t))) (proc_PacketProcessor t) t.

Definition extend_packet (t : T) : T :=
  proc_with (proc_DataProcessor t)
    (pp_AddCallback TargetKeyExchangeClient keyExchangeClient
      (pp_AddCallback TargetKeyExchangeServer keyExchangeServer (proc_PacketProcessor t))) t.

#[export] Instance crypto_extension : IExtension W D P T := fun kind t =>
  let t := extend_data t in
  if String.eqb kind "server" then (extend_packet t, None)
  else if String.eqb kind "client" then (t, None)
  else (t, Some (Errorf ("unknown processor kind: " +:+ String "034" kind +:+ String "034" ""))).

Definition extended (kind : string) (t : T) : T := (ext_Extend kind t).1.

(** The data processor does not depend on the kind. *)
Lemma extended_data kind t :
  proc_DataProcessor (extended kind t)
  = dp_AddTransform "_out_" encryptTransport (dp_AddTransform "_in_" decryptTransport (proc_DataProcessor t)).
Proof.
  unfold extended, ext_Extend, crypto_extension. assert (H : forall t' : T, proc_DataProcessor (extend_packet t') = proc_DataProcessor t').
  { intros t'. apply law_get_data. }
  destruct (String.eqb kind "server"); [simpl; rewrite H; apply law_get_data|].
  destruct (String.eqb kind "client"); apply law_get_data.
Qed.

Lemma extended_packet kind t :
  proc_PacketProcessor (extended kind t)
  = if String.eqb kind "server" then
      pp_AddCallback TargetKeyExchangeClient keyExchangeClient
        (pp_AddCallback TargetKeyExchangeServer keyExchangeServer (proc_PacketProcessor t))
    else proc_PacketProcessor t.
Proof.
  unfold extended, ext_Extend, crypto_extension.
  destruct (String.eqb kind "server"); [simpl; unfold extend_packet, extend_data; by rewrite !law_get_packet|].
  destruct (String.eqb kind "client"); apply law_get_packet.
Qed.

(** An unlocked processor and what its pipelines make of [data]. *)
Abbreviation unlocked t := (dp_locked (proc_DataProcessor t) = false).

(** A pipeline of an extended processor: the transform [tr] comes last. *)
Lemma extended_runs kind (t : T) ctx data w c dt w1 c' dt' w2 (tr : BufferTransform W) :
  unlocked t -> Stat (t_ctx ctx) = 0 ->
  PipelineName ctx = "_out_"%string /\ tr = encryptTransport \/ PipelineName ctx = "_in_"%string /\ tr = decryptTransport ->
  dp_Process (proc_DataProcessor t) ctx data w = Ok ((c, dt, None), w1) -> Stat (t_ctx c) = 0 ->
  tr c dt w1 = Ok ((c', dt'), w2) ->
  ends_data (dp_Process (proc_DataProcessor (extended kind t)) ctx data w) c' dt' w2.
Proof.
  intros Hl Hs Hn Hd Hc Htr. rewrite extended_data. destruct Hn as [[Hn ->]|[Hn ->]].
  - rewrite <- Hn. eapply law_Add_runs; [by rewrite law_Add_locked | done | | done | done].
    rewrite law_Add_other; [done | done | by rewrite Hn].
  - rewrite law_Add_other; [| by rewrite law_Add_locked | by rewrite Hn].
    rewrite <- Hn. by eapply law_Add_runs.
Qed.

Lemma extended_same kind (t : T) ctx data w :
  unlocked t ->
  (PipelineName ctx <> "_in_"%string /\ PipelineName ctx <> "_out_"%string) \/
    (Stat (t_ctx ctx) = 0 /\ exists c dt e w1,
       dp_Process (proc_DataProcessor t) ctx data w = Ok ((c, dt, e), w1) /\ Stat (t_ctx c) = CodeStopError) ->
  dp_Process (proc_DataProcessor (extended kind t)) ctx data w = dp_Process (proc_DataProcessor t) ctx data w.
Proof.
  intros Hl H. rewrite extended_data.
  assert (Hl' : forall tr, dp_locked (dp_AddTransform "_in_" tr (proc_DataProcessor t)) = false)
    by (intros tr; by rewrite law_Add_locked).
  destruct (decide (PipelineName ctx = "_out_"%string)) as [Ho|Ho];
    destruct (decide (PipelineName ctx = "_in_"%string)) as [Hi|Hi]; try congruence.
  - destruct H as [[_ H]|(Hs & c & dt & e & w1 & Hd & Hc)]; [done|].
    assert (Hd' : dp_Process (dp_AddTransform "_in_" decryptTransport (proc_DataProcessor t)) ctx data w
      = Ok ((c, dt, e), w1)) by (by rewrite law_Add_other).
    rewrite <- Ho at 1. by rewrite (law_Add_stopped _ _ _ _ _ c dt e w1), Hd', Hd.
  - destruct H as [[H _]|(Hs & c & dt & e & w1 & Hd & Hc)]; [done|].
    rewrite law_Add_other by done. rewrite <- Hi at 1. by rewrite (law_Add_stopped _ _ _ _ _ c dt e w1).
  - by rewrite !law_Add_other.
Qed.

(** (C28) [Extend] on any unlocked processor that keeps the laws of the interfaces.  It
    fails exactly for a kind that is neither "server" nor "client".  For every
    kind, the unknown ones included: outgoing data is encrypted, and incoming
    data decrypted, after the transforms that were there, if they end with
    status 0; if they end with an error, and on all other pipelines, processing
    is as it was.  Packets for other targets than those of the key exchange are
    processed as before, as are all packets unless the kind is "server"; with
    that kind, packets for a key exchange, if there were no callbacks for it,
    are processed by the extension's callback. *)
Theorem extend_any_processor kind (t : T) :
  dp_locked (proc_DataProcessor t) = false ->
  ((ext_Extend kind t).2 = None <-> kind = "server"%string \/ kind = "client"%string) /\
  (forall ctx data w c dt w1 c' dt' w2, Stat (t_ctx ctx) = 0 ->
     dp_Process (proc_DataProcessor t) ctx data w = Ok ((c, dt, None), w1) -> Stat (t_ctx c) = 0 ->
     (PipelineName ctx = "_out_"%string -> encryptTransport c dt w1 = Ok ((c', dt'), w2) ->
        ends_data (dp_Process (proc_DataProcessor (extended kind t)) ctx data w) c' dt' w2) /\
     (PipelineName ctx = "_in_"%string -> decryptTransport c dt w1 = Ok ((c', dt'), w2) ->
        ends_data (dp_Process (proc_DataProcessor (extended kind t)) ctx data w) c' dt' w2)) /\
  (forall ctx data w,
     (PipelineName ctx <> "_in_"%string /\ PipelineName ctx <> "_out_"%string) \/
       (Stat (t_ctx ctx) = 0 /\ exists c dt e w1,
          dp_Process (proc_DataProcessor t) ctx data w = Ok ((c, dt, e), w1) /\ Stat (t_ctx c) = CodeStopError) ->
     dp_Process (proc_DataProcessor (extended kind t)) ctx data w = dp_Process (proc_DataProcessor t) ctx data w) /\
  (forall ctx pw w,
     kind <> "server"%string \/
       TargetName ctx <> TargetKeyExchangeServer /\ TargetName ctx <> TargetKeyExchangeClient ->
     pp_Process (proc_PacketProcessor (extended kind t)) ctx pw w
     = pp_Process (proc_PacketProcessor t) ctx pw w) /\
  (forall ctx pw w c w1, kind = "server"%string -> Stat (c_ctx ctx) = 0 ->
     pp_known (proc_PacketProcessor t) (TargetName ctx) = false ->
     TargetName ctx = TargetKeyExchangeServer /\ keyExchangeServer ctx pw w = Ok (c, w1) \/
       TargetName ctx = TargetKeyExchangeClient /\ keyExchangeClient ctx pw w = Ok (c, w1) ->
     ends_packet (pp_Process (proc_PacketProcessor (extended kind t)) ctx pw w) c w1).
Proof.
  intros Hl. split_and!.
  - unfold ext_Extend, crypto_extension. destruct (String.eqb_spec kind "server"); [by simpl; split; auto|].
    destruct (String.eqb_spec kind "client"); [by simpl; split; auto|]. simpl. split; [done | by intros [|]].
  - intros ctx data w c dt w1 c' dt' w2 Hs Hd Hc. split; intros Hn Htr; eapply extended_runs; try done; auto.
  - intros ctx data w. by apply extended_same.
  - intros ctx pw w Hk. rewrite extended_packet. destruct (String.eqb_spec kind "server") as [->|]; [|done].
    destruct Hk as [Hk|[Hs Hc]]; [done|]. by rewrite !law_Cb_other.
  - intros ctx pw w c w1 -> Hs Hk Hcb. rewrite extended_packet. simpl. destruct Hcb as [[Hn Hcb]|[Hn Hcb]].
    + rewrite law_Cb_other by (by rewrite Hn). rewrite <- Hn. by apply law_Cb_first.
    + rewrite <- Hn at 1. apply law_Cb_first; [|done..]. rewrite law_known, Hk, Hn. done.
Qed.

(** A processor that passes the data of a pipeline on. *)
Definition passes_on (t : T) (name : string) : Prop :=
  forall ctx data w, PipelineName ctx = name -> Stat (t_ctx ctx) = 0 ->
    dp_Process (proc_DataProcessor t) ctx data w = Ok ((ctx, data, None), w).

Lemma ends_data_ok (r : Res (TransformContext * bytes * option string * W)) c d w :
  ends_data r c d w -> Stat (t_ctx c) = 0 -> r = Ok ((c, d, None), w).
Proof. intros (e & -> & He) Hs. rewrite (proj2 He); [done|]. by rewrite Hs. Qed.

Lemma extended_out kind t w pkt a bin :
  let c := proj (S := Crypto) w in
  unlocked t -> passes_on t "_out_" -> heap_ok (proj (S := Heap) w) -> abs (proj (S := Heap) w) pkt = Some a ->
  out_ctx a c (out_tctx pkt) = out_tctx pkt ->
  dp_Process (proc_DataProcessor (extended kind t)) (out_tctx pkt) bin w
  = Ok ((out_tctx pkt, out_data a c bin, None), upd (out_crypto a c) w).
Proof.
  intros c Hl Hp Hok Ha Hc. apply ends_data_ok; [|done].
  eapply (extended_runs kind t _ _ _ _ _ _ _ _ _ encryptTransport); [done | done | by left | by apply Hp | done |].
  rewrite (encryptTransport_eq w _ pkt a) by done. fold c. by rewrite Hc.
Qed.

Lemma extended_in kind t w sender raw data :
  unlocked t -> passes_on t "_in_" -> in_data (proj (S := Crypto) w) sender raw = Ok data ->
  dp_Process (proc_DataProcessor (extended kind t)) (in_ctx sender) raw w = Ok ((in_ctx sender, data, None), w).
Proof.
  intros Hl Hp Hd. apply ends_data_ok; [|done].
  eapply (extended_runs kind t _ _ _ _ _ _ _ _ _ decryptTransport); [done | done | by right | by apply Hp | done |].
  rewrite decryptTransport_eq. cbn [t_From in_ctx]. by rewrite Hd.
Qed.
End extension.

(** On the pipelines of src/core this is [Crypto.Extend]. *)
Lemma extension_is_Extend `{AEAD, Curve} {W} `{Has Heap W} `{Has Crypto W} kind (t : Processor W) :
  ext_Extend kind t = Extend kind t.
Proof. done. Qed.

Section channel.
Context `{A : AEAD} `{!AEADLaws A} `{C : Curve}.
Context {W1 : Type} `{H1 : Has Heap W1} `{C1 : Has Crypto W1} `{!Disjoint Heap Crypto W1}.
Context {W2 : Type} `{H2 : Has Heap W2} `{C2 : Has Crypto W2} `{!Disjoint Heap Crypto W2}.
Context {D1 P1 T1 : Type} `{IP1 : !IProcessor W1 D1 P1 T1} `{LP1 : !ProcessorLaws W1 D1 P1 T1}.
Context {D2 P2 T2 : Type} `{IP2 : !IProcessor W2 D2 P2 T2} `{LP2 : !ProcessorLaws W2 D2 P2 T2}.

(** (C27) Transport encryption over any two processors: a sender and a receiver
    with unlocked processors that keep the laws of the interfaces and pass data
    on, both extended, hold the same secret for each other, which is a key of
    AES.  The wire form of a packet for which the sender's extension does not
    fail (its next nonce is one, if the packet is to be sealed) and, if it is to
    leave in clear, is not by accident a text sealed under the secret, is turned
    by the sender's outgoing pipeline into bytes which the receiver's incoming
    pipeline turns into the wire form again. *)
Theorem channel_any_processor (t1 : T1) (t2 : T2) k1 k2 (w1 : W1) (w2 : W2) pkt a src key :
  dp_locked (proc_DataProcessor t1) = false -> dp_locked (proc_DataProcessor t2) = false ->
  passes_on t1 "_out_" -> passes_on t2 "_in_" ->
  heap_ok (proj (S := Heap) w1) -> abs (proj (S := Heap) w1) pkt = Some a ->
  linked key (proj (S := Crypto) w1) (proj (S := Crypto) w2) (a_dest a) src ->
  let wire := render_pkt (Some (a_meta a)) (a_data a) in
  deliverable key a (proj (S := Crypto) w1) wire ->
  exists sent,
    dp_Process (proc_DataProcessor (extended k1 t1)) (out_tctx pkt) wire w1
      = Ok ((out_tctx pkt, sent, None), upd (out_crypto a (proj (S := Crypto) w1)) w1) /\
    dp_Process (proc_DataProcessor (extended k2 t2)) (in_ctx src) sent w2 = Ok ((in_ctx src, wire, None), w2).
Proof.
  intros L1 L2 Hp1 Hp2 Hok Ha Hl wire Hd. eexists. split.
  - apply (extended_out k1 t1 w1 pkt a wire); [done.. | by eapply deliverable_ctx].
  - apply extended_in; [done | done | eapply channel; [exact Hl | exact Hd | apply render_pkt_long]].
Qed.
End channel.
