(* ===== verification/Throttle.v ===== *)
(** * Throttle: the UDP throttle (src/core/throttle)

    The throughput parameter at its Go widths, the pause computed through
    [fmt.Sprintf] and [time.ParseDuration], and the two routines with their
    buffered channels and the time at which each may start its next operation.

    An event is an operation of a routine or of a caller.  An operation of a
    routine is recorded when it completes: it started at a given time, not
    before the routine was ready, and took a given number of nanoseconds; then
    the routine pauses. *)

From Stdlib Require Import ZArith Lia Ascii String.
From stdpp Require Import base list strings gmap fin_maps.
From S2P Require Import Prelude Decimal.
Open Scope Z_scope.

(** ** Machine integers *)

Definition u64 (z : Z) : Z := z mod 2 ^ 64.
Definition i64 (z : Z) : Z := (z + 2 ^ 63) mod 2 ^ 64 - 2 ^ 63.

Lemma i64_id z : - 2 ^ 63 <= z < 2 ^ 63 -> i64 z = z.
Proof. unfold i64. lia. Qed.

Lemma u64_id z : 0 <= z < 2 ^ 64 -> u64 z = z.
Proof. unfold u64. lia. Qed.

(** Signed division: truncated, and a panic on zero. *)
Definition div_i64 {S} (a b : Z) : M S Z :=
  if b =? 0 then throw DivByZero else ret (i64 (Z.quot a b)).

(** ** Rates *)

Definition sec : Z := 1000000000.

Definition Rate1h : Z := 100.
Definition Rate1k : Z := 1000.
Definition Rate10k : Z := 10000.
Definition Rate100K : Z := 100000.

(** ** time.ParseDuration, on texts without a decimal point *)

(** [leadingInt]: the digits consumed so far in [x]; [None] is an overflow. *)
Fixpoint leadingInt (x : Z) (s : bytes) : option (Z * bytes) :=
  match s with
  | c :: r =>
      if is_digit c then
        if (2 ^ 63 - 1) / 10 <? x then None
        else
          let x' := i64 (x * 10 + (zb c - 48)) in
          if x' <? 0 then None else leadingInt x' r
      else Some (x, s)
  | [] => Some (x, [])
  end.

Fixpoint unit_text (s : bytes) : bytes * bytes :=
  match s with
  | c :: r =>
      if is_digit c || Ascii.eqb c "." then ([], s)
      else let '(u, r') := unit_text r in (c :: u, r')
  | [] => ([], [])
  end.

Definition unitMap (u : bytes) : option Z :=
  match s_of_b u with
  | "ns"%string => Some 1
  | "us"%string => Some 1000
  | String "194" (String "181" "s") => Some 1000      (* micro sign *)
  | String "206" (String "188" "s") => Some 1000      (* Greek mu *)
  | "ms"%string => Some 1000000
  | "s"%string => Some 1000000000
  | "m"%string => Some 60000000000
  | "h"%string => Some 3600000000000
  | _ => None
  end.

(** The loop over the number-unit pairs; every round consumes a character. *)
Fixpoint duration_loop (fuel : nat) (d : Z) (s : bytes) : option Z :=
  match fuel with
  | O => None
  | S f =>
      match s with
      | [] => Some d
      | c :: _ =>
          if is_digit c then
            match leadingInt 0 s with
            | None => None
            | Some (v, s1) =>
                let '(u, s2) := unit_text s1 in
                match unitMap u with
                | None => None
                | Some unit =>
                    if (2 ^ 63 - 1) / unit <? v then None
                    else
                      let d' := i64 (d + v * unit) in
                      if d' <? 0 then None else duration_loop f d' s2
                end
            end
          else None
      end
  end.

Definition ParseDuration (s : bytes) : option Z :=
  let '(neg, s) :=
    match s with
    | c :: r => if Ascii.eqb c "-" then (true, r)
                else if Ascii.eqb c "+" then (false, r) else (false, s)
    | [] => (false, s)
    end in
  if decide (s = ["0"%char]) then Some 0
  else match s with
       | [] => None
       | _ => match duration_loop (S (length s)) 0 s with
              | Some d => Some (if neg then i64 (- d) else d)
              | None => None
              end
       end.

(** ** The throttle *)

(** Results of the connection: [Some err] is an error. *)
Record readPkt := mk_readPkt { r_data : bytes; r_sender : string; r_err : option string }.

Record writeStatus := mk_writeStatus { written : Z; w_err : option string }.

(** The response channel of a write is its number. *)
Record writePkt := mk_writePkt { p_data : bytes; p_to : string; p_respCh : nat }.

Record UDPThrottle := mk_UDPThrottle {
  rate : Z;
  tpo : Z;
  rbuffSize : nat;
  recv : list readPkt;         (* buffered, capacity 100 *)
  sendq : list writePkt;       (* the field send; buffered, capacity 100 *)
  done_ch : option (list bool);  (* the field done: nil, or the values in it *)
  activeRoutines : nat;
}.

Definition chan_cap : nat := 100.

Definition set_rate r t th :=
  mk_UDPThrottle r t (rbuffSize th) (recv th) (sendq th) (done_ch th) (activeRoutines th).
Definition set_recv q th :=
  mk_UDPThrottle (rate th) (tpo th) (rbuffSize th) q (sendq th) (done_ch th) (activeRoutines th).
Definition set_sendq q th :=
  mk_UDPThrottle (rate th) (tpo th) (rbuffSize th) (recv th) q (done_ch th) (activeRoutines th).

(** The channel [done] is not among the fields the constructor sets. *)
Definition NewUDPThrottle (initialRate : Z) (readBuffSize : nat) : Res UDPThrottle :=
  match div_i64 sec (i64 initialRate) tt with
  | Ok (t, _) => Ok (mk_UDPThrottle initialRate t readBuffSize [] [] None 2)
  | Panic p => Panic p
  end.

Definition Throughput : M UDPThrottle Z := gets rate.

Definition SetThroughput (r : Z) : M UDPThrottle unit :=
  let* t := div_i64 sec (i64 r) in
  modify (set_rate r t).

Definition ScaleThroughput (f : Z) : M UDPThrottle unit :=
  let* r := gets (fun th => u64 (i64 (i64 (rate th) * f))) in
  let* t := div_i64 sec (i64 r) in
  modify (set_rate r t).

(** One send on [done]; a send on a nil channel (or without a receiver) blocks:
    [None] is blocking for ever. *)
Definition done_send (th : UDPThrottle) : option UDPThrottle :=
  match done_ch th with
  | None => None
  | Some q => Some (mk_UDPThrottle (rate th) (tpo th) (rbuffSize th) (recv th) (sendq th)
                      (Some (q ++ [true])) (activeRoutines th))
  end.

Fixpoint send_times (n : nat) (th : UDPThrottle) : option UDPThrottle :=
  match n with
  | O => Some th
  | S n => match done_send th with Some th' => send_times n th' | None => None end
  end.

Definition Shutdown (th : UDPThrottle) : option UDPThrottle := send_times (activeRoutines th) th.

(** The pause after an operation that took [dur] nanoseconds ([0]: none); an
    error of [ParseDuration] gives the duration zero. *)
Definition throttleOperation (th : UDPThrottle) (dur : Z) : Z :=
  let remainingTime := i64 (tpo th - dur) in
  if 0 <? remainingTime then
    Z.max 0 (default 0 (ParseDuration (dec remainingTime ++ b_of_s "ns")))
  else 0.

(** ** The routines *)

(** What the connection does: it gives a datagram or a read error, and answers
    a write with a status. *)
Inductive arrival :=
  | Datagram (data : bytes) (sender : string)
  | ReadError (e : string).

Record System := mk_System {
  th : UDPThrottle;
  rbuff : bytes;                 (* the buffer of the read routine *)
  rd_ready : Z;                  (* when the read routine may start again *)
  wr_ready : Z;                  (* when the write routine may start again *)
  rd_log : list (Z * Z);         (* starts of reads and the pause parameter, latest first *)
  wr_log : list (Z * Z);
  nextCh : nat;
  statuses : gmap nat writeStatus;   (* answered writes, by channel *)
  sys_out : list (bytes * string);   (* written to the connection *)
}.

(** [ReadFromUDP(rbuff)]: the buffer and the number of bytes copied. *)
Definition ReadFromUDP (a : arrival) (buf : bytes) : bytes * nat * string * option string :=
  match a with
  | Datagram d s =>
      let n := Nat.min (length d) (length buf) in
      (take n d ++ drop n buf, n, s, None)
  | ReadError e => (buf, 0%nat, ""%string, Some e)
  end.

Inductive event :=
  | EvRead (start dur : Z) (a : arrival)      (* the read routine *)
  | EvReadFrom                                (* a caller of ReadFrom *)
  | EvWriteTo (data : bytes) (addr : string)  (* a caller of WriteTo *)
  | EvWrite (start dur : Z) (st : writeStatus)  (* the write routine *)
  | EvSet (r : Z)                             (* a caller of SetThroughput *)
  | EvScale (f : Z).

(** One round of the read routine. *)
Definition read_round (start dur : Z) (a : arrival) (s : System) : System :=
  let '(buf, n, sender, err) := ReadFromUDP a (rbuff s) in
  let data := take n buf in        (* a copy of the first n bytes *)
  let t := th s in
  mk_System (set_recv (recv t ++ [mk_readPkt data sender err]) t) buf
    (start + dur + throttleOperation t dur) (wr_ready s)
    ((start, tpo t) :: rd_log s) (wr_log s) (nextCh s) (statuses s) (sys_out s).

(** One round of the write routine, for the first packet of [send]. *)
Definition write_round (start dur : Z) (st : writeStatus) (p : writePkt) (q : list writePkt)
    (s : System) : System :=
  let t := th s in
  mk_System (set_sendq q t) (rbuff s) (rd_ready s)
    (start + dur + throttleOperation t dur)
    (rd_log s) ((start, tpo t) :: wr_log s) (nextCh s)
    (<[p_respCh p := st]> (statuses s)) (sys_out s ++ [(p_data p, p_to p)]).

Definition with_th (t : UDPThrottle) (s : System) : System :=
  mk_System t (rbuff s) (rd_ready s) (wr_ready s) (rd_log s) (wr_log s) (nextCh s)
    (statuses s) (sys_out s).

(** A caller of [ReadFrom] receives the first packet of [recv]; [None]: it
    waits. *)
Definition ReadFrom (s : System) : option (readPkt * System) :=
  match recv (th s) with
  | [] => None
  | p :: q => Some (p, with_th (set_recv q (th s)) s)
  end.

(** A caller of [WriteTo] queues the data with a new channel, on which it waits
    for the status ([WriteTo_status]); [None]: the queue is full. *)
Definition WriteTo (data : bytes) (addr : string) (s : System) : option (nat * System) :=
  if (length (sendq (th s)) <? chan_cap)%nat then
    Some (nextCh s,
      mk_System (set_sendq (sendq (th s) ++ [mk_writePkt data addr (nextCh s)]) (th s))
        (rbuff s) (rd_ready s) (wr_ready s) (rd_log s) (wr_log s) (S (nextCh s))
        (statuses s) (sys_out s))
  else None.

Definition WriteTo_status (ch : nat) (s : System) : option writeStatus := statuses s !! ch.

(** [None]: the event is not possible (a channel is full or empty, the routine
    is not ready, or the call panics). *)
Definition step (e : event) (s : System) : option System :=
  match e with
  | EvRead start dur a =>
      if (length (recv (th s)) <? chan_cap)%nat && (rd_ready s <=? start) && (0 <=? dur)
           && (dur <? 2 ^ 63)
      then Some (read_round start dur a s) else None
  | EvReadFrom => match ReadFrom s with Some (_, s') => Some s' | None => None end
  | EvWriteTo data addr =>
      match WriteTo data addr s with Some (_, s') => Some s' | None => None end
  | EvWrite start dur st =>
      match sendq (th s) with
      | p :: q =>
          if (wr_ready s <=? start) && (0 <=? dur) && (dur <? 2 ^ 63)
          then Some (write_round start dur st p q s) else None
      | [] => None
      end
  | EvSet r =>
      match SetThroughput r (th s) with Ok (_, t) => Some (with_th t s) | Panic _ => None end
  | EvScale f =>
      match ScaleThroughput f (th s) with Ok (_, t) => Some (with_th t s) | Panic _ => None end
  end.

Fixpoint run (es : list event) (s : System) : option System :=
  match es with
  | [] => Some s
  | e :: es => match step e s with Some s' => run es s' | None => None end
  end.

(** The system right after the constructor, at time [now]. *)
Definition sys_init (t : UDPThrottle) (now : Z) : System :=
  mk_System t (replicate (rbuffSize t) "000"%char) now now [] [] 0 ∅ [].
