(* ===== verification/ThrottleProps.v ===== *)
(** * ThrottleProps: what the throttle guarantees

    The pause is exact, the configuration keeps its relation, no window of time
    holds more operations than the rate allows, data and statuses arrive in
    order, and [Shutdown] does not return. *)

From Stdlib Require Import ZArith Lia Ascii String.
From stdpp Require Import base list strings gmap fin_maps.
From S2P Require Import Prelude Decimal Throttle.
Open Scope Z_scope.

(** ** The pause *)

Lemma digit_range c : is_digit c = true -> 0 <= zb c - 48 <= 9.
Proof. unfold is_digit. intros [H1 H2]%andb_prop. apply Z.leb_le in H1, H2. lia. Qed.

(** [leadingInt] reads a run of digits whose value fits. *)
Lemma leadingInt_digits x l c r :
  forallb is_digit l = true -> is_digit c = false ->
  0 <= x -> dec_value x l < 2 ^ 63 ->
  leadingInt x (l ++ c :: r) = Some (dec_value x l, c :: r).
Proof.
  intros Hl Hc. revert x. induction l as [|d l IH]; intros x Hx Hv.
  { simpl. by rewrite Hc. }
  simpl in Hl. apply andb_prop in Hl as [Hd Hl]. pose proof (digit_range _ Hd).
  change (dec_value x (d :: l)) with (dec_value (x * 10 + (zb d - 48)) l) in *.
  pose proof (dec_value_mono (x * 10 + (zb d - 48)) l ltac:(lia) Hl).
  cbn [app leadingInt]. rewrite Hd, (proj2 (Z.ltb_ge _ _)) by lia.
  rewrite i64_id by lia. rewrite (proj2 (Z.ltb_ge _ _)) by lia. apply IH; [done | lia | done].
Qed.

(** The round trip of a number of nanoseconds through its text. *)
Lemma ParseDuration_ns z :
  0 < z < 2 ^ 63 -> ParseDuration (dec z ++ b_of_s "ns") = Some z.
Proof.
  intros Hz. unfold dec. rewrite (proj2 (Z.ltb_ge _ _)) by lia.
  destruct (dec_nat_head z ltac:(lia)) as (c & l & E & Hc).
  pose proof (dec_nat_digits z ltac:(lia)) as Hd. pose proof (dec_nat_value z ltac:(lia)) as Hv.
  rewrite E in *. assert (Hdc : is_digit c = true) by (simpl in Hd; by apply andb_prop in Hd as [-> _]).
  unfold ParseDuration. cbn [app].
  assert (Ascii.eqb c "-" = false) as ->.
  { apply Ascii.eqb_neq. intros ->. vm_compute in Hdc. done. }
  assert (Ascii.eqb c "+" = false) as ->.
  { apply Ascii.eqb_neq. intros ->. vm_compute in Hdc. done. }
  cbn beta iota. rewrite decide_False by (intros [=]; by destruct l).
  cbn [length]. cbn [duration_loop]. rewrite Hdc.
  change (c :: l ++ b_of_s "ns") with ((c :: l) ++ "n"%char :: ["s"%char]).
  rewrite leadingInt_digits; [| done | done | lia | lia].
  rewrite Hv. change (unit_text ["n"%char; "s"%char]) with (b_of_s "ns", @nil ascii). cbn beta iota.
  change (unitMap (b_of_s "ns")) with (Some 1). cbn beta iota.
  rewrite Z.div_1_r, (proj2 (Z.ltb_ge _ _)) by lia.
  rewrite Z.mul_1_r, Z.add_0_l, i64_id, (proj2 (Z.ltb_ge _ _)) by lia. done.
Qed.

(** The configuration: the pause parameter belongs to the rate. *)
Record th_ok (t : UDPThrottle) : Prop := {
  ok_rate : 0 <= rate t < 2 ^ 64;
  ok_rate_nz : i64 (rate t) <> 0;
  ok_tpo : tpo t = Z.quot sec (i64 (rate t));
  ok_done : done_ch t = None;
  ok_active : activeRoutines t = 2%nat;
}.

Lemma quot_sec_range r : r <> 0 -> - sec <= Z.quot sec r <= sec.
Proof.
  intros H. pose proof (Z.quot_abs sec r H) as Ha. change (Z.abs sec) with sec in Ha.
  assert (H0 : 0 <= Z.quot sec (Z.abs r)) by (apply Z.quot_pos; [done | lia]).
  assert (H1 : Z.quot sec (Z.abs r) <= sec) by (apply Z.quot_le_upper_bound; unfold sec; lia).
  rewrite Ha in *. clear Ha. generalize dependent (Z.quot sec r). lia.
Qed.

Lemma tpo_range t : th_ok t -> - sec <= tpo t <= sec.
Proof. intros [_ H Ht _ _]. rewrite Ht. by apply quot_sec_range. Qed.

(** The remaining time does not wrap for operations of less than 292 years. *)
Definition max_dur : Z := 2 ^ 63 - sec.

Lemma pause_max t dur :
  th_ok t -> 0 <= dur < max_dur -> throttleOperation t dur = Z.max 0 (tpo t - dur).
Proof.
  intros Ht Hd. pose proof (tpo_range t Ht) as Hr. unfold max_dur, sec in *. unfold throttleOperation.
  rewrite i64_id by lia. destruct (Z.ltb_spec 0 (tpo t - dur)) as [H|H]; [|lia].
  rewrite ParseDuration_ns by lia. simpl. lia.
Qed.

(** ** Changes of the rate *)

Lemma div_sec {S} r (s : S) :
  div_i64 sec r s = if r =? 0 then Panic DivByZero else Ok (Z.quot sec r, s).
Proof.
  unfold div_i64. destruct (Z.eqb_spec r 0); [done|].
  unfold ret. rewrite i64_id; [done|]. pose proof (quot_sec_range r n). unfold sec in *. lia.
Qed.

Definition with_rate (r : Z) (t : UDPThrottle) : Res (unit * UDPThrottle) :=
  if i64 r =? 0 then Panic DivByZero else Ok (tt, set_rate r (Z.quot sec (i64 r)) t).

Lemma SetThroughput_eq r t : SetThroughput r t = with_rate r t.
Proof. unfold SetThroughput, bind, with_rate. rewrite div_sec. by destruct (_ =? 0). Qed.

Lemma ScaleThroughput_eq f t :
  ScaleThroughput f t = with_rate (u64 (i64 (i64 (rate t) * f))) t.
Proof. unfold ScaleThroughput, bind, with_rate, gets. rewrite div_sec. by destruct (_ =? 0). Qed.

Lemma with_rate_ok r t t' :
  0 <= r < 2 ^ 64 -> th_ok t -> with_rate r t = Ok (tt, t') -> th_ok t'.
Proof.
  intros Hr [H1 H2 H3 H4 H5]. unfold with_rate. destruct (Z.eqb_spec (i64 r) 0); intros [= <-].
  by split.
Qed.

Lemma NewUDPThrottle_ok r n t :
  0 <= r < 2 ^ 64 -> NewUDPThrottle r n = Ok t -> th_ok t.
Proof.
  intros Hr. unfold NewUDPThrottle. rewrite div_sec.
  destruct (Z.eqb_spec (i64 r) 0); intros [= <-]. by split.
Qed.

Lemma u64_range z : 0 <= u64 z < 2 ^ 64.
Proof. unfold u64. lia. Qed.

(** ** Invariant of a run *)

(** Each operation starts no earlier than the previous start plus the pause
    parameter; [ready] is not before the last one either. *)
Fixpoint spaced (ready : Z) (log : list (Z * Z)) : Prop :=
  match log with
  | [] => True
  | (s, t) :: r => s + t <= ready /\ spaced s r
  end.

Record sys_ok (s : System) : Prop := {
  so_th : th_ok (th s);
  so_rd : spaced (rd_ready s) (rd_log s);
  so_wr : spaced (wr_ready s) (wr_log s);
  so_buf : length (rbuff s) = rbuffSize (th s);
  so_recv : (length (recv (th s)) <= chan_cap)%nat;
  so_send : (length (sendq (th s)) <= chan_cap)%nat;
}.

Definition ev_ok (e : event) : Prop :=
  match e with
  | EvSet r => 0 <= r < 2 ^ 64
  | EvRead _ dur _ | EvWrite _ dur _ => dur < max_dur
  | _ => True
  end.

Lemma spaced_mono a b log : a <= b -> spaced a log -> spaced b log.
Proof. destruct log as [|[s t] r]; simpl; [done|]. intros H [H1 H2]. split; [lia | done]. Qed.

Lemma with_rate_fields r t t' :
  with_rate r t = Ok (tt, t') ->
  recv t' = recv t /\ sendq t' = sendq t /\ rbuffSize t' = rbuffSize t.
Proof. unfold with_rate. destruct (_ =? 0); by intros [= <-]. Qed.

Lemma sys_ok_rate r t s :
  0 <= r < 2 ^ 64 -> sys_ok s -> with_rate r (th s) = Ok (tt, t) -> sys_ok (with_th t s).
Proof.
  intros Hr [H1 H2 H3 H4 H5 H6] Hw. destruct (with_rate_fields _ _ _ Hw) as (E1 & E2 & E3).
  split; simpl; try done; [by eapply with_rate_ok | by rewrite E3 | by rewrite E1 | by rewrite E2].
Qed.

Lemma length_ReadFromUDP a buf : length (ReadFromUDP a buf).1.1.1 = length buf.
Proof. destruct a; simpl; [|done]. rewrite length_app, length_take, length_drop. lia. Qed.

Lemma read_round_ok start dur a s :
  sys_ok s -> (length (recv (th s)) < chan_cap)%nat -> rd_ready s <= start -> 0 <= dur < max_dur ->
  sys_ok (read_round start dur a s).
Proof.
  intros [H1 H2 H3 H4 H5 H6] Hq Hs Hd. unfold read_round.
  pose proof (length_ReadFromUDP a (rbuff s)) as HL.
  destruct (ReadFromUDP a (rbuff s)) as [[[buf n] sender] err]. simpl in HL.
  split; simpl; try done.
  - by destruct H1.
  - rewrite pause_max by done. split; [lia|]. by eapply spaced_mono.
  - by rewrite HL.
  - rewrite length_app. simpl. lia.
Qed.

Lemma write_round_ok start dur st p q s :
  sys_ok s -> sendq (th s) = p :: q -> wr_ready s <= start -> 0 <= dur < max_dur ->
  sys_ok (write_round start dur st p q s).
Proof.
  intros [H1 H2 H3 H4 H5 H6] Hq Hs Hd. rewrite Hq in H6. unfold write_round.
  split; simpl in *; try done.
  - by destruct H1.
  - rewrite pause_max by done. split; [lia|]. by eapply spaced_mono.
  - lia.
Qed.

Lemma step_ok e s s' : ev_ok e -> sys_ok s -> step e s = Some s' -> sys_ok s'.
Proof.
  intros He Hs. destruct e as [start dur a | | data addr | start dur st | r | f]; cbn [step].
  - destruct (Nat.ltb_spec (length (recv (th s))) chan_cap); [|done].
    destruct (Z.leb_spec (rd_ready s) start); [|done]. destruct (Z.leb_spec 0 dur); [|done].
    destruct (Z.ltb_spec dur (2 ^ 63)); [|done]. intros [= <-]. by apply read_round_ok.
  - unfold ReadFrom. destruct (recv (th s)) as [|p q] eqn:Eq; [done|]. intros [= <-].
    destruct Hs as [H1 H2 H3 H4 H5 H6]. rewrite Eq in H5. split; simpl in *; try done;
      [by destruct H1 | lia].
  - unfold WriteTo. destruct (Nat.ltb_spec (length (sendq (th s))) chan_cap); [|done].
    intros [= <-]. destruct Hs as [H1 H2 H3 H4 H5 H6]. split; simpl in *; try done;
      [by destruct H1 | rewrite length_app; simpl; lia].
  - destruct (sendq (th s)) as [|p q] eqn:Eq; [done|].
    destruct (Z.leb_spec (wr_ready s) start); [|done]. destruct (Z.leb_spec 0 dur); [|done].
    destruct (Z.ltb_spec dur (2 ^ 63)); [|done]. intros [= <-]. by apply write_round_ok.
  - rewrite SetThroughput_eq. destruct (with_rate r (th s)) as [[[] t]|] eqn:E; [|done].
    intros [= <-]. by eapply sys_ok_rate.
  - rewrite ScaleThroughput_eq. destruct (with_rate _ (th s)) as [[[] t]|] eqn:E; [|done].
    intros [= <-]. eapply sys_ok_rate; [apply u64_range | done | done].
Qed.

Lemma run_inv (P : System -> Prop) es s s' :
  Forall ev_ok es -> (forall e s s', ev_ok e -> P s -> step e s = Some s' -> P s') ->
  P s -> run es s = Some s' -> P s'.
Proof.
  intros He Hstep. revert s. induction He as [|e es He _ IH]; intros s Hs; simpl.
  { by intros [= <-]. }
  destruct (step e s) as [s1|] eqn:E; [|done]. apply IH. by eapply Hstep.
Qed.

Lemma sys_init_ok t now :
  th_ok t -> recv t = [] -> sendq t = [] -> sys_ok (sys_init t now).
Proof.
  intros Ht Hr Hs. split; simpl; try done; rewrite ?Hr, ?Hs; simpl; try lia.
  apply length_replicate.
Qed.

(** ** Spacing of operations *)

Lemma spaced_count ready log a m :
  0 < m -> Forall (fun x => m <= x.2) log -> spaced ready log ->
  Z.of_nat (length (filter (fun x => a <= x.1) log)) * m <= Z.max 0 (ready - a).
Proof.
  intros Hm Hl. revert ready. induction Hl as [|[s t] r Ht _ IH]; intros ready Hs.
  { simpl. lia. }
  simpl in Hs, Ht. destruct Hs as [H1 H2]. specialize (IH s H2).
  rewrite filter_cons. destruct (decide _) as [Ha|Ha]; simpl in Ha; [cbn [length]|]; lia.
Qed.

(** At most [T / m + 1] operations start in a window of length [T] if each
    one's pause parameter is at least [m]. *)
Lemma spaced_window ready log a T m :
  0 < m -> 0 <= T -> Forall (fun x => m <= x.2) log -> spaced ready log ->
  Z.of_nat (length (filter (fun x => a <= x.1 <= a + T) log)) <= T / m + 1.
Proof.
  intros Hm HT Hl. revert ready. induction Hl as [|[s t] r Ht Hr IH]; intros ready Hs.
  { simpl. pose proof (Z.div_pos T m HT Hm). lia. }
  simpl in Hs, Ht. destruct Hs as [H1 H2]. rewrite filter_cons.
  destruct (decide _) as [Ha|Ha]; [simpl in Ha; cbn [length] | by eapply IH].
  pose proof (spaced_count s r a m Hm Hr H2) as Hc.
  assert (Nat.le (length (filter (fun x : Z * Z => a <= x.1 <= a + T) r))
                 (length (filter (fun x : Z * Z => a <= x.1) r))).
  { apply submseteq_length, sublist_submseteq. clear. induction r as [|x r IH]; [done|].
    rewrite !filter_cons. destruct (decide (a <= x.1 <= a + T)), (decide (a <= x.1));
      try (by constructor); try (by destruct_and!); done. }
  assert (Z.of_nat (length (filter (fun x : Z * Z => a <= x.1) r)) <= T / m)
    by (apply Z.div_le_lower_bound; lia). lia.
Qed.

Definition no_rate_change (e : event) : Prop :=
  match e with EvSet _ | EvScale _ => False | _ => True end.

Definition constant (m : Z) (s : System) : Prop :=
  tpo (th s) = m /\ Forall (fun x => m <= x.2) (rd_log s) /\ Forall (fun x => m <= x.2) (wr_log s).

Lemma step_constant m e s s' :
  no_rate_change e -> constant m s -> step e s = Some s' -> constant m s'.
Proof.
  intros He (Ht & Hr & Hw). destruct e as [start dur a | | data addr | start dur st | r | f];
    cbn [step]; try done.
  - destruct (_ && _); [|done]. intros [= <-]. unfold read_round.
    destruct (ReadFromUDP a (rbuff s)) as [[[buf n] sender] err].
    split; [done|]. split; [|done]. constructor; simpl; [lia | done].
  - unfold ReadFrom. destruct (recv (th s)); [done|]. by intros [= <-].
  - unfold WriteTo. destruct (_ <? _)%nat; [|done]. by intros [= <-].
  - destruct (sendq (th s)) as [|p q]; [done|]. destruct (_ && _); [|done]. intros [= <-].
    split; [done|]. split; [done|]. constructor; simpl; [lia | done].
Qed.

Lemma run_constant m es s s' :
  Forall no_rate_change es -> constant m s -> run es s = Some s' -> constant m s'.
Proof.
  intros He. revert s. induction He as [|e es He _ IH]; intros s Hs; simpl.
  { by intros [= <-]. }
  destruct (step e s) as [s1|] eqn:E; [|done]. apply IH. by eapply step_constant.
Qed.

Lemma NewUDPThrottle_small r n :
  0 < r <= sec ->
  NewUDPThrottle r n = Ok (mk_UDPThrottle r (sec / r) n [] [] None 2) /\ 0 < sec / r.
Proof.
  intros Hr. unfold NewUDPThrottle. rewrite div_sec. unfold sec in *. rewrite i64_id by lia.
  destruct (Z.eqb_spec r 0); [lia|]. rewrite Z.quot_div_nonneg by lia.
  split; [done|]. apply Z.div_str_pos. lia.
Qed.

(** ** Order of data and statuses *)

(** What the read routine makes of an arrival. *)
Definition received (n : nat) (a : arrival) : readPkt :=
  match a with
  | Datagram d s => mk_readPkt (take n d) s None
  | ReadError e => mk_readPkt [] "" (Some e)
  end.

Definition arrivals (es : list event) : list arrival :=
  es ≫= (fun e => match e with EvRead _ _ a => [a] | _ => [] end).
Definition requests (es : list event) : list (bytes * string) :=
  es ≫= (fun e => match e with EvWriteTo d a => [(d, a)] | _ => [] end).
Definition answers (es : list event) : list writeStatus :=
  es ≫= (fun e => match e with EvWrite _ _ st => [st] | _ => [] end).

(** The results of the calls of [ReadFrom] during a run. *)
Fixpoint delivered (es : list event) (s : System) : list readPkt :=
  match es with
  | [] => []
  | e :: es =>
      match e, ReadFrom s with EvReadFrom, Some (p, _) => [p] | _, _ => [] end ++
      match step e s with Some s' => delivered es s' | None => [] end
  end.

Lemma read_round_recv start dur a s :
  length (rbuff s) = rbuffSize (th s) ->
  recv (th (read_round start dur a s)) = recv (th s) ++ [received (rbuffSize (th s)) a] /\
  length (rbuff (read_round start dur a s)) = rbuffSize (th s).
Proof.
  intros Hb. unfold read_round. pose proof (length_ReadFromUDP a (rbuff s)) as HL.
  destruct a as [d sender | e]; simpl in *; [|done]. split; [|by rewrite HL].
  do 3 f_equal. rewrite take_app_length' by (rewrite length_take; lia).
  rewrite Hb. destruct (decide (length d <= rbuffSize (th s))%nat).
  - rewrite !take_ge by lia. done.
  - by rewrite Nat.min_r by lia.
Qed.

Lemma step_recv e s s' :
  length (rbuff s) = rbuffSize (th s) -> step e s = Some s' ->
  length (rbuff s') = rbuffSize (th s') /\ rbuffSize (th s') = rbuffSize (th s) /\
  recv (th s) ++ (received (rbuffSize (th s)) <$> arrivals [e])
  = match e, ReadFrom s with EvReadFrom, Some (p, _) => [p] | _, _ => [] end ++ recv (th s').
Proof.
  intros Hb. destruct e as [start dur a | | data addr | start dur st | r | f]; cbn [step].
  - destruct (_ && _); [|done]. intros [= <-].
    destruct (read_round_recv start dur a s Hb) as [E1 E2]. rewrite E1, E2.
    assert (rbuffSize (th (read_round start dur a s)) = rbuffSize (th s)) as ->
      by (unfold read_round; by destruct (ReadFromUDP a (rbuff s)) as [[[? ?] ?] ?]).
    done.
  - unfold ReadFrom. destruct (recv (th s)) eqn:Er; [done|]. intros [= <-].
    simpl. rewrite app_nil_r. done.
  - unfold WriteTo. destruct (_ <? _)%nat; [|done]. intros [= <-]. simpl. by rewrite app_nil_r.
  - destruct (sendq (th s)) as [|p q]; [done|]. destruct (_ && _); [|done]. intros [= <-].
    simpl. by rewrite app_nil_r.
  - rewrite SetThroughput_eq. destruct (with_rate r (th s)) as [[[] t]|] eqn:E; [|done].
    intros [= <-]. destruct (with_rate_fields _ _ _ E) as (E1 & E2 & E3). simpl.
    by rewrite app_nil_r, E1, E3.
  - rewrite ScaleThroughput_eq. destruct (with_rate _ (th s)) as [[[] t]|] eqn:E; [|done].
    intros [= <-]. destruct (with_rate_fields _ _ _ E) as (E1 & E2 & E3). simpl.
    by rewrite app_nil_r, E1, E3.
Qed.

Lemma run_recv es s s' :
  length (rbuff s) = rbuffSize (th s) -> run es s = Some s' ->
  recv (th s) ++ (received (rbuffSize (th s)) <$> arrivals es) = delivered es s ++ recv (th s').
Proof.
  revert s. induction es as [|e es IH]; intros s Hb; simpl.
  { intros [= <-]. by rewrite app_nil_r. }
  destruct (step e s) as [s1|] eqn:E; [|done]. intros Hr.
  destruct (step_recv e s s1 Hb E) as (Hb1 & Hn & Heq). specialize (IH s1 Hb1 Hr).
  rewrite Hn in IH. change (arrivals (e :: es)) with (arrivals [e] ++ arrivals es) || idtac.
  unfold arrivals in *. simpl in Heq |- *. rewrite app_nil_r in Heq.
  rewrite fmap_app, app_assoc, Heq, <- app_assoc, IH, app_assoc. done.
Qed.

(** The state of the writes after requests [rs], of which the first were
    answered with [sts]. *)
Record writes_ok (rs : list (bytes * string)) (sts : list writeStatus) (s : System) : Prop := {
  wo_out : sys_out s ++ ((fun p => (p_data p, p_to p)) <$> sendq (th s)) = rs;
  wo_next : nextCh s = length rs;
  wo_chans : p_respCh <$> sendq (th s) = seq (length sts) (length (sendq (th s)));
  wo_done : length (sys_out s) = length sts;
  wo_stat : forall k, statuses s !! k = sts !! k;
}.

Lemma step_writes e rs sts s s' :
  writes_ok rs sts s -> step e s = Some s' ->
  writes_ok (rs ++ requests [e]) (sts ++ answers [e]) s'.
Proof.
  intros [W1 W2 W3 W4 W5].
  assert (Hkeep : forall t, sendq t = sendq (th s) ->
    writes_ok (rs ++ []) (sts ++ []) (with_th t s)).
  { intros t Ht. rewrite !app_nil_r. by split; simpl; rewrite ?Ht. }
  destruct e as [start dur a | | data addr | start dur st | r | f]; cbn [step].
  - destruct (_ && _); [|done]. intros [= <-]. unfold read_round, requests, answers. simpl.
    destruct (ReadFromUDP a (rbuff s)) as [[[buf n] sender] err]. rewrite !app_nil_r. by split.
  - unfold ReadFrom. destruct (recv (th s)); [done|]. intros [= <-]. by apply Hkeep.
  - unfold WriteTo. destruct (_ <? _)%nat; [|done]. intros [= <-].
    unfold requests, answers. simpl. rewrite app_nil_r. split; simpl; try done.
    + by rewrite fmap_app, app_assoc, W1.
    + rewrite length_app. simpl. lia.
    + rewrite fmap_app, W3, length_app. simpl. rewrite seq_app. simpl. do 2 f_equal.
      rewrite W2, <- W1, length_app, length_fmap. lia.
  - destruct (sendq (th s)) as [|p q] eqn:Eq; [done|]. destruct (_ && _); [|done]. intros [= <-].
    unfold requests, answers. simpl in *. rewrite app_nil_r. injection W3 as W3a W3b.
    split; simpl.
    + by rewrite <- app_assoc.
    + done.
    + rewrite length_app. simpl. by rewrite Nat.add_1_r.
    + rewrite !length_app. simpl. lia.
    + intros k. rewrite W3a. destruct (decide (k = length sts)) as [->|Hne].
      * rewrite lookup_insert_eq, lookup_app_r, Nat.sub_diag by lia. done.
      * rewrite lookup_insert_ne by done. rewrite W5.
        destruct (decide (k < length sts)%nat); [by rewrite lookup_app_l|].
        rewrite !lookup_ge_None_2; [done | rewrite length_app; simpl; lia | lia].
  - rewrite SetThroughput_eq. destruct (with_rate r (th s)) as [[[] t]|] eqn:E; [|done].
    intros [= <-]. apply Hkeep. by destruct (with_rate_fields _ _ _ E) as (E1 & E2 & E3).
  - rewrite ScaleThroughput_eq. destruct (with_rate _ (th s)) as [[[] t]|] eqn:E; [|done].
    intros [= <-]. apply Hkeep. by destruct (with_rate_fields _ _ _ E) as (E1 & E2 & E3).
Qed.

Lemma run_writes es rs sts s s' :
  writes_ok rs sts s -> run es s = Some s' ->
  writes_ok (rs ++ requests es) (sts ++ answers es) s'.
Proof.
  revert rs sts s. induction es as [|e es IH]; intros rs sts s Hs; simpl.
  { intros [= <-]. by rewrite !app_nil_r. }
  destruct (step e s) as [s1|] eqn:E; [|done]. intros Hr.
  specialize (IH _ _ _ (step_writes _ _ _ _ _ Hs E) Hr).
  unfold requests, answers in *. simpl in *. by rewrite !app_nil_r, <- !app_assoc in IH.
Qed.

Lemma run_ok r n t es s now :
  0 <= r < 2 ^ 64 -> NewUDPThrottle r n = Ok t -> Forall ev_ok es ->
  run es (sys_init t now) = Some s -> sys_ok s.
Proof.
  intros Hr Ht He. apply (run_inv sys_ok); [done | apply step_ok |].
  pose proof (NewUDPThrottle_ok r n t Hr Ht) as Hok. unfold NewUDPThrottle in Ht.
  destruct (div_i64 _ _ _) as [[x []]|]; [|done]. injection Ht as <-. by apply sys_init_ok.
Qed.

Lemma Shutdown_none r n t es s now :
  0 <= r < 2 ^ 64 -> NewUDPThrottle r n = Ok t -> Forall ev_ok es ->
  run es (sys_init t now) = Some s -> Shutdown (th s) = None.
Proof.
  intros Hr Ht He Hrun. destruct (run_ok r n t es s now Hr Ht He Hrun) as [Hok _ _ _ _ _].
  unfold Shutdown. rewrite (ok_active _ Hok). simpl. unfold done_send. by rewrite (ok_done _ Hok).
Qed.

(** The starts of reads, or of writes, in a window. *)
Definition starts_in (a T : Z) (log : list (Z * Z)) : Z :=
  Z.of_nat (length (filter (fun x => a <= x.1 <= a + T) log)).

Lemma rate_window r n t es s now a T :
  0 < r <= sec -> NewUDPThrottle r n = Ok t -> Forall ev_ok es -> Forall no_rate_change es ->
  run es (sys_init t now) = Some s -> 0 <= T ->
  starts_in a T (rd_log s) <= T / (sec / r) + 1 /\ starts_in a T (wr_log s) <= T / (sec / r) + 1.
Proof.
  intros Hr Ht He Hc Hrun HT. destruct (NewUDPThrottle_small r n Hr) as [E Hpos].
  assert (0 <= r < 2 ^ 64) as Hr' by (unfold sec in Hr; lia).
  destruct (run_ok r n t es s now Hr' Ht He Hrun) as [_ Hrd Hwr _ _ _].
  assert (constant (sec / r) s) as (_ & C1 & C2).
  { eapply run_constant; [exact Hc | | exact Hrun]. rewrite E in Ht. injection Ht as <-. done. }
  split; eapply spaced_window; eauto.
Qed.

(** ** Theorems *)

(** The pause after an operation, computed by printing the remaining time
    and parsing it back, is exactly what is missing to the time per operation
    of the current rate, in every state a throttle gets into. *)
Theorem throttle_pause r n t es s now dur :
  0 <= r < 2 ^ 64 -> NewUDPThrottle r n = Ok t -> Forall ev_ok es ->
  run es (sys_init t now) = Some s -> 0 <= dur < max_dur ->
  throttleOperation (th s) dur = Z.max 0 (Z.quot sec (i64 (rate (th s))) - dur).
Proof.
  intros Hr Ht He Hrun Hd. destruct (run_ok r n t es s now Hr Ht He Hrun) as [Hok _ _ _ _ _].
  rewrite pause_max by done. by rewrite (ok_tpo _ Hok).
Qed.

(** The rate is respected: with a rate [r] between one and a thousand
    million per second, no window of [T] nanoseconds contains the start of more
    than [T / (10^9 / r) + 1] reads, nor of more writes than that. *)
Theorem throughput_bounded r n t es s now a T :
  0 < r <= sec -> NewUDPThrottle r n = Ok t -> Forall ev_ok es -> Forall no_rate_change es ->
  run es (sys_init t now) = Some s -> 0 <= T ->
  starts_in a T (rd_log s) <= T / (sec / r) + 1 /\ starts_in a T (wr_log s) <= T / (sec / r) + 1.
Proof. apply rate_window. Qed.

(** Data and statuses arrive in order: the calls of [ReadFrom] get what
    the connection gave, each datagram cut to the size of the buffer and not
    mixed with the buffer's old contents, first in first out; the data of the
    calls of [WriteTo] is written in the order of the calls, and the [k]-th
    call gets the status of the [k]-th write. *)
Theorem throttle_fifo r n t es s now :
  0 <= r < 2 ^ 64 -> NewUDPThrottle r n = Ok t -> Forall ev_ok es ->
  run es (sys_init t now) = Some s ->
  received n <$> arrivals es = delivered es (sys_init t now) ++ recv (th s) /\
  requests es = sys_out s ++ ((fun p => (p_data p, p_to p)) <$> sendq (th s)) /\
  length (sys_out s) = length (answers es) /\
  forall k, WriteTo_status k s = answers es !! k.
Proof.
  intros Hr Ht He Hrun.
  assert (exists x, t = mk_UDPThrottle r x n [] [] None 2) as [x ->].
  { unfold NewUDPThrottle in Ht. destruct (div_i64 _ _ _) as [[x []]|]; [|done].
    injection Ht as <-. eauto. }
  set (s0 := sys_init _ now) in *.
  assert (W0 : writes_ok [] [] s0) by (by split).
  destruct (run_writes es [] [] s0 s W0 Hrun) as [W1 W2 W3 W4 W5].
  split; [|done]. apply (run_recv es _ s) in Hrun; [done|]. simpl. apply length_replicate.
Qed.

(** Changing the rate: [SetThroughput] and [ScaleThroughput] fail with a
    division by zero exactly when the new rate, read as a signed number, is
    zero; otherwise they store it with its time per operation.  The product in
    [ScaleThroughput] is taken modulo 2^64. *)
Theorem rate_change t r f :
  SetThroughput r t =
    (if i64 r =? 0 then Panic DivByZero else Ok (tt, set_rate r (Z.quot sec (i64 r)) t)) /\
  ScaleThroughput f t =
    let r' := u64 (i64 (i64 (rate t) * f)) in
    if i64 r' =? 0 then Panic DivByZero else Ok (tt, set_rate r' (Z.quot sec (i64 r')) t).
Proof. split; [apply SetThroughput_eq | apply ScaleThroughput_eq]. Qed.

(** Rates above a thousand million per second, signed or not, are not
    throttled at all: the time per operation is rounded down to zero, or is not
    positive, and no operation is followed by a pause. *)
Theorem fast_rate_unthrottled r n t dur :
  sec < r < 2 ^ 64 -> NewUDPThrottle r n = Ok t -> 0 <= dur < max_dur ->
  throttleOperation t dur = 0.
Proof.
  intros Hr Ht Hd. assert (th_ok t) as Hok by (eapply NewUDPThrottle_ok; [|exact Ht]; unfold sec in Hr; lia).
  rewrite pause_max by done. rewrite (ok_tpo _ Hok).
  assert (rate t = r) as ->.
  { unfold NewUDPThrottle in Ht. destruct (div_i64 _ _ _) as [[x []]|]; [|done]. by injection Ht as <-. }
  assert (Z.quot sec (i64 r) <= 0); [|lia].
  destruct (decide (r < 2 ^ 63)).
  - unfold sec in *. rewrite i64_id by lia. by rewrite Z.quot_small by lia.
  - assert (i64 r = r - 2 ^ 64) as -> by (unfold i64, sec in *; lia).
    replace (r - 2 ^ 64) with (- (2 ^ 64 - r)) by lia. rewrite Z.quot_opp_r by lia.
    assert (0 <= Z.quot sec (2 ^ 64 - r)) by (apply Z.quot_pos; unfold sec in *; lia). lia.
Qed.

(** [Shutdown] never returns: it sends twice on a channel that no code
    creates. *)
Theorem Shutdown_blocks r n t es s now :
  0 <= r < 2 ^ 64 -> NewUDPThrottle r n = Ok t -> Forall ev_ok es ->
  run es (sys_init t now) = Some s -> Shutdown (th s) = None.
Proof. apply Shutdown_none. Qed.
