(* ===== verification/ThrottleHist.v ===== *)
(** * ThrottleHist: histories of a throttle and its one writer

    Server and client use their throttle in the same way: goroutines that call
    [ReadFrom], and one routine that calls [WriteTo] and waits for the status
    before it calls again.  What follows from that for the throttle's history,
    for both of them. *)

From Stdlib Require Import ZArith Lia Ascii String.
From stdpp Require Import base list strings gmap fin_maps.
From S2P Require Import Prelude Decimal Throttle ThrottleProps.
Open Scope Z_scope.

(** What the connection may do: deliver a datagram that, cut to the read buffer,
    is in [adm], fail to read, or accept or refuse a write. *)
Definition conn_event (adm : bytes -> Prop) (size : nat) (e : event) : Prop :=
  match e with
  | EvRead _ dur (Datagram d _) => dur < max_dur /\ adm (take size d)
  | EvRead _ dur (ReadError _) => dur < max_dur
  | EvWrite _ dur _ => dur < max_dur
  | _ => False
  end.

(** The calls the users of the throttle make. *)
Definition call_event (e : event) : Prop :=
  match e with EvReadFrom | EvWriteTo _ _ => True | _ => False end.

Lemma run_app es1 es2 s : run (es1 ++ es2) s = match run es1 s with Some s' => run es2 s' | None => None end.
Proof. revert s. induction es1 as [|e es IH]; intros s; simpl; [done|]. by destruct (step e s). Qed.

Lemma run_snoc es e s s1 s2 : run es s = Some s1 -> step e s1 = Some s2 -> run (es ++ [e]) s = Some s2.
Proof. intros H1 H2. rewrite run_app, H1. simpl. by rewrite H2. Qed.

Lemma delivered_snoc es e s s1 :
  run es s = Some s1 ->
  delivered (es ++ [e]) s
  = delivered es s ++ match e, ReadFrom s1 with EvReadFrom, Some (p, _) => [p] | _, _ => [] end.
Proof.
  revert s. induction es as [|x es IH]; intros s; simpl.
  - intros [= ->]. destruct (step e s1); by rewrite app_nil_r.
  - destruct (step x s) as [s'|]; [|done]. intros Hr. by rewrite (IH _ Hr), app_assoc.
Qed.

Lemma requests_snoc es e : requests (es ++ [e]) = requests es ++ requests [e].
Proof. apply bind_app. Qed.
Lemma answers_snoc es e : answers (es ++ [e]) = answers es ++ answers [e].
Proof. apply bind_app. Qed.
Lemma arrivals_snoc es e : arrivals (es ++ [e]) = arrivals es ++ arrivals [e].
Proof. apply bind_app. Qed.

Lemma step_ReadFrom n rp n' : ReadFrom n = Some (rp, n') -> step EvReadFrom n = Some n'.
Proof. simpl. by intros ->. Qed.

Lemma step_WriteTo data addr ch n n' :
  WriteTo data addr n = Some (ch, n') -> step (EvWriteTo data addr) n = Some n'.
Proof. simpl. by intros ->. Qed.

Lemma step_size e n n' :
  length (rbuff n) = rbuffSize (th n) -> step e n = Some n' ->
  rbuffSize (th n') = rbuffSize (th n) /\ length (rbuff n') = rbuffSize (th n).
Proof. intros Hb Hs. destruct (step_recv e n n' Hb Hs) as (H1 & H2 & _). by rewrite H1, H2. Qed.

Section history.
Variables (adm : bytes -> Prop) (r : Z) (size : nat) (t : UDPThrottle) (now : Z).
Hypothesis t_made : NewUDPThrottle r size = Ok t.

Lemma t_new : rbuffSize t = size /\ recv t = [] /\ sendq t = [].
Proof.
  unfold NewUDPThrottle in t_made. destruct (div_i64 _ _ _) as [[x []]|]; [|done]. by injection t_made as <-.
Qed.

Definition arrival_ok (a : arrival) : Prop :=
  match a with Datagram d _ => adm (take size d) | ReadError _ => True end.

(** What fits into the read buffer. *)
Definition fits (data : bytes) : Prop := adm data /\ (length data <= size)%nat.

(** The throttle [n] has the history [h]. *)
Record net_ok (h : list event) (n : System) : Prop := {
  nk_run : run h (sys_init t now) = Some n;
  nk_size : rbuffSize (th n) = size;
  nk_buff : length (rbuff n) = size;
  nk_adm : Forall arrival_ok (arrivals h);
  nk_events : Forall ev_ok h /\ Forall no_rate_change h;
}.

Lemma net_init : net_ok [] (sys_init t now).
Proof. destruct t_new as (E1 & E2 & E3). split; simpl; try done; by rewrite length_replicate. Qed.

Lemma net_snoc h n e n' :
  net_ok h n -> conn_event adm size e \/ call_event e -> step e n = Some n' -> net_ok (h ++ [e]) n'.
Proof.
  intros [O1 O2 O3 O4 [O5 O6]] He Hs. destruct (step_size e n n' ltac:(congruence) Hs) as [S1 S2].
  assert (He' : ev_ok e /\ no_rate_change e /\ Forall arrival_ok (arrivals [e])).
  { destruct He as [He|He], e as [start dur [d a|x]| | | | |]; simpl in He; try done;
      split_and!; try done; try apply He; cbn; repeat constructor; apply He. }
  destruct He' as (E1 & E2 & E3). split; try congruence; [by eapply run_snoc | |].
  - rewrite arrivals_snoc. by apply Forall_app.
  - split; apply Forall_app; by split; [|constructor].
Qed.

Lemma net_writes h n : net_ok h n -> writes_ok (requests h) (answers h) n.
Proof.
  intros O. refine (run_writes h [] [] _ _ _ (nk_run _ _ O)).
  split; simpl; by rewrite ?(proj2 (proj2 t_new)).
Qed.

Lemma net_recv h n :
  net_ok h n -> received size <$> arrivals h = delivered h (sys_init t now) ++ recv (th n).
Proof.
  intros O. destruct t_new as (E1 & E2 & E3).
  pose proof (run_recv h (sys_init t now) n) as H. simpl in H.
  rewrite E1, E2 in H. apply H; [by rewrite length_replicate | apply O].
Qed.

(** What [ReadFrom] gives is admissible and fits. *)
Lemma ReadFrom_fits h n rp n' :
  net_ok h n -> ReadFrom n = Some (rp, n') -> r_err rp = None -> fits (r_data rp).
Proof.
  intros O Hr He. pose proof (net_recv h n O) as Hd. unfold ReadFrom in Hr.
  destruct (recv (th n)) as [|x q]; [done|]. injection Hr as -> <-.
  assert (Hin : rp ∈ received size <$> arrivals h) by (rewrite Hd; apply elem_of_app; right; left).
  apply list_elem_of_fmap in Hin as (a & -> & Ha).
  pose proof (proj1 (Forall_forall _ _) (nk_adm _ _ O) a Ha) as Hok. destruct a; [|done].
  split; [done|]. simpl. rewrite length_take. lia.
Qed.

(** The rate holds whatever the history. *)
Lemma net_rate h n a T :
  net_ok h n -> 0 < r <= sec -> 0 <= T ->
  starts_in a T (rd_log n) <= T / (sec / r) + 1 /\ starts_in a T (wr_log n) <= T / (sec / r) + 1.
Proof.
  intros O Hr HT. destruct (nk_events _ _ O) as [E1 E2].
  eapply rate_window; [exact Hr | exact t_made | exact E1 | exact E2 | apply O | done].
Qed.

(** ** The one writer *)

(** How far the throttle is with the calls of the writer, which waits for the
    status on channel [ch], or does not wait. *)
Definition pending_ok (wait : option nat) (h : list event) : Prop :=
  match wait with
  | Some ch => length (requests h) = S ch /\ (ch <= length (answers h) <= S ch)%nat
  | None => length (answers h) = length (requests h)
  end.

(** A datagram that the connection has not taken. *)
Lemma pending_sendq wait h n :
  net_ok h n -> pending_ok wait h ->
  (length (sendq (th n)) <= match wait with Some _ => 1 | None => 0 end)%nat.
Proof.
  intros O Hp. pose proof (net_writes h n O) as [W1 W2 W3 W4 W5].
  apply (f_equal length) in W1. rewrite length_app, length_fmap in W1.
  destruct wait; simpl in Hp; lia.
Qed.

Lemma conn_requests h e : conn_event adm size e -> requests (h ++ [e]) = requests h.
Proof. intros He. rewrite requests_snoc. destruct e; try done; by rewrite app_nil_r. Qed.

Lemma pending_conn wait h n e n' :
  net_ok h n -> pending_ok wait h -> conn_event adm size e -> step e n = Some n' -> pending_ok wait (h ++ [e]).
Proof.
  intros O Hp He Hs. pose proof (net_writes h n O) as [W1 W2 W3 W4 W5]. pose proof (conn_requests h e He) as Hq.
  apply (f_equal length) in W1. rewrite length_app, length_fmap in W1.
  unfold pending_ok in *. rewrite Hq, answers_snoc, length_app.
  destruct e as [start dur a| | | start dur st | |]; try done; simpl in *; [destruct wait; lia|].
  destruct (sendq (th n)); [done|]. simpl in W1. destruct wait; lia.
Qed.

Lemma pending_read wait h : pending_ok wait h -> pending_ok wait (h ++ [EvReadFrom]).
Proof. unfold pending_ok. by rewrite requests_snoc, answers_snoc, !app_nil_r. Qed.

Lemma pending_call h n data addr ch n' :
  net_ok h n -> pending_ok None h -> WriteTo data addr n = Some (ch, n') ->
  pending_ok (Some ch) (h ++ [EvWriteTo data addr]) /\ ch = length (requests h).
Proof.
  intros O Hp Hc. pose proof (net_writes h n O) as [W1 W2 W3 W4 W5].
  unfold WriteTo in Hc. destruct (_ <? _)%nat; [|done]. injection Hc as <- <-. simpl in Hp.
  unfold pending_ok. rewrite requests_snoc, answers_snoc, !length_app. simpl. lia.
Qed.

Lemma pending_return h n ch st :
  net_ok h n -> pending_ok (Some ch) h -> WriteTo_status ch n = Some st ->
  pending_ok None h /\ answers h !! ch = Some st /\ length (requests h) = S ch.
Proof.
  intros O [H1 H2] Hst. pose proof (net_writes h n O) as [W1 W2 W3 W4 W5].
  unfold WriteTo_status in Hst. rewrite W5 in Hst. split_and!; [|done..].
  apply lookup_lt_Some in Hst. simpl. lia.
Qed.

(** ** A throttle on which nothing waits *)

Record quiet (n : System) : Prop := {
  q_recv : recv (th n) = [];
  q_sendq : sendq (th n) = [];
  q_size : rbuffSize (th n) = size;
  q_buff : length (rbuff n) = size;
}.

Lemma quiet_init : quiet (sys_init t now).
Proof. destruct t_new as (E1 & E2 & E3). split; simpl; try done. by rewrite length_replicate. Qed.

(** A round of the read routine and the call that gets its result. *)
Lemma read_one a n :
  quiet n -> exists n1 n2, step (EvRead (rd_ready n) 0 a) n = Some n1 /\
    ReadFrom n1 = Some (received size a, n2) /\ quiet n2.
Proof.
  intros [Q1 Q2 Q3 Q4]. exists (read_round (rd_ready n) 0 a n).
  destruct (read_round_recv (rd_ready n) 0 a n ltac:(congruence)) as [Hr Hb]. rewrite Q1, Q3 in Hr. simpl in Hr.
  assert (Hf : rbuffSize (th (read_round (rd_ready n) 0 a n)) = size /\
               sendq (th (read_round (rd_ready n) 0 a n)) = []).
  { unfold read_round. by destruct (ReadFromUDP a (rbuff n)) as [[[b m] s] e]. }
  destruct Hf as [Hz Hq]. eexists. split_and!.
  - cbn [step]. by rewrite Q1, Z.leb_refl.
  - unfold ReadFrom. by rewrite Hr.
  - split; simpl; [done | done | done | congruence].
Qed.

(** A call of [WriteTo], the round of the write routine that serves it and its
    status. *)
Lemma write_one data addr st n :
  quiet n -> exists ch n1 n2, WriteTo data addr n = Some (ch, n1) /\
    step (EvWrite (wr_ready n1) 0 st) n1 = Some n2 /\ WriteTo_status ch n2 = Some st /\ quiet n2.
Proof.
  intros [Q1 Q2 Q3 Q4]. unfold WriteTo. rewrite Q2. do 3 eexists. split_and!; [done | | |].
  - cbn [step th sendq set_sendq app]. by rewrite Z.leb_refl.
  - unfold WriteTo_status. simpl. apply lookup_insert_eq.
  - by split.
Qed.
End history.
