(* ===== verification/UDPClient.v ===== *)
(** * UDPClient: the UDP client (src/client/udp_client.go)

    The state of the client process is its packet heap, the state [E] of the
    installed extension, the random source, the table of requests, the data
    handed to [writeStream] and whether [doneStream] is closed.  A channel
    given by a caller is a number; [None] is a nil channel.

    [Send], [processIncoming] and the routines are cut where they wait for
    another goroutine: [Send] after it has handed its data to the writer,
    [processIncoming] while it waits for the receiver of the packet.
    [cli_step] interleaves these pieces. *)

From Stdlib Require Import ZArith Lia Ascii String.
From stdpp Require Import base list strings gmap fin_maps.
From S2P Require Import Prelude Base64 Utf8 JsonText Decimal Json Packet PacketSpec.
From S2P Require Import Fmt Pipeline Cipher Crypto Throttle.
Open Scope Z_scope.

(** An element of [writeStream]; [cw_ref] is the reference its sender registers
    once the element has been received. *)
Record cwritePacket := mk_cwritePacket {
  cw_data : bytes;
  cw_respCh : option nat;
  cw_ref : string;
}.

Record CliState (E : Type) := mk_CliState {
  cl_heap : Heap;
  cl_ext : E;
  cl_rand : list nat;                       (* results of the random source *)
  cl_requests : gmap string (option nat);   (* the response channel of a ref *)
  cl_writeStream : list cwritePacket;
  cl_done : bool;                           (* doneStream is closed *)
}.
Arguments mk_CliState {E} _ _ _ _ _ _.
Arguments cl_heap {E} _.
Arguments cl_ext {E} _.
Arguments cl_rand {E} _.
Arguments cl_requests {E} _.
Arguments cl_writeStream {E} _.
Arguments cl_done {E} _.

#[export] Instance Has_cli_heap E : Has Heap (CliState E).
Proof.
  refine {| proj := cl_heap;
            upd h w := mk_CliState h (cl_ext w) (cl_rand w) (cl_requests w) (cl_writeStream w)
                         (cl_done w) |};
    by intros; try destruct w.
Defined.

#[export] Instance Has_cli_ext E : Has E (CliState E).
Proof.
  refine {| proj := cl_ext;
            upd e w := mk_CliState (cl_heap w) e (cl_rand w) (cl_requests w) (cl_writeStream w)
                         (cl_done w) |};
    by intros; try destruct w.
Defined.

#[export] Instance Disjoint_cli E : Disjoint Heap E (CliState E).
Proof. by split. Defined.

(** ** References *)

Definition letters : list ascii :=
  b_of_s "abcdefghijklmnopqrstuvwxyzABCDEFGHIJKLMNOPQRSTUVWXYZ0123456789".

(** [n] letters chosen by [rand.Intn(len(letters))], and the rest of the
    source. *)
Fixpoint genRef (n : nat) (r : list nat) : bytes * list nat :=
  match n with
  | O => ([], r)
  | S n =>
      let c := nth (hd 0%nat r mod length letters) letters "a"%char in
      let '(s, r') := genRef n (tl r) in (c :: s, r')
  end.

Section client.
Context {E : Type}.
Abbreviation W := (CliState E).

Definition cpk {A} (m : M Heap A) : M W A := lift m.

Definition set_requests (f : gmap string (option nat) -> gmap string (option nat)) : M W unit :=
  modify (fun w => mk_CliState (cl_heap w) (cl_ext w) (cl_rand w) (f (cl_requests w))
                     (cl_writeStream w) (cl_done w)).

Definition new_ref : M W string := fun w =>
  let '(s, r) := genRef 5 (cl_rand w) in
  Ok (s_of_b s, mk_CliState (cl_heap w) (cl_ext w) r (cl_requests w) (cl_writeStream w) (cl_done w)).

(** [c.writeStream <- p] *)
Definition cwrite (p : cwritePacket) : M W unit :=
  modify (fun w => mk_CliState (cl_heap w) (cl_ext w) (cl_rand w) (cl_requests w)
                     (cl_writeStream w ++ [p]) (cl_done w)).

(** The pipelines of a new client. *)
Definition NewUDPClient : Processor W := mk_Processor NewDataPipeline NewPacketPipeline.

Definition cli_init (h : Heap) (e : E) (r : list nat) : W := mk_CliState h e r ∅ [] false.

(** [Send] up to the hand-over of the data: the error, or the packet's ref. *)
Definition Send_write (p : Processor W) (pkt : nat) (respCh : option nat) : M W (string + string) :=
  let* ref0 := cpk (Meta_Get pkt KeyRef) in
  let* ref := (if String.eqb ref0 "" then
                 let* r := new_ref in
                 cpk (Meta_Add pkt KeyRef r) ;;; ret r
               else ret ref0) in
  let* bin := cpk (Marshal pkt) in
  match bin with
  | None => ret (inl (Errorf "packet encode failure"))
  | Some bin =>
      let tctx := mk_TransformContext (mk_PipelineCtx (Some pkt) 0 "") "_out_" "" in
      let* (tctx, bin, err) := DataProcess (DataProcessor p) tctx bin in
      match err with
      | Some e => ret (inl (Errorf ("data pipeline error: " +:+ e)))
      | None =>
          if Stat (t_ctx tctx) =? CodeStopNoop
          then ret (inl (Errorf "data pipeline enforced noop"))
          else cwrite (mk_cwritePacket bin respCh ref) ;;; ret (inr ref)
      end
  end.

(** The rest of [Send]. *)
Definition Send_register (ref : string) (respCh : option nat) : M W unit :=
  set_requests <[ref := respCh]>.

(** [Send] run without interruption; [Some e] is an error. *)
Definition Send (p : Processor W) (pkt : nat) (respCh : option nat) : M W (option string) :=
  let* r := Send_write p pkt respCh in
  match r with
  | inl e => ret (Some e)
  | inr ref => Send_register ref respCh ;;; ret None
  end.

(** Where [processIncoming] sends a packet it has decoded. *)
Inductive delivery :=
  | ToRequest (ch : nat) (pkt : nat) (ref : string)
  | ToMisc (pkt : nat) (ref : string).

Definition delivery_pkt (d : delivery) : nat :=
  match d with ToRequest _ l _ => l | ToMisc l _ => l end.

Definition delivery_ref (d : delivery) : string :=
  match d with ToRequest _ _ r => r | ToMisc _ r => r end.

(** [processIncoming] up to the send of the packet; [None]: the data was
    ignored. *)
Definition processIncoming_send (p : Processor W) (addr : string) (data : bytes)
    : M W (option delivery) :=
  let tctx := mk_TransformContext (mk_PipelineCtx None 0 "") "_in_" addr in
  let* (tctx, data, err) := DataProcess (DataProcessor p) tctx data in
  match err with
  | Some _ => ret None
  | None =>
      let* pkt := cpk (NewPkt "" "") in
      let* ok := cpk (Unmarshal pkt data) in
      if ok : bool then
        let* ref := cpk (Meta_Get pkt KeyRef) in
        let* req := gets (fun w => cl_requests w !! ref) in
        match req with
        | Some (Some ch) => ret (Some (ToRequest ch pkt ref))
        | _ => ret (Some (ToMisc pkt ref))
        end
      else ret None
  end.

(** What is left of [processIncoming] when the packet has been received. *)
Definition processIncoming_end (ref : string) : M W unit := set_requests (delete ref).

(** The error packet of the write routine. *)
Definition write_error (e : string) : M W nat :=
  cpk (NewErrPkt "" "" ("packet write error: " +:+ e)).

(** [close(c.doneStream)] *)
Definition close_done : M W unit := fun w =>
  if cl_done w then Panic CloseOfClosed
  else Ok (tt, mk_CliState (cl_heap w) (cl_ext w) (cl_rand w) (cl_requests w) (cl_writeStream w) true).

(** [Cleanup] with the client's throttle; [None]: it blocks for ever, with
    [doneStream] closed, and the connection stays open. *)
Definition Cleanup (t : UDPThrottle) (w : W) : Res (W * option UDPThrottle) :=
  match close_done w with
  | Ok (_, w') => Ok (w', Shutdown t)
  | Panic e => Panic e
  end.

(** ** The routines *)

Definition set_stream (q : list cwritePacket) (w : W) : W :=
  mk_CliState (cl_heap w) (cl_ext w) (cl_rand w) (cl_requests w) q (cl_done w).

(** [write]: it waits in its select, writes an element, waits for the receiver
    of an error packet, or has returned. *)
Inductive cwriter :=
  | CIdle
  | CWrites (c : cwritePacket)
  | CErring (ch l : nat)
  | CStopped.

(** [recv]: in its select, in [ReadFrom], or returned. *)
Inductive creceiver :=
  | RChecks
  | RReads
  | RStopped.

Record Client := mk_Client {
  cli : W;
  unregistered : list (string * option nat);  (* senders before Send_register *)
  incoming : list bytes;                      (* goroutines before processIncoming_send *)
  delivering : list delivery;                 (* goroutines waiting for a receiver *)
  deleting : list string;                     (* goroutines before processIncoming_end *)
  writing : cwriter;
  receiving : creceiver;
  outcomes : list (cwritePacket * option string);  (* writes that are over, with their error *)
  received : list delivery;                   (* taken from the channels by the user *)
  err_received : list (nat * nat);            (* error packets taken, with the channel *)
  sent_log : list (string * option nat);      (* accepted by Send *)
}.

Definition set_cli w c := mk_Client w (unregistered c) (incoming c) (delivering c) (deleting c) (writing c)
  (receiving c) (outcomes c) (received c) (err_received c) (sent_log c).
Definition set_unregistered u c := mk_Client (cli c) u (incoming c) (delivering c) (deleting c) (writing c)
  (receiving c) (outcomes c) (received c) (err_received c) (sent_log c).
Definition set_incoming i c := mk_Client (cli c) (unregistered c) i (delivering c) (deleting c) (writing c)
  (receiving c) (outcomes c) (received c) (err_received c) (sent_log c).
Definition set_delivering d c := mk_Client (cli c) (unregistered c) (incoming c) d (deleting c) (writing c)
  (receiving c) (outcomes c) (received c) (err_received c) (sent_log c).
Definition set_deleting x c := mk_Client (cli c) (unregistered c) (incoming c) (delivering c) x (writing c)
  (receiving c) (outcomes c) (received c) (err_received c) (sent_log c).
Definition set_writing v c := mk_Client (cli c) (unregistered c) (incoming c) (delivering c) (deleting c) v
  (receiving c) (outcomes c) (received c) (err_received c) (sent_log c).
Definition set_receiving v c := mk_Client (cli c) (unregistered c) (incoming c) (delivering c) (deleting c)
  (writing c) v (outcomes c) (received c) (err_received c) (sent_log c).
Definition log_outcome x c := mk_Client (cli c) (unregistered c) (incoming c) (delivering c) (deleting c)
  (writing c) (receiving c) (outcomes c ++ [x]) (received c) (err_received c) (sent_log c).
Definition log_received x c := mk_Client (cli c) (unregistered c) (incoming c) (delivering c) (deleting c)
  (writing c) (receiving c) (outcomes c) (received c ++ [x]) (err_received c) (sent_log c).
Definition log_err_received x c := mk_Client (cli c) (unregistered c) (incoming c) (delivering c) (deleting c)
  (writing c) (receiving c) (outcomes c) (received c) (err_received c ++ [x]) (sent_log c).
Definition log_sent x c := mk_Client (cli c) (unregistered c) (incoming c) (delivering c) (deleting c)
  (writing c) (receiving c) (outcomes c) (received c) (err_received c) (sent_log c ++ [x]).

(** What callers, users and goroutines do without the connection; the two lists
    are the packets a caller uses and those a user is given. *)
Inductive cli_local (p : Processor W) (addr : string) (c : Client) : list nat -> list nat -> Client -> Prop :=
  | cs_send w' pkt ch ref :
      Send_write p pkt ch (cli c) = Ok (inr ref, w') ->
      cli_local p addr c [pkt] [] (log_sent (ref, ch) (set_cli w' c))
  | cs_send_fail w' pkt ch err :
      Send_write p pkt ch (cli c) = Ok (inl err, w') ->
      cli_local p addr c [pkt] [] (set_cli w' c)
  | cs_receive q1 x q2 :
      (* write receives an element; its sender goes on to register the request *)
      writing c = CIdle -> cl_writeStream (cli c) = q1 ++ x :: q2 ->
      cli_local p addr c [] [] (set_writing (CWrites x)
        (set_unregistered (unregistered c ++ [(cw_ref x, cw_respCh x)]) (set_cli (set_stream (q1 ++ q2) (cli c)) c)))
  | cs_register w' u1 ref ch u2 :
      unregistered c = u1 ++ (ref, ch) :: u2 -> Send_register ref ch (cli c) = Ok (tt, w') ->
      cli_local p addr c [] [] (set_unregistered (u1 ++ u2) (set_cli w' c))
  | cs_process w' i1 data i2 dl :
      incoming c = i1 ++ data :: i2 -> processIncoming_send p addr data (cli c) = Ok (Some dl, w') ->
      cli_local p addr c [] [] (set_delivering (delivering c ++ [dl]) (set_incoming (i1 ++ i2) (set_cli w' c)))
  | cs_ignore w' i1 data i2 :
      incoming c = i1 ++ data :: i2 -> processIncoming_send p addr data (cli c) = Ok (None, w') ->
      cli_local p addr c [] [] (set_incoming (i1 ++ i2) (set_cli w' c))
  | cs_take d1 dl d2 :
      (* the user receives from a response channel or from Misc *)
      delivering c = d1 ++ dl :: d2 ->
      cli_local p addr c [] [delivery_pkt dl] (log_received dl
        (set_deleting (deleting c ++ [delivery_ref dl]) (set_delivering (d1 ++ d2) c)))
  | cs_delete w' x1 ref x2 :
      deleting c = x1 ++ ref :: x2 -> processIncoming_end ref (cli c) = Ok (tt, w') ->
      cli_local p addr c [] [] (set_deleting (x1 ++ x2) (set_cli w' c))
  | cs_take_error ch l :
      (* the user receives an error packet *)
      writing c = CErring ch l ->
      cli_local p addr c [] [l] (log_err_received (ch, l) (set_writing CIdle c))
  | cs_check :
      receiving c = RChecks -> cl_done (cli c) = false ->
      cli_local p addr c [] [] (set_receiving RReads c)
  | cs_cleanup w' :
      close_done (cli c) = Ok (tt, w') ->
      cli_local p addr c [] [] (set_cli w' c)
  | cs_stop_write :
      writing c = CIdle -> cl_done (cli c) = true ->
      cli_local p addr c [] [] (set_writing CStopped c)
  | cs_stop_recv :
      receiving c = RChecks -> cl_done (cli c) = true ->
      cli_local p addr c [] [] (set_receiving RStopped c).

(** What a connection that delivers any data and fails at will does to them. *)
Inductive cli_conn (c : Client) : Client -> Prop :=
  | cs_read data :
      (* ReadFrom returns data: go c.processIncoming *)
      receiving c = RReads ->
      cli_conn c (set_receiving RChecks (set_incoming (incoming c ++ [data]) c))
  | cs_read_error :
      receiving c = RReads -> cli_conn c (set_receiving RChecks c)
  | cs_written x :
      writing c = CWrites x ->
      cli_conn c (log_outcome (x, None) (set_writing CIdle c))
  | cs_write_fail w' x ch l err :
      (* the connection reports an error: an error packet for the caller *)
      writing c = CWrites x -> cw_respCh x = Some ch -> write_error err (cli c) = Ok (l, w') ->
      cli_conn c (log_outcome (x, Some err) (set_writing (CErring ch l) (set_cli w' c)))
  | cs_write_fail_nil x err :
      (* an error for a caller without a channel is dropped *)
      writing c = CWrites x -> cw_respCh x = None ->
      cli_conn c (log_outcome (x, Some err) (set_writing CIdle c)).

Inductive cli_step (p : Processor W) (addr : string) (c : Client) : Client -> Prop :=
  | cs_local u g c' : cli_local p addr c u g c' -> cli_step p addr c c'
  | cs_conn c' : cli_conn c c' -> cli_step p addr c c'.

Definition client_start (w : W) : Client := mk_Client w [] [] [] [] CIdle RChecks [] [] [] [].
End client.
Arguments Client : clear implicits.
