(* ===== verification/UDPClientProps.v ===== *)
(** * UDPClientProps: the properties of the UDP client

    What [Send] hands to the writer, where a response goes, that responses are
    matched with requests in every interleaving, the race between the response
    and the registration of the request, and that [Cleanup] blocks. *)

From Stdlib Require Import ZArith Lia Ascii String.
From stdpp Require Import base list strings gmap fin_maps relations.
From S2P Require Import Prelude Base64 Utf8 JsonText Decimal Json Packet PacketSpec PacketProps.
From S2P Require Import Fmt Pipeline Cipher Crypto UDPServerSpec UDPServerProps Throttle ThrottleProps UDPClient.
Open Scope Z_scope.

(** ** Computations that leave the client's tables alone *)

Section keeps.
Context {E : Type}.
Abbreviation W := (CliState E).

Class Keeps {A} (m : M W A) : Prop :=
  keeps : forall w a w', m w = Ok (a, w') ->
    cl_requests w' = cl_requests w /\ cl_writeStream w' = cl_writeStream w /\ cl_done w' = cl_done w.

#[global] Instance Keeps_ret {A} (a : A) : Keeps (ret a).
Proof. by intros w b w' [= <- <-]. Qed.

#[global] Instance Keeps_throw {A} e : Keeps (throw e : M W A).
Proof. done. Qed.

#[global] Instance Keeps_gets {A} (f : W -> A) : Keeps (gets f).
Proof. by intros w b w' [= <- <-]. Qed.

#[global] Instance Keeps_bind {A B} (m : M W A) (k : A -> M W B) :
  Keeps m -> (forall a, Keeps (k a)) -> Keeps (bind m k).
Proof.
  intros Hm Hk w b w'. unfold bind. destruct (m w) as [[a w1]|] eqn:E1; [|done]. intros E2.
  destruct (Hm _ _ _ E1) as (<- & <- & <-). by apply (Hk a w1 b w').
Qed.

#[global] Instance Keeps_heap {A} (m : M Heap A) : Keeps (lift m : M W A).
Proof. intros w a w'. unfold lift. destruct (m _) as [[x h]|]; [|done]. by intros [= <- <-]. Qed.

#[global] Instance Keeps_ext {A} (m : M E A) : Keeps (lift m : M W A).
Proof. intros w a w'. unfold lift. destruct (m _) as [[x h]|]; [|done]. by intros [= <- <-]. Qed.

(** Transforms that do so: the condition on an extension of the client. *)
Class KeepsT (t : BufferTransform W) : Prop := keeps_t : forall ctx d, Keeps (t ctx d).

Definition pipeline_keeps (p : Processor W) : Prop :=
  forall name, Forall KeepsT (transforms (DataProcessor p) name).

Lemma run_transforms_keeps ts ctx d : Forall KeepsT ts -> Keeps (run_transforms ts ctx d).
Proof.
  intros Hs. revert ctx d. induction Hs as [|t ts Ht _ IH]; intros ctx d; [apply _|].
  cbn [run_transforms]. apply Keeps_bind; [apply Ht|]. intros [ctx' d'].
  destruct (judge _); apply _ || apply IH.
Qed.

Lemma DataProcess_keeps p ctx d : pipeline_keeps p -> Keeps (DataProcess (DataProcessor p) ctx d).
Proof. intros Hp. apply run_transforms_keeps, Hp. Qed.
End keeps.

(** The transforms of the cryptographic extension keep the tables. *)
Section crypto_keeps.
Context `{A : AEAD} `{C : Curve}.

Ltac keeps_cases :=
  repeat first
    [ apply _
    | apply Keeps_bind; [| intros ?; cbn beta]
    | match goal with |- Keeps (match ?x with _ => _ end) => destruct x end ].

#[global] Instance encryptTransport_keeps : KeepsT (E := Crypto) encryptTransport.
Proof. intros ctx d. unfold encryptTransport, ctx_pkt, heap, crypt. keeps_cases. Qed.

#[global] Instance decryptTransport_keeps : KeepsT (E := Crypto) decryptTransport.
Proof. intros ctx d. unfold decryptTransport, decryptAES, crypt. keeps_cases. Qed.

Lemma Extend_client_keeps :
  pipeline_keeps (Extend "client" (NewUDPClient (E := Crypto))).1.
Proof.
  intros name. simpl. unfold transforms, AddTransform, transforms. simpl.
  destruct (decide (name = "_out_"%string)) as [->|H1].
  { rewrite lookup_insert_eq. simpl. apply Forall_singleton. apply _. }
  rewrite lookup_insert_ne by done. destruct (decide (name = "_in_"%string)) as [->|H2].
  { rewrite lookup_insert_eq. simpl. apply Forall_singleton. apply _. }
  by rewrite lookup_insert_ne, lookup_empty by done.
Qed.
End crypto_keeps.

(** ** Matching of responses with requests *)

Section client_props.
Context {E : Type}.
Abbreviation W := (CliState E).
Abbreviation ab w l := (abs (cl_heap w) l).

Lemma Send_write_tables p pkt ch (w : W) r w' :
  pipeline_keeps p -> Send_write p pkt ch w = Ok (r, w') ->
  cl_requests w' = cl_requests w /\ cl_done w' = cl_done w /\
  match r with
  | inl _ => cl_writeStream w' = cl_writeStream w
  | inr ref => exists bin, cl_writeStream w' = cl_writeStream w ++ [mk_cwritePacket bin ch ref]
  end.
Proof.
  intros Hp. unfold Send_write, bind.
  destruct (cpk (Meta_Get pkt KeyRef) w) as [[ref0 w1]|] eqn:E1; [|done].
  apply Keeps_heap in E1 as (R1 & S1 & D1).
  set (mref := if String.eqb ref0 "" then _ else _).
  assert (Hm : Keeps (E := E) mref).
  { unfold mref. destruct (String.eqb ref0 ""); [|apply _]. apply Keeps_bind.
    - intros v x v'. unfold new_ref. destruct (genRef 5 (cl_rand v)). by intros [= <- <-].
    - intros x. apply _. }
  destruct (mref w1) as [[ref w2]|] eqn:E2; [|done]. apply Hm in E2 as (R2 & S2 & D2). clear Hm mref.
  destruct (cpk (Marshal pkt) w2) as [[bin w3]|] eqn:E3; [|done].
  apply Keeps_heap in E3 as (R3 & S3 & D3).
  destruct bin as [bin|]; [|intros [= <- <-]; split_and!; congruence].
  destruct (DataProcess _ _ _ w3) as [[[[tctx b'] err] w4]|] eqn:E4; [|done].
  apply (DataProcess_keeps p) in E4 as (R4 & S4 & D4); [|done].
  destruct err as [e|]; [intros [= <- <-]; split_and!; congruence|].
  destruct (Stat (t_ctx tctx) =? CodeStopNoop); intros [= <- <-]; simpl; [split_and!; congruence|].
  split; [congruence|]. split; [congruence|]. exists b'. congruence.
Qed.

Lemma processIncoming_tables p addr data (w : W) r w' :
  pipeline_keeps p -> processIncoming_send p addr data w = Ok (r, w') ->
  cl_requests w' = cl_requests w /\ cl_writeStream w' = cl_writeStream w /\ cl_done w' = cl_done w /\
  forall ch pkt ref, r = Some (ToRequest ch pkt ref) -> cl_requests w !! ref = Some (Some ch).
Proof.
  intros Hp. unfold processIncoming_send, bind.
  destruct (DataProcess _ _ _ w) as [[[[tctx dt] err] w1]|] eqn:E1; [|done].
  apply (DataProcess_keeps p) in E1 as (R1 & S1 & D1); [|done].
  destruct err as [e|]; [by intros [= <- <-]|].
  destruct (cpk (NewPkt "" "") w1) as [[pkt w2]|] eqn:E2; [|done].
  apply Keeps_heap in E2 as (R2 & S2 & D2).
  destruct (cpk (Unmarshal pkt dt) w2) as [[ok w3]|] eqn:E3; [|done].
  apply Keeps_heap in E3 as (R3 & S3 & D3).
  destruct ok; [|intros [= <- <-]; repeat split_and!; congruence].
  destruct (cpk (Meta_Get pkt KeyRef) w3) as [[ref w4]|] eqn:E4; [|done].
  apply Keeps_heap in E4 as (R4 & S4 & D4). cbn [gets].
  assert (Er : cl_requests w4 = cl_requests w) by congruence.
  assert (Es : cl_writeStream w4 = cl_writeStream w) by congruence.
  assert (Ed : cl_done w4 = cl_done w) by congruence. rewrite Er.
  destruct (cl_requests w !! ref) as [[ch|]|] eqn:El; intros [= <- <-];
    split_and!; try done; by intros ??? [= <- <- <-].
Qed.

(** Everything that carries a request's reference and channel comes from a
    [Send] that was given both. *)
Definition from_send (sl : list (string * option nat)) (d : delivery) : Prop :=
  match d with ToRequest ch _ ref => (ref, Some ch) ∈ sl | ToMisc _ _ => True end.

Record matched (c : Client E) : Prop := {
  ma_stream : Forall (fun x => (cw_ref x, cw_respCh x) ∈ sent_log c) (cl_writeStream (cli c));
  ma_unreg : Forall (fun x => x ∈ sent_log c) (unregistered c);
  ma_req : map_Forall (fun ref ch => (ref, ch) ∈ sent_log c) (cl_requests (cli c));
  ma_del : Forall (from_send (sent_log c)) (delivering c);
  ma_recv : Forall (from_send (sent_log c)) (received c);
}.

Lemma from_send_mono sl x d : from_send sl d -> from_send (sl ++ [x]) d.
Proof. destruct d; simpl; [|done]. rewrite elem_of_app. auto. Qed.

Lemma matched_sent (c : Client E) y : matched c -> matched (log_sent y c).
Proof.
  intros [M1 M2 M3 M4 M5]. split; simpl.
  - eapply Forall_impl; [exact M1|]. intros z Hz. rewrite elem_of_app. auto.
  - eapply Forall_impl; [exact M2|]. intros z Hz. rewrite elem_of_app. auto.
  - intros k v Hk. rewrite elem_of_app. left. by apply M3.
  - eapply Forall_impl; [exact M4|]. intros z. apply from_send_mono.
  - eapply Forall_impl; [exact M5|]. intros z. apply from_send_mono.
Qed.

Lemma matched_tables (c : Client E) w' :
  cl_requests w' = cl_requests (cli c) -> cl_writeStream w' = cl_writeStream (cli c) ->
  matched c -> matched (set_cli w' c).
Proof. intros R S [M1 M2 M3 M4 M5]. split; simpl in *; by rewrite ?R, ?S. Qed.

Lemma cli_local_matched p addr (c c' : Client E) u g :
  pipeline_keeps p -> cli_local p addr c u g c' -> matched c -> matched c'.
Proof.
  intros Hp Hs Hm. pose proof Hm as [M1 M2 M3 M4 M5]. destruct Hs as
    [w' pkt ch ref Hrun | w' pkt ch err Hrun | q1 x q2 Hi Hq | w' u1 ref ch u2 Hu Hrun
    | w' i1 data i2 dl Hi Hrun | w' i1 data i2 Hi Hrun | d1 dl d2 Hd | w' x1 ref x2 Hx Hrun
    | ch l He | | w' Hrun | | ].
  - apply Send_write_tables in Hrun as (R & D & bin & S); [|done].
    destruct (matched_sent _ (ref, ch) Hm) as [N1 N2 N3 N4 N5]. simpl in *.
    split; simpl; rewrite ?R, ?S; try done. apply Forall_app. split; [done|].
    apply Forall_singleton. simpl. rewrite elem_of_app, list_elem_of_singleton. auto.
  - apply Send_write_tables in Hrun as (R & D & S); [|done]. by apply matched_tables.
  - rewrite Hq in M1. apply Forall_app in M1 as [M1a M1b]. apply list.Forall_cons in M1b as [M1b M1c].
    split; simpl; try done; apply Forall_app; by split; rewrite ?Forall_singleton.
  - injection Hrun as <-. rewrite Hu in M2.
    apply Forall_app in M2 as [M2a M2b]. apply list.Forall_cons in M2b as [M2b M2c].
    split; simpl; try done; [by apply Forall_app | by apply map_Forall_insert_2].
  - apply processIncoming_tables in Hrun as (R & S & D & Hd); [|done]. split; simpl; rewrite ?R, ?S; try done.
    apply Forall_app. split; [done|]. apply Forall_singleton. destruct dl as [ch pkt ref|]; [|done].
    simpl. apply M3. by eapply Hd.
  - apply processIncoming_tables in Hrun as (R & S & D & Hd); [|done]. split; simpl; by rewrite ?R, ?S.
  - rewrite Hd in M4. apply Forall_app in M4 as [M4a M4b]. apply list.Forall_cons in M4b as [M4b M4c].
    split; simpl; try done; apply Forall_app; by split; rewrite ?Forall_singleton.
  - injection Hrun as <-. split; simpl; try done. by apply map_Forall_delete.
  - by split.
  - by split.
  - unfold close_done in Hrun. destruct (cl_done (cli c)); [done|]. injection Hrun as <-. by split.
  - by split.
  - by split.
Qed.

(** Data received and not yet processed only grows by reading. *)
Lemma cli_local_incoming p addr (c c' : Client E) u g (P : bytes -> Prop) :
  cli_local p addr c u g c' -> Forall P (incoming c) -> Forall P (incoming c').
Proof.
  destruct 1 as [| | | | w' i1 data i2 dl Hi Hrun | w' i1 data i2 Hi Hrun | | | | | | |]; simpl; try done;
    rewrite Hi; intros [H1 [_ H2]%list.Forall_cons]%Forall_app; by apply Forall_app.
Qed.

Lemma cli_step_matched p addr (c c' : Client E) :
  pipeline_keeps p -> cli_step p addr c c' -> matched c -> matched c'.
Proof.
  intros Hp Hs Hm. pose proof Hm as [M1 M2 M3 M4 M5].
  destruct Hs as [u g c' Hs | c' Hs]; [by eapply cli_local_matched|].
  destruct Hs as [data Hr | Hr | x Hw | w' x ch l err Hw Hc Hrun | x err Hw Hc]; try by split.
  apply Keeps_heap in Hrun as (R & S & D). split; simpl; by rewrite ?R, ?S.
Qed.

Lemma reachable_matched p addr (w : W) c :
  pipeline_keeps p -> cl_requests w = ∅ -> cl_writeStream w = [] ->
  rtc (cli_step p addr) (client_start w) c -> matched c.
Proof.
  intros Hp Hr Hs. revert c. apply rtc_ind_r.
  - split; simpl; rewrite ?Hr, ?Hs; done.
  - intros c c' _ Hst IH. by eapply cli_step_matched.
Qed.

(** ** What one call does *)

(** The client's heap is well formed and its pool usable. *)
Definition heap_good (w : W) : Prop := heap_ok (cl_heap w) /\ healthy (cl_heap w).

Lemma wp_cpk {A} (m : M Heap A) l f r (w : W) a (Q : A -> W -> Prop) :
  acts m l f r -> heap_good w -> ab w l = Some a ->
  (forall h, frame l (cl_heap w) h -> abs h l = Some (f a) ->
     heap_good (upd h w) -> Q (r a) (upd h w)) ->
  wp (cpk m) Q w.
Proof.
  intros Hm [Hok Hh] Ha HQ. unfold cpk. apply wp_lift.
  eapply wp_mono; [by apply Hm|]. intros x h (-> & F & A'). apply HQ; [done | done |].
  split; simpl; [apply F | by eapply healthy_frame].
Qed.

(** A generated reference: five letters of the alphabet. *)
Lemma genRef_letters n r : Forall (fun c => c ∈ letters) (genRef n r).1 /\ length (genRef n r).1 = n.
Proof.
  revert r. induction n as [|n IH]; intros r; [done|]. cbn [genRef].
  destruct (genRef n (tl r)) as [s r'] eqn:Es. specialize (IH (tl r)). rewrite Es in IH.
  destruct IH as [IH1 IH2]. cbn [fst length] in *. split; [|by rewrite IH2]. constructor; [|done].
  apply list_elem_of_In, nth_In. apply Nat.mod_upper_bound. done.
Qed.

Lemma genRef_utf8 n r : utf8_string (s_of_b (genRef n r).1).
Proof.
  apply utf8_ascii. rewrite b_of_s_of_b. eapply Forall_impl; [apply genRef_letters|].
  assert (Hl : Forall (fun c => zb c < 128) letters) by (repeat (constructor; [by vm_compute|]); constructor).
  intros c Hc. by eapply list.Forall_forall in Hl.
Qed.

(** The reference [Send] uses for a packet [a]. *)
Definition send_ref (a : APkt) (w : W) : string :=
  if String.eqb (a_get KeyRef a) "" then s_of_b (genRef 5 (cl_rand w)).1 else a_get KeyRef a.

Definition send_pkt (a : APkt) (w : W) : APkt :=
  if String.eqb (a_get KeyRef a) "" then a_add KeyRef (send_ref a w) a else a.

Lemma send_pkt_ref a w : a_get KeyRef (send_pkt a w) = send_ref a w.
Proof.
  unfold send_pkt, send_ref. destruct (String.eqb (a_get KeyRef a) ""); [|done].
  unfold a_get, a_add. simpl. by rewrite lookup_insert_eq.
Qed.

(** [Send_write] if the outgoing stage turns the packet's wire form into [bin']
    and leaves the extension in state [e]. *)
Definition send_wire (a : APkt) (w : W) : bytes :=
  render_pkt (Some (a_meta (send_pkt a w))) (a_data a).

Definition out_stage (p : Processor W) (pkt : nat) (a : APkt) (w : W) (bin' : bytes) (e : E) : Prop :=
  forall w1, heap_good w1 -> ab w1 pkt = Some (send_pkt a w) -> cl_ext w1 = cl_ext w ->
    DataProcess (DataProcessor p) (out_tctx pkt) (send_wire a w) w1
      = Ok ((out_tctx pkt, bin', None), upd e w1).

Lemma Send_write_stage p pkt ch (w : W) a bin' e :
  out_stage p pkt a w bin' e -> heap_good w -> ab w pkt = Some a ->
  wp (Send_write p pkt ch) (fun r w' => r = inr (send_ref a w) /\ heap_good w' /\
    ab w' pkt = Some (send_pkt a w) /\ cl_ext w' = e /\ cl_requests w' = cl_requests w /\
    cl_writeStream w' = cl_writeStream w ++ [mk_cwritePacket bin' ch (send_ref a w)]) w.
Proof.
  intros Hp Hg Ha. unfold Send_write. rewrite wp_bind.
  eapply wp_ok. { unfold cpk. apply lift_ok. apply Meta_Get_reads; [apply Hg | exact Ha]. }
  rewrite upd_proj, wp_bind.
  assert (Hstep : wp (if String.eqb (a_get KeyRef a) "" then
      let* r := new_ref in cpk (Meta_Add pkt KeyRef r) ;;; ret r else ret (a_get KeyRef a))
    (fun r w' => r = send_ref a w /\ heap_good w' /\ ab w' pkt = Some (send_pkt a w) /\
       cl_ext w' = cl_ext w /\ cl_requests w' = cl_requests w /\
       cl_writeStream w' = cl_writeStream w) w).
  { unfold send_ref, send_pkt, send_ref. destruct (String.eqb (a_get KeyRef a) ""); [|by apply wp_ret].
    rewrite wp_bind. unfold wp at 1, new_ref. destruct (genRef 5 (cl_rand w)) as [s r].
    rewrite wp_bind. eapply wp_cpk; [apply Meta_Add_acts | exact Hg | exact Ha |].
    intros h F A' Hg'. by apply wp_ret. }
  eapply wp_mono; [exact Hstep|]. clear Hstep. intros r w1 (-> & Hg1 & A1 & X1 & R1 & S1).
  rewrite wp_bind. eapply wp_ok. { unfold cpk. apply lift_ok. apply Marshal_reads; [apply Hg1 | exact A1]. }
  assert (Ed : a_data (send_pkt a w) = a_data a) by (unfold send_pkt; by destruct (String.eqb _ _)).
  rewrite upd_proj, wp_bind, Ed. eapply wp_ok; [by apply Hp|]. cbn [Stat t_ctx out_tctx].
  change (0 =? CodeStopNoop) with false. cbn iota. rewrite wp_bind. unfold cwrite. apply wp_modify.
  apply wp_ret. simpl. rewrite S1. by split_and!.
Qed.

Lemma out_stage_none p pkt a (w : W) :
  transforms (DataProcessor p) "_out_" = [] ->
  out_stage p pkt a w (send_wire a w) (cl_ext w).
Proof.
  intros Hp w1 _ _ <-. rewrite DataProcess_none by done.
  change (cl_ext w1) with (proj (S := E) w1). by rewrite upd_proj.
Qed.

Lemma Send_write_spec p pkt ch (w : W) a :
  transforms (DataProcessor p) "_out_" = [] -> heap_good w -> ab w pkt = Some a ->
  wp (Send_write p pkt ch) (fun r w' => r = inr (send_ref a w) /\ heap_good w' /\
    ab w' pkt = Some (send_pkt a w) /\ cl_ext w' = cl_ext w /\ cl_requests w' = cl_requests w /\
    cl_writeStream w' = cl_writeStream w ++ [mk_cwritePacket (send_wire a w) ch (send_ref a w)]) w.
Proof. intros Hp. apply Send_write_stage. by apply out_stage_none. Qed.

(** [Send] run without interruption. *)
Lemma Send_stage p pkt ch (w : W) a bin' e :
  out_stage p pkt a w bin' e -> heap_good w -> ab w pkt = Some a ->
  wp (Send p pkt ch) (fun r w' => r = None /\ heap_good w' /\ cl_ext w' = e /\
    cl_requests w' = <[send_ref a w := ch]> (cl_requests w) /\
    cl_writeStream w' = cl_writeStream w ++ [mk_cwritePacket bin' ch (send_ref a w)]) w.
Proof.
  intros Hp Hg Ha. unfold Send. rewrite wp_bind.
  eapply wp_mono; [by apply Send_write_stage|]. intros r w1 (-> & Hg1 & A1 & X1 & R1 & S1).
  rewrite wp_bind. unfold Send_register, set_requests. apply wp_modify. apply wp_ret.
  split; [done|]. split; [done|]. split; [done|]. simpl. by rewrite R1, S1.
Qed.

Lemma Send_registers p pkt ch (w : W) a :
  transforms (DataProcessor p) "_out_" = [] -> heap_good w -> ab w pkt = Some a ->
  wp (Send p pkt ch) (fun r w' => r = None /\ heap_good w' /\ cl_ext w' = cl_ext w /\
    cl_requests w' = <[send_ref a w := ch]> (cl_requests w) /\
    cl_writeStream w' = cl_writeStream w ++ [mk_cwritePacket (send_wire a w) ch (send_ref a w)]) w.
Proof. intros Hp. apply Send_stage. by apply out_stage_none. Qed.

(** Taking a packet from the creator: it is no longer pooled, and the packets
    in other hands are as they were. *)
Definition others_kept (l : nat) (h h' : Heap) : Prop :=
  forall k, k ∉ pool h -> is_Some (abs h k) -> k <> l /\ abs h' k = abs h k.

Lemma got_others l h h' : got l h h' -> others_kept l h h'.
Proof.
  intros G k Hk [a Ha]. assert (Hne : k <> l).
  { intros ->. destruct (got_pool _ _ _ G) as [P | [Hn _]].
    - apply Hk. rewrite P. by left.
    - unfold abs in Ha. by rewrite Hn in Ha. }
  split; [done|]. by apply (got_abs _ _ _ G).
Qed.

Lemma wp_cNewPkt ref dst (w : W) (Q : nat -> W -> Prop) :
  heap_good w ->
  (forall l h d, abs h l = Some (fresh_pkt ref dst d) -> heap_good (upd h w) ->
     l ∉ pool h -> others_kept l (cl_heap w) h -> Q l (upd h w)) ->
  wp (cpk (NewPkt ref dst)) Q w.
Proof.
  intros [Hok Hh] HQ. unfold cpk. apply wp_lift. eapply wp_mono; [by apply NewPkt_spec|].
  intros l h (G & _ & d & _ & Ha).
  apply (HQ l h d); [done | | by eapply got_not_pooled | by apply got_others].
  split; simpl; [apply G | by eapply got_healthy].
Qed.

(** A new packet composed through its writer. *)
Lemma wp_compose ref dst (k : nat -> M Heap nat) f (w : W) (Q : nat -> W -> Prop) :
  (forall l, acts (k l) l f (fun _ => l)) -> heap_good w ->
  (forall l h d, abs h l = Some (f (fresh_pkt ref dst d)) -> heap_good (upd h w) ->
     others_kept l (cl_heap w) h -> Q l (upd h w)) ->
  wp (cpk (let* l := NewPkt ref dst in k l)) Q w.
Proof.
  intros Hk [Hok Hh] HQ. unfold cpk. apply wp_lift. rewrite wp_bind.
  eapply wp_mono; [by apply NewPkt_spec|]. intros l h (G & _ & d & _ & Ha).
  eapply wp_mono; [apply Hk; [apply G | exact Ha]|]. intros x h2 (-> & F & A2).
  apply (HQ l h2 d); [done | |].
  - split; simpl; [apply F | eapply healthy_frame; [done | done |]; by eapply got_healthy].
  - intros j Hj Hs. destruct (got_others _ _ _ G j Hj Hs) as [Hne Hj']. split; [done|].
    by rewrite (fr_abs _ _ _ F).
Qed.

(** Where a decoded response goes. *)
Definition route (w : W) (ref : string) (pkt : nat) : delivery :=
  match cl_requests w !! ref with
  | Some (Some ch) => ToRequest ch pkt ref
  | _ => ToMisc pkt ref
  end.

Lemma processIncoming_stage p addr m b raw (w : W) :
  DataProcess (DataProcessor p) (in_ctx addr) raw w = Ok ((in_ctx addr, datagram m b, None), w) ->
  heap_good w -> utf8_map m ->
  wp (processIncoming_send p addr raw) (fun r w' => exists pkt,
    r = Some (route w (default ""%string (m !! KeyRef)) pkt) /\
    heap_good w' /\ ab w' pkt = Some (request m b) /\ cl_ext w' = cl_ext w /\
    cl_requests w' = cl_requests w /\ cl_writeStream w' = cl_writeStream w /\
    pkt ∉ pool (cl_heap w')) w.
Proof.
  intros Hp Hg Hm. unfold processIncoming_send. rewrite wp_bind.
  eapply wp_ok; [exact Hp|]. cbn iota beta. rewrite wp_bind.
  eapply wp_cNewPkt; [done|]. intros pkt h1 d A1 Hg1 Hp1 _.
  rewrite wp_bind. eapply wp_cpk; [apply Unmarshal_acts | exact Hg1 | exact A1 |].
  { apply keeps_meta_render; [done | apply utf8_base64]. }
  intros h2 F2 A2 Hg2. unfold a_unmarshal, datagram in *. simpl in A2 |- *.
  rewrite pure_doc_render in A2 |- * by (done || apply utf8_base64).
  rewrite b_of_s_of_b, Base64.decode_encode in A2 |- *. simpl in A2 |- *. rewrite wp_bind.
  eapply wp_ok. { unfold cpk. apply lift_ok. apply Meta_Get_reads; [apply Hg2 | exact A2]. }
  rewrite upd_proj, wp_bind. apply wp_gets. change (a_get KeyRef _) with (a_get KeyRef (request m b)).
  rewrite request_get. simpl.
  unfold route. destruct (cl_requests w !! default ""%string (m !! KeyRef)) as [[ch|]|];
    apply wp_ret; exists pkt; split_and!; try done; simpl; by rewrite (fr_pool _ _ _ F2).
Qed.

Lemma processIncoming_spec p addr m b (w : W) :
  transforms (DataProcessor p) "_in_" = [] -> heap_good w -> utf8_map m ->
  wp (processIncoming_send p addr (datagram m b)) (fun r w' => exists pkt,
    r = Some (route w (default ""%string (m !! KeyRef)) pkt) /\
    heap_good w' /\ ab w' pkt = Some (request m b) /\ cl_ext w' = cl_ext w /\
    cl_requests w' = cl_requests w /\ cl_writeStream w' = cl_writeStream w /\
    pkt ∉ pool (cl_heap w')) w.
Proof. intros Hp. apply processIncoming_stage. by rewrite DataProcess_none. Qed.

(** ** Theorems *)

(** (C29) Matching: in every state the client reaches, by any interleaving of
    callers, routines and responses, a packet received on a request's channel
    was received for a reference that a [Send] with this very channel was given
    or generated.  The transforms of an extension may do anything that leaves
    the client's tables alone. *)
Theorem responses_matched p addr (w : W) c ch pkt ref :
  pipeline_keeps p -> cl_requests w = ∅ -> cl_writeStream w = [] ->
  rtc (cli_step p addr) (client_start w) c -> ToRequest ch pkt ref ∈ received c ->
  (ref, Some ch) ∈ sent_log c.
Proof.
  intros Hp Hr Hs Hc Hin. pose proof (reachable_matched p addr w c Hp Hr Hs Hc) as Hm.
  by apply (proj1 (list.Forall_forall _ _) (ma_recv _ Hm)) in Hin.
Qed.

(** [Send] without outgoing transforms: it does not fail, hands exactly
    one datagram to the writer, the packet's wire form with its reference, and
    registers the caller's channel under the reference, which is the packet's
    own or five letters of the alphabet. *)
Theorem send_spec p pkt ch (w : W) a :
  transforms (DataProcessor p) "_out_" = [] -> heap_good w -> ab w pkt = Some a ->
  wp (Send p pkt ch) (fun r w' => r = None /\ exists ref bin,
    cl_requests w' = <[ref := ch]> (cl_requests w) /\
    cl_writeStream w' = cl_writeStream w ++ [mk_cwritePacket bin ch ref] /\
    bin = render_pkt (Some (a_meta (send_pkt a w))) (a_data a) /\
    a_get KeyRef (send_pkt a w) = ref /\
    (a_get KeyRef a <> ""%string -> ref = a_get KeyRef a /\ send_pkt a w = a) /\
    (a_get KeyRef a = ""%string ->
       length (b_of_s ref) = 5%nat /\ Forall (fun c => c ∈ letters) (b_of_s ref))) w.
Proof.
  intros Hp Hg Ha. eapply wp_mono; [by apply Send_registers|]. intros r w1 (-> & Hg1 & X1 & R1 & S1).
  split; [done|]. eexists _, _. split; [done|]. split; [done|]. split; [done|].
  split; [apply send_pkt_ref|]. unfold send_ref, send_pkt. split.
  - intros Hne. by rewrite (proj2 (String.eqb_neq _ _) Hne).
  - intros ->. rewrite String.eqb_refl, b_of_s_of_b.
    by destruct (genRef_letters 5 (cl_rand w)) as [H1 H2].
Qed.

(** Responses: a well-formed datagram is decoded into a packet with its
    metadata and data; it goes to the channel registered under its reference,
    and to Misc when there is none (or it is nil); when the packet has been
    received the registration is removed. *)
Theorem response_routed p addr m b (w : W) :
  transforms (DataProcessor p) "_in_" = [] -> heap_good w -> utf8_map m ->
  wp (let* d := processIncoming_send p addr (datagram m b) in
      match d with
      | Some d => processIncoming_end (delivery_ref d) ;;; ret (Some d)
      | None => ret None
      end) (fun r w' => exists pkt,
    r = Some (route w (default ""%string (m !! KeyRef)) pkt) /\
    ab w' pkt = Some (request m b) /\
    cl_requests w' = delete (default ""%string (m !! KeyRef)) (cl_requests w)) w.
Proof.
  intros Hp Hg Hm. rewrite wp_bind. eapply wp_mono; [by apply processIncoming_spec|].
  intros r w1 (pkt & -> & Hg1 & A1 & X1 & R1 & S1 & _). rewrite wp_bind.
  unfold processIncoming_end, set_requests. apply wp_modify. apply wp_ret.
  exists pkt. simpl. rewrite R1. split; [done|]. split; [done|]. do 2 f_equal.
  unfold route. by destruct (cl_requests w !! _) as [[ch|]|].
Qed.

(** (C38) The registration comes too late: [Send] hands the data over before it
    registers the request, so a response can overtake the registration.  For
    every packet and every response to it there is an execution in which the
    response goes to Misc, nothing is received on the request's channel, and
    the client ends idle with the request registered and never answered. *)
Theorem response_overtakes_registration p addr (w : W) pkt a ch m b :
  transforms (DataProcessor p) "_out_" = [] -> transforms (DataProcessor p) "_in_" = [] ->
  heap_good w -> ab w pkt = Some a -> cl_writeStream w = [] -> cl_done w = false ->
  cl_requests w !! send_ref a w = None ->
  utf8_map m -> m !! KeyRef = Some (send_ref a w) ->
  exists c l, rtc (cli_step p addr) (client_start w) c /\
    sent_log c = [(send_ref a w, Some ch)] /\
    received c = [ToMisc l (send_ref a w)] /\ ab (cli c) l = Some (request m b) /\
    cl_requests (cli c) !! send_ref a w = Some (Some ch) /\
    unregistered c = [] /\ delivering c = [] /\ deleting c = [] /\ cl_writeStream (cli c) = [].
Proof.
  intros Ho Hi Hg Ha Hs Hd Hnone Hm Href.
  destruct (wp_inv _ _ _ (Send_write_spec p pkt (Some ch) w a Ho Hg Ha))
    as (r & w1 & Hrun & -> & Hg1 & A1 & X1 & R1 & S1). rewrite Hs in S1. simpl in S1.
  set (w2 := set_stream ([] ++ []) w1).
  destruct (wp_inv _ _ _ (processIncoming_spec p addr m b w2 Hi Hg1 Hm))
    as (d & w3 & Hin & l & -> & Hg3 & A3 & X3 & R3 & S3 & _).
  set (ref := send_ref a w) in *.
  assert (Er : route w2 (default ""%string (m !! KeyRef)) l = ToMisc l ref).
  { rewrite Href. unfold route. simpl. by rewrite R1, Hnone. }
  rewrite Er in Hin. clear Er.
  set (x := mk_cwritePacket (send_wire a w) (Some ch) ref) in *.
  eexists _, l. split.
  - eapply rtc_l; [by eapply cs_local, cs_check|].
    eapply rtc_l; [by eapply cs_local, (cs_send p addr _ w1 pkt (Some ch) ref)|].
    eapply rtc_l; [by eapply cs_local, (cs_receive p addr _ [] x [])|].
    eapply rtc_l; [by eapply cs_conn, cs_written|].
    eapply rtc_l; [by apply cs_conn, (cs_read _ (datagram m b))|].
    eapply rtc_l; [by eapply cs_local, (cs_process p addr _ w3 [] (datagram m b) [] (ToMisc l ref))|].
    eapply rtc_l; [by eapply cs_local, (cs_take p addr _ [] (ToMisc l ref) [])|].
    eapply rtc_l; [by eapply cs_local, (cs_delete p addr _ _ [] ref [])|].
    eapply rtc_l; [by eapply cs_local, (cs_register p addr _ _ [] ref (Some ch) [])|]. apply rtc_refl.
  - simpl. rewrite lookup_insert_eq. by rewrite S3.
Qed.

(** [Cleanup] never returns and does not close the connection: it closes
    [doneStream] and waits in the throttle's [Shutdown]; a second call panics. *)
Theorem Cleanup_blocks r n t es s now (w : W) :
  0 <= r < 2 ^ 64 -> NewUDPThrottle r n = Ok t -> Forall ev_ok es ->
  run es (sys_init t now) = Some s -> cl_done w = false ->
  exists w', Cleanup (th s) w = Ok (w', None) /\ Cleanup (th s) w' = Panic CloseOfClosed.
Proof.
  intros Hr Ht He Hrun Hd. unfold Cleanup, close_done. rewrite Hd, (Shutdown_none r n t es s now) by done.
  eexists. split; [done|]. done.
Qed.
End client_props.
