(* ===== verification/ClientSafety.v ===== *)
(** * ClientSafety: ownership of packets between the client and its users

    The client's user owns the packets it takes from the creator and those it
    receives; the client owns the packets that wait for a receiver.  For users
    that use and put back only what they own, and for admissible datagrams, the
    packets in different hands stay different and usable, and nothing the client
    or its users do panics. *)

From Stdlib Require Import ZArith Lia Ascii String.
From stdpp Require Import base list strings gmap fin_maps relations.
From S2P Require Import Prelude Base64 Utf8 JsonText Decimal Json Packet PacketSpec PacketProps.
From S2P Require Import Fmt Pipeline Cipher Crypto CryptoSpec UDPServerSpec UDPServerProps.
From S2P Require Import Throttle UDPClient UDPClientProps.
Open Scope Z_scope.

Section safety.
Context {E : Type}.
Abbreviation W := (CliState E).
Abbreviation ab w l := (abs (cl_heap w) l).

(** ** Users *)

Record UClient := mk_UClient { uc : Client E; owned : list nat }.

(** What a user calls on a packet of its own. *)
Inductive pkt_call (l : nat) : M Heap unit -> Prop :=
  | pc_add k v : pkt_call l (Meta_Add l k v)
  | pc_dest d : pkt_call l (SetDest l d)
  | pc_write d : pkt_call l (Write l d)
  | pc_clear : pkt_call l (Clear l)
  | pc_close : pkt_call l (Close l).

Inductive ucl_step (p : Processor W) (addr : string) (adm : bytes -> Prop) : UClient -> UClient -> Prop :=
  | us_local c u g c' o :
      (* routines, and users on their packets *)
      cli_local p addr c u g c' -> u ⊆ o ->
      ucl_step p addr adm (mk_UClient c o) (mk_UClient c' (o ++ g))
  | us_conn c c' o :
      cli_conn c c' -> Forall adm (incoming c') ->
      ucl_step p addr adm (mk_UClient c o) (mk_UClient c' o)
  | us_new c w' o ref dst l :
      cpk (NewPkt ref dst) (cli c) = Ok (l, w') ->
      ucl_step p addr adm (mk_UClient c o) (mk_UClient (set_cli w' c) (l :: o))
  | us_call c w' o l m :
      l ∈ o -> pkt_call l m -> cpk m (cli c) = Ok (tt, w') ->
      ucl_step p addr adm (mk_UClient c o) (mk_UClient (set_cli w' c) o)
  | us_put_back c w' o1 l o2 :
      cpk (PutBack l) (cli c) = Ok (tt, w') ->
      ucl_step p addr adm (mk_UClient c (o1 ++ l :: o2)) (mk_UClient (set_cli w' c) (o1 ++ o2)).

(** ** Hands *)

Definition held (F : list nat) (w : W) : Prop :=
  heap_good w /\ NoDup F /\ forall l, l ∈ F -> (l ∉ pool (cl_heap w)) /\ is_Some (ab w l).

Lemma held_perm F G w : F ≡ₚ G -> held F w -> held G w.
Proof. intros P (H1 & H2 & H3). split_and!; [done | by rewrite <- P | intros l; rewrite <- P; apply H3]. Qed.

Lemma held_drop F l w : held (l :: F) w -> held F w.
Proof.
  intros (H1 & H2 & H3). apply list.NoDup_cons in H2 as [_ H2]. split_and!; [done..|]. intros k Hk. apply H3. by right.
Qed.

Lemma held_same F w w' : cl_heap w' = cl_heap w -> held F w -> held F w'.
Proof. unfold held, heap_good. by intros ->. Qed.

(** A method call on a packet in hand. *)
Lemma wp_held {A} (m : M Heap A) l f r F (w : W) (Q : A -> W -> Prop) :
  acts m l f r -> held F w -> l ∈ F ->
  (forall a h, ab w l = Some a -> abs h l = Some (f a) -> held F (upd h w) -> Q (r a) (upd h w)) -> wp (cpk m) Q w.
Proof.
  intros Hm (Hg & Hn & HF) Hl HQ. destruct (HF l Hl) as [_ [a Ha]].
  eapply wp_cpk; [exact Hm | exact Hg | exact Ha |]. intros h Fr A' Hg'. apply HQ; [done | done |].
  split; [done|]. split; [done|]. intros k Hk. simpl. rewrite (fr_pool _ _ _ Fr).
  destruct (HF k Hk) as [Hp Hs]. split; [done|]. destruct (decide (k = l)) as [->|Hne]; [eauto|].
  by rewrite (fr_abs _ _ _ Fr).
Qed.

(** A packet from the creator. *)
Lemma held_got l h F (w : W) :
  held F w -> heap_good (upd h w) -> l ∉ pool h -> is_Some (abs h l) -> got l (cl_heap w) h -> held (l :: F) (upd h w).
Proof.
  intros (Hg & Hn & HF) Hg' Hp Hs G. split; [done|]. pose proof (got_others _ _ _ G) as Ho.
  assert (Hk : forall k, k ∈ F -> k <> l /\ abs h k = ab w k) by (intros k [Hk1 Hk2]%HF; by apply Ho).
  split; [constructor; [|done]; intros Hin; by destruct (Hk l Hin)|].
  intros k [->|Hin]%elem_of_cons; [done|]. simpl. destruct (Hk k Hin) as [Hne Ha]. rewrite Ha.
  destruct (HF k Hin) as [Hkp Hks]. split; [|done]. intros Hin'. apply Hkp.
  destruct (got_pool _ _ _ G) as [P | [_ <-]]; [rewrite P; by right | done].
Qed.

Lemma wp_held_creates (m : M Heap nat) (mk : string -> APkt) F (w : W) (Q : nat -> W -> Prop) :
  (forall h, heap_ok h -> healthy h -> wp m (fun l h' => got l h h' /\ exists d, abs h' l = Some (mk d)) h) ->
  held F w -> (forall l (h : Heap), held (l :: F) (upd h w) -> Q l (upd h w)) -> wp (cpk m) Q w.
Proof.
  intros Hm HF HQ. pose proof HF as ([Hok Hh] & _). unfold cpk. apply wp_lift.
  eapply wp_mono; [by apply Hm|]. intros l h (G & d & Ha). apply HQ, held_got; try done.
  - split; simpl; [apply G | by eapply got_healthy].
  - by eapply got_not_pooled.
Qed.

Lemma wp_held_NewPkt ref dst F (w : W) (Q : nat -> W -> Prop) :
  held F w -> (forall l (h : Heap), held (l :: F) (upd h w) -> Q l (upd h w)) -> wp (cpk (NewPkt ref dst)) Q w.
Proof.
  apply (wp_held_creates _ (fresh_pkt ref dst)). intros h Hok Hh.
  eapply wp_mono; [by apply NewPkt_spec|]. intros l h' (G & _ & d & _ & Ha). eauto.
Qed.

Lemma wp_held_NewErrPkt ref dst msg F (w : W) (Q : nat -> W -> Prop) :
  held F w -> (forall l (h : Heap), held (l :: F) (upd h w) -> Q l (upd h w)) -> wp (cpk (NewErrPkt ref dst msg)) Q w.
Proof.
  apply (wp_held_creates _ (err_pkt ref dst msg)). intros h Hok Hh.
  eapply wp_mono; [by apply NewErrPkt_spec|]. intros l h' (G & _ & d & _ & Ha). eauto.
Qed.

Lemma wp_held_PutBack l F (w : W) (Q : unit -> W -> Prop) :
  held (l :: F) w -> (forall (h : Heap), held F (upd h w) -> Q tt (upd h w)) -> wp (cpk (PutBack l)) Q w.
Proof.
  intros ([Hok Hh] & Hn & HF) HQ. destruct (HF l ltac:(by left)) as [Hl [a Ha]].
  apply list.NoDup_cons in Hn as [Hnl Hn]. unfold cpk. apply wp_lift. eapply wp_mono.
  { apply PutBack_spec; [done | | done]. unfold abs in Ha. destruct (pkts (cl_heap w) !! l) eqn:El; [|done].
    change (proj w) with (cl_heap w). rewrite El. eauto. }
  intros [] h (Hok' & P & A' & _). apply HQ. change (proj w) with (cl_heap w) in *. split; [split; [done|]|split; [done|]].
  - intros k. simpl. rewrite P, A', elem_of_app, list_elem_of_singleton. intros [Hk | ->]; [by apply Hh | eauto].
  - intros k Hk. simpl. rewrite P, A', elem_of_app, list_elem_of_singleton.
    destruct (HF k ltac:(by right)) as [Hkp Hks]. split; [|done]. intros [?| ->]; done.
Qed.

(** ** What the client asks of its pipelines *)

Record stages_safe (addr : string) (adm : bytes -> Prop) (p : Processor W) : Prop := {
  ss_out : forall F w pkt data, held F w -> pkt ∈ F ->
    wp (DataProcess (DataProcessor p) (out_tctx pkt) data) (fun _ w' => held F w') w;
  ss_in : forall F w data, held F w -> adm data ->
    wp (DataProcess (DataProcessor p) (in_ctx addr) data)
      (fun '(_, dt, e) w' => held F w' /\ (e = None -> keeps_meta dt = true)) w;
}.

(** Without transforms every document that does not null the metadata is
    admissible. *)
Lemma plain_stages addr p :
  transforms (DataProcessor p) "_out_" = [] -> transforms (DataProcessor p) "_in_" = [] ->
  stages_safe addr (fun d => keeps_meta d = true) p.
Proof.
  intros Ho Hi. split; intros F w.
  - intros pkt data HF _. rewrite DataProcess_none by done. by apply wp_ret.
  - intros data HF Hd. rewrite DataProcess_none by done. by apply wp_ret.
Qed.

(** ** What the client and its users do *)

Section steps.
Variables (p : Processor W) (addr : string) (adm : bytes -> Prop).
Hypothesis stages : stages_safe addr adm p.

Lemma new_ref_held F (w : W) (Q : string -> W -> Prop) :
  held F w -> (forall r w', held F w' -> Q r w') -> wp new_ref Q w.
Proof. intros HF HQ. unfold wp, new_ref. destruct (genRef 5 (cl_rand w)). by apply HQ. Qed.

Lemma Send_write_held F (w : W) pkt ch :
  held F w -> pkt ∈ F -> wp (Send_write p pkt ch) (fun _ w' => held F w') w.
Proof.
  intros HF Hp. unfold Send_write. rewrite wp_bind. eapply wp_held; [apply Meta_Get_acts | done | done |].
  intros a h1 _ _ H1. rewrite wp_bind.
  assert (Href : wp (if String.eqb (a_get KeyRef a) "" then
      let* r := new_ref in cpk (Meta_Add pkt KeyRef r) ;;; ret r else ret (a_get KeyRef a))
    (fun _ w' => held F w') (upd h1 w)).
  { destruct (String.eqb _ _); [|by apply wp_ret]. rewrite wp_bind. eapply new_ref_held; [done|].
    intros r w2 H2. rewrite wp_bind. eapply wp_held; [apply Meta_Add_acts | done | done |].
    intros a2 h3 _ _ H3. by apply wp_ret. }
  eapply wp_mono; [exact Href|]. cbn beta. intros ref w2 H2. rewrite wp_bind.
  eapply wp_held; [apply Marshal_acts | done | done |]. intros a3 h3 _ _ H3. rewrite wp_bind.
  eapply wp_mono; [by apply (ss_out _ _ _ stages)|]. intros [[tctx bin] [e|]] w4 H4; [by apply wp_ret|].
  destruct (_ =? _); [by apply wp_ret|]. rewrite wp_bind. unfold cwrite. by apply wp_modify, wp_ret.
Qed.

Lemma processIncoming_held F (w : W) data :
  held F w -> adm data ->
  wp (processIncoming_send p addr data)
    (fun r w' => held (match r with Some d => delivery_pkt d :: F | None => F end) w') w.
Proof.
  intros HF Hd. unfold processIncoming_send. rewrite wp_bind.
  eapply wp_mono; [by apply (ss_in _ _ _ stages)|]. intros [[tctx dt] [e|]] w1 [H1 Hk]; [by apply wp_ret|].
  rewrite wp_bind. eapply wp_held_NewPkt; [done|]. intros l h2 H2. rewrite wp_bind.
  eapply wp_held; [apply Unmarshal_acts; by apply Hk | done | by left |]. intros a h3 _ _ H3.
  destruct (a_unmarshal dt a).2; [|apply wp_ret; by eapply held_drop].
  rewrite wp_bind. eapply wp_held; [apply Meta_Get_acts | done | by left |]. intros a4 h4 _ _ H4.
  rewrite wp_bind. apply wp_gets. destruct (cl_requests _ !! _) as [[ch|]|]; by apply wp_ret.
Qed.

Lemma pkt_call_held F (w : W) l m :
  held F w -> l ∈ F -> pkt_call l m -> wp (cpk m) (fun _ w' => held F w') w.
Proof.
  intros HF Hl Hm. destruct Hm; (eapply wp_held; [eauto with concord | done | done |]); by intros.
Qed.

(** The packets in somebody's hands. *)
Definition waiting_pkt (v : cwriter) : list nat := match v with CErring _ l => [l] | _ => [] end.

Definition hands (s : UClient) : list nat :=
  owned s ++ (delivery_pkt <$> delivering (uc s)) ++ waiting_pkt (writing (uc s)).

Record ucl_ok (s : UClient) : Prop := {
  uo_held : held (hands s) (cli (uc s));
  uo_adm : Forall adm (incoming (uc s));
}.

Lemma wp_run {A} (m : M W A) (Q : A -> W -> Prop) w x w' : wp m Q w -> m w = Ok (x, w') -> Q x w'.
Proof. unfold wp. intros H Hm. by rewrite Hm in H. Qed.

Lemma cli_local_held c u g c' o :
  cli_local p addr c u g c' -> u ⊆ o -> ucl_ok (mk_UClient c o) -> ucl_ok (mk_UClient c' (o ++ g)).
Proof.
  intros Hs Hu [O1 O2]. split; [|by eapply cli_local_incoming]. unfold hands in *. simpl in O1, O2 |- *.
  assert (Hin : forall l, l ∈ u -> l ∈ o ++ (delivery_pkt <$> delivering c) ++ waiting_pkt (writing c)).
  { intros l Hl. apply elem_of_app. left. by apply Hu. }
  destruct Hs as [w' pkt ch ref Hrun | w' pkt ch err Hrun | q1 x q2 Hi Hq | w' u1 ref ch u2 Hun Hrun
    | w' i1 data i2 dl Hi Hrun | w' i1 data i2 Hi Hrun | d1 dl d2 Hd | w' x1 ref x2 Hx Hrun
    | ch l He | Hr Hd | w' Hrun | Hw Hd | Hr Hd]; simpl; rewrite ?app_nil_r; try exact O1.
  - refine (wp_run _ _ _ _ _ (Send_write_held _ _ pkt ch O1 _) Hrun). apply Hin. by left.
  - refine (wp_run _ _ _ _ _ (Send_write_held _ _ pkt ch O1 _) Hrun). apply Hin. by left.
  - rewrite Hi in O1. simpl in O1. by rewrite app_nil_r in O1.
  - by injection Hrun as <-.
  - rewrite Hi in O2. apply Forall_app in O2 as [_ [O2 _]%list.Forall_cons].
    pose proof (wp_run _ _ _ _ _ (processIncoming_held _ _ _ O1 O2) Hrun) as H. simpl in H.
    eapply held_perm; [|exact H]. rewrite fmap_app. simpl. solve_Permutation.
  - rewrite Hi in O2. apply Forall_app in O2 as [_ [O2 _]%list.Forall_cons].
    exact (wp_run _ _ _ _ _ (processIncoming_held _ _ _ O1 O2) Hrun).
  - eapply held_perm; [|exact O1]. rewrite Hd, !fmap_app. simpl. solve_Permutation.
  - by injection Hrun as <-.
  - rewrite He in O1. eapply held_perm; [|exact O1]. simpl. solve_Permutation.
  - unfold close_done in Hrun. destruct (cl_done (cli c)); [done|]. by injection Hrun as <-.
  - rewrite Hw in O1. simpl in O1. by rewrite app_nil_r in O1.
Qed.

Lemma cli_conn_held (c c' : Client E) o :
  cli_conn c c' -> held (hands (mk_UClient c o)) (cli c) -> held (hands (mk_UClient c' o)) (cli c').
Proof.
  unfold hands. intros Hs O1. destruct Hs as [data Hr | Hr | x Hw | w' x ch l err Hw Hc Hrun | x err Hw Hc];
    simpl in *; try done; rewrite Hw in O1; simpl in O1; try done.
  rewrite app_nil_r in O1. assert (wp (write_error err) (fun l w' => held (l :: o ++ (delivery_pkt <$> delivering c)) w') (cli c)) as H.
  { unfold write_error. by eapply wp_held_NewErrPkt. }
  pose proof (wp_run _ _ _ _ _ H Hrun) as H'. eapply held_perm; [|exact H']. solve_Permutation.
Qed.

Lemma ucl_step_ok s s' : ucl_step p addr adm s s' -> ucl_ok s -> ucl_ok s'.
Proof.
  intros Hs O. destruct Hs as [c u g c' o Hl Hu | c c' o Hc Ha | c w' o ref dst l Hrun | c w' o l m Hl Hm Hrun
    | c w' o1 l o2 Hrun].
  - by eapply cli_local_held.
  - destruct O as [O1 O2]. split; [by eapply cli_conn_held | done].
  - destruct O as [O1 O2]. split; [|done]. unfold hands in *. simpl in *.
    assert (wp (cpk (NewPkt ref dst)) (fun l w' => held (l :: o ++ (delivery_pkt <$> delivering c) ++ waiting_pkt (writing c)) w') (cli c)) as H
      by (by eapply wp_held_NewPkt).
    exact (wp_run _ _ _ _ _ H Hrun).
  - destruct O as [O1 O2]. split; [|done]. unfold hands in *. simpl in *.
    refine (wp_run _ _ _ _ _ (pkt_call_held _ _ l m O1 _ Hm) Hrun). apply elem_of_app. by left.
  - destruct O as [O1 O2]. split; [|done]. unfold hands in *. simpl in *.
    apply (held_perm _ (l :: (o1 ++ o2) ++ (delivery_pkt <$> delivering c) ++ waiting_pkt (writing c))) in O1;
      [|solve_Permutation].
    assert (wp (cpk (PutBack l)) (fun _ w' => held ((o1 ++ o2) ++ (delivery_pkt <$> delivering c) ++ waiting_pkt (writing c)) w') (cli c)) as H
      by (by eapply wp_held_PutBack).
    exact (wp_run _ _ _ _ _ H Hrun).
Qed.

Lemma ucl_reach w s :
  heap_good w -> rtc (ucl_step p addr adm) (mk_UClient (client_start w) []) s -> ucl_ok s.
Proof.
  intros Hg. revert s. apply rtc_ind_r.
  - split; [|constructor]. split; [done|]. split; [constructor|]. intros l Hl. by apply not_elem_of_nil in Hl.
  - intros s s' _ Hs. by apply ucl_step_ok.
Qed.
End steps.

(** (C15) Ownership and panic freedom of a client that starts with a well-formed
    heap, for users that use and put back only packets they own, while only
    admissible data arrives: in every interleaving of users, routines and
    connection, the packets of users and those waiting for a receiver are
    different from each other and from the pooled ones, and usable; [Send] of an
    owned packet, calls on it and putting it back, new packets, and the
    processing of the data received and of failed writes do not panic.
    Admissible data (adm) is that for which the client's transforms are safe
    ([stages_safe]): without transforms every document that does not set the
    metadata to null; with the Crypto extension the data must in addition have
    at least 12 bytes and not open to a document with null metadata. *)
Theorem client_safe p addr adm w s :
  stages_safe addr adm p -> heap_good w ->
  rtc (ucl_step p addr adm) (mk_UClient (client_start w) []) s ->
  let v := cli (uc s) in
  NoDup (pool (cl_heap v) ++ hands s) /\
  (forall l, l ∈ pool (cl_heap v) ++ hands s -> is_Some (ab v l)) /\
  (forall l, l ∈ owned s ->
    (forall ch, wp (Send_write p l ch) (fun _ _ => True) v) /\
    (forall m, pkt_call l m -> wp (cpk m) (fun _ _ => True) v) /\ wp (cpk (PutBack l)) (fun _ _ => True) v) /\
  (forall ref dst, wp (cpk (NewPkt ref dst)) (fun _ _ => True) v) /\
  (forall data, data ∈ incoming (uc s) -> wp (processIncoming_send p addr data) (fun _ _ => True) v) /\
  (forall e, wp (write_error e) (fun _ _ => True) v).
Proof.
  intros Hst Hg Hr v. destruct (ucl_reach p addr adm Hst w s Hg Hr) as [Hh Ha]. fold v in Hh.
  pose proof Hh as ([Hok Hhl] & Hn & HF). split_and!.
  - apply list.NoDup_app. split; [apply (ok_pool_nodup _ Hok)|]. split; [|done]. intros l H1 H2. by destruct (HF l H2).
  - intros l [H1|H2]%elem_of_app; [by apply Hhl | by apply HF].
  - intros l Hl. assert (Hl' : l ∈ hands s) by (unfold hands; apply elem_of_app; by left). split_and!.
    + intros ch. eapply wp_mono; [by eapply Send_write_held|]. done.
    + intros m Hm. eapply wp_mono; [by eapply pkt_call_held|]. done.
    + apply list_elem_of_split in Hl' as (l1 & l2 & El). rewrite El in Hh.
      eapply (wp_held_PutBack l (l1 ++ l2)); [|done]. eapply held_perm; [|exact Hh]. solve_Permutation.
  - intros ref dst. by eapply wp_held_NewPkt.
  - intros data Hd. eapply wp_mono; [eapply processIncoming_held; [done | done |]|done].
    by eapply list.Forall_forall in Ha.
  - intros e. unfold write_error. by eapply wp_held_NewErrPkt.
Qed.
End safety.

(** The stages of a client with the cryptographic extension: datagrams long
    enough for a nonce whose documents, in clear and opened under any key, do
    not null the metadata. *)
Section crypto.
Context `{A : AEAD} `{C : Curve}.
Abbreviation W := (CliState Crypto).

Definition sealed_adm (d : bytes) : Prop :=
  (nonceSize <= length d)%nat /\ keeps_meta d = true /\
  forall key d', Open key (take nonceSize d) (drop nonceSize d) = Some d' -> keeps_meta d' = true.

Lemma secured_stages addr : stages_safe addr sealed_adm (Extend "client" (NewUDPClient (E := Crypto))).1.
Proof.
  split; intros F w.
  - intros pkt data HF Hp. pose proof HF as ([Hok Hh] & _ & HF3). destruct (HF3 _ Hp) as [_ [a Ha]].
    unfold DataProcess. cbn [out_tctx PipelineName].
    change (transforms _ "_out_") with [encryptTransport (W := W)]. cbn [run_transforms]. rewrite wp_bind.
    eapply wp_ok; [by apply (encryptTransport_eq (W := W) w _ pkt a data)|].
    cbn beta iota. case_match; apply wp_ret; exact HF.
  - intros data HF (Hlen & Hd & Ho). unfold DataProcess. cbn [in_ctx PipelineName].
    change (transforms _ "_in_") with [decryptTransport (W := W)]. cbn [run_transforms]. rewrite wp_bind.
    unfold wp at 1. rewrite (decryptTransport_eq (W := W)). unfold in_data. cbn [t_From in_ctx].
    destruct (keys _ !! addr) as [ks|]; [|by apply wp_ret]. destruct (key_ok _); [|by apply wp_ret].
    rewrite (proj2 (Nat.ltb_ge _ _)) by done.
    destruct (Open _ _ _) as [d'|] eqn:Eo; apply wp_ret; (split; [done|]); intros _; [by eapply Ho | done].
Qed.
End crypto.
