(* ===== verification/Network.v ===== *)
(** * Network: a client and a server together

    The datagram [Send] hands to the client's writer is what the server's
    handler receives, the datagram the server writes is what the client's
    handler receives: the composition of [Send], [processIncoming] and
    [processOutgoing] of the server, and [processIncoming] of the client. *)

From Stdlib Require Import ZArith Lia Ascii String.
From stdpp Require Import base list strings gmap fin_maps.
From S2P Require Import Prelude Base64 Utf8 JsonText Decimal Json Packet PacketSpec PacketProps.
From S2P Require Import Fmt Pipeline Cipher Crypto UDPServer UDPServerSpec UDPServerProps.
From S2P Require Import Throttle UDPClient UDPClientProps.
Open Scope Z_scope.

Section network.
Context {Ec Es : Type} `{R : Resolver}.
Variable pc : Processor (CliState Ec).
Variable ps : Processor (SvrState Es).
Hypothesis client_plain :
  transforms (DataProcessor pc) "_out_" = [] /\ transforms (DataProcessor pc) "_in_" = [].
Hypothesis server_plain :
  transforms (DataProcessor ps) "_in_" = [] /\ transforms (DataProcessor ps) "_out_" = [].

(** A callback's effect on the response leaves its destination and reference
    alone and keeps the metadata printable. *)
Record well_behaved (f : APkt -> APkt -> APkt) : Prop := {
  wb_dest : forall q r, a_dest (f q r) = a_dest r;
  wb_ref : forall q r, a_meta (f q r) !! KeyRef = a_meta r !! KeyRef;
  wb_utf8 : forall q r, utf8_map (a_meta r) -> utf8_map (a_meta (f q r));
}.

(** The packet's data has been committed with [Close]. *)
Definition committed (a : APkt) : Prop := a_data a = s_of_b (Base64.encode (a_buff a)).

(** The server's part: request in, response datagram out. *)
Lemma server_answers m b sender addr ws cb f :
  inv [] ws -> sendStream ws = [] -> utf8_map m -> answers cb f ->
  callbackQueues (PacketProcessor ps) !! default ""%string (m !! KeyTarget) = Some [cb] ->
  well_behaved f -> ResolveUDPAddr sender = Some addr ->
  exists ws1 r ws2 d,
    processIncoming ps (datagram m b) sender ws = Ok (tt, ws1) /\ sendStream ws1 = [r] /\
    processOutgoing ps r
      (mk_SvrState (s_heap ws1) (s_ext ws1) [] (writeStream ws1) (closed ws1)) = Ok (tt, ws2) /\
    inv [] ws2 /\ sendStream ws2 = [] /\
    let resp := f (request m b) (fresh_pkt (default ""%string (m !! KeyRef)) sender d) in
    writeStream ws2 = writeStream ws
      ++ [mk_writePacket (datagram (a_meta resp) (a_buff resp)) addr].
Proof.
  intros I Hs Hm Hcb Ht Hf Hr. destruct server_plain as [Hin Hout].
  destruct (wp_inv _ _ _ (request_sent ps Hin m b sender ws cb f I Hm Hcb Ht))
    as ([] & ws1 & Hrun1 & I1 & E1 & W1 & l & x & S1 & A1 & d & ->).
  rewrite Hs in S1. simpl in S1.
  assert (I1' := inv_receive ws1 [] l [] I1 S1).
  destruct (wp_inv _ _ _ (outgoing_sent ps l _ _ Hout I1' A1))
    as ([] & ws2 & Hrun2 & I2 & E2 & S2 & P2 & W2). simpl in *.
  rewrite W1, (wb_dest _ Hf) in W2. simpl in W2. rewrite Hr in W2.
  exists ws1, l, ws2, d. rewrite W2. by split_and!.
Qed.

Lemma fresh_pkt_utf8 (m : gmap string string) dst d ref :
  utf8_map m -> m !! KeyRef = Some ref -> utf8_map (a_meta (fresh_pkt ref dst d)).
Proof.
  intros Hm Hr k v Hk. simpl in Hk. apply lookup_singleton_Some in Hk as [<- <-].
  by apply (Hm KeyRef ref).
Qed.

Lemma send_pkt_lookup {E} a (w : CliState E) :
  a_meta (send_pkt a w) !! KeyRef = Some (send_ref a w).
Proof.
  unfold send_pkt, send_ref. destruct (String.eqb_spec (a_get KeyRef a) "") as [He|Hne].
  - simpl. by rewrite lookup_insert_eq.
  - unfold a_get in *. by destruct (a_meta a !! KeyRef).
Qed.

(** A request is answered on its channel: a committed packet sent by a
    client to a server whose target has a callback that fills in the response
    comes back, through both wire encodings, as the response with the callback's
    metadata and data, delivered on the channel the caller gave to [Send]. *)
Theorem request_response wc ws pkt a ch caddr addr saddr cb f :
  heap_good wc -> abs (cl_heap wc) pkt = Some a -> committed a ->
  utf8_map (a_meta (send_pkt a wc)) ->
  inv [] ws -> sendStream ws = [] ->
  callbackQueues (PacketProcessor ps) !! a_get KeyTarget (send_pkt a wc) = Some [cb] ->
  answers cb f -> well_behaved f -> ResolveUDPAddr caddr = Some addr ->
  exists wc1 data ref ws1 r ws2 data' wc2 l resp,
    Send pc pkt (Some ch) wc = Ok (None, wc1) /\
    cl_writeStream wc1 = cl_writeStream wc ++ [mk_cwritePacket data (Some ch) ref] /\
    processIncoming ps data caddr ws = Ok (tt, ws1) /\ sendStream ws1 = [r] /\
    processOutgoing ps r
      (mk_SvrState (s_heap ws1) (s_ext ws1) [] (writeStream ws1) (closed ws1)) = Ok (tt, ws2) /\
    writeStream ws2 = writeStream ws ++ [mk_writePacket data' addr] /\
    processIncoming_send pc saddr data' wc1 = Ok (Some (ToRequest ch l ref), wc2) /\
    abs (cl_heap wc2) l = Some (request (a_meta resp) (a_buff resp)) /\
    exists d, resp = f (request (a_meta (send_pkt a wc)) (a_buff a)) (fresh_pkt ref caddr d).
Proof.
  intros Hg Ha Hc Hu I Hs Ht Hcb Hf Hr. destruct client_plain as [Hout Hin].
  set (m := a_meta (send_pkt a wc)) in *. set (ref := send_ref a wc).
  assert (Href : m !! KeyRef = Some ref) by apply send_pkt_lookup.
  destruct (wp_inv _ _ _ (Send_registers pc pkt (Some ch) wc a Hout Hg Ha))
    as (o & wc1 & Hsend & -> & Hg1 & _ & R1 & S1). unfold send_wire in S1. rewrite Hc in S1.
  destruct (server_answers m (a_buff a) caddr addr ws cb f I Hs Hu Hcb Ht Hf Hr)
    as (ws1 & r & ws2 & d & Hrun1 & Hs1 & Hrun2 & _ & _ & W2).
  rewrite Href in W2. simpl in W2.
  set (resp := f (request m (a_buff a)) (fresh_pkt ref caddr d)) in *.
  assert (Hu2 : utf8_map (a_meta resp)) by (apply (wb_utf8 _ Hf); by eapply fresh_pkt_utf8).
  assert (Hr2 : a_meta resp !! KeyRef = Some ref).
  { unfold resp. rewrite (wb_ref _ Hf). apply lookup_singleton_eq. }
  destruct (wp_inv _ _ _ (processIncoming_spec pc saddr (a_meta resp) (a_buff resp) wc1 Hin Hg1 Hu2))
    as (o & wc2 & Hrun3 & l & -> & _ & A2 & _).
  unfold route in Hrun3. rewrite Hr2 in Hrun3. simpl in Hrun3.
  rewrite R1, lookup_insert_eq in Hrun3.
  eexists wc1, _, ref, ws1, r, ws2, _, wc2, l, resp. eauto 20.
Qed.
End network.
