(* ===== verification/ThrottledServer.v ===== *)
(** * ThrottledServer: the UDP server on its throttle

    [ServerThreads] takes its datagrams from the environment and puts what it
    writes on a list.  In the program both go through the throttle: the five
    [readPkts] routines call [ReadFrom], and [writePkts], the only caller of
    [WriteTo], waits for the status of one datagram before it takes the next.
    Here the two models are put together; only the connection is left to the
    environment. *)

From Stdlib Require Import ZArith Lia Ascii String.
From stdpp Require Import base list strings gmap fin_maps relations.
From S2P Require Import Prelude Base64 Utf8 JsonText Decimal Json Packet PacketSpec PacketProps.
From S2P Require Import Fmt Pipeline Cipher Crypto UDPServer UDPServerSpec UDPServerProps.
From S2P Require Import UDPClient Network ServerThreads ServerThreadsProps Throttle ThrottleProps ThrottleHist.
Open Scope Z_scope.

(** [writePkts]: it waits for a datagram, holds one, or waits for the status of
    its call of [WriteTo]. *)
Inductive writer :=
  | WIdle
  | WHolds (d : writePacket)
  | WAwaits (ch : nat).

Section throttled.
Context {E : Type} `{R : Resolver}.
Abbreviation W := (SvrState E).

Record TServer := mk_TServer {
  core : Threads E;
  net : System;
  wpkts : writer;
  hist : list event;      (* what happened at the throttle so far *)
}.

Inductive tsv_step (p : Processor W) (adm : bytes -> Prop) : TServer -> TServer -> Prop :=
  | tv_handlers c c' n wr h :
      (* a handler goes on or ends, or sendPkts starts one *)
      th_step p (fun _ => False) c c' -> th_readers c' = th_readers c -> th_wire c' = th_wire c ->
      tsv_step p adm (mk_TServer c n wr h) (mk_TServer c' n wr h)
  | tv_conn c n n' wr h e :
      (* the throttle's read or write routine *)
      conn_event adm (rbuffSize (th n)) e -> step e n = Some n' ->
      tsv_step p adm (mk_TServer c n wr h) (mk_TServer c n' wr (h ++ [e]))
  | tv_read w ts k out n n' wr h rp :
      (* readPkts: ReadFrom returns data *)
      ReadFrom n = Some (rp, n') -> r_err rp = None ->
      tsv_step p adm (mk_TServer (mk_Threads w ts (S k) out) n wr h)
        (mk_TServer (mk_Threads w (ts ++ [incoming_prog p (r_data rp) (r_sender rp)]) (S k) out) n' wr
           (h ++ [EvReadFrom]))
  | tv_read_error w ts k out n n' wr h rp e :
      (* readPkts: ReadFrom returns an error, the reader returns *)
      ReadFrom n = Some (rp, n') -> r_err rp = Some e ->
      (k = 0%nat -> sendStream w = [] /\ writeStream w = []) ->
      tsv_step p adm (mk_TServer (mk_Threads w ts (S k) out) n wr h)
        (mk_TServer (mk_Threads (mk_SvrState (s_heap w) (s_ext w) (sendStream w) (writeStream w)
                       (closed w || (k =? 0)%nat)) ts k out) n' wr (h ++ [EvReadFrom]))
  | tv_take w ts k out n h q1 d q2 :
      (* writePkts receives a datagram *)
      writeStream w = q1 ++ d :: q2 ->
      tsv_step p adm (mk_TServer (mk_Threads w ts k out) n WIdle h)
        (mk_TServer (mk_Threads (mk_SvrState (s_heap w) (s_ext w) (sendStream w) (q1 ++ q2) (closed w))
                       ts k (out ++ [d])) n (WHolds d) h)
  | tv_call c n n' d ch h :
      (* it calls WriteTo *)
      WriteTo (w_data d) (w_addr d) n = Some (ch, n') ->
      tsv_step p adm (mk_TServer c n (WHolds d) h)
        (mk_TServer c n' (WAwaits ch) (h ++ [EvWriteTo (w_data d) (w_addr d)]))
  | tv_return c n ch st h :
      (* the status is there; the server ignores it *)
      WriteTo_status ch n = Some st ->
      tsv_step p adm (mk_TServer c n (WAwaits ch) h) (mk_TServer c n WIdle h).

(** [NewUDPServer] and the start of [Serve]. *)
Definition tsv_init (w : W) (t : UDPThrottle) (now : Z) : TServer :=
  mk_TServer (threads_init w) (sys_init t now) WIdle [].

(** ** The invariant *)

(** The datagrams on their way, as the throttle takes them. *)
Definition wire_pair (d : writePacket) : bytes * string := (w_data d, w_addr d).

Definition in_hand (wr : writer) : list (bytes * string) :=
  match wr with WHolds d => [wire_pair d] | _ => [] end.

Definition awaited (wr : writer) : option nat := match wr with WAwaits ch => Some ch | _ => None end.

(** Read errors the readers have been given. *)
Definition is_error (rp : readPkt) : bool := match r_err rp with Some _ => true | None => false end.
Definition errors (h : list event) (s0 : System) : nat := length (List.filter is_error (delivered h s0)).

Lemma errors_snoc h e n s0 :
  run h s0 = Some n ->
  errors (h ++ [e]) s0
  = (errors h s0
     + length (List.filter is_error match e, ReadFrom n with EvReadFrom, Some (q, _) => [q] | _, _ => [] end))%nat.
Proof.
  intros Hr. unfold errors. by rewrite (delivered_snoc _ _ _ _ Hr), List.filter_app, length_app.
Qed.

Variables (p : Processor W) (adm : bytes -> Prop).
Variables (r : Z) (size : nat) (t : UDPThrottle) (now : Z).
Hypothesis t_made : NewUDPThrottle r size = Ok t.
Abbreviation fits := (fits adm size).
Abbreviation quiet := (quiet size).

Record tsv_ok (s : TServer) : Prop := {
  tv_net : net_ok adm size t now (hist s) (net s);
  tv_wire : requests (hist s) ++ in_hand (wpkts s) = wire_pair <$> th_wire (core s);
  tv_pending : pending_ok (awaited (wpkts s)) (hist s);
  tv_readers : (th_readers (core s) + errors (hist s) (sys_init t now) = 5)%nat;
}.

(** A call of [ReadFrom] that gives [rp]. *)
Lemma tsv_ok_read c c' n n' wr h rp :
  tsv_ok (mk_TServer c n wr h) -> ReadFrom n = Some (rp, n') -> th_wire c' = th_wire c ->
  th_readers c = (th_readers c' + length (List.filter is_error [rp]))%nat ->
  tsv_ok (mk_TServer c' n' wr (h ++ [EvReadFrom])).
Proof.
  intros [O1 O2 O3 O4] Hr Hw Hn. simpl in *. split; simpl.
  - eapply net_snoc; [done | by right | by eapply step_ReadFrom].
  - by rewrite requests_snoc, app_nil_r, Hw.
  - by apply pending_read.
  - rewrite (errors_snoc h EvReadFrom n) by apply O1. rewrite Hr. simpl in *. lia.
Qed.

Lemma tsv_step_ok s s' :
  tsv_step p adm s s' -> tsv_ok s -> tsv_ok s' /\ rtc (th_step p fits) (core s) (core s').
Proof.
  intros Hs O. pose proof O as [O1 O2 O3 O4]. destruct Hs as [c c' n wr h Hs Hrd Hwi | c n n' wr h e He Hs
    | w ts k out n n' wr h rp Hrf Her | w ts k out n n' wr h rp e Hrf Her Hz
    | w ts k out n h q1 d q2 Hq | c n n' d ch h Hc | c n ch st h Hst]; simpl in *.
  - split; [by split; simpl; rewrite ?Hwi, ?Hrd|]. apply rtc_once. destruct Hs; try done; by constructor.
  - split; [|done]. rewrite (nk_size _ _ _ _ _ _ O1) in He. split; simpl.
    + eapply net_snoc; [done | by left | done].
    + by rewrite (conn_requests adm size h e He).
    + by eapply pending_conn.
    + rewrite (errors_snoc h e n) by apply O1. destruct e; try done; by rewrite Nat.add_0_r.
  - pose proof (ReadFrom_fits _ _ _ _ _ t_made _ _ rp n' O1 Hrf Her) as Had.
    split; [|apply rtc_once; apply th_read; [lia | done]].
    eapply tsv_ok_read; [done | done | done |]. unfold is_error. simpl. rewrite Her. simpl. lia.
  - split; [|apply rtc_once; by apply th_read_error].
    eapply tsv_ok_read; [done | done | done |]. unfold is_error. simpl. rewrite Her. simpl. lia.
  - split; [|apply rtc_once; by apply th_write]. split; simpl; try done.
    rewrite fmap_app, <- O2. by rewrite app_nil_r.
  - split; [|done]. split; simpl; try done.
    + eapply net_snoc; [done | by right | by eapply step_WriteTo].
    + rewrite requests_snoc. simpl. by rewrite app_nil_r.
    + by eapply (pending_call _ _ _ _ _ t_made).
    + rewrite (errors_snoc h _ n) by apply O1. simpl. by rewrite Nat.add_0_r.
  - split; [|done]. split; simpl; try done. by eapply (pending_return _ _ _ _ _ t_made).
Qed.

Lemma tsv_init_ok w : tsv_ok (tsv_init w t now).
Proof. split; simpl; try done. by eapply net_init. Qed.

Lemma tsv_reach w s :
  rtc (tsv_step p adm) (tsv_init w t now) s ->
  tsv_ok s /\ rtc (th_step p fits) (threads_init w) (core s).
Proof.
  intros Hr. apply (rtc_simulate (tsv_step p adm) (th_step p fits) core tsv_ok tsv_step_ok _ _ Hr).
  apply tsv_init_ok.
Qed.

(** ** Every interleaving is possible on the throttle *)

Lemma quiet_read w ts k out n h a s' :
  quiet n -> arrival_ok adm size a ->
  (forall n1 n2 h', ReadFrom n1 = Some (received size a, n2) ->
     tsv_step p adm (mk_TServer (mk_Threads w ts (S k) out) n1 WIdle h') (mk_TServer s' n2 WIdle (h' ++ [EvReadFrom]))) ->
  exists n' h', rtc (tsv_step p adm) (mk_TServer (mk_Threads w ts (S k) out) n WIdle h)
    (mk_TServer s' n' WIdle h') /\ quiet n' /\ arrivals h' = arrivals h ++ [a].
Proof.
  intros Q Ha Hs. destruct (read_one size a n Q) as (n1 & n2 & H1 & H2 & Q2).
  do 2 eexists. split; [|split; [exact Q2|]].
  - eapply rtc_l; [eapply tv_conn; [|exact H1] | apply rtc_once, Hs, H2].
    simpl. rewrite (q_size _ _ Q). by destruct a.
  - rewrite !arrivals_snoc. cbn. by rewrite app_nil_r.
Qed.

Lemma quiet_write w ts k out n h q1 d q2 :
  quiet n -> writeStream w = q1 ++ d :: q2 ->
  exists n' h', rtc (tsv_step p adm) (mk_TServer (mk_Threads w ts k out) n WIdle h)
    (mk_TServer (mk_Threads (mk_SvrState (s_heap w) (s_ext w) (sendStream w) (q1 ++ q2) (closed w))
       ts k (out ++ [d])) n' WIdle h') /\ quiet n' /\ arrivals h' = arrivals h.
Proof.
  intros Q Hq.
  destruct (write_one size (w_data d) (w_addr d) (mk_writeStatus (Z.of_nat (length (w_data d))) None) n Q)
    as (ch & n1 & n2 & H1 & H2 & H3 & Q2).
  do 2 eexists. split; [|split; [exact Q2|]].
  - eapply rtc_l; [by apply tv_take|]. eapply rtc_l; [by apply tv_call|].
    eapply rtc_l; [by eapply tv_conn; [|exact H2] | by eapply rtc_once, tv_return].
  - rewrite !arrivals_snoc. cbn. by rewrite !app_nil_r.
Qed.

Lemma quiet_datagram w ts k out n h data sender :
  quiet n -> fits data ->
  exists n' h', rtc (tsv_step p adm) (mk_TServer (mk_Threads w ts (S k) out) n WIdle h)
    (mk_TServer (mk_Threads w (ts ++ [incoming_prog p data sender]) (S k) out) n' WIdle h') /\
    quiet n' /\ arrivals h' = arrivals h ++ [Datagram data sender].
Proof.
  intros Q [Hd Hl]. apply quiet_read; [done | simpl; by rewrite take_ge|].
  intros n1 n2 h' H. simpl in H. rewrite take_ge in H by done.
  exact (tv_read p adm w ts k out n1 n2 WIdle h' _ H eq_refl).
Qed.

Lemma quiet_step c c' n h :
  quiet n -> th_step p fits c c' ->
  exists n' h', rtc (tsv_step p adm) (mk_TServer c n WIdle h) (mk_TServer c' n' WIdle h') /\ quiet n'.
Proof.
  intros Q Hs. destruct Hs as [w ts k out data sender Hk [Hd Hl] | w w' t1 B m f b t2 k out Hm
    | w t1 t2 k out | w ts k out q1 l q2 Hq | w ts k out q1 d q2 Hq | w ts k out Hc].
  - destruct k as [|k]; [lia|].
    destruct (quiet_datagram w ts k out n h data sender Q (conj Hd Hl)) as (n' & h' & Hr & Q' & _). eauto.
  - exists n, h. split; [|done]. apply rtc_once, tv_handlers; [by apply th_act | done | done].
  - exists n, h. split; [|done]. apply rtc_once, tv_handlers; [by apply th_end | done | done].
  - exists n, h. split; [|done]. apply rtc_once, tv_handlers; [by apply th_recv | done | done].
  - destruct (quiet_write w ts k out n h q1 d q2 Q Hq) as (n' & h' & Hr & Q' & _). eauto.
  - destruct (quiet_read w ts k out n h (ReadError "") (mk_Threads (mk_SvrState (s_heap w) (s_ext w)
      (sendStream w) (writeStream w) (closed w || (k =? 0)%nat)) ts k out) Q I) as (n' & h' & Hr & Q' & _); [|eauto].
    intros n1 n2 h' H. exact (tv_read_error p adm w ts k out n1 n2 WIdle h' _ _ H eq_refl Hc).
Qed.

Lemma quiet_reach c c' n h :
  rtc (th_step p fits) c c' -> quiet n ->
  exists n' h', rtc (tsv_step p adm) (mk_TServer c n WIdle h) (mk_TServer c' n' WIdle h') /\ quiet n'.
Proof.
  intros Hr. revert n h. induction Hr as [c|c c1 c' Hs Hr IH]; intros n h Q; [by exists n, h|].
  destruct (quiet_step c c1 n h Q Hs) as (n1 & h1 & Hs1 & Q1). destruct (IH n1 h1 Q1) as (n2 & h2 & Hs2 & Q2).
  exists n2, h2. split; [by etransitivity | done].
Qed.

(** At most one datagram is between [writePkts] and the connection. *)
Lemma one_outstanding s :
  tsv_ok s -> (length (sendq (th (net s))) + length (in_hand (wpkts s)) <= 1)%nat.
Proof.
  intros O. pose proof (pending_sendq _ _ _ _ _ t_made _ _ _ (tv_net _ O) (tv_pending _ O)) as H.
  destruct (wpkts s); simpl in *; lia.
Qed.

Lemma wire_order s :
  tsv_ok s ->
  wire_pair <$> th_wire (core s)
  = sys_out (net s) ++ ((fun q => (p_data q, p_to q)) <$> sendq (th (net s))) ++ in_hand (wpkts s).
Proof. intros O. by rewrite <- (tv_wire _ O), <- (wo_out _ _ _ (net_writes _ _ _ _ _ t_made _ _ (tv_net _ O))), <- app_assoc. Qed.

Lemma th_step_mono (adm1 adm2 : bytes -> Prop) c c' :
  (forall d, adm1 d -> adm2 d) -> th_step p adm1 c c' -> th_step p adm2 c c'.
Proof. intros H [ | | | | | ]; try by constructor. constructor; [done | by apply H]. Qed.

Lemma tsv_core admp w s :
  processor_safe adm admp p -> inv [] w -> rtc (tsv_step p adm) (tsv_init w t now) s ->
  (0 < th_readers (core s))%nat -> threads_ok (core s).
Proof.
  intros Hp I Hr Hn. destruct (tsv_reach w s Hr) as [_ Hc].
  eapply (threads_reach adm admp p w); [done | done | | done].
  revert Hc. apply rtc_subrel. intros c c'. apply th_step_mono. by intros d [H _].
Qed.

(** A handler that is not interrupted. *)
Lemma handler_steps th1 w w' k out n wr h :
  run_thread th1 w = Ok (tt, w') ->
  rtc (tsv_step p adm) (mk_TServer (mk_Threads w [th1] k out) n wr h) (mk_TServer (mk_Threads w' [] k out) n wr h).
Proof.
  revert w. induction th1 as [|B m f IH]; intros w Hrun.
  - injection Hrun as <-. apply rtc_once, tv_handlers; [|done..]. exact (th_end p _ w [] [] k out).
  - cbn [run_thread] in Hrun. unfold bind in Hrun. destruct (m w) as [[b w1]|] eqn:Em; [|done].
    eapply rtc_l; [|by apply IH]. apply tv_handlers; [|done..]. exact (th_act p _ w w1 [] B m f b [] k out Em).
Qed.

(** A request is answered on the connection: a request datagram that fits
    the read buffer, read from the connection by an idle server whose target has
    a callback that fills in the response, can be taken through the throttle, a
    reader, the handlers, the channels and the throttle again, and what is then
    written to the connection is the response, to the sender's address. *)
Lemma tsv_answers w m b sender addr cb f :
  transforms (DataProcessor p) "_in_" = [] /\ transforms (DataProcessor p) "_out_" = [] ->
  inv [] w -> sendStream w = [] -> writeStream w = [] ->
  utf8_map m -> fits (datagram m b) -> UDPServerProps.answers cb f -> well_behaved f ->
  callbackQueues (PacketProcessor p) !! default ""%string (m !! KeyTarget) = Some [cb] ->
  ResolveUDPAddr sender = Some addr ->
  exists s d, rtc (tsv_step p adm) (tsv_init w t now) s /\
    arrivals (hist s) = [Datagram (datagram m b) sender] /\
    let resp := f (request m b) (fresh_pkt (default ""%string (m !! KeyRef)) sender d) in
    sys_out (net s) = [(datagram (a_meta resp) (a_buff resp), addr)].
Proof.
  intros Hpl I Hs0 Hw0 Hm Hd Hcb Hf Ht Hr.
  destruct (server_answers p Hpl m b sender addr w cb f I Hs0 Hm Hcb Ht Hf Hr)
    as (w1 & l & w2 & d & Hin & Hs1 & Hout & I2 & Hs2 & W2). rewrite Hw0 in W2.
  destruct (quiet_datagram w [] 4 [] _ [] (datagram m b) sender (quiet_init r size t now t_made) Hd) as (n1 & h1 & R1 & Q1 & A1).
  destruct (quiet_write w2 [] 5 [] n1 h1 [] _ [] Q1 W2) as (n2 & h2 & R2 & Q2 & A2).
  assert (Hrun := transitivity (transitivity R1 (handler_steps _ _ _ 5 [] n1 WIdle h1
    (eq_trans (run_incoming p (datagram m b) sender w) Hin)))
    (rtc_l _ _ _ _ (tv_handlers p adm _ _ n1 WIdle h1 (th_recv p _ w1 [] 5 [] [] l [] Hs1) eq_refl eq_refl)
      (transitivity (handler_steps _ _ _ 5 [] n1 WIdle h1 (eq_trans (run_outgoing p l _) Hout)) R2))).
  eexists _, d. split; [exact Hrun|]. split; [simpl; by rewrite A2, A1|].
  pose proof (wire_order _ (proj1 (tsv_reach w _ Hrun))) as Ho. simpl in Ho. rewrite (q_sendq _ _ Q2), app_nil_r in Ho.
  exact (eq_sym Ho).
Qed.
(** ** Theorems *)

(** (C7) The server on its throttle is the server of threads: what its handlers
    and channels do is an execution of the threads on datagrams that fit the
    read buffer, and for every such execution the throttle and the connection
    have one in which all that [writePkts] took is written to the connection. *)
Theorem throttled_equivalent w :
  (forall s, rtc (tsv_step p adm) (tsv_init w t now) s -> rtc (th_step p fits) (threads_init w) (core s)) /\
  (forall c, rtc (th_step p fits) (threads_init w) c ->
    exists s, rtc (tsv_step p adm) (tsv_init w t now) s /\ core s = c /\
      sys_out (net s) = wire_pair <$> th_wire c).
Proof.
  split; [intros s Hs; by apply tsv_reach|]. intros c Hr.
  destruct (quiet_reach _ _ _ [] Hr (quiet_init r size t now t_made)) as (n & h & Hs & Q). eexists. split; [exact Hs|]. split; [done|].
  pose proof (wire_order _ (proj1 (tsv_reach w _ Hs))) as Ho. simpl in *. rewrite Ho, (q_sendq _ _ Q). simpl.
  by rewrite app_nil_r.
Qed.

(** (C19) Input and output of the throttled server: the handlers are given, in
    order and cut to the read buffer, what the connection delivered; what the
    handlers wrote reaches the connection in the order [writePkts] took it, each
    datagram once, and at most one is on the way. *)
Theorem throttled_io w s :
  rtc (tsv_step p adm) (tsv_init w t now) s ->
  run (hist s) (sys_init t now) = Some (net s) /\
  received size <$> arrivals (hist s) = delivered (hist s) (sys_init t now) ++ recv (th (net s)) /\
  wire_pair <$> th_wire (core s)
  = sys_out (net s) ++ ((fun q => (p_data q, p_to q)) <$> sendq (th (net s))) ++ in_hand (wpkts s) /\
  (length (sendq (th (net s))) + length (in_hand (wpkts s)) <= 1)%nat.
Proof.
  intros Hs. destruct (tsv_reach w s Hs) as [O _].
  split_and!; [apply (tv_net _ O) | by eapply net_recv; [|apply O] | by apply wire_order | by apply one_outstanding].
Qed.

(** (C20) The server keeps to its rate under every load: at a rate between one
    and a thousand million per second, no window of [T] nanoseconds contains the
    start of more than [T / (10^9 / r) + 1] reads of the connection, nor of more
    writes, whatever arrives and however the handlers are scheduled. *)
Theorem throttled_rate w s a T :
  0 < r <= sec -> 0 <= T -> rtc (tsv_step p adm) (tsv_init w t now) s ->
  starts_in a T (rd_log (net s)) <= T / (sec / r) + 1 /\
  starts_in a T (wr_log (net s)) <= T / (sec / r) + 1.
Proof.
  intros Hr HT Hs. destruct (tsv_reach w s Hs) as [O _]. by eapply net_rate; [|apply (tv_net _ O)|..].
Qed.

(** (C6) The server on a throttle made by [NewUDPThrottle], started well-formed,
    to which only admissible datagrams arrive, stops at the fifth read error and
    not before: the readers left are five less the errors they were given. Until
    then every packet is owned once and usable, the channels are open, and no
    handler's next action panics; the only panic is that of the last reader's
    return, at the fifth error, while a goroutine waits to send. Admissible
    datagrams (adm) are those for which the processor is safe
    ([processor_safe]): without transforms and with safe callbacks, every
    document that does not set the metadata to null; with the Crypto extension,
    data of at least 12 bytes which, as it is and opened under any key, neither
    sets the metadata to null nor asks for a key exchange with the server with
    an incomplete public key; other datagrams can take the process down
    ([null_meta_panics]). *)
Theorem throttled_safe admp w s :
  processor_safe adm admp p -> inv [] w -> rtc (tsv_step p adm) (tsv_init w t now) s ->
  let errs := errors (hist s) (sys_init t now) in
  (th_readers (core s) + errs = 5)%nat /\
  ((errs < 5)%nat -> threads_ok (core s) /\ closed (state (core s)) = false) /\
  forall e, (errs < 5)%nat -> th_panic (core s) e -> e = SendOnClosed /\ errs = 4%nat.
Proof.
  intros Hp I Hs errs. destruct (tsv_reach w s Hs) as [O _]. pose proof (tv_readers _ O) as Hr. fold errs in Hr.
  assert (Hok : (errs < 5)%nat -> threads_ok (core s)) by (intros; eapply tsv_core; [done..|lia]).
  split_and!; [done | |].
  - intros He. split; [by apply Hok|]. destruct (Hok He) as (os & _ & Iw & _). apply (inv_open _ _ Iw).
  - intros e He Hpan. destruct (threads_ok_panic _ e (Hok He) Hpan) as [-> H1]. split; [done | lia].
Qed.

End throttled.
