(* ===== verification/ThrottledDrain.v ===== *)
(** * ThrottledDrain: the server on its throttle can always finish its work

    From every state the throttled server reaches while it reads, whatever its
    handlers, its channels and its throttle are in the middle of, there is an
    execution in which all handlers return and all they have sent is written to
    the connection: no state is a deadlock.  For servers without outgoing
    transforms; with the cryptographic extension and an unusable key the work
    does not end (see [UDPServerProps]). *)

From Stdlib Require Import ZArith Lia Ascii String.
From stdpp Require Import base list strings gmap fin_maps relations.
From S2P Require Import Prelude Base64 Utf8 JsonText Decimal Json Packet PacketSpec PacketProps.
From S2P Require Import Fmt Pipeline Cipher Crypto UDPServer UDPServerSpec UDPServerProps ServerDrain.
From S2P Require Import ServerThreads ServerThreadsProps Throttle ThrottleProps ThrottleHist ThrottledServer.
Open Scope Z_scope.

Section drain.
Context {E : Type} `{R : Resolver}.
Abbreviation W := (SvrState E).
Variables (p : Processor W) (adm : bytes -> Prop).
Abbreviation tsv := (rtc (tsv_step p adm)).

(** ** Handlers *)

(** A running thread can be run to its end. *)
Lemma thread_finishes t1 t t2 w k out n wr h :
  threads_ok (mk_Threads w (t1 ++ t :: t2) k out) ->
  exists w', tsv (mk_TServer (mk_Threads w (t1 ++ t :: t2) k out) n wr h)
                 (mk_TServer (mk_Threads w' (t1 ++ t2) k out) n wr h) /\
    threads_ok (mk_Threads w' (t1 ++ t2) k out).
Proof.
  revert w. induction t as [|B m f IH]; intros w Hok.
  - exists w. split; [apply rtc_once, tv_handlers; [apply th_end | done | done]|].
    by apply thread_end.
  - pose proof (thread_act _ _ _ _ _ _ _ _ _ Hok) as Hwp. unfold wp in Hwp.
    destruct (m w) as [[b w1]|] eqn:Em; [|done]. destruct (IH b w1 Hwp) as (w' & Hr & Hok').
    exists w'. split; [|done]. eapply rtc_l; [|exact Hr].
    apply tv_handlers; [by apply th_act | done | done].
Qed.

Lemma threads_finish ts w k out n wr h :
  threads_ok (mk_Threads w ts k out) ->
  exists w', tsv (mk_TServer (mk_Threads w ts k out) n wr h) (mk_TServer (mk_Threads w' [] k out) n wr h) /\
    inv [] w'.
Proof.
  revert w. induction ts as [|t ts IH]; intros w Hok.
  - exists w. split; [done|]. destruct Hok as (os & Hts & Iw & _). by apply Forall2_nil_inv_l in Hts as ->.
  - destruct (thread_finishes [] t ts w k out n wr h Hok) as (w1 & R1 & Hok1).
    destruct (IH w1 Hok1) as (w2 & R2 & I2). exists w2. split; [by etransitivity | done].
Qed.

(** ** Packets that wait to be sent *)

Hypothesis no_out : transforms (DataProcessor p) "_out_" = [].

Lemma sends_finish q w k out n wr h :
  sendStream w = q -> inv [] w ->
  exists w', tsv (mk_TServer (mk_Threads w [] k out) n wr h) (mk_TServer (mk_Threads w' [] k out) n wr h) /\
    inv [] w' /\ sendStream w' = [].
Proof.
  revert w. induction q as [|l q IH]; intros w Hq I; [by exists w|].
  assert (I1 := inv_receive w [] l q I Hq). destruct (inv_owned _ _ l I1 ltac:(by left)) as [a Ha]. simpl in Ha.
  destruct (wp_inv _ _ _ (outgoing_form p no_out l a _ I1 Ha)) as ([] & w1 & Hrun & I' & S' & _). simpl in S'.
  destruct (IH w1 S' I') as (w2 & R2 & I2 & S2). exists w2. split; [|done].
  eapply rtc_l; [apply tv_handlers; [exact (th_recv p _ w [] k out [] l q Hq) | done | done]|].
  etransitivity; [|exact R2]. apply handler_steps. by rewrite run_outgoing.
Qed.

(** ** The writer and the throttle *)

(** The datagram [writePkts] holds or waits for is written. *)
Lemma call_finishes c n d h :
  sendq (th n) = [] ->
  exists n' h', tsv (mk_TServer c n (WHolds d) h) (mk_TServer c n' WIdle h') /\ sendq (th n') = [].
Proof.
  intros Hq. set (st := mk_writeStatus (Z.of_nat (length (w_data d))) None).
  assert (exists ch n1 n2, WriteTo (w_data d) (w_addr d) n = Some (ch, n1) /\
    step (EvWrite (wr_ready n1) 0 st) n1 = Some n2 /\ WriteTo_status ch n2 = Some st /\ sendq (th n2) = [])
    as (ch & n1 & n2 & H1 & H2 & H3 & H4).
  { unfold WriteTo. rewrite Hq. do 3 eexists. split_and!; [done | | |].
    - cbn [step th sendq set_sendq app]. by rewrite Z.leb_refl.
    - unfold WriteTo_status. simpl. apply lookup_insert_eq.
    - done. }
  do 2 eexists. split; [|exact H4]. eapply rtc_l; [by apply tv_call|].
  eapply rtc_l; [by eapply tv_conn; [|exact H2] | by eapply rtc_once, tv_return].
Qed.

Lemma writes_finish q w k out n h :
  writeStream w = q -> inv [] w -> sendStream w = [] -> sendq (th n) = [] ->
  exists w' n' h', tsv (mk_TServer (mk_Threads w [] k out) n WIdle h)
      (mk_TServer (mk_Threads w' [] k (out ++ q)) n' WIdle h') /\
    inv [] w' /\ sendStream w' = [] /\ writeStream w' = [] /\ sendq (th n') = [].
Proof.
  revert w out n h. induction q as [|d q IH]; intros w out n h Hq I Hs Hn.
  { exists w, n, h. rewrite app_nil_r. by split_and!. }
  set (w1 := mk_SvrState (s_heap w) (s_ext w) (sendStream w) ([] ++ q) (closed w)).
  assert (I1 : inv [] w1) by (by destruct I).
  destruct (call_finishes (mk_Threads w1 [] k (out ++ [d])) n d h Hn) as (n1 & h1 & R1 & Q1).
  destruct (IH w1 (out ++ [d]) n1 h1 eq_refl I1 Hs Q1) as (w' & n' & h' & R2 & H2).
  rewrite <- app_assoc in R2. exists w', n', h'. split; [|done].
  eapply rtc_l; [exact (tv_take p adm w [] k out n h [] d q Hq) | by etransitivity].
Qed.

Section reached.
Variables (r : Z) (size : nat) (t : UDPThrottle) (now : Z).
Hypothesis t_made : NewUDPThrottle r size = Ok t.

(** Whatever the writer does, it gets back to waiting for a datagram. *)
Lemma writer_finishes s :
  tsv_ok adm size t now s ->
  exists n' h', tsv s (mk_TServer (core s) n' WIdle h') /\ sendq (th n') = [].
Proof.
  intros O. destruct s as [c n [|d|ch] h].
  - exists n, h. split; [done|]. pose proof (one_outstanding adm r size t now t_made _ O) as H.
    pose proof (pending_sendq _ _ _ _ _ t_made _ _ _ (tv_net _ _ _ _ _ O) (tv_pending _ _ _ _ _ O)) as Hq.
    simpl in *. by destruct (sendq (th n)); [|simpl in Hq; lia].
  - pose proof (pending_sendq _ _ _ _ _ t_made _ _ _ (tv_net _ _ _ _ _ O) (tv_pending _ _ _ _ _ O)) as Hq.
    simpl in Hq. apply call_finishes. by destruct (sendq (th n)); [|simpl in Hq; lia].
  - pose proof (tv_net _ _ _ _ _ O) as On. pose proof (tv_pending _ _ _ _ _ O) as Hp. simpl in On, Hp.
    pose proof (pending_sendq _ _ _ _ _ t_made (Some ch) _ _ On Hp) as Hq.
    pose proof (net_writes _ _ _ _ _ t_made _ _ On) as [W1 W2 W3 W4 W5]. destruct Hp as [P1 P2].
    apply (f_equal length) in W1. rewrite length_app, length_fmap in W1.
    destruct (sendq (th n)) as [|x q] eqn:Eq.
    + assert (exists st, WriteTo_status ch n = Some st) as [st Hst].
      { unfold WriteTo_status. rewrite W5. apply lookup_lt_is_Some. simpl in W1. lia. }
      exists n, h. split; [by eapply rtc_once, tv_return | done].
    + destruct q; [|simpl in Hq; lia]. set (st := mk_writeStatus 0 None).
      assert (Hs : step (EvWrite (wr_ready n) 0 st) n = Some (write_round (wr_ready n) 0 st x [] n)).
      { cbn [step]. rewrite Eq, Z.leb_refl. done. }
      simpl in W3. injection W3 as W3. exists (write_round (wr_ready n) 0 st x [] n), (h ++ [EvWrite (wr_ready n) 0 st]).
      split; [|done]. eapply rtc_l; [by eapply tv_conn; [|exact Hs]|]. eapply rtc_once, (tv_return p adm _ _ ch st).
      unfold WriteTo_status. simpl. rewrite W3. assert (length (answers h) = ch) as -> by (simpl in W1; lia).
      apply lookup_insert_eq.
Qed.

(** (C18) The server can always finish: from every state that a server without
    outgoing transforms, started well-formed, reaches on a throttle made by
    [NewUDPThrottle] with only admissible datagrams and fewer than five read
    errors, there is an execution in which all handlers return, nothing waits to
    be sent or written, and the connection has been given everything [writePkts]
    took, in order. Admissible datagrams (adm) are those for which the processor
    is safe ([processor_safe]): with safe callbacks and no incoming transforms,
    every document that does not set the metadata to null. *)
Theorem throttled_drains admp w s :
  processor_safe adm admp p -> inv [] w -> tsv (tsv_init w t now) s ->
  (errors (hist s) (sys_init t now) < 5)%nat ->
  exists s', tsv s s' /\ threads (core s') = [] /\ sendStream (state (core s')) = [] /\
    writeStream (state (core s')) = [] /\ wpkts s' = WIdle /\
    sys_out (net s') = wire_pair <$> th_wire (core s').
Proof.
  intros Hp I Hs He. destruct (tsv_reach p adm r size t now t_made w s Hs) as [O _].
  pose proof (tv_readers _ _ _ _ _ O) as Hrd.
  assert (Hok : threads_ok (core s)) by (eapply (tsv_core p adm r size t now t_made admp w); [done..|lia]).
  destruct (writer_finishes s O) as (n1 & h1 & R1 & Q1). destruct (core s) as [v ts k out] eqn:Ec.
  destruct (threads_finish ts v k out n1 WIdle h1 Hok) as (w2 & R2 & I2).
  destruct (sends_finish _ w2 k out n1 WIdle h1 eq_refl I2) as (w3 & R3 & I3 & S3).
  destruct (writes_finish _ w3 k out n1 h1 eq_refl I3 S3 Q1) as (w4 & n4 & h4 & R4 & I4 & S4 & V4 & Q4).
  assert (Rall : tsv s (mk_TServer (mk_Threads w4 [] k (out ++ writeStream w3)) n4 WIdle h4)).
  { etransitivity; [exact R1|]. etransitivity; [exact R2|]. by etransitivity. }
  eexists. split; [exact Rall|]. simpl. split_and!; try done.
  pose proof (wire_order adm r size t now t_made _
    (proj1 (tsv_reach p adm r size t now t_made w _ (transitivity Hs Rall)))) as Ho.
  simpl in Ho. rewrite Q4, app_nil_r in Ho. by rewrite Ho.
Qed.
End reached.
End drain.
