(* ===== verification/ThrottledClient.v ===== *)
(** * ThrottledClient: the UDP client on its throttle

    [UDPClient.cli_step] lets the connection deliver any data and fail at will.
    Here [recv] calls the throttle's [ReadFrom], and [write] hands each element
    to [WriteTo] and waits for its status; only the connection is left to the
    environment. *)

From Stdlib Require Import ZArith Lia Ascii String.
From stdpp Require Import base list strings gmap fin_maps relations.
From S2P Require Import Prelude Base64 Utf8 JsonText Decimal Json Packet PacketSpec PacketProps.
From S2P Require Import Fmt Pipeline Cipher Crypto UDPServerSpec UDPServerProps.
From S2P Require Import Throttle ThrottleProps ThrottleHist UDPClient UDPClientProps.
Open Scope Z_scope.

Section throttled.
Context {E : Type}.
Abbreviation W := (CliState E).
Abbreviation answers := ThrottleProps.answers.

Record TClient := mk_TClient {
  tc : Client E;
  tc_net : System;
  tc_wait : option nat;     (* write waits for the status on this channel *)
  tc_hist : list event;     (* what happened at the throttle so far *)
}.

Inductive tcl_step (p : Processor W) (addr : string) (adm : bytes -> Prop) : TClient -> TClient -> Prop :=
  | tl_local c u g c' n wt h :
      cli_local p addr c u g c' -> tcl_step p addr adm (mk_TClient c n wt h) (mk_TClient c' n wt h)
  | tl_conn c n n' wt h e :
      (* the throttle's read or write routine *)
      conn_event adm (rbuffSize (th n)) e -> step e n = Some n' ->
      tcl_step p addr adm (mk_TClient c n wt h) (mk_TClient c n' wt (h ++ [e]))
  | tl_read c n n' wt h rp :
      receiving c = RReads -> ReadFrom n = Some (rp, n') -> r_err rp = None ->
      tcl_step p addr adm (mk_TClient c n wt h)
        (mk_TClient (set_receiving RChecks (set_incoming (incoming c ++ [r_data rp]) c)) n' wt (h ++ [EvReadFrom]))
  | tl_read_error c n n' wt h rp err :
      (* read errors are ignored *)
      receiving c = RReads -> ReadFrom n = Some (rp, n') -> r_err rp = Some err ->
      tcl_step p addr adm (mk_TClient c n wt h) (mk_TClient (set_receiving RChecks c) n' wt (h ++ [EvReadFrom]))
  | tl_call c n n' h x ch :
      writing c = CWrites x -> WriteTo (cw_data x) addr n = Some (ch, n') ->
      tcl_step p addr adm (mk_TClient c n None h)
        (mk_TClient c n' (Some ch) (h ++ [EvWriteTo (cw_data x) addr]))
  | tl_written c n h x ch st :
      writing c = CWrites x -> WriteTo_status ch n = Some st -> w_err st = None ->
      tcl_step p addr adm (mk_TClient c n (Some ch) h)
        (mk_TClient (log_outcome (x, None) (set_writing CIdle c)) n None h)
  | tl_fail c w' n h x ch st err rc l :
      writing c = CWrites x -> WriteTo_status ch n = Some st -> w_err st = Some err ->
      cw_respCh x = Some rc -> write_error err (cli c) = Ok (l, w') ->
      tcl_step p addr adm (mk_TClient c n (Some ch) h)
        (mk_TClient (log_outcome (x, Some err) (set_writing (CErring rc l) (set_cli w' c))) n None h)
  | tl_fail_nil c n h x ch st err :
      writing c = CWrites x -> WriteTo_status ch n = Some st -> w_err st = Some err ->
      cw_respCh x = None ->
      tcl_step p addr adm (mk_TClient c n (Some ch) h)
        (mk_TClient (log_outcome (x, Some err) (set_writing CIdle c)) n None h).

(** [NewUDPClient] with its throttle. *)
Definition tcl_init (w : W) (t : UDPThrottle) (now : Z) : TClient :=
  mk_TClient (client_start w) (sys_init t now) None [].

(** ** Error packets *)

(** The channels of the failed writes of callers that gave one, in order. *)
Definition failed (os : list (cwritePacket * option string)) : list nat :=
  omap (fun o => match o.2 with Some _ => cw_respCh o.1 | None => None end) os.

Definition erring (v : cwriter) : list nat := match v with CErring ch _ => [ch] | _ => [] end.

(** Every failed write has its error packet, which was received or waits. *)
Definition reported (c : Client E) : Prop :=
  failed (outcomes c) = (err_received c).*1 ++ erring (writing c).

Lemma failed_snoc os o : failed (os ++ [o]) = failed os ++ failed [o].
Proof. apply omap_app. Qed.

Lemma cli_step_reported p addr (c c' : Client E) : cli_step p addr c c' -> reported c -> reported c'.
Proof.
  unfold reported. intros Hs Hr. destruct Hs as [u g c' Hs | c' Hs];
    [|by destruct Hs as [data Hc | Hc | x Hw | w' x ch l err Hw Hc Hrun | x err Hw Hc]; simpl;
        rewrite ?failed_snoc, ?Hr, ?Hw; simpl; rewrite ?Hc, ?app_nil_r].
  destruct Hs as [| | | | | | | | ch l He | | | |]; simpl; rewrite ?Hr; try done.
  - by rewrite H.
  - by rewrite He, fmap_app, app_nil_r.
  - by rewrite H.
Qed.

(** ** The invariant *)

Variables (p : Processor W) (addr : string) (adm : bytes -> Prop).
Variables (r : Z) (size : nat) (t : UDPThrottle) (now : Z).
Hypothesis t_made : NewUDPThrottle r size = Ok t.

(** The write that waits for its status. *)
Definition current (wt : option nat) (v : cwriter) : list (bytes * string) :=
  match wt, v with Some _, CWrites x => [(cw_data x, addr)] | _, _ => [] end.

Definition attempt (o : cwritePacket * option string) : bytes * string := (cw_data o.1, addr).

Record tcl_ok (s : TClient) : Prop := {
  tk_net : net_ok adm size t now (tc_hist s) (tc_net s);
  tk_pending : pending_ok (tc_wait s) (tc_hist s);
  tk_wait : tc_wait s = None \/ exists x, writing (tc s) = CWrites x;
  tk_requests : requests (tc_hist s) = (attempt <$> outcomes (tc s)) ++ current (tc_wait s) (writing (tc s));
  tk_fits : Forall (fits adm size) (incoming (tc s));
  tk_status : forall k o, outcomes (tc s) !! k = Some o -> w_err <$> answers (tc_hist s) !! k = Some o.2;
}.

(** The client on data that fits the read buffer. *)
Definition fit_step (c c' : Client E) : Prop :=
  cli_step p addr c c' /\ Forall (fits adm size) (incoming c').

(** Local steps do not touch a write in progress. *)
Lemma cli_local_write (c c' : Client E) u g :
  cli_local p addr c u g c' ->
  outcomes c' = outcomes c /\ (forall x, writing c = CWrites x -> writing c' = CWrites x).
Proof. destruct 1; simpl; split; try done; intros; congruence. Qed.

(** The status of the write is there. *)
Lemma tcl_return c n h x ch st v :
  tcl_ok (mk_TClient c n (Some ch) h) -> writing c = CWrites x -> WriteTo_status ch n = Some st ->
  outcomes v = outcomes c ++ [(x, w_err st)] -> incoming v = incoming c -> tcl_ok (mk_TClient v n None h).
Proof.
  intros [O1 O2 O3 O4 O6 O5] Hx Hst Ho Hi. simpl in *.
  destruct (pending_return _ _ _ _ _ t_made _ _ _ _ O1 O2 Hst) as (P1 & P2 & P3).
  rewrite Hx in O4. split; simpl; [done | done | by left | by rewrite O4, Ho, fmap_app, app_nil_r | by rewrite Hi |].
  intros k o. rewrite Ho. intros [[_ Hk] | [Hk <-]]%lookup_snoc_Some; [by apply O5|].
  apply (f_equal length) in O4. rewrite length_app, length_fmap in O4. simpl in O4.
  assert (k = ch) as -> by lia. by rewrite P2.
Qed.

Lemma tcl_step_ok s s' :
  tcl_step p addr adm s s' -> tcl_ok s -> tcl_ok s' /\ rtc fit_step (tc s) (tc s').
Proof.
  intros Hs O. pose proof O as [O1 O2 O3 O4 O6 O5].
  destruct Hs as [c u g c' n wt h Hl | c n n' wt h e He Hs | c n n' wt h rp Hr Hf Her | c n n' wt h rp err Hr Hf Her
    | c n n' h x ch Hx Hc | c n h x ch st Hx Hst Hst' | c w' n h x ch st err rc l Hx Hst Hst' Hc Hrun
    | c n h x ch st err Hx Hst Hst' Hc]; simpl in *.
  - pose proof (cli_local_incoming _ _ _ _ _ _ _ Hl O6) as Hi.
    split; [|apply rtc_once; split; [by eapply cs_local | done]]. destruct (cli_local_write _ _ _ _ Hl) as [H1 H2].
    split; simpl; rewrite ?H1; try done.
    + destruct O3 as [->|[x Hx]]; [by left | right; eauto].
    + rewrite O4. f_equal. destruct O3 as [->|[x Hx]]; [done|]. by rewrite (H2 _ Hx), Hx.
  - split; [|done]. rewrite (nk_size _ _ _ _ _ _ O1) in He. split; simpl; try done.
    + eapply net_snoc; [done | by left | done].
    + by eapply pending_conn.
    + by rewrite (conn_requests adm size h e He).
    + intros k o Hk. rewrite answers_snoc. specialize (O5 k o Hk).
      destruct (answers h !! k) as [st|] eqn:Ek; [|done]. by rewrite (lookup_app_l_Some _ _ _ _ Ek).
  - assert (Hi : Forall (fits adm size) (incoming c ++ [r_data rp])).
    { apply Forall_app. split; [done|]. apply Forall_singleton. by eapply (ReadFrom_fits _ _ _ _ _ t_made). }
    split; [|apply rtc_once; split; [by apply cs_conn, cs_read | done]]. split; simpl; try done.
    + eapply net_snoc; [done | by right | by eapply step_ReadFrom].
    + by apply pending_read.
    + by rewrite requests_snoc, app_nil_r.
    + intros k o Hk. rewrite answers_snoc, app_nil_r. by apply O5.
  - split; [|apply rtc_once; split; [by apply cs_conn, cs_read_error | done]]. split; simpl; try done.
    + eapply net_snoc; [done | by right | by eapply step_ReadFrom].
    + by apply pending_read.
    + by rewrite requests_snoc, app_nil_r.
    + intros k o Hk. rewrite answers_snoc, app_nil_r. by apply O5.
  - split; [|done]. split; simpl; try done.
    + eapply net_snoc; [done | by right | by eapply step_WriteTo].
    + by eapply (pending_call _ _ _ _ _ t_made).
    + right. eauto.
    + rewrite Hx, requests_snoc, O4, app_nil_r. done.
    + intros k o Hk. rewrite answers_snoc, app_nil_r. by apply O5.
  - split; [|apply rtc_once; split; [by apply cs_conn, cs_written | done]]. eapply (tcl_return c n h x ch st); try done. by rewrite Hst'.
  - split; [|apply rtc_once; split; [by eapply cs_conn, cs_write_fail | done]]. eapply (tcl_return c n h x ch st); try done. by rewrite Hst'.
  - split; [|apply rtc_once; split; [by apply cs_conn, cs_write_fail_nil | done]]. eapply (tcl_return c n h x ch st); try done. by rewrite Hst'.
Qed.

Lemma tcl_reach w s :
  rtc (tcl_step p addr adm) (tcl_init w t now) s ->
  tcl_ok s /\ rtc fit_step (client_start w) (tc s).
Proof.
  intros Hr. apply (rtc_simulate (tcl_step p addr adm) fit_step tc tcl_ok tcl_step_ok _ _ Hr).
  split; simpl; try done; [by eapply net_init | by left].
Qed.

Lemma tcl_reported w s : rtc (tcl_step p addr adm) (tcl_init w t now) s -> reported (tc s).
Proof.
  intros Hs. destruct (tcl_reach w s Hs) as [_ Hc]. revert Hc.
  apply (rtc_ind_r reported); [done|]. intros c c' _ [Hst _]. by apply (cli_step_reported p addr).
Qed.

(** What the connection has been given. *)
Lemma tcl_wire s :
  tcl_ok s ->
  sys_out (tc_net s) ++ ((fun q => (p_data q, p_to q)) <$> sendq (th (tc_net s)))
  = (attempt <$> outcomes (tc s)) ++ current (tc_wait s) (writing (tc s)).
Proof.
  intros O. rewrite <- (tk_requests _ O).
  apply (wo_out _ _ _ (net_writes _ _ _ _ _ t_made _ _ (tk_net _ O))).
Qed.

(** While an error packet waits, only its receiver lets the writer go on. *)
Lemma erring_step s s' ch l :
  tcl_step p addr adm s s' -> writing (tc s) = CErring ch l ->
  writing (tc s') = CErring ch l /\ outcomes (tc s') = outcomes (tc s) /\
    err_received (tc s') = err_received (tc s)
  \/ err_received (tc s') = err_received (tc s) ++ [(ch, l)].
Proof.
  intros Hs Hw. destruct Hs as [c u g c' n wt h Hl | | | | | | | ]; simpl in *; try congruence; try by left.
  destruct Hl; simpl in *; try (by left); try congruence. right. congruence.
Qed.

Lemma err_received_mono s s' :
  rtc (tcl_step p addr adm) s s' -> (length (err_received (tc s)) <= length (err_received (tc s')))%nat.
Proof.
  induction 1 as [|s s1 s' Hs _ IH]; [done|]. etransitivity; [|exact IH].
  destruct Hs as [c u g c' n wt h Hl | | | | | | | ]; simpl; try done.
  destruct Hl; simpl; rewrite ?length_app; simpl; lia.
Qed.

Lemma erring_blocks s s' ch l :
  rtc (tcl_step p addr adm) s s' -> writing (tc s) = CErring ch l ->
  err_received (tc s') = err_received (tc s) ->
  writing (tc s') = CErring ch l /\ outcomes (tc s') = outcomes (tc s).
Proof.
  induction 1 as [|s s1 s' Hs Hr IH]; intros Hw He; [done|].
  destruct (erring_step _ _ _ _ Hs Hw) as [(H1 & H2 & H3) | H].
  - destruct (IH H1) as [I1 I2]; [congruence|]. split; [done | congruence].
  - pose proof (err_received_mono _ _ Hr) as Hm. rewrite H, He, length_app in Hm. simpl in Hm. lia.
Qed.

(** ** Every execution is possible on the throttle *)

Lemma client_quiet_read c c' n h a :
  quiet size n -> arrival_ok adm size a ->
  (forall n1 n2 h', ReadFrom n1 = Some (ThrottleProps.received size a, n2) ->
     tcl_step p addr adm (mk_TClient c n1 None h') (mk_TClient c' n2 None (h' ++ [EvReadFrom]))) ->
  exists n' h', rtc (tcl_step p addr adm) (mk_TClient c n None h) (mk_TClient c' n' None h') /\ quiet size n'.
Proof.
  intros Q Ha Hs. destruct (read_one size a n Q) as (n1 & n2 & H1 & H2 & Q2). do 2 eexists. split; [|exact Q2].
  eapply rtc_l; [eapply tl_conn; [|exact H1] | apply rtc_once, Hs, H2].
  simpl. rewrite (q_size _ _ Q). by destruct a.
Qed.

Lemma client_quiet_write c c' n h x e :
  quiet size n -> writing c = CWrites x ->
  (forall n' h' ch st, WriteTo_status ch n' = Some st -> w_err st = e ->
     tcl_step p addr adm (mk_TClient c n' (Some ch) h') (mk_TClient c' n' None h')) ->
  exists n' h', rtc (tcl_step p addr adm) (mk_TClient c n None h) (mk_TClient c' n' None h') /\ quiet size n'.
Proof.
  intros Q Hx Hs. destruct (write_one size (cw_data x) addr (mk_writeStatus 0 e) n Q)
    as (ch & n1 & n2 & H1 & H2 & H3 & Q2). do 2 eexists. split; [|exact Q2].
  eapply rtc_l; [by eapply tl_call|]. eapply rtc_l; [by eapply tl_conn; [|exact H2]|]. by eapply rtc_once, Hs.
Qed.

Lemma client_quiet_step c c' n h :
  quiet size n -> fit_step c c' ->
  exists n' h', rtc (tcl_step p addr adm) (mk_TClient c n None h) (mk_TClient c' n' None h') /\ quiet size n'.
Proof.
  intros Q [Hs Hf]. destruct Hs as [u g c' Hs | c' Hs].
  { exists n, h. split; [by eapply rtc_once, tl_local | done]. }
  destruct Hs as [data Hr | Hr | x Hw | w' x ch l err Hw Hc Hrun | x err Hw Hc].
  - simpl in Hf. apply Forall_app in Hf as [_ [Hd Hl]%Forall_singleton].
    apply (client_quiet_read _ _ _ _ (Datagram data "")); [done | simpl; by rewrite take_ge|].
    intros n1 n2 h' H. simpl in H. rewrite take_ge in H by done.
    exact (tl_read p addr adm c n1 n2 None h' _ Hr H eq_refl).
  - apply (client_quiet_read _ _ _ _ (ReadError "")); [done | done|].
    intros n1 n2 h' H. exact (tl_read_error p addr adm c n1 n2 None h' _ _ Hr H eq_refl).
  - eapply (client_quiet_write _ _ _ _ x None); [done | done|]. intros. by eapply tl_written.
  - eapply (client_quiet_write _ _ _ _ x (Some err)); [done | done|]. intros. by eapply tl_fail.
  - eapply (client_quiet_write _ _ _ _ x (Some err)); [done | done|]. intros. by eapply tl_fail_nil.
Qed.

Lemma client_quiet_reach c c' n h :
  rtc fit_step c c' -> quiet size n ->
  exists n' h', rtc (tcl_step p addr adm) (mk_TClient c n None h) (mk_TClient c' n' None h') /\ quiet size n'.
Proof.
  intros Hr. revert n h. induction Hr as [c|c c1 c' Hs Hr IH]; intros n h Q; [by exists n, h|].
  destruct (client_quiet_step c c1 n h Q Hs) as (n1 & h1 & Hs1 & Q1). destruct (IH n1 h1 Q1) as (n2 & h2 & Hs2 & Q2).
  exists n2, h2. split; [by etransitivity | done].
Qed.

(** ** Reading after [Cleanup] *)

Definition is_ReadFrom (e : event) : bool := match e with EvReadFrom => true | _ => false end.
Definition reads (h : list event) : nat := length (List.filter is_ReadFrom h).

Lemma reads_snoc h e : reads (h ++ [e]) = (reads h + if is_ReadFrom e then 1 else 0)%nat.
Proof. unfold reads. rewrite List.filter_app, length_app. by destruct e. Qed.

(** The reads made and the one in progress. *)
Definition reads_left (s : TClient) : nat :=
  (reads (tc_hist s) + match receiving (tc s) with RReads => 1 | _ => 0 end)%nat.

Lemma done_step s s' :
  pipeline_keeps p -> tcl_step p addr adm s s' -> cl_done (cli (tc s)) = true ->
  cl_done (cli (tc s')) = true /\ (reads_left s' <= reads_left s)%nat.
Proof.
  intros Hp Hs Hd. unfold reads_left.
  destruct Hs as [c u g c' n wt h Hl | c n n' wt h e He Hs | | | | | c w' n h x ch st err rc l Hx Hst Hst' Hc Hrun | ];
    simpl in *; rewrite ?reads_snoc; simpl.
  - destruct Hl as [w' pkt ch ref Hrun | w' pkt ch err Hrun | | w' u1 ref ch u2 Hu Hrun
      | w' i1 data i2 dl Hi Hrun | w' i1 data i2 Hi Hrun | | w' x1 ref x2 Hx Hrun | | | w' Hrun | |];
      simpl; try (split; [done | lia]); try congruence.
    + apply Send_write_tables in Hrun as (_ & D & _); [|done]. split; [congruence | lia].
    + apply Send_write_tables in Hrun as (_ & D & _); [|done]. split; [congruence | lia].
    + injection Hrun as <-. split; [done | lia].
    + apply processIncoming_tables in Hrun as (_ & _ & D & _); [|done]. split; [congruence | lia].
    + apply processIncoming_tables in Hrun as (_ & _ & D & _); [|done]. split; [congruence | lia].
    + injection Hrun as <-. split; [done | lia].
    + unfold close_done in Hrun. by rewrite Hd in Hrun.
  - destruct e; simpl in *; try done; (split; [done | lia]).
  - rewrite H. split; [done | lia].
  - rewrite H. split; [done | lia].
  - split; [done | lia].
  - split; [done | lia].
  - apply Keeps_heap in Hrun as (_ & _ & D). split; [congruence | lia].
  - split; [done | lia].
Qed.

Lemma done_reads s s' :
  pipeline_keeps p -> rtc (tcl_step p addr adm) s s' -> cl_done (cli (tc s)) = true ->
  (reads_left s' <= reads_left s)%nat.
Proof.
  intros Hp. induction 1 as [|s s1 s' Hs _ IH]; intros Hd; [done|].
  destruct (done_step _ _ Hp Hs Hd) as [D1 L1]. specialize (IH D1). lia.
Qed.

(** ** Theorems *)

(** (C13) The client on its throttle is the client with an arbitrary connection:
    what it does is an execution of that client on data that fits the read
    buffer, and every such execution, with any failures of reads and writes, is
    possible on the throttle. *)
Theorem client_equivalent w c :
  rtc fit_step (client_start w) c <->
  exists s, rtc (tcl_step p addr adm) (tcl_init w t now) s /\ tc s = c.
Proof.
  split.
  - intros Hr. destruct (client_quiet_reach _ _ _ [] Hr (quiet_init r size t now t_made)) as (n & h & Hs & _). eauto.
  - intros (s & Hs & <-). by apply tcl_reach.
Qed.

(** (C14) Input and output of the client on its throttle are in order: what the connection
    delivered, cut to the read buffer, goes to [recv] first in first out; the
    connection is given the elements of [write] one after the other, at most one
    waiting; the outcome of each write is the status of that very write, and for
    each failed write, in order, one error packet was received by, or waits
    for, the channel its caller gave. *)
Theorem client_io w s :
  rtc (tcl_step p addr adm) (tcl_init w t now) s ->
  ThrottleProps.received size <$> arrivals (tc_hist s)
    = delivered (tc_hist s) (sys_init t now) ++ recv (th (tc_net s)) /\
  sys_out (tc_net s) ++ ((fun q => (p_data q, p_to q)) <$> sendq (th (tc_net s)))
    = (attempt <$> outcomes (tc s)) ++ current (tc_wait s) (writing (tc s)) /\
  (length (sendq (th (tc_net s))) <= 1)%nat /\
  (forall k o, outcomes (tc s) !! k = Some o -> w_err <$> WriteTo_status k (tc_net s) = Some o.2) /\
  failed (outcomes (tc s)) = (err_received (tc s)).*1 ++ erring (writing (tc s)).
Proof.
  intros Hs. destruct (tcl_reach w s Hs) as [O Hc]. pose proof (tk_net _ O) as On.
  split_and!; [by eapply net_recv; [|exact On] | by apply tcl_wire | | | by eapply tcl_reported].
  - pose proof (pending_sendq _ _ _ _ _ t_made _ _ _ On (tk_pending _ O)) as H.
    by destruct (tc_wait s); [|lia].
  - intros k o Hk. unfold WriteTo_status.
    rewrite (wo_stat _ _ _ (net_writes _ _ _ _ _ t_made _ _ On)). by apply (tk_status _ O).
Qed.

(** The client keeps to its rate, whatever the callers, the users and the
    server do. *)
Theorem client_rate w s a T :
  0 < r <= sec -> 0 <= T -> rtc (tcl_step p addr adm) (tcl_init w t now) s ->
  starts_in a T (rd_log (tc_net s)) <= T / (sec / r) + 1 /\
  starts_in a T (wr_log (tc_net s)) <= T / (sec / r) + 1.
Proof.
  intros Hr HT Hs. destruct (tcl_reach w s Hs) as [O _]. by eapply net_rate; [|apply (tk_net _ O)|..].
Qed.

(** (C39) An error packet that nobody receives blocks the client: once a write
    has failed, the client writes nothing more to the connection, for any
    caller, until the failed caller's channel is read. *)
Theorem write_error_blocks w s s' ch l :
  rtc (tcl_step p addr adm) (tcl_init w t now) s -> writing (tc s) = CErring ch l ->
  rtc (tcl_step p addr adm) s s' -> err_received (tc s') = err_received (tc s) ->
  writing (tc s') = CErring ch l /\ sys_out (tc_net s') = sys_out (tc_net s).
Proof.
  intros Hs Hw Hr He. destruct (erring_blocks _ _ _ _ Hr Hw He) as [H1 H2]. split; [done|].
  assert (Hout : forall x, rtc (tcl_step p addr adm) (tcl_init w t now) x -> writing (tc x) = CErring ch l ->
    sys_out (tc_net x) = attempt <$> outcomes (tc x)).
  { intros x Hx Hwx. destruct (tcl_reach w x Hx) as [O _]. pose proof (tcl_wire x O) as Ht.
    destruct (tk_wait _ O) as [Hn|[y Hy]]; [|congruence]. rewrite Hn in Ht. simpl in Ht.
    pose proof (pending_sendq _ _ _ _ _ t_made _ _ _ (tk_net _ O) (tk_pending _ O)) as Hq. rewrite Hn in Hq.
    destruct (sendq (th (tc_net x))); [|simpl in Hq; lia]. by rewrite !app_nil_r in Ht. }
  rewrite (Hout s' (transitivity Hs Hr) H1), (Hout s Hs Hw). by rewrite H2.
Qed.

(** (C30) After [Cleanup] has closed [doneStream], [recv] reads at most one more
    datagram, the one it was waiting for, whatever happens at the connection. *)
Theorem cleanup_stops_reading s s' :
  pipeline_keeps p -> cl_done (cli (tc s)) = true -> rtc (tcl_step p addr adm) s s' ->
  (reads (tc_hist s') <= reads (tc_hist s) + match receiving (tc s) with RReads => 1 | _ => 0 end)%nat.
Proof. intros Hp Hd Hr. pose proof (done_reads _ _ Hp Hr Hd) as H. unfold reads_left in H. lia. Qed.
End throttled.
