(* ===== verification/ThrottledNetwork.v ===== *)
(** * ThrottledNetwork: a client and a server on their throttles

    A request from [Send] to the caller's channel, through both throttles, both
    connections and the server's handlers. *)

From Stdlib Require Import ZArith Lia Ascii String.
From stdpp Require Import base list strings gmap fin_maps relations.
From S2P Require Import Prelude Base64 Utf8 JsonText Decimal Json Packet PacketSpec PacketProps.
From S2P Require Import Fmt Pipeline Cipher Crypto UDPServer UDPServerSpec UDPServerProps.
From S2P Require Import ServerThreads ServerThreadsProps Throttle ThrottleProps ThrottleHist.
From S2P Require Import UDPClient UDPClientProps Network ThrottledServer ThrottledClient.
Open Scope Z_scope.

Section client_side.
Context {E : Type}.
Abbreviation W := (CliState E).
Variables (p : Processor W) (addr : string) (adm : bytes -> Prop).
Variables (r : Z) (size : nat) (t : UDPThrottle) (now : Z).
Hypothesis t_made : NewUDPThrottle r size = Ok t.
Abbreviation run_client := (rtc (tcl_step p addr adm)).

Lemma local_step c u g c' n wt h s : cli_local p addr c u g c' -> run_client (mk_TClient c' n wt h) s -> run_client (mk_TClient c n wt h) s.
Proof. intros H. apply rtc_l. by eapply tl_local. Qed.

(** A request leaves the client while [recv] waits for data. *)
Lemma client_sends w pkt a ch :
  transforms (DataProcessor p) "_out_" = [] -> heap_good w -> abs (cl_heap w) pkt = Some a ->
  cl_writeStream w = [] -> cl_done w = false ->
  exists c n h, run_client (tcl_init w t now) (mk_TClient c n None h) /\ quiet size n /\ arrivals h = [] /\
    outcomes c = [(mk_cwritePacket (send_wire a w) (Some ch) (send_ref a w), None)] /\
    receiving c = RReads /\ heap_good (cli c) /\
    cl_requests (cli c) = <[send_ref a w := Some ch]> (cl_requests w) /\
    incoming c = [] /\ delivering c = [] /\ UDPClient.received c = [].
Proof.
  intros Ho Hg Ha Hs Hd.
  destruct (wp_inv _ _ _ (Send_write_spec p pkt (Some ch) w a Ho Hg Ha))
    as (x & w1 & Hrun & -> & Hg1 & A1 & X1 & R1 & S1). rewrite Hs in S1. simpl in S1.
  set (x := mk_cwritePacket (send_wire a w) (Some ch) (send_ref a w)) in *.
  destruct (write_one size (cw_data x) addr (mk_writeStatus (Z.of_nat (length (cw_data x))) None) _
    (quiet_init r size t now t_made)) as (k & n1 & n2 & H1 & H2 & H3 & Q).
  eexists _, n2, _. split; [|split; [exact Q|]].
  - eapply local_step; [by apply cs_check|].
    eapply local_step; [by apply (cs_send p addr _ w1 pkt (Some ch) (send_ref a w))|].
    eapply local_step; [by apply (cs_receive p addr _ [] x [])|].
    eapply rtc_l; [by apply (tl_call p addr adm _ _ n1 [] x k)|].
    eapply rtc_l; [by eapply tl_conn; [|exact H2]|].
    eapply rtc_l; [by eapply tl_written|].
    eapply local_step; [by eapply (cs_register p addr _ _ [] (send_ref a w) (Some ch) [])|]. apply rtc_refl.
  - simpl. rewrite R1. by split_and!.
Qed.

(** A response is received on the request's channel. *)
Lemma client_receives c n h m b ref ch from :
  transforms (DataProcessor p) "_in_" = [] -> quiet size n -> fits adm size (datagram m b) ->
  receiving c = RReads -> heap_good (cli c) -> incoming c = [] -> delivering c = [] ->
  utf8_map m -> m !! KeyRef = Some ref -> cl_requests (cli c) !! ref = Some (Some ch) ->
  exists c' n' h' l, run_client (mk_TClient c n None h) (mk_TClient c' n' None h') /\ quiet size n' /\
    arrivals h' = arrivals h ++ [Datagram (datagram m b) from] /\ outcomes c' = outcomes c /\
    UDPClient.received c' = UDPClient.received c ++ [ToRequest ch l ref] /\
    abs (cl_heap (cli c')) l = Some (request m b).
Proof.
  intros Hi Q [Hd Hl] Hr Hg Hic Hdl Hm Href Hch.
  destruct (read_one size (Datagram (datagram m b) from) n Q) as (n1 & n2 & H1 & H2 & Q2).
  destruct (wp_inv _ _ _ (processIncoming_spec p addr m b (cli c) Hi Hg Hm))
    as (o & w2 & Hrun & l & -> & _ & A2 & _).
  unfold route in Hrun. rewrite Href in Hrun. simpl in Hrun. rewrite Hch in Hrun.
  simpl in H2. rewrite take_ge in H2 by done.
  eexists _, n2, _, l. split; [|split; [exact Q2|]].
  - eapply rtc_l.
    { eapply tl_conn; [|exact H1]. simpl. rewrite (q_size _ _ Q), take_ge by done. by split. }
    eapply rtc_l; [by eapply tl_read; [|exact H2|]|].
    eapply local_step; [by eapply (cs_process p addr _ w2 [] (datagram m b) []); [simpl; rewrite Hic|]|].
    eapply local_step; [by apply (cs_take p addr _ [] (ToRequest ch l ref) []); simpl; rewrite Hdl|].
    apply rtc_refl.
  - rewrite !arrivals_snoc. cbn. by rewrite app_nil_r.
Qed.
End client_side.

Section network.
Context {Ec Es : Type} `{R : Resolver}.
Variables (pc : Processor (CliState Ec)) (ps : Processor (SvrState Es)).
Hypothesis client_plain :
  transforms (DataProcessor pc) "_out_" = [] /\ transforms (DataProcessor pc) "_in_" = [].
Hypothesis server_plain :
  transforms (DataProcessor ps) "_in_" = [] /\ transforms (DataProcessor ps) "_out_" = [].

Abbreviation any := (fun _ : bytes => True).

End network.
