(* ===== verification/EchoServer.v ===== *)
(** * EchoServer: the example servers and the echo client (src/examples)

    The callback "app.echo" that both example servers install, the servers'
    pipelines (examples/echo/server, examples/crypto/server) and the request of
    the echo client (examples/echo/client).  The variables of the callback are
    part of the state; the text of the [n]-th reading of the clock is a
    parameter. *)

From Stdlib Require Import ZArith Lia Ascii String.
From stdpp Require Import base list strings gmap fin_maps.
From S2P Require Import Prelude Base64 Utf8 JsonText Decimal Json Packet PacketSpec PacketProps.
From S2P Require Import Fmt Pipeline Cipher Crypto CryptoSpec UDPServer UDPServerSpec UDPServerProps.
From S2P Require Import CryptoServer Throttle UDPClient UDPClientProps Network.
Open Scope Z_scope.

(** The callback's variable [requestsServed] (an [int]), and how often the clock
    has been read. *)
Record App := mk_App { requestsServed : Z; readings : nat }.

Definition TargetEcho : string := "app.echo".

(** [json.Unmarshal] into [struct { Msg string `json:"msg"` }]. *)
Definition decode_msg (data : bytes) : option string := decode_field "msg" data.

Section example.
Variable time_Now : nat -> string.

Section callback.
Context {E : Type} {HA : Has App (SvrState E)}.
Abbreviation W := (SvrState E).

Definition on_app {A} (m : M App A) : M W A := lift m.

Definition served : M App unit :=
  modify (fun a => mk_App (i64 (requestsServed a + 1)) (readings a)).

Definition now : M App string := fun a =>
  Ok (time_Now (readings a), mk_App (requestsServed a) (S (readings a))).

Definition echoCallback : TargetCallback W := fun ctx pw =>
  let* l := svr_pkt (c_ctx ctx) in
  let* data := pk (PktData l) in
  match decode_msg data with
  | None => ret (c_stop (-1) "malformed packet data" ctx)
  | Some _ =>
      on_app served ;;;
      let* t := on_app now in
      pk (Write pw (b_of_s ("Received at " +:+ t))) ;;;
      pk (Close pw) ;;;
      ret ctx
  end.
End callback.

(** [main] of examples/echo/server up to [Serve]. *)
Definition echo_server_main `{Resolver} : Processor (SvrState App) :=
  let svr := NewUDPServer in
  mk_Processor (DataProcessor svr) (AddCallback TargetEcho echoCallback (PacketProcessor svr)).

(** [main] of examples/crypto/server up to [Serve]: the extension comes first. *)
Definition crypto_server_main `{AEAD, Curve, Resolver} : Processor (SvrState (Crypto * App)) :=
  let svr := (Extend "server" NewUDPServer).1 in
  mk_Processor (DataProcessor svr) (AddCallback TargetEcho echoCallback (PacketProcessor svr)).

(** The state in which they start: half as many pooled packets as the rate. *)
Definition server_main_init {E} (o : list nat) (e : E) : SvrState E :=
  svr_init (exec (NewJSONPktCreator (Z.to_nat (Rate10k / 2))) (heap0 o)) e.

(** The request of examples/echo/client. *)
Definition hello : bytes :=
  "{"%char :: dquote :: b_of_s "msg" ++ dquote :: ":"%char :: dquote
    :: b_of_s "hello" ++ [dquote; "}"%char].

Definition compose_echo (svrAddr : string) : M Heap nat :=
  let* req := NewPkt "" svrAddr in
  Meta_Add req KeyTarget TargetEcho ;;;
  Write req hello ;;;
  Close req ;;;
  ret req.

(** [main] of examples/echo/client up to the response; the error of [Send] is
    ignored. *)
Definition echo_client_main {E} (p : Processor (CliState E)) (svrAddr : string) (respCh : nat)
    : M (CliState E) unit :=
  let* req := cpk (compose_echo svrAddr) in
  let* _ := Send p req (Some respCh) in
  ret tt.

(** ** The callback *)

Section callback_spec.
Context {E : Type} {HA : Has App (SvrState E)} {IA : InExt App E}.
Abbreviation W := (SvrState E).
Abbreviation ab w l := (abs (s_heap w) l).

(** The callback on well-formed data. *)
Lemma echoCallback_ok (w : W) ctx pkt pw a b msg F :
  Pkt (c_ctx ctx) = Some pkt -> inv (pkt :: pw :: F) w -> ab w pkt = Some a -> ab w pw = Some b ->
  decode_msg (a_buff a) = Some msg ->
  let s := proj (S := App) w in
  wp (echoCallback ctx pw) (fun ctx' w' => ctx' = ctx /\ inv (pkt :: pw :: F) w' /\
    only pw (upd (mk_App (i64 (requestsServed s + 1)) (S (readings s))) w) w' /\
    ab w' pw = Some (a_close (a_write (b_of_s ("Received at " +:+ time_Now (readings s))) b))) w.
Proof.
  intros Hp I Ha Hb Hd s. unfold echoCallback, svr_pkt. rewrite Hp, wp_bind. apply wp_ret.
  rewrite wp_bind. eapply wp_read; [apply PktData_reads | exact I | done |].
  rewrite Hd, wp_bind. unfold on_app, served, now. eapply wp_ok; [by apply lift_ok|].
  rewrite wp_bind. eapply wp_ok; [apply lift_ok; by rewrite proj_upd|].
  rewrite upd_upd. fold s. cbn [requestsServed readings].
  destruct (in_ext (mk_App (i64 (requestsServed s + 1)) (S (readings s))) w) as [e Ee].
  rewrite Ee, wp_bind. assert (I1 := inv_ext _ _ e I).
  eapply wp_pkt; [apply Write_acts | exact I1 | by right; left | exact Hb |].
  intros w2 I2 O2 A2. rewrite wp_bind.
  eapply wp_pkt; [apply Close_acts | exact I2 | by right; left | exact A2 |].
  intros w3 I3 O3 A3. apply wp_ret. split_and!; [done | done | by eapply only_trans | done].
Qed.

Lemma echoCallback_refuses (w : W) ctx pkt pw a F :
  Pkt (c_ctx ctx) = Some pkt -> inv F w -> ab w pkt = Some a ->
  decode_msg (a_buff a) = None ->
  echoCallback ctx pw w = Ok (c_stop CodeStopError "malformed packet data" ctx, w).
Proof.
  intros Hp I Ha Hd. unfold echoCallback, svr_pkt. rewrite Hp. erewrite bind_ok by done.
  erewrite bind_ok; [|unfold pk; apply lift_ok, PktData_reads; [apply I | exact Ha]].
  rewrite Hd, upd_proj. done.
Qed.

#[global] Instance echoCallback_safe adm : CallbackSafe (E := E) adm echoCallback.
Proof.
  intros F w ctx pkt pw a Hp I Ha _.
  destruct (decode_msg (a_buff a)) as [msg|] eqn:Hd.
  - destruct (inv_owned _ _ pw I ltac:(by right; left)) as [b Hb].
    eapply wp_mono; [by eapply echoCallback_ok|]. intros ctx' w' (-> & I' & O' & _).
    split; [done|]. split; [done|]. intros k Hk. rewrite (on_abs _ _ _ O').
    + by destruct (in_ext (mk_App (i64 (requestsServed (proj w) + 1)) (S (readings (proj w)))) w) as [e ->].
    + by eapply inv_response in Hk.
  - eapply wp_ok; [by eapply echoCallback_refuses | done].
Qed.
End callback_spec.

(** ** The echo server *)

Section echo_server.
Context `{R : Resolver}.
Abbreviation W := (SvrState App).

(** The response to a request, and the callback's variables after it. *)
Definition echo_text (s : App) : bytes := b_of_s ("Received at " +:+ time_Now (readings s)).

Definition echo_resp (s : App) (ref sender : string) : APkt :=
  mk_APkt {[KeyRef := ref]} (echo_text s) (s_of_b (Base64.encode (echo_text s))) sender.

Definition echo_app (s : App) : App := mk_App (i64 (requestsServed s + 1)) (S (readings s)).

Lemma echo_answered m b sender (w : W) msg :
  inv [] w -> utf8_map m -> m !! KeyTarget = Some TargetEcho -> decode_msg b = Some msg ->
  wp (processIncoming echo_server_main (datagram m b) sender)
     (fun _ w' => sends_one (upd (echo_app (s_ext w)) w) w'
        (eq (echo_resp (s_ext w) (default ""%string (m !! KeyRef)) sender))) w.
Proof.
  intros I Hm Ht Hd.
  assert (Hans : answers_in sender (s_ext w) (request m b) echoCallback
    (fun r => a_close (a_write (echo_text (s_ext w)) r)) (echo_app (s_ext w))).
  { intros w0 ctx pkt pw b0 E0 _ Hs Hp I0 Ha Hb. rewrite <- E0.
    eapply wp_mono; [by eapply echoCallback_ok|]. intros ctx' w' (-> & I' & O' & A').
    split_and!; [by left | done..]. }
  eapply wp_mono; [eapply (request_stage echo_server_main); [done | done | done | exact Hans | by rewrite Ht]|].
  intros [] w' (I' & E' & W' & l & x & S' & A' & d & ->). split_and!; try done. by eexists l, _.
Qed.

(** The echo server: a well-formed packet for "app.echo" whose data decodes
    into the callback's struct makes the server send one packet, with the request's reference, the text "Received at" and the time,
    committed, to the sender, and counts the request; any other data makes it
    send one error packet with the request's reference and the text "malformed
    packet data", and counts nothing. *)
Theorem echo_server_behaviour m b sender (w : W) :
  inv [] w -> utf8_map m -> m !! KeyTarget = Some TargetEcho ->
  let ref := default ""%string (m !! KeyRef) in
  wp (processIncoming echo_server_main (datagram m b) sender)
     (fun _ w' => match decode_msg b with
        | Some _ => sends_one (upd (echo_app (s_ext w)) w) w' (eq (echo_resp (s_ext w) ref sender))
        | None => sends_one w w' (is_err ref sender "packet pipeline error: malformed packet data")
        end) w.
Proof.
  intros I Hm Ht ref. destruct (decode_msg b) as [msg|] eqn:Hd; [by eapply echo_answered|].
  eapply wp_mono; [eapply (refusal_stage echo_server_main); [done | done | done | | by rewrite Ht]|].
  { intros w0 ctx pkt pw b0 _ Hp I0 Ha _. by eapply echoCallback_refuses. }
  done.
Qed.
End echo_server.

(** ** The echo client *)

Section echo_client.
Context {Ec : Type} `{R : Resolver}.
Variable p : Processor (CliState Ec).
Hypothesis plain :
  transforms (DataProcessor p) "_out_" = [] /\ transforms (DataProcessor p) "_in_" = [].

(** The composed request; [d] is what the pooled packet carried. *)
Definition echo_req (svrAddr d : string) : APkt :=
  a_close (a_write hello (a_add KeyTarget TargetEcho (fresh_pkt "" svrAddr d))).

Lemma compose_echo_spec svrAddr (w : CliState Ec) :
  heap_good w ->
  wp (cpk (compose_echo svrAddr)) (fun req w' => exists h d, w' = upd h w /\ heap_good w' /\
    abs h req = Some (echo_req svrAddr d)) w.
Proof.
  intros Hg. unfold compose_echo.
  apply (wp_compose _ _ _ (fun a => a_close (a_write hello (a_add KeyTarget TargetEcho a)))); [|done|].
  - intros l. eapply acts_ext; [repeat (eapply acts_seq; [eauto with concord|]); apply acts_ret | done | done].
  - intros l h d A' Hg' _. by exists h, d.
Qed.

(** The echo example end to end: the client's program, run against the
    server's, gets on its response channel a packet whose data is "Received at"
    and the server's time, and the server has counted one request. *)
Theorem echo_roundtrip (wc : CliState Ec) (ws : SvrState App) svrAddr respCh caddr addr saddr :
  heap_good wc -> inv [] ws -> sendStream ws = [] -> ResolveUDPAddr caddr = Some addr ->
  exists wc1 data ref ws1 r ws2 data' wc2 l resp,
    echo_client_main p svrAddr respCh wc = Ok (tt, wc1) /\
    cl_writeStream wc1 = cl_writeStream wc ++ [mk_cwritePacket data (Some respCh) ref] /\
    processIncoming echo_server_main data caddr ws = Ok (tt, ws1) /\ sendStream ws1 = [r] /\
    processOutgoing echo_server_main r
      (mk_SvrState (s_heap ws1) (s_ext ws1) [] (writeStream ws1) (closed ws1)) = Ok (tt, ws2) /\
    writeStream ws2 = writeStream ws ++ [mk_writePacket data' addr] /\
    processIncoming_send p saddr data' wc1 = Ok (Some (ToRequest respCh l ref), wc2) /\
    abs (cl_heap wc2) l = Some resp /\ a_buff resp = echo_text (s_ext ws) /\
    requestsServed (s_ext ws2) = i64 (requestsServed (s_ext ws) + 1).
Proof.
  intros Hg I Hs Hr. destruct plain as [Hout Hin].
  destruct (wp_inv _ _ _ (compose_echo_spec svrAddr wc Hg)) as (req & w0 & Hreq & h & d & -> & Hg0 & A0).
  destruct (wp_inv _ _ _ (Send_registers p req (Some respCh) _ _ Hout Hg0 A0))
    as (o & wc1 & Hsend & -> & Hg1 & _ & R1 & S1).
  set (q := echo_req svrAddr d) in *. set (ref := send_ref q (upd h wc)) in *.
  set (m := a_meta (send_pkt q (upd h wc))) in *.
  assert (Em : m = <[KeyRef := ref]> {[KeyTarget := TargetEcho; KeyRef := ""%string]}) by done.
  assert (Href : m !! KeyRef = Some ref) by (by rewrite Em, lookup_insert_eq).
  assert (Hu : utf8_map m).
  { rewrite Em. apply map_Forall_insert_2; [split; [done | apply genRef_utf8]|].
    by apply map_Forall_insert_2; [|apply map_Forall_singleton]. }
  destruct (wp_inv _ _ _ (echo_answered m hello caddr ws "hello" I Hu eq_refl eq_refl))
    as ([] & ws1 & Hrun1 & I1 & E1 & W1 & r & x & Q1 & A1 & <-). simpl in E1, W1, Q1.
  rewrite Href in A1. simpl default in A1. rewrite Hs in Q1. simpl in Q1.
  assert (I1' := inv_receive ws1 [] r [] I1 Q1).
  destruct (wp_inv _ _ _ (outgoing_sent echo_server_main r _ _ eq_refl I1' A1))
    as ([] & ws2 & Hrun2 & _ & E2 & _ & _ & W2). simpl in E2, W2. rewrite W1, Hr in W2.
  assert (Hu2 : utf8_map ({[KeyRef := ref]} : gmap string string)).
  { apply map_Forall_singleton. split; [done | apply genRef_utf8]. }
  destruct (wp_inv _ _ _ (processIncoming_spec p saddr {[KeyRef := ref]} (echo_text (s_ext ws)) wc1 Hin Hg1 Hu2))
    as (o & wc2 & Hrun3 & l & -> & _ & A2 & _).
  unfold route in Hrun3. rewrite lookup_singleton_eq in Hrun3. simpl in Hrun3.
  rewrite R1, lookup_insert_eq in Hrun3.
  eexists wc1, _, ref, ws1, r, ws2, _, wc2, l, _. split.
  { unfold echo_client_main. erewrite bind_ok by exact Hreq. by erewrite bind_ok by exact Hsend. }
  split_and!; try done. by rewrite E2, E1.
Qed.
End echo_client.

(** ** The two servers are safe *)

Lemma server_main_init_inv {E} o (e : E) : inv [] (server_main_init o e).
Proof.
  unfold server_main_init. set (n := Z.to_nat _).
  pose proof (creator_heap n o) as H. unfold wp in H. unfold exec.
  destruct (NewJSONPktCreator n (heap0 o)) as [[[] h]|]; [|done].
  destruct H as (Hok & Hh & _). split; simpl; try done; [apply NoDup_nil_2|].
  intros l Hl. by apply not_elem_of_nil in Hl.
Qed.

(** The example servers are safe: both start in a state that satisfies the
    server's invariant, and their pipelines meet the conditions of the server's
    safety theorems, the echo server for every datagram that does not null the
    metadata, the crypto server under the conditions of the extension. *)
Theorem example_servers_safe `{AEAD, Curve, Resolver} o (a : App) (c : Crypto) :
  inv [] (server_main_init o a) /\ inv [] (server_main_init o (c, a)) /\
  processor_safe (fun d => keeps_meta d = true) (fun _ => True) echo_server_main /\
  processor_safe crypto_adm full_key crypto_server_main.
Proof.
  split_and!; [apply server_main_init_inv.. | |].
  - apply plain_processor_safe; [done | done |]. simpl.
    repeat (apply queues_safe_add; [apply _|]). apply queues_safe_new.
  - assert (Hs : processor_safe crypto_adm full_key
      (Extend "server" (NewUDPServer (E := Crypto * App))).1).
    { apply extended_safe; [done | done |]. apply queues_safe_add; [apply _ | apply queues_safe_new]. }
    destruct Hs as [S1 S2 S3]. split; [done | done |]. apply queues_safe_add; [apply _ | done].
Qed.
End example.
