(* ===== verification/LoadClient.v ===== *)
(** * LoadClient: the load generator (examples/echo/load-client)

    [main] starts one goroutine per client and one that counts completions; a
    client starts one goroutine per request.  Every request goroutine sends the
    packet of the echo client, waits for its response, reports on
    [completeChan] (an unbuffered channel, so the report is a step of both
    goroutines) and leaves the client's wait group.  A response need not come: a
    datagram can be lost, the error of [Send] is ignored, and a response can
    overtake the registration of its request; the goroutine then waits for ever.
    [load_step] interleaves all of them. *)

From Stdlib Require Import ZArith Lia.
From stdpp Require Import base list relations.
From S2P Require Import Prelude Throttle.
Open Scope Z_scope.

Section load.
(** The flags [request-per-client] and [num-clients]. *)
Variables requests clients : Z.

Definition totalRequests : Z := i64 (requests * clients).

(** A client goroutine: how many request goroutines it has started, how many of
    them wait for a response, have one to report, have reported, are done, and
    wait for a response that never comes; the counter of its wait group, and whether it has returned. *)
Record client := mk_client {
  started : nat;
  waiting : nat;
  reporting : nat;
  leaving : nat;
  gone : nat;
  lost : nat;
  clientWg : nat;
  returned : bool;
}.

Record load := mk_load {
  running : list client;   (* the client goroutines main has started *)
  completed : Z;           (* the loop variable of the counting goroutine *)
  counting : bool;         (* it has not returned *)
  wg : nat;
  finished : bool;         (* wg.Wait has returned in main *)
}.

(** [main] after it has started the counting goroutine. *)
Definition load_init : load := mk_load [] 1 true 1 false.

Inductive load_step : load -> load -> Prop :=
  | ls_client cs n k g f :
      (* main starts a client *)
      Z.of_nat (length cs) < clients ->
      load_step (mk_load cs n k g f)
        (mk_load (cs ++ [mk_client 0 0 0 0 0 0 0 false]) n k (S g) f)
  | ls_request l1 s w r v d x c l2 n k g f :
      (* a client starts a request: the packet is composed and sent *)
      Z.of_nat s < requests ->
      load_step (mk_load (l1 ++ mk_client s w r v d x c false :: l2) n k g f)
        (mk_load (l1 ++ mk_client (S s) (S w) r v d x (S c) false :: l2) n k g f)
  | ls_response l1 s w r v d x c e l2 n k g f :
      (* a response is received *)
      load_step (mk_load (l1 ++ mk_client s (S w) r v d x c e :: l2) n k g f)
        (mk_load (l1 ++ mk_client s w (S r) v d x c e :: l2) n k g f)
  | ls_lost l1 s w r v d x c e l2 n k g f :
      (* it never will be: the datagram or the response is lost, or goes to Misc *)
      load_step (mk_load (l1 ++ mk_client s (S w) r v d x c e :: l2) n k g f)
        (mk_load (l1 ++ mk_client s w r v d (S x) c e :: l2) n k g f)
  | ls_report l1 s w r v d x c e l2 n g f :
      (* completeChan <- true meets the counting goroutine *)
      n <= totalRequests ->
      load_step (mk_load (l1 ++ mk_client s w (S r) v d x c e :: l2) n true g f)
        (mk_load (l1 ++ mk_client s w r (S v) d x c e :: l2) (i64 (n + 1)) true g f)
  | ls_leave l1 s w r v d x c e l2 n k g f :
      (* clientWg.Done() *)
      load_step (mk_load (l1 ++ mk_client s w r (S v) d x (S c) e :: l2) n k g f)
        (mk_load (l1 ++ mk_client s w r v (S d) x c e :: l2) n k g f)
  | ls_return l1 s w r v d x l2 n k g f :
      (* clientWg.Wait() and wg.Done() *)
      requests <= Z.of_nat s ->
      load_step (mk_load (l1 ++ mk_client s w r v d x 0 false :: l2) n k (S g) f)
        (mk_load (l1 ++ mk_client s w r v d x 0 true :: l2) n k g f)
  | ls_counted cs n g f :
      (* the counting goroutine leaves its loop and calls wg.Done() *)
      totalRequests < n ->
      load_step (mk_load cs n true (S g) f) (mk_load cs n false g f)
  | ls_finish cs n k :
      (* all clients are started and wg.Wait() returns *)
      clients <= Z.of_nat (length cs) ->
      load_step (mk_load cs n k 0 false) (mk_load cs n k 0 true).

(** ** Accounting *)

Hypothesis requests_nonneg : 0 <= requests.
Hypothesis clients_nonneg : 0 <= clients.
Hypothesis total_fits : requests * clients < 2 ^ 63 - 1.

Lemma total_eq : totalRequests = requests * clients.
Proof. apply i64_id. nia. Qed.

(** Requests that have been reported. *)
Definition reported (c : client) : nat := leaving c + gone c.

Definition alive (c : client) : nat := if returned c then 0 else 1.

Record client_ok (c : client) : Prop := {
  co_started : (started c = waiting c + reporting c + leaving c + gone c + lost c)%nat;
  co_wg : clientWg c = (waiting c + reporting c + leaving c + lost c)%nat;
  co_bound : Z.of_nat (started c) <= requests;
  co_returned : returned c = true -> Z.of_nat (started c) = requests /\ clientWg c = 0%nat;
}.

Record load_ok (s : load) : Prop := {
  lo_clients : Forall client_ok (running s);
  lo_spawned : Z.of_nat (length (running s)) <= clients;
  lo_completed : completed s = Z.of_nat (sum_list_with reported (running s)) + 1;
  lo_wg : wg s = ((if counting s then 1 else 0) + sum_list_with alive (running s))%nat;
  lo_counted : counting s = false -> totalRequests < completed s;
  lo_finished : finished s = true -> wg s = 0%nat /\ Z.of_nat (length (running s)) = clients;
}.

(** No more than all requests are started. *)
Lemma started_bound cs :
  Forall client_ok cs ->
  Z.of_nat (sum_list_with reported cs + sum_list_with reporting cs + sum_list_with lost cs) <= requests * Z.of_nat (length cs).
Proof.
  induction 1 as [|c cs [H1 H2 H3 H4] Hcs IH]; simpl; [lia|]. unfold reported at 1. nia.
Qed.

Lemma load_init_ok : load_ok load_init.
Proof. by split. Qed.

Ltac sums := rewrite ?sum_list_with_app, ?length_app in *; simpl in *; unfold reported, alive in *; simpl in *.

Lemma reported_total s :
  load_ok s -> completed s <= totalRequests + 1.
Proof.
  intros [O1 O2 O3 _ _ _]. pose proof (started_bound _ O1). rewrite O3, total_eq. nia.
Qed.

(** Replacing one client. *)
Lemma clients_ok_mid l1 c c' l2 :
  Forall client_ok (l1 ++ c :: l2) -> (client_ok c -> client_ok c') -> Forall client_ok (l1 ++ c' :: l2).
Proof.
  intros [H1 H2]%Forall_app Hc. apply list.Forall_cons in H2 as [H2 H3].
  apply Forall_app. split; [done|]. constructor; auto.
Qed.

Lemma load_step_ok s s' : load_step s s' -> load_ok s -> load_ok s'.
Proof.
  intros Hs O. pose proof (reported_total s O) as Hb. pose proof total_eq as Ht.
  destruct O as [O1 O2 O3 O4 O5 O6].
  destruct Hs; simpl in *; sums; split; simpl; sums; try done; try lia.
  - apply Forall_app. split; [done|]. constructor; [|done]. by split.
  - eapply clients_ok_mid; [exact O1|]. intros [K1 K2 K3 K4]; simpl in *; split; simpl; (lia || done).
  - eapply clients_ok_mid; [exact O1|]. intros [K1 K2 K3 K4]; simpl in *; split; simpl; (lia || done).
  - eapply clients_ok_mid; [exact O1|]. intros [K1 K2 K3 K4]; simpl in *; split; simpl; (lia || done).
  - eapply clients_ok_mid; [exact O1|]. intros [K1 K2 K3 K4]; simpl in *; split; simpl; (lia || done).
  - rewrite i64_id by lia. lia.
  - eapply clients_ok_mid; [exact O1|]. intros [K1 K2 K3 K4]; simpl in *; split; simpl; (lia || done).
  - eapply clients_ok_mid; [exact O1|]. intros [K1 K2 K3 K4]; simpl in *; split; simpl; (lia || done).
Qed.

(** ** Progress *)

(** The steps that are left. *)
Definition client_left (c : client) : nat :=
  4 * (Z.to_nat requests - started c) + 3 * waiting c + 2 * reporting c + leaving c + 2 * lost c + alive c.

Definition load_left (s : load) : nat :=
  (Z.to_nat clients - length (running s)) * (4 * Z.to_nat requests + 2)
  + sum_list_with client_left (running s)
  + (if counting s then 1 else 0) + (if finished s then 0 else 1).

Lemma load_step_left s s' : load_step s s' -> load_ok s -> load_left s = S (load_left s').
Proof.
  intros Hs [O1 O2 O3 O4 O5 O6].
  destruct Hs; unfold load_left; simpl in *; rewrite ?sum_list_with_app, ?length_app; simpl;
    unfold client_left; simpl; unfold alive; simpl; try lia.
  replace (Z.to_nat clients - length cs)%nat with (S (Z.to_nat clients - (length cs + 1)))%nat by lia. lia.
Qed.

(** A client that has nothing left to do: it has returned, unless it waits for
    lost responses. *)
Definition idle (c : client) : bool :=
  (started c =? Z.to_nat requests)%nat && (waiting c =? 0)%nat && (reporting c =? 0)%nat
  && (leaving c =? 0)%nat && eqb (returned c) (lost c =? 0)%nat.

Lemma idle_true c :
  idle c = true ->
  started c = Z.to_nat requests /\ waiting c = 0%nat /\ reporting c = 0%nat /\ leaving c = 0%nat /\
  returned c = (lost c =? 0)%nat.
Proof.
  unfold idle. rewrite !andb_true_iff, !Nat.eqb_eq, eqb_true_iff. tauto.
Qed.

(** The requests without a response. *)
Definition losses (s : load) : nat := sum_list_with lost (running s).

(** The end: every request has been started and, but for the losses, reported;
    [main] and all goroutines have returned if and only if nothing was lost. *)
Record load_final (s : load) : Prop := {
  lf_finished : finished s = (losses s =? 0)%nat;
  lf_counted : counting s = negb (losses s =? 0)%nat;
  lf_completed : completed s = requests * clients - Z.of_nat (losses s) + 1;
  lf_clients : Z.of_nat (length (running s)) = clients;
  lf_idle : Forall (fun c => idle c = true) (running s);
}.

(** A client that is not idle can go on. *)
Lemma client_progress l1 c l2 n k g f :
  load_ok (mk_load (l1 ++ c :: l2) n k g f) -> idle c = false ->
  exists s', load_step (mk_load (l1 ++ c :: l2) n k g f) s'.
Proof.
  intros O Hi. pose proof (lo_clients _ O) as Hc. simpl in Hc.
  apply Forall_app in Hc as [_ Hc]. apply list.Forall_cons in Hc as [[K1 K2 K3 K4] _].
  destruct c as [s w r v d x cw e]. simpl in *.
  destruct w as [|w]; [|eexists; apply ls_response].
  destruct r as [|r].
  - destruct v as [|v]; [|rewrite K2; eexists; apply ls_leave].
    destruct e; [|destruct (decide (Z.of_nat s < requests)) as [Hlt|Hge]].
    + destruct (K4 eq_refl) as [Hs Hc]. assert (x = 0%nat) as -> by lia. unfold idle in Hi. simpl in Hi.
      rewrite <- Hs, Nat2Z.id, Nat.eqb_refl in Hi. done.
    + eexists. by apply ls_request.
    + destruct x as [|x].
      2: { unfold idle in Hi. simpl in Hi. assert (s = Z.to_nat requests) as Es by lia.
           by rewrite Es, Nat.eqb_refl in Hi. }
      rewrite K2. pose proof (lo_wg _ O) as Hwg. simpl in Hwg.
      rewrite sum_list_with_app in Hwg. simpl in Hwg. unfold alive at 2 in Hwg. simpl in Hwg.
      destruct g as [|g]; [lia|]. eexists. apply ls_return. lia.
  - assert (Hn : n <= totalRequests).
    { pose proof (started_bound _ (lo_clients _ O)) as Hb. pose proof (lo_completed _ O) as Hn.
      pose proof (lo_spawned _ O) as Hl. simpl in *. rewrite total_eq.
      rewrite !sum_list_with_app in Hb. simpl in Hb. rewrite sum_list_with_app in Hn. simpl in Hn. nia. }
    destruct k; [eexists; by apply ls_report|].
    pose proof (lo_counted _ O eq_refl) as Hk. simpl in Hk. lia.
Qed.

Lemma idle_reported cs :
  Forall client_ok cs -> Forall (fun c => idle c = true) cs ->
  Z.of_nat (sum_list_with reported cs + sum_list_with lost cs) = requests * Z.of_nat (length cs) /\
  (sum_list_with alive cs = 0 <-> sum_list_with lost cs = 0)%nat.
Proof.
  intros Hok Hi. induction Hi as [|c cs Hc Hcs IH]; simpl; [lia|].
  apply list.Forall_cons in Hok as [[K1 K2 K3 K4] Hok]. destruct (IH Hok) as [I1 I2].
  apply idle_true in Hc as (E1 & E2 & E3 & E4 & E5). unfold reported at 1, alive at 1. rewrite E5.
  split; [nia|]. destruct (lost c); simpl; lia.
Qed.

Lemma load_progress s : load_ok s -> (exists s', load_step s s') \/ load_final s.
Proof.
  intros O. destruct s as [cs n k g f].
  destruct (decide (Forall (fun c => idle c = true) cs)) as [Hi|Hi].
  - pose proof O as [O1 O2 O3 O4 O5 O6]. simpl in *.
    destruct (idle_reported cs O1 Hi) as [Hr Ha].
    destruct (decide (Z.of_nat (length cs) < clients)) as [Hlt|Hge]; [left; eexists; by apply ls_client|].
    assert (Hl : Z.of_nat (length cs) = clients) by lia. rewrite Hl in Hr.
    assert (Hn : n = requests * clients - Z.of_nat (sum_list_with lost cs) + 1) by lia.
    destruct (sum_list_with lost cs) as [|x] eqn:Ex.
    + assert (Ha0 : sum_list_with alive cs = 0%nat) by lia. destruct k; [left|].
      * destruct g as [|g]; [lia|]. eexists. apply ls_counted. rewrite total_eq. lia.
      * assert (g = 0%nat) as -> by lia. destruct f; [|left; eexists; apply ls_finish; lia].
        right. split; unfold losses; simpl; rewrite ?Ex; done.
    + right. rewrite total_eq in O5. split; unfold losses; simpl; rewrite ?Ex; try done.
      * destruct f; [|done]. destruct (O6 eq_refl). lia.
      * destruct k; [done|]. specialize (O5 eq_refl). lia.
  - left. apply not_Forall_Exists in Hi; [|apply _].
    apply Exists_exists in Hi as (c & Hc & Hi). apply list_elem_of_split in Hc as (l1 & l2 & ->).
    apply client_progress; [done|]. by apply Bool.not_true_is_false.
Qed.

Lemma load_steps_left n s s' :
  nsteps load_step n s s' -> load_ok s -> load_ok s' /\ load_left s = (n + load_left s')%nat.
Proof.
  induction 1 as [s|n s s1 s' Hs Hn IH]; intros O; [done|].
  pose proof (load_step_left _ _ Hs O) as L1. destruct (IH (load_step_ok _ _ Hs O)) as [O' L2].
  split; [done|]. lia.
Qed.

Lemma load_init_left :
  Z.of_nat (load_left load_init) = clients * (4 * requests + 2) + 2.
Proof.
  unfold load_left, load_init. cbn [running length sum_list_with counting finished].
  rewrite Nat.sub_0_r, !Nat2Z.inj_add, Nat2Z.inj_mul, Nat2Z.inj_add, Nat2Z.inj_mul, !Z2Nat.id by done. lia.
Qed.

Lemma load_final_left s : load_ok s -> load_final s -> losses s = 0%nat -> load_left s = 0%nat.
Proof.
  intros O [F1 F2 F3 F4 F5] Hx. unfold load_left. rewrite F1, F2, Hx. unfold losses in Hx.
  assert (Hs : sum_list_with client_left (running s) = 0%nat).
  { clear -F5 Hx. induction F5 as [|c cs Hc Hcs IH]; [done|]. simpl in *.
    apply idle_true in Hc as (E1 & E2 & E3 & E4 & E5). unfold client_left at 1, alive. rewrite E5.
    destruct (lost c) eqn:El; simpl in *; lia. }
  rewrite Hs, <- F4, Nat2Z.id, Nat.sub_diag. done.
Qed.

(** (C31) The load generator, with responses that may be lost: for flags that are
    not negative and whose product fits, and whatever the interleaving and the
    losses, no execution has more than [clients * (4 * requests + 2) + 2] steps;
    in one that cannot go on every request has been started and every one whose
    response came has been reported; if no response was lost, the execution has
    exactly that many steps and [main] and all goroutines have returned; if one
    was lost, [main] waits for ever, and so do the counting goroutine and the
    client of every lost response. *)
Theorem load_terminates n s :
  nsteps load_step n load_init s ->
  Z.of_nat n <= clients * (4 * requests + 2) + 2 /\
  ((forall s', ~ load_step s s') ->
     load_final s /\
     (losses s = 0%nat -> finished s = true /\ Z.of_nat n = clients * (4 * requests + 2) + 2) /\
     ((0 < losses s)%nat -> finished s = false /\ counting s = true /\
        Forall (fun c => (0 < lost c)%nat -> returned c = false) (running s))).
Proof.
  intros Hn. destruct (load_steps_left _ _ _ Hn load_init_ok) as [O L].
  pose proof load_init_left as L0. split; [lia|]. intros Hstuck.
  destruct (load_progress s O) as [[s' Hs]|F]; [by apply Hstuck in Hs|].
  split; [done|]. split.
  - intros Hx. pose proof (load_final_left s O F Hx). rewrite (lf_finished _ F), Hx. split; [done | lia].
  - intros Hx. rewrite (lf_finished _ F), (lf_counted _ F). destruct (losses s); [lia|]. split_and!; try done.
    eapply Forall_impl; [apply (lf_idle _ F)|]. intros c (_ & _ & _ & _ & ->)%idle_true. by destruct (lost c); [lia|].
Qed.
End load.
