(* ===== verification/Handshake.v ===== *)
(** * Handshake: the key exchange of a client with a server (client.go)

    [ServerKEx], [ClientKEx] and [ConfigureClient] wait for the response to the
    packet they send; each is cut there into a request and a response part.
    The main theorem follows the exchange through the client's [Send], the
    extended server's two handlers and the client's [processIncoming]. *)

From Stdlib Require Import ZArith Lia Ascii String.
From stdpp Require Import base list strings gmap fin_maps.
From S2P Require Import Prelude Base64 Utf8 JsonText Decimal Json Packet PacketSpec PacketProps.
From S2P Require Import Fmt Pipeline Cipher Crypto CryptoSpec UDPServer UDPServerSpec UDPServerProps Channel.
From S2P Require Import Throttle UDPClient UDPClientProps Network.
Open Scope Z_scope.

Section handshake.
Context `{A : AEAD} `{C : Curve} `{!CurveLaws C} `{R : Resolver}.
Abbreviation WC := (CliState Crypto).
Abbreviation WS := (SvrState Crypto).

(** ** The client's part *)

(** The error of [Send] is ignored; without a response the caller waits for
    ever. *)
Definition ServerKEx_request (pc : Processor WC) (pkt ch : nat) : M WC (option string) :=
  ConfigureKeyExServerPkt pkt ;;; Send pc pkt (Some ch).

(** [true]: the handshake succeeded. *)
Definition ServerKEx_response (svrAddr : string) (resp : nat) : M WC bool :=
  ProcessKeyExResp svrAddr resp.

Definition ClientKEx_request (pc : Processor WC) (clientAddr : string) (pkt ch : nat)
    : M WC (option string) :=
  ConfigureKeyExClientPkt clientAddr pkt ;;; Send pc pkt (Some ch).

Definition ClientKEx_response (clientAddr : string) (resp : nat) : M WC bool :=
  ProcessKeyExResp clientAddr resp.

(** [ConfigureClient]; [gen] is what [ecdsa.GenerateKey] returns.  The exchange
    is made before the extension is installed.  A result [inl] is the error it
    returns, [inr] that it waits for the response (with the error of [Send] it
    ignores). *)
Definition ConfigureClient_request (pc : Processor WC) (gen : string + PrivateKey) (r : Rand) (pkt ch : nat)
    : M WC (string + option string) :=
  match gen with
  | inl e => ret (inl ("public key gen fail: " +:+ e))
  | inr k =>
      match NewCrypto (Some k) gen r with
      | inl e => ret (inl ("Crypto extension error: " +:+ e))
      | inr cr =>
          crypt (modify (fun _ => cr)) ;;;
          let* o := ServerKEx_request pc pkt ch in ret (inr o)
      end
  end.

Definition ConfigureClient_response (pc : Processor WC) (svrAddr : string) (resp : nat)
    : M WC (option (Processor WC)) :=
  let* ok := ServerKEx_response svrAddr resp in
  if ok : bool then
    match Extend "client" pc with
    | (p, None) => ret (Some p)
    | (_, Some _) => ret None
    end
  else ret None.

(** The request packet. *)
Definition kex_pkt (pub : bytes) (a : APkt) : APkt :=
  a_close (a_write pub (a_add KeyTarget TargetKeyExchangeServer (a_set_buff [] a))).

Lemma ConfigureKeyExServerPkt_spec (w : WC) pkt a :
  heap_good w -> abs (cl_heap w) pkt = Some a ->
  wp (ConfigureKeyExServerPkt pkt) (fun _ w' => heap_good w' /\
    abs (cl_heap w') pkt = Some (kex_pkt (publicKey (cl_ext w)) a) /\
    cl_ext w' = cl_ext w /\ cl_rand w' = cl_rand w /\
    cl_requests w' = cl_requests w /\ cl_writeStream w' = cl_writeStream w) w.
Proof.
  intros Hg Ha. unfold ConfigureKeyExServerPkt. rewrite wp_bind.
  eapply (wp_cpk (Clear pkt)); [apply Clear_acts | exact Hg | exact Ha |].
  intros h1 F1 A1 G1. rewrite wp_bind.
  eapply (wp_cpk (Meta_Add pkt _ _)); [apply Meta_Add_acts | exact G1 | exact A1 |].
  intros h2 F2 A2 G2. rewrite wp_bind.
  eapply wp_ok; [apply (crypt_gets (W := WC))|]. rewrite wp_bind.
  eapply (wp_cpk (Write pkt _)); [apply Write_acts | exact G2 | exact A2 |].
  intros h3 F3 A3 G3.
  eapply (wp_cpk (Close pkt)); [apply Close_acts | exact G3 | exact A3 |].
  intros h4 F4 A4 G4. by split_and!.
Qed.

(** ** The server's part *)

Variable ps : Processor WS.
Hypothesis ps_in : transforms (DataProcessor ps) "_in_" = [decryptTransport].
Hypothesis ps_out : transforms (DataProcessor ps) "_out_" = [encryptTransport].
Hypothesis ps_kex :
  callbackQueues (PacketProcessor ps) !! TargetKeyExchangeServer = Some [keyExchangeServer].

(** Data of a client without a key passes the incoming stage. *)
Lemma in_pass (c : Crypto) sender data : keys c !! sender = None -> in_data c sender data = Ok data.
Proof. intros Hk. unfold in_data. by rewrite Hk. Qed.

(** A packet marked to skip the extension passes the outgoing stage. *)
Lemma out_pass (w : WS) F pkt a bin :
  inv F w -> abs (s_heap w) pkt = Some a -> skips_crypto (a_get KeyNoCrypto a) = true ->
  DataProcess (DataProcessor ps) (out_tctx pkt) bin w = Ok ((out_tctx pkt, bin, None), w).
Proof.
  intros I Ha Hs. erewrite (out_stage_crypto _ w pkt a); [| done | apply I | exact Ha |];
    unfold out_ctx, out_data, out_crypto, out_decision; rewrite Hs; [by destruct w | done].
Qed.

(** What the server answers. *)
Definition kex_resp (pub : bytes) (ref sender d : string) : APkt :=
  a_close (a_write pub (a_add KeyNoCrypto "true" (fresh_pkt ref sender d))).

(** The callback on a request with a complete public key. *)
Lemma keyExchangeServer_answers (e : Crypto) sender q x y :
  decode_pk (a_buff q) = Some (mk_PublicKey (Some x) (Some y)) ->
  answers_in sender e q keyExchangeServer
    (fun r => a_write (publicKey e) (a_add KeyNoCrypto "true" r))
    (store_key sender (exchanged false e x y) e).
Proof.
  intros Hd w ctx pkt pw b <- <- Hs Hp I Ha Hb. eapply wp_mono.
  { eapply (keyExchangeServer_spec (W := WS) w ctx pkt pw q b); [done | apply I | done | done | done]. }
  intros ctx' w' (-> & C3 & F3 & A3 & h & E3). simpl in C3, F3, A3. split; [by right|].
  simpl in E3. rewrite E3 in F3, A3 |- *. split; [by eapply (inv_frame _ w)|]. split; [|done].
  destruct F3 as [_ _ _ Fa]. split; simpl; try done.
Qed.

Lemma server_kex_in m b raw sender (ws : WS) x y :
  inv [] ws -> utf8_map m -> in_data (s_ext ws) sender raw = Ok (datagram m b) ->
  m !! KeyTarget = Some TargetKeyExchangeServer ->
  decode_pk b = Some (mk_PublicKey (Some x) (Some y)) ->
  wp (processIncoming ps raw sender) (fun _ ws' => inv [] ws' /\
    s_ext ws' = store_key sender (exchanged false (s_ext ws) x y) (s_ext ws) /\
    writeStream ws' = writeStream ws /\
    exists l d, sendStream ws' = sendStream ws ++ [l] /\
      abs (s_heap ws') l = Some (kex_resp (publicKey (s_ext ws))
        (default ""%string (m !! KeyRef)) sender d)) ws.
Proof.
  intros I Hm Hk Ht Hd. eapply wp_mono.
  { eapply request_stage; [by apply in_stage | done | done | by apply keyExchangeServer_answers
      | by rewrite Ht]. }
  intros [] ws' (I' & E' & W' & l & a & S' & A' & d & ->). split_and!; try done. by exists l, d.
Qed.

Lemma server_kex m b raw sender addr (ws : WS) x y :
  inv [] ws -> sendStream ws = [] -> utf8_map m -> in_data (s_ext ws) sender raw = Ok (datagram m b) ->
  m !! KeyTarget = Some TargetKeyExchangeServer ->
  decode_pk b = Some (mk_PublicKey (Some x) (Some y)) -> ResolveUDPAddr sender = Some addr ->
  exists ws1 r ws2 d,
    processIncoming ps raw sender ws = Ok (tt, ws1) /\ sendStream ws1 = [r] /\
    processOutgoing ps r
      (mk_SvrState (s_heap ws1) (s_ext ws1) [] (writeStream ws1) (closed ws1)) = Ok (tt, ws2) /\
    s_ext ws2 = store_key sender (exchanged false (s_ext ws) x y) (s_ext ws) /\
    inv [] ws2 /\ sendStream ws2 = [] /\
    let resp := kex_resp (publicKey (s_ext ws)) (default ""%string (m !! KeyRef)) sender d in
    writeStream ws2 = writeStream ws
      ++ [mk_writePacket (datagram (a_meta resp) (publicKey (s_ext ws))) addr].
Proof.
  intros I Hs Hm Hk Ht Hd Hr.
  destruct (wp_inv _ _ _ (server_kex_in m b raw sender ws x y I Hm Hk Ht Hd))
    as ([] & ws1 & Hrun1 & I1 & E1 & W1 & l & d & S1 & A1).
  rewrite Hs in S1. simpl in S1. assert (I1' := inv_receive ws1 [] l [] I1 S1). simpl in I1'.
  set (ws1' := mk_SvrState _ _ _ _ _) in I1'.
  assert (Hskip : skips_crypto (a_get KeyNoCrypto
    (kex_resp (publicKey (s_ext ws)) (default ""%string (m !! KeyRef)) sender d)) = true).
  { unfold a_get. simpl. by rewrite lookup_insert_eq. }
  destruct (wp_inv _ _ _ (outgoing_pass ps l _ ws1' (out_pass ws1' [l] l _ _ I1' A1 Hskip) I1' A1))
    as ([] & ws2 & Hrun2 & I2 & E2 & S2 & P2 & W2).
  exists ws1, l, ws2, d. simpl in W2, S2. rewrite Hr in W2.
  rewrite E2, W2. simpl. rewrite E1, W1. by split_and!; rewrite <- ?E1, <- ?W1.
Qed.

(** ** The exchange *)

Variable pc : Processor WC.
Hypothesis pc_out : transforms (DataProcessor pc) "_out_" = [].
Hypothesis pc_in : transforms (DataProcessor pc) "_in_" = [].

(** The exchange: what happens at both ends, and the client's secret. *)
Lemma handshake_run (wc : WC) (ws : WS) pkt a ch caddr addr saddr :
  let kc := privKey (cl_ext wc) in let ks := privKey (s_ext ws) in
  publicKey (cl_ext wc) = publicKey (crypto_of kc []) ->
  publicKey (s_ext ws) = publicKey (crypto_of ks []) ->
  keypair (D kc) (PX kc) (PY kc) -> keypair (D ks) (PX ks) (PY ks) ->
  heap_good wc -> abs (cl_heap wc) pkt = Some a ->
  utf8_map (a_meta (send_pkt (kex_pkt (publicKey (cl_ext wc)) a) wc)) ->
  inv [] ws -> sendStream ws = [] -> keys (s_ext ws) !! caddr = None ->
  ResolveUDPAddr caddr = Some addr ->
  exists wc1 data ref ws1 r ws2 data' wc2 l wc3 kss ksc,
    ServerKEx_request pc pkt ch wc = Ok (None, wc1) /\
    cl_writeStream wc1 = cl_writeStream wc ++ [mk_cwritePacket data (Some ch) ref] /\
    processIncoming ps data caddr ws = Ok (tt, ws1) /\ sendStream ws1 = [r] /\
    processOutgoing ps r
      (mk_SvrState (s_heap ws1) (s_ext ws1) [] (writeStream ws1) (closed ws1)) = Ok (tt, ws2) /\
    writeStream ws2 = writeStream ws ++ [mk_writePacket data' addr] /\
    processIncoming_send pc saddr data' wc1 = Ok (Some (ToRequest ch l ref), wc2) /\
    ServerKEx_response saddr l wc2 = Ok (true, wc3) /\
    keys (s_ext ws2) !! caddr = Some kss /\ keys (cl_ext wc3) !! saddr = Some ksc /\
    shared kss = shared ksc /\ keySent kss = false /\ keySent ksc = true /\
    shared ksc = (ScalarMult (PX ks) (PY ks) (BigBytes (D kc))).1.
Proof.
  intros kc ks Pc Ps KPc KPs Hg Ha Hu I Hs Hk Hr.
  destruct (wp_inv _ _ _ (ConfigureKeyExServerPkt_spec wc pkt a Hg Ha))
    as ([] & wc0 & Hconf & Hg0 & A0 & E0 & Rn0 & R0 & S0).
  set (q := kex_pkt (publicKey (cl_ext wc)) a) in *.
  assert (Eref : send_ref q wc0 = send_ref q wc) by (unfold send_ref; by rewrite Rn0).
  assert (Epkt : send_pkt q wc0 = send_pkt q wc) by (unfold send_pkt; by rewrite Eref).
  destruct (wp_inv _ _ _ (Send_registers pc pkt (Some ch) wc0 q pc_out Hg0 A0))
    as (o & wc1 & Hsend & -> & Hg1 & X1 & R1 & S1).
  unfold send_wire in S1. rewrite Epkt, Eref, S0 in *. set (m := a_meta (send_pkt q wc)) in *.
  set (ref := send_ref q wc) in *.
  assert (Href : m !! KeyRef = Some ref) by apply send_pkt_lookup.
  assert (Htgt : m !! KeyTarget = Some TargetKeyExchangeServer).
  { unfold m, send_pkt. destruct (String.eqb _ _); simpl;
      rewrite ?lookup_insert_ne by done; by rewrite lookup_insert_eq. }
  assert (Hdc : decode_pk (publicKey (cl_ext wc)) = Some (mk_PublicKey (Some (PX kc)) (Some (PY kc))))
    by (rewrite Pc; apply decode_render_pk).
  destruct (server_kex m _ _ caddr addr ws _ _ I Hs Hu (in_pass _ _ _ Hk) Htgt Hdc Hr)
    as (ws1 & r & ws2 & d & Hrun1 & Hs1 & Hrun2 & Xs & _ & _ & W2).
  rewrite Href in W2. simpl default in W2. cbv zeta in W2.
  set (rm := a_meta (kex_resp _ ref caddr d)) in W2.
  assert (Hrm : utf8_map rm).
  { apply map_Forall_insert_2; [by split; vm_compute|].
    by eapply fresh_pkt_utf8. }
  destruct (wp_inv _ _ _ (processIncoming_spec pc saddr rm (publicKey (s_ext ws)) wc1 pc_in Hg1 Hrm))
    as (o & wc2 & Hrun3 & l & -> & Hg2 & A2 & X2 & _).
  assert (Hds : decode_pk (publicKey (s_ext ws)) = Some (mk_PublicKey (Some (PX ks)) (Some (PY ks))))
    by (rewrite Ps; apply decode_render_pk).
  pose proof (ProcessKeyExResp_spec (W := WC) wc2 saddr l _ _ _ (proj1 Hg2) A2 Hds) as Hresp.
  assert (Eroute : route wc1 (default ""%string (rm !! KeyRef)) l = ToRequest ch l ref).
  { unfold route, rm. simpl. rewrite lookup_insert_ne, lookup_singleton_eq by done. simpl.
    by rewrite R1, lookup_insert_eq. }
  rewrite Eroute in Hrun3. simpl in Hresp. rewrite X2, X1, E0 in Hresp.
  eexists wc1, _, ref, ws1, r, ws2, _, wc2, l, _, _, _.
  split. { unfold ServerKEx_request. by erewrite bind_ok by exact Hconf. }
  split; [exact S1|]. split; [exact Hrun1|]. split; [exact Hs1|]. split; [exact Hrun2|].
  split; [exact W2|]. split; [exact Hrun3|]. split; [exact Hresp|].
  rewrite Xs. simpl. rewrite !lookup_insert_eq. split; [done|]. split; [done|].
  split_and!; try done. simpl. by apply ecdh.
Qed.

(** (C4) The handshake of a client without transforms with a server that has no
    key for the client's address yet. The server is idle, its incoming and
    outgoing transforms are those of the Crypto extension and its queue for the
    exchange is the extension's callback alone; both ends have key pairs and the
    public keys that belong to them; the client's address resolves; the
    request's metadata is UTF-8. The request that [ServerKEx] sends, the
    server's two handlers on it and the client's handler on their answer, run
    one after the other, end with the server's public key on the response
    channel, received in clear, and both ends hold the same shared secret for
    each other's address; the client may encrypt from now on, the server has the
    client's key marked as not yet sent. *)
Theorem handshake (wc : WC) (ws : WS) pkt a ch caddr addr saddr :
  let kc := privKey (cl_ext wc) in let ks := privKey (s_ext ws) in
  publicKey (cl_ext wc) = publicKey (crypto_of kc []) ->
  publicKey (s_ext ws) = publicKey (crypto_of ks []) ->
  keypair (D kc) (PX kc) (PY kc) -> keypair (D ks) (PX ks) (PY ks) ->
  heap_good wc -> abs (cl_heap wc) pkt = Some a ->
  utf8_map (a_meta (send_pkt (kex_pkt (publicKey (cl_ext wc)) a) wc)) ->
  inv [] ws -> sendStream ws = [] -> keys (s_ext ws) !! caddr = None ->
  ResolveUDPAddr caddr = Some addr ->
  exists wc1 data ref ws1 r ws2 data' wc2 l wc3 kss ksc,
    ServerKEx_request pc pkt ch wc = Ok (None, wc1) /\
    cl_writeStream wc1 = cl_writeStream wc ++ [mk_cwritePacket data (Some ch) ref] /\
    processIncoming ps data caddr ws = Ok (tt, ws1) /\ sendStream ws1 = [r] /\
    processOutgoing ps r
      (mk_SvrState (s_heap ws1) (s_ext ws1) [] (writeStream ws1) (closed ws1)) = Ok (tt, ws2) /\
    writeStream ws2 = writeStream ws ++ [mk_writePacket data' addr] /\
    processIncoming_send pc saddr data' wc1 = Ok (Some (ToRequest ch l ref), wc2) /\
    ServerKEx_response saddr l wc2 = Ok (true, wc3) /\
    keys (s_ext ws2) !! caddr = Some kss /\ keys (cl_ext wc3) !! saddr = Some ksc /\
    shared kss = shared ksc /\ keySent kss = false /\ keySent ksc = true.
Proof.
  intros kc ks Pc Ps KPc KPs Hg Ha Hu I Hs Hk Hr.
  destruct (handshake_run wc ws pkt a ch caddr addr saddr)
    as (wc1 & data & ref & ws1 & r & ws2 & data' & wc2 & l & wc3 & kss & ksc & H1 & H2 & H3 & H4 & H5 & H6
      & H7 & H8 & H9 & H10 & H11 & H12 & H13 & _); try done.
  exists wc1, data, ref, ws1, r, ws2, data', wc2, l, wc3, kss, ksc. by split_and!.
Qed.
End handshake.
