(* ===== verification/SecureRelay.v ===== *)
(** * SecureRelay: end-to-end encrypted packets through an extended server

    The composition the server's documentation promises: a client encrypts the
    data of a packet for another client and sends it to the relay target; both
    legs pass the transport stages of the extended ends; the other client
    decrypts the data with the secret it shares with the sender.  The keys come
    from [ClientKEx], which asks the server for the other client's public key. *)

From Stdlib Require Import ZArith Lia Ascii String.
From stdpp Require Import base list strings gmap fin_maps.
From S2P Require Import Prelude Base64 Utf8 JsonText Decimal Json Packet PacketSpec PacketProps.
From S2P Require Import Fmt Pipeline Cipher Crypto CryptoSpec UDPServer UDPServerSpec UDPServerProps Channel.
From S2P Require Import Throttle UDPClient UDPClientProps Network Handshake.
Open Scope Z_scope.

Section secure.
Context `{A : AEAD} `{!AEADLaws A} `{C : Curve} `{!CurveLaws C} `{R : Resolver}.
Abbreviation WC := (CliState Crypto).
Abbreviation WS := (SvrState Crypto).

(** A server and clients that are extended with the cryptographic extension and
    with nothing else. *)
Definition secured {W} `{Has Heap W} `{Has Crypto W} (p : Processor W) : Prop :=
  transforms (DataProcessor p) "_in_" = [decryptTransport] /\
  transforms (DataProcessor p) "_out_" = [encryptTransport].

(** ** The legs *)

(** A client sends a packet to the server: what the server's incoming stage
    makes of it is the packet's wire form. *)
Lemma client_leg (pc : Processor WC) (wc : WC) pkt a ch key c' src :
  secured pc -> heap_good wc -> abs (cl_heap wc) pkt = Some a ->
  linked key (cl_ext wc) c' (a_dest a) src ->
  deliverable key (send_pkt a wc) (cl_ext wc) (send_wire a wc) ->
  exists wc' data, Send pc pkt ch wc = Ok (None, wc') /\ heap_good wc' /\
    cl_ext wc' = out_crypto (send_pkt a wc) (cl_ext wc) /\
    cl_requests wc' = <[send_ref a wc := ch]> (cl_requests wc) /\
    cl_writeStream wc' = cl_writeStream wc ++ [mk_cwritePacket data ch (send_ref a wc)] /\
    in_data c' src data = Ok (send_wire a wc).
Proof.
  intros [_ Hout] Hg Ha Hl Hd.
  assert (Edest : a_dest (send_pkt a wc) = a_dest a)
    by (unfold send_pkt; by destruct (String.eqb _ _)).
  assert (Hst : out_stage pc pkt a wc (out_data (send_pkt a wc) (cl_ext wc) (send_wire a wc))
    (out_crypto (send_pkt a wc) (cl_ext wc))).
  { intros w1 Hg1 A1 E1. rewrite <- E1.
    refine (out_stage_crypto (W := WC) (DataProcessor pc) w1 pkt (send_pkt a wc) (send_wire a wc)
      Hout (proj1 Hg1) A1 _). simpl. rewrite E1. by eapply deliverable_ctx. }
  destruct (wp_inv _ _ _ (Send_stage pc pkt ch wc a _ _ Hst Hg Ha))
    as (o & wc' & Hrun & -> & Hg' & E' & R' & S').
  exists wc', (out_data (send_pkt a wc) (cl_ext wc) (send_wire a wc)). split_and!; try done.
  apply (channel key); [by rewrite Edest | done | apply render_pkt_long].
Qed.

(** The server sends a waiting packet to a client. *)
Lemma server_leg (ps : Processor WS) (ws : WS) pkt a addr key c' src :
  secured ps -> inv [pkt] ws -> abs (s_heap ws) pkt = Some a ->
  ResolveUDPAddr (a_dest a) = Some addr ->
  linked key (s_ext ws) c' (a_dest a) src ->
  deliverable key a (s_ext ws) (render_pkt (Some (a_meta a)) (a_data a)) ->
  exists ws' data, processOutgoing ps pkt ws = Ok (tt, ws') /\ inv [] ws' /\
    s_ext ws' = out_crypto a (s_ext ws) /\ sendStream ws' = sendStream ws /\
    writeStream ws' = writeStream ws ++ [mk_writePacket data addr] /\
    in_data c' src data = Ok (render_pkt (Some (a_meta a)) (a_data a)).
Proof.
  intros [_ Hout] I Ha Hr Hl Hd. set (bin := render_pkt _ _) in *.
  pose proof (out_stage_crypto (W := WS) (DataProcessor ps) ws pkt a bin Hout
    (inv_heap _ _ I) Ha (deliverable_ctx _ _ _ _ _ Hd)) as Hst.
  destruct (wp_inv _ _ _ (outgoing_stage ps pkt a _ _ ws Hst I Ha))
    as ([] & ws' & Hrun & I' & E' & S' & _ & _ & W'). rewrite Hr in *.
  exists ws', (out_data a (s_ext ws) bin). split_and!; try done.
  apply (channel key); [done | done | apply render_pkt_long].
Qed.

(** ** Relayed packets *)

(** The packet with its data sealed. *)
Definition sealed_pkt (key n : bytes) (a : APkt) : APkt :=
  a_close (a_set_buff (n ++ Seal key n (a_buff a)) a).

(** Encryption and sending at the first client. *)
Lemma sealed_send (pa : Processor WC) (wa : WC) pkt a ch baddr ks n r key c' src :
  let ke := BigBytes (shared ks) in
  let ca := mk_Crypto (keys (cl_ext wa)) (privKey (cl_ext wa)) (publicKey (cl_ext wa)) r in
  let q := sealed_pkt ke n a in
  secured pa -> heap_good wa -> abs (cl_heap wa) pkt = Some a ->
  keys (cl_ext wa) !! baddr = Some ks -> key_ok ke = true -> rnd (cl_ext wa) = inr n :: r ->
  linked key (cl_ext wa) c' (a_dest a) src ->
  deliverable key (send_pkt q wa) ca (send_wire q wa) ->
  exists wa1 wa2 data,
    EncryptE2E baddr pkt wa = Ok (None, wa1) /\ Send pa pkt ch wa1 = Ok (None, wa2) /\
    heap_good wa2 /\ cl_ext wa2 = out_crypto (send_pkt q wa) ca /\
    cl_requests wa2 = <[send_ref q wa := ch]> (cl_requests wa) /\
    cl_writeStream wa2 = cl_writeStream wa ++ [mk_cwritePacket data ch (send_ref q wa)] /\
    in_data c' src data = Ok (send_wire q wa).
Proof.
  intros ke ca q Hp Hg Ha Hk Hok Hr Hl Hd.
  pose proof (EncryptE2E_ok (W := WC) wa baddr pkt a ks n r) as He.
  apply (He (proj1 Hg) Ha Hk Hok) in Hr. clear He.
  destruct (wp_inv _ _ _ Hr) as (err & wa1 & Hrun1 & -> & Fr & A1 & h & E1).
  assert (Hg1 : heap_good wa1) by (split; [apply Fr | by eapply (healthy_frame pkt), Hg]).
  rewrite E1 in *. simpl in A1.
  destruct (client_leg pa _ pkt q ch key c' src Hp Hg1 A1 Hl Hd)
    as (wa2 & data & Hrun2 & Hg2 & X2 & R2 & S2 & Hin).
  by exists (upd h (upd ca wa)), wa2, data.
Qed.

(** The server's part: what the first client sent becomes a packet that holds
    the same data, and reaches the second client's decoder. *)
Lemma server_relay (ps : Processor WS) (ws : WS) m b data aaddr baddr saddr addr kb c' :
  let fwd := forwarded m b aaddr in
  secured ps -> callbackQueues (PacketProcessor ps) !! TargetRelay = Some [relayCallback] ->
  inv [] ws -> sendStream ws = [] -> ResolveUDPAddr baddr = Some addr ->
  utf8_map m -> m !! KeyTarget = Some TargetRelay -> m !! KeyRelayTo = Some baddr ->
  in_data (s_ext ws) aaddr data = Ok (datagram m b) ->
  linked kb (s_ext ws) c' baddr saddr ->
  deliverable kb fwd (s_ext ws) (render_pkt (Some (a_meta fwd)) (a_data fwd)) ->
  exists ws1 l ws2 data',
    processIncoming ps data aaddr ws = Ok (tt, ws1) /\ sendStream ws1 = [l] /\
    abs (s_heap ws1) l = Some fwd /\
    processOutgoing ps l
      (mk_SvrState (s_heap ws1) (s_ext ws1) [] (writeStream ws1) (closed ws1)) = Ok (tt, ws2) /\
    inv [] ws2 /\ sendStream ws2 = [] /\ s_ext ws2 = out_crypto fwd (s_ext ws) /\
    writeStream ws2 = writeStream ws ++ [mk_writePacket data' addr] /\
    in_data c' saddr data' = Ok (datagram (a_meta fwd) b).
Proof.
  intros fwd Ps Hrel I Hs Hres Hm Htgt Hto Hin Hl Hd.
  pose proof (in_stage (W := WS) (DataProcessor ps) ws aaddr data _ (proj1 Ps) Hin) as Hst.
  destruct (wp_inv _ _ _ (relay_stage ps m b data aaddr ws Hst I Hm Htgt Hrel))
    as ([] & ws1 & Hrun1 & I1 & E1 & W1 & l & x & S1 & A1 & <-).
  rewrite Hs in S1. simpl in S1. assert (I1' := inv_receive ws1 [] l [] I1 S1).
  assert (Hfd : a_dest fwd = baddr) by (unfold fwd, forwarded; simpl; by rewrite Hto).
  destruct (server_leg ps _ l fwd addr kb c' saddr Ps I1' A1)
    as (ws2 & data' & Hrun2 & I2 & E2 & S3 & W2 & Hin2); rewrite ?Hfd; simpl; rewrite ?E1; try done.
  exists ws1, l, ws2, data'. simpl in E2, S3, W2. rewrite W1 in W2. rewrite E1 in E2. by split_and!.
Qed.

(** The second client's part. *)
Lemma relay_received (pb : Processor WC) (wb : WC) data saddr aaddr m key n b ks :
  secured pb -> heap_good wb -> utf8_map m ->
  in_data (cl_ext wb) saddr data = Ok (datagram m (n ++ Seal key n b)) ->
  keys (cl_ext wb) !! aaddr = Some ks -> BigBytes (shared ks) = key -> key_ok key = true ->
  length n = nonceSize ->
  exists wb1 l wb2,
    processIncoming_send pb saddr data wb
      = Ok (Some (route wb (default ""%string (m !! KeyRef)) l), wb1) /\
    heap_good wb1 /\ abs (cl_heap wb1) l = Some (request m (n ++ Seal key n b)) /\
    DecryptE2E aaddr l wb1 = Ok (None, wb2) /\
    abs (cl_heap wb2) l = Some (request m b) /\
    heap_good wb2 /\ (l ∉ pool (cl_heap wb2)) /\ cl_ext wb2 = cl_ext wb /\
    cl_requests wb2 = cl_requests wb /\ cl_writeStream wb2 = cl_writeStream wb.
Proof.
  intros Pb Hg Hm Hin Hk <- Hok Hn.
  pose proof (in_stage (W := WC) (DataProcessor pb) wb saddr data _ (proj1 Pb) Hin) as Hst.
  destruct (wp_inv _ _ _ (processIncoming_stage pb saddr _ _ data wb Hst Hg Hm))
    as (o & wb1 & Hrun & l & -> & Hg1 & A1 & X1 & R1 & S1 & Hl).
  pose proof (DecryptE2E_ok (W := WC) wb1 aaddr l _ ks n b (proj1 Hg1) A1) as Hdec.
  simpl in Hdec. rewrite X1 in Hdec.
  destruct (wp_inv _ _ _ (Hdec Hk Hok Hn eq_refl)) as (err & wb2 & Hrun2 & -> & F & A2 & h & E2).
  exists wb1, l, wb2. rewrite E2 in *. simpl in F. split_and!; try done.
  - split; [apply F | by eapply healthy_frame, Hg1].
  - simpl. by rewrite (fr_pool _ _ _ F).
Qed.

Lemma relay_run (pa pb : Processor WC) (ps : Processor WS) (wa wb : WC) (ws : WS)
    pkt a ch aaddr baddr saddr addr ke n r ka kb :
  let ca := mk_Crypto (keys (cl_ext wa)) (privKey (cl_ext wa)) (publicKey (cl_ext wa)) r in
  let q := sealed_pkt ke n a in
  let m := a_meta (send_pkt q wa) in
  let fwd := forwarded m (a_buff q) aaddr in
  secured pa -> secured pb -> secured ps ->
  callbackQueues (PacketProcessor ps) !! TargetRelay = Some [relayCallback] ->
  (* the states *)
  heap_good wa -> abs (cl_heap wa) pkt = Some a -> heap_good wb ->
  inv [] ws -> sendStream ws = [] -> ResolveUDPAddr baddr = Some addr ->
  (* the packet *)
  a_dest a = saddr -> a_meta a !! KeyTarget = Some TargetRelay ->
  a_meta a !! KeyRelayTo = Some baddr -> utf8_map m -> utf8_string aaddr ->
  (* the secrets *)
  linked ke (cl_ext wa) (cl_ext wb) baddr aaddr ->
  linked ka (cl_ext wa) (s_ext ws) saddr aaddr ->
  linked kb (s_ext ws) (cl_ext wb) baddr saddr ->
  rnd (cl_ext wa) = inr n :: r -> length n = nonceSize ->
  deliverable ka (send_pkt q wa) ca (send_wire q wa) ->
  deliverable kb fwd (s_ext ws) (render_pkt (Some (a_meta fwd)) (a_data fwd)) ->
  exists wa1 wa2 data ref ws1 l ws2 data' wb1 l' wb2,
    EncryptE2E baddr pkt wa = Ok (None, wa1) /\ Send pa pkt ch wa1 = Ok (None, wa2) /\
    cl_writeStream wa2 = cl_writeStream wa ++ [mk_cwritePacket data ch ref] /\
    processIncoming ps data aaddr ws = Ok (tt, ws1) /\ sendStream ws1 = [l] /\
    abs (s_heap ws1) l = Some fwd /\
    processOutgoing ps l
      (mk_SvrState (s_heap ws1) (s_ext ws1) [] (writeStream ws1) (closed ws1)) = Ok (tt, ws2) /\
    writeStream ws2 = writeStream ws ++ [mk_writePacket data' addr] /\
    processIncoming_send pb saddr data' wb = Ok (Some (route wb ref l'), wb1) /\
    DecryptE2E aaddr l' wb1 = Ok (None, wb2) /\
    abs (cl_heap wb2) l' = Some (request (a_meta fwd) (a_buff a)) /\
    a_meta fwd !! KeyRef = Some ref /\ ref = send_ref q wa /\
    (* what the three ends are left with *)
    heap_good wa2 /\ cl_ext wa2 = out_crypto (send_pkt q wa) ca /\
    cl_requests wa2 = <[ref := ch]> (cl_requests wa) /\
    inv [] ws2 /\ sendStream ws2 = [] /\ s_ext ws2 = out_crypto fwd (s_ext ws) /\
    heap_good wb1 /\ abs (cl_heap wb1) l' = Some (request (a_meta fwd) (a_buff q)) /\
    heap_good wb2 /\ (l' ∉ pool (cl_heap wb2)) /\ cl_ext wb2 = cl_ext wb /\
    cl_requests wb2 = cl_requests wb /\ cl_writeStream wb2 = cl_writeStream wb.
Proof.
  intros ca q m fwd Pa Pb Ps Hrel Hga Ha Hgb I Hs Hres Hdst Htgt Hto Hm Hua
    (ks & ks' & Hk & Hk' & <- & Eke' & Hok) Hla Hlb Hr Hn Hda Hdb.
  rewrite <- Hdst in Hla.
  destruct (sealed_send pa wa pkt a ch baddr ks n r ka (s_ext ws) aaddr)
    as (wa1 & wa2 & data & He & Hsend & Hg2 & X2 & R2 & S2 & Hin); try done.
  assert (Href : m !! KeyRef = Some (send_ref q wa)) by apply send_pkt_lookup.
  assert (Hkey : forall k, k <> KeyRef -> m !! k = a_meta a !! k).
  { intros k Hne. unfold m, send_pkt. destruct (String.eqb _ _); simpl; [|done].
    by rewrite lookup_insert_ne. }
  change (in_data (s_ext ws) aaddr data = Ok (datagram m (a_buff q))) in Hin.
  destruct (server_relay ps ws m (a_buff q) data aaddr baddr saddr addr kb (cl_ext wb))
    as (ws1 & l & ws2 & data' & Hrun1 & S1 & A1 & Hrun2 & I2 & Q2 & E2 & W2 & Hin2); rewrite ?Hkey; try done.
  assert (Hrm : utf8_map (a_meta fwd)).
  { unfold fwd, forwarded. simpl. rewrite Href. apply map_Forall_insert_2; [by split|].
    by eapply (fresh_pkt_utf8 m ""%string ""%string). }
  assert (Hfr : a_meta fwd !! KeyRef = Some (send_ref q wa)).
  { unfold fwd, forwarded. simpl. by rewrite lookup_insert_ne, lookup_singleton_eq, Href by done. }
  destruct (relay_received pb wb data' saddr aaddr (a_meta fwd) _ n (a_buff a) ks' Pb Hgb Hrm Hin2 Hk' Eke' Hok Hn)
    as (wb1 & l' & wb2 & Hrun3 & Hg3 & A3 & Hrun4 & A4 & Hg4 & Hl4 & X4 & R4 & S4).
  rewrite Hfr in Hrun3. simpl in Hrun3.
  exists wa1, wa2, data, (send_ref q wa), ws1, l, ws2, data', wb1, l', wb2. by split_and!.
Qed.

(** (C8) A secured relay, the handlers run one after the other. Clients A and B
    and the server have the transforms of the Crypto extension, and the server's
    relay queue is the relay callback alone and the server is idle. A and B, A
    and the server, and the server and B hold, in pairs, the same secret for
    each other's address, each a key of AES; A's next random bytes are a nonce;
    B's address resolves; A's packet goes to the server's address and names the
    relay target and B, with UTF-8 metadata. On each leg the extension does not
    fail, and what it sends in clear is not by accident a text sealed under the
    secret. Then A's [EncryptE2E] and [Send], the server's two handlers and B's
    handler and [DecryptE2E] succeed; what waits in the server has only the
    sealed data; and B has the original data with A's address as source and the
    packet's reference. *)
Theorem secure_relay (pa pb : Processor WC) (ps : Processor WS) (wa wb : WC) (ws : WS)
    pkt a ch aaddr baddr saddr addr ke n r ka kb :
  let ca := mk_Crypto (keys (cl_ext wa)) (privKey (cl_ext wa)) (publicKey (cl_ext wa)) r in
  let q := sealed_pkt ke n a in
  let m := a_meta (send_pkt q wa) in
  let fwd := forwarded m (a_buff q) aaddr in
  secured pa -> secured pb -> secured ps ->
  callbackQueues (PacketProcessor ps) !! TargetRelay = Some [relayCallback] ->
  (* the states *)
  heap_good wa -> abs (cl_heap wa) pkt = Some a -> heap_good wb ->
  inv [] ws -> sendStream ws = [] -> ResolveUDPAddr baddr = Some addr ->
  (* the packet *)
  a_dest a = saddr -> a_meta a !! KeyTarget = Some TargetRelay ->
  a_meta a !! KeyRelayTo = Some baddr -> utf8_map m -> utf8_string aaddr ->
  (* the secrets *)
  linked ke (cl_ext wa) (cl_ext wb) baddr aaddr ->
  linked ka (cl_ext wa) (s_ext ws) saddr aaddr ->
  linked kb (s_ext ws) (cl_ext wb) baddr saddr ->
  rnd (cl_ext wa) = inr n :: r -> length n = nonceSize ->
  deliverable ka (send_pkt q wa) ca (send_wire q wa) ->
  deliverable kb fwd (s_ext ws) (render_pkt (Some (a_meta fwd)) (a_data fwd)) ->
  exists wa1 wa2 data ref ws1 l ws2 data' wb1 l' wb2 x,
    EncryptE2E baddr pkt wa = Ok (None, wa1) /\ Send pa pkt ch wa1 = Ok (None, wa2) /\
    cl_writeStream wa2 = cl_writeStream wa ++ [mk_cwritePacket data ch ref] /\
    processIncoming ps data aaddr ws = Ok (tt, ws1) /\ sendStream ws1 = [l] /\
    abs (s_heap ws1) l = Some fwd /\ a_buff fwd = n ++ Seal ke n (a_buff a) /\
    processOutgoing ps l
      (mk_SvrState (s_heap ws1) (s_ext ws1) [] (writeStream ws1) (closed ws1)) = Ok (tt, ws2) /\
    writeStream ws2 = writeStream ws ++ [mk_writePacket data' addr] /\
    processIncoming_send pb saddr data' wb = Ok (Some (route wb ref l'), wb1) /\
    DecryptE2E aaddr l' wb1 = Ok (None, wb2) /\
    abs (cl_heap wb2) l' = Some x /\
    a_buff x = a_buff a /\ a_get KeyRelayFrom x = aaddr /\ a_get KeyRef x = ref.
Proof.
  intros ca q m fwd Pa Pb Ps Hrel Hga Ha Hgb I Hs Hres Hdst Htgt Hto Hm Hua Hle Hla Hlb Hr Hn Hda Hdb.
  destruct (relay_run pa pb ps wa wb ws pkt a ch aaddr baddr saddr addr ke n r ka kb)
    as (wa1 & wa2 & data & ref & ws1 & l & ws2 & data' & wb1 & l' & wb2 & H1 & H2 & H3 & H4 & H5 & H6
        & H7 & H8 & H9 & H10 & H11 & H12 & _); try done.
  exists wa1, wa2, data, ref, ws1, l, ws2, data', wb1, l', wb2. eexists. split_and!; try done.
  by rewrite request_get, H12.
Qed.

(** ** The key exchange between clients *)

(** The text [ConfigureKeyExClientPkt] writes: the address is not escaped. *)
Definition ip_text (addr : string) : bytes :=
  "{"%char :: dquote :: b_of_s "ip" ++ dquote :: ":"%char :: dquote
    :: b_of_s addr ++ [dquote; "}"%char].

(** An address whose text needs no escapes, such as "127.0.0.1:10002". *)
Definition plain_addr (addr : string) : Prop :=
  utf8_string addr /\ quote addr = dquote :: b_of_s addr ++ [dquote].

Lemma decode_ip_text addr : plain_addr addr -> decode_ip (ip_text addr) = Some addr.
Proof.
  intros [Hu Hq]. unfold decode_ip, decode_field.
  rewrite (parse_enough 4 _ (JObj [("ip"%string, JStr addr)])); [done|].
  assert (E : ip_text addr = "{"%char :: quote "ip" ++ ":"%char :: quote addr ++ "}"%char :: []).
  { rewrite Hq. unfold ip_text. by rewrite <- app_comm_cons, <- app_assoc. }
  rewrite E, parse_object. rewrite (parse_member _ _ _ (JStr addr)); [done | done | done |].
  by apply parse_quote.
Qed.

Definition kexc_pkt (addr : string) (a : APkt) : APkt :=
  a_close (a_write (ip_text addr) (a_add KeyTarget TargetKeyExchangeClient (a_set_buff [] a))).

Lemma ConfigureKeyExClientPkt_spec (w : WC) addr pkt a :
  heap_good w -> abs (cl_heap w) pkt = Some a ->
  wp (ConfigureKeyExClientPkt addr pkt) (fun _ w' => heap_good w' /\
    abs (cl_heap w') pkt = Some (kexc_pkt addr a) /\ exists h : Heap, w' = upd h w) w.
Proof.
  intros Hg Ha. unfold ConfigureKeyExClientPkt. rewrite wp_bind.
  eapply (wp_cpk (Clear pkt)); [apply Clear_acts | exact Hg | exact Ha |].
  intros h1 F1 A1 G1. rewrite wp_bind.
  eapply (wp_cpk (Meta_Add pkt _ _)); [apply Meta_Add_acts | exact G1 | exact A1 |].
  intros h2 F2 A2 G2. rewrite wp_bind.
  eapply (wp_cpk (Write pkt _)); [apply Write_acts | exact G2 | exact A2 |].
  intros h3 F3 A3 G3.
  eapply (wp_cpk (Close pkt)); [apply Close_acts | exact G3 | exact A3 |].
  intros h4 F4 A4 G4. split_and!; [done | done | by exists h4].
Qed.

(** What the server writes into the response to a client's request. *)
Definition kexc_resp (pk : PublicKey) (r : APkt) : APkt :=
  a_write (render_pk pk) (a_add KeyNoCrypto "true" r).

(** The callback on a request that asks for the key of [addr]. *)
Lemma keyExchangeClient_answers sender (e : Crypto) q addr ks :
  keys e !! addr = Some ks -> decode_ip (a_buff q) = Some addr ->
  answers_in sender e q keyExchangeClient (kexc_resp (public ks)) e.
Proof.
  intros Hk Hd w ctx pkt pw b <- _ Hs Hp I Ha Hb. unfold keyExchangeClient, ctx_pkt. rewrite Hp, wp_bind.
  apply wp_ret. rewrite wp_bind. eapply wp_read; [apply PktData_reads | exact I | exact Ha |].
  rewrite Hd. unfold getKeyStore. rewrite wp_bind. eapply wp_ok; [apply (crypt_gets (W := WS))|].
  simpl. rewrite Hk, wp_bind.
  eapply wp_pkt; [apply Meta_Add_acts | exact I | by right; left | exact Hb |].
  intros w1 I1 O1 A1. rewrite wp_bind.
  eapply wp_pkt; [apply Write_acts | exact I1 | by right; left | exact A1 |].
  intros w2 I2 O2 A2. apply wp_ret. split_and!; [by left | done | | done].
  destruct w. by eapply only_trans.
Qed.

Lemma out_crypto_priv a c : privKey (out_crypto a c) = privKey c.
Proof. unfold out_crypto. by repeat case_match. Qed.

(** The response to a client's request for a public key, on the wire. *)
Definition kexc_meta (ref : string) : gmap string string :=
  <[KeyNoCrypto := "true"%string]> {[KeyRef := ref]}.

(** The server's part. *)
Lemma server_kexc (ps : Processor WS) (ws : WS) m baddr ks data caddr saddr addr key c' ref :
  secured ps ->
  callbackQueues (PacketProcessor ps) !! TargetKeyExchangeClient = Some [keyExchangeClient] ->
  inv [] ws -> sendStream ws = [] -> ResolveUDPAddr caddr = Some addr ->
  utf8_map m -> m !! KeyTarget = Some TargetKeyExchangeClient -> m !! KeyRef = Some ref ->
  plain_addr baddr -> keys (s_ext ws) !! baddr = Some ks ->
  in_data (s_ext ws) caddr data = Ok (datagram m (ip_text baddr)) ->
  linked key (s_ext ws) c' caddr saddr ->
  let wire := datagram (kexc_meta ref) (render_pk (public ks)) in
  Open key (take nonceSize wire) (drop nonceSize wire) = None ->
  exists ws1 l ws2 data',
    processIncoming ps data caddr ws = Ok (tt, ws1) /\ sendStream ws1 = [l] /\
    processOutgoing ps l
      (mk_SvrState (s_heap ws1) (s_ext ws1) [] (writeStream ws1) (closed ws1)) = Ok (tt, ws2) /\
    writeStream ws2 = writeStream ws ++ [mk_writePacket data' addr] /\
    in_data c' saddr data' = Ok wire /\
    inv [] ws2 /\ sendStream ws2 = [] /\ s_ext ws2 = s_ext ws.
Proof.
  intros Ps Hcb I Hs Hres Hm Htgt Href Hpl Hk Hin Hl wire Hopen.
  pose proof (in_stage (W := WS) (DataProcessor ps) ws caddr data _ (proj1 Ps) Hin) as Hst.
  assert (Hans : answers_in caddr (s_ext ws) (request m (ip_text baddr)) keyExchangeClient
    (kexc_resp (public ks)) (s_ext ws))
    by (eapply keyExchangeClient_answers; [done | by apply decode_ip_text]).
  destruct (wp_inv _ _ _ (request_stage ps m (ip_text baddr) data caddr ws _ _ _ Hst I Hm Hans
    ltac:(by rewrite Htgt))) as ([] & ws1 & Hrun1 & I1 & E1 & W1 & l & x & S1 & A1 & d & ->).
  simpl in E1, W1, S1. rewrite Hs in S1. simpl in S1. assert (I1' := inv_receive ws1 [] l [] I1 S1).
  rewrite Href in A1. simpl default in A1. set (resp := a_close _) in A1.
  assert (Hdec : forall c, out_decision resp c = OutClear).
  { intros c. unfold out_decision. replace (a_get KeyNoCrypto resp) with "true"%string; [done|].
    unfold a_get, resp. simpl. by rewrite lookup_insert_eq. }
  destruct (server_leg ps _ l resp addr key c' saddr Ps I1' A1)
    as (ws2 & data' & Hrun2 & I2 & E2 & S3 & W2 & Hin2);
    [exact Hres | by simpl; rewrite E1 | unfold deliverable; by rewrite Hdec |].
  exists ws1, l, ws2, data'. simpl in W2, E2, S3. rewrite W1 in W2. split_and!; try done.
  rewrite E2. unfold out_crypto. by rewrite Hdec.
Qed.

(** The client's part when the response arrives. *)
Lemma kexc_received (pc : Processor WC) (wc : WC) data saddr ref ch pk :
  secured pc -> heap_good wc -> cl_requests wc !! ref = Some (Some ch) ->
  utf8_map (kexc_meta ref) ->
  in_data (cl_ext wc) saddr data = Ok (datagram (kexc_meta ref) (render_pk pk)) ->
  exists wc1 l,
    processIncoming_send pc saddr data wc = Ok (Some (ToRequest ch l ref), wc1) /\
    heap_good wc1 /\ cl_ext wc1 = cl_ext wc /\
    abs (cl_heap wc1) l = Some (request (kexc_meta ref) (render_pk pk)).
Proof.
  intros Pc Hg Hreq Hrm Hin.
  pose proof (in_stage (W := WC) (DataProcessor pc) wc saddr data _ (proj1 Pc) Hin) as Hst.
  destruct (wp_inv _ _ _ (processIncoming_stage pc saddr _ _ data wc Hst Hg Hrm))
    as (o & wc1 & Hrun & l & -> & Hg1 & A1 & X1 & _).
  assert (Hroute : route wc (default ""%string (kexc_meta ref !! KeyRef)) l = ToRequest ch l ref).
  { unfold route, kexc_meta. rewrite lookup_insert_ne, lookup_singleton_eq by done. simpl.
    by rewrite Hreq. }
  rewrite Hroute in Hrun. by exists wc1, l.
Qed.

(** The request of [ClientKEx] and the server's answer, up to its arrival. *)
Lemma kexc_run (pc : Processor WC) (ps : Processor WS) (wc : WC) (ws : WS)
    pkt a ch caddr baddr saddr addr key ksb :
  let q := kexc_pkt baddr a in
  let wire := datagram (kexc_meta (send_ref q wc)) (render_pk (public ksb)) in
  secured pc -> secured ps ->
  callbackQueues (PacketProcessor ps) !! TargetKeyExchangeClient = Some [keyExchangeClient] ->
  heap_good wc -> abs (cl_heap wc) pkt = Some a -> a_dest a = saddr ->
  inv [] ws -> sendStream ws = [] -> ResolveUDPAddr caddr = Some addr ->
  utf8_map (a_meta (send_pkt q wc)) -> plain_addr baddr ->
  linked key (cl_ext wc) (s_ext ws) saddr caddr ->
  linked key (s_ext ws) (cl_ext wc) caddr saddr ->
  deliverable key (send_pkt q wc) (cl_ext wc) (send_wire q wc) ->
  Open key (take nonceSize wire) (drop nonceSize wire) = None ->
  keys (s_ext ws) !! baddr = Some ksb ->
  exists wc1 data ref ws1 l ws2 data' wc2 l',
    ClientKEx_request pc baddr pkt ch wc = Ok (None, wc1) /\
    cl_writeStream wc1 = cl_writeStream wc ++ [mk_cwritePacket data (Some ch) ref] /\
    processIncoming ps data caddr ws = Ok (tt, ws1) /\ sendStream ws1 = [l] /\
    processOutgoing ps l
      (mk_SvrState (s_heap ws1) (s_ext ws1) [] (writeStream ws1) (closed ws1)) = Ok (tt, ws2) /\
    writeStream ws2 = writeStream ws ++ [mk_writePacket data' addr] /\
    processIncoming_send pc saddr data' wc1 = Ok (Some (ToRequest ch l' ref), wc2) /\
    heap_good wc2 /\ cl_ext wc2 = out_crypto (send_pkt q wc) (cl_ext wc) /\
    abs (cl_heap wc2) l' = Some (request (kexc_meta ref) (render_pk (public ksb))).
Proof.
  intros q wire Pc Ps Hcb Hg Ha Hdst I Hs Hres Hu Hpl Hl Hl' Hd Hopen Hkb.
  destruct (wp_inv _ _ _ (ConfigureKeyExClientPkt_spec wc baddr pkt a Hg Ha))
    as ([] & wc0 & Hconf & Hg0 & A0 & h & ->).
  destruct (client_leg pc (upd h wc) pkt q (Some ch) key (s_ext ws) caddr Pc Hg0 A0)
    as (wc1 & data & Hsend & Hg1 & X1 & R1 & S1 & Hin); [by rewrite <- Hdst in Hl | done |].
  change (send_ref q (upd h wc)) with (send_ref q wc) in *.
  change (send_pkt q (upd h wc)) with (send_pkt q wc) in *. simpl in X1, R1, S1.
  set (m := a_meta (send_pkt q wc)) in *. set (ref := send_ref q wc) in *.
  assert (Href : m !! KeyRef = Some ref) by apply send_pkt_lookup.
  assert (Htgt : m !! KeyTarget = Some TargetKeyExchangeClient).
  { unfold m, send_pkt. destruct (String.eqb _ _); simpl;
      rewrite ?lookup_insert_ne by done; by rewrite lookup_insert_eq. }
  change (in_data (s_ext ws) caddr data = Ok (datagram m (ip_text baddr))) in Hin.
  assert (Hl1 : linked key (s_ext ws) (cl_ext wc1) caddr saddr) by (by rewrite X1, out_crypto_same).
  destruct (server_kexc ps ws m baddr ksb data caddr saddr addr key (cl_ext wc1) ref)
    as (ws1 & l & ws2 & data' & Hrun1 & Hs1 & Hrun2 & W2 & Hin2 & _); try done.
  assert (Hrm : utf8_map (kexc_meta ref)).
  { apply map_Forall_insert_2; [by split; vm_compute|].
    by eapply (fresh_pkt_utf8 m ""%string ""%string). }
  assert (Hreq : cl_requests wc1 !! ref = Some (Some ch)) by (by rewrite R1, lookup_insert_eq).
  destruct (kexc_received pc wc1 data' saddr ref ch _ Pc Hg1 Hreq Hrm Hin2)
    as (wc2 & l' & Hrun3 & Hg2 & X2 & A2).
  exists wc1, data, ref, ws1, l, ws2, data', wc2, l'.
  split. { unfold ClientKEx_request. by erewrite bind_ok by exact Hconf. }
  split_and!; try done. by rewrite X2.
Qed.

(** The exchange between clients: a secured client that calls [ClientKEx]
    for the address of another client, whose public key the server holds, gets
    that key from the server on its response channel and stores for the address
    the secret which the other client computes from this client's public key. *)
Theorem client_kex (pc : Processor WC) (ps : Processor WS) (wc : WC) (ws : WS)
    pkt a ch caddr baddr saddr addr key ksb kb :
  let q := kexc_pkt baddr a in
  let kc := privKey (cl_ext wc) in
  let wire := datagram (kexc_meta (send_ref q wc)) (render_pk (public ksb)) in
  secured pc -> secured ps ->
  callbackQueues (PacketProcessor ps) !! TargetKeyExchangeClient = Some [keyExchangeClient] ->
  heap_good wc -> abs (cl_heap wc) pkt = Some a -> a_dest a = saddr ->
  inv [] ws -> sendStream ws = [] -> ResolveUDPAddr caddr = Some addr ->
  utf8_map (a_meta (send_pkt q wc)) -> plain_addr baddr ->
  linked key (cl_ext wc) (s_ext ws) saddr caddr ->
  linked key (s_ext ws) (cl_ext wc) caddr saddr ->
  deliverable key (send_pkt q wc) (cl_ext wc) (send_wire q wc) ->
  Open key (take nonceSize wire) (drop nonceSize wire) = None ->
  keys (s_ext ws) !! baddr = Some ksb ->
  public ksb = mk_PublicKey (Some (PX kb)) (Some (PY kb)) ->
  keypair (D kc) (PX kc) (PY kc) -> keypair (D kb) (PX kb) (PY kb) ->
  exists wc1 data ref ws1 l ws2 data' wc2 l' wc3 ks,
    ClientKEx_request pc baddr pkt ch wc = Ok (None, wc1) /\
    cl_writeStream wc1 = cl_writeStream wc ++ [mk_cwritePacket data (Some ch) ref] /\
    processIncoming ps data caddr ws = Ok (tt, ws1) /\ sendStream ws1 = [l] /\
    processOutgoing ps l
      (mk_SvrState (s_heap ws1) (s_ext ws1) [] (writeStream ws1) (closed ws1)) = Ok (tt, ws2) /\
    writeStream ws2 = writeStream ws ++ [mk_writePacket data' addr] /\
    processIncoming_send pc saddr data' wc1 = Ok (Some (ToRequest ch l' ref), wc2) /\
    ClientKEx_response baddr l' wc2 = Ok (true, wc3) /\
    keys (cl_ext wc3) !! baddr = Some ks /\ keySent ks = true /\
    shared ks = (ScalarMult (PX kc) (PY kc) (BigBytes (D kb))).1.
Proof.
  intros q kc wire Pc Ps Hcb Hg Ha Hdst I Hs Hres Hu Hpl Hl Hl' Hd Hopen Hkb Hpub KPc KPb.
  destruct (kexc_run pc ps wc ws pkt a ch caddr baddr saddr addr key ksb)
    as (wc1 & data & ref & ws1 & l & ws2 & data' & wc2 & l' & H1 & H2 & H3 & H4 & H5 & H6 & H7
      & Hg2 & X2 & A2); try done.
  pose proof (ProcessKeyExResp_spec (W := WC) wc2 baddr l' _ _ _ (proj1 Hg2) A2
    (eq_trans (decode_render_pk _) (f_equal Some Hpub))) as Hresp.
  eexists wc1, data, ref, ws1, l, ws2, data', wc2, l', _, _. split_and!; try done.
  - simpl. apply lookup_insert_eq.
  - done.
  - simpl. rewrite X2, out_crypto_priv. by apply ecdh.
Qed.

(** ** Requests the key exchange refuses *)

Lemma keyExchangeServer_refuses (e : Crypto) q :
  decode_pk (a_buff q) = None -> refuses_in e q keyExchangeServer "malformed packet".
Proof.
  intros Hd w ctx pkt pw b _ Hp I Ha Hb. unfold keyExchangeServer, ctx_pkt. rewrite Hp.
  erewrite bind_ok by done.
  erewrite bind_ok by (eapply (heap_reads (W := WS)); [apply PktData_reads | apply I | exact Ha]).
  by rewrite Hd.
Qed.

Lemma keyExchangeClient_refuses (e : Crypto) q msg :
  (match decode_ip (a_buff q) with
   | None => msg = "malformed packet"%string
   | Some ip => keys e !! ip = None /\ msg = "client non-existent"%string
   end) -> refuses_in e q keyExchangeClient msg.
Proof.
  intros Hd w ctx pkt pw b <- Hp I Ha Hb. unfold keyExchangeClient, ctx_pkt. rewrite Hp.
  erewrite bind_ok by done.
  erewrite bind_ok by (eapply (heap_reads (W := WS)); [apply PktData_reads | apply I | exact Ha]).
  destruct (decode_ip (a_buff q)) as [ip|]; [|by rewrite Hd]. destruct Hd as [Hk ->].
  unfold getKeyStore. erewrite bind_ok by apply (crypt_gets (W := WS)). simpl. by rewrite Hk.
Qed.

(** (C25) Refused exchanges: on a secured server a key exchange whose data is no
    public key, a client exchange whose data is not the request's struct, and
    one for an address without a key are each answered with one error packet
    with the request's reference, and no key is stored. *)
Theorem kex_refused (ps : Processor WS) (ws : WS) m b raw sender :
  secured ps ->
  callbackQueues (PacketProcessor ps) !! TargetKeyExchangeServer = Some [keyExchangeServer] ->
  callbackQueues (PacketProcessor ps) !! TargetKeyExchangeClient = Some [keyExchangeClient] ->
  inv [] ws -> utf8_map m -> in_data (s_ext ws) sender raw = Ok (datagram m b) ->
  let reports msg := wp (processIncoming ps raw sender) (fun _ ws' =>
    sends_one ws ws' (is_err (default ""%string (m !! KeyRef)) sender
      ("packet pipeline error: " +:+ msg))) ws in
  (m !! KeyTarget = Some TargetKeyExchangeServer -> decode_pk b = None ->
     reports "malformed packet"%string) /\
  (m !! KeyTarget = Some TargetKeyExchangeClient -> decode_ip b = None ->
     reports "malformed packet"%string) /\
  forall ip, m !! KeyTarget = Some TargetKeyExchangeClient -> decode_ip b = Some ip ->
    keys (s_ext ws) !! ip = None -> reports "client non-existent"%string.
Proof.
  intros Ps Hs Hc I Hm Hin reports.
  pose proof (in_stage (W := WS) (DataProcessor ps) ws sender raw _ (proj1 Ps) Hin) as Hst.
  assert (Href : forall cb msg, refuses_in (s_ext ws) (request m b) cb msg ->
    callbackQueues (PacketProcessor ps) !! default ""%string (m !! KeyTarget) = Some [cb] ->
    reports (Errorf msg)).
  { intros cb msg Hr Hq. exact (refusal_stage ps m b raw sender ws cb msg Hst I Hm Hr Hq). }
  split_and!.
  - intros Ht Hd. apply (Href keyExchangeServer "malformed packet"%string);
      [by apply keyExchangeServer_refuses | by rewrite Ht].
  - intros Ht Hd. apply (Href keyExchangeClient "malformed packet"%string);
      [apply keyExchangeClient_refuses; cbn [a_buff request]; by rewrite Hd | by rewrite Ht].
  - intros ip Ht Hd Hk. apply (Href keyExchangeClient "client non-existent"%string);
      [apply keyExchangeClient_refuses; cbn [a_buff request]; by rewrite Hd | by rewrite Ht].
Qed.
End secure.
