(* ===== verification/SecuredServer.v ===== *)
(** * SecuredServer: what a server with the cryptographic extension writes

    The transport transform of the extension, the server's interleaved handlers
    and its writer together: once the server holds a client's secret and has
    counted its key as sent, everything it writes to the client is sealed under
    the secret, except packets that ask to skip the extension; until the next
    key exchange.  And how little such an exchange takes: no secret. *)

From Stdlib Require Import ZArith Lia Ascii String.
From stdpp Require Import base list strings gmap fin_maps relations.
From S2P Require Import Prelude Base64 Utf8 JsonText Decimal Json Packet PacketSpec PacketProps.
From S2P Require Import Fmt Pipeline Cipher Crypto CryptoSpec UDPServer UDPServerSpec UDPServerProps.
From S2P Require Import ServerThreads ServerThreadsProps Channel CryptoServer.
From S2P Require Import Throttle UDPClient UDPClientProps Network Handshake SecureRelay.
Open Scope Z_scope.

Section secured.
Context `{A : AEAD} `{C : Curve} `{R : Resolver}.
Abbreviation W := (SvrState Crypto).
Abbreviation ab w l := (abs (s_heap w) l).

(** ** The invariant *)

Section sealed.
Variables (dst addr : string) (sh : Z).

(** Data under the secret, and data of a packet marked to skip the extension. *)
Definition sealed (b : bytes) : Prop := exists n d, b = n ++ Seal (BigBytes sh) n d.
Definition marked (b : bytes) : Prop :=
  exists m d, b = render_pkt (Some m) d /\ skips_crypto (default ""%string (m !! KeyNoCrypto)) = true.

Definition fine (x : writePacket) : Prop := w_addr x = addr -> sealed (w_data x) \/ marked (w_data x).

(** The secret of [dst] is usable for sending. *)
Definition keyed (c : Crypto) : Prop :=
  exists ks, keys c !! dst = Some ks /\ keySent ks = true /\ shared ks = sh.

Definition confidential (w : W) : Prop := keyed (s_ext w) /\ Forall fine (writeStream w).

Lemma confidential_frame (w w' : W) :
  s_ext w' = s_ext w -> writeStream w' = writeStream w -> confidential w -> confidential w'.
Proof. unfold confidential. by intros -> ->. Qed.

(** ** Computations that leave it alone *)

Abbreviation keeps m := (kept confidential m).

Lemma keeps_ret {X} (x : X) : keeps (ret (S := W) x).
Proof. intros w y w' HJ [= <- <-]. done. Qed.

Lemma keeps_bind {X Y} (m : M W X) (f : X -> M W Y) :
  keeps m -> (forall x, keeps (f x)) -> keeps (bind m f).
Proof.
  intros Hm Hf w y w' HJ. unfold bind. destruct (m w) as [[x w1]|] eqn:Em; [|done].
  intros Hr. by eapply Hf; [eapply Hm|].
Qed.

Lemma keeps_heap {X} (m : M Heap X) : keeps (lift (W := W) m).
Proof.
  intros w x w' HJ. unfold lift. destruct (m (proj w)) as [[y h]|]; [|done]. intros [= <- <-].
  by eapply confidential_frame; [..| exact HJ].
Qed.

Lemma keeps_gets {X} (f : Crypto -> X) : keeps (crypt (W := W) (gets f)).
Proof. intros w x w' HJ. rewrite crypt_gets. by intros [= <- <-]. Qed.

Lemma keeps_send l : keeps (send l).
Proof.
  intros w x w' HJ. unfold send. destruct (closed w); [done|]. intros [= <- <-].
  by eapply confidential_frame; [..| exact HJ].
Qed.

Lemma keeps_throw {X} e : keeps (throw (S := W) (A := X) e).
Proof. done. Qed.

Ltac keeps_step := first
  [apply keeps_ret | apply keeps_heap | apply keeps_gets | apply keeps_send | apply keeps_throw
  | apply keeps_bind; [|intros ?]].

Lemma relayCallback_keeps ctx pw : keeps (relayCallback ctx pw).
Proof. unfold relayCallback, svr_pkt. destruct (Pkt (c_ctx ctx)); repeat keeps_step. Qed.

Lemma keyExchangeClient_keeps ctx pw : keeps (keyExchangeClient (W := W) ctx pw).
Proof.
  unfold keyExchangeClient, ctx_pkt. destruct (Pkt (c_ctx ctx)); repeat keeps_step.
  destruct (decode_ip _); repeat keeps_step. case_match; repeat keeps_step.
Qed.

Lemma decrypt_keeps (d : DataPipeline W) sender data :
  transforms d "_in_" = [decryptTransport] -> keeps (DataProcess d (in_ctx sender) data).
Proof.
  intros Ht w x w' HJ. unfold DataProcess. cbn [PipelineName in_ctx]. rewrite Ht. cbn [run_transforms].
  unfold bind at 1. rewrite (decryptTransport_eq (W := W)). destruct (in_data _ _ _); [|done].
  by intros [= <- <-].
Qed.

(** ** The outgoing handler *)

(** The transport stage keeps the secret usable. *)
Lemma keyed_out a c : keyed c -> keyed (out_crypto a c).
Proof.
  intros (ks & Hk & Ht & Hs). unfold out_crypto.
  destruct (out_decision a c); try by exists ks.
  - destruct (decide (a_dest a = dst)) as [->|Hne].
    + eexists. simpl. rewrite lookup_alter_eq, Hk. by split.
    + exists ks. simpl. by rewrite lookup_alter_ne.
  - repeat case_match; by exists ks.
Qed.

(** A packet that does not go to [addr] under another text of it. *)
Definition named (a : APkt) : Prop := ResolveUDPAddr (a_dest a) = Some addr -> a_dest a = dst.

(** What the transform returns without an error may be written. *)
Lemma out_fine a c addr' :
  keyed c -> named a -> ResolveUDPAddr (a_dest a) = Some addr' -> (forall e, out_decision a c <> OutError e) ->
  fine (mk_writePacket (out_data a c (render_pkt (Some (a_meta a)) (a_data a))) addr').
Proof.
  intros (ks & Hk & Ht & Hs) Hnm Hr He Ha. simpl in Ha |- *. subst addr'. apply Hnm in Hr.
  unfold out_data, out_decision in *. destruct (skips_crypto _) eqn:Es; [right; by eexists _, _|].
  left. rewrite Hr, Hk, Ht in *. destruct (key_ok _); [|by edestruct He].
  destruct (rnd c) as [|[e|n] r]; [by edestruct He | by edestruct He |].
  exists n, (render_pkt (Some (a_meta a)) (a_data a)). by rewrite Hs.
Qed.

Lemma dist_keeps x : fine x -> keeps (dist x).
Proof.
  intros Hx w y w' [Hk Hf]. unfold dist. destruct (closed w); [done|]. intros [= <- <-].
  split; [done|]. simpl. apply Forall_app. by split; [|constructor].
Qed.

Lemma outgoing_confidential (p : Processor W) l a :
  transforms (DataProcessor p) "_out_" = [encryptTransport] -> named a ->
  tsafe_in confidential (outgoing_prog p l) [(l, a)].
Proof.
  intros Ho Hnm. assert (Hd : tsafe_in confidential (Act (pk (PutBack l)) (fun _ => Done)) [(l, a)])
    by (apply tsafe_PutBack; [apply confidential_frame | done]).
  unfold outgoing_prog. cbv zeta. rewrite Ho.
  eapply tsafe_method; [apply confidential_frame | apply Marshal_acts |].
  eapply tsafe_method; [apply confidential_frame | apply Dest_acts |].
  destruct (ResolveUDPAddr (a_dest a)) as [addr'|] eqn:Er; [|exact Hd].
  cbn [transforms_prog]. intros G w I Hl HJ. apply list.Forall_cons in Hl as [Hl _]. simpl in Hl.
  eapply wp_ok; [eapply (encryptTransport_eq (W := W) w _ l a); [done | apply I | exact Hl]|].
  set (c := proj (S := Crypto) w). exists [(l, a)]. split_and!; [by apply inv_ext | by repeat constructor | done | |].
  { destruct HJ as [Hk Hf]. split; [by apply keyed_out | done]. }
  unfold out_ctx. destruct (out_decision a c) eqn:Ed; cbv beta iota;
    match goal with |- context [judge ?x] => let v := eval vm_compute in (judge x) in change (judge x) with v end;
    cbv iota.
  4: { eapply tsafe_method; [apply confidential_frame | apply Meta_Get_acts |].
       eapply tsafe_method; [apply confidential_frame | apply Dest_acts |].
       apply tsafe_send_err; [apply confidential_frame | exact Hd]. }
  all: change (Stat _ =? CodeStopNoop) with false; cbv iota; apply tsafe_dist; [|exact Hd]; apply dist_keeps, out_fine;
    [by destruct HJ | done | done | intros e; by rewrite Ed].
Qed.

(** ** The server *)

Section server.
Variables (adm : bytes -> Prop) (admp : APkt -> Prop) (p : Processor W).
Hypothesis p_safe : processor_safe adm admp p.
Hypothesis p_secured : secured p.
Hypothesis p_kept : forall a, admp a -> target_kept confidential p a.

Lemma confidential_written w q1 d q2 :
  writeStream w = q1 ++ d :: q2 -> confidential w ->
  fine d /\ confidential (mk_SvrState (s_heap w) (s_ext w) (sendStream w) (q1 ++ q2) (closed w)).
Proof.
  intros Hq [Hk Hf]. rewrite Hq in Hf. apply Forall_app in Hf as [H1 [Hd H2]%list.Forall_cons].
  split; [done|]. split; [done|]. by apply Forall_app.
Qed.

Lemma confidential_reach w s :
  inv [] w -> confidential w -> rtc (step_with adm named p) (threads_init w) s ->
  (0 < th_readers s)%nat -> threads_in confidential s /\ Forall fine (th_wire s).
Proof.
  intros I HJ Hr. assert (Hin : forall s, rtc (step_with adm named p) (threads_init w) s ->
    (0 < th_readers s)%nat -> threads_in confidential s).
  { intros s' Hr' Hn. refine (threads_reach_in confidential confidential_frame adm named p _ _ _ w s' I HJ Hr' Hn).
    - intros data sender Hd. eapply tsafe_incoming; [apply confidential_frame | exact p_safe | | exact p_kept | done].
      apply decrypt_keeps, p_secured.
    - intros l a. apply outgoing_confidential, p_secured.
    - intros w' q1 d q2 Hq Hw. by destruct (confidential_written w' q1 d q2 Hq Hw). }
  intros Hn. split; [by apply Hin|]. revert s Hr Hn. apply (rtc_ind_r (fun s => (0 < th_readers s)%nat -> Forall fine (th_wire s))).
  { constructor. }
  intros s1 s2 Hr1 [_ Hs] IH Hn2. assert (Hn1 : (0 < th_readers s1)%nat) by (destruct Hs; simpl in *; lia).
  specialize (IH Hn1). destruct (Hin _ Hr1 Hn1) as (_ & _ & _ & _ & HJ1).
  destruct Hs as [| | | | w1 ts n out q1 d q2 Hq |]; try done. simpl in *. apply Forall_app. split; [done|].
  constructor; [|done]. by destruct (confidential_written _ _ _ _ Hq HJ1).
Qed.
End server.
End sealed.

(** Requests that are no key exchange with the server and whose public key, if
    they carry one, is complete. *)
Definition no_exchange (a : APkt) : Prop := a_get KeyTarget a <> TargetKeyExchangeServer.

Abbreviation secure_server := ((Extend "server" (NewUDPServer (E := Crypto))).1).

Lemma secure_server_kept dst addr sh a :
  no_exchange a -> target_kept (confidential dst addr sh) secure_server a.
Proof.
  intros Hne cbs. simpl. set (t := a_get KeyTarget a) in *.
  destruct (decide (t = TargetKeyExchangeClient)) as [->|Hc].
  { intros [= <-]. constructor; [intros; apply keyExchangeClient_keeps | constructor]. }
  rewrite lookup_insert_ne, lookup_insert_ne by done.
  destruct (decide (t = TargetRelay)) as [->|Hr]; [|by rewrite lookup_insert_ne].
  intros [= <-]. constructor; [intros; apply relayCallback_keeps | constructor].
Qed.

(** (C12) Confidentiality of the transport: a server extended with [Extend
    "server"] that holds a client's secret and counts its key as sent, starts
    well-formed with nothing to write, and reads, with a reader left, datagrams
    of at least 12 bytes for which, as they are and opened under any key, the
    document neither sets the metadata to null nor asks for a key exchange with
    the server; and at no time does a packet wait to be sent that names the
    client's address by another text. For every sequence of such datagrams,
    every interleaving of the handlers' actions and every choice of the pool,
    everything the server hands to its writer for the client's address, and
    everything it has written to it, is sealed under the secret or is the text
    of a packet marked to skip the extension. *)
Theorem transport_confidential dst addr sh w s :
  inv [] w -> writeStream w = [] -> keyed dst sh (s_ext w) ->
  rtc (step_with (crypto_adm_as no_exchange) (named dst addr) secure_server) (threads_init w) s -> (0 < th_readers s)%nat ->
  forall x, x ∈ th_wire s ++ writeStream (state s) -> w_addr x = addr ->
    (exists n d, w_data x = n ++ Seal (BigBytes sh) n d) \/
    exists m d, w_data x = render_pkt (Some m) d /\
      skips_crypto (default ""%string (m !! KeyNoCrypto)) = true.
Proof.
  intros I Hw Hk Hr Hn x Hx Ha.
  destruct (confidential_reach dst addr sh (crypto_adm_as no_exchange) no_exchange secure_server) with (w := w) (s := s)
    as [(_ & _ & _ & _ & [_ Hf]) Hout]; try done.
  - apply extended_safe_as; [by intros a Hne Ht; destruct (Hne Ht) | done | done |].
    apply queues_safe_add; [apply _ | apply queues_safe_new].
  - by intros a; apply secure_server_kept.
  - split; [done|]. by rewrite Hw.
  - apply elem_of_app in Hx as [Hx|Hx]; 
      [exact (proj1 (list.Forall_forall _ _) Hout x Hx Ha) | exact (proj1 (list.Forall_forall _ _) Hf x Hx Ha)].
Qed.

(** ** What it takes to leave that state *)

Section unsecured.
Variable p : Processor W.
Hypothesis p_secured : secured p.

(** A packet whose fate at the transport stage is to go out as it is. *)
Lemma outgoing_clear (l : nat) a (w : W) addr :
  inv [l] w -> ab w l = Some a -> ResolveUDPAddr (a_dest a) = Some addr ->
  out_decision a (s_ext w) = OutClear \/ out_decision a (s_ext w) = OutFirst ->
  exists w', processOutgoing p l w = Ok (tt, w') /\
    writeStream w' = writeStream w ++ [mk_writePacket (render_pkt (Some (a_meta a)) (a_data a)) addr].
Proof.
  intros I Ha Hr Hd.
  assert (Hctx : out_ctx a (s_ext w) (out_tctx l) = out_tctx l) by (unfold out_ctx; by destruct Hd as [-> | ->]).
  assert (Hdata : forall bin, out_data a (s_ext w) bin = bin) by (intros bin; unfold out_data; by destruct Hd as [-> | ->]).
  pose proof (out_stage_crypto (DataProcessor p) w l a (render_pkt (Some (a_meta a)) (a_data a))
    (proj2 p_secured) (inv_heap _ _ I) Ha Hctx) as Hs. simpl in Hs. rewrite Hdata in Hs.
  destruct (wp_inv _ _ _ (outgoing_stage p l a _ _ w Hs I Ha)) as ([] & w' & Hrun & _ & _ & _ & _ & _ & W').
  exists w'. split; [done|]. by rewrite W', Hr.
Qed.

(** (C35) A key exchange is not authenticated: a datagram in clear from the address of
    a client with an established secret, which does not open under that secret
    and asks for a key exchange with any complete public key, makes the server
    compute a new secret with that key and store it in place of the client's.
    The stored key counts as not sent, so the next packet to the client leaves
    in clear, whether or not the client knows of the exchange. *)
Theorem rekey_unauthenticated m b sender addr (w : W) ks x y :
  callbackQueues (PacketProcessor p) !! TargetKeyExchangeServer = Some [keyExchangeServer] ->
  inv [] w -> sendStream w = [] -> keys (s_ext w) !! sender = Some ks -> ResolveUDPAddr sender = Some addr ->
  utf8_map m -> m !! KeyTarget = Some TargetKeyExchangeServer ->
  decode_pk b = Some (mk_PublicKey (Some x) (Some y)) -> (nonceSize <= length (datagram m b))%nat ->
  Open (BigBytes (shared ks)) (take nonceSize (datagram m b)) (drop nonceSize (datagram m b)) = None ->
  exists w1 r w2,
    processIncoming p (datagram m b) sender w = Ok (tt, w1) /\ sendStream w1 = [r] /\
    processOutgoing p r (mk_SvrState (s_heap w1) (s_ext w1) [] (writeStream w1) (closed w1)) = Ok (tt, w2) /\
    keys (s_ext w2) !! sender = Some (mk_keyStore false (ScalarMult x y (BigBytes (D (privKey (s_ext w))))).1
                                        (mk_PublicKey (Some x) (Some y))) /\
    forall l a w3, s_ext w3 = s_ext w2 -> inv [l] w3 -> ab w3 l = Some a -> a_dest a = sender ->
      exists w4, processOutgoing p l w3 = Ok (tt, w4) /\
        writeStream w4 = writeStream w3 ++ [mk_writePacket (render_pkt (Some (a_meta a)) (a_data a)) addr].
Proof.
  intros Hq I Hs Hk Hr Hu Ht Hd Hlen Ho. destruct p_secured as [Hin Hout].
  assert (Hraw : in_data (s_ext w) sender (datagram m b) = Ok (datagram m b)).
  { unfold in_data. rewrite Hk. destruct (key_ok _); [|done].
    by rewrite (proj2 (Nat.ltb_ge _ _) Hlen), Ho. }
  destruct (server_kex p Hin Hout Hq m b (datagram m b) sender addr w x y) as (w1 & r & w2 & d & H1 & H2 & H3 & H4 & _); try done.
  exists w1, r, w2. split_and!; try done; [rewrite H4; apply lookup_insert_eq|].
  intros l a w3 E3 I3 A3 Hdest. apply outgoing_clear; [done | done | by rewrite Hdest|].
  unfold out_decision. rewrite E3, H4, Hdest. simpl. rewrite lookup_insert_eq. simpl.
  destruct (skips_crypto _); [by left | by right].
Qed.

(** (C23) Secrets belong to the text of an address, not to the address: on a
    server with the transforms of the Crypto extension, a well-formed packet
    whose destination text has no key but resolves to the address of a client
    whose own text has one is written by [processOutgoing] to the client in
    clear, whatever that secret is. *)
Theorem alias_in_clear (w : W) l a dst addr ks :
  inv [l] w -> ab w l = Some a ->
  keys (s_ext w) !! dst = Some ks -> ResolveUDPAddr dst = Some addr ->
  keys (s_ext w) !! a_dest a = None -> ResolveUDPAddr (a_dest a) = Some addr ->
  exists w', processOutgoing p l w = Ok (tt, w') /\
    writeStream w' = writeStream w ++ [mk_writePacket (render_pkt (Some (a_meta a)) (a_data a)) addr].
Proof.
  intros I Ha _ _ Hk Hr. apply outgoing_clear; [done.. |]. left. unfold out_decision.
  rewrite Hk. by destruct (skips_crypto _).
Qed.
End unsecured.
End secured.
