(* ===== verification/CryptoExample.v ===== *)
(** * CryptoExample: the example of end-to-end encryption (examples/crypto/client)

    Two secured clients talk through the server: the program of the first
    client, the listener of the second one, and the conversation they have.  In
    the example both run in one process and share a packet creator; here each
    has its own, and [ExampleMain] has the whole program with one for both. *)

From Stdlib Require Import ZArith Lia Ascii String.
From stdpp Require Import base list strings gmap fin_maps.
From S2P Require Import Prelude Base64 Utf8 JsonText Decimal Json Packet PacketSpec PacketProps.
From S2P Require Import Fmt Pipeline Cipher Crypto CryptoSpec UDPServer UDPServerSpec UDPServerProps Channel.
From S2P Require Import Throttle UDPClient UDPClientProps Network Handshake SecureRelay.
Open Scope Z_scope.

Definition svrAddr : string := "127.0.0.1:10000".
Definition clientA_Addr : string := "127.0.0.1:10001".
Definition clientB_Addr : string := "127.0.0.1:10002".

Definition msg_A : bytes := b_of_s "super-secret-msg-from-A".
Definition msg_B : bytes := b_of_s "super-secret-msg-from-B".

Definition makeRelayPkt (to : string) (msg : bytes) : M Heap nat :=
  let* pkt := NewPkt "" svrAddr in
  Meta_Add pkt KeyTarget TargetRelay ;;;
  Meta_Add pkt KeyRelayTo to ;;;
  Write pkt msg ;;;
  Close pkt ;;;
  ret pkt.

Section example.
Context `{A : AEAD} `{C : Curve} `{R : Resolver}.
Abbreviation WC := (CliState Crypto).
Abbreviation WS := (SvrState Crypto).

(** ** The program *)

(** [createSecureClient] up to the response of the key exchange, with the
    generated key and the channel of the exchange. *)
Definition createSecureClient_request (gen : string + PrivateKey) (rs : Rand) (ch : nat)
    : M WC (string + option string) :=
  let* pkt := cpk (NewPkt "" svrAddr) in
  ConfigureClient_request NewUDPClient gen rs pkt ch.

(** The rest of it; [None]: the program ends. *)
Definition createSecureClient_response (resp : nat) : M WC (option (Processor WC)) :=
  ConfigureClient_response NewUDPClient svrAddr resp.

(** The first client's key exchange with the second one, up to the response. *)
Definition kex_A (pa : Processor WC) (ch : nat) : M WC (option string) :=
  let* pkt := cpk (NewPkt "" svrAddr) in ClientKEx_request pa clientB_Addr pkt ch.

(** The second client's exchange with the first one goes through the first
    client too: its extension only reads the response, in A's memory. *)
Definition kex_B (pa : Processor WC) (ch : nat) : M WC (option string) :=
  let* pkt := cpk (NewPkt "" svrAddr) in ClientKEx_request pa clientA_Addr pkt ch.

Definition kex_B_response (resp : nat) (wa wb : WC) : Res (bool * WC) :=
  match ClientKEx_response clientA_Addr resp (upd (cl_ext wb) wa) with
  | Ok (b, w) => Ok (b, upd (cl_ext w) wb)
  | Panic e => Panic e
  end.

(** Client A: the message, and what is done with the answer.  The errors of
    [EncryptE2E], [Send] and [DecryptE2E] are ignored. *)
Definition send_A (pa : Processor WC) (respCh : nat) : M WC (option string) :=
  let* pkt := cpk (makeRelayPkt clientB_Addr msg_A) in
  let* _ := EncryptE2E clientB_Addr pkt in
  Send pa pkt (Some respCh).

Definition receive_A (resp : nat) : M WC bytes :=
  let* _ := DecryptE2E clientB_Addr resp in
  cpk (PktData resp).

(** Client B: the listener, from the packet it receives from [Misc]; the text
    it logs is the error or the data. *)
Definition listen_B (pb : Processor WC) (pkt : nat) : M WC (string + bytes) :=
  let* sender := cpk (Meta_Get pkt KeyRelayFrom) in
  let* err := DecryptE2E sender pkt in
  match err with
  | Some e => ret (inl e)
  | None =>
      let* data := cpk (PktData pkt) in
      let* respPkt := cpk (makeRelayPkt clientA_Addr msg_B) in
      let* ref := cpk (Meta_Get pkt KeyRef) in
      cpk (Meta_Add respPkt KeyRef ref) ;;;
      let* _ := EncryptE2E clientA_Addr respPkt in
      let* _ := Send pb respPkt None in
      ret (inr data)
  end.

(** ** Composition of packets *)

(** The packet [makeRelayPkt] composes. *)
Definition relay_apkt (to : string) (msg : bytes) : APkt :=
  mk_APkt (<[KeyRelayTo := to]> (<[KeyTarget := TargetRelay]> {[KeyRef := ""%string]}))
    msg (s_of_b (Base64.encode msg)) svrAddr.

Lemma relay_apkt_target to msg : a_meta (relay_apkt to msg) !! KeyTarget = Some TargetRelay.
Proof. simpl. by rewrite lookup_insert_ne, lookup_insert_eq by done. Qed.

Lemma relay_apkt_to to msg : a_meta (relay_apkt to msg) !! KeyRelayTo = Some to.
Proof. apply lookup_insert_eq. Qed.

Lemma makeRelayPkt_spec to msg (w : WC) (Q : nat -> WC -> Prop) :
  heap_good w ->
  (forall l h, abs h l = Some (relay_apkt to msg) -> heap_good (upd h w) ->
     others_kept l (cl_heap w) h -> Q l (upd h w)) ->
  wp (cpk (makeRelayPkt to msg)) Q w.
Proof.
  intros Hg HQ. unfold makeRelayPkt.
  apply (wp_compose _ _ _ (fun a => a_close (a_write msg (a_add KeyRelayTo to (a_add KeyTarget TargetRelay a)))));
    [|done|].
  - intros l. eapply acts_ext; [repeat (eapply acts_seq; [eauto with concord|]); apply acts_ret | done | done].
  - intros l h d A' Hg' Ho. by apply HQ.
Qed.

(** The processor of a secured client. *)
Lemma secured_client : secured (W := WC) (Extend "client" NewUDPClient).1.
Proof. by split. Qed.

Lemma genRef_nonempty r : s_of_b (genRef 5 r).1 <> ""%string.
Proof.
  intros E. destruct (genRef_letters 5 r) as [_ L]. apply (f_equal b_of_s) in E.
  rewrite b_of_s_of_b in E. by rewrite E in L.
Qed.

(** ** Secure clients *)

Lemma NewPkt_run (w : WC) :
  heap_good w ->
  exists pkt h d, cpk (NewPkt "" svrAddr) w = Ok (pkt, upd h w) /\ heap_good (upd h w) /\
    abs h pkt = Some (fresh_pkt "" svrAddr d).
Proof.
  intros Hg. assert (H : wp (cpk (NewPkt "" svrAddr)) (fun pkt w' => exists h d, w' = upd h w /\
    heap_good w' /\ abs h pkt = Some (fresh_pkt "" svrAddr d)) w).
  { eapply wp_cNewPkt; [done|]. intros l h d Ha Hg' _ _. by exists h, d. }
  destruct (wp_inv _ _ _ H) as (pkt & w' & Hrun & h & d & -> & Hg' & Ha). by exists pkt, h, d.
Qed.

(** [createSecureClient]: against a secured server without a key for the
    client's address, the program's exchange succeeds, the client it returns is
    secured, and client and server share a usable secret, provided the product
    of their keys has the length of an AES key. *)
Theorem createSecureClient_secured `{!CurveLaws C} (ps : Processor WS) (wc : WC) (ws : WS) k rs ch caddr addr :
  let ks := privKey (s_ext ws) in
  let key := BigBytes (ScalarMult (PX ks) (PY ks) (BigBytes (D k))).1 in
  secured ps ->
  callbackQueues (PacketProcessor ps) !! TargetKeyExchangeServer = Some [keyExchangeServer] ->
  publicKey (s_ext ws) = publicKey (crypto_of ks []) ->
  keypair (D k) (PX k) (PY k) -> keypair (D ks) (PX ks) (PY ks) -> key_ok key = true ->
  heap_good wc -> inv [] ws -> sendStream ws = [] -> keys (s_ext ws) !! caddr = None ->
  ResolveUDPAddr caddr = Some addr ->
  exists wc1 data ref ws1 r ws2 data' wc2 l wc3 p,
    createSecureClient_request (inr k) rs ch wc = Ok (inr None, wc1) /\
    cl_writeStream wc1 = cl_writeStream wc ++ [mk_cwritePacket data (Some ch) ref] /\
    processIncoming ps data caddr ws = Ok (tt, ws1) /\ sendStream ws1 = [r] /\
    processOutgoing ps r
      (mk_SvrState (s_heap ws1) (s_ext ws1) [] (writeStream ws1) (closed ws1)) = Ok (tt, ws2) /\
    writeStream ws2 = writeStream ws ++ [mk_writePacket data' addr] /\
    processIncoming_send NewUDPClient svrAddr data' wc1 = Ok (Some (ToRequest ch l ref), wc2) /\
    createSecureClient_response l wc2 = Ok (Some p, wc3) /\
    secured p /\ linked key (cl_ext wc3) (s_ext ws2) svrAddr caddr.
Proof.
  intros ks key [Pi Po] Hcb Hpub KPk KPs Hkey Hg I Hs Hk Hres.
  destruct (NewPkt_run wc Hg) as (pkt & h & d & Hrun0 & Hg0 & A0).
  set (w0 := upd (crypto_of k rs) (upd h wc)).
  destruct (handshake_run ps Pi Po Hcb NewUDPClient eq_refl eq_refl w0 ws pkt (fresh_pkt "" svrAddr d)
    ch caddr addr svrAddr)
    as (wc1 & data & ref & ws1 & r & ws2 & data' & wc2 & l & wc3 & kss & ksc & H1 & H2 & H3 & H4 & H5 & H6
      & H7 & H8 & H9 & H10 & H11 & H12 & H13 & H14); try done.
  { apply map_Forall_insert_2; [split; [done | apply genRef_utf8]|].
    apply map_Forall_insert_2; [done|]. by apply map_Forall_singleton. }
  exists wc1, data, ref, ws1, r, ws2, data', wc2, l, wc3, (Extend "client" NewUDPClient).1.
  split.
  { unfold createSecureClient_request. erewrite bind_ok by exact Hrun0. unfold ConfigureClient_request, NewCrypto.
    erewrite bind_ok by done. by erewrite bind_ok by exact H1. }
  split_and!; try done.
  - unfold createSecureClient_response, ConfigureClient_response. by erewrite bind_ok by exact H8.
  - exists ksc, kss. rewrite H11, H14. by split_and!.
Qed.

(** ** The exchange between the clients *)

(** The request of an exchange; what the pooled packet carried is overwritten. *)
Definition kex_apkt (addr : string) : APkt := kexc_pkt addr (fresh_pkt "" svrAddr "").

Lemma kex_meta_utf8 addr (w : WC) : utf8_map (a_meta (send_pkt (kex_apkt addr) w)).
Proof.
  apply map_Forall_insert_2; [split; [done | apply genRef_utf8]|].
  apply map_Forall_insert_2; [done|]. by apply map_Forall_singleton.
Qed.

(** The second exchange of the example: client B's extension asks, through
    client A, for the key of client A, which the server holds; A gets the answer
    on the exchange's channel, and B stores for A's address the product of A's
    public and B's private key, the secret A's own exchange gives to A. *)
Theorem kex_B_agrees `{!AEADLaws A} (pa : Processor WC) (ps : Processor WS) (wa wb : WC) (ws : WS)
    ch addr key ksa :
  let q := kex_apkt clientA_Addr in
  let ka := privKey (cl_ext wa) in
  let kb := privKey (cl_ext wb) in
  let wire := datagram (kexc_meta (send_ref q wa)) (render_pk (public ksa)) in
  secured pa -> secured ps ->
  callbackQueues (PacketProcessor ps) !! TargetKeyExchangeClient = Some [keyExchangeClient] ->
  heap_good wa -> inv [] ws -> sendStream ws = [] -> ResolveUDPAddr clientA_Addr = Some addr ->
  linked key (cl_ext wa) (s_ext ws) svrAddr clientA_Addr ->
  deliverable key (send_pkt q wa) (cl_ext wa) (send_wire q wa) ->
  Open key (take nonceSize wire) (drop nonceSize wire) = None ->
  keys (s_ext ws) !! clientA_Addr = Some ksa ->
  public ksa = mk_PublicKey (Some (PX ka)) (Some (PY ka)) ->
  exists wa1 data ref ws1 l ws2 data' wa2 resp wb1 ks,
    kex_B pa ch wa = Ok (None, wa1) /\
    cl_writeStream wa1 = cl_writeStream wa ++ [mk_cwritePacket data (Some ch) ref] /\
    processIncoming ps data clientA_Addr ws = Ok (tt, ws1) /\ sendStream ws1 = [l] /\
    processOutgoing ps l
      (mk_SvrState (s_heap ws1) (s_ext ws1) [] (writeStream ws1) (closed ws1)) = Ok (tt, ws2) /\
    writeStream ws2 = writeStream ws ++ [mk_writePacket data' addr] /\
    processIncoming_send pa svrAddr data' wa1 = Ok (Some (ToRequest ch resp ref), wa2) /\
    kex_B_response resp wa2 wb = Ok (true, wb1) /\
    keys (cl_ext wb1) !! clientA_Addr = Some ks /\
    shared ks = (ScalarMult (PX ka) (PY ka) (BigBytes (D kb))).1.
Proof.
  intros q ka kb wire Pa Ps Hcb Hg I Hs Hres Hl Hd Hopen Hk Hpub.
  destruct (NewPkt_run wa Hg) as (pkt & h & d & Hrun0 & Hg0 & A0).
  destruct (kexc_run pa ps (upd h wa) ws pkt (fresh_pkt "" svrAddr d) ch clientA_Addr clientA_Addr svrAddr
    addr key ksa) as (wa1 & data & ref & ws1 & l & ws2 & data' & wa2 & resp & H1 & H2 & H3 & H4 & H5 & H6 & H7
      & Hg2 & X2 & A2); try done.
  { apply (kex_meta_utf8 clientA_Addr wa). }
  { by apply linked_sym. }
  pose proof (ProcessKeyExResp_spec (W := WC) (upd (cl_ext wb) wa2) clientA_Addr resp _ _ _ (proj1 Hg2) A2
    (eq_trans (decode_render_pk _) (f_equal Some Hpub))) as Hresp.
  eexists wa1, data, ref, ws1, l, ws2, data', wa2, resp, _, _.
  split. { unfold kex_B. by erewrite bind_ok by exact Hrun0. }
  split_and!; try done.
  - unfold kex_B_response, ClientKEx_response. by rewrite Hresp.
  - simpl. apply lookup_insert_eq.
  - done.
Qed.

(** B composes its answer: the state in which it encrypts it. *)
Lemma answer_composed (w : WC) l m b ref :
  heap_good w -> abs (cl_heap w) l = Some (request m b) -> l ∉ pool (cl_heap w) ->
  m !! KeyRef = Some ref ->
  exists h respPkt,
    (forall B (K : nat -> M WC B),
      (let* respPkt := cpk (makeRelayPkt clientA_Addr msg_B) in
       let* r := cpk (Meta_Get l KeyRef) in
       cpk (Meta_Add respPkt KeyRef r) ;;; K respPkt) w = K respPkt (upd h w)) /\
    heap_good (upd h w) /\
    abs h respPkt = Some (a_add KeyRef ref (relay_apkt clientA_Addr msg_B)).
Proof.
  intros Hg Ha Hl Hm.
  assert (Hwp : wp (let* respPkt := cpk (makeRelayPkt clientA_Addr msg_B) in
     let* r := cpk (Meta_Get l KeyRef) in
     cpk (Meta_Add respPkt KeyRef r) ;;; ret respPkt) (fun x w' => exists h, w' = upd h w /\
       heap_good w' /\ abs h x = Some (a_add KeyRef ref (relay_apkt clientA_Addr msg_B))) w).
  { rewrite wp_bind. eapply makeRelayPkt_spec; [done|]. intros x h Hx Hgx Ho.
    destruct (Ho l Hl ltac:(eauto)) as [Hne El]. rewrite wp_bind.
    eapply (wp_cpk (Meta_Get l KeyRef)); [apply Meta_Get_acts | exact Hgx | simpl; by rewrite El |].
    intros h2 F2 A2 Hg2. rewrite request_get, Hm. simpl. rewrite wp_bind.
    eapply (wp_cpk (Meta_Add x KeyRef ref)); [apply Meta_Add_acts | exact Hg2
      | simpl; by rewrite (fr_abs _ _ _ F2) |].
    intros h3 F3 A3 Hg3. apply wp_ret. by exists h3. }
  destruct (wp_inv _ _ _ Hwp) as (x & w' & Hrun & h & -> & Hg' & Ax). exists h, x.
  split_and!; [|done..]. intros B K. unfold bind in Hrun |- *.
  destruct (cpk _ w) as [[x1 w1]|]; [|done]. destruct (cpk _ w1) as [[r w2]|]; [|done].
  destruct (cpk _ w2) as [[[] w3]|]; [|done]. injection Hrun as -> ->. done.
Qed.

(** ** The conversation *)

Section conversation.
Context `{!AEADLaws A}.
Variables (pa pb : Processor WC) (ps : Processor WS) (wa wb : WC) (ws : WS).
Variables (n1 n2 ke ka kb : bytes) (ra rb : Rand) (addrA addrB : string) (respCh : nat).

(** A's message, sealed, as it leaves A and as the server forwards it. *)
Let q1 := sealed_pkt ke n1 (relay_apkt clientB_Addr msg_A).
Let ca := mk_Crypto (keys (cl_ext wa)) (privKey (cl_ext wa)) (publicKey (cl_ext wa)) ra.
Let ref := send_ref q1 wa.
Let fwd1 := forwarded (a_meta (send_pkt q1 wa)) (a_buff q1) clientA_Addr.
(** B's answer. *)
Let q2 := sealed_pkt ke n2 (a_add KeyRef ref (relay_apkt clientA_Addr msg_B)).
Let cb := mk_Crypto (keys (cl_ext wb)) (privKey (cl_ext wb)) (publicKey (cl_ext wb)) rb.
Let fwd2 := forwarded (a_meta q2) (a_buff q2) clientB_Addr.
Let wire (a : APkt) := render_pkt (Some (a_meta a)) (a_data a).

(** The three programs are secured and idle, and hold the secrets of the
    exchanges that came before; what is sent in clear is not by accident a
    sealed text; the clients' random sources give nonces. *)
Record session : Prop := {
  ss_a : secured pa; ss_b : secured pb; ss_s : secured ps;
  ss_relay : callbackQueues (PacketProcessor ps) !! TargetRelay = Some [relayCallback];
  ss_heap_a : heap_good wa; ss_heap_b : heap_good wb;
  ss_inv : inv [] ws; ss_idle : sendStream ws = [];
  ss_addr_a : ResolveUDPAddr clientA_Addr = Some addrA;
  ss_addr_b : ResolveUDPAddr clientB_Addr = Some addrB;
  ss_unused : cl_requests wb !! ref = None;
  ss_e2e : linked ke (cl_ext wa) (cl_ext wb) clientB_Addr clientA_Addr;
  ss_link_a : linked ka (cl_ext wa) (s_ext ws) svrAddr clientA_Addr;
  ss_link_b : linked kb (s_ext ws) (cl_ext wb) clientB_Addr svrAddr;
  ss_rnd_a : rnd (cl_ext wa) = inr n1 :: ra; ss_n1 : length n1 = nonceSize;
  ss_rnd_b : rnd (cl_ext wb) = inr n2 :: rb; ss_n2 : length n2 = nonceSize;
  ss_leg1 : deliverable ka (send_pkt q1 wa) ca (send_wire q1 wa);
  ss_leg2 : deliverable kb fwd1 (s_ext ws) (wire fwd1);
  ss_leg3 : deliverable kb q2 cb (wire q2);
  ss_leg4 : deliverable ka fwd2 (out_crypto fwd1 (s_ext ws)) (wire fwd2);
}.

Hypothesis Hss : session.

Lemma ref_fresh : ref = s_of_b (genRef 5 (cl_rand wa)).1.
Proof. done. Qed.

Lemma ref_nonempty : ref <> ""%string.
Proof. rewrite ref_fresh. apply genRef_nonempty. Qed.

Lemma relay_meta_utf8 to r : utf8_string to -> utf8_string r ->
  utf8_map (<[KeyRef := r]> (a_meta (relay_apkt to []))).
Proof.
  intros Ht Hr. apply map_Forall_insert_2; [done|]. apply map_Forall_insert_2; [done|].
  apply map_Forall_insert_2; [done|]. by apply map_Forall_singleton.
Qed.

Lemma ref_utf8 : utf8_string ref.
Proof. rewrite ref_fresh. apply genRef_utf8. Qed.

(** With a reference of its own a packet is sent as it is. *)
Lemma q2_send (w : WC) : send_ref q2 w = ref /\ send_pkt q2 w = q2.
Proof.
  assert (E : a_get KeyRef q2 = ref) by (unfold a_get; simpl; by rewrite lookup_insert_eq).
  unfold send_pkt, send_ref. rewrite E.
  destruct (String.eqb_spec ref "") as [H|_]; [by apply ref_nonempty in H | done].
Qed.

(** A's message reaches B. *)
Lemma first_leg :
  exists wa1 data ws1 l ws2 data' wb1 l' wb2,
    send_A pa respCh wa = Ok (None, wa1) /\
    cl_writeStream wa1 = cl_writeStream wa ++ [mk_cwritePacket data (Some respCh) ref] /\
    processIncoming ps data clientA_Addr ws = Ok (tt, ws1) /\ sendStream ws1 = [l] /\
    processOutgoing ps l
      (mk_SvrState (s_heap ws1) (s_ext ws1) [] (writeStream ws1) (closed ws1)) = Ok (tt, ws2) /\
    writeStream ws2 = writeStream ws ++ [mk_writePacket data' addrB] /\
    processIncoming_send pb svrAddr data' wb = Ok (Some (ToMisc l' ref), wb1) /\
    DecryptE2E clientA_Addr l' wb1 = Ok (None, wb2) /\
    abs (cl_heap wb2) l' = Some (request (a_meta fwd1) msg_A) /\
    a_meta fwd1 !! KeyRef = Some ref /\
    heap_good wa1 /\ same_secrets (cl_ext wa1) (cl_ext wa) /\
    cl_requests wa1 !! ref = Some (Some respCh) /\
    inv [] ws2 /\ sendStream ws2 = [] /\ s_ext ws2 = out_crypto fwd1 (s_ext ws) /\
    heap_good wb1 /\ abs (cl_heap wb1) l' = Some (request (a_meta fwd1) (a_buff q1)) /\
    heap_good wb2 /\ (l' ∉ pool (cl_heap wb2)) /\ cl_ext wb2 = cl_ext wb /\
    cl_writeStream wb2 = cl_writeStream wb.
Proof.
  destruct Hss.
  destruct (wp_inv (cpk (makeRelayPkt clientB_Addr msg_A)) (fun l w' => exists h, w' = upd h wa /\
    abs h l = Some (relay_apkt clientB_Addr msg_A) /\ heap_good w') wa)
    as (pkt & wa0 & Hmk & h & -> & A0 & Hg0).
  { eapply makeRelayPkt_spec; [done|]. intros l h Ha Hg _. by exists h. }
  pose proof (relay_run pa pb ps (upd h wa) wb ws pkt (relay_apkt clientB_Addr msg_A) (Some respCh)
    clientA_Addr clientB_Addr svrAddr addrB ke n1 ra ka kb) as Hrun. cbv zeta in Hrun.
  change (sealed_pkt ke n1 (relay_apkt clientB_Addr msg_A)) with q1 in Hrun.
  change (send_wire q1 (upd h wa)) with (send_wire q1 wa) in Hrun.
  change (send_pkt q1 (upd h wa)) with (send_pkt q1 wa) in Hrun.
  change (send_ref q1 (upd h wa)) with ref in Hrun.
  assert (Hm : utf8_map (a_meta (send_pkt q1 wa)))
    by exact (relay_meta_utf8 clientB_Addr ref eq_refl ref_utf8).
  destruct (Hrun ss_a0 ss_b0 ss_s0 ss_relay0 Hg0 A0 ss_heap_b0 ss_inv0 ss_idle0 ss_addr_b0 eq_refl
    (relay_apkt_target _ _) (relay_apkt_to _ _) Hm eq_refl ss_e2e0 ss_link_a0 ss_link_b0 ss_rnd_a0 ss_n3
    ss_leg5 ss_leg6) as (wa1 & wa2 & data & r & ws1 & l & ws2 & data' & wb1 & l' & wb2 & H1 & H2
    & H3 & H4 & H5 & _ & H7 & H8 & H9 & H10 & H11 & H12 & -> & G1 & X1 & R1 & I2 & S2 & X2 & Gb & Ab
    & G3 & P3 & X3 & _ & W3).
  exists wa2, data, ws1, l, ws2, data', wb1, l', wb2.
  split. { unfold send_A. erewrite bind_ok by exact Hmk. by erewrite bind_ok by exact H1. }
  split_and!; try assumption.
  - unfold route in H9. by rewrite ss_unused0 in H9.
  - rewrite X1. etransitivity; [apply out_crypto_same | done].
  - rewrite R1. apply lookup_insert_eq.
Qed.

(** B's answer, sealed and sent, reaches A on the channel of A's request. *)
Lemma answer_relayed (wa1 w : WC) (ws2 : WS) pkt :
  heap_good w -> abs (cl_heap w) pkt = Some (a_add KeyRef ref (relay_apkt clientA_Addr msg_B)) ->
  cl_ext w = cl_ext wb ->
  heap_good wa1 -> same_secrets (cl_ext wa1) (cl_ext wa) ->
  cl_requests wa1 !! ref = Some (Some respCh) ->
  inv [] ws2 -> sendStream ws2 = [] -> s_ext ws2 = out_crypto fwd1 (s_ext ws) ->
  exists w1 w2 data ws3 k ws4 data' wa2 resp wa3,
    EncryptE2E clientA_Addr pkt w = Ok (None, w1) /\ Send pb pkt None w1 = Ok (None, w2) /\
    cl_writeStream w2 = cl_writeStream w ++ [mk_cwritePacket data None ref] /\
    processIncoming ps data clientB_Addr ws2 = Ok (tt, ws3) /\ sendStream ws3 = [k] /\
    processOutgoing ps k
      (mk_SvrState (s_heap ws3) (s_ext ws3) [] (writeStream ws3) (closed ws3)) = Ok (tt, ws4) /\
    writeStream ws4 = writeStream ws2 ++ [mk_writePacket data' addrA] /\
    processIncoming_send pa svrAddr data' wa1 = Ok (Some (ToRequest respCh resp ref), wa2) /\
    DecryptE2E clientB_Addr resp wa2 = Ok (None, wa3) /\ heap_good wa3 /\
    abs (cl_heap wa3) resp = Some (request (a_meta fwd2) msg_B).
Proof.
  intros Hg Ha Xb Hga Hsa Hreq I2 S2 X2. destruct Hss. destruct (q2_send w) as [Er Ep].
  pose proof (relay_run pb pa ps w wa1 ws2 pkt (a_add KeyRef ref (relay_apkt clientA_Addr msg_B)) None
    clientB_Addr clientA_Addr svrAddr addrA ke n2 rb kb ka) as Hrun. cbv zeta in Hrun.
  change (sealed_pkt ke n2 (a_add KeyRef ref (relay_apkt clientA_Addr msg_B))) with q2 in Hrun.
  unfold send_wire in Hrun. rewrite Ep, Er, Xb, X2 in Hrun.
  assert (Hm : utf8_map (a_meta q2)) by exact (relay_meta_utf8 clientA_Addr ref eq_refl ref_utf8).
  assert (Htgt : a_meta q2 !! KeyTarget = Some TargetRelay)
    by (etransitivity; [by apply lookup_insert_ne | apply relay_apkt_target]).
  assert (Hto : a_meta q2 !! KeyRelayTo = Some clientA_Addr)
    by (etransitivity; [by apply lookup_insert_ne | apply relay_apkt_to]).
  assert (L1 : linked ke (cl_ext wb) (cl_ext wa1) clientA_Addr clientB_Addr)
    by (rewrite Hsa; by apply linked_sym).
  assert (L2 : linked kb (cl_ext wb) (out_crypto fwd1 (s_ext ws)) svrAddr clientB_Addr)
    by (rewrite out_crypto_same; by apply linked_sym).
  assert (L3 : linked ka (out_crypto fwd1 (s_ext ws)) (cl_ext wa1) clientA_Addr svrAddr)
    by (rewrite Hsa, out_crypto_same; by apply linked_sym).
  destruct (Hrun ss_b0 ss_a0 ss_s0 ss_relay0 Hg Ha Hga I2 S2 ss_addr_a0 eq_refl Htgt Hto Hm eq_refl
    L1 L2 L3 ss_rnd_b0 ss_n4 ss_leg7 ss_leg8)
    as (w1 & w2 & data & r & ws3 & k & ws4 & data' & wa2 & resp & wa3 & H1 & H2 & H3 & H4 & H5 & _ & H7
      & H8 & H9 & H10 & H11 & _ & -> & _ & _ & _ & _ & _ & _ & _ & _ & G3 & _).
  unfold route in H9. rewrite Hreq in H9.
  exists w1, w2, data, ws3, k, ws4, data', wa2, resp, wa3. by split_and!.
Qed.

(** B's answer reaches A on the channel of A's request. *)
Lemma second_leg (wa1 wb1 wb2 : WC) (ws2 : WS) l :
  DecryptE2E clientA_Addr l wb1 = Ok (None, wb2) ->
  heap_good wb1 -> abs (cl_heap wb1) l = Some (request (a_meta fwd1) (a_buff q1)) ->
  abs (cl_heap wb2) l = Some (request (a_meta fwd1) msg_A) ->
  heap_good wa1 -> same_secrets (cl_ext wa1) (cl_ext wa) ->
  cl_requests wa1 !! ref = Some (Some respCh) ->
  inv [] ws2 -> sendStream ws2 = [] -> s_ext ws2 = out_crypto fwd1 (s_ext ws) ->
  heap_good wb2 -> l ∉ pool (cl_heap wb2) -> cl_ext wb2 = cl_ext wb ->
  cl_writeStream wb2 = cl_writeStream wb ->
  exists wb3 data ws3 k ws4 data' wa2 resp wa3,
    listen_B pb l wb1 = Ok (inr msg_A, wb3) /\
    cl_writeStream wb3 = cl_writeStream wb ++ [mk_cwritePacket data None ref] /\
    processIncoming ps data clientB_Addr ws2 = Ok (tt, ws3) /\ sendStream ws3 = [k] /\
    processOutgoing ps k
      (mk_SvrState (s_heap ws3) (s_ext ws3) [] (writeStream ws3) (closed ws3)) = Ok (tt, ws4) /\
    writeStream ws4 = writeStream ws2 ++ [mk_writePacket data' addrA] /\
    processIncoming_send pa svrAddr data' wa1 = Ok (Some (ToRequest respCh resp ref), wa2) /\
    receive_A resp wa2 = Ok (msg_B, wa3).
Proof.
  intros Hdec Hg1 A1 A2 Hga Hsa Hreq I2 S2 X2 Hgb Hl Xb Wb.
  assert (Href : a_meta fwd1 !! KeyRef = Some ref).
  { unfold fwd1, forwarded. simpl. rewrite lookup_insert_ne by done.
    rewrite lookup_singleton_eq. by rewrite (send_pkt_lookup q1 wa). }
  destruct (answer_composed wb2 l _ _ ref Hgb A2 Hl Href) as (h & pkt & Hcomp & Hgh & Ah).
  destruct (answer_relayed wa1 (upd h wb2) ws2 pkt Hgh Ah Xb Hga Hsa Hreq I2 S2 X2)
    as (w1 & w2 & data & ws3 & k & ws4 & data' & wa2 & resp & wa3 & H1 & H2 & H3 & H4 & H5 & H6 & H7
      & H8 & H9 & G3 & A3).
  exists w2, data, ws3, k, ws4, data', wa2, resp, wa3. split_and!; try done.
  - unfold listen_B.
    erewrite bind_ok by (apply lift_ok, Meta_Get_reads; [apply Hg1 | exact A1]).
    rewrite upd_proj, request_get. unfold fwd1, forwarded at 1. cbn [a_meta].
    rewrite lookup_insert_eq. simpl default.
    erewrite bind_ok by exact Hdec. cbn iota.
    erewrite bind_ok by (apply lift_ok, PktData_reads; [apply Hgb | exact A2]). rewrite upd_proj.
    rewrite Hcomp. erewrite bind_ok by exact H1. by erewrite bind_ok by exact H2.
  - simpl in H3. by rewrite H3, Wb.
  - unfold receive_A. erewrite bind_ok by exact H9.
    unfold cpk. erewrite lift_ok by (apply PktData_reads; [apply G3 | exact A3]). by rewrite upd_proj.
Qed.

(** The conversation of the example: A's message reaches B's [Misc] through
    the server, B's listener decrypts it, and B's answer, sent with A's
    reference, reaches A on the channel A gave to [Send], where A decrypts it:
    each has the text the other one sent. *)
Theorem conversation :
  exists wa1 data ws1 l ws2 data' wb1 l' wb2 data2 ws3 k ws4 data2' wa2 resp wa3,
    send_A pa respCh wa = Ok (None, wa1) /\
    cl_writeStream wa1 = cl_writeStream wa ++ [mk_cwritePacket data (Some respCh) ref] /\
    processIncoming ps data clientA_Addr ws = Ok (tt, ws1) /\ sendStream ws1 = [l] /\
    processOutgoing ps l
      (mk_SvrState (s_heap ws1) (s_ext ws1) [] (writeStream ws1) (closed ws1)) = Ok (tt, ws2) /\
    writeStream ws2 = writeStream ws ++ [mk_writePacket data' addrB] /\
    processIncoming_send pb svrAddr data' wb = Ok (Some (ToMisc l' ref), wb1) /\
    listen_B pb l' wb1 = Ok (inr msg_A, wb2) /\
    cl_writeStream wb2 = cl_writeStream wb ++ [mk_cwritePacket data2 None ref] /\
    processIncoming ps data2 clientB_Addr ws2 = Ok (tt, ws3) /\ sendStream ws3 = [k] /\
    processOutgoing ps k
      (mk_SvrState (s_heap ws3) (s_ext ws3) [] (writeStream ws3) (closed ws3)) = Ok (tt, ws4) /\
    writeStream ws4 = writeStream ws2 ++ [mk_writePacket data2' addrA] /\
    processIncoming_send pa svrAddr data2' wa1 = Ok (Some (ToRequest respCh resp ref), wa2) /\
    receive_A resp wa2 = Ok (msg_B, wa3).
Proof.
  destruct first_leg as (wa1 & data & ws1 & l & ws2 & data' & wb1 & l' & wb2 & H1 & H2 & H3 & H4 & H5
    & H6 & H7 & H8 & H9 & _ & G1 & X1 & R1 & I2 & S2 & X2 & Gb & Ab & G2 & P2 & X3 & W3).
  destruct (second_leg wa1 wb1 wb2 ws2 l') as (wb3 & data2 & ws3 & k & ws4 & data2' & wa2 & resp & wa3
    & K1 & K2 & K3 & K4 & K5 & K6 & K7 & K8); try assumption.
  exists wa1, data, ws1, l, ws2, data', wb1, l', wb3, data2, ws3, k, ws4, data2', wa2, resp, wa3.
  by split_and!.
Qed.
End conversation.
End example.
