(* ===== verification/ExampleWorld.v ===== *)
(** * ExampleWorld: the process of examples/crypto/client and its server

    Both clients live in one process and share its packet creator, so the process
    has one heap; the extension of each client is an object of its own.  An
    operation of a client or of the server runs here on the part of the world it
    works on.  The rest of the file follows one datagram through the server and
    back to a client ([exchange]) and computes what each step of the program
    leaves; [ExampleMain] has the program itself and its goroutines, and puts the
    steps together. *)

From Stdlib Require Import ZArith Lia Ascii String.
From stdpp Require Import base list strings gmap fin_maps.
From S2P Require Import Prelude Base64 Utf8 JsonText Decimal Json Packet PacketSpec PacketProps.
From S2P Require Import Fmt Pipeline Cipher Crypto CryptoSpec UDPServer UDPServerSpec UDPServerProps Channel.
From S2P Require Import Throttle UDPClient UDPClientProps Network Handshake SecureRelay CryptoExample.
Open Scope Z_scope.

(** A computation that may leave the program: it has ended with an error, or it
    waits for ever. *)
Notation "'let?' x ':=' m 'in' k" :=
  (bind m (fun o => match o with Some x => k | None => ret None end))
  (at level 10, x pattern, m at level 100, k at level 200) : go_scope.

Section world.
Context `{A : AEAD} `{C : Curve} `{R : Resolver}.
Abbreviation WC := (CliState Crypto).
Abbreviation WS := (SvrState Crypto).

(** ** The process and the server *)

Inductive who := ClientA | ClientB.

Definition addr_of (c : who) : string :=
  match c with ClientA => clientA_Addr | ClientB => clientB_Addr end.

Definition client_at (addr : string) : option who :=
  if String.eqb addr clientA_Addr then Some ClientA
  else if String.eqb addr clientB_Addr then Some ClientB else None.

(** A client without the heap: its pipelines, its extension and the rest of
    [CliState]. *)
Record CliRest := mk_CliRest {
  r_pipes : Processor WC;
  r_ext : Crypto;
  r_rand : list nat;
  r_requests : gmap string (option nat);
  r_writeStream : list cwritePacket;
  r_done : bool;
}.

Record World := mk_World {
  w_pc : Heap;
  w_A : CliRest;
  w_B : CliRest;
  w_svr : WS;
}.

Definition rest (c : who) (w : World) : CliRest := match c with ClientA => w_A w | ClientB => w_B w end.

Definition set_rest (c : who) (r : CliRest) (w : World) : World :=
  match c with
  | ClientA => mk_World (w_pc w) r (w_B w) (w_svr w)
  | ClientB => mk_World (w_pc w) (w_A w) r (w_svr w)
  end.

Definition set_pc (h : Heap) (w : World) : World := mk_World h (w_A w) (w_B w) (w_svr w).

(** A client as its own operations see it, and after one of them. *)
Definition view (h : Heap) (r : CliRest) : WC :=
  mk_CliState h (r_ext r) (r_rand r) (r_requests r) (r_writeStream r) (r_done r).

Definition after (r : CliRest) (wc : WC) : CliRest :=
  mk_CliRest (r_pipes r) (cl_ext wc) (cl_rand wc) (cl_requests wc) (cl_writeStream wc) (cl_done wc).

Definition at_client {X} (c : who) (m : M WC X) : M World X := fun w =>
  match m (view (w_pc w) (rest c w)) with
  | Ok (x, wc) => Ok (x, set_pc (cl_heap wc) (set_rest c (after (rest c w) wc) w))
  | Panic p => Panic p
  end.

Definition at_server {X} (m : M WS X) : M World X := fun w =>
  match m (w_svr w) with
  | Ok (x, ws) => Ok (x, mk_World (w_pc w) (w_A w) (w_B w) ws)
  | Panic p => Panic p
  end.

Definition pipes (c : who) : M World (Processor WC) := gets (fun w => r_pipes (rest c w)).

Definition set_pipes (c : who) (p : Processor WC) : M World unit :=
  modify (fun w => let r := rest c w in
    set_rest c (mk_CliRest p (r_ext r) (r_rand r) (r_requests r) (r_writeStream r) (r_done r)) w).

(** [client.NewUDPClient] with a connection. *)
Definition new_client (c : who) : M World unit :=
  modify (fun w => let r := rest c w in
    set_rest c (mk_CliRest NewUDPClient (r_ext r) (r_rand r) ∅ [] false) w).

(** ** One datagram

    The handlers on one datagram, one after the other: the computation that the
    executions of [ExampleMain] follow from one hand-over to the next. *)

(** The first element that waits on a stream. *)
Definition next_written : M WC (option cwritePacket) := fun w =>
  match cl_writeStream w with
  | [] => Ok (None, w)
  | x :: q => Ok (Some x, set_stream q w)
  end.

Definition next_sent : M WS (option nat) := fun w =>
  match sendStream w with
  | [] => Ok (None, w)
  | l :: q => Ok (Some l, mk_SvrState (s_heap w) (s_ext w) q (writeStream w) (closed w))
  end.

Definition next_datagram : M WS (option writePacket) := fun w =>
  match writeStream w with
  | [] => Ok (None, w)
  | d :: q => Ok (Some d, mk_SvrState (s_heap w) (s_ext w) (sendStream w) q (closed w))
  end.

(** The server on one datagram: what it writes. *)
Definition serve_one (ps : Processor WS) (data : bytes) (sender : string) : M WS (option writePacket) :=
  processIncoming ps data sender ;;;
  let? l := next_sent in
  processOutgoing ps l ;;;
  next_datagram.

(** What client [c] has written goes to the server, and the server's datagram to
    a client: the packet it delivers. *)
Definition exchange (ps : Processor WS) (c : who) : M World (option (who * delivery)) :=
  let? x := at_client c next_written in
  let? d := at_server (serve_one ps (cw_data x) (addr_of c)) in
  match client_at (w_addr d) with
  | None => ret None
  | Some c' =>
      let* p := pipes c' in
      let? dl := at_client c' (processIncoming_send p svrAddr (w_data d)) in
      at_client c' (processIncoming_end (delivery_ref dl)) ;;;
      ret (Some (c', dl))
  end.

End world.

#[export] Instance who_eq_dec : EqDecision who.
Proof. solve_decision. Defined.

#[local] Arguments rest : simpl never.

Section proofs.
Context `{A : AEAD} `{!AEADLaws A} `{C : Curve} `{!CurveLaws C} `{R : Resolver}.
Abbreviation WC := (CliState Crypto).
Abbreviation WS := (SvrState Crypto).

(** ** States between two steps of the program *)

(** A client with the pipelines [p], the keys [e] and the requests [q] that has
    nothing to write. *)
Record ready (r : CliRest) (p : Processor WC) (e : Crypto) (q : gmap string (option nat)) : Prop := {
  rd_pipes : r_pipes r = p;
  rd_ext : r_ext r = e;
  rd_requests : r_requests r = q;
  rd_written : r_writeStream r = [];
}.

(** The server with the keys [e] and nothing to do. *)
Record svr_idle (ws : WS) (e : Crypto) : Prop := {
  si_inv : inv [] ws;
  si_send : sendStream ws = [];
  si_write : writeStream ws = [];
  si_ext : s_ext ws = e;
}.

Definition pc_good (w : World) : Prop := heap_ok (w_pc w) /\ healthy (w_pc w).

Definition writes (r : CliRest) (p : Processor WC) (e : Crypto) (q : gmap string (option nat))
    (x : cwritePacket) : Prop :=
  r_pipes r = p /\ r_ext r = e /\ r_requests r = q /\ r_writeStream r = [x].

(** ** One operation *)

Lemma at_client_ok {X} c (m : M WC X) w x wc :
  m (view (w_pc w) (rest c w)) = Ok (x, wc) ->
  at_client c m w = Ok (x, set_pc (cl_heap wc) (set_rest c (after (rest c w) wc) w)).
Proof. unfold at_client. by intros ->. Qed.

Lemma at_server_ok {X} (m : M WS X) w x ws :
  m (w_svr w) = Ok (x, ws) -> at_server m w = Ok (x, mk_World (w_pc w) (w_A w) (w_B w) ws).
Proof. unfold at_server. by intros ->. Qed.

Lemma rest_set c k r w : rest k (set_rest c r w) = if decide (k = c) then r else rest k w.
Proof. by destruct c, k. Qed.

Lemma rest_pc k h w : rest k (set_pc h w) = rest k w.
Proof. by destruct k. Qed.

Lemma svr_set c r w : w_svr (set_rest c r w) = w_svr w.
Proof. by destruct c. Qed.

Lemma pc_set c r w : w_pc (set_rest c r w) = w_pc w.
Proof. by destruct c. Qed.

(** An operation of a client that leaves the heap well formed. *)
Lemma client_op {X} c (m : M WC X) w x v :
  m (view (w_pc w) (rest c w)) = Ok (x, v) -> heap_good v ->
  exists w', at_client c m w = Ok (x, w') /\ pc_good w' /\ w_pc w' = cl_heap v /\
    w_svr w' = w_svr w /\ rest c w' = after (rest c w) v /\ forall o, o <> c -> rest o w' = rest o w.
Proof.
  intros Hm Hg. eexists. split; [by apply at_client_ok|]. split; [by destruct c|]. split; [by destruct c|].
  split; [by destruct c|]. split; [by rewrite rest_pc, rest_set, decide_True|].
  intros o Ho. by rewrite rest_pc, rest_set, decide_False.
Qed.

(** ** The server on one datagram *)

Lemma serve_one_ok ps data sender (ws ws1 ws2 : WS) l d e :
  svr_idle ws e ->
  processIncoming ps data sender ws = Ok (tt, ws1) -> sendStream ws1 = [l] ->
  processOutgoing ps l
    (mk_SvrState (s_heap ws1) (s_ext ws1) [] (writeStream ws1) (closed ws1)) = Ok (tt, ws2) ->
  writeStream ws2 = writeStream ws ++ [d] -> inv [] ws2 -> sendStream ws2 = [] ->
  exists ws', serve_one ps data sender ws = Ok (Some d, ws') /\ svr_idle ws' (s_ext ws2).
Proof.
  intros [_ _ Hw _] H1 Hs H2 Hd I2 S2. rewrite Hw in Hd. simpl in Hd.
  exists (mk_SvrState (s_heap ws2) (s_ext ws2) (sendStream ws2) [] (closed ws2)). split.
  - unfold serve_one. erewrite bind_ok by exact H1. erewrite bind_ok by (unfold next_sent; by rewrite Hs).
    cbn iota. erewrite bind_ok by exact H2. unfold next_datagram. by rewrite Hd.
  - split; simpl; [by destruct I2 | done..].
Qed.

(** ** One exchange *)

(** The incoming stage of a client in any state with the keys [e]. *)
Definition lets_in (p : Processor WC) (e : Crypto) (raw : bytes) (m : gmap string string) (b : bytes) : Prop :=
  forall v : WC, cl_ext v = e ->
    DataProcess (DataProcessor p) (in_ctx svrAddr) raw v = Ok ((in_ctx svrAddr, datagram m b, None), v).

Definition routed (q : gmap string (option nat)) (ref : string) (pkt : nat) : delivery :=
  match q !! ref with Some (Some ch) => ToRequest ch pkt ref | _ => ToMisc pkt ref end.

Lemma client_at_addr c : client_at (addr_of c) = Some c.
Proof. by destruct c. Qed.

(** What a client wrote makes the server write a datagram for client [c']: it is
    delivered there, and afterwards all are idle. *)
Lemma exchange_run ps c c' w x d ws' m b es :
  pc_good w -> r_writeStream (rest c w) = [x] ->
  (forall k, k <> c -> r_writeStream (rest k w) = []) ->
  serve_one ps (cw_data x) (addr_of c) (w_svr w) = Ok (Some d, ws') -> svr_idle ws' es ->
  w_addr d = addr_of c' ->
  lets_in (r_pipes (rest c' w)) (r_ext (rest c' w)) (w_data d) m b -> utf8_map m ->
  let ref := default ""%string (m !! KeyRef) in
  exists pkt w',
    exchange ps c w = Ok (Some (c', routed (r_requests (rest c' w)) ref pkt), w') /\
    pc_good w' /\ abs (w_pc w') pkt = Some (request m b) /\ (pkt ∉ pool (w_pc w')) /\
    svr_idle (w_svr w') es /\
    forall k, ready (rest k w') (r_pipes (rest k w)) (r_ext (rest k w))
      (if decide (k = c') then delete ref (r_requests (rest k w)) else r_requests (rest k w)).
Proof.
  intros Hg Hx Hidle Hsrv Hs' Haddr Hin Hm ref.
  set (w1 := mk_World (w_pc w) (w_A w) (w_B w) ws').
  set (w2 := set_rest c (after (rest c w) (set_stream [] (view (w_pc w) (rest c w)))) w1).
  assert (Hw2 : forall k, ready (rest k w2) (r_pipes (rest k w)) (r_ext (rest k w)) (r_requests (rest k w))).
  { intros k. unfold w2. rewrite rest_set. case_decide as Hk; [subst; by split|].
    specialize (Hidle k Hk). by destruct k; split. }
  assert (Hpc2 : w_pc w2 = w_pc w) by (unfold w2; by rewrite pc_set).
  assert (Hsv2 : w_svr w2 = ws') by (unfold w2; by rewrite svr_set).
  set (v := view (w_pc w2) (rest c' w2)).
  assert (Hv : cl_ext v = r_ext (rest c' w)) by apply (rd_ext _ _ _ _ (Hw2 c')).
  assert (Hgv : heap_good v) by (unfold heap_good, v; simpl; by rewrite Hpc2).
  destruct (wp_inv _ _ _ (processIncoming_stage (r_pipes (rest c' w)) svrAddr m b (w_data d) v (Hin v Hv) Hgv Hm))
    as (o & v' & Hrun & pkt & -> & Hg' & A' & X' & R' & S' & Hl).
  assert (Er : route v ref pkt = routed (r_requests (rest c' w)) ref pkt).
  { unfold route, routed, v. simpl. by rewrite (rd_requests _ _ _ _ (Hw2 c')). }
  fold ref in Hrun. rewrite Er in Hrun.
  assert (Hdr : delivery_ref (routed (r_requests (rest c' w)) ref pkt) = ref)
    by (unfold routed; by destruct (_ !! ref) as [[]|]).
  eexists pkt, _. split; [|split; [|split; [|split; [|split]]]].
  - unfold exchange. erewrite bind_ok by (apply at_client_ok; unfold next_written; simpl; by rewrite Hx).
    cbn iota. erewrite bind_ok by (apply at_server_ok; destruct c; exact Hsrv). cbn iota.
    rewrite Haddr, client_at_addr. replace (mk_World _ _ _ ws') with w2 by (by destruct c).
    unfold pipes. erewrite bind_ok by done. rewrite (rd_pipes _ _ _ _ (Hw2 c')).
    erewrite bind_ok by (apply at_client_ok; exact Hrun). cbn iota. rewrite Hdr.
    by erewrite bind_ok by (by apply at_client_ok).
  - unfold pc_good. simpl. by destruct c'.
  - simpl. by destruct c'.
  - simpl. by destruct c'.
  - destruct c'; simpl; by rewrite Hsv2.
  - intros k. rewrite !rest_pc, !rest_set, !rest_pc, !rest_set. case_decide as Hk; [subst k|done].
    rewrite decide_True by done. destruct (Hw2 c') as [P2 E2 Q2 W2].
    split; simpl; [done | by rewrite X' | by rewrite R'; f_equal | by rewrite S'].
Qed.

(** ** Secure clients *)

Variable ps : Processor WS.
Hypothesis ps_secured : secured ps.
Hypothesis ps_kex_server :
  callbackQueues (PacketProcessor ps) !! TargetKeyExchangeServer = Some [keyExchangeServer].
Hypothesis ps_kex_client :
  callbackQueues (PacketProcessor ps) !! TargetKeyExchangeClient = Some [keyExchangeClient].
Hypothesis ps_relay : callbackQueues (PacketProcessor ps) !! TargetRelay = Some [relayCallback].
Hypothesis resolved : forall c, ResolveUDPAddr (addr_of c) = Some (addr_of c).

Lemma secure_request (v : WC) k rs ch :
  heap_good v ->
  exists v' m ref,
    createSecureClient_request (inr k) rs ch v = Ok (inr None, v') /\ heap_good v' /\
    cl_ext v' = crypto_of k rs /\ cl_requests v' = <[ref := Some ch]> (cl_requests v) /\
    cl_writeStream v' = cl_writeStream v
      ++ [mk_cwritePacket (datagram m (publicKey (crypto_of k rs))) (Some ch) ref] /\
    utf8_map m /\ m !! KeyTarget = Some TargetKeyExchangeServer /\ m !! KeyRef = Some ref.
Proof.
  intros Hg. destruct (NewPkt_run v Hg) as (pkt & h & d & Hrun0 & Hg0 & A0).
  set (v0 := upd (crypto_of k rs) (upd h v) : WC).
  destruct (wp_inv _ _ _ (ConfigureKeyExServerPkt_spec v0 pkt _ Hg0 A0))
    as ([] & v1 & Hconf & Hg1 & A1 & E1 & Rn1 & R1 & S1).
  set (q := kex_pkt (publicKey (cl_ext v0)) (fresh_pkt "" svrAddr d)) in *.
  destruct (wp_inv _ _ _ (Send_registers NewUDPClient pkt (Some ch) v1 q eq_refl Hg1 A1))
    as (o & v2 & Hsend & -> & Hg2 & X2 & R2 & S2).
  exists v2, (a_meta (send_pkt q v1)), (send_ref q v1). split_and!; try done.
  - unfold createSecureClient_request. erewrite bind_ok by exact Hrun0.
    unfold ConfigureClient_request, NewCrypto, ServerKEx_request. erewrite bind_ok by done.
    erewrite bind_ok; [done|]. by erewrite bind_ok by exact Hconf.
  - by rewrite X2.
  - by rewrite R2, R1.
  - by rewrite S2, S1.
  - apply map_Forall_insert_2; [split; [done | apply genRef_utf8]|].
    apply map_Forall_insert_2; [done|]. by apply map_Forall_singleton.
Qed.

(** The client's keys after the exchange with the server. *)
Definition secured_keys (kS : PrivateKey) (k : PrivateKey) (rs : Rand) : Crypto :=
  store_key svrAddr (exchanged true (crypto_of k rs) (PX kS) (PY kS)) (crypto_of k rs).

(** The server's answer to a new client's request, as it reaches the client. *)
Lemma server_kex_exchange c w m k ref ch es :
  pc_good w -> svr_idle (w_svr w) es -> (forall o, o <> c -> r_writeStream (rest o w) = []) ->
  keys es !! addr_of c = None -> r_pipes (rest c w) = NewUDPClient ->
  r_writeStream (rest c w) = [mk_cwritePacket (datagram m (publicKey (crypto_of k []))) (Some ch) ref] ->
  r_requests (rest c w) = {[ref := Some ch]} ->
  utf8_map m -> m !! KeyTarget = Some TargetKeyExchangeServer -> m !! KeyRef = Some ref ->
  exists pkt w' rm,
    exchange ps c w = Ok (Some (c, ToRequest ch pkt ref), w') /\ pc_good w' /\
    abs (w_pc w') pkt = Some (request rm (publicKey es)) /\
    svr_idle (w_svr w') (store_key (addr_of c) (exchanged false es (PX k) (PY k)) es) /\
    ready (rest c w') NewUDPClient (r_ext (rest c w)) ∅ /\
    forall o, o <> c -> ready (rest o w') (r_pipes (rest o w)) (r_ext (rest o w)) (r_requests (rest o w)).
Proof.
  intros Hg Hs Hidle Hk Hp Hx Hq Hm Htgt Href. pose proof Hs as [I Hss Hsw <-].
  destruct (server_kex ps (proj1 ps_secured) (proj2 ps_secured) ps_kex_server m _ _ (addr_of c) (addr_of c)
    (w_svr w) _ _ I Hss Hm (in_pass _ _ _ Hk) Htgt (decode_render_pk (mk_PublicKey (Some (PX k)) (Some (PY k)))) (resolved c))
    as (ws1 & l & ws2 & d & P1 & Q1 & P2 & X2 & I2 & Q2 & W2). cbv zeta in W2. rewrite Href in W2. simpl default in W2.
  destruct (serve_one_ok ps _ (addr_of c) (w_svr w) ws1 ws2 l _ _ Hs P1 Q1 P2 W2 I2 Q2) as (ws' & Hserve & Hs').
  set (rm := a_meta (kex_resp (publicKey (s_ext (w_svr w))) ref (addr_of c) d)) in Hserve.
  assert (Hrm : utf8_map rm).
  { apply map_Forall_insert_2; [by split; vm_compute|]. by eapply fresh_pkt_utf8. }
  destruct (exchange_run ps c c w _ _ ws' rm (publicKey (s_ext (w_svr w))) (s_ext ws2) Hg Hx Hidle Hserve Hs' eq_refl)
    as (pkt & w2 & Hex & Hg2 & A2 & _ & Hs2 & Hr2); [|done|].
  { intros v _. by rewrite Hp, DataProcess_none. }
  change (default ""%string (rm !! KeyRef)) with ref in *.
  unfold routed in Hex. rewrite Hq, lookup_singleton_eq in Hex.
  exists pkt, w2, rm. rewrite X2 in Hs2. split_and!; try done.
  - specialize (Hr2 c). rewrite decide_True in Hr2 by done. rewrite Hp, Hq in Hr2.
    by rewrite delete_singleton_eq in Hr2.
  - intros o Ho. specialize (Hr2 o). by rewrite decide_False in Hr2.
Qed.

(** What the new client's request changes. *)
Lemma new_client_request c k rs ch w :
  pc_good w ->
  exists w' m ref,
    (new_client c ;;; at_client c (createSecureClient_request (inr k) rs ch)) w = Ok (inr None, w') /\
    pc_good w' /\ w_svr w' = w_svr w /\ (forall o, o <> c -> rest o w' = rest o w) /\
    r_pipes (rest c w') = NewUDPClient /\ r_ext (rest c w') = crypto_of k rs /\
    r_requests (rest c w') = {[ref := Some ch]} /\
    r_writeStream (rest c w') = [mk_cwritePacket (datagram m (publicKey (crypto_of k []))) (Some ch) ref] /\
    utf8_map m /\ m !! KeyTarget = Some TargetKeyExchangeServer /\ m !! KeyRef = Some ref.
Proof.
  intros Hg. set (r0 := mk_CliRest NewUDPClient (r_ext (rest c w)) (r_rand (rest c w)) ∅ [] false).
  destruct (secure_request (view (w_pc w) r0) k rs ch Hg)
    as (v1 & m & ref & Hreq & Hg1 & X1 & R1 & S1 & Hm & Htgt & Href).
  destruct (client_op c (createSecureClient_request (inr k) rs ch) (set_rest c r0 w) (inr None) v1)
    as (w' & Hop & Hg' & _ & Hs' & Hc' & Ho'); [by rewrite rest_set, pc_set, decide_True | done |].
  exists w', m, ref. rewrite rest_set, decide_True in Hc' by done. rewrite Hc'. split_and!; try done.
  - by rewrite Hs', svr_set.
  - intros o Ho. by rewrite Ho', rest_set, decide_False.
Qed.

(** ** The exchanges between the clients *)

(** A text that an end with this key does not take for a sealed one. *)
Definition clear_text (key t : bytes) : Prop := Open key (take nonceSize t) (drop nonceSize t) = None.

(** A reference that a client generates. *)
Definition fresh_ref (ref : string) : Prop := exists rs, ref = s_of_b (genRef 5 rs).1.

(** An end that may encrypt and has a nonce can send. *)
Lemma can_seal a c ks n r key bin :
  skips_crypto (a_get KeyNoCrypto a) = false -> keys c !! a_dest a = Some ks -> keySent ks = true ->
  key_ok (BigBytes (shared ks)) = true -> rnd c = inr n :: r -> length n = nonceSize ->
  deliverable key a c bin.
Proof. intros Hs Hk Ht Hok Hr Hn. unfold deliverable, out_decision. by rewrite Hs, Hk, Ht, Hok, Hr. Qed.

(** The first packet goes out in clear. *)
Lemma can_send_first key a c ks bin :
  keys c !! a_dest a = Some ks -> keySent ks = false -> clear_text key bin -> deliverable key a c bin.
Proof. intros Hk Ht Hc. unfold deliverable, out_decision. rewrite Hk, Ht. by destruct (skips_crypto _). Qed.

(** The extension after a nonce has been used. *)
Definition spend (c : Crypto) : Crypto := mk_Crypto (keys c) (privKey c) (publicKey c) (tl (rnd c)).

Lemma out_crypto_sealed a c ks n r :
  skips_crypto (a_get KeyNoCrypto a) = false -> keys c !! a_dest a = Some ks -> keySent ks = true ->
  key_ok (BigBytes (shared ks)) = true -> rnd c = inr n :: r -> out_crypto a c = spend c.
Proof. intros Hs Hk Ht Hok Hr. unfold out_crypto, out_decision, spend. by rewrite Hs, Hk, Ht, Hok, Hr. Qed.

(** A client that shares a secret with the server, may encrypt and has a nonce. *)
Record talks (c es : Crypto) (me : string) (n : bytes) : Prop := {
  tk_link : exists ks ks', keys c !! svrAddr = Some ks /\ keySent ks = true /\
    keys es !! me = Some ks' /\ shared ks' = shared ks /\ key_ok (BigBytes (shared ks)) = true;
  tk_rnd : exists r, rnd c = inr n :: r;
  tk_nonce : length n = nonceSize;
}.

(** Sending a packet for the server through a client's secured pipelines. *)
Lemma secured_send p (v : WC) pkt a ch es me n :
  secured p -> heap_good v -> abs (cl_heap v) pkt = Some a -> a_dest a = svrAddr ->
  skips_crypto (a_get KeyNoCrypto (send_pkt a v)) = false -> talks (cl_ext v) es me n ->
  exists v' data, Send p pkt ch v = Ok (None, v') /\ heap_good v' /\ cl_ext v' = spend (cl_ext v) /\
    cl_requests v' = <[send_ref a v := ch]> (cl_requests v) /\
    cl_writeStream v' = cl_writeStream v ++ [mk_cwritePacket data ch (send_ref a v)] /\
    in_data es me data = Ok (send_wire a v).
Proof.
  intros Hp Hg Ha Hd Hskip [(ks & ks' & Hk & Ht & Hk' & Esh & Hok) [r Hr] Hn].
  assert (Ed : a_dest (send_pkt a v) = svrAddr) by (unfold send_pkt; by destruct (String.eqb _ _)).
  destruct (client_leg p v pkt a ch (BigBytes (shared ks)) es me) as (v' & data & H1 & H2 & H3 & H4 & H5 & H6);
    try done.
  - exists ks, ks'. by rewrite Hd, Esh.
  - eapply can_seal; try done. by rewrite Ed.
  - exists v', data. split_and!; try done. rewrite H3. eapply out_crypto_sealed; try done. by rewrite Ed.
Qed.

(** The request of [ClientKEx]. *)
Lemma kexc_request p (v : WC) addr ch es n :
  secured p -> heap_good v -> talks (cl_ext v) es clientA_Addr n ->
  exists v' data m ref,
    (let* pkt := cpk (NewPkt "" svrAddr) in ClientKEx_request p addr pkt ch) v = Ok (None, v') /\
    heap_good v' /\ cl_ext v' = spend (cl_ext v) /\
    cl_requests v' = <[ref := Some ch]> (cl_requests v) /\
    cl_writeStream v' = cl_writeStream v ++ [mk_cwritePacket data (Some ch) ref] /\
    in_data es clientA_Addr data = Ok (datagram m (ip_text addr)) /\
    utf8_map m /\ m !! KeyTarget = Some TargetKeyExchangeClient /\ m !! KeyRef = Some ref /\ fresh_ref ref.
Proof.
  intros Hp Hg Ht. destruct (NewPkt_run v Hg) as (pkt & h & d & Hrun0 & Hg0 & A0).
  destruct (wp_inv _ _ _ (ConfigureKeyExClientPkt_spec (upd h v) addr pkt _ Hg0 A0))
    as ([] & v1 & Hconf & Hg1 & A1 & h1 & ->).
  set (q := kexc_pkt addr (fresh_pkt "" svrAddr d)) in *.
  destruct (secured_send p _ pkt q (Some ch) es clientA_Addr n Hp Hg1 A1 eq_refl)
    as (v' & data & Hsend & Hg2 & X2 & R2 & S2 & Hin); [done | done |].
  exists v', data, (a_meta (send_pkt q (upd h1 (upd h v)))), (send_ref q (upd h1 (upd h v))).
  split_and!; try done.
  - unfold ClientKEx_request. erewrite bind_ok by exact Hrun0. by erewrite bind_ok by exact Hconf.
  - apply (kex_meta_utf8 addr v).
  - by eexists.
Qed.

(** What the extension stores when it has read the public key of [addr]. *)
Definition learn (addr : string) (x y : Z) (c : Crypto) : Crypto :=
  store_key addr (exchanged true c x y) c.

(** The request of [ClientKEx] and its answer, in the process. *)
Lemma kexc_exchange w addr ch es ea pa n ksb :
  pc_good w -> svr_idle (w_svr w) es -> ready (rest ClientA w) pa ea ∅ -> secured pa ->
  r_writeStream (rest ClientB w) = [] ->
  talks ea es clientA_Addr n -> plain_addr addr -> keys es !! addr = Some ksb ->
  (forall ks ref, keys ea !! svrAddr = Some ks -> fresh_ref ref ->
    clear_text (BigBytes (shared ks)) (datagram (kexc_meta ref) (render_pk (public ksb)))) ->
  exists w1 pkt ref w2 x,
    at_client ClientA (let* pkt := cpk (NewPkt "" svrAddr) in ClientKEx_request pa addr pkt ch) w
      = Ok (None, w1) /\ r_writeStream (rest ClientA w1) = [x] /\
    exchange ps ClientA w1 = Ok (Some (ClientA, ToRequest ch pkt ref), w2) /\
    pc_good w2 /\ svr_idle (w_svr w2) es /\
    abs (w_pc w2) pkt = Some (request (kexc_meta ref) (render_pk (public ksb))) /\
    ready (rest ClientA w2) pa (spend ea) ∅ /\
    ready (rest ClientB w2) (r_pipes (rest ClientB w)) (r_ext (rest ClientB w)) (r_requests (rest ClientB w)).
Proof.
  intros Hg Hs [Pa Xa Qa Wa] Hsec HB Htk Hpl Hkb Hclear. subst pa ea.
  destruct (kexc_request (r_pipes (rest ClientA w)) (view (w_pc w) (rest ClientA w)) addr ch es n Hsec Hg Htk)
    as (v & data & m & ref & Hreq & Hgv & Xv & Qv & Wv & Hin & Hm & Htgt & Href & Hfresh).
  simpl in Xv, Qv, Wv. rewrite Qa in Qv. rewrite Wa in Wv.
  destruct (client_op ClientA _ w _ v Hreq Hgv) as (w1 & Hop & Hg1 & _ & Es1 & Ha1 & Ho1).
  pose proof Hs as [I Hss Hsw <-].
  destruct (tk_link _ _ _ _ Htk) as (ks & ks' & Hk & Ht & Hk' & Esh & Hok).
  destruct (server_kexc ps (w_svr w) m addr ksb data clientA_Addr svrAddr clientA_Addr (BigBytes (shared ks))
    (cl_ext v) ref) as (ws1 & l & ws2 & data' & P1 & Q1 & P2 & W2 & Hin2 & I2 & Q2 & X2); try done.
  { apply (resolved ClientA). }
  { exists ks', ks. rewrite Xv. by rewrite Esh. }
  { by apply Hclear. }
  destruct (serve_one_ok ps data clientA_Addr (w_svr w) ws1 ws2 l _ _ Hs P1 Q1 P2 W2 I2 Q2) as (ws' & Hserve & Hs').
  destruct (exchange_run ps ClientA ClientA w1 (mk_cwritePacket data (Some ch) ref)
    (mk_writePacket data' clientA_Addr) ws' (kexc_meta ref) (render_pk (public ksb)) (s_ext ws2))
    as (pkt & w2 & Hex & Hg2 & A2 & _ & Hs2 & Hr2); try done.
  { by rewrite Ha1. }
  { intros o Ho. rewrite Ho1 by done. by destruct o. }
  { by rewrite Es1. }
  { intros v2 Hv2. rewrite Ha1 in Hv2 |- *. simpl in Hv2 |- *. apply in_stage; [apply Hsec|].
    simpl. by rewrite Hv2. }
  { apply map_Forall_insert_2; [by split; vm_compute|]. by eapply (fresh_pkt_utf8 m ""%string ""%string). }
  change (default ""%string (kexc_meta ref !! KeyRef)) with ref in *.
  pose proof (Hr2 ClientA) as HA2. pose proof (Hr2 ClientB) as HB2. simpl in HA2, HB2.
  rewrite Ha1 in Hex, HA2.
  simpl in Hex, HA2. rewrite Qv in Hex, HA2. unfold routed in Hex. rewrite lookup_insert_eq in Hex.
  rewrite delete_insert_id, Xv in HA2 by done. rewrite (Ho1 ClientB) in HB2 by done. rewrite X2 in Hs2.
  exists w1, pkt, ref, w2, (mk_cwritePacket data (Some ch) ref). by rewrite Ha1.
Qed.

(** ** The messages *)

(** A packet is encrypted for another client and sent to the server. *)
Lemma sealed_relay p (v : WC) pkt a to ch es me ks n1 r n2 :
  let q := sealed_pkt (BigBytes (shared ks)) n1 a in
  secured p -> heap_good v -> abs (cl_heap v) pkt = Some a -> a_dest a = svrAddr ->
  a_meta a !! KeyNoCrypto = None -> keys (cl_ext v) !! to = Some ks -> key_ok (BigBytes (shared ks)) = true ->
  rnd (cl_ext v) = inr n1 :: r -> talks (spend (cl_ext v)) es me n2 ->
  exists v1 v' data,
    EncryptE2E to pkt v = Ok (None, v1) /\ Send p pkt ch v1 = Ok (None, v') /\ heap_good v' /\
    cl_ext v' = spend (spend (cl_ext v)) /\ cl_requests v' = <[send_ref q v := ch]> (cl_requests v) /\
    cl_writeStream v' = cl_writeStream v ++ [mk_cwritePacket data ch (send_ref q v)] /\
    in_data es me data = Ok (datagram (a_meta (send_pkt q v)) (a_buff q)).
Proof.
  intros q Hp Hg Ha Hd Hnc Hk Hok Hr Ht.
  pose proof (EncryptE2E_ok (W := WC) v to pkt a ks n1 r) as He. pose proof (He (proj1 Hg) Ha Hk Hok Hr) as Hwp.
  clear He. destruct (wp_inv _ _ _ Hwp)
    as (err & v1 & Hrun1 & -> & Fr & A1 & h & E1).
  assert (Hg1 : heap_good v1) by (split; [apply Fr | by eapply (healthy_frame pkt), Hg]).
  assert (Ec : spend (cl_ext v) = mk_Crypto (keys (cl_ext v)) (privKey (cl_ext v)) (publicKey (cl_ext v)) r)
    by (unfold spend; by rewrite Hr).
  rewrite Ec in Ht |- *. rewrite E1 in *. simpl in A1.
  destruct (secured_send p _ pkt q ch es me n2 Hp Hg1 A1 Hd) as (v' & data & Hsend & Hg2 & X2 & R2 & S2 & Hin).
  { assert (Hget : forall u : WC, a_meta (send_pkt q u) !! KeyNoCrypto = None).
    { intros u. unfold send_pkt. destruct (String.eqb _ _); simpl; [by rewrite lookup_insert_ne|done]. }
    unfold a_get. by rewrite Hget. }
  { exact Ht. }
  by eexists _, v', data.
Qed.

(** The server shares the secret [key] with a client and has not used it yet. *)
Definition reaches (key : bytes) (es ec : Crypto) (c : who) : Prop :=
  exists ks ks', keys es !! addr_of c = Some ks /\ keySent ks = false /\ keys ec !! svrAddr = Some ks' /\
    shared ks' = shared ks /\ BigBytes (shared ks) = key /\ key_ok key = true.

(** The metadata of a forwarded packet. *)
Definition relayed_meta (from ref : string) : gmap string string := <[KeyRelayFrom := from]> {[KeyRef := ref]}.

(** A packet for the relay target goes from one client to the other. *)
Lemma relay_exchange c c' w data ch ref m b es key :
  let fwd := forwarded m b (addr_of c) in
  pc_good w -> svr_idle (w_svr w) es -> r_writeStream (rest c w) = [mk_cwritePacket data ch ref] ->
  (forall k, k <> c -> r_writeStream (rest k w) = []) ->
  in_data es (addr_of c) data = Ok (datagram m b) -> utf8_map m ->
  m !! KeyTarget = Some TargetRelay -> m !! KeyRelayTo = Some (addr_of c') -> m !! KeyRef = Some ref ->
  reaches key es (r_ext (rest c' w)) c' -> secured (r_pipes (rest c' w)) ->
  clear_text key (datagram (relayed_meta (addr_of c) ref) b) ->
  exists pkt w',
    exchange ps c w = Ok (Some (c', routed (r_requests (rest c' w)) ref pkt), w') /\
    pc_good w' /\ abs (w_pc w') pkt = Some (request (a_meta fwd) b) /\ (pkt ∉ pool (w_pc w')) /\
    svr_idle (w_svr w') (out_crypto fwd es) /\
    forall k, ready (rest k w') (r_pipes (rest k w)) (r_ext (rest k w))
      (if decide (k = c') then delete ref (r_requests (rest k w)) else r_requests (rest k w)).
Proof.
  intros fwd Hg Hs Hx Hidle Hin Hm Htgt Hto Href (ks & ks' & Hk & Hns & Hk' & Esh & <- & Hok) Hsec Hclear.
  pose proof Hs as [I Hss Hsw <-].
  assert (Hd : a_dest fwd = addr_of c') by (unfold fwd, forwarded; simpl; by rewrite Hto).
  destruct (server_relay ps (w_svr w) m b data (addr_of c) (addr_of c') svrAddr (addr_of c')
    (BigBytes (shared ks)) (r_ext (rest c' w)))
    as (ws1 & l & ws2 & data' & P1 & Q1 & _ & P2 & I2 & Q2 & X2 & W2 & Hin2); try done.
  { by exists ks, ks'; rewrite Esh. }
  { eapply (can_send_first _ _ _ ks); [by fold fwd; rewrite Hd | done |].
    revert Hclear. unfold clear_text, datagram, relayed_meta, forwarded. simpl. by rewrite Href. }
  destruct (serve_one_ok ps data (addr_of c) (w_svr w) ws1 ws2 l _ _ Hs P1 Q1 P2 W2 I2 Q2) as (ws' & Hserve & Hs').
  fold fwd in X2, Hin2. rewrite X2 in Hs'.
  assert (Hrm : utf8_map (a_meta fwd)).
  { unfold fwd, forwarded. simpl. rewrite Href. apply map_Forall_insert_2; [by destruct c|].
    by eapply (fresh_pkt_utf8 m ""%string ""%string). }
  destruct (exchange_run ps c c' w _ (mk_writePacket data' (addr_of c')) ws' (a_meta fwd) b _ Hg Hx Hidle Hserve Hs' eq_refl)
    as (pkt & w2 & H2); [|done|].
  { intros v Hv. apply in_stage; [apply Hsec|]. simpl. by rewrite Hv. }
  assert (Hfr : default ""%string (a_meta fwd !! KeyRef) = ref).
  { unfold fwd, forwarded. simpl. by rewrite lookup_insert_ne, lookup_singleton_eq, Href by done. }
  cbv zeta in H2. rewrite Hfr in H2. by exists pkt, w2.
Qed.

(** Client A's message. *)
Lemma send_A_run p (v : WC) ch es ks n1 r n2 :
  secured p -> heap_good v -> keys (cl_ext v) !! clientB_Addr = Some ks -> key_ok (BigBytes (shared ks)) = true ->
  rnd (cl_ext v) = inr n1 :: r -> talks (spend (cl_ext v)) es clientA_Addr n2 ->
  exists v' data m ref,
    send_A p ch v = Ok (None, v') /\ heap_good v' /\ cl_ext v' = spend (spend (cl_ext v)) /\
    cl_requests v' = <[ref := Some ch]> (cl_requests v) /\
    cl_writeStream v' = cl_writeStream v ++ [mk_cwritePacket data (Some ch) ref] /\
    in_data es clientA_Addr data = Ok (datagram m (n1 ++ Seal (BigBytes (shared ks)) n1 msg_A)) /\
    utf8_map m /\ m !! KeyTarget = Some TargetRelay /\ m !! KeyRelayTo = Some clientB_Addr /\
    m !! KeyRef = Some ref /\ ref <> ""%string /\ fresh_ref ref.
Proof.
  intros Hp Hg Hk Hok Hr Ht.
  destruct (wp_inv (cpk (makeRelayPkt clientB_Addr msg_A)) (fun l w' => exists h, w' = upd h v /\
    abs h l = Some (relay_apkt clientB_Addr msg_A) /\ heap_good w') v) as (pkt & v0 & Hmk & h & -> & A0 & Hg0).
  { eapply makeRelayPkt_spec; [done|]. intros l h Ha Hg' _. by exists h. }
  destruct (sealed_relay p (upd h v) pkt _ clientB_Addr (Some ch) es clientA_Addr ks n1 r n2 Hp Hg0 A0)
    as (v1 & v' & data & H1 & H2 & H3 & H4 & H5 & H6 & H7); try done.
  eexists v', data, _, _. split_and!; [..| exact H7 | | | | | |]; try done.
  - unfold send_A. erewrite bind_ok by exact Hmk. by erewrite bind_ok by exact H1.
  - apply (relay_meta_utf8 clientB_Addr); [done | apply genRef_utf8].
  - by eexists.
Qed.

(** A received packet is decrypted. *)
Lemma decrypted (v : WC) sender l m ks n b :
  heap_good v -> abs (cl_heap v) l = Some (request m (n ++ Seal (BigBytes (shared ks)) n b)) ->
  keys (cl_ext v) !! sender = Some ks -> key_ok (BigBytes (shared ks)) = true -> length n = nonceSize ->
  exists h, DecryptE2E sender l v = Ok (None, upd h v) /\ heap_good (upd h v : WC) /\
    abs h l = Some (request m b) /\ pool h = pool (cl_heap v).
Proof.
  intros Hg Ha Hk Hok Hn.
  pose proof (DecryptE2E_ok (W := WC) v sender l _ ks n b (proj1 Hg) Ha Hk Hok Hn eq_refl) as Hwp.
  destruct (wp_inv _ _ _ Hwp) as (err & v' & Hrun & -> & F & A' & h & ->). simpl in F, A'.
  exists h. split_and!; try done; [|by rewrite (fr_pool _ _ _ F)].
  split; [apply F | by eapply healthy_frame, Hg].
Qed.

(** What client B's listener does with a packet, in one go: the data of the
    packet and the error of [Send]; [None] when it cannot be decrypted. *)
Definition listened (pb : Processor WC) (pkt : nat) : M WC (option (bytes * option string)) :=
  let* sender := cpk (Meta_Get pkt KeyRelayFrom) in
  let* err := DecryptE2E sender pkt in
  match err with
  | Some _ => ret None
  | None =>
      let* data := cpk (PktData pkt) in
      let* respPkt := cpk (makeRelayPkt clientA_Addr msg_B) in
      let* ref := cpk (Meta_Get pkt KeyRef) in
      cpk (Meta_Add respPkt KeyRef ref) ;;;
      let* _ := EncryptE2E clientA_Addr respPkt in
      let* o := Send pb respPkt None in
      ret (Some (data, o))
  end.

(** Client B's listener on A's message. *)
Lemma listened_run p (v : WC) l m ref es ks n n1 r n2 :
  secured p -> heap_good v ->
  abs (cl_heap v) l = Some (request m (n ++ Seal (BigBytes (shared ks)) n msg_A)) -> l ∉ pool (cl_heap v) ->
  m !! KeyRelayFrom = Some clientA_Addr -> m !! KeyRef = Some ref -> ref <> ""%string -> utf8_string ref ->
  keys (cl_ext v) !! clientA_Addr = Some ks -> key_ok (BigBytes (shared ks)) = true -> length n = nonceSize ->
  rnd (cl_ext v) = inr n1 :: r -> talks (spend (cl_ext v)) es clientB_Addr n2 ->
  exists v' data m',
    listened p l v = Ok (Some (msg_A, None), v') /\ heap_good v' /\
    cl_writeStream v' = cl_writeStream v ++ [mk_cwritePacket data None ref] /\
    in_data es clientB_Addr data = Ok (datagram m' (n1 ++ Seal (BigBytes (shared ks)) n1 msg_B)) /\
    utf8_map m' /\ m' !! KeyTarget = Some TargetRelay /\ m' !! KeyRelayTo = Some clientA_Addr /\
    m' !! KeyRef = Some ref.
Proof.
  intros Hp Hg Ha Hl Hfrom Href Hne Hu Hk Hok Hn Hr Ht.
  destruct (decrypted v clientA_Addr l m ks n msg_A Hg Ha Hk Hok Hn) as (h & Hdec & Hgh & Ah & Ph).
  destruct (answer_composed (upd h v) l m msg_A ref Hgh Ah) as (h2 & pkt & Hcomp & Hg2 & A2);
    [simpl; by rewrite Ph | done |].
  destruct (sealed_relay p (upd h2 (upd h v)) pkt _ clientA_Addr None es clientB_Addr ks n1 r n2 Hp Hg2 A2)
    as (v1 & v' & data & H1 & H2 & H3 & _ & _ & H6 & H7); try done.
  set (q := sealed_pkt _ _ _) in H6, H7.
  assert (Eq : forall u : WC, send_ref q u = ref /\ send_pkt q u = q).
  { intros u. assert (E : a_get KeyRef q = ref) by (unfold a_get; simpl; by rewrite lookup_insert_eq).
    unfold send_pkt, send_ref. rewrite E. by destruct (String.eqb_spec ref ""). }
  rewrite (proj1 (Eq _)) in H6. rewrite (proj2 (Eq _)) in H7.
  exists v', data, (a_meta q). split_and!; try done.
  - unfold listened. erewrite bind_ok by (apply lift_ok, Meta_Get_reads; [apply Hg | exact Ha]).
    rewrite upd_proj, request_get, Hfrom. simpl default. erewrite bind_ok by exact Hdec. cbn iota.
    erewrite bind_ok by (apply lift_ok, PktData_reads; [apply Hgh | exact Ah]). rewrite upd_proj.
    rewrite Hcomp. erewrite bind_ok by exact H1. by erewrite bind_ok by exact H2.
  - by apply (relay_meta_utf8 clientA_Addr ref).
Qed.

(** ** The run *)

Lemma out_crypto_other a c k : k <> a_dest a -> keys (out_crypto a c) !! k = keys c !! k.
Proof.
  intros Hk. unfold out_crypto. destruct (out_decision a c); [done | | done | by repeat case_match].
  simpl. by rewrite lookup_alter_ne.
Qed.

Lemma talks_same c es es' me n : same_secrets es es' -> talks c es me n -> talks c es' me n.
Proof.
  intros He [(ks & ks' & Hk & Ht & Hk' & Esh & Hok) Hr Hn]. split; [|done..].
  specialize (He me). rewrite Hk' in He. destruct (keys es' !! me) as [k|] eqn:Ek; [|done].
  injection He as He. exists ks, k. by rewrite <- He.
Qed.

End proofs.
