(* ===== verification/ExampleMain.v ===== *)
(** * ExampleMain: the whole program of examples/crypto/client

    [main] of the example and the listener it starts, as programs of goroutines,
    in a process whose clients have their writers, their readers and a goroutine
    per received datagram, with the server's threads ([ServerThreads]) at the
    other end of a network that may delay, reorder and lose what it carries.

    [Send] hands its data to the writer and registers the response channel
    afterwards, so that a response can come too early here; a response that is
    lost, or that comes too early, leaves [main] waiting.  The theorem at the end
    gives an execution in which the program comes to its end. *)

From Stdlib Require Import ZArith Lia Ascii String.
From stdpp Require Import base list strings gmap fin_maps relations.
From S2P Require Import Prelude Base64 Utf8 JsonText Decimal Json Packet PacketSpec PacketProps.
From S2P Require Import Fmt Pipeline Cipher Crypto CryptoSpec UDPServer UDPServerSpec UDPServerProps ServerThreads.
From S2P Require Import Channel Throttle UDPClient UDPClientProps Network Handshake SecureRelay CryptoExample.
From S2P Require Import ExampleWorld.
Open Scope Z_scope.

Section main.
Context `{A : AEAD} `{C : Curve} `{R : Resolver}.
Abbreviation WC := (CliState Crypto).
Abbreviation WS := (SvrState Crypto).

(** ** Goroutines *)

(** A channel of packets: the response channel of a request, or [Misc] of a
    client. *)
Inductive chan := RespCh (n : nat) | MiscCh (c : who).

(** What the program logs. *)
Inductive entry :=
  | LogSent                       (* clientA: sent message to clientB *)
  | LogRelayed (data : bytes)     (* clientB: got relay pkt with data *)
  | LogDecryptErr (e : string)    (* clientB: got relay pkt decrypt-e2e err *)
  | LogResponse (data : bytes).   (* clientA: response from clientB *)

Inductive goprog : Type :=
  | GReturn
  | GAct (B : Type) (m : M World B) (k : B -> goprog)
  | GHand (c : who) (ref : string) (k : goprog)    (* blocked in c.writeStream <- *)
  | GRecv (ch : chan) (k : nat -> goprog)          (* <-ch *)
  | GGo (t : goprog) (k : goprog)                  (* go t *)
  | GLog (e : entry) (k : goprog)                  (* log.Printf *)
  | GFatal (e : string).                           (* log.Fatalf *)
Arguments GAct {B} _ _.

Local Notation "'let!' x ':=' m 'in' k" := (GAct m (fun x => k))
  (at level 10, x pattern, m at level 100, k at level 200).
Local Notation "m '!!;' k" := (GAct m (fun _ => k)) (at level 199, k at level 200, right associativity).
Local Notation "'let<-' x ':=' ch 'in' k" := (GRecv ch (fun x => k))
  (at level 10, x pattern, ch at level 100, k at level 200).

(** [c.Send(pkt, respCh)]: the request is registered when the writer has
    received the data. *)
Definition send_prog (c : who) (pkt : nat) (respCh : option nat) (k : option string -> goprog) : goprog :=
  let! p := pipes c in
  let! r := at_client c (Send_write p pkt respCh) in
  match r with
  | inl e => k (Some e)
  | inr ref => GHand c ref (at_client c (Send_register ref respCh) !!; k None)
  end.

(** ** The program *)

(** [createSecureClient]; [conn] is the error of [net.ListenUDP] and [gen] what
    [ecdsa.GenerateKey] returns.  The text of a decoding error is left out. *)
Definition createSecureClient (c : who) (conn : option string) (gen : string + PrivateKey) (rs : Rand) (ch : nat)
    (k : goprog) : goprog :=
  match conn with
  | Some e => GFatal ("client init err: " +:+ e)
  | None =>
      new_client c !!;
      let! pkt := at_client c (cpk (NewPkt "" svrAddr)) in
      match gen with
      | inl e => GFatal ("crypto err: public key gen fail: " +:+ e)
      | inr key =>
          match NewCrypto (Some key) gen rs with
          | inl e => GFatal ("crypto err: Crypto extension error: " +:+ e)
          | inr cr =>
              at_client c (crypt (modify (fun _ => cr))) !!;
              at_client c (ConfigureKeyExServerPkt pkt) !!;
              send_prog c pkt (Some ch) (fun _ =>
                let<- resp := RespCh ch in
                let! ok := at_client c (ProcessKeyExResp svrAddr resp) in
                if ok : bool then
                  let! p := pipes c in
                  match Extend "client" p with
                  | (p', None) => set_pipes c p' !!; k
                  | (_, Some e) => GFatal ("crypto err: Crypto install err: " +:+ e)
                  end
                else GFatal "crypto err: handshake error: handshake error: packet decode error: ")
          end
      end
  end.

(** [cr.ClientKEx(clientA, addr, pc.NewPkt("", svrAddr))] and the test of its
    error: the request goes through client A, the response is read by the
    extension of [cr]. *)
Definition clientKEx (cr : who) (addr : string) (ch : nat) (msg : string) (k : goprog) : goprog :=
  let! pkt := at_client ClientA (cpk (NewPkt "" svrAddr)) in
  at_client ClientA (ConfigureKeyExClientPkt addr pkt) !!;
  send_prog ClientA pkt (Some ch) (fun _ =>
    let<- resp := RespCh ch in
    let! ok := at_client cr (ProcessKeyExResp addr resp) in
    if ok : bool then k
    else GFatal (msg +:+ "client-kex ferror: packet decode error: ")).

(** The listener of client B. *)
Definition listener : goprog :=
  let<- pkt := MiscCh ClientB in
  let! sender := at_client ClientB (cpk (Meta_Get pkt KeyRelayFrom)) in
  let! err := at_client ClientB (DecryptE2E sender pkt) in
  match err with
  | Some e => GLog (LogDecryptErr e) GReturn
  | None =>
      let! data := at_client ClientB (cpk (PktData pkt)) in
      GLog (LogRelayed data)
        (let! respPkt := at_client ClientB (cpk (makeRelayPkt clientA_Addr msg_B)) in
         let! ref := at_client ClientB (cpk (Meta_Get pkt KeyRef)) in
         at_client ClientB (cpk (Meta_Add respPkt KeyRef ref)) !!;
         at_client ClientB (EncryptE2E clientA_Addr respPkt) !!;
         send_prog ClientB respPkt None (fun _ => GReturn))
  end.

(** The message of client A and the answer to it. *)
Definition message : goprog :=
  let! pkt := at_client ClientA (cpk (makeRelayPkt clientB_Addr msg_A)) in
  at_client ClientA (EncryptE2E clientB_Addr pkt) !!;
  send_prog ClientA pkt (Some 4%nat) (fun _ =>
    GLog LogSent
      (let<- resp := RespCh 4 in
       at_client ClientA (DecryptE2E clientB_Addr resp) !!;
       let! data := at_client ClientA (cpk (PktData resp)) in
       GLog (LogResponse data) GReturn)).

Definition main (connA connB : option string) (genA genB : string + PrivateKey) (rsA rsB : Rand) : goprog :=
  createSecureClient ClientA connA genA rsA 0
    (createSecureClient ClientB connB genB rsB 1
      (clientKEx ClientA clientB_Addr 2 "clientA kex fail: "
        (clientKEx ClientB clientA_Addr 3 "clientB kex fail: "
          (GGo listener message)))).

(** ** The process, the network and the server *)

Record Proc := mk_Proc {
  goroutines : list goprog;                 (* main first *)
  writerA : cwriter;                        (* write of client A *)
  writerB : cwriter;
  arrived : list (who * bytes);             (* processIncoming, before it has decoded its data *)
  deliveries : list (who * delivery);       (* processIncoming, waiting for a receiver *)
  deletions : list (who * string);          (* processIncoming, before it deletes the request *)
  logged : list entry;
}.

Record Run := mk_Run {
  x_world : World;
  x_proc : Proc;
  x_up : list (who * bytes);                (* datagrams on their way to the server *)
  x_threads : list (prog Crypto);           (* the server's handlers *)
  x_readers : nat;
  x_down : list writePacket;                (* datagrams on their way to a client *)
}.

Definition set_goroutines g p :=
  mk_Proc g (writerA p) (writerB p) (arrived p) (deliveries p) (deletions p) (logged p).
Definition set_arrived a p :=
  mk_Proc (goroutines p) (writerA p) (writerB p) a (deliveries p) (deletions p) (logged p).
Definition set_deliveries d p :=
  mk_Proc (goroutines p) (writerA p) (writerB p) (arrived p) d (deletions p) (logged p).
Definition set_deletions d p :=
  mk_Proc (goroutines p) (writerA p) (writerB p) (arrived p) (deliveries p) d (logged p).
Definition log_entry e p :=
  mk_Proc (goroutines p) (writerA p) (writerB p) (arrived p) (deliveries p) (deletions p) (logged p ++ [e]).

Definition writer_of (c : who) (p : Proc) : cwriter := match c with ClientA => writerA p | ClientB => writerB p end.

Definition set_writer (c : who) (v : cwriter) (p : Proc) : Proc :=
  match c with
  | ClientA => mk_Proc (goroutines p) v (writerB p) (arrived p) (deliveries p) (deletions p) (logged p)
  | ClientB => mk_Proc (goroutines p) (writerA p) v (arrived p) (deliveries p) (deletions p) (logged p)
  end.

(** [writeStream] of client [c] without the element that was received. *)
Definition set_written (c : who) (q : list cwritePacket) (w : World) : World :=
  let r := rest c w in set_rest c (mk_CliRest (r_pipes r) (r_ext r) (r_rand r) (r_requests r) q (r_done r)) w.

Definition delivers_to (c : who) (dl : delivery) : chan :=
  match dl with ToRequest ch _ _ => RespCh ch | ToMisc _ _ => MiscCh c end.

Definition is_fatal (t : goprog) : bool := match t with GFatal _ => true | _ => false end.

(** The process ends when [main] returns or a goroutine calls [log.Fatalf]. *)
Definition exited (ts : list goprog) : bool :=
  match ts with
  | [] | GReturn :: _ => true
  | _ => existsb is_fatal ts
  end.

(** A goroutine of the program goes on, alone or with a routine of a client. *)
Inductive go_step (w : World) (p : Proc) : goprog -> World -> Proc -> goprog -> Prop :=
  | gs_act B (m : M World B) k b w' :
      m w = Ok (b, w') -> go_step w p (GAct m k) w' p (k b)
  | gs_log e k : go_step w p (GLog e k) w (log_entry e p) k
  | gs_hand c q1 x q2 k :
      (* the writer receives the data *)
      writer_of c p = CIdle -> r_writeStream (rest c w) = q1 ++ x :: q2 ->
      go_step w p (GHand c (cw_ref x) k) (set_written c (q1 ++ q2) w) (set_writer c (CWrites x) p) k
  | gs_recv d1 c dl d2 k :
      (* processIncoming delivers a packet *)
      deliveries p = d1 ++ (c, dl) :: d2 ->
      go_step w p (GRecv (delivers_to c dl) k) w
        (set_deletions (deletions p ++ [(c, delivery_ref dl)]) (set_deliveries (d1 ++ d2) p)) (k (delivery_pkt dl))
  | gs_recv_error c ch l k :
      (* the writer delivers an error packet *)
      writer_of c p = CErring ch l ->
      go_step w p (GRecv (RespCh ch) k) w (set_writer c CIdle p) (k l).

(** The routines of the clients. *)
Inductive routine_step (w : World) (p : Proc) (up : list (who * bytes)) (down : list writePacket)
    : World -> Proc -> list (who * bytes) -> list writePacket -> Prop :=
  | rs_write c x :
      writer_of c p = CWrites x ->
      routine_step w p up down w (set_writer c CIdle p) (up ++ [(c, cw_data x)]) down
  | rs_write_fail c x ch l err w' :
      writer_of c p = CWrites x -> cw_respCh x = Some ch -> at_client c (write_error err) w = Ok (l, w') ->
      routine_step w p up down w' (set_writer c (CErring ch l) p) up down
  | rs_write_fail_nil c x :
      writer_of c p = CWrites x -> cw_respCh x = None ->
      routine_step w p up down w (set_writer c CIdle p) up down
  | rs_read d1 d d2 c :
      (* recv: go c.processIncoming(data) *)
      down = d1 ++ d :: d2 -> client_at (w_addr d) = Some c ->
      routine_step w p up down w (set_arrived (arrived p ++ [(c, w_data d)]) p) up (d1 ++ d2)
  | rs_process a1 c data a2 dl w' :
      arrived p = a1 ++ (c, data) :: a2 ->
      at_client c (processIncoming_send (r_pipes (rest c w)) svrAddr data) w = Ok (Some dl, w') ->
      routine_step w p up down w'
        (set_deliveries (deliveries p ++ [(c, dl)]) (set_arrived (a1 ++ a2) p)) up down
  | rs_ignore a1 c data a2 w' :
      arrived p = a1 ++ (c, data) :: a2 ->
      at_client c (processIncoming_send (r_pipes (rest c w)) svrAddr data) w = Ok (None, w') ->
      routine_step w p up down w' (set_arrived (a1 ++ a2) p) up down
  | rs_delete d1 c ref d2 w' :
      deletions p = d1 ++ (c, ref) :: d2 -> at_client c (processIncoming_end ref) w = Ok (tt, w') ->
      routine_step w p up down w' (set_deletions (d1 ++ d2) p) up down.

Definition set_svr (ws : WS) (w : World) : World := mk_World (w_pc w) (w_A w) (w_B w) ws.

Inductive x_step (ps : Processor WS) : Run -> Run -> Prop :=
  | xs_goroutine w p up ts n down g1 t g2 w' p' t' :
      exited (goroutines p) = false -> goroutines p = g1 ++ t :: g2 -> go_step w p t w' p' t' ->
      x_step ps (mk_Run w p up ts n down) (mk_Run w' (set_goroutines (g1 ++ t' :: g2) p') up ts n down)
  | xs_spawn w p up ts n down g1 t k g2 :
      exited (goroutines p) = false -> goroutines p = g1 ++ GGo t k :: g2 ->
      x_step ps (mk_Run w p up ts n down) (mk_Run w (set_goroutines (g1 ++ k :: g2 ++ [t]) p) up ts n down)
  | xs_routine w p up ts n down w' p' up' down' :
      exited (goroutines p) = false -> routine_step w p up down w' p' up' down' ->
      x_step ps (mk_Run w p up ts n down) (mk_Run w' p' up' ts n down')
  | xs_arrives w p u1 c data u2 ts n down :
      (* a reader of the server gets a datagram: go svr.processIncoming *)
      (0 < n)%nat ->
      x_step ps (mk_Run w p (u1 ++ (c, data) :: u2) ts n down)
        (mk_Run w p (u1 ++ u2) (ts ++ [incoming_prog ps data (addr_of c)]) n down)
  | xs_server w p up ts n down ws' ts' n' down' :
      (* the server goes on; what it writes is on its way *)
      th_step ps (fun _ => False) (mk_Threads (w_svr w) ts n down) (mk_Threads ws' ts' n' down') ->
      x_step ps (mk_Run w p up ts n down) (mk_Run (set_svr ws' w) p up ts' n' down')
  | xs_lost_up w p u1 d u2 ts n down :
      x_step ps (mk_Run w p (u1 ++ d :: u2) ts n down) (mk_Run w p (u1 ++ u2) ts n down)
  | xs_lost_down w p up ts n d1 d d2 :
      x_step ps (mk_Run w p up ts n (d1 ++ d :: d2)) (mk_Run w p up ts n (d1 ++ d2)).

(** The start of the program: its process has no other goroutine, the five
    readers of the server wait. *)
Definition x_start (t : goprog) (w : World) : Run :=
  mk_Run w (mk_Proc [t] CIdle CIdle [] [] [] []) [] [] 5 [].
End main.
Arguments GAct {B} _ _.

#[local] Arguments rest : simpl never.

Section proofs.
Context `{A : AEAD} `{!AEADLaws A} `{C : Curve} `{!CurveLaws C} `{R : Resolver}.
Abbreviation WC := (CliState Crypto).
Abbreviation WS := (SvrState Crypto).
Variable ps : Processor WS.

(** ** Operations in sequence *)

Lemma bind_inv {S X Y} (m : M S X) (k : X -> M S Y) s y s' :
  (let* x := m in k x) s = Ok (y, s') -> exists x s1, m s = Ok (x, s1) /\ k x s1 = Ok (y, s').
Proof. unfold bind. destruct (m s) as [[x s1]|]; [eauto | done]. Qed.

Lemma at_client_bind {X Y} c (m : M WC X) (k : X -> M WC Y) w :
  at_client c (let* x := m in k x) w = (let* x := at_client c m in at_client c (k x)) w.
Proof.
  unfold at_client, bind. destruct (m _) as [[x [h e r q ws d]]|]; [|done].
  by destruct c, w as [pc [] [] sv]; unfold rest; simpl; destruct (k x _) as [[y [h' e' r' q' ws' d']]|].
Qed.

Lemma at_client_inv {X Y} c (m : M WC X) (k : X -> M WC Y) w y w' :
  at_client c (let* x := m in k x) w = Ok (y, w') ->
  exists x w1, at_client c m w = Ok (x, w1) /\ at_client c (k x) w1 = Ok (y, w').
Proof. rewrite at_client_bind. apply bind_inv. Qed.

Lemma at_client_ret {X} c (x y : X) w w' : at_client c (ret x) w = Ok (y, w') -> x = y /\ w' = w.
Proof. unfold at_client. intros [= <- <-]. split; [done|]. by destruct c, w as [pc [] [] sv]. Qed.

Lemma at_client_pipes {X} c (m : M WC X) w x w' k :
  at_client c m w = Ok (x, w') -> r_pipes (rest k w') = r_pipes (rest k w).
Proof. unfold at_client. destruct (m _) as [[y v]|]; [|done]. intros [= <- <-]. by destruct c, k. Qed.

(** ** Steps of a goroutine *)

(** A goroutine can go on, and the others have not ended the process. *)
Definition runnable (t : goprog) : Prop := match t with GReturn | GFatal _ => False | _ => True end.

Definition calm (g1 g2 : list goprog) : Prop := forall t, runnable t -> exited (g1 ++ t :: g2) = false.

Lemma go_run w p up ts n down g1 t g2 w' p' t' r :
  calm g1 g2 -> runnable t -> goroutines p = g1 ++ t :: g2 -> go_step w p t w' p' t' ->
  rtc (x_step ps) (mk_Run w' (set_goroutines (g1 ++ t' :: g2) p') up ts n down) r ->
  rtc (x_step ps) (mk_Run w p up ts n down) r.
Proof.
  intros Hc Ht Hg Hs Hr. eapply rtc_l; [|exact Hr]. eapply xs_goroutine; [|exact Hg | exact Hs].
  rewrite Hg. by apply Hc.
Qed.

(** Nothing is going on but in the goroutines; or client [c] writes [x] too. *)
Definition at_rest (w : World) (g : list goprog) (log : list entry) : Run :=
  mk_Run w (mk_Proc g CIdle CIdle [] [] [] log) [] [] 5 [].

Definition sending (c : who) (x : cwritePacket) (w : World) (g : list goprog) (log : list entry) : Run :=
  mk_Run w (set_writer c (CWrites x) (mk_Proc g CIdle CIdle [] [] [] log)) [] [] 5 [].

Lemma act_run {B} (m : M World B) k b w w' g1 g2 log r :
  calm g1 g2 -> m w = Ok (b, w') -> rtc (x_step ps) (at_rest w' (g1 ++ k b :: g2) log) r ->
  rtc (x_step ps) (at_rest w (g1 ++ GAct m k :: g2) log) r.
Proof.
  intros Hc Hm Hr. by eapply go_run; [exact Hc | | done | by apply gs_act | exact Hr].
Qed.

Lemma log_run e k w g1 g2 log r :
  calm g1 g2 -> rtc (x_step ps) (at_rest w (g1 ++ k :: g2) (log ++ [e])) r ->
  rtc (x_step ps) (at_rest w (g1 ++ GLog e k :: g2) log) r.
Proof.
  intros Hc Hr. by eapply go_run; [exact Hc | | done | by apply gs_log | exact Hr].
Qed.

(** The element that [Send_write] hands over. *)
Lemma Send_write_last p pkt ch (v : WC) ref v' :
  Send_write p pkt ch v = Ok (inr ref, v') ->
  exists q data, cl_writeStream v' = q ++ [mk_cwritePacket data ch ref].
Proof.
  unfold Send_write. intros (ref0 & v1 & _ & H)%bind_inv. apply bind_inv in H as (ref1 & v2 & _ & H).
  apply bind_inv in H as ([bin|] & v3 & _ & H); [|done]. apply bind_inv in H as ([[tctx b] [e|]] & v4 & _ & H);
    [done|]. destruct (_ =? _); [done|]. apply bind_inv in H as ([] & v5 & [= <-] & [= <- <-]). simpl. eauto.
Qed.

(** [Send] with a writer that receives the data at once, and a registration
    before anything else happens. *)
Lemma send_run c pkt ch k w w1 x g1 g2 log :
  calm g1 g2 -> at_client c (Send (r_pipes (rest c w)) pkt ch) w = Ok (None, w1) ->
  r_writeStream (rest c w1) = [x] ->
  rtc (x_step ps) (at_rest w (g1 ++ send_prog c pkt ch k :: g2) log)
    (sending c x (set_written c [] w1) (g1 ++ k None :: g2) log).
Proof.
  intros Hc (r & w0 & Hw & Hreg)%at_client_inv Hx.
  destruct r as [e|ref]; [by apply at_client_ret in Hreg as [? _]|].
  apply at_client_inv in Hreg as ([] & w2 & Hreg & [_ ->]%at_client_ret).
  assert (Hx0 : r_writeStream (rest c w0) = [x]).
  { unfold at_client, Send_register, set_requests, modify in Hreg. injection Hreg as <-. by destruct c. }
  assert (Href : cw_ref x = ref).
  { revert Hw. unfold at_client. destruct (Send_write _ _ _ _) as [[y v]|] eqn:E; [|done].
    intros [= -> <-]. apply Send_write_last in E as (q & data & E).
    assert (E' : q ++ [mk_cwritePacket data ch ref] = [x]) by (rewrite <- E, <- Hx0; by destruct c).
    destruct q as [|? [|? ?]]; simplify_eq/=; done. }
  unfold send_prog. eapply act_run; [done | done |]. cbn beta. eapply act_run; [done | exact Hw |]. cbn iota beta.
  rewrite <- Href in Hreg |- *.
  eapply go_run; [exact Hc | | reflexivity | apply (gs_hand _ _ c [] x []); [by destruct c | exact Hx0] |]; [exact I|].
  eapply (go_run _ _ _ _ _ _ g1 _ g2 (set_written c [] w2));
    [exact Hc | | reflexivity | apply (gs_act _ _ unit _ _ tt) |]; [exact I | |].
  { injection Hreg as <-. by destruct c, w0 as [? [] [] ?]. }
  by destruct c.
Qed.

(** ** A datagram and its answer *)

(** The server's steps are steps of the whole. *)
Lemma server_run w p up (s s' : Threads Crypto) :
  rtc (th_step ps (fun _ => False)) s s' ->
  rtc (x_step ps) (mk_Run (set_svr (state s) w) p up (threads s) (th_readers s) (th_wire s))
    (mk_Run (set_svr (state s') w) p up (threads s') (th_readers s') (th_wire s')).
Proof.
  induction 1 as [s|[ws ts n out] [ws1 ts1 n1 out1] s2 Hs _ IH]; [done|]. eapply rtc_l; [|exact IH].
  exact (xs_server ps (set_svr ws w) p up ts n out ws1 ts1 n1 out1 Hs).
Qed.

(** The handlers on one datagram, as threads. *)
Lemma serve_run data sender ws d ws' :
  serve_one ps data sender ws = Ok (Some d, ws') ->
  rtc (th_step ps (fun _ => False)) (mk_Threads ws [incoming_prog ps data sender] 5 []) (mk_Threads ws' [] 5 [d]).
Proof.
  intros ([] & ws1 & H1 & H)%bind_inv. apply bind_inv in H as ([l|] & ws2 & H2 & H); [|done].
  apply bind_inv in H as ([] & ws3 & H3 & H4). unfold next_sent in H2. unfold next_datagram in H4.
  destruct (sendStream ws1) as [|l' q] eqn:Eq; [done|]. injection H2 as -> <-.
  destruct (writeStream ws3) as [|d' q'] eqn:Ew; [done|]. injection H4 as -> <-.
  etransitivity; [apply (run_steps ps _ _ _ ws1 []); by rewrite run_incoming|].
  eapply rtc_l; [by apply (th_recv ps _ _ [] 5 [] [] l q)|].
  etransitivity; [apply (run_steps ps _ _ _ ws3 []); by rewrite run_outgoing|].
  apply rtc_once. by apply (th_write ps _ _ [] 5 [] [] d q').
Qed.

(** What a client sends goes to the server, the answer to a client, and there to
    the goroutine that waits for it. *)
Lemma exchange_steps c c' dl w w' x k g1 g2 log :
  calm g1 g2 -> (forall l, runnable (k l)) -> r_writeStream (rest c w) = [x] -> exchange ps c w = Ok (Some (c', dl), w') ->
  rtc (x_step ps) (sending c x (set_written c [] w) (g1 ++ GRecv (delivers_to c' dl) k :: g2) log)
    (at_rest w' (g1 ++ k (delivery_pkt dl) :: g2) log).
Proof.
  intros Hc Hk Hx (ox & w1 & H1 & H)%bind_inv. unfold at_client, next_written in H1. simpl in H1. rewrite Hx in H1.
  injection H1 as <- <-. replace (set_pc _ _) with (set_written c [] w) in H by (by destruct c, w as [? [] [] ?]).
  set (g := g1 ++ GRecv (delivers_to c' dl) k :: g2). assert (Hg : exited g = false) by (by apply Hc).
  set (p := mk_Proc g CIdle CIdle [] [] [] log). set (w1 := set_written c [] w) in *.
  apply bind_inv in H as ([d|] & w2 & H2 & H); [|done]. unfold at_server in H2.
  destruct (serve_one _ _ _ _) as [[od ws']|] eqn:Hs; [|done]. injection H2 as -> <-. fold (set_svr ws' w1) in H.
  destruct (client_at (w_addr d)) as [c''|] eqn:Ea; [|done]. apply bind_inv in H as (pp & w2 & [= <- <-] & H).
  apply bind_inv in H as ([dl'|] & w3 & H3 & H); [|done]. apply bind_inv in H as ([] & w4 & H4 & [= -> -> ->]).
  eapply rtc_l; [eapply xs_routine; [by destruct c | apply (rs_write _ _ _ _ c x); by destruct c]|].
  replace (set_writer _ _ _) with p by (by destruct c). rewrite app_nil_l.
  eapply rtc_l; [apply (xs_arrives ps w1 p [] c (cw_data x) [] [] 5 []); lia|]. rewrite !app_nil_l.
  etransitivity; [replace w1 with (set_svr (w_svr w1) w1) at 1 by (by destruct w1);
    exact (server_run w1 p [] _ _ (serve_run _ _ _ _ _ Hs))|]. simpl.
  eapply rtc_l; [by eapply xs_routine; [exact Hg | apply (rs_read _ _ _ _ [] d [] c')]|]. simpl.
  eapply rtc_l; [by eapply xs_routine; [exact Hg | apply (rs_process _ _ _ _ [] c' (w_data d) []); [|exact H3]]|]. simpl.
  eapply (go_run _ _ _ _ _ _ g1 _ g2); [exact Hc | | reflexivity | by apply (gs_recv _ _ [] c' dl [] k) |]; [exact I|].
  eapply rtc_l; [eapply xs_routine; [apply Hc, Hk | by apply (rs_delete _ _ _ _ [] c' (delivery_ref dl) [])]|].
  apply rtc_refl.
Qed.

(** ** The listener and the message *)

(** What client A does with the answer. *)
Definition answered (resp : nat) : goprog :=
  GAct (at_client ClientA (DecryptE2E clientB_Addr resp)) (fun _ =>
    GAct (at_client ClientA (cpk (PktData resp))) (fun data => GLog (LogResponse data) GReturn)).

(** Client A sends its message and waits. *)
Lemma message_sent p w w1 x :
  r_pipes (rest ClientA w) = p -> at_client ClientA (send_A p 4) w = Ok (None, w1) ->
  r_writeStream (rest ClientA w1) = [x] ->
  rtc (x_step ps) (at_rest w [GGo listener message] [])
    (sending ClientA x (set_written ClientA [] w1) [GRecv (RespCh 4) answered; listener] [LogSent]).
Proof.
  intros <- (pkt & wa & Hmk & H)%at_client_inv Hx. apply at_client_inv in H as (e & wb & Henc & Hsend).
  assert (Hc : calm [] [listener]) by (by intros []).
  eapply rtc_l; [by apply (xs_spawn ps w (mk_Proc [GGo listener message] CIdle CIdle [] [] [] []) [] [] 5 []
    [] listener message [])|].
  apply (act_run _ _ _ _ _ [] [listener] [] _ Hc Hmk). cbn beta.
  apply (act_run _ _ _ _ _ [] [listener] [] _ Hc Henc). cbn beta. etransitivity.
  { refine (send_run ClientA pkt (Some 4%nat) (fun _ => GLog LogSent (GRecv (RespCh 4) answered)) wb w1 x
      [] [listener] [] Hc _ Hx).
    by rewrite (at_client_pipes _ _ _ _ _ ClientA Henc), (at_client_pipes _ _ _ _ _ ClientA Hmk). }
  eapply (go_run _ _ _ _ _ _ [] _ [listener]); [exact Hc | | reflexivity | apply gs_log | apply rtc_refl]. exact I.
Qed.

(** The listener receives it, logs it and answers. *)
Lemma message_answered p w w1 w2 x x' pkt ref data K :
  r_writeStream (rest ClientA w) = [x] -> exchange ps ClientA w = Ok (Some (ClientB, ToMisc pkt ref), w1) ->
  r_pipes (rest ClientB w1) = p -> at_client ClientB (listened p pkt) w1 = Ok (Some (data, None), w2) ->
  r_writeStream (rest ClientB w2) = [x'] ->
  rtc (x_step ps) (sending ClientA x (set_written ClientA [] w) [GRecv (RespCh 4) K; listener] [LogSent])
    (sending ClientB x' (set_written ClientB [] w2) [GRecv (RespCh 4) K; GReturn] [LogSent; LogRelayed data]).
Proof.
  intros Hx Hex <- (sender & wa & Hfrom & H)%at_client_inv Hx'.
  apply at_client_inv in H as ([e|] & wb & Hdec & H); [by apply at_client_ret in H as [? _]|].
  apply at_client_inv in H as (d & wc & Hdata & H). apply at_client_inv in H as (respPkt & wd & Hmk & H).
  apply at_client_inv in H as (r & we & Hget & H). apply at_client_inv in H as ([] & wf & Hadd & H).
  apply at_client_inv in H as (o & wg & Henc & H). apply at_client_inv in H as (o' & wh & Hsend & [E ->]%at_client_ret).
  injection E as -> ->. assert (Hc : calm [GRecv (RespCh 4) K] []) by (by intros []).
  etransitivity; [by refine (exchange_steps ClientA ClientB (ToMisc pkt ref) w w1 x _ [_] [] _ Hc _ Hx Hex)|].
  apply (act_run _ _ _ _ _ [_] [] _ _ Hc Hfrom). apply (act_run _ _ _ _ _ [_] [] _ _ Hc Hdec).
  apply (act_run _ _ _ _ _ [_] [] _ _ Hc Hdata). apply (log_run _ _ _ [_] [] _ _ Hc).
  apply (act_run _ _ _ _ _ [_] [] _ _ Hc Hmk). apply (act_run _ _ _ _ _ [_] [] _ _ Hc Hget).
  apply (act_run _ _ _ _ _ [_] [] _ _ Hc Hadd). apply (act_run _ _ _ _ _ [_] [] _ _ Hc Henc).
  refine (send_run ClientB respPkt None (fun _ => GReturn) wg wh x' [_] [] _ Hc _ Hx').
  by rewrite (at_client_pipes _ _ _ _ _ ClientB Henc), (at_client_pipes _ _ _ _ _ ClientB Hadd),
    (at_client_pipes _ _ _ _ _ ClientB Hget), (at_client_pipes _ _ _ _ _ ClientB Hmk),
    (at_client_pipes _ _ _ _ _ ClientB Hdata), (at_client_pipes _ _ _ _ _ ClientB Hdec),
    (at_client_pipes _ _ _ _ _ ClientB Hfrom).
Qed.

(** Client A receives the answer and logs it. *)
Lemma answer_received w w1 w2 x resp ref data log :
  r_writeStream (rest ClientB w) = [x] -> exchange ps ClientB w = Ok (Some (ClientA, ToRequest 4 resp ref), w1) ->
  at_client ClientA (receive_A resp) w1 = Ok (data, w2) ->
  rtc (x_step ps) (sending ClientB x (set_written ClientB [] w) [GRecv (RespCh 4) answered; GReturn] log)
    (at_rest w2 [GReturn; GReturn] (log ++ [LogResponse data])).
Proof.
  intros Hx Hex (e & wa & Hdec & Hdata)%at_client_inv. assert (Hc : calm [] [GReturn]) by (by intros []).
  etransitivity; [by refine (exchange_steps ClientB ClientA (ToRequest 4 resp ref) w w1 x answered [] [_] log Hc _ Hx Hex)|].
  apply (act_run _ _ _ _ _ [] [_] _ _ Hc Hdec). apply (act_run _ _ _ _ _ [] [_] _ _ Hc Hdata).
  by apply (log_run _ _ _ [] [_] _ _ Hc).
Qed.

(** ** Secure clients *)

Hypothesis ps_secured : secured ps.
Hypothesis ps_kex_server :
  callbackQueues (PacketProcessor ps) !! TargetKeyExchangeServer = Some [keyExchangeServer].
Hypothesis ps_kex_client :
  callbackQueues (PacketProcessor ps) !! TargetKeyExchangeClient = Some [keyExchangeClient].
Hypothesis ps_relay : callbackQueues (PacketProcessor ps) !! TargetRelay = Some [relayCallback].
Hypothesis resolved : forall c, ResolveUDPAddr (addr_of c) = Some (addr_of c).

Lemma calm_alone : calm [] [].
Proof. by intros []. Qed.

(** [createSecureClient] up to the response. *)
Lemma createSecureClient_asks c k rs ch K w w1 x :
  (new_client c ;;; at_client c (createSecureClient_request (inr k) rs ch)) w = Ok (inr None, w1) ->
  r_writeStream (rest c w1) = [x] ->
  exists K', (forall l, runnable (K' l)) /\
    rtc (x_step ps) (at_rest w [createSecureClient c None (inr k) rs ch K] [])
      (sending c x (set_written c [] w1) [GRecv (RespCh ch) K'] []) /\
    forall l w2 w3 log, at_client c (ProcessKeyExResp svrAddr l) w2 = Ok (true, w3) ->
      r_pipes (rest c w3) = NewUDPClient ->
      rtc (x_step ps) (at_rest w2 [K' l] log)
        (at_rest (exec (set_pipes c (Extend "client" NewUDPClient).1) w3) [K] log).
Proof.
  intros ([] & w0 & Hnew & H)%bind_inv Hx. apply at_client_inv in H as (pkt & wa & Hpkt & H).
  unfold ConfigureClient_request, NewCrypto in H. apply at_client_inv in H as ([] & wb & Hcr & H).
  apply at_client_inv in H as (o & wc & H & [Ho ->]%at_client_ret). injection Ho as ->.
  apply at_client_inv in H as ([] & wd & Hconf & Hsend).
  eexists. split; cycle 1.
  split.
  - unfold createSecureClient.
    apply (act_run _ _ _ _ _ [] [] [] _ calm_alone Hnew). cbn beta. apply (act_run _ _ _ _ _ [] [] [] _ calm_alone Hpkt).
    unfold NewCrypto. cbn beta iota. apply (act_run _ _ _ _ _ [] [] [] _ calm_alone Hcr). cbn beta.
    apply (act_run _ _ _ _ _ [] [] [] _ calm_alone Hconf). cbn beta.
    refine (send_run c pkt (Some ch) (fun _ => GRecv (RespCh ch) _) wd wc x [] [] [] calm_alone _ Hx).
    rewrite (at_client_pipes _ _ _ _ _ c Hconf), (at_client_pipes _ _ _ _ _ c Hcr), (at_client_pipes _ _ _ _ _ c Hpkt).
    injection Hnew as <-. rewrite rest_set, decide_True by done. exact Hsend.
  - intros l w2 w3 log Hresp Hp. cbn beta. apply (act_run _ _ _ _ _ [] [] log _ calm_alone Hresp). cbn beta iota.
    eapply (act_run _ _ _ _ _ [] [] log _ calm_alone); [done|]. rewrite Hp. cbn beta.
    eapply (act_run _ _ tt _ _ [] [] log _ calm_alone); [done|]. apply rtc_refl.
  - by intros l.
Qed.

Lemma createSecureClient_run c k kS rs ch K w es :
  pc_good w -> svr_idle (w_svr w) es -> (forall o, o <> c -> r_writeStream (rest o w) = []) ->
  publicKey es = publicKey (crypto_of kS []) -> keys es !! addr_of c = None ->
  exists w', rtc (x_step ps) (at_rest w [createSecureClient c None (inr k) rs ch K] []) (at_rest w' [K] []) /\
    pc_good w' /\ svr_idle (w_svr w') (store_key (addr_of c) (exchanged false es (PX k) (PY k)) es) /\
    ready (rest c w') (Extend "client" NewUDPClient).1 (secured_keys kS k rs) ∅ /\
    forall o, o <> c -> ready (rest o w') (r_pipes (rest o w)) (r_ext (rest o w)) (r_requests (rest o w)).
Proof.
  intros Hg Hs Hidle Hpub Hk.
  destruct (new_client_request c k rs ch w Hg)
    as (w1 & m & ref & Hnew & Hg1 & Es1 & Ho1 & P1 & X1 & Q1 & W1 & Hm & Htgt & Href).
  destruct (createSecureClient_asks c k rs ch K w w1 _ Hnew W1) as (K' & HK & Hask & Hrest).
  destruct (server_kex_exchange ps ps_secured ps_kex_server resolved c w1 m k ref ch es)
    as (pkt & w2 & rm & Hex & Hg2 & A2 & Hs2 & [P2 X2 Q2 W2] & Ho2);
    try done; [by rewrite Es1 | intros o Ho; rewrite Ho1 by done; by apply Hidle |].
  pose proof (ProcessKeyExResp_spec (W := WC) (view (w_pc w2) (rest c w2)) svrAddr pkt _ (PX kS) (PY kS)
    (proj1 Hg2) A2) as Hresp. simpl in Hresp. rewrite Hpub, X2, X1 in Hresp. specialize (Hresp (decode_render_pk _)).
  edestruct (client_op c (ProcessKeyExResp svrAddr pkt) w2) as (w3 & Hop & Hg3 & _ & Es3 & Hc3 & Ho3);
    [exact Hresp | exact Hg2 |].
  eexists. split.
  { etransitivity; [exact Hask|]. etransitivity.
    { exact (exchange_steps c c (ToRequest ch pkt ref) w1 w2 _ K' [] [] [] calm_alone HK W1 Hex). }
    apply (Hrest pkt w2 w3 [] Hop). by rewrite Hc3. }
  unfold exec, set_pipes, modify. cbv beta iota zeta.
  split; [unfold pc_good in *; by destruct c|]. split; [by rewrite svr_set, Es3|]. split.
  - rewrite rest_set, decide_True by done. by rewrite Hc3.
  - intros o Ho. specialize (Ho2 o Ho). rewrite rest_set, decide_False, Ho3 by done. by rewrite Ho1 in Ho2.
Qed.

(** ** The exchanges between the clients *)

(** [ClientKEx] of either extension through client A. *)
Lemma clientKEx_run cr w addr ch msg K es ea eb pa pb qb n ksb x y :
  pc_good w -> svr_idle (w_svr w) es -> ready (rest ClientA w) pa ea ∅ -> secured pa ->
  ready (rest ClientB w) pb eb qb ->
  talks ea es clientA_Addr n -> plain_addr addr -> keys es !! addr = Some ksb ->
  public ksb = mk_PublicKey (Some x) (Some y) ->
  (forall ks ref, keys ea !! svrAddr = Some ks -> fresh_ref ref ->
    clear_text (BigBytes (shared ks)) (datagram (kexc_meta ref) (render_pk (public ksb)))) ->
  exists w', rtc (x_step ps) (at_rest w [clientKEx cr addr ch msg K] []) (at_rest w' [K] []) /\
    pc_good w' /\ svr_idle (w_svr w') es /\
    ready (rest ClientA w') pa
      (match cr with ClientA => learn addr x y (spend ea) | ClientB => spend ea end) ∅ /\
    ready (rest ClientB w') pb (match cr with ClientA => eb | ClientB => learn addr x y eb end) qb.
Proof.
  intros Hg Hs HA Hsec [Pb Xb Qb Wb] Htk Hpl Hkb Hpub Hclear.
  destruct (kexc_exchange ps ps_secured ps_kex_client resolved w addr ch es ea pa n ksb)
    as (w1 & pkt & ref & w2 & q & Hop & Hw1 & Hex & Hg2 & Hs2 & A2 & HA2 & HB2); try done. rewrite Pb, Xb, Qb in HB2.
  apply at_client_inv in Hop as (l & wa & Hnew & Hop). apply at_client_inv in Hop as ([] & wb & Hconf & Hsend).
  pose proof (ProcessKeyExResp_spec (W := WC) (view (w_pc w2) (rest cr w2)) addr pkt _ x y
    (proj1 Hg2) A2 (eq_trans (decode_render_pk _) (f_equal Some Hpub))) as Hresp.
  edestruct (client_op cr (ClientKEx_response addr pkt) w2) as (w3 & Hop3 & Hg3 & _ & Es3 & Hc3 & Ho3);
    [exact Hresp | exact Hg2 |].
  exists w3. split_and!.
  - unfold clientKEx. apply (act_run _ _ _ _ _ [] [] [] _ calm_alone Hnew). cbn beta.
    apply (act_run _ _ _ _ _ [] [] [] _ calm_alone Hconf). cbn beta. etransitivity.
    { refine (send_run ClientA l (Some ch) (fun _ => GRecv (RespCh ch) _) wb w1 q [] [] [] calm_alone _ Hw1).
      rewrite (at_client_pipes _ _ _ _ _ ClientA Hconf), (at_client_pipes _ _ _ _ _ ClientA Hnew).
      by rewrite (rd_pipes _ _ _ _ HA). }
    etransitivity; [by refine (exchange_steps ClientA ClientA (ToRequest ch pkt ref) w1 w2 q _ [] [] [] calm_alone _ Hw1 Hex)|].
    by apply (act_run _ _ _ _ _ [] [] [] _ calm_alone Hop3).
  - done.
  - by rewrite Es3.
  - destruct HA2 as [P2 X2 Q2 W2]. destruct cr; [|by rewrite Ho3].
    rewrite Hc3. split; simpl; try done. unfold learn. by rewrite X2.
  - destruct HB2 as [P2 X2 Q2 W2]. destruct cr; [by rewrite Ho3|].
    rewrite Hc3. split; simpl; try done. unfold learn. by rewrite X2.
Qed.
Section run.
Variables (kA kB kS : PrivateKey) (a1 a2 a3 a4 b1 b2 : bytes) (rA rB : Rand) (es : Crypto).

(** The secret of two keys. *)
Definition secret (x y : PrivateKey) : bytes := BigBytes (ScalarMult (PX x) (PY x) (BigBytes (D y))).1.

Definition is_pair (k : PrivateKey) : Prop := keypair (D k) (PX k) (PY k).

(** The packets the server sends in clear although its client has the secret:
    the public key of [k] for client A, which has asked for it, and a relayed
    packet. *)
Definition kex_answer (k : PrivateKey) (ref : string) : bytes :=
  datagram (kexc_meta ref) (render_pk (mk_PublicKey (Some (PX k)) (Some (PY k)))).

Definition relay_text (from ref : string) (n msg : bytes) : bytes :=
  datagram (relayed_meta from ref) (n ++ Seal (secret kB kA) n msg).

(** Three key pairs whose products have the length of an AES key, a server
    without keys of the clients, sources of nonces, and four packets in clear that
    the receiver does not by accident take for sealed ones, whatever reference
    the client has generated. *)
Record setting : Prop := {
  st_A : is_pair kA; st_B : is_pair kB; st_S : is_pair kS;
  st_AS : key_ok (secret kS kA) = true; st_BS : key_ok (secret kS kB) = true;
  st_AB : key_ok (secret kB kA) = true;
  st_priv : privKey es = kS; st_pub : publicKey es = publicKey (crypto_of kS []);
  st_newA : keys es !! clientA_Addr = None; st_newB : keys es !! clientB_Addr = None;
  st_a1 : length a1 = nonceSize; st_a2 : length a2 = nonceSize; st_a3 : length a3 = nonceSize;
  st_a4 : length a4 = nonceSize; st_b1 : length b1 = nonceSize; st_b2 : length b2 = nonceSize;
  st_kexB : forall ref, fresh_ref ref -> clear_text (secret kS kA) (kex_answer kB ref);
  st_kexA : forall ref, fresh_ref ref -> clear_text (secret kS kA) (kex_answer kA ref);
  st_relayA : forall ref, fresh_ref ref -> clear_text (secret kS kB) (relay_text clientA_Addr ref a3 msg_A);
  st_relayB : forall ref, fresh_ref ref -> clear_text (secret kS kA) (relay_text clientB_Addr ref b1 msg_B);
}.
Hypothesis Hst : setting.

Let rsA : Rand := inr a1 :: inr a2 :: inr a3 :: inr a4 :: rA.
Let rsB : Rand := inr b1 :: inr b2 :: rB.
Let es1 := store_key clientA_Addr (exchanged false es (PX kA) (PY kA)) es.
Let es2 := store_key clientB_Addr (exchanged false es1 (PX kB) (PY kB)) es1.
Let eA0 := secured_keys kS kA rsA.
Let eA1 := learn clientB_Addr (PX kB) (PY kB) (spend eA0).
Let eB0 := secured_keys kS kB rsB.
Let eB1 := learn clientA_Addr (PX kA) (PY kA) eB0.

Lemma secret_sym x y : is_pair x -> is_pair y ->
  (ScalarMult (PX x) (PY x) (BigBytes (D y))).1 = (ScalarMult (PX y) (PY y) (BigBytes (D x))).1.
Proof. intros Hx Hy. by apply ecdh. Qed.

(** A client with these keys for the server talks to it. *)
Lemma talks_A c n r : length n = nonceSize -> keys c !! svrAddr = keys eA0 !! svrAddr ->
  rnd c = inr n :: r -> talks c es2 clientA_Addr n.
Proof.
  intros Hn Hk Hr. split; [|by exists r | done].
  eexists _, _. split; [rewrite Hk; apply lookup_insert_eq|]. split; [done|].
  split; [unfold es2; simpl; rewrite lookup_insert_ne by done; apply lookup_insert_eq|].
  split; [|apply (st_AS Hst)]. simpl. rewrite (st_priv Hst). apply secret_sym; apply Hst.
Qed.

Lemma key_A c ks : keys c !! svrAddr = keys eA0 !! svrAddr -> keys c !! svrAddr = Some ks ->
  BigBytes (shared ks) = secret kS kA.
Proof.
  intros -> Hks. unfold eA0, secured_keys in Hks. simpl in Hks. rewrite lookup_insert_eq in Hks.
  by injection Hks as <-.
Qed.

Lemma talks_B c n r : length n = nonceSize -> keys c !! svrAddr = keys eB0 !! svrAddr ->
  rnd c = inr n :: r -> talks c es2 clientB_Addr n.
Proof.
  intros Hn Hk Hr. split; [|by exists r | done].
  eexists _, _. split; [rewrite Hk; apply lookup_insert_eq|]. split; [done|].
  split; [apply lookup_insert_eq|]. split; [|apply (st_BS Hst)]. simpl. rewrite (st_priv Hst).
  apply secret_sym; apply Hst.
Qed.

(** The secret of the clients. *)
Lemma keys_AB : exists ks, keys (spend eA1) !! clientB_Addr = Some ks /\
  BigBytes (shared ks) = secret kB kA.
Proof. eexists. split; [apply lookup_insert_eq | done]. Qed.

Lemma keys_BA : exists ks, keys eB1 !! clientA_Addr = Some ks /\ BigBytes (shared ks) = secret kB kA.
Proof.
  eexists. split; [apply lookup_insert_eq|]. simpl. unfold secret. f_equal. apply secret_sym; apply Hst.
Qed.

Lemma plain_A : plain_addr clientA_Addr.
Proof. by split; vm_compute. Qed.
Lemma plain_B : plain_addr clientB_Addr.
Proof. by split; vm_compute. Qed.

(** The exchanges: both clients are secured and hold each other's secret. *)
Lemma setup_run w K :
  pc_good w -> svr_idle (w_svr w) es -> r_writeStream (rest ClientB w) = [] ->
  exists w',
    rtc (x_step ps) (at_rest w [createSecureClient ClientA None (inr kA) rsA 0
      (createSecureClient ClientB None (inr kB) rsB 1
        (clientKEx ClientA clientB_Addr 2 "clientA kex fail: "
          (clientKEx ClientB clientA_Addr 3 "clientB kex fail: " K)))] []) (at_rest w' [K] []) /\
    pc_good w' /\ svr_idle (w_svr w') es2 /\
    ready (rest ClientA w') (Extend "client" NewUDPClient).1 (spend eA1) ∅ /\
    ready (rest ClientB w') (Extend "client" NewUDPClient).1 eB1 ∅.
Proof.
  intros Hg Hs HB. set (K3 := clientKEx ClientB _ 3 _ K). set (K2 := clientKEx ClientA _ 2 _ K3).
  set (K1 := createSecureClient ClientB _ _ _ _ K2).
  destruct (createSecureClient_run ClientA kA kS rsA 0 K1 w es Hg Hs) as (w1 & H1 & Hg1 & Hs1 & HA1 & HO1);
    [by intros []; done | apply Hst | apply Hst |].
  destruct (createSecureClient_run ClientB kB kS rsB 1 K2 w1 es1 Hg1 Hs1) as (w2 & H2 & Hg2 & Hs2 & HB2 & HO2).
  { intros [] Ho; [apply (rd_written _ _ _ _ HA1) | done]. }
  { apply Hst. }
  { unfold es1. simpl. rewrite lookup_insert_ne by done. apply Hst. }
  pose proof (HO2 ClientA ltac:(done)) as HA2. destruct HA1 as [PA XA QA _]. rewrite PA, XA, QA in HA2.
  destruct (clientKEx_run ClientA w2 clientB_Addr 2 "clientA kex fail: " K3 es2 eA0 eB0 _ _ ∅ a1 _ (PX kB) (PY kB) Hg2 Hs2 HA2
    secured_client HB2 (talks_A eA0 a1 _ (st_a1 Hst) eq_refl eq_refl) plain_B (lookup_insert_eq _ _ _) eq_refl)
    as (w3 & H3 & Hg3 & Hs3 & HA3 & HB3).
  { intros ks ref Hks. rewrite (key_A eA0 ks eq_refl Hks). apply (st_kexB Hst). }
  destruct (clientKEx_run ClientB w3 clientA_Addr 3 "clientB kex fail: " K es2 eA1 eB0 _ _ ∅ a2 _ (PX kA) (PY kA) Hg3 Hs3 HA3
    secured_client HB3 (talks_A eA1 a2 _ (st_a2 Hst) ltac:(done) eq_refl) plain_A
    ltac:(unfold es2; simpl; rewrite lookup_insert_ne by done; apply lookup_insert_eq) eq_refl)
    as (w4 & H4 & Hg4 & Hs4 & HA4 & HB4).
  { intros ks ref Hks. rewrite (key_A eA1 ks ltac:(done) Hks). apply (st_kexA Hst). }
  exists w4. split; [|done]. by do 3 (etransitivity; [eassumption|]).
Qed.

(** ** The messages *)

Section messages.
Variable p : Processor WC.
Hypothesis Hp : secured p.

(** A's message reaches B. *)
Lemma message_run w :
  pc_good w -> svr_idle (w_svr w) es2 -> ready (rest ClientA w) p (spend eA1) ∅ -> ready (rest ClientB w) p eB1 ∅ ->
  exists w1 x pkt w2 m ref,
    let fwd := forwarded m (a3 ++ Seal (secret kB kA) a3 msg_A) clientA_Addr in
    at_client ClientA (send_A p 4) w = Ok (None, w1) /\ r_writeStream (rest ClientA w1) = [x] /\
    exchange ps ClientA w1 = Ok (Some (ClientB, ToMisc pkt ref), w2) /\
    pc_good w2 /\ svr_idle (w_svr w2) (out_crypto fwd es2) /\ a_dest fwd = clientB_Addr /\
    abs (w_pc w2) pkt = Some (request (a_meta fwd) (a3 ++ Seal (secret kB kA) a3 msg_A)) /\
    (pkt ∉ pool (w_pc w2)) /\ a_meta fwd !! KeyRef = Some ref /\ ref <> ""%string /\ utf8_string ref /\ fresh_ref ref /\
    ready (rest ClientA w2) p (spend (spend (spend eA1))) {[ref := Some 4%nat]} /\ ready (rest ClientB w2) p eB1 ∅.
Proof.
  intros Hg Hs [PA XA QA WA] [PB XB QB WB]. destruct keys_AB as (ks & Hks & Esec).
  assert (Xv : cl_ext (view (w_pc w) (rest ClientA w)) = spend eA1) by exact XA.
  destruct (send_A_run p (view (w_pc w) (rest ClientA w)) 4 es2 ks a3 (inr a4 :: rA) a4 Hp Hg)
    as (v & data & m & ref & Hsend & Hgv & Xv' & Qv & Wv & Hin & Hm & Htgt & Hto & Href & Hne & Hfr);
    rewrite ?Xv; try done.
  { rewrite Esec. apply Hst. }
  { apply (talks_A _ _ rA); [apply Hst | done | done]. }
  rewrite Esec in Hin. rewrite Xv in Xv'. simpl in Qv, Wv. rewrite QA in Qv. rewrite WA in Wv.
  destruct (client_op ClientA _ w _ v Hsend Hgv) as (w1 & Hop & Hg1 & _ & Es1 & HA1 & HO1).
  specialize (HO1 ClientB ltac:(done)).
  destruct (relay_exchange ps ps_secured ps_relay resolved ClientA ClientB w1 data (Some 4%nat) ref m
    (a3 ++ Seal (secret kB kA) a3 msg_A) es2 (secret kS kB)) as (pkt & w2 & Hex & Hg2 & A2 & Hl2 & Hs2 & HR2);
    try done; rewrite ?HA1, ?HO1; try done.
  { by rewrite Es1. }
  { intros [] Hk; [done | by rewrite HO1]. }
  { rewrite XB. eexists _, _. split; [apply lookup_insert_eq|]. split; [done|].
    split; [unfold eB1, learn; simpl; rewrite lookup_insert_ne by done; apply lookup_insert_eq|].
    simpl. rewrite (st_priv Hst), (secret_sym kB kS) by apply Hst. split_and!; [done | done | apply (st_BS Hst)]. }
  { by rewrite PB. }
  { exact (st_relayA Hst ref Hfr). }
  rewrite HO1, QB in Hex. pose proof (HR2 ClientA) as RA. pose proof (HR2 ClientB) as RB. simpl in RA, RB.
  rewrite HA1 in RA. rewrite HO1 in RB. simpl in RA. rewrite PA, Xv', Qv in RA. rewrite PB, XB, QB, delete_empty in RB.
  exists w1, (mk_cwritePacket data (Some 4%nat) ref), pkt, w2, m, ref. cbv zeta. split_and!; try done.
  - by rewrite HA1.
  - simpl. by rewrite Hto.
  - simpl. by rewrite lookup_insert_ne, lookup_singleton_eq, Href by done.
  - by apply (Hm KeyRef ref Href).
Qed.

(** B's answer reaches A. *)
Lemma answer_run w pkt m fwd ref :
  pc_good w -> svr_idle (w_svr w) (out_crypto fwd es2) -> a_dest fwd = clientB_Addr ->
  abs (w_pc w) pkt = Some (request m (a3 ++ Seal (secret kB kA) a3 msg_A)) -> pkt ∉ pool (w_pc w) ->
  m !! KeyRelayFrom = Some clientA_Addr -> m !! KeyRef = Some ref -> ref <> ""%string -> utf8_string ref -> fresh_ref ref ->
  ready (rest ClientA w) p (spend (spend (spend eA1))) {[ref := Some 4%nat]} -> ready (rest ClientB w) p eB1 ∅ ->
  exists w1 x resp w2 w3,
    at_client ClientB (listened p pkt) w = Ok (Some (msg_A, None), w1) /\ r_writeStream (rest ClientB w1) = [x] /\
    exchange ps ClientB w1 = Ok (Some (ClientA, ToRequest 4 resp ref), w2) /\
    at_client ClientA (receive_A resp) w2 = Ok (msg_B, w3).
Proof.
  intros Hg Hs Hfd Hpkt Hl Hfrom Href Hne Hu Hfr [PA XA QA WA] [PB XB QB WB].
  destruct keys_BA as (ks & Hks & Esec). destruct keys_AB as (ksa & Hksa & Eseca).
  assert (Xv : cl_ext (view (w_pc w) (rest ClientB w)) = eB1) by exact XB.
  destruct (listened_run p (view (w_pc w) (rest ClientB w)) pkt m ref (out_crypto fwd es2) ks a3 b1 (inr b2 :: rB) b2
    Hp Hg) as (v & data & m' & Hlis & Hgv & Wv & Hin & Hm' & Htgt & Hto & Href'); rewrite ?Xv, ?Esec; try done.
  { apply Hst. }
  { apply Hst. }
  { eapply talks_same; [symmetry; apply out_crypto_same|]. apply (talks_B _ _ rB); [apply Hst | done | done]. }
  rewrite Esec in Hin. simpl in Wv. rewrite WB in Wv.
  destruct (client_op ClientB _ w _ v Hlis Hgv) as (w1 & Hop & Hg1 & _ & Es1 & HB1 & HO1).
  specialize (HO1 ClientA ltac:(done)).
  destruct (relay_exchange ps ps_secured ps_relay resolved ClientB ClientA w1 data None ref m'
    (b1 ++ Seal (secret kB kA) b1 msg_B) (out_crypto fwd es2) (secret kS kA))
    as (resp & w2 & Hex & Hg2 & A2 & Hl2 & _ & HR2); try done; rewrite ?HB1, ?HO1; try done.
  { by rewrite Es1. }
  { intros [] Hk; [by rewrite HO1 | done]. }
  { rewrite XA. eexists _, _. split.
    { rewrite out_crypto_other by (by rewrite Hfd). unfold es2. simpl. rewrite lookup_insert_ne by done. apply lookup_insert_eq. }
    split; [done|]. split; [unfold eA1, learn; simpl; rewrite lookup_insert_ne by done; apply lookup_insert_eq|].
    simpl. rewrite (st_priv Hst), (secret_sym kA kS) by apply Hst. split_and!; [done | done | apply (st_AS Hst)]. }
  { by rewrite PA. }
  { exact (st_relayB Hst ref Hfr). }
  rewrite HO1, QA in Hex. unfold routed in Hex. rewrite lookup_singleton_eq in Hex.
  pose proof (HR2 ClientA) as [_ RX _ _]. rewrite HO1, XA in RX. rewrite <- Eseca in A2.
  destruct (decrypted (view (w_pc w2) (rest ClientA w2)) clientB_Addr resp _ ksa b1 msg_B Hg2 A2)
    as (h & Hdec & Hgh & Ah & _); [by simpl; rewrite RX | by rewrite Eseca; apply Hst | apply Hst |].
  edestruct (client_op ClientA (receive_A resp) w2) as (w3 & Hop3 & _).
  { unfold receive_A. erewrite bind_ok by exact Hdec.
    unfold cpk. apply lift_ok. apply PktData_reads; [apply Hgh | exact Ah]. }
  { exact Hgh. }
  exists w1, (mk_cwritePacket data None ref), resp, w2, w3. by rewrite HB1.
Qed.
End messages.

(** (C11) The program of the example can run to its end.  The process of [main]
    starts with a well-formed packet creator, nothing waiting in client B's
    stream, and an idle server whose transforms are those of the Crypto
    extension, whose queues for the two key exchanges and the relay target are
    the extension's callbacks and the relay callback alone, which has no keys of
    the clients and resolves their addresses to themselves.  [ListenUDP] and
    [GenerateKey] do not fail; the three keys are key pairs, and the product of
    any two has the length of an AES key; the random sources give nonces; and
    the four packets the server sends in clear after an exchange (the public
    keys A asks for, and the first packet relayed to each client) do not, for
    any reference a client can generate, by accident authenticate under the
    receiver's secret.  Then there is an execution of the process, the network
    and the server's threads in which [main] and the listener of client B
    return, and the program has logged that A's message was sent, A's message at
    B and B's answer at A.  It is not claimed for every execution: a datagram
    may be lost, and a response may overtake the registration of its request. *)
Theorem example_main w :
  pc_good w -> svr_idle (w_svr w) es -> r_writeStream (rest ClientB w) = [] ->
  exists r, rtc (x_step ps) (x_start (main None None (inr kA) (inr kB) rsA rsB) w) r /\
    goroutines (x_proc r) = [GReturn; GReturn] /\
    logged (x_proc r) = [LogSent; LogRelayed msg_A; LogResponse msg_B].
Proof.
  intros Hg Hs HB. destruct (setup_run w (GGo listener message) Hg Hs HB) as (w4 & Hset & Hg4 & Hs4 & HA4 & HB4).
  destruct (message_run _ secured_client w4 Hg4 Hs4 HA4 HB4)
    as (w5 & x & pkt & w6 & m & ref & H5 & Hx & H6 & Hg6 & Hs6 & Hd6 & A6 & Hl6 & Href & Hne & Hu & Hfr & HA6 & HB6).
  destruct (answer_run _ secured_client w6 pkt _ _ ref Hg6 Hs6 Hd6 A6 Hl6 (lookup_insert_eq _ _ _) Href Hne Hu Hfr HA6 HB6)
    as (w7 & x' & resp & w8 & w9 & H7 & Hx' & H8 & H9).
  pose proof (message_sent _ w4 w5 x (rd_pipes _ _ _ _ HA4) H5 Hx) as R1.
  pose proof (message_answered _ w5 w6 w7 x x' pkt ref msg_A answered Hx H6 (rd_pipes _ _ _ _ HB6) H7 Hx') as R2.
  pose proof (answer_received w7 w8 w9 x' resp ref msg_B [LogSent; LogRelayed msg_A] Hx' H8 H9) as R3.
  exists (at_rest w9 [GReturn; GReturn] [LogSent; LogRelayed msg_A; LogResponse msg_B]). split; [|done].
  by do 3 (etransitivity; [eassumption|]).
Qed.
End run.
End proofs.
