(* ===== verification/TCPServer.v ===== *)
(** * TCPServer: the TCP server (src/server/tcp_server.go)

    The accept loop with its backoff, the registration of connections, the read
    routine of a connection and its two handlers.  A connection's state is a
    [SvrState]: the heap, the extension's state and what its goroutines wait to
    send on [sendStream] and [writeStream].  Elements of [writeStream] have no
    address. *)

From Stdlib Require Import ZArith Lia Ascii String.
From stdpp Require Import base list strings gmap fin_maps.
From S2P Require Import Prelude Base64 Utf8 JsonText Decimal Json Packet PacketSpec.
From S2P Require Import Fmt Pipeline Cipher Crypto Throttle UDPServer.
Open Scope Z_scope.

(** ** The server *)

(** [mu] is a pointer and [connections] a map: both may be nil.  A connection
    is its number. *)
Record TCPServer := mk_TCPServer {
  tcp_addr : string;
  tcp_mu : option unit;
  tcp_rbuffSize : nat;
  tcp_connections : option (gset nat);
}.

(** [NewTCPServer] with a listener: [mu] and [connections] are not set. *)
Definition NewTCPServer (laddr : string) (size : nat) : TCPServer :=
  mk_TCPServer laddr None size None.

(** Locking through a nil mutex pointer is a panic, and so is writing to a nil
    map; deleting from a nil map does nothing. *)
Definition lock_mu : M TCPServer unit := fun s =>
  match tcp_mu s with Some _ => Ok (tt, s) | None => Panic NilDeref end.

Definition set_connections (c : option (gset nat)) (s : TCPServer) : TCPServer :=
  mk_TCPServer (tcp_addr s) (tcp_mu s) (tcp_rbuffSize s) c.

Definition registerConnection (c : nat) : M TCPServer unit :=
  lock_mu ;;;
  let* cs := gets tcp_connections in
  match cs with
  | None => throw NilMapWrite
  | Some cs => modify (set_connections (Some ({[c]} ∪ cs)))
  end.

Definition unregisterConnection (c : nat) : M TCPServer unit :=
  lock_mu ;;;
  modify (fun s => set_connections (match tcp_connections s with
                                    | None => None
                                    | Some cs => Some (cs ∖ {[c]})
                                    end) s).

(** [serve] up to the start of the connection's routines [writeConn] and
    [readConn]; the deferred call runs when [done] is closed. *)
Definition serve (c : nat) (routines : M TCPServer unit) : M TCPServer unit :=
  registerConnection c ;;;
  routines ;;;
  unregisterConnection c.

(** ** The accept loop *)

Definition Millisecond : Z := 1000000.
Definition Second : Z := 1000000000.

(** The result of [AcceptTCP]: a connection, or an error and whether it is a
    temporary network error. *)
Record accepted := mk_accepted {
  tcpConn : nat;
  acc_err : option (string * bool);
}.

(** What one round of the loop does. *)
Inductive round :=
  | Again                       (* next round *)
  | Sleep (d : Z)               (* sleep, then the next round *)
  | Return (e : string)         (* Serve returns *)
  | Spawn (c : nat).            (* start the routines of a connection *)

(** The next value of [tempDelay] (a duration is an [int64]). *)
Definition next_delay (tempDelay : Z) : Z :=
  let d := if tempDelay =? 0 then i64 (5 * Millisecond) else i64 (tempDelay * 2) in
  if Second <? d then Second else d.

Definition serve_round (tempDelay : Z) (a : accepted) : round :=
  match acc_err a with
  | Some (e, temporary) =>
      match acc_err a with
      | Some _ => if temporary then Sleep (next_delay tempDelay) else Return e
      | None => Spawn (tcpConn a)
      end
  | None => Again
  end.

(** [Serve] on a sequence of results of [AcceptTCP]: the rounds it makes. *)
Fixpoint Serve (tempDelay : Z) (as_ : list accepted) : list round :=
  match as_ with
  | [] => []
  | a :: r =>
      match serve_round tempDelay a with
      | Again => Again :: Serve tempDelay r
      | Sleep d => Sleep d :: Serve d r
      | Spawn c => Spawn c :: Serve tempDelay r
      | Return e => [Return e]
      end
  end.

(** ** A connection *)

Section connection.
Context {E : Type}.
Abbreviation W := (SvrState E).

Definition tcp_respond (ctx : TargetCtx) (resp : nat) : M W unit :=
  if Stat (c_ctx ctx) =? CodeStopNoop then pk (PutBack resp)
  else pk (Close resp) ;;; send resp.

(** [From] and the destination of the response are the server's own address:
    the field [addr] of the embedded server. *)
Definition tcp_process_pkt (p : Processor W) (addr : string) (pkt : nat) : M W unit :=
  let* ref := pk (Meta_Get pkt KeyRef) in
  let* resp := pk (NewPkt ref addr) in
  let* target := pk (Meta_Get pkt KeyTarget) in
  let ctx := mk_TargetCtx (mk_PipelineCtx (Some pkt) 0 "") target addr in
  let* (ctx, err) := PacketProcess (PacketProcessor p) ctx resp in
  match err with
  | Some e =>
      pk (PutBack resp) ;;;
      send_err ref addr ("packet pipeline error: " +:+ e)
  | None => tcp_respond ctx resp
  end.

Definition tcp_processIncoming (p : Processor W) (addr : string) (data : bytes) : M W unit :=
  let tctx := mk_TransformContext (mk_PipelineCtx None 0 "") "_in_" addr in
  let* (tctx, data, err) := DataProcess (DataProcessor p) tctx data in
  match err with
  | Some e => send_err "" addr ("data pipeline error: " +:+ e)
  | None =>
      if Stat (t_ctx tctx) =? CodeStopNoop then ret tt
      else
        let* pkt := pk (NewPkt "" "") in
        let* ok := pk (Unmarshal pkt data) in
        (if ok : bool then tcp_process_pkt p addr pkt
         else send_err "" addr "malformed packet") ;;;
        pk (PutBack pkt)      (* deferred *)
  end.

Definition tcp_processOutgoing (p : Processor W) (pkt : nat) : M W unit :=
  (let* bin := pk (Marshal pkt) in
   match bin with
   | None => ret tt
   | Some bin =>
       let tctx := mk_TransformContext (mk_PipelineCtx (Some pkt) 0 "") "_out_" "" in
       let* (tctx, bin, err) := DataProcess (DataProcessor p) tctx bin in
       match err with
       | Some e =>
           let* ref := pk (Meta_Get pkt KeyRef) in
           let* dst := pk (Dest pkt) in
           send_err ref dst ("response data pipeline error: " +:+ e)
       | None =>
           if Stat (t_ctx tctx) =? CodeStopNoop then ret tt
           else dist (mk_writePacket bin "")
       end
   end) ;;;
  pk (PutBack pkt).           (* deferred *)

(** One read: the buffer is new and has [size] bytes, the connection fills the
    front of it, and the whole buffer goes to [processIncoming]. *)
Definition read_conn_buffer (size : nat) (arrived : bytes) : bytes :=
  take size arrived ++ replicate (size - length arrived) "000"%char.

(** The read routine of a connection: results of [Read] are data, a temporary
    error or another error, which closes [done].  [true]: the routine has
    returned. *)
Inductive tcp_read := ReadData (d : bytes) | ReadTemporary | ReadFatal.

Fixpoint readConn (p : Processor W) (addr : string) (size : nat) (rs : list tcp_read) : M W bool :=
  match rs with
  | [] => ret false
  | ReadData d :: r =>
      tcp_processIncoming p addr (read_conn_buffer size d) ;;; readConn p addr size r
  | ReadTemporary :: r => readConn p addr size r
  | ReadFatal :: _ => ret true
  end.

(** ** The routines of a connection

    [done] is closed by [readConn] when it returns; [writeConn] and [sendPkt]
    return when they see it closed.  A value sent on an unbuffered channel waits
    until a routine receives it. *)
Record connection := mk_connection {
  conn : W;                   (* packets, and what waits on the two streams *)
  conn_done : bool;           (* done is closed *)
  reading : bool;             (* readConn runs *)
  writing : bool;             (* writeConn runs *)
  sending : bool;             (* sendPkt runs *)
  conn_written : list bytes;  (* taken by TCPConn.Write *)
}.

Definition take_send (q : list nat) (w : W) : W :=
  mk_SvrState (s_heap w) (s_ext w) q (writeStream w) (closed w).
Definition take_write (q : list writePacket) (w : W) : W :=
  mk_SvrState (s_heap w) (s_ext w) (sendStream w) q (closed w).

Inductive conn_step (p : Processor W) (addr : string) (size : nat)
    : connection -> connection -> Prop :=
  | conn_read w w' dn wr sn out d :
      (* readConn got data and starts processIncoming *)
      tcp_processIncoming p addr (read_conn_buffer size d) w = Ok (tt, w') ->
      conn_step p addr size (mk_connection w dn true wr sn out) (mk_connection w' dn true wr sn out)
  | conn_read_temporary w dn wr sn out :
      (* readConn got a temporary error and goes on *)
      conn_step p addr size (mk_connection w dn true wr sn out) (mk_connection w dn true wr sn out)
  | conn_read_error w dn wr sn out :
      (* readConn got another error: it closes done and returns *)
      conn_step p addr size (mk_connection w dn true wr sn out) (mk_connection w true false wr sn out)
  | conn_send w w' dn rd wr out q1 l q2 :
      (* sendPkt receives a packet and starts processOutgoing *)
      sendStream w = q1 ++ l :: q2 ->
      tcp_processOutgoing p l (take_send (q1 ++ q2) w) = Ok (tt, w') ->
      conn_step p addr size (mk_connection w dn rd wr true out) (mk_connection w' dn rd wr true out)
  | conn_send_done w rd wr out :
      conn_step p addr size (mk_connection w true rd wr true out) (mk_connection w true rd wr false out)
  | conn_write w dn rd sn out q1 d q2 :
      (* writeConn receives a packet and writes its data *)
      writeStream w = q1 ++ d :: q2 ->
      conn_step p addr size (mk_connection w dn rd true sn out)
        (mk_connection (take_write (q1 ++ q2) w) dn rd true sn (out ++ [w_data d]))
  | conn_write_error w dn rd sn out q1 d q2 :
      (* the same, but Write fails: the error is ignored *)
      writeStream w = q1 ++ d :: q2 ->
      conn_step p addr size (mk_connection w dn rd true sn out)
        (mk_connection (take_write (q1 ++ q2) w) dn rd true sn out)
  | conn_write_done w rd sn out :
      conn_step p addr size (mk_connection w true rd true sn out) (mk_connection w true rd false sn out).

(** [serve] starts [writeConn] and [readConn], and not [sendPkt]. *)
Definition serve_start (w : W) : connection := mk_connection w false true true false [].

Inductive conn_reachable (p : Processor W) (addr : string) (size : nat) (s0 : connection)
    : connection -> Prop :=
  | conn_init : conn_reachable p addr size s0 s0
  | conn_next s s' :
      conn_reachable p addr size s0 s -> conn_step p addr size s s' ->
      conn_reachable p addr size s0 s'.
End connection.
Arguments connection : clear implicits.
