(* ===== verification/TCPServerProps.v ===== *)
(** * TCPServerProps: the properties of the TCP server

    The backoff of the accept loop, that no connection is ever served, that a
    read that does not fill the buffer is never a packet, and that the handlers
    keep the ownership of packets. *)

From Stdlib Require Import ZArith Lia Ascii String.
From stdpp Require Import base list strings gmap fin_maps.
From S2P Require Import Prelude Base64 Utf8 JsonText Decimal Json JsonNul Packet PacketSpec PacketProps.
From S2P Require Import Fmt Pipeline Cipher Crypto Throttle UDPServer UDPServerSpec UDPServerProps TCPServer.
Open Scope Z_scope.

(** ** The accept loop *)

(** The pauses of the loop, in order. *)
Definition sleeps (rs : list round) : list Z :=
  rs ≫= (fun r => match r with Sleep d => [d] | _ => [] end).

(** The [k]-th pause. *)
Definition backoff (k : nat) : Z := Z.min (5 * Millisecond * 2 ^ Z.of_nat k) Second.

(** The value of [tempDelay] after [k] pauses. *)
Definition delay_after (k : nat) : Z := match k with O => 0 | S j => backoff j end.

Lemma backoff_range k : 5 * Millisecond <= backoff k <= Second.
Proof.
  unfold backoff, Millisecond, Second. assert (0 < 2 ^ Z.of_nat k) by (apply Z.pow_pos_nonneg; lia).
  lia.
Qed.

Lemma next_delay_after k : next_delay (delay_after k) = backoff k.
Proof.
  unfold next_delay. destruct k as [|k]; [done|]. cbn [delay_after].
  pose proof (backoff_range k) as Hr. unfold Millisecond, Second in Hr.
  destruct (Z.eqb_spec (backoff k) 0) as [H0|_]; [lia|].
  rewrite i64_id by lia.
  destruct (Z.ltb_spec Second (backoff k * 2)) as [H|H]; revert H Hr;
    unfold backoff; rewrite Nat2Z.inj_succ, Z.pow_succ_r by lia;
    generalize (2 ^ Z.of_nat k); unfold Millisecond, Second; lia.
Qed.

Lemma Serve_sleeps as_ k :
  sleeps (Serve (delay_after k) as_) = backoff <$> seq k (length (sleeps (Serve (delay_after k) as_))).
Proof.
  revert k. induction as_ as [|a as_ IH]; intros k; [done|]. cbn [Serve].
  destruct (serve_round (delay_after k) a) as [|d|e|c] eqn:Er; try apply IH; [|done].
  assert (d = backoff k) as ->.
  { unfold serve_round in Er. destruct (acc_err a) as [[e [|]]|]; simplify_eq. apply next_delay_after. }
  change (sleeps (Sleep (backoff k) :: Serve (backoff k) as_))
    with (backoff k :: sleeps (Serve (delay_after (S k)) as_)).
  cbn [length seq fmap list_fmap]. f_equal. apply IH.
Qed.

(** Backoff: whatever [AcceptTCP] returns, the pauses of the accept loop
    are 5 ms, 10 ms, 20 ms and so on, doubling up to one second, and they never
    start over (an accepted connection does not reset them). *)
Theorem tcp_backoff as_ :
  sleeps (Serve 0 as_) = backoff <$> seq 0 (length (sleeps (Serve 0 as_))) /\
  Forall (fun d => 5 * Millisecond <= d <= Second) (sleeps (Serve 0 as_)).
Proof.
  pose proof (Serve_sleeps as_ 0) as H. split; [exact H|]. cbn [delay_after] in H. rewrite H.
  apply list.Forall_fmap, list.Forall_forall. intros k _. apply backoff_range.
Qed.

(** (C40) The TCP server serves no connection: the code that starts the routines
    of an accepted connection is inside the branch for a failed accept, behind
    its returns, so no round of the loop starts them; and starting them would
    panic, because the server's mutex is never created. *)
Theorem tcp_never_serves d as_ c laddr size :
  (Spawn c ∉ Serve d as_) /\
  forall routines, serve c routines (NewTCPServer laddr size) = Panic NilDeref.
Proof.
  split; [|done]. revert d. induction as_ as [|a as_ IH]; intros d; cbn [Serve].
  { apply not_elem_of_nil. }
  unfold serve_round. destruct (acc_err a) as [[e [|]]|];
    rewrite elem_of_cons; intros [|H]; try done; [by apply IH in H | by apply elem_of_nil in H | by apply IH in H].
Qed.

(** ** The handlers *)

Section handlers.
Context {E : Type}.
Abbreviation W := (SvrState E).
Abbreviation ab w l := (abs (s_heap w) l).

Lemma short_read_nul size d :
  (length d < size)%nat -> existsb is_nul (read_conn_buffer size d) = true.
Proof.
  intros H. unfold read_conn_buffer. rewrite existsb_app. apply orb_true_intro. right.
  destruct (size - length d)%nat as [|n] eqn:En; [lia | done].
Qed.

(** A read that does not fill the buffer is never a packet: the whole
    buffer, with the NUL bytes behind what was read, goes to the decoder, which
    accepts no text with a NUL byte; whatever was read, the connection answers
    "malformed packet". *)
Theorem tcp_short_read_malformed (p : Processor W) addr size d w :
  transforms (DataProcessor p) "_in_" = [] -> inv [] w -> (length d < size)%nat ->
  wp (tcp_processIncoming p addr (read_conn_buffer size d))
     (fun _ w' => sends_one w w' (is_err "" addr "malformed packet")) w.
Proof.
  intros Hin I Hlen. pose proof (nul_not_parsed _ (short_read_nul size d Hlen)) as Hp.
  unfold tcp_processIncoming. rewrite wp_bind, DataProcess_none by done.
  apply wp_ret. cbn [Stat t_ctx]. change (0 =? CodeStopNoop) with false. cbn iota.
  by apply wp_malformed.
Qed.

Lemma tcp_respond_safe ctx resp F (w : W) :
  inv (resp :: F) w -> wp (tcp_respond ctx resp) (fun _ w' => inv F w') w.
Proof.
  intros I. destruct (inv_owned _ _ resp I ltac:(by left)) as [a Ha].
  unfold tcp_respond. destruct (Stat (c_ctx ctx) =? CodeStopNoop); [by eapply wp_PutBack|].
  rewrite wp_bind. eapply wp_pkt; [apply Close_acts | done | by left | done |].
  intros w2 I2 _ _. by eapply wp_send.
Qed.

Lemma tcp_processIncoming_safe adm admp p addr data (w : W) :
  processor_safe adm admp p -> inv [] w -> adm data ->
  wp (tcp_processIncoming p addr data) (fun _ w' => inv [] w') w.
Proof.
  intros [Pi Po Pc] I Hd. unfold tcp_processIncoming. rewrite wp_bind.
  eapply wp_mono; [by apply Pi|]. intros [[tctx dt] e] w1 (I1 & _ & Hk).
  destruct e as [e|]; [by eapply wp_send_err|].
  destruct (Stat _ =? CodeStopNoop); [by apply wp_ret|].
  apply (decoded_safe _ admp); [|done|by apply Hk]. intros pkt w2 a I2 A2 Had.
  eapply (callbacks_safe tcp_respond); [|done..]. intros. by apply tcp_respond_safe.
Qed.

Lemma tcp_processOutgoing_safe adm admp p pkt (w : W) :
  processor_safe adm admp p -> inv [pkt] w ->
  wp (tcp_processOutgoing p pkt) (fun _ w' => inv [] w') w.
Proof.
  intros [Pi Po Pc] I. destruct (inv_owned _ _ pkt I ltac:(by left)) as [a Ha].
  unfold tcp_processOutgoing. rewrite !wp_bind.
  eapply wp_read; [apply Marshal_reads | exact I | done |]. rewrite wp_bind.
  eapply wp_mono; [by eapply run_out_safe|]. intros [[tctx bin] e] w3 I3.
  eapply wp_mono; [by apply outgoing_end_safe|]. intros [] w4 I4. by eapply wp_PutBack.
Qed.

Lemma readConn_safe adm admp p addr size rs (w : W) :
  processor_safe adm admp p -> (forall d, ReadData d ∈ rs -> adm (read_conn_buffer size d)) ->
  inv [] w -> wp (readConn p addr size rs) (fun _ w' => inv [] w') w.
Proof.
  intros Hp. revert w. induction rs as [|[d| |] rs IH]; intros w Had I; cbn [readConn].
  - by apply wp_ret.
  - rewrite wp_bind. eapply wp_mono.
    { eapply tcp_processIncoming_safe; [done | done |]. apply Had. by left. }
    intros [] w1 I1. apply IH; [|done]. intros d' Hd'. apply Had. by right.
  - apply IH; [|done]. intros d' Hd'. apply Had. by right.
  - by apply wp_ret.
Qed.

(** Ownership on a TCP connection: for every sequence of reads the read
    routine does not panic on admissible data and keeps the pool and the waiting
    packets disjoint and usable, and so does the outgoing handler, which returns
    its packet to the pool, for all installed callbacks and transforms that keep
    to the server's conditions. *)
Theorem tcp_handlers_safe adm admp (p : Processor W) addr size rs pkt w w2 :
  processor_safe adm admp p -> (forall d, ReadData d ∈ rs -> adm (read_conn_buffer size d)) ->
  inv [] w -> inv [pkt] w2 ->
  wp (readConn p addr size rs) (fun _ w' => inv [] w') w /\
  wp (tcp_processOutgoing p pkt) (fun _ w' => inv [] w') w2.
Proof.
  intros Hp Hd I I2. split; [by eapply readConn_safe | by eapply tcp_processOutgoing_safe].
Qed.
End handlers.
