(* ===== verification/TCPConnProps.v ===== *)
(** * TCPConnProps: the TCP connection and its handlers compared with UDP

    The incoming handler of a connection is the one of the UDP server as long as
    no callback asks for a relay; with [sendPkt] running a connection would
    answer requests; but [serve] does not start it, and in every state a served
    connection reaches nothing has been written and every response waits. *)

From Stdlib Require Import ZArith Lia Ascii String.
From stdpp Require Import base list strings gmap fin_maps.
From S2P Require Import Prelude Base64 Utf8 JsonText Decimal Json JsonNul Packet PacketSpec PacketProps.
From S2P Require Import Fmt Pipeline Cipher Crypto Throttle UDPServer UDPServerSpec UDPServerProps.
From S2P Require Import TCPServer TCPServerProps.
Open Scope Z_scope.

(** ** The handlers of the two servers *)

Section equivalence.
Context {E : Type}.
Abbreviation W := (SvrState E).

(** Callbacks that do not ask for a relay. *)
Class NoRelay (cb : TargetCallback W) : Prop :=
  no_relay : forall ctx pw w ctx' w', cb ctx pw w = Ok (ctx', w') ->
    Stat (c_ctx ctx) <> CodeRelay -> Stat (c_ctx ctx') <> CodeRelay.

Definition queues_no_relay (pp : PacketPipeline W) : Prop :=
  forall target cbs, callbackQueues pp !! target = Some cbs -> Forall NoRelay cbs.

Lemma run_callbacks_no_relay cbs ctx pw w ctx' e w' :
  Forall NoRelay cbs -> Stat (c_ctx ctx) <> CodeRelay ->
  run_callbacks cbs ctx pw w = Ok ((ctx', e), w') -> Stat (c_ctx ctx') <> CodeRelay.
Proof.
  intros Hc. revert ctx w. induction Hc as [|cb cbs Hcb Hc IH]; intros ctx w Hs.
  { intros Hr. by injection Hr as <- <- <-. }
  cbn [run_callbacks]. unfold bind. destruct (cb ctx pw w) as [[c v]|] eqn:Ecb; [|done].
  pose proof (Hcb _ _ _ _ _ Ecb Hs) as Hs'.
  destruct (judge (Stat (c_ctx c))); [by intros [= <- <- <-].. |]. by apply IH.
Qed.

Lemma respond_no_relay ctx resp :
  Stat (c_ctx ctx) <> CodeRelay -> respond (E := E) ctx resp = tcp_respond ctx resp.
Proof.
  intros Hs. unfold respond, tcp_respond.
  by rewrite (proj2 (Z.eqb_neq (Stat (c_ctx ctx)) CodeRelay) Hs).
Qed.

Lemma process_pkt_no_relay (p : Processor W) pkt sender w :
  queues_no_relay (PacketProcessor p) ->
  tcp_process_pkt p sender pkt w = process_pkt p pkt sender w.
Proof.
  intros Hq. unfold tcp_process_pkt, process_pkt.
  apply bind_ext. intros ref w1 _. apply bind_ext. intros resp w2 _.
  apply bind_ext. intros target w3 _. apply bind_ext. intros [ctx' e] w4 Hp.
  destruct e as [e|]; [done|]. rewrite respond_no_relay; [done|].
  unfold PacketProcess in Hp. cbn [TargetName] in Hp.
  destruct (callbackQueues (PacketProcessor p) !! target) as [cbs|] eqn:Ec; [|done].
  eapply run_callbacks_no_relay; [by eapply Hq | | exact Hp]. by vm_compute.
Qed.

Lemma processIncoming_no_relay (p : Processor W) addr data w :
  queues_no_relay (PacketProcessor p) ->
  tcp_processIncoming p addr data w = processIncoming p data addr w.
Proof.
  intros Hq. unfold tcp_processIncoming, processIncoming.
  apply bind_ext. intros [[tctx dt] [e|]] w1 _; [done|].
  destruct (_ =? _); [done|]. apply bind_ext. intros pkt w2 _.
  apply bind_ext. intros [|] w3 _; [|done].
  unfold bind. by rewrite process_pkt_no_relay.
Qed.

(** The incoming handler of a TCP connection and the one of the UDP server
    are the same function of the server's state, panics included, for pipelines
    whose callbacks do not ask for a relay, the connection's address taking the
    place of the sender. *)
Theorem tcp_incoming_equivalent (p : Processor W) addr data w :
  queues_no_relay (PacketProcessor p) ->
  tcp_processIncoming p addr data w = processIncoming p data addr w.
Proof. apply processIncoming_no_relay. Qed.
End equivalence.

(** ** What a served connection does *)

Section served.
Context {E : Type}.
Abbreviation W := (SvrState E).

(** A computation that writes nothing and takes no waiting packet. *)
Class Quiet {A} (m : M W A) : Prop :=
  quiet : forall w a w', m w = Ok (a, w') ->
    writeStream w' = writeStream w /\ exists q, sendStream w' = sendStream w ++ q.

#[global] Instance Quiet_ret {A} (a : A) : Quiet (ret a).
Proof. intros w x w' [= <- <-]. split; [done|]. exists []. by rewrite app_nil_r. Qed.

#[global] Instance Quiet_throw {A} e : Quiet (throw e : M W A).
Proof. by intros w x w'. Qed.

#[global] Instance Quiet_bind {A B} (m : M W A) (k : A -> M W B) :
  Quiet m -> (forall a, Quiet (k a)) -> Quiet (bind m k).
Proof.
  intros Hm Hk w b w'. unfold bind. destruct (m w) as [[a w1]|] eqn:E1; [|done].
  intros E2. apply Hm in E1 as [W1 [q1 S1]]. apply Hk in E2 as [W2 [q2 S2]].
  split; [congruence|]. exists (q1 ++ q2). by rewrite S2, S1, app_assoc.
Qed.

#[global] Instance Quiet_heap {A} (m : M Heap A) : Quiet (pk m).
Proof.
  intros w a w'. unfold pk, lift. destruct (m _) as [[x h]|]; [|done]. intros [= <- <-].
  split; [done|]. exists []. by rewrite app_nil_r.
Qed.

#[global] Instance Quiet_send l : Quiet (send l).
Proof. intros w a w'. unfold send. destruct (closed w); [done|]. intros [= <- <-]. by split; [|exists [l]]. Qed.

#[global] Instance Quiet_send_err ref dst msg : Quiet (send_err ref dst msg).
Proof. unfold send_err. apply _. Qed.

(** Pipelines made of such transforms and callbacks. *)
Record processor_quiet (p : Processor W) : Prop := {
  pq_in : Forall (fun t => forall ctx d, Quiet (t ctx d)) (transforms (DataProcessor p) "_in_");
  pq_cb : forall target cbs, callbackQueues (PacketProcessor p) !! target = Some cbs ->
    Forall (fun cb => forall ctx pw, Quiet (cb ctx pw)) cbs;
}.

Lemma run_transforms_quiet ts ctx d :
  Forall (fun t => forall ctx d, Quiet (t ctx d)) ts -> Quiet (run_transforms ts ctx d).
Proof.
  intros Ht. revert ctx d. induction Ht as [|t ts Ht Hts IH]; intros ctx d; [apply _|].
  cbn [run_transforms]. apply Quiet_bind; [apply Ht|]. intros [c dt].
  destruct (judge _); [apply _.. | apply IH].
Qed.

Lemma run_callbacks_quiet cbs ctx pw :
  Forall (fun cb => forall ctx pw, Quiet (cb ctx pw)) cbs -> Quiet (run_callbacks cbs ctx pw).
Proof.
  intros Ht. revert ctx. induction Ht as [|t ts Ht Hts IH]; intros ctx; [apply _|].
  cbn [run_callbacks]. apply Quiet_bind; [apply Ht|]. intros c.
  destruct (judge _); [apply _.. | apply IH].
Qed.

Lemma PacketProcess_quiet p ctx pw :
  processor_quiet p -> Quiet (PacketProcess (PacketProcessor p) ctx pw).
Proof.
  intros [_ Hc]. unfold PacketProcess. destruct (callbackQueues _ !! _) as [cbs|] eqn:Ec; [|apply _].
  by eapply run_callbacks_quiet, Hc.
Qed.

Lemma tcp_process_pkt_quiet p addr pkt : processor_quiet p -> Quiet (tcp_process_pkt p addr pkt).
Proof.
  intros Hp. unfold tcp_process_pkt. do 3 (apply Quiet_bind; [apply _ | intros ?]).
  apply Quiet_bind; [by apply PacketProcess_quiet|]. intros [ctx [e|]]; [apply _|].
  unfold tcp_respond. destruct (_ =? _); apply _.
Qed.

Lemma tcp_processIncoming_quiet p addr data :
  processor_quiet p -> Quiet (tcp_processIncoming p addr data).
Proof.
  intros Hp. unfold tcp_processIncoming. apply Quiet_bind.
  { apply run_transforms_quiet, Hp. }
  intros [[tctx dt] [e|]]; [apply _|]. destruct (_ =? _); [apply _|].
  apply Quiet_bind; [apply _|]. intros pkt. apply Quiet_bind; [apply _|]. intros [|]; [|apply _].
  apply Quiet_bind; [by apply tcp_process_pkt_quiet | apply _].
Qed.

(** The connection has not written, nothing waits to be written, [sendPkt]
    does not run, and the packets that waited at the start still wait. *)
Record silent (w0 : W) (s : connection E) : Prop := {
  sl_written : conn_written s = [];
  sl_write : writeStream (conn s) = [];
  sl_sending : sending s = false;
  sl_send : exists q, sendStream (conn s) = sendStream w0 ++ q;
}.

Lemma silent_step p addr size w0 s s' :
  processor_quiet p -> conn_step p addr size s s' -> silent w0 s -> silent w0 s'.
Proof.
  intros Hp Hs [S1 S2 S3 [q S4]]. destruct Hs; simpl in *; simplify_eq; try (by split; eauto).
  - apply (tcp_processIncoming_quiet p addr) in H as [W' [q' S']]; [|done]. split; simpl; try done.
    + congruence.
    + exists (q ++ q'). by rewrite S', S4, app_assoc.
  - by rewrite S2 in H; destruct q1.
  - by rewrite S2 in H; destruct q1.
Qed.

(** A served connection is silent: in every state it reaches, for every
    sequence of reads and every interleaving of its routines, nothing has been
    written to it and nothing waits to be written, and every packet its handlers
    sent still waits: no routine that [serve] starts receives from
    [sendStream]. *)
Theorem tcp_connection_silent (p : Processor W) addr size w s :
  processor_quiet p -> writeStream w = [] ->
  conn_reachable p addr size (serve_start w) s ->
  conn_written s = [] /\ writeStream (conn s) = [] /\
  exists q, sendStream (conn s) = sendStream w ++ q.
Proof.
  intros Hp Hw Hr. assert (silent w s) as [S1 S2 S3 S4]; [|done].
  induction Hr as [|s s' Hr IH Hs]; [|by eapply silent_step].
  split; try done. exists []. by rewrite app_nil_r.
Qed.
End served.

(** ** A connection with all its routines *)

Section sending.
Context {E : Type}.
Abbreviation W := (SvrState E).
Variable p : Processor W.
Hypothesis plain : transforms (DataProcessor p) "_in_" = [] /\ transforms (DataProcessor p) "_out_" = [].

Lemma read_conn_buffer_full size d : length d = size -> read_conn_buffer size d = d.
Proof.
  intros <-. unfold read_conn_buffer. rewrite take_ge by lia.
  by rewrite Nat.sub_diag, app_nil_r.
Qed.

Lemma tcp_outgoing_written pkt a (w : W) :
  inv [pkt] w -> abs (s_heap w) pkt = Some a ->
  wp (tcp_processOutgoing p pkt) (fun _ w' => inv [] w' /\ sendStream w' = sendStream w /\
    pool (s_heap w') = pool (s_heap w) ++ [pkt] /\
    writeStream w' = writeStream w ++ [mk_writePacket (render_pkt (Some (a_meta a)) (a_data a)) ""]) w.
Proof.
  intros I Ha. unfold tcp_processOutgoing. rewrite !wp_bind.
  eapply wp_read; [apply Marshal_reads | exact I | done |].
  rewrite wp_bind, DataProcess_none by apply plain. apply wp_ret. cbn [Stat t_ctx].
  change (0 =? CodeStopNoop) with false. cbn iota. unfold wp at 1, dist.
  rewrite (inv_open _ _ I). eapply (wp_PutBack pkt []); [by destruct I|].
  intros w' I' E' S' W' _ P'. simpl in *. auto.
Qed.

(** With [sendPkt] running a connection answers: from a state in which
    nothing waits, a read that fills the buffer with a well-formed packet for a
    target with one callback can be followed by a step of [sendPkt] and a step
    of [writeConn] after which the wire form of the committed response, made
    with the packet's reference, has been written and nothing waits. *)
Theorem tcp_sending_answers addr size m b w out cb f :
  inv [] w -> sendStream w = [] -> writeStream w = [] -> utf8_map m ->
  length (datagram m b) = size -> answers cb f ->
  queues_no_relay (PacketProcessor p) ->
  callbackQueues (PacketProcessor p) !! default ""%string (m !! KeyTarget) = Some [cb] ->
  exists w' d,
    nsteps (conn_step p addr size) 3
      (mk_connection w false true true true out)
      (mk_connection w' false true true true
         (out ++ [let resp := a_close (f (request m b)
                    (fresh_pkt (default ""%string (m !! KeyRef)) addr d)) in
                  render_pkt (Some (a_meta resp)) (a_data resp)])) /\
    inv [] w' /\ sendStream w' = [] /\ writeStream w' = [].
Proof.
  intros I Hs Hw Hm Hlen Hcb Hnr Ht. destruct plain as [Hin Hout].
  destruct (wp_inv _ _ _ (request_sent p Hin m b addr w cb f I Hm Hcb Ht))
    as ([] & w1 & Hrun1 & I1 & E1 & W1 & l & x & S1 & A1 & d & ->).
  rewrite Hs in S1. rewrite Hw in W1. simpl in S1. assert (I1' := inv_receive w1 [] l [] I1 S1).
  destruct (wp_inv _ _ _ (tcp_outgoing_written l _ _ I1' A1))
    as ([] & w2 & Hrun2 & I2 & S2 & P2 & W2). simpl in S2, W2. rewrite W1 in W2. simpl in W2.
  exists (take_write [] w2), d. split; [|by destruct I2].
  eapply nsteps_l.
  { apply (conn_read p addr size w w1 _ _ _ _ (datagram m b)).
    rewrite read_conn_buffer_full by done. by rewrite processIncoming_no_relay. }
  eapply nsteps_l; [by apply (conn_send p addr size w1 w2 _ _ _ _ [] l [])|].
  eapply nsteps_l; [|apply nsteps_O].
  exact (conn_write p addr size w2 false true true out [] _ [] W2).
Qed.
End sending.
