(* ===== verification/TCPThreads.v ===== *)
(** * TCPThreads: the TCP server with interleaved handlers

    The connections of a TCP server share its packet creator and pipelines and
    have streams of their own; each handler is a thread of atomic actions, as in
    [ServerThreads], and the actions of all handlers of all connections are
    interleaved.  Here are the connections as they run once [serve] has started
    their routines, which [TCPServer.Serve] never reaches. *)

From Stdlib Require Import ZArith Lia Ascii String.
From stdpp Require Import base list strings gmap fin_maps relations.
From S2P Require Import Prelude Base64 Utf8 JsonText Decimal Json Packet PacketSpec PacketProps.
From S2P Require Import Fmt Pipeline Cipher Crypto UDPServer UDPServerSpec UDPServerProps.
From S2P Require Import ServerThreads ServerThreadsProps Throttle TCPServer TCPServerProps TCPConnProps.
Open Scope Z_scope.

Local Notation "'let!' x ':=' m 'in' k" := (Act m (fun x => k))
  (at level 10, x pattern, m at level 100, k at level 200).
Local Notation "m '!!;' k" := (Act m (fun _ => k)) (at level 199, k at level 200, right associativity).

Section threads.
Context {E : Type}.
Abbreviation W := (SvrState E).

(** ** The handlers *)

Definition tcp_respond_prog (ctx : TargetCtx) (resp : nat) (k : prog E) : prog E :=
  if Stat (c_ctx ctx) =? CodeStopNoop then pk (PutBack resp) !!; k
  else pk (Close resp) !!; send resp !!; k.

Definition tcp_process_prog (p : Processor W) (addr : string) (pkt : nat) (k : prog E) : prog E :=
  let! ref := pk (Meta_Get pkt KeyRef) in
  let! resp := pk (NewPkt ref addr) in
  let! target := pk (Meta_Get pkt KeyTarget) in
  let ctx := mk_TargetCtx (mk_PipelineCtx (Some pkt) 0 "") target addr in
  let finish ctx err :=
    match err with
    | Some e => pk (PutBack resp) !!; send_err_prog ref addr ("packet pipeline error: " +:+ e) k
    | None => tcp_respond_prog ctx resp k
    end in
  match callbackQueues (PacketProcessor p) !! target with
  | None => finish ctx (Some (Errorf "target not found"))
  | Some cbs => callbacks_prog cbs ctx resp finish
  end.

Definition tcp_incoming_prog (p : Processor W) (addr : string) (data : bytes) : prog E :=
  let tctx := mk_TransformContext (mk_PipelineCtx None 0 "") "_in_" addr in
  let! (tctx, data, err) := DataProcess (DataProcessor p) tctx data in
  match err with
  | Some e => send_err_prog "" addr ("data pipeline error: " +:+ e) Done
  | None =>
      if Stat (t_ctx tctx) =? CodeStopNoop then Done
      else
        let! pkt := pk (NewPkt "" "") in
        let! ok := pk (Unmarshal pkt data) in
        let deferred := pk (PutBack pkt) !!; Done in
        if ok : bool then tcp_process_prog p addr pkt deferred
        else send_err_prog "" addr "malformed packet" deferred
  end.

Definition tcp_outgoing_prog (p : Processor W) (pkt : nat) : prog E :=
  let deferred := pk (PutBack pkt) !!; Done in
  let! bin := pk (Marshal pkt) in
  match bin with
  | None => deferred
  | Some bin =>
      let tctx := mk_TransformContext (mk_PipelineCtx (Some pkt) 0 "") "_out_" "" in
      transforms_prog (transforms (DataProcessor p) "_out_") tctx bin (fun tctx bin err =>
        match err with
        | Some e =>
            let! ref := pk (Meta_Get pkt KeyRef) in
            let! dst := pk (Dest pkt) in
            send_err_prog ref dst ("response data pipeline error: " +:+ e) deferred
        | None =>
            if Stat (t_ctx tctx) =? CodeStopNoop then deferred
            else dist (mk_writePacket bin "") !!; deferred
        end)
  end.

(** ** The connections *)

Record tconn := mk_tconn {
  tc_send : list nat;             (* wait on sendStream *)
  tc_write : list writePacket;    (* wait on writeStream *)
  tc_done : bool;                 (* done is closed *)
  tc_reading : bool;              (* readConn runs *)
  tc_writing : bool;              (* writeConn runs *)
  tc_sending : bool;              (* sendPkt runs *)
  tc_threads : list (prog E);     (* the handlers *)
  tc_written : list bytes;        (* taken by TCPConn.Write *)
}.

Record tserver := mk_tserver {
  ts_heap : Heap;
  ts_ext : E;
  ts_conns : list tconn;
}.

(** What a handler of a connection sees: its streams are never closed. *)
Definition conn_view (h : Heap) (e : E) (c : tconn) : W :=
  mk_SvrState h e (tc_send c) (tc_write c) false.

(** A step of one connection, on the shared packets and the extension. *)
Inductive tconn_step (p : Processor W) (addr : string) (size : nat) (adm : bytes -> Prop)
    : Heap * E * tconn -> Heap * E * tconn -> Prop :=
  | tconn_read h e q o dn wr sn ts out d :
      (* readConn got data: go c.processIncoming *)
      adm (read_conn_buffer size d) ->
      tconn_step p addr size adm (h, e, mk_tconn q o dn true wr sn ts out)
        (h, e, mk_tconn q o dn true wr sn (ts ++ [tcp_incoming_prog p addr (read_conn_buffer size d)]) out)
  | tconn_read_error h e q o dn wr sn ts out :
      (* a read error that is not temporary: readConn closes done and returns *)
      tconn_step p addr size adm (h, e, mk_tconn q o dn true wr sn ts out)
        (h, e, mk_tconn q o true false wr sn ts out)
  | tconn_act h e q o dn rd wr sn t1 B (m : M W B) k t2 out b w' :
      (* some handler goes on *)
      m (mk_SvrState h e q o false) = Ok (b, w') ->
      tconn_step p addr size adm (h, e, mk_tconn q o dn rd wr sn (t1 ++ Act m k :: t2) out)
        (s_heap w', s_ext w',
         mk_tconn (sendStream w') (writeStream w') dn rd wr sn (t1 ++ k b :: t2) out)
  | tconn_end h e q o dn rd wr sn t1 t2 out :
      tconn_step p addr size adm (h, e, mk_tconn q o dn rd wr sn (t1 ++ Done :: t2) out)
        (h, e, mk_tconn q o dn rd wr sn (t1 ++ t2) out)
  | tconn_send h e q1 l q2 o dn rd wr ts out :
      (* sendPkt receives a packet: go c.processOutgoing *)
      tconn_step p addr size adm (h, e, mk_tconn (q1 ++ l :: q2) o dn rd wr true ts out)
        (h, e, mk_tconn (q1 ++ q2) o dn rd wr true (ts ++ [tcp_outgoing_prog p l]) out)
  | tconn_send_done h e q o rd wr ts out :
      tconn_step p addr size adm (h, e, mk_tconn q o true rd wr true ts out)
        (h, e, mk_tconn q o true rd wr false ts out)
  | tconn_write h e q o1 d o2 dn rd sn ts out :
      (* writeConn receives a packet and writes its data *)
      tconn_step p addr size adm (h, e, mk_tconn q (o1 ++ d :: o2) dn rd true sn ts out)
        (h, e, mk_tconn q (o1 ++ o2) dn rd true sn ts (out ++ [w_data d]))
  | tconn_write_error h e q o1 d o2 dn rd sn ts out :
      (* the same, but Write fails: the error is ignored *)
      tconn_step p addr size adm (h, e, mk_tconn q (o1 ++ d :: o2) dn rd true sn ts out)
        (h, e, mk_tconn q (o1 ++ o2) dn rd true sn ts out)
  | tconn_write_done h e q o rd sn ts out :
      tconn_step p addr size adm (h, e, mk_tconn q o true rd true sn ts out)
        (h, e, mk_tconn q o true rd false sn ts out).

(** A connection whose routines have been started, with or without [sendPkt];
    [serve] starts the other two only. *)
Definition tconn_start (sn : bool) : tconn := mk_tconn [] [] false true true sn [] [].

Inductive tcp_step (p : Processor W) (addr : string) (size : nat) (adm : bytes -> Prop) (sn : bool)
    : tserver -> tserver -> Prop :=
  | tcp_serve h e cs :
      (* a connection is served *)
      tcp_step p addr size adm sn (mk_tserver h e cs) (mk_tserver h e (cs ++ [tconn_start sn]))
  | tcp_conn h e cs1 c cs2 h' e' c' :
      tconn_step p addr size adm (h, e, c) (h', e', c') ->
      tcp_step p addr size adm sn (mk_tserver h e (cs1 ++ c :: cs2)) (mk_tserver h' e' (cs1 ++ c' :: cs2)).

(** A handler's next action takes the process down. *)
Definition tcp_panic (s : tserver) (x : panic) : Prop :=
  exists c t1 B (m : M W B) k t2, c ∈ ts_conns s /\ tc_threads c = t1 ++ Act m k :: t2 /\
    m (conn_view (ts_heap s) (ts_ext s) c) = Panic x.

(** ** Threads and handlers *)

Lemma run_tcp_respond ctx resp k w :
  run_thread (tcp_respond_prog ctx resp k) w = (tcp_respond ctx resp ;;; run_thread k) w.
Proof. unfold tcp_respond_prog, tcp_respond. destruct (_ =? _); [done|]. by rewrite bind_assoc. Qed.

Lemma run_tcp_process p addr pkt k w :
  run_thread (tcp_process_prog p addr pkt k) w = (tcp_process_pkt p addr pkt ;;; run_thread k) w.
Proof.
  unfold tcp_process_prog, tcp_process_pkt. cbn [run_thread]. rewrite bind_assoc. apply bind_ext. intros ref w1 _.
  rewrite bind_assoc. apply bind_ext. intros resp w2 _. rewrite bind_assoc. apply bind_ext. intros target w3 _.
  cbv zeta. rewrite bind_assoc. unfold PacketProcess. cbn [TargetName].
  assert (Hf : forall ctx err w, run_thread (match err with
      | Some e => pk (PutBack resp) !!; send_err_prog ref addr ("packet pipeline error: " +:+ e) k
      | None => tcp_respond_prog ctx resp k end) w
    = (match err with
       | Some e => pk (PutBack resp) ;;; send_err ref addr ("packet pipeline error: " +:+ e)
       | None => tcp_respond ctx resp end ;;; run_thread k) w).
  { intros ctx [e|] w4; [|apply run_tcp_respond]. cbn [run_thread]. rewrite bind_assoc. apply bind_ext.
    intros [] w5 _. apply run_send_err. }
  destruct (callbackQueues _ !! target) as [cbs|];
    [|exact (Hf (mk_TargetCtx (mk_PipelineCtx (Some pkt) 0 "") target addr) (Some _) w3)].
  rewrite run_callbacks_prog. apply bind_ext. intros [ctx err] w4 _. apply Hf.
Qed.

(** Handlers that are not interrupted are those of [TCPServer]: the same state or
    the same panic, for every datagram, packet, pipeline and state. *)
Theorem tcp_threads_handlers (p : Processor W) addr data pkt w :
  run_thread (tcp_incoming_prog p addr data) w = tcp_processIncoming p addr data w /\
  run_thread (tcp_outgoing_prog p pkt) w = tcp_processOutgoing p pkt w.
Proof.
  split.
  - unfold tcp_incoming_prog, tcp_processIncoming. cbn [run_thread]. apply bind_ext. intros [[tctx dt] [e|]] w1 _.
    { rewrite run_send_err. exact (run_last (send_err _ _ _) w1). }
    destruct (_ =? _); [done|]. cbn [run_thread]. apply bind_ext. intros l w2 _. apply bind_ext. intros ok w3 _.
    pose proof (run_last (E := E) (pk (PutBack l))) as Hd.
    destruct ok; [rewrite run_tcp_process | rewrite run_send_err]; apply bind_ext; auto.
  - unfold tcp_outgoing_prog, tcp_processOutgoing. pose proof (run_last (E := E) (pk (PutBack pkt))) as Hd.
    set (deferred := pk (PutBack pkt) !!; Done) in *. cbv zeta. cbn [run_thread].
    rewrite bind_assoc. apply bind_ext. intros [bin|] w1 _; [|by rewrite Hd].
    rewrite run_transforms_prog, bind_assoc. unfold DataProcess. cbn [PipelineName].
    apply bind_ext. intros [[tctx b] [e|]] w3 _.
    + cbn [run_thread]. rewrite bind_assoc. apply bind_ext. intros ref w4 _.
      rewrite bind_assoc. apply bind_ext. intros d w5 _. rewrite run_send_err. by apply bind_ext.
    + destruct (_ =? _); [by rewrite Hd|]. cbn [run_thread]. by apply bind_ext.
Qed.

(** ** Ownership *)

(** The packets [F] are different, usable and not pooled. *)
Record apart (F : list nat) (h : Heap) : Prop := {
  ap_heap : heap_ok h;
  ap_healthy : healthy h;
  ap_nodup : NoDup F;
  ap_live : forall l, l ∈ F -> (l ∉ pool h) /\ is_Some (abs h l);
}.

Lemma inv_apart F (w : W) : closed w = false -> inv F w <-> apart (F ++ sendStream w) (s_heap w).
Proof. intros Hc. split; [by intros [] | by intros []; split]. Qed.

Lemma apart_perm F F' h : F ≡ₚ F' -> apart F h -> apart F' h.
Proof.
  intros P [A B C D]. split; try done; [by rewrite <- P|]. intros l Hl. apply D. by rewrite P.
Qed.

Section invariant.
(** A property of the data that waits to be written. *)
Variable J : list writePacket -> Prop.
Abbreviation safe := (tsafe_in (fun w : W => J (writeStream w))).
Abbreviation owns := (list (nat * APkt)).

Lemma J_frame (w w' : W) :
  s_ext w' = s_ext w -> writeStream w' = writeStream w -> J (writeStream w) -> J (writeStream w').
Proof. by intros _ ->. Qed.

Local Tactic Notation "rule" uconstr(r) := eapply r; [exact J_frame | ..].

Lemma tsafe_tcp_respond ctx resp b (o : owns) (k : prog E) :
  safe k o -> safe (tcp_respond_prog ctx resp k) ((resp, b) :: o).
Proof.
  intros Hk. unfold tcp_respond_prog. destruct (_ =? _); [by rule tsafe_PutBack|].
  rule tsafe_method; [apply Close_acts|]. by rule tsafe_send.
Qed.

Lemma tsafe_tcp_process adm p pkt addr a k :
  queues_safe adm (PacketProcessor p) -> target_kept (fun w : W => J (writeStream w)) p a -> adm a ->
  safe k [(pkt, a)] -> safe (tcp_process_prog p addr pkt k) [(pkt, a)].
Proof.
  intros Hq Hqk Had Hk. unfold tcp_process_prog. rule tsafe_method; [apply Meta_Get_acts|].
  rule tsafe_NewPkt. intros resp d. eapply tsafe_perm; [apply Permutation_swap|].
  rule tsafe_method; [apply Meta_Get_acts|]. cbv beta zeta.
  assert (Hf : forall ctx e b, safe (match e with
      | Some e => pk (PutBack resp) !!; send_err_prog (a_get KeyRef a) addr ("packet pipeline error: " +:+ e) k
      | None => tcp_respond_prog ctx resp k end) [(pkt, a); (resp, b)]).
  { intros ctx e b. eapply tsafe_perm; [apply Permutation_swap|].
    destruct e; [rule tsafe_PutBack; by rule tsafe_send_err | by apply tsafe_tcp_respond]. }
  destruct (callbackQueues _ !! _) as [cbs|] eqn:Ec;
    [|by apply (Hf (mk_TargetCtx (mk_PipelineCtx None 0 "") "" "") (Some _))].
  eapply tsafe_callbacks; [by eapply Hq | | done | done | exact Hf].
  eapply Forall_impl; [by apply (Hqk cbs)|]. auto.
Qed.

Lemma tsafe_tcp_incoming adm admp p data addr :
  processor_safe adm admp p ->
  kept (fun w : W => J (writeStream w)) (DataProcess (DataProcessor p) (in_ctx addr) data) ->
  (forall a, admp a -> target_kept (fun w : W => J (writeStream w)) p a) -> adm data ->
  safe (tcp_incoming_prog p addr data) [].
Proof.
  intros [Pi Po Pc] Hki Hkc Hd G w I _ HJ. eapply wp_mono; [apply wp_kept; [apply Hki | done | by apply Pi]|].
  intros [[tctx dt] err] w1 [(I1 & A1 & Hdec) HJ1]. exists []. split_and!; [done | constructor | done | done |].
  destruct err as [e|]; [by rule tsafe_send_err|]. destruct (_ =? _); [done|].
  destruct (Hdec eq_refl) as [Hkm Hadm]. rule tsafe_NewPkt. intros pkt s.
  rule tsafe_method; [by apply Unmarshal_acts|]. cbv beta.
  destruct (a_unmarshal dt _).2 eqn:Eu.
  - eapply tsafe_tcp_process; [done | by apply Hkc, Hadm | by apply Hadm | by rule tsafe_PutBack].
  - rule tsafe_send_err. by rule tsafe_PutBack.
Qed.

Lemma tsafe_tcp_outgoing adm admp p pkt a :
  processor_safe adm admp p ->
  Forall (fun t => forall ctx d, kept (fun w : W => J (writeStream w)) (t ctx d)) (transforms (DataProcessor p) "_out_") ->
  (forall x, kept (fun w : W => J (writeStream w)) (dist x)) -> safe (tcp_outgoing_prog p pkt) [(pkt, a)].
Proof.
  intros [Pi Po Pc] Hko Hkd.
  assert (Hd : forall a', safe (pk (PutBack pkt) !!; Done) [(pkt, a')]) by (intros a'; by rule tsafe_PutBack).
  unfold tcp_outgoing_prog. cbv zeta. rule tsafe_method; [apply Marshal_acts|].
  apply tsafe_transforms; [done | done | done |]. intros ctx d [e|] a'.
  - rule tsafe_method; [apply Meta_Get_acts|]. rule tsafe_method; [apply Dest_acts|]. by rule tsafe_send_err.
  - destruct (_ =? _); [apply Hd|]. by apply tsafe_dist.
Qed.

(** ** The connections together *)

Section steps.
Variables (p : Processor W) (addr : string) (size : nat) (adm : bytes -> Prop) (sn : bool).
Hypothesis handlers_in : forall d, adm d -> safe (tcp_incoming_prog p addr d) [].
Hypothesis handlers_out : sn = true -> forall l a, safe (tcp_outgoing_prog p l) [(l, a)].
Hypothesis J_nil : J [].
Hypothesis J_written : forall o1 d o2, J (o1 ++ d :: o2) -> J (o1 ++ o2).

Definition holding (o : owns) (h : Heap) : Prop := Forall (fun x => abs h x.1 = Some x.2) o.

(** A connection whose handlers own the packets [os]. *)
Record conn_ok (c : tconn) (os : list owns) : Prop := {
  co_threads : Forall2 safe (tc_threads c) os;
  co_write : J (tc_write c);
  co_sending : tc_sending c = true -> sn = true;
}.

(** It among others, which own the packets [G]. *)
Definition conn_in (G : list nat) (h : Heap) (c : tconn) : Prop :=
  exists os, conn_ok c os /\ apart ((concat os).*1 ++ tc_send c ++ G) h /\ holding (concat os) h.

Lemma conn_act G h e q o dn rd wr t1 B (m : M W B) k t2 out b w' sd :
  conn_in G h (mk_tconn q o dn rd wr sd (t1 ++ Act m k :: t2) out) ->
  m (mk_SvrState h e q o false) = Ok (b, w') ->
  conn_in G (s_heap w') (mk_tconn (sendStream w') (writeStream w') dn rd wr sd (t1 ++ k b :: t2) out) /\
  forall l, l ∈ G -> abs (s_heap w') l = abs h l.
Proof.
  intros (os & [Hts HJ Hsd] & Ap & Ho) Hm. cbn [tc_threads tc_write tc_sending tc_send] in *.
  apply Forall2_app_inv_l in Hts as (os1 & os2 & H1 & H2 & ->).
  apply Forall2_cons_inv_l in H2 as (o1 & os3 & Ht & H3 & ->).
  pose proof (owns_split os1 os3 o1) as P. unfold holding in Ho. rewrite P in Ho. apply Forall_app in Ho as [Ho Hr].
  set (w := mk_SvrState h e q o false). set (G' := (concat (os1 ++ os3)).*1 ++ G).
  assert (I : inv (o1.*1 ++ G') w).
  { apply inv_apart; [done|]. eapply apart_perm; [|exact Ap]. simpl. rewrite P, fmap_app. unfold G'. solve_Permutation. }
  pose proof (Ht G' w I Ho HJ) as Hwp. unfold wp in Hwp. fold w in Hm. rewrite Hm in Hwp.
  destruct Hwp as (o' & I' & Ho' & A' & HJ' & Hk). split.
  - exists (os1 ++ o' :: os3). split; [split; cbn [tc_threads]; [by apply Forall2_app; [|constructor] | done | done]|]. cbn [tc_send].
    split.
    + eapply apart_perm; [|apply inv_apart; [apply (inv_open _ _ I') | exact I']].
      rewrite (owns_split os1 os3 o'), fmap_app. unfold G'. solve_Permutation.
    + unfold holding. rewrite (owns_split os1 os3 o'). apply Forall_app. split; [exact Ho'|].
      eapply (holds_kept (E := E) _ w w'); [exact Hr|]. intros l Hl. apply A', elem_of_app. by left.
  - intros l Hl. apply A', elem_of_app. by right.
Qed.

Lemma conn_step_in G h e c h' e' c' :
  tconn_step p addr size adm (h, e, c) (h', e', c') -> conn_in G h c ->
  conn_in G h' c' /\ forall l, l ∈ G -> abs h' l = abs h l.
Proof.
  intros Hs Hc. inversion Hs; subst.
  3: by eapply conn_act.
  all: split; [|done]; destruct Hc as (os & [Hts HJ Hsd] & Ap & Ho); cbn [tc_threads tc_write tc_sending tc_send] in *.
  - exists (os ++ [[]]). rewrite concat_app, app_nil_r. split; [|done]. split; cbn [tc_threads tc_write tc_sending]; try done.
    apply Forall2_app; [done|]. constructor; [by apply handlers_in | constructor].
  - by exists os.
  - apply Forall2_app_inv_l in Hts as (os1 & os2 & H1 & H2 & ->).
    apply Forall2_cons_inv_l in H2 as (o1 & os3 & Ht & H3 & ->). simpl in Ht. subst o1.
    rewrite concat_app in Ap, Ho. simpl in Ap, Ho. rewrite <- concat_app in Ap, Ho.
    exists (os1 ++ os3). split; [|done]. split; cbn [tc_threads tc_write tc_sending]; try done. by apply Forall2_app.
  - destruct (ap_live _ _ Ap l) as [_ [a Ha]]; [rewrite !elem_of_app, elem_of_cons; auto|].
    exists (os ++ [[(l, a)]]). split; [split; cbn [tc_threads tc_write tc_sending]; try done|].
    + apply Forall2_app; [done|]. constructor; [by apply handlers_out, Hsd | constructor].
    + rewrite concat_app. cbn [concat app tc_send]. split; [|apply Forall_app; by repeat constructor].
      eapply apart_perm; [|exact Ap]. rewrite fmap_app. simpl. solve_Permutation.
  - by exists os.
  - exists os. split; [split; cbn [tc_threads tc_write tc_sending]; try done; by eapply J_written | done].
  - exists os. split; [split; cbn [tc_threads tc_write tc_sending]; try done; by eapply J_written | done].
  - by exists os.
Qed.

(** Every handler of every connection is safe with its packets, and no packet
    has two owners. *)
Definition tcp_in (s : tserver) : Prop :=
  exists oss, Forall2 conn_ok (ts_conns s) oss /\
    apart ((concat (concat oss)).*1 ++ concat (tc_send <$> ts_conns s)) (ts_heap s) /\
    holding (concat (concat oss)) (ts_heap s).

Lemma all_owns_split (a b : list (list owns)) os :
  concat (concat (a ++ os :: b)) ≡ₚ concat os ++ concat (concat (a ++ b)).
Proof. rewrite !concat_app. simpl. rewrite !concat_app. solve_Permutation. Qed.

Lemma all_sends_split (a b : list tconn) c :
  concat (tc_send <$> (a ++ c :: b)) ≡ₚ tc_send c ++ concat (tc_send <$> (a ++ b)).
Proof. rewrite !fmap_app, !concat_app. simpl. solve_Permutation. Qed.

Lemma tcp_step_in s s' : tcp_step p addr size adm sn s s' -> tcp_in s -> tcp_in s'.
Proof.
  intros Hs (oss & Hc & Ap & Ho). destruct Hs as [h e cs | h e cs1 c cs2 h' e' c' Hs]; simpl in *.
  - exists (oss ++ [[]]). cbn [ts_conns ts_heap]. rewrite fmap_app, !concat_app. simpl. rewrite !app_nil_r.
    split; [|done]. apply Forall2_app; [done|]. constructor; [|constructor]. by split; [constructor | done | done].
  - apply Forall2_app_inv_l in Hc as (oss1 & oss2 & H1 & H2 & ->).
    apply Forall2_cons_inv_l in H2 as (os & oss3 & Hok & H3 & ->).
    unfold holding in Ho. rewrite all_owns_split in Ho. apply Forall_app in Ho as [Ho Hr].
    set (G := (concat (concat (oss1 ++ oss3))).*1 ++ concat (tc_send <$> (cs1 ++ cs2))).
    destruct (conn_step_in G h e c h' e' c' Hs) as [(os' & Hok' & Ap' & Ho') Hkeep].
    { exists os. split; [done|]. split; [|done]. eapply apart_perm; [|exact Ap].
      rewrite all_owns_split, all_sends_split, fmap_app. unfold G. solve_Permutation. }
    exists (oss1 ++ os' :: oss3). simpl. split; [by apply Forall2_app; [|constructor]|]. split.
    + eapply apart_perm; [|exact Ap']. rewrite all_owns_split, all_sends_split, fmap_app. unfold G. solve_Permutation.
    + unfold holding. rewrite all_owns_split. apply Forall_app. split; [done|].
      apply Forall_forall. intros [l a] Hl. simpl. rewrite Hkeep.
      * by apply (proj1 (Forall_forall _ _) Hr (l, a)).
      * unfold G. apply elem_of_app. left. by apply (list_elem_of_fmap_2 fst _ (l, a)).
Qed.

Lemma tcp_reach_in h e s :
  heap_ok h -> healthy h -> rtc (tcp_step p addr size adm sn) (mk_tserver h e []) s -> tcp_in s.
Proof.
  intros Hh Hl. apply (rtc_ind_r tcp_in).
  - exists []. split; [constructor|]. split; [|constructor]. split; [done | done | constructor |]. set_solver.
  - intros s1 s2 _ Hs. by apply tcp_step_in.
Qed.

Lemma tcp_in_panic s x : tcp_in s -> ~ tcp_panic s x.
Proof.
  intros (oss & Hc & Ap & Ho) (c & t1 & B & m & k & t2 & Hin & Ht & Hm).
  apply list_elem_of_split in Hin as (cs1 & cs2 & Ecs). rewrite Ecs in Hc, Ap.
  apply Forall2_app_inv_l in Hc as (oss1 & oss2 & H1 & H2 & ->).
  apply Forall2_cons_inv_l in H2 as (os & oss3 & [Hts HJ Hsd] & H3 & ->).
  rewrite Ht in Hts. apply Forall2_app_inv_l in Hts as (os1 & os2 & H4 & H5 & ->).
  apply Forall2_cons_inv_l in H5 as (o & os3 & Hsafe & H6 & ->).
  unfold holding in Ho. rewrite all_owns_split, owns_split, <- app_assoc in Ho. apply Forall_app in Ho as [Ho _].
  set (G := (concat (os1 ++ os3)).*1 ++ (concat (concat (oss1 ++ oss3))).*1 ++ concat (tc_send <$> (cs1 ++ cs2))).
  assert (I : inv (o.*1 ++ G) (conn_view (ts_heap s) (ts_ext s) c)).
  { apply inv_apart; [done|]. eapply apart_perm; [|exact Ap]. simpl.
    unfold G. rewrite all_owns_split, all_sends_split, owns_split, !fmap_app. solve_Permutation. }
  pose proof (Hsafe G _ I Ho HJ) as Hwp. unfold wp in Hwp. by rewrite Hm in Hwp.
Qed.
End steps.
End invariant.

(** (C32) Ownership between the connections of a TCP server with a well-formed
    packet creator: if every buffer that a connection reads is admissible, then
    however the actions of all handlers are interleaved, with or without
    [sendPkt] running, no packet is pooled twice, waits twice, on one connection
    or on two, or is pooled while it waits or while a handler of any connection
    uses it; every pooled or waiting packet is usable; and no handler panics.
    Admissible buffers (adm) are those for which the processor is safe
    ([processor_safe]): without transforms and with safe callbacks, every
    document that does not set the metadata to null; with the Crypto extension,
    data of at least 12 bytes which, as it is and opened under any key, neither
    sets the metadata to null nor asks for a key exchange with the server with
    an incomplete public key. *)
Theorem tcp_threads_ownership adm admp (p : Processor W) addr size sn h e s :
  processor_safe adm admp p -> heap_ok h -> healthy h ->
  rtc (tcp_step p addr size adm sn) (mk_tserver h e []) s ->
  (exists oss, Forall2 (Forall2 tsafe) (tc_threads <$> ts_conns s) oss /\
    let all := pool (ts_heap s) ++ concat (tc_send <$> ts_conns s) ++ (concat (concat oss)).*1 in
    NoDup all /\ forall l, l ∈ all -> is_Some (abs (ts_heap s) l)) /\
  forall x, ~ tcp_panic s x.
Proof.
  intros Hp Hh Hl Hr. assert (Hk : forall A (m : M W A), kept (fun _ => True) m) by done.
  assert (Hin : tcp_in (fun _ => True) sn s).
  { eapply (tcp_reach_in (fun _ => True)); [..| exact Hr]; try done.
    - intros d Hd. eapply (tsafe_tcp_incoming (fun _ => True)); try done. intros a _ cbs _. by apply Forall_forall; intros; apply Hk.
    - intros _ l a. eapply (tsafe_tcp_outgoing (fun _ => True)); try done. by apply Forall_forall; intros; apply Hk. }
  split; [|intros x; by eapply tcp_in_panic]. destruct Hin as (oss & Hc & [A1 A2 A3 A4] & Ho).
  exists oss. split. { apply Forall2_fmap_l. eapply Forall2_impl; [exact Hc|]. by intros c os []. }
  assert (P : concat (tc_send <$> ts_conns s) ++ (concat (concat oss)).*1
    ≡ₚ (concat (concat oss)).*1 ++ concat (tc_send <$> ts_conns s)) by apply Permutation_app_comm.
  cbv zeta. rewrite P. split.
  - apply list.NoDup_app. split; [apply (ok_pool_nodup _ A1)|]. split; [|done]. intros l H1 H2. by apply (A4 l H2).
  - intros l. rewrite elem_of_app. intros [H1|H2]; [by apply A2|]. by apply A4; rewrite <- P.
Qed.

(** ** What is written *)

(** Every action a handler still has to do writes nothing. *)
Fixpoint quiet_prog (t : prog E) : Prop :=
  match t with
  | Done => True
  | Act m k => Quiet m /\ forall b, quiet_prog (k b)
  end.

Lemma quiet_act {B} (m : M W B) k : Quiet m -> (forall b, quiet_prog (k b)) -> quiet_prog (Act m k).
Proof. done. Qed.

Lemma send_err_quiet ref dst msg k : quiet_prog k -> quiet_prog (send_err_prog ref dst msg k).
Proof. intros Hk. apply quiet_act; [apply _|]. intros l. by apply quiet_act; [apply _|]. Qed.

Lemma callbacks_quiet cbs ctx pw k :
  Forall (fun cb => forall ctx pw, Quiet (cb ctx pw)) cbs -> (forall c e, quiet_prog (k c e)) ->
  quiet_prog (callbacks_prog cbs ctx pw k).
Proof.
  intros Hc Hk. revert ctx. induction Hc as [|cb cbs Hcb Hc IH]; intros ctx; [apply Hk|].
  apply quiet_act; [apply Hcb|]. intros c. destruct (judge _); [apply Hk.. | apply IH].
Qed.

Lemma tcp_respond_quiet ctx resp k : quiet_prog k -> quiet_prog (tcp_respond_prog ctx resp k).
Proof.
  intros Hk. unfold tcp_respond_prog. destruct (_ =? _); [by apply quiet_act; [apply _|]|].
  apply quiet_act; [apply _|]. intros _. by apply quiet_act; [apply _|].
Qed.

Lemma tcp_process_quiet p addr pkt k :
  processor_quiet p -> quiet_prog k -> quiet_prog (tcp_process_prog p addr pkt k).
Proof.
  intros Hp Hk. unfold tcp_process_prog. do 3 (apply quiet_act; [apply _ | intros ?]). cbv zeta.
  assert (Hf : forall b ctx e, quiet_prog (match e with
      | Some e => pk (PutBack b0) !!; send_err_prog b addr ("packet pipeline error: " +:+ e) k
      | None => tcp_respond_prog ctx b0 k end)).
  { intros b2 ctx [e|]; [|by apply tcp_respond_quiet]. apply quiet_act; [apply _|]. intros _. by apply send_err_quiet. }
  destruct (callbackQueues _ !! _) as [cbs|] eqn:Ec;
    [|exact (Hf b (mk_TargetCtx (mk_PipelineCtx None 0 "") "" "") (Some _))].
  apply callbacks_quiet; [by eapply (pq_cb _ Hp) | exact (Hf b)].
Qed.

Lemma tcp_incoming_quiet p addr data : processor_quiet p -> quiet_prog (tcp_incoming_prog p addr data).
Proof.
  intros Hp. apply quiet_act; [apply run_transforms_quiet, Hp|]. intros [[tctx dt] [e|]]; [by apply send_err_quiet|].
  destruct (_ =? _); [done|]. apply quiet_act; [apply _|]. intros pkt. apply quiet_act; [apply _|].
  assert (Hd : quiet_prog (pk (PutBack pkt) !!; Done)) by (apply quiet_act; [apply _ | done]).
  intros [|]; [by apply tcp_process_quiet | by apply send_err_quiet].
Qed.

(** A connection without [sendPkt] that has written nothing and never will. *)
Record silent_conn (c : tconn) : Prop := {
  si_written : tc_written c = [];
  si_write : tc_write c = [];
  si_sending : tc_sending c = false;
  si_threads : Forall quiet_prog (tc_threads c);
}.

Lemma silent_conn_step p addr size adm h e c h' e' c' :
  processor_quiet p -> tconn_step p addr size adm (h, e, c) (h', e', c') -> silent_conn c -> silent_conn c'.
Proof.
  intros Hp Hs [S1 S2 S3 S4]. inversion Hs; subst; simpl in *; simplify_eq; try done.
  - split; simpl; try done. apply Forall_app. split; [done|]. constructor; [by apply tcp_incoming_quiet | done].
  - apply Forall_app in S4 as [S4 [[Hm Hk] S5]%list.Forall_cons].
    match goal with H : m _ = Ok _ |- _ => destruct (Hm _ _ _ H) as [Hw _] end.
    split; simpl; try done. apply Forall_app. split; [done|]. by constructor.
  - split; simpl; try done. apply Forall_app in S4 as [S4 [_ S5]%list.Forall_cons]. by apply Forall_app.
  - by destruct o1.
  - by destruct o1.
Qed.

(** (C33) The served connections are silent: as [serve] starts them, without
    [sendPkt], nothing is ever written to any connection and nothing waits to be
    written, for every sequence of reads, whatever they hold, and every
    interleaving of the handlers' actions, if the incoming transforms and the
    callbacks do not write to the connections' streams themselves. *)
Theorem tcp_threads_silent adm (p : Processor W) addr size h e s :
  processor_quiet p -> rtc (tcp_step p addr size adm false) (mk_tserver h e []) s ->
  Forall (fun c => tc_written c = [] /\ tc_write c = []) (ts_conns s).
Proof.
  intros Hp Hr. assert (Hc : Forall silent_conn (ts_conns s)).
  { revert s Hr. apply (rtc_ind_r (fun s => Forall silent_conn (ts_conns s))); [constructor|].
    intros s1 s2 _ Hs IH. destruct Hs as [h1 e1 cs | h1 e1 cs1 c cs2 h2 e2 c' Hs]; simpl in *.
    - apply Forall_app. split; [done|]. by repeat constructor.
    - apply Forall_app in IH as [IH1 [IH2 IH3]%list.Forall_cons]. apply Forall_app. split; [done|].
      constructor; [by eapply silent_conn_step | done]. }
  eapply Forall_impl; [exact Hc|]. by intros c [].
Qed.
End threads.
