(* ===== verification/Samples.v ===== *)
(** * Samples: instances of the interfaces and concrete states

    A cipher, a curve and a resolver that satisfy the laws the development
    assumes, an application callback, and heaps, servers and clients on which
    the properties are evaluated. *)

From Stdlib Require Import ZArith Lia Ascii String.
From stdpp Require Import base list strings gmap fin_maps.
From S2P Require Import Prelude Base64 Utf8 JsonText Decimal Json JsonNul Packet PacketSpec PacketProps.
From S2P Require Import Fmt Pipeline Cipher Crypto CryptoSpec UDPServer UDPServerSpec UDPServerProps.
From S2P Require Import Channel Throttle UDPClient UDPClientProps.
Open Scope Z_scope.

(** ** A cipher *)

(** A NUL byte, key and nonce in front of the plaintext: it authenticates and
    hides nothing, and no JSON text is a sealed one. *)
#[export] Instance toy_aead : AEAD := {
  Seal k n p := ("000"%char :: k ++ n) ++ p;
  Open k n c :=
    let tag := "000"%char :: k ++ n in
    if decide (take (length tag) c = tag) then Some (drop (length tag) c) else None;
}.

#[export] Instance toy_aead_laws : AEADLaws toy_aead.
Proof.
  split; unfold Seal, Open, toy_aead.
  - intros k n p. cbv zeta. rewrite take_app_length, drop_app_length. by rewrite decide_True.
  - intros k n c p. cbv zeta. case_decide as H; [|done]. intros [= <-].
    change ("000"%char :: k ++ n ++ drop (length ("000"%char :: k ++ n)) c) with
      ("000"%char :: k ++ (n ++ drop (length ("000"%char :: k ++ n)) c)).
    rewrite <- (take_drop (length ("000"%char :: k ++ n)) c) at 1. by rewrite H.
Qed.

Lemma toy_unforged key n p m d : length n = nonceSize -> render_pkt m d <> n ++ Seal key n p.
Proof.
  intros _ E. assert (Hf : nul_free (render_pkt m d)).
  { apply nul_free_cons; [done|]. apply nul_free_app; [apply quote_nul_free|]. apply nul_free_cons; [done|].
    apply nul_free_app; [apply render_omap_nul_free|]. apply nul_free_cons; [done|].
    by apply (member_nul_free "d" d). }
  rewrite E in Hf. unfold nul_free in Hf. by rewrite existsb_app, orb_true_r in Hf.
Qed.

(** So no text of JSON is accepted as a sealed one. *)
Lemma toy_text_clear key m d :
  Open key (take nonceSize (render_pkt m d)) (drop nonceSize (render_pkt m d)) = None.
Proof.
  destruct (Open _ _ _) as [p|] eqn:E; [|done]. apply open_sound in E.
  exfalso. eapply (toy_unforged key (take nonceSize (render_pkt m d)) p m d).
  - rewrite length_take. pose proof (render_pkt_long m d). lia.
  - rewrite <- E. by rewrite take_drop.
Qed.

(** ** A curve *)

Definition be_value (l : bytes) : Z := fold_left (fun a c => a * 256 + zb c) l 0.

Lemma be_value_be_bytes f z : 0 <= z -> z = 0 \/ Z.log2 z < Z.of_nat f -> be_value (be_bytes f z) = z.
Proof.
  revert z. induction f as [|f IH]; intros z Hz Hf.
  { destruct Hf as [->|Hf]; [done|]. pose proof (Z.log2_nonneg z). lia. }
  simpl. destruct (Z.eqb_spec z 0) as [->|Hne]; [done|].
  unfold be_value. rewrite fold_left_app. fold (be_value (be_bytes f (z / 256))).
  rewrite IH; [simpl; rewrite zb_bz; lia | lia |].
  destruct (log2_div256 z ltac:(lia)) as [H|[_ H]]; [by left | right; lia].
Qed.

Lemma be_value_BigBytes z : 0 <= z -> be_value (BigBytes z) = z.
Proof.
  intros Hz. unfold BigBytes. rewrite Z.abs_eq by done.
  apply be_value_be_bytes; [done|]. right. pose proof (Z.log2_nonneg z). lia.
Qed.

(** Multiplication of integers, with the base point 2^250. *)
#[export] Instance toy_curve : Curve := {
  ScalarMult x y k := (x * be_value k, y);
  keypair d x y := 0 <= d /\ x = d * 2 ^ 250;
}.

#[export] Instance toy_curve_laws : CurveLaws toy_curve.
Proof.
  split. intros d1 x1 y1 d2 x2 y2 [H1 ->] [H2 ->]. simpl. rewrite !be_value_BigBytes by done. ring.
Qed.

(** ** Addresses *)

#[export] Instance toy_resolver : Resolver := { ResolveUDPAddr s := Some s }.

(** ** An application callback: the request's data is the response's *)

Section echo.
Context {E : Type}.

Definition echo : TargetCallback (SvrState E) := fun ctx pw =>
  let* l := svr_pkt (c_ctx ctx) in
  let* d := pk (PktData l) in
  pk (Write pw d) ;;;
  ret ctx.

Definition echo_effect (q r : APkt) : APkt := a_write (a_buff q) r.

Lemma echo_answers : answers echo echo_effect.
Proof.
  intros w ctx pkt pw a b Hp I Ha Hb. unfold echo, svr_pkt. rewrite Hp, wp_bind. apply wp_ret.
  rewrite wp_bind. eapply wp_read; [apply PktData_reads | exact I | exact Ha |].
  rewrite wp_bind. eapply wp_pkt; [apply Write_acts | exact I | by right; left | exact Hb |].
  intros w' I' O' A'. by apply wp_ret.
Qed.
End echo.

(** ** Heaps *)

Lemma exec_acts {A} (m : M Heap A) l f r h a :
  acts m l f r -> heap_ok h -> abs h l = Some a ->
  heap_ok (exec m h) /\ abs (exec m h) l = Some (f a) /\ pool (exec m h) = pool h.
Proof.
  intros Hm Hok Ha. pose proof (Hm h a Hok Ha) as H. unfold wp, exec in *.
  destruct (m h) as [[x h']|]; [|done]. destruct H as (_ & F & A'). split; [apply F|].
  split; [done | apply F].
Qed.

(** One, two and three new packets (2, 5 and 8), none of them pooled. *)
Definition heap1 (o : list nat) : Heap := after_New (heap0 o).
Definition heap2 (o : list nat) : Heap := after_New (heap1 o).
Definition heap3 (o : list nat) : Heap := after_New (heap2 o).

Lemma heap1_ok o : heap_ok (heap1 o).
Proof. apply heap_ok_after_New, heap0_ok. Qed.
Lemma heap2_ok o : heap_ok (heap2 o).
Proof. apply heap_ok_after_New, heap1_ok. Qed.
Lemma heap3_ok o : heap_ok (heap3 o).
Proof. apply heap_ok_after_New, heap2_ok. Qed.

Lemma unpooled_healthy h : pool h = [] -> healthy h.
Proof. intros E l Hl. rewrite E in Hl. by apply not_elem_of_nil in Hl. Qed.

(** The application's request for the target "app.echo" with the data "hi". *)
Definition compose (l : nat) : M Heap unit :=
  Meta_Add l KeyRef "r1" ;;; Meta_Add l KeyTarget "app.echo" ;;;
  Write l (b_of_s "hi") ;;; Close l.

Definition hi_pkt : APkt :=
  a_close (a_write (b_of_s "hi") (a_add KeyTarget "app.echo" (a_add KeyRef "r1" blank))).

Definition heap_hi : Heap := exec (compose 2) (heap1 []).

Lemma heap_hi_ok : heap_ok heap_hi /\ abs heap_hi 2 = Some hi_pkt /\ pool heap_hi = [].
Proof.
  apply (exec_acts (compose 2) 2
    (fun a => a_close (a_write (b_of_s "hi") (a_add KeyTarget "app.echo" (a_add KeyRef "r1" a))))
    (fun _ => tt)); [|apply heap1_ok | reflexivity].
  eapply acts_ext; [unfold compose; repeat (eapply acts_seq; [eauto with concord|]);
    eauto with concord | done | done].
Qed.

Definition hi_meta : gmap string string := {[KeyRef := "r1"; KeyTarget := "app.echo"]}%string.

Lemma utf8_hi : utf8_map hi_meta.
Proof. by apply map_Forall_insert_2; [|apply map_Forall_singleton]. Qed.

(** ** Servers and clients *)

Definition server0 {E} (e : E) : SvrState E := svr_init (heap0 []) e.

Lemma server0_inv {E} (e : E) : inv [] (server0 e).
Proof.
  split; simpl; try done; [apply heap0_ok | by apply unpooled_healthy | apply NoDup_nil_2 |].
  intros l Hl. by apply not_elem_of_nil in Hl.
Qed.

(** A packet [l] of the heap in the hands of a handler. *)
Lemma holding_inv {E} h (e : E) l a :
  heap_ok h -> pool h = [] -> abs h l = Some a -> inv [l] (svr_init h e).
Proof.
  intros Hok Hp Ha. split; simpl; try done; [by apply unpooled_healthy | apply NoDup_singleton |].
  intros k ->%list_elem_of_singleton. rewrite Hp. split; [apply not_elem_of_nil | eauto].
Qed.

(** A packet [l] that waits to be sent. *)
Lemma waiting_inv {E} h (e : E) l a :
  heap_ok h -> pool h = [] -> abs h l = Some a -> inv [] (mk_SvrState h e [l] [] false).
Proof.
  intros Hok Hp Ha. split; simpl; try done; [by apply unpooled_healthy | apply NoDup_singleton |].
  intros k ->%list_elem_of_singleton. rewrite Hp. split; [apply not_elem_of_nil | eauto].
Qed.

Definition echo_server {E} : Processor (SvrState E) :=
  mk_Processor NewDataPipeline (AddCallback "app.echo" echo (PacketProcessor NewUDPServer)).

Definition client0 {E} (e : E) : CliState E := cli_init heap_hi e [].

Lemma client0_good {E} (e : E) : heap_good (client0 e).
Proof. destruct heap_hi_ok as (Hok & _ & Hp). split; [done | by apply unpooled_healthy]. Qed.

(** Key pairs on the toy curve. *)
Definition key_of (d : Z) : PrivateKey := mk_PrivateKey d (d * 2 ^ 250) 0.
Definition nonce0 : bytes := replicate nonceSize "n"%char.
