(* ===== verification/PacketWitnesses.v ===== *)
(** * PacketWitnesses: the packet and pipeline properties on concrete inputs *)

From Stdlib Require Import ZArith Lia Ascii String.
From stdpp Require Import base list strings gmap fin_maps.
From S2P Require Import Prelude Base64 Utf8 JsonText Decimal Json Packet PacketSpec PacketProps PacketSound.
From S2P Require Import Fmt Pipeline UDPServerProps Samples.
Open Scope Z_scope.

(** A datagram with metadata and no data member. *)
Definition meta_doc : bytes := "{"%char :: quote "m" ++ b_of_s ":{}}".

(** A heap whose only pooled packet last carried "hi". *)
Definition heap_pooled : Heap := mk_Heap (maps heap_hi) (pkts heap_hi) [2%nat] (next heap_hi) [0%nat].

Lemma heap_pooled_ok : heap_ok heap_pooled /\ healthy heap_pooled /\ abs heap_pooled 2 = Some hi_pkt.
Proof.
  destruct heap_hi_ok as (Hok & Ha & Hp). split; [|split].
  - apply (heap_ok_pool heap_hi); [done | apply NoDup_singleton |].
    intros l ->%list_elem_of_singleton. by vm_compute; eauto.
  - intros l ->%list_elem_of_singleton. eauto.
  - exact Ha.
Qed.

Lemma packet_refines_witness :
  keeps_meta meta_doc = true /\
  acts (Unmarshal 2 meta_doc) 2 (fun a => (a_unmarshal meta_doc a).1) (fun a => (a_unmarshal meta_doc a).2).
Proof. split; [reflexivity|]. apply (packet_refines 2). reflexivity. Defined.

Lemma packet_roundtrip_witness :
  wp (Close 2 ;;; Marshal 2) (fun ob _ => exists bin, ob = Some bin /\
    wp (receive_into bin) (fun res h' => res.2 = true /\
      abs h' res.1 = Some (mk_APkt (a_meta hi_pkt ∪ {[KeyRef := ""%string]}) (b_of_s "hi")
                             (s_of_b (Base64.encode (b_of_s "hi"))) "")) (heap1 [])) heap_hi.
Proof.
  apply (packet_roundtrip heap_hi 2 hi_pkt (heap1 []));
    [apply heap_hi_ok | apply heap_hi_ok | | apply heap1_ok | by apply unpooled_healthy].
  apply map_Forall_insert_2; [by vm_compute|]. apply map_Forall_insert_2; [by vm_compute|].
  apply map_Forall_empty.
Defined.

Lemma unmarshal_stale_witness :
  wp (let* ok := Unmarshal 2 meta_doc in let* d := PktData 2 in ret (ok, d))
     (fun res _ => res = (true, b_of_s "hi")) heap_hi.
Proof.
  apply (unmarshal_stale heap_hi 2 hi_pkt (b_of_s "hi") meta_doc [("m"%string, JObj [])]);
    [apply heap_hi_ok | apply heap_hi_ok | reflexivity..].
Defined.

Lemma err_pkt_leaks_witness :
  wp (let* e := NewErrPkt "r9" "peer" "no" in Marshal e)
     (fun ob _ => ob = Some (render_pkt
        (Some (<[KeySvrMsg := "no"%string]> (<[KeySvrStatus := "-1"%string]> {[KeyRef := "r9"%string]})))
        (s_of_b (Base64.encode (b_of_s "hi"))))) heap_pooled.
Proof.
  apply (err_pkt_leaks heap_pooled 2 hi_pkt);
    [apply heap_pooled_ok | apply heap_pooled_ok | reflexivity | apply heap_pooled_ok].
Defined.

Lemma null_meta_panics_witness :
  (let* ok := Unmarshal 2 null_meta_doc in
   if (ok : bool) then PutBack 2 ;;; NewPkt "" "" else ret 2%nat) (heap1 [0%nat]) = Panic NilMapWrite.
Proof. apply (null_meta_panics (heap1 [0%nat]) 2 blank [] []); reflexivity. Defined.

(** A transform that appends a byte, and one that stops the pipeline. *)
Definition append_x : BufferTransform unit := fun ctx d => ret (ctx, d ++ ["x"%char]).
Definition halt : BufferTransform unit := fun ctx d => ret (t_stop CodeStopNoop "" ctx, d).

Definition out_ctx0 : TransformContext :=
  mk_TransformContext (mk_PipelineCtx None 0 "") "_out_" "".

Lemma AddTransform_runs_last_witness :
  DataProcess (AddTransform "_out_" append_x (AddTransform "_out_" append_x NewDataPipeline))
    out_ctx0 [] tt = Ok ((out_ctx0, ["x"; "x"]%char, None), tt) /\
  DataProcess (AddTransform "_out_" append_x (AddTransform "_out_" halt NewDataPipeline))
    out_ctx0 [] tt = Ok ((t_stop CodeStopNoop "" out_ctx0, [], None), tt).
Proof. split; (rewrite AddTransform_runs_last; [reflexivity | reflexivity]). Defined.

Definition count : TargetCallback nat := fun ctx _ w => Ok (ctx, S w).
Definition refuse : TargetCallback nat := fun ctx _ w => Ok (c_stop CodeStopError "no" ctx, w).
Definition relay : TargetCallback nat := fun ctx _ w => Ok (c_stop CodeRelay "" ctx, w).

Definition app_ctx : TargetCtx := mk_TargetCtx (mk_PipelineCtx (Some 2%nat) 0 "") "app" "peer".

Lemma AddCallback_runs_last_witness :
  PacketProcess (AddCallback "app" count (AddCallback "app" count NewPacketPipeline)) app_ctx 5 0%nat
    = Ok ((app_ctx, None), 2%nat) /\
  PacketProcess (AddCallback "app" count (AddCallback "app" refuse NewPacketPipeline)) app_ctx 5 0%nat
    = Ok ((c_stop CodeStopError "no" app_ctx, Some "no"%string), 0%nat).
Proof. split; (rewrite AddCallback_runs_last; [reflexivity | reflexivity]). Defined.

Lemma relay_does_not_stop_witness :
  run_callbacks [relay; count] app_ctx 5 0%nat
  = run_callbacks [count] (c_stop CodeRelay "" app_ctx) 5 0%nat /\
  run_callbacks [count] (c_stop CodeRelay "" app_ctx) 5 0%nat
  = Ok ((c_stop CodeRelay "" app_ctx, None), 1%nat).
Proof.
  split; [|reflexivity].
  apply (relay_does_not_stop relay [count] app_ctx 5 0%nat (c_stop CodeRelay "" app_ctx)); reflexivity.
Defined.

(** A heap whose pooled packet has lost its metadata map: the next packet is not
    created, but nothing else happens. *)
Definition heap_null : Heap := exec (Unmarshal 2 null_meta_doc) (heap1 [0%nat]).
Definition heap_null_pooled : Heap := exec (PutBack 2) heap_null.

Lemma heap_null_ok : heap_ok heap_null_pooled.
Proof.
  assert (H1 : sound false (Unmarshal 2 null_meta_doc) (fun _ h' => pool h' = pool (heap1 [0%nat])) (heap1 [0%nat]))
    by (apply sound_Unmarshal; [apply heap1_ok | by vm_compute; eexists]).
  unfold sound in H1. change (heap_ok (exec (PutBack 2) (exec (Unmarshal 2 null_meta_doc) (heap1 [0%nat])))).
  unfold exec at 2. destruct (Unmarshal 2 null_meta_doc (heap1 [0%nat])) as [[b h']|e]; [|by destruct H1].
  destruct H1 as (Ho & Hg & Hp). pose proof (PutBack_spec h' 2 Ho (Hg 2%nat ltac:(by vm_compute; eexists))) as H2.
  rewrite Hp in H2. specialize (H2 ltac:(apply not_elem_of_nil)). by destruct H2.
Qed.

Lemma packets_sound_witness :
  sound true (NewPkt "r" "peer") taken heap_null_pooled /\
  NewPkt "r" "peer" heap_null_pooled = Panic NilMapWrite.
Proof.
  split; [|vm_compute; reflexivity].
  exact (proj1 (proj2 (packets_sound heap_null_pooled heap_null_ok)) "r"%string "peer"%string).
Defined.
