(* ===== verification/CryptoWitnesses.v ===== *)
(** * CryptoWitnesses: the properties of the cryptographic extension on
    concrete inputs, with the toy cipher and curve *)

From Stdlib Require Import ZArith Lia Ascii String.
From stdpp Require Import base list strings gmap fin_maps relations.
From S2P Require Import Prelude Base64 Utf8 JsonText Decimal Json Packet PacketSpec PacketProps.
From S2P Require Import Fmt Pipeline Cipher Crypto CryptoSpec KeyStores Interfaces UDPServer UDPServerSpec UDPServerProps Samples.
Open Scope Z_scope.

Abbreviation W := (SvrState Crypto).

(** A key store of the peer with a usable key. *)
Definition peer_key (s : Z) : keyStore := mk_keyStore true s (mk_PublicKey (Some 1) (Some 1)).

Definition crypto_with (s : Z) : Crypto :=
  mk_Crypto {["peer"%string := peer_key s]} (key_of 1) [] [inr nonce0].

(** Packet 2 carries "hi" for "peer". *)
Definition heap_out : Heap := exec (SetDest 2 "peer") heap_hi.
Definition out_pkt : APkt := a_set_dest "peer" hi_pkt.

Lemma heap_out_ok : heap_ok heap_out /\ abs heap_out 2 = Some out_pkt /\ pool heap_out = [].
Proof.
  destruct heap_hi_ok as (Hok & Ha & Hp). rewrite <- Hp.
  apply (exec_acts _ 2 (a_set_dest "peer") (fun _ => tt)); [apply SetDest_acts | done | done].
Qed.

Definition sender : W := svr_init heap_out (crypto_with (2 ^ 250)).
Definition tctx2 : TransformContext := out_tctx 2.
Definition from_peer : TransformContext := in_ctx "peer".

Lemma encryptTransport_behaviour_witness :
  encryptTransport tctx2 (b_of_s "data") sender
  = Ok ((tctx2, nonce0 ++ Seal (BigBytes (2 ^ 250)) nonce0 (b_of_s "data")),
        svr_init heap_out (mk_Crypto (keys (crypto_with (2 ^ 250))) (key_of 1) [] [])).
Proof.
  rewrite (encryptTransport_behaviour (W := W) sender tctx2 2 out_pkt);
    [vm_compute; reflexivity | reflexivity | apply heap_out_ok | apply heap_out_ok].
Defined.

Lemma transport_roundtrip_witness :
  exists w' sealed,
    encryptTransport tctx2 (b_of_s "data") sender = Ok ((tctx2, sealed), w') /\
    decryptTransport from_peer sealed sender = Ok ((from_peer, b_of_s "data"), sender).
Proof.
  apply (transport_roundtrip (W := W) sender sender tctx2 from_peer 2 out_pkt (b_of_s "data")
    (peer_key (2 ^ 250)) (peer_key (2 ^ 250)) nonce0);
    [reflexivity | apply heap_out_ok | apply heap_out_ok | vm_compute; reflexivity..].
Defined.

Lemma decryptTransport_short_panics_witness :
  decryptTransport from_peer (b_of_s "short") sender = Panic SliceBounds.
Proof.
  apply (decryptTransport_short_panics (W := W) sender from_peer (b_of_s "short") (peer_key (2 ^ 250)));
    [vm_compute; reflexivity | vm_compute; reflexivity | vm_compute; lia].
Defined.

Lemma decryptTransport_behaviour_witness :
  exists d, decryptTransport from_peer nonce0 sender = Ok ((from_peer, d), sender) /\
    (d = nonce0 \/ exists ks, keys (proj (S := Crypto) sender) !! t_From from_peer = Some ks /\
       drop nonceSize nonce0 = Seal (BigBytes (shared ks)) (take nonceSize nonce0) d).
Proof. apply (decryptTransport_behaviour (W := W) sender from_peer nonce0). vm_compute. lia. Defined.

(** The server's and the client's ends of a key exchange. *)
Definition kex_server : Crypto := crypto_of (key_of 1) [inr nonce0].
Definition kex_client : Crypto := crypto_of (key_of 1) [].

Definition kex_heap : Heap := exec (Write 2 (publicKey kex_client)) (heap3 []).
Definition kex_req : APkt := a_write (publicKey kex_client) blank.

Lemma kex_heap_ok : heap_ok kex_heap /\ abs kex_heap 2 = Some kex_req /\ pool kex_heap = [].
Proof.
  apply (exec_acts (Write 2 (publicKey kex_client)) 2 (a_write (publicKey kex_client)) (fun _ => tt));
    [apply Write_acts | apply heap3_ok | reflexivity].
Qed.

Lemma kex_blank l : l = 5%nat \/ l = 8%nat -> abs kex_heap l = Some blank.
Proof. by intros [-> | ->]. Qed.

Definition kex_ctx : TargetCtx := mk_TargetCtx (mk_PipelineCtx (Some 2%nat) 0 "") "" "peer".

(** The client's packet that carries the server's answer. *)
Definition resp_heap : Heap := exec (Write 2 (publicKey kex_server)) (heap1 []).
Definition resp_pkt : APkt := a_write (publicKey kex_server) blank.

Lemma resp_heap_ok : heap_ok resp_heap /\ abs resp_heap 2 = Some resp_pkt /\ pool resp_heap = [].
Proof.
  apply (exec_acts (Write 2 (publicKey kex_server)) 2 (a_write (publicKey kex_server)) (fun _ => tt));
    [apply Write_acts | apply heap1_ok | reflexivity].
Qed.

Lemma key_agreement_witness :
  wp (keyExchangeServer kex_ctx 5%nat) (fun _ (ws' : W) =>
    forall b', abs (s_heap ws') 5 = Some b' -> a_buff resp_pkt = a_buff b' ->
    exists (wc' : W) kss ksc,
      ProcessKeyExResp "svr" 2 (svr_init resp_heap kex_client) = Ok (true, wc') /\
      keys (s_ext ws') !! "peer"%string = Some kss /\ keys (s_ext wc') !! "svr"%string = Some ksc /\
      shared kss = shared ksc) (svr_init kex_heap kex_server).
Proof.
  refine (key_agreement (W := W) (svr_init kex_heap kex_server) (svr_init resp_heap kex_client)
    kex_ctx 2 5 kex_req blank 2 resp_pkt "svr" _ _ _ _ _ _ _ _ _ _ _ _);
    [reflexivity | apply kex_heap_ok | apply resp_heap_ok | apply kex_heap_ok
    | apply kex_blank; by left | apply resp_heap_ok | by vm_compute | by vm_compute | reflexivity..].
Defined.

(** Packet 8 is one for the client after the exchange. *)
Definition kex_heap2 : Heap := exec (SetDest 8 "peer") kex_heap.
Definition next_pkt : APkt := a_set_dest "peer" blank.

Lemma kex_heap2_ok : heap_ok kex_heap2 /\ abs kex_heap2 8 = Some next_pkt /\ pool kex_heap2 = pool kex_heap.
Proof.
  apply (exec_acts (SetDest 8 "peer") 8 (a_set_dest "peer") (fun _ => tt));
    [apply SetDest_acts | apply kex_heap_ok | reflexivity].
Qed.

Lemma packet_after_exchange_in_clear_witness :
  wp (keyExchangeServer kex_ctx 5%nat ;;;
      let* r1 := encryptTransport (out_tctx 5) (b_of_s "key") in
      let* r2 := encryptTransport (out_tctx 8) (b_of_s "secret") in
      let* r3 := encryptTransport (out_tctx 8) (b_of_s "secret") in
      ret (r1.2, r2.2, r3.2))
     (fun res (_ : W) => res = (b_of_s "key", b_of_s "secret",
        nonce0 ++ Seal (BigBytes (2 ^ 250)) nonce0 (b_of_s "secret")))
     (svr_init kex_heap2 kex_server).
Proof.
  refine (packet_after_exchange_in_clear (W := W) (svr_init kex_heap2 kex_server) kex_ctx 2 5 kex_req blank
    (2 ^ 250) 0 (out_tctx 5) (out_tctx 8) 8 next_pkt (b_of_s "key") (b_of_s "secret") nonce0
    _ _ _ _ _ _ _ _ _ _ _ _ _);
    [reflexivity | reflexivity | reflexivity | apply kex_heap2_ok | done | reflexivity | reflexivity
    | apply kex_heap2_ok | vm_compute; reflexivity..].
Defined.

(** The receiver's packet with what the sender sealed. *)
Definition sealed_hi : bytes := nonce0 ++ Seal (BigBytes (2 ^ 250)) nonce0 (b_of_s "hi").
Definition sealed_heap : Heap := exec (Clear 2 ;;; Write 2 sealed_hi) heap_hi.
Definition sealed_pkt : APkt := a_set_buff sealed_hi hi_pkt.

Lemma sealed_heap_ok :
  heap_ok sealed_heap /\ abs sealed_heap 2 = Some sealed_pkt /\ pool sealed_heap = pool heap_hi.
Proof.
  apply (exec_acts (Clear 2 ;;; Write 2 sealed_hi) 2 (a_set_buff sealed_hi) (fun _ => tt) heap_hi hi_pkt);
    [|apply heap_hi_ok | apply heap_hi_ok].
  eapply acts_ext; [eapply acts_seq; eauto with concord | done | done].
Qed.

Lemma e2e_roundtrip_witness :
  wp (EncryptE2E "peer" 2) (fun err (w' : W) => err = None /\ forall a',
    abs (proj (S := Heap) w') 2 = Some a' -> a_buff sealed_pkt = a_buff a' ->
    wp (DecryptE2E "peer" 2) (fun err (wr' : W) => err = None /\
      abs (proj (S := Heap) wr') 2 = Some (a_close (a_set_buff (a_buff hi_pkt) sealed_pkt)))
      (svr_init sealed_heap (crypto_with (2 ^ 250)))) (svr_init heap_hi (crypto_with (2 ^ 250))).
Proof.
  refine (e2e_roundtrip (W := W) (svr_init heap_hi (crypto_with (2 ^ 250)))
    (svr_init sealed_heap (crypto_with (2 ^ 250))) 2 2 hi_pkt sealed_pkt "peer" "peer"
    (peer_key (2 ^ 250)) (peer_key (2 ^ 250)) nonce0 _ _ _ _ _ _ _ _ _ _);
    [apply heap_hi_ok | apply heap_hi_ok | apply sealed_heap_ok | apply sealed_heap_ok
    | vm_compute; reflexivity..].
Defined.

(** ** Key stores behind pointers *)

Definition store_of (sent : bool) : keyStore := mk_keyStore sent (2 ^ 250) (mk_PublicKey (Some 1) (Some 1)).
Definition pcrypto (sent : bool) : PCrypto :=
  mk_PCrypto {["peer"%string := 0%nat]} [store_of sent] (key_of 1) [] [inr nonce0].

Lemma pcrypto_ok sent : ks_ok (pcrypto sent).
Proof.
  split; simpl.
  - intros a b p [<- _]%lookup_singleton_Some [<- _]%lookup_singleton_Some. done.
  - intros a p [_ <-]%lookup_singleton_Some. eauto.
Qed.

Lemma keystores_sequential_witness :
  exists t c', run_enc (EBegin (a_get KeyNoCrypto out_pkt) "peer" (b_of_s "data")) (pcrypto true) = Ok (t, c') /\ ks_ok c' /\
    encryptTransport tctx2 (b_of_s "data") sender = Ok ((enc_ctx t tctx2, enc_data t), upd (flat c') sender).
Proof.
  refine (keystores_sequential (W := W) sender tctx2 2 out_pkt (b_of_s "data") (pcrypto true) _ _ _ _ _);
    [reflexivity | apply heap_out_ok | apply heap_out_ok | apply pcrypto_ok
    | vm_compute; reflexivity].
Defined.

Lemma keystores_race_witness :
  exists c', rtc (ks_step (fun _ => False)) (pcrypto false, [EStart "peer" (b_of_s "a"); EStart "peer" (b_of_s "b")])
    (c', [EClear (b_of_s "a"); EClear (b_of_s "b")]) /\ sent_store "peer" 0 (2 ^ 250) c'.
Proof.
  refine (keystores_race (fun _ => False) (pcrypto false) "peer" 0 (store_of false) [b_of_s "a"; b_of_s "b"] _ _ _ _);
    [reflexivity | reflexivity | reflexivity | discriminate].
Defined.

Lemma keystores_sealed_witness :
  (forall x, ESealed (nonce0 ++ Seal (BigBytes (2 ^ 250)) nonce0 (b_of_s "a")) <> EClear x) /\
  forall x, ESealed (nonce0 ++ Seal (BigBytes (2 ^ 250)) nonce0 (b_of_s "a")) = ESealed x ->
    exists n, x = n ++ Seal (BigBytes (2 ^ 250)) n (b_of_s "a") /\ key_ok (BigBytes (2 ^ 250)) = true.
Proof.
  refine (keystores_sealed (fun _ => False) (pcrypto true) [EBegin "" "peer" (b_of_s "a")] "" "peer" 0 (2 ^ 250)
    (b_of_s "a") 0 (exec (run_enc (EBegin "" "peer" (b_of_s "a"))) (pcrypto true))
    [ESealed (nonce0 ++ Seal (BigBytes (2 ^ 250)) nonce0 (b_of_s "a"))]
    (ESealed (nonce0 ++ Seal (BigBytes (2 ^ 250)) nonce0 (b_of_s "a"))) _ _ _ _ _ _);
    [split; [reflexivity | by exists (store_of true)] | intros [] | reflexivity | reflexivity | | reflexivity].
  eapply (ks_thread _ _ (pcrypto true) _ (EStart "peer" (b_of_s "a")) [] []); [vm_compute; reflexivity|].
  eapply (ks_thread _ _ (pcrypto true) _ (EFound 0 (b_of_s "a")) [] []); [vm_compute; reflexivity|].
  eapply (ks_thread _ _ (pcrypto true) _ (ESent 0 (b_of_s "a")) [] []); [vm_compute; reflexivity|].
  eapply (ks_thread _ _ (exec (run_enc (EBegin "" "peer" (b_of_s "a"))) (pcrypto true)) _
    (ESealed (nonce0 ++ Seal (BigBytes (2 ^ 250)) nonce0 (b_of_s "a"))) [] []); [vm_compute; reflexivity|].
  apply rtc_refl.
Defined.

(** ** JSON packets behind the packet interfaces *)

Lemma e2e_any_packet_witness :
  wp (let* e := EncryptE2E_any (S := Heap) (P := nat) (W := W) "peer" 2%nat in
      let* ob := on_pkt (WClose 2%nat ;;; IMarshal 2%nat) in ret (e, ob))
    (fun '(e, ob) _ => e = None /\ exists bin, ob = Some bin /\
      wp (let* q := on_pkt (S := Heap) (INewPkt "" "") in
          let* ok := on_pkt (IUnmarshal q bin) in
          let* e := DecryptE2E_any (W := W) "peer" q in ret (q, ok, e))
        (fun '(q, ok, e) wr' => ok = true /\ e = None /\
          view (proj (S := Heap) wr') q
            = Some (mk_contents (c_meta (contents_of out_pkt) ∪ {[KeyRef := ""%string]}) (c_data (contents_of out_pkt)) ""))
        sender) sender.
Proof.
  refine (e2e_any_packet (S := Heap) (P := nat) (W := W) sender sender 2%nat (contents_of out_pkt) "peer" "peer"
    (peer_key (2 ^ 250)) (peer_key (2 ^ 250)) nonce0 _ _ _ _ _ _ _ _ _ _);
    [ | | | | vm_compute; reflexivity | vm_compute; reflexivity | reflexivity | vm_compute; reflexivity..].
  - split; [apply heap_out_ok | apply unpooled_healthy, heap_out_ok].
  - destruct heap_out_ok as (_ & Ha & _). unfold view, json_laws, json_view. simpl. by rewrite Ha.
  - apply map_Forall_insert_2; [by vm_compute|]. apply map_Forall_insert_2; [by vm_compute|]. apply map_Forall_empty.
  - split; [apply heap_out_ok | apply unpooled_healthy, heap_out_ok].
Defined.
