(* ===== verification/ServerWitnesses.v ===== *)
(** * ServerWitnesses: the properties of the UDP and TCP servers on concrete
    inputs *)

From Stdlib Require Import ZArith Lia Ascii String.
From stdpp Require Import base list strings gmap fin_maps relations.
From S2P Require Import Prelude Base64 Utf8 JsonText Decimal Json JsonNul Packet PacketSpec PacketProps.
From S2P Require Import Fmt Pipeline Cipher Crypto CryptoSpec UDPServer UDPServerSpec UDPServerProps.
From S2P Require Import ServerDrain ServerThreads ServerThreadsProps Throttle TCPServer TCPServerProps TCPConnProps TCPThreads Samples.
Open Scope Z_scope.

Abbreviation W := (SvrState unit).

Definition relay_server : Processor W := NewUDPServer.
Definition any_meta (d : bytes) : Prop := keeps_meta d = true.

(** The server after it has received the text "x". *)
Definition after_x : W := exec (processIncoming relay_server (b_of_s "x") "peer") (server0 tt).

Lemma read_x : processIncoming relay_server (b_of_s "x") "peer" (server0 tt) = Ok (tt, after_x).
Proof. vm_compute. reflexivity. Qed.

Lemma reach_x : reachable relay_server any_meta (Serve_init (server0 tt)) (mk_Server after_x 5 []).
Proof.
  eapply reach_step; [apply reach_init|].
  apply (step_read _ _ (server0 tt) after_x 5 [] (b_of_s "x") "peer"); [lia | done | apply read_x].
Qed.

(** Four of the five readers have stopped. *)
Lemma reach_x1 : reachable relay_server any_meta (Serve_init (server0 tt)) (mk_Server after_x 1 []).
Proof.
  assert (H : forall n, (0 < n <= 5)%nat ->
    reachable relay_server any_meta (Serve_init (server0 tt)) (mk_Server after_x n []) ->
    (1 < n)%nat -> reachable relay_server any_meta (Serve_init (server0 tt)) (mk_Server after_x (n - 1) [])).
  { intros [|n] Hn Hr H1; [lia|]. replace (S n - 1)%nat with n by lia.
    eapply reach_step; [exact Hr|]. pose proof (step_read_error relay_server any_meta after_x n []) as Hs.
    destruct n; [lia|]. rewrite orb_false_r in Hs. apply Hs. done. }
  apply (H 2%nat); [lia| | lia]. apply (H 3%nat); [lia| | lia]. apply (H 4%nat); [lia| | lia].
  apply (H 5%nat); [lia | apply reach_x | lia].
Qed.

Lemma server_ownership_witness :
  NoDup (pool (s_heap after_x) ++ sendStream after_x) /\
  forall l, l ∈ pool (s_heap after_x) ++ sendStream after_x -> is_Some (abs (s_heap after_x) l).
Proof.
  refine (server_ownership any_meta (fun _ => True) relay_server (server0 tt) (mk_Server after_x 5 []) _ _ _ _);
    [apply NewUDPServer_safe | apply server0_inv | apply reach_x | simpl; lia].
Defined.

Lemma server_no_panic_witness : SendOnClosed = SendOnClosed /\ readers (mk_Server after_x 1 []) = 1%nat.
Proof.
  refine (server_no_panic any_meta (fun _ => True) relay_server (server0 tt) (mk_Server after_x 1 [])
    SendOnClosed _ _ _ _ _);
    [apply NewUDPServer_safe | apply server0_inv | apply reach_x1 | simpl; lia |].
  apply panic_close. left. vm_compute. discriminate.
Defined.

(** The same server with threads, in the middle of a second datagram. *)
Definition in_flight (n : nat) : Threads unit :=
  mk_Threads after_x [incoming_prog relay_server (b_of_s "null") "peer"] n [].

Lemma reach_in_flight n w out :
  reachable relay_server any_meta (Serve_init (server0 tt)) (mk_Server w n out) -> (0 < n)%nat ->
  rtc (th_step relay_server any_meta) (threads_init (server0 tt))
    (mk_Threads w [incoming_prog relay_server (b_of_s "null") "peer"] n out).
Proof.
  intros Hr Hn. etransitivity; [exact (reachable_threads _ _ _ _ Hr)|]. apply rtc_once.
  by apply (th_read relay_server any_meta w [] n out (b_of_s "null") "peer").
Qed.

Lemma threads_handlers_example :
  run_thread (incoming_prog relay_server (b_of_s "x") "peer") (server0 tt) = Ok (tt, after_x).
Proof. vm_compute. reflexivity. Qed.

Lemma threads_simulate_witness :
  rtc (th_step relay_server any_meta) (idle_threads (Serve_init (server0 tt)))
    (idle_threads (mk_Server after_x 5 [])).
Proof. exact (threads_simulate relay_server any_meta _ _ reach_x). Defined.

Lemma threads_ownership_witness :
  exists os, Forall2 tsafe (threads (in_flight 5)) os /\
    let all := pool (s_heap after_x) ++ sendStream after_x ++ (concat os).*1 in
    NoDup all /\ forall l, l ∈ all -> is_Some (abs (s_heap after_x) l).
Proof.
  refine (threads_ownership any_meta (fun _ => True) relay_server (server0 tt) (in_flight 5) _ _ _ _);
    [apply NewUDPServer_safe | apply server0_inv | by apply reach_in_flight; [apply reach_x | lia]
    | simpl; lia].
Defined.

Lemma threads_no_panic_witness : SendOnClosed = SendOnClosed /\ th_readers (in_flight 1) = 1%nat.
Proof.
  refine (threads_no_panic any_meta (fun _ => True) relay_server (server0 tt) (in_flight 1)
    SendOnClosed _ _ _ _ _);
    [apply NewUDPServer_safe | apply server0_inv | by apply reach_in_flight; [apply reach_x1 | lia]
    | simpl; lia |].
  apply th_panic_close; [done|]. left. vm_compute. discriminate.
Defined.

Lemma malformed_reported_witness :
  wp (processIncoming relay_server (b_of_s "x") "peer")
     (fun _ w' => sends_one (server0 tt) w' (is_err "" "peer" "malformed packet")) (server0 tt).
Proof.
  refine (malformed_reported relay_server _ (b_of_s "x") "peer" (server0 tt) _ _);
    [reflexivity | apply server0_inv | vm_compute; reflexivity].
Defined.

Lemma unknown_target_reported_witness :
  wp (processIncoming relay_server (datagram hi_meta (b_of_s "hi")) "peer")
     (fun _ w' => sends_one (server0 tt) w' (is_err (default ""%string (hi_meta !! KeyRef)) "peer"
        "packet pipeline error: target not found")) (server0 tt).
Proof.
  refine (unknown_target_reported relay_server _ hi_meta (b_of_s "hi") "peer" (server0 tt) _ _ _);
    [reflexivity | apply server0_inv | apply utf8_hi | vm_compute; reflexivity].
Defined.

Lemma request_answered_witness :
  wp (processIncoming echo_server (datagram hi_meta (b_of_s "hi")) "peer")
     (fun _ w' => sends_one (server0 tt) w' (fun x => exists d,
        x = a_close (echo_effect (request hi_meta (b_of_s "hi"))
              (fresh_pkt (default ""%string (hi_meta !! KeyRef)) "peer" d)))) (server0 tt).
Proof.
  refine (request_answered echo_server _ hi_meta (b_of_s "hi") "peer" (server0 tt) echo echo_effect _ _ _ _);
    [reflexivity | apply server0_inv | apply utf8_hi | apply echo_answers | reflexivity].
Defined.

Definition relay_meta : gmap string string :=
  {[KeyRef := "r1"; KeyTarget := TargetRelay; KeyRelayTo := "other"]}%string.


Lemma outgoing_written_witness :
  wp (processOutgoing relay_server 2) (fun _ w' => inv [] w' /\ s_ext w' = tt /\
    sendStream w' = [] /\ pool (s_heap w') = [2%nat] /\
    writeStream w' = [mk_writePacket (render_pkt (Some (a_meta hi_pkt)) (a_data hi_pkt)) ""])
    (svr_init heap_hi tt).
Proof.
  refine (outgoing_written relay_server 2 hi_pkt (svr_init heap_hi tt) _ _ _);
    [reflexivity | eapply holding_inv; apply heap_hi_ok | apply heap_hi_ok].
Defined.

(** A server with a waiting packet for a client whose secret has a zero byte. *)
Definition bad_crypto : Crypto :=
  mk_Crypto {[""%string := mk_keyStore true (2 ^ 200) (mk_PublicKey (Some 1) (Some 1))]} (key_of 1) [] [].
Definition bad_server : Server Crypto := mk_Server (mk_SvrState heap_hi bad_crypto [2%nat] [] false) 5 [].
Definition crypto_server : Processor (SvrState Crypto) := (Extend "server" NewUDPServer).1.

Lemma bad_server_doomed : doomed "" (svr bad_server).
Proof.
  split.
  - eapply waiting_inv; apply heap_hi_ok.
  - eexists. split; [apply lookup_singleton_eq|]. split; [done | by vm_compute].
  - constructor; [|constructor]. exists hi_pkt. split_and!; try done; apply heap_hi_ok.
  - done.
Qed.

(** The server after one round of the loop: an error packet waits. *)
Definition bad_server1 : Server Crypto :=
  mk_Server (exec (processOutgoing crypto_server 2) (mk_SvrState heap_hi bad_crypto [] [] false)) 5 [].

Lemma unusable_key_loops_witness :
  doomed "" (svr bad_server1) /\ length (sendStream (svr bad_server1)) = 1%nat /\
  wire_out bad_server1 ++ writeStream (svr bad_server1) ≡ₚ [] /\
  exists s'', svr_step crypto_server (fun _ => False) bad_server1 s''.
Proof.
  refine (unusable_key_loops crypto_server "" "" bad_server bad_server1 _ _ _ _);
    [apply (Extend_server_out NewUDPServer) | reflexivity | apply bad_server_doomed | apply rtc_once].
  apply (step_send _ _ _ _ 5 [] [] 2 []); vm_compute; reflexivity.
Defined.

(** ** TCP *)

Lemma tcp_short_read_malformed_witness :
  wp (tcp_processIncoming relay_server "0.0.0.0:1" (read_conn_buffer 64 (datagram hi_meta (b_of_s "hi"))))
     (fun _ w' => sends_one (server0 tt) w' (is_err "" "0.0.0.0:1" "malformed packet")) (server0 tt).
Proof.
  refine (tcp_short_read_malformed relay_server "0.0.0.0:1" 64 (datagram hi_meta (b_of_s "hi")) (server0 tt) _ _ _);
    [reflexivity | apply server0_inv | vm_compute; lia].
Defined.

Lemma tcp_handlers_safe_witness :
  wp (readConn relay_server "0.0.0.0:1" 4 [ReadData (b_of_s "null"); ReadTemporary; ReadData (b_of_s "x"); ReadFatal])
     (fun _ w' => inv [] w') (server0 tt) /\
  wp (tcp_processOutgoing relay_server 2) (fun _ w' => inv [] w') (svr_init heap_hi tt).
Proof.
  refine (tcp_handlers_safe any_meta (fun _ => True) relay_server "0.0.0.0:1" 4
    [ReadData (b_of_s "null"); ReadTemporary; ReadData (b_of_s "x"); ReadFatal] 2
    (server0 tt) (svr_init heap_hi tt) _ _ _ _);
    [apply NewUDPServer_safe | | apply server0_inv | eapply holding_inv; apply heap_hi_ok].
  intros d Hd. repeat (apply elem_of_cons in Hd as [[= ->]|Hd]; [vm_compute; reflexivity|]).
  repeat (apply elem_of_cons in Hd as [Hd|Hd]; [try discriminate Hd; injection Hd as ->; vm_compute; reflexivity|]).
  by apply not_elem_of_nil in Hd.
Defined.

(** A server without the relay target. *)
Definition plain_server : Processor W :=
  mk_Processor NewDataPipeline (AddCallback "app.echo" echo NewPacketPipeline).

Lemma plain_server_queue target cbs :
  callbackQueues (PacketProcessor plain_server) !! target = Some cbs -> cbs = [echo].
Proof.
  simpl. destruct (decide (target = "app.echo"%string)) as [->|Hne].
  - by intros [= <-].
  - by rewrite lookup_insert_ne, lookup_empty.
Qed.

Lemma plain_server_no_relay : queues_no_relay (PacketProcessor plain_server).
Proof.
  intros target cbs ->%plain_server_queue. constructor; [|constructor].
  intros ctx pw w ctx' w' Hrun Hs. unfold echo, bind in Hrun.
  repeat case_match; simplify_eq. by injection Hrun as <- <-.
Qed.

Lemma plain_server_quiet : processor_quiet plain_server.
Proof.
  split; [constructor|]. intros target cbs ->%plain_server_queue.
  constructor; [|constructor]. intros ctx pw. unfold echo, svr_pkt.
  destruct (Pkt (c_ctx ctx)); apply _.
Qed.

Lemma tcp_incoming_equivalent_witness :
  tcp_processIncoming plain_server "0.0.0.0:1" (datagram hi_meta (b_of_s "hi")) (server0 tt)
  = processIncoming plain_server (datagram hi_meta (b_of_s "hi")) "0.0.0.0:1" (server0 tt).
Proof.
  exact (tcp_incoming_equivalent plain_server "0.0.0.0:1" (datagram hi_meta (b_of_s "hi")) (server0 tt)
    plain_server_no_relay).
Defined.

(** A connection that has read a whole packet. *)
Definition hi_size : nat := length (datagram hi_meta (b_of_s "hi")).
Definition conn_hi : W :=
  exec (tcp_processIncoming plain_server "0.0.0.0:1"
    (read_conn_buffer hi_size (datagram hi_meta (b_of_s "hi")))) (server0 tt).

Lemma conn_hi_reached :
  conn_reachable plain_server "0.0.0.0:1" hi_size (serve_start (server0 tt))
    (mk_connection conn_hi false true true false []).
Proof.
  eapply conn_next; [apply conn_init|].
  apply (conn_read _ _ _ (server0 tt) conn_hi false true false [] (datagram hi_meta (b_of_s "hi"))).
  vm_compute. reflexivity.
Qed.

Lemma tcp_connection_silent_witness :
  sendStream conn_hi <> [] /\ writeStream conn_hi = [].
Proof.
  split; [by vm_compute|].
  refine (proj1 (proj2 (tcp_connection_silent plain_server "0.0.0.0:1" hi_size (server0 tt)
    (mk_connection conn_hi false true true false []) plain_server_quiet _ conn_hi_reached))).
  reflexivity.
Defined.

Lemma tcp_sending_answers_witness :
  exists w' d,
    nsteps (conn_step plain_server "0.0.0.0:1" hi_size) 3
      (mk_connection (server0 tt) false true true true [])
      (mk_connection w' false true true true
         ([] ++ [let resp := a_close (echo_effect (request hi_meta (b_of_s "hi"))
                    (fresh_pkt (default ""%string (hi_meta !! KeyRef)) "0.0.0.0:1" d)) in
                 render_pkt (Some (a_meta resp)) (a_data resp)])) /\
    inv [] w' /\ sendStream w' = [] /\ writeStream w' = [].
Proof.
  refine (tcp_sending_answers plain_server (conj eq_refl eq_refl) "0.0.0.0:1" hi_size hi_meta (b_of_s "hi")
    (server0 tt) [] echo echo_effect _ _ _ _ _ _ _ _);
    [apply server0_inv | reflexivity | reflexivity | apply utf8_hi | reflexivity | apply echo_answers
    | apply plain_server_no_relay | reflexivity].
Defined.

(** Two connections of a server with the pipelines of [NewTCPServer], each with a
    handler at work. *)
Definition tcp_pipes : Processor W := mk_Processor NewDataPipeline NewPacketPipeline.

Lemma tcp_pipes_safe : processor_safe any_meta (fun _ => True) tcp_pipes.
Proof. apply plain_processor_safe; [done | done | apply queues_safe_new]. Qed.

Definition tcp_busy (sn : bool) (d : bytes) : tconn :=
  mk_tconn [] [] false true true sn [tcp_incoming_prog tcp_pipes "0.0.0.0:1" (read_conn_buffer 4 d)] [].

Definition tcp_two (sn : bool) : tserver :=
  mk_tserver (heap0 []) tt [tcp_busy sn (b_of_s "x"); tcp_busy sn (b_of_s "null")].

Lemma tcp_busy_step sn d :
  any_meta (read_conn_buffer 4 d) ->
  tconn_step tcp_pipes "0.0.0.0:1" 4 any_meta (heap0 [], tt, tconn_start sn) (heap0 [], tt, tcp_busy sn d).
Proof. exact (tconn_read tcp_pipes "0.0.0.0:1" 4 any_meta (heap0 []) tt [] [] false true sn [] [] d). Qed.

Lemma tcp_two_reached sn :
  rtc (tcp_step tcp_pipes "0.0.0.0:1" 4 any_meta sn) (mk_tserver (heap0 []) tt []) (tcp_two sn).
Proof.
  eapply rtc_l; [apply tcp_serve|]. eapply rtc_l; [apply tcp_serve|].
  eapply rtc_l; [apply (tcp_conn _ _ _ _ _ _ _ [] _ [tconn_start sn]), (tcp_busy_step _ (b_of_s "x")); by vm_compute|].
  apply rtc_once, (tcp_conn _ _ _ _ _ _ _ [tcp_busy sn (b_of_s "x")] _ []), (tcp_busy_step _ (b_of_s "null")).
  by vm_compute.
Qed.

Lemma tcp_threads_ownership_witness :
  length (ts_conns (tcp_two true)) = 2%nat /\ forall x, ~ tcp_panic (tcp_two true) x.
Proof.
  split; [reflexivity|].
  exact (proj2 (tcp_threads_ownership any_meta (fun _ => True) tcp_pipes "0.0.0.0:1" 4 true (heap0 []) tt (tcp_two true)
    tcp_pipes_safe (heap0_ok []) (unpooled_healthy (heap0 []) eq_refl) (tcp_two_reached true))).
Defined.

Lemma tcp_threads_silent_witness :
  Forall (fun c => tc_written c = [] /\ tc_write c = []) (ts_conns (tcp_two false)).
Proof.
  refine (tcp_threads_silent any_meta tcp_pipes "0.0.0.0:1" 4 (heap0 []) tt (tcp_two false) _ (tcp_two_reached false)).
  split; [constructor|]. intros target cbs. simpl. by rewrite lookup_empty.
Defined.

(** ** The server's sending routines *)

Definition waiting_hi : Server unit := mk_Server (mk_SvrState heap_hi tt [2%nat] [] false) 5 [].

Lemma waiting_hi_inv : inv [] (svr waiting_hi).
Proof. eapply waiting_inv; apply heap_hi_ok. Qed.

Lemma server_drains_witness :
  ServerDrain.load waiting_hi = 2%nat /\
  exists s', rtc (work relay_server) waiting_hi s' /\ ServerDrain.load s' = 0%nat.
Proof.
  split; [reflexivity|].
  exact (proj1 (proj2 (server_drains relay_server eq_refl waiting_hi waiting_hi_inv))).
Defined.
