(* ===== verification/ClientWitnesses.v ===== *)
(** * ClientWitnesses: the properties of the throttle, the client, and client
    and server together on concrete inputs *)

From Stdlib Require Import ZArith Lia Ascii String.
From stdpp Require Import base list strings gmap fin_maps relations.
From S2P Require Import Prelude Base64 Utf8 JsonText Decimal Json Packet PacketSpec PacketProps.
From S2P Require Import Fmt Pipeline Cipher Crypto CryptoSpec UDPServer UDPServerSpec UDPServerProps.
From S2P Require Import Throttle ThrottleProps UDPClient UDPClientProps ClientSafety Network Handshake Samples.
Open Scope Z_scope.

(** ** The throttle *)

(** Two reads, a delivery, a write and its answer at a rate of 1000 per
    second. *)
Definition th_1k : UDPThrottle := mk_UDPThrottle Rate1k 1000000 4 [] [] None 2.
Definition th_events : list event :=
  [EvRead 0 10 (Datagram (b_of_s "abcdef") "peer"); EvReadFrom; EvWriteTo (b_of_s "out") "peer";
   EvWrite 5 10 (mk_writeStatus 3 None); EvRead 1000000 10 (Datagram (b_of_s "gh") "peer")].

Definition th_final : System :=
  match run th_events (sys_init th_1k 0) with Some s => s | None => sys_init th_1k 0 end.

Lemma th_run : run th_events (sys_init th_1k 0) = Some th_final.
Proof. vm_compute. reflexivity. Qed.

Lemma th_events_ok : Forall ev_ok th_events.
Proof. repeat constructor; unfold max_dur, sec; simpl; lia. Qed.

Lemma throttle_pause_witness : throttleOperation (th th_final) 300 = 999700.
Proof.
  rewrite (throttle_pause Rate1k 4 th_1k th_events th_final 0 300);
    [reflexivity | unfold Rate1k; lia | reflexivity | apply th_events_ok | apply th_run
    | unfold max_dur, sec; lia].
Defined.

Lemma throughput_bounded_witness :
  starts_in 0 1000000 (rd_log th_final) <= 1000000 / (sec / Rate1k) + 1 /\
  starts_in 0 1000000 (wr_log th_final) <= 1000000 / (sec / Rate1k) + 1.
Proof.
  apply (throughput_bounded Rate1k 4 th_1k th_events th_final 0 0 1000000);
    [unfold Rate1k, sec; lia | reflexivity | apply th_events_ok | by repeat constructor | apply th_run | lia].
Defined.

Lemma throttle_fifo_witness :
  ThrottleProps.received 4 <$> arrivals th_events
    = delivered th_events (sys_init th_1k 0) ++ Throttle.recv (th th_final) /\
  requests th_events
    = sys_out th_final ++ ((fun p => (p_data p, p_to p)) <$> sendq (th th_final)) /\
  length (sys_out th_final) = length (ThrottleProps.answers th_events) /\
  forall k, WriteTo_status k th_final = ThrottleProps.answers th_events !! k.
Proof.
  refine (throttle_fifo Rate1k 4 th_1k th_events th_final 0 _ _ _ _);
    [unfold Rate1k; lia | reflexivity | apply th_events_ok | apply th_run].
Defined.

Lemma Shutdown_blocks_witness : Shutdown (th th_final) = None.
Proof.
  apply (Shutdown_blocks Rate1k 4 th_1k th_events th_final 0);
    [unfold Rate1k; lia | reflexivity | apply th_events_ok | apply th_run].
Defined.

(** ** The client *)

Abbreviation WC := (CliState unit).
Definition plain_client : Processor WC := NewUDPClient.
Definition cl0 : WC := client0 tt.

Lemma cl0_pkt : abs (cl_heap cl0) 2 = Some hi_pkt.
Proof. apply heap_hi_ok. Qed.

Lemma plain_keeps : pipeline_keeps plain_client.
Proof. intros name. unfold transforms. simpl. by rewrite lookup_empty. Qed.

(** Send, write, register, response, receive. *)
Definition cl_sent : WC := exec (Send_write plain_client 2 (Some 7%nat)) cl0.
Definition cl_written : WC := set_stream [] cl_sent.
Definition cl_registered : WC := exec (Send_register "r1" (Some 7%nat)) cl_written.
Definition response : bytes := datagram {[KeyRef := "r1"%string]} (b_of_s "yo").
Definition cl_answered : WC := exec (processIncoming_send plain_client "svr" response) cl_registered.

Definition hi_write : cwritePacket :=
  mk_cwritePacket (render_pkt (Some (a_meta hi_pkt)) (a_data hi_pkt)) (Some 7%nat) "r1".

Lemma client_run :
  rtc (cli_step plain_client "svr") (client_start cl0)
    (mk_Client cl_answered [] [] [] ["r1"%string] CIdle RChecks [(hi_write, None)] [ToRequest 7 5 "r1"] []
       [("r1"%string, Some 7%nat)]).
Proof.
  eapply rtc_l; [by eapply cs_local, cs_check|].
  eapply rtc_l; [eapply cs_local, (cs_send plain_client "svr" _ cl_sent 2 (Some 7%nat) "r1"); vm_compute; reflexivity|].
  eapply rtc_l; [eapply cs_local, (cs_receive plain_client "svr" _ [] hi_write []); [done | vm_compute; reflexivity]|].
  eapply rtc_l; [by apply cs_conn, cs_written|].
  eapply rtc_l; [eapply cs_local, (cs_register plain_client "svr" _ cl_registered [] "r1" (Some 7%nat) []);
    [done | vm_compute; reflexivity]|].
  eapply rtc_l; [by apply cs_conn, (cs_read _ response)|].
  eapply rtc_l; [eapply cs_local, (cs_process plain_client "svr" _ cl_answered [] response [] (ToRequest 7 5 "r1"));
    [done | vm_compute; reflexivity]|].
  eapply rtc_l; [by eapply cs_local, (cs_take plain_client "svr" _ [] (ToRequest 7 5 "r1") [])|].
  apply rtc_refl.
Qed.

Lemma responses_matched_witness : ("r1"%string, Some 7%nat) ∈ [("r1"%string, Some 7%nat)].
Proof.
  refine (responses_matched plain_client "svr" cl0 _ 7 5 "r1" plain_keeps _ _ client_run _);
    [reflexivity | reflexivity | by left].
Defined.

Lemma send_spec_witness :
  wp (Send plain_client 2 (Some 7%nat)) (fun r w' => r = None /\ exists ref bin,
    cl_requests w' = <[ref := Some 7%nat]> ∅ /\
    cl_writeStream w' = [mk_cwritePacket bin (Some 7%nat) ref] /\
    bin = render_pkt (Some (a_meta (send_pkt hi_pkt cl0))) (a_data hi_pkt) /\
    a_get KeyRef (send_pkt hi_pkt cl0) = ref /\
    (a_get KeyRef hi_pkt <> ""%string -> ref = a_get KeyRef hi_pkt /\ send_pkt hi_pkt cl0 = hi_pkt) /\
    (a_get KeyRef hi_pkt = ""%string ->
       length (b_of_s ref) = 5%nat /\ Forall (fun c => c ∈ letters) (b_of_s ref))) cl0.
Proof.
  refine (send_spec plain_client 2 (Some 7%nat) cl0 hi_pkt _ _ _);
    [reflexivity | apply client0_good | apply cl0_pkt].
Defined.

Lemma response_routed_witness :
  wp (let* d := processIncoming_send plain_client "svr" response in
      match d with
      | Some d => processIncoming_end (delivery_ref d) ;;; ret (Some d)
      | None => ret None
      end) (fun r w' => exists pkt,
    r = Some (ToMisc pkt "r1") /\
    abs (cl_heap w') pkt = Some (request {[KeyRef := "r1"%string]} (b_of_s "yo")) /\
    cl_requests w' = delete "r1"%string ∅) cl0.
Proof.
  refine (response_routed plain_client "svr" {[KeyRef := "r1"%string]} (b_of_s "yo") cl0 _ _ _);
    [reflexivity | apply client0_good | by apply map_Forall_singleton].
Defined.

Lemma response_overtakes_registration_witness :
  exists c l, rtc (cli_step plain_client "svr") (client_start cl0) c /\
    sent_log c = [("r1"%string, Some 7%nat)] /\
    received c = [ToMisc l "r1"] /\
    abs (cl_heap (cli c)) l = Some (request {[KeyRef := "r1"%string]} (b_of_s "yo")) /\
    cl_requests (cli c) !! "r1"%string = Some (Some 7%nat) /\
    unregistered c = [] /\ delivering c = [] /\ deleting c = [] /\ cl_writeStream (cli c) = [].
Proof.
  refine (response_overtakes_registration plain_client "svr" cl0 2 hi_pkt 7 {[KeyRef := "r1"%string]}
    (b_of_s "yo") _ _ _ _ _ _ _ _ _);
    [reflexivity | reflexivity | apply client0_good | apply cl0_pkt | reflexivity | reflexivity | reflexivity
    | by apply map_Forall_singleton | reflexivity].
Defined.

Lemma Cleanup_blocks_witness :
  exists w', Cleanup (th th_final) cl0 = Ok (w', None) /\ Cleanup (th th_final) w' = Panic CloseOfClosed.
Proof.
  apply (Cleanup_blocks Rate1k 4 th_1k th_events th_final 0 cl0);
    [unfold Rate1k; lia | reflexivity | apply th_events_ok | apply th_run | reflexivity].
Defined.

(** A user that takes a packet from the creator and sends it. *)
Definition cl_fresh : WC := cli_init (heap0 []) tt [].
Definition cl_new : WC := exec (cpk (NewPkt "" "svr")) cl_fresh.
Definition cl_new_sent : WC := exec (Send_write plain_client 2 (Some 7%nat)) cl_new.
Definition user_sent : UClient :=
  mk_UClient (log_sent ("aaaaa"%string, Some 7%nat) (set_cli cl_new_sent (set_cli cl_new (client_start cl_fresh)))) [2%nat].

Lemma user_sent_reached :
  rtc (ucl_step plain_client "svr" (fun d => keeps_meta d = true)) (mk_UClient (client_start cl_fresh) []) user_sent.
Proof.
  eapply rtc_l; [apply (us_new plain_client "svr" _ (client_start cl_fresh) cl_new [] "" "svr" 2); vm_compute; reflexivity|].
  apply rtc_once. apply (us_local plain_client "svr" _ _ [2%nat] [] _ [2%nat]); [|done].
  apply (cs_send plain_client "svr" _ cl_new_sent 2 (Some 7%nat) "aaaaa"). vm_compute. reflexivity.
Qed.

Lemma client_safe_witness :
  NoDup (pool (cl_heap cl_new_sent) ++ [2%nat]) /\ wp (cpk (PutBack 2)) (fun _ _ => True) cl_new_sent.
Proof.
  assert (Hg : heap_good cl_fresh) by (split; [apply heap0_ok | by apply unpooled_healthy]).
  pose proof (client_safe plain_client "svr" (fun d => keeps_meta d = true) cl_fresh user_sent
    (plain_stages "svr" plain_client eq_refl eq_refl) Hg user_sent_reached) as H.
  split; [exact (proj1 H)|]. apply (proj1 (proj2 (proj2 H)) 2%nat). by left.
Defined.

(** ** Client and server *)

Lemma echo_well_behaved : well_behaved echo_effect.
Proof. by split. Qed.

Lemma hi_utf8 : utf8_map (a_meta hi_pkt).
Proof.
  apply map_Forall_insert_2; [by vm_compute|]. apply map_Forall_insert_2; [by vm_compute|].
  apply map_Forall_empty.
Qed.

Lemma request_response_witness :
  exists wc1 data ref ws1 r ws2 data' wc2 l resp,
    Send plain_client 2 (Some 7%nat) cl0 = Ok (None, wc1) /\
    cl_writeStream wc1 = cl_writeStream cl0 ++ [mk_cwritePacket data (Some 7%nat) ref] /\
    processIncoming echo_server data "peer" (server0 tt) = Ok (tt, ws1) /\ sendStream ws1 = [r] /\
    processOutgoing echo_server r
      (mk_SvrState (s_heap ws1) (s_ext ws1) [] (writeStream ws1) (closed ws1)) = Ok (tt, ws2) /\
    writeStream ws2 = writeStream (server0 tt) ++ [mk_writePacket data' "peer"] /\
    processIncoming_send plain_client "svr" data' wc1 = Ok (Some (ToRequest 7 l ref), wc2) /\
    abs (cl_heap wc2) l = Some (request (a_meta resp) (a_buff resp)) /\
    exists d, resp = echo_effect (request (a_meta (send_pkt hi_pkt cl0)) (a_buff hi_pkt)) (fresh_pkt ref "peer" d).
Proof.
  refine (request_response plain_client echo_server (conj eq_refl eq_refl) (conj eq_refl eq_refl)
    cl0 (server0 tt) 2 hi_pkt 7 "peer" "peer" "svr" echo echo_effect _ _ _ _ _ _ _ _ _ _);
    [apply client0_good | apply cl0_pkt | reflexivity | apply hi_utf8 | apply server0_inv | reflexivity
    | reflexivity | apply echo_answers | apply echo_well_behaved | reflexivity].
Defined.

(** The extended server and a client about to exchange keys. *)
Definition kex_server : Processor (SvrState Crypto) := (Extend "server" NewUDPServer).1.
Definition kex_client : Processor (CliState Crypto) := NewUDPClient.
Definition kex_cl : CliState Crypto := client0 (crypto_of (key_of 3) []).
Definition kex_sv : SvrState Crypto := server0 (crypto_of (key_of 5) []).

Lemma handshake_witness :
  exists wc1 data ref ws1 r ws2 data' wc2 l wc3 kss ksc,
    ServerKEx_request kex_client 2 7 kex_cl = Ok (None, wc1) /\
    cl_writeStream wc1 = cl_writeStream kex_cl ++ [mk_cwritePacket data (Some 7%nat) ref] /\
    processIncoming kex_server data "peer" kex_sv = Ok (tt, ws1) /\ sendStream ws1 = [r] /\
    processOutgoing kex_server r
      (mk_SvrState (s_heap ws1) (s_ext ws1) [] (writeStream ws1) (closed ws1)) = Ok (tt, ws2) /\
    writeStream ws2 = writeStream kex_sv ++ [mk_writePacket data' "peer"] /\
    processIncoming_send kex_client "svr" data' wc1 = Ok (Some (ToRequest 7 l ref), wc2) /\
    ServerKEx_response "svr" l wc2 = Ok (true, wc3) /\
    keys (s_ext ws2) !! "peer"%string = Some kss /\ keys (cl_ext wc3) !! "svr"%string = Some ksc /\
    shared kss = shared ksc /\ keySent kss = false /\ keySent ksc = true.
Proof.
  refine (handshake kex_server eq_refl (Extend_server_out NewUDPServer) eq_refl kex_client eq_refl eq_refl
    kex_cl kex_sv 2 hi_pkt 7 "peer" "peer" "svr" _ _ _ _ _ _ _ _ _ _ _);
    [reflexivity | reflexivity | by vm_compute | by vm_compute | apply client0_good
    | apply heap_hi_ok | | apply server0_inv | reflexivity | reflexivity | reflexivity].
  apply map_Forall_insert_2; [by vm_compute|]. apply hi_utf8.
Defined.
