(* ===== verification/ThrottledWitnesses.v ===== *)
(** * ThrottledWitnesses: server and client on their throttles, on concrete
    inputs *)

From Stdlib Require Import ZArith Lia Ascii String.
From stdpp Require Import base list strings gmap fin_maps relations.
From S2P Require Import Prelude Base64 Utf8 JsonText Decimal Json Packet PacketSpec PacketProps.
From S2P Require Import Fmt Pipeline Cipher Crypto UDPServer UDPServerSpec UDPServerProps.
From S2P Require Import UDPClient UDPClientProps Network ServerThreads ServerThreadsProps Throttle ThrottleProps ThrottleHist.
From S2P Require Import ThrottledServer ThrottledDrain ThrottledClient ThrottledNetwork Samples ServerWitnesses ClientWitnesses.
Open Scope Z_scope.

(** A datagram and a read error at a rate of 1000 per second, both given to
    readers. *)
Definition tsv_events : list event :=
  [EvRead 0 10 (Datagram (b_of_s "x") "peer"); EvReadFrom; EvRead 1000000 10 (ReadError "closed"); EvReadFrom].

Definition net_after (k : nat) : System := default (sys_init th_1k 0) (run (take k tsv_events) (sys_init th_1k 0)).

Definition tsv_one : TServer :=
  mk_TServer (mk_Threads (server0 tt) [incoming_prog relay_server (b_of_s "x") "peer"] 4 []) (net_after 4) WIdle tsv_events.

Lemma tsv_one_reached : rtc (tsv_step relay_server any_meta) (tsv_init (server0 tt) th_1k 0) tsv_one.
Proof.
  eapply rtc_l; [|eapply rtc_l; [|eapply rtc_l; [|apply rtc_once]]].
  - apply (tv_conn relay_server any_meta _ _ (net_after 1) WIdle [] (EvRead 0 10 (Datagram (b_of_s "x") "peer")));
      [split; [vm_compute; reflexivity | vm_compute; reflexivity] | vm_compute; reflexivity].
  - apply (tv_read relay_server any_meta (server0 tt) [] 4 [] (net_after 1) (net_after 2) WIdle
      (take 1 tsv_events) (mk_readPkt (b_of_s "x") "peer" None)); [vm_compute; reflexivity | reflexivity].
  - apply (tv_conn relay_server any_meta _ _ (net_after 3) WIdle (take 2 tsv_events) (EvRead 1000000 10 (ReadError "closed")));
      [vm_compute; reflexivity | vm_compute; reflexivity].
  - apply (tv_read_error relay_server any_meta (server0 tt) [incoming_prog relay_server (b_of_s "x") "peer"] 4 []
      (net_after 3) (net_after 4) WIdle (take 3 tsv_events) (mk_readPkt [] "" (Some "closed"%string)) "closed");
      [vm_compute; reflexivity | reflexivity | lia].
Qed.

Lemma throttled_equivalent_witness :
  rtc (th_step relay_server (fits any_meta 4)) (threads_init (server0 tt)) (core tsv_one).
Proof.
  exact (proj1 (throttled_equivalent relay_server any_meta Rate1k 4 th_1k 0 eq_refl (server0 tt)) tsv_one tsv_one_reached).
Defined.

Lemma throttled_io_witness :
  ThrottleProps.received 4 <$> arrivals tsv_events = delivered tsv_events (sys_init th_1k 0) ++ [].
Proof.
  exact (proj1 (proj2 (throttled_io relay_server any_meta Rate1k 4 th_1k 0 eq_refl (server0 tt) tsv_one tsv_one_reached))).
Defined.

Lemma throttled_rate_witness :
  starts_in 0 1000000 (rd_log (net tsv_one)) <= 1000000 / (sec / Rate1k) + 1.
Proof.
  refine (proj1 (throttled_rate relay_server any_meta Rate1k 4 th_1k 0 eq_refl (server0 tt) tsv_one 0 1000000 _ _ tsv_one_reached));
    [unfold Rate1k, sec; lia | lia].
Defined.

Lemma throttled_safe_witness :
  (4 + errors tsv_events (sys_init th_1k 0) = 5)%nat.
Proof.
  refine (proj1 (throttled_safe relay_server any_meta Rate1k 4 th_1k 0 eq_refl (fun _ => True) (server0 tt) tsv_one _ _ tsv_one_reached));
    [apply NewUDPServer_safe | apply server0_inv].
Defined.

Lemma throttled_drains_witness :
  exists s', rtc (tsv_step relay_server any_meta) tsv_one s' /\ threads (core s') = [] /\
    sendStream (state (core s')) = [] /\ writeStream (state (core s')) = [] /\ wpkts s' = WIdle /\
    sys_out (net s') = wire_pair <$> th_wire (core s').
Proof.
  refine (throttled_drains relay_server any_meta eq_refl Rate1k 4 th_1k 0 eq_refl (fun _ => True) (server0 tt) tsv_one
    _ _ tsv_one_reached _); [apply NewUDPServer_safe | apply server0_inv | vm_compute; lia].
Defined.

(** ** The client *)

(** A request whose write the connection refuses, at a rate of 1000 per
    second. *)
Definition refused : event := EvWrite 5 10 (mk_writeStatus 0 (Some "refused"%string)).
Definition call_hi : event := EvWriteTo (cw_data hi_write) "svr".

Definition cnet (k : nat) : System := default (sys_init th_1k 0) (run (take k [call_hi; refused]) (sys_init th_1k 0)).
Definition cl_erred : WC := exec (write_error "refused") cl_written.

Definition tcl_erring : TClient :=
  mk_TClient (mk_Client cl_erred [("r1"%string, Some 7%nat)] [] [] [] (CErring 7 5) RReads
    [(hi_write, Some "refused"%string)] [] [] [("r1"%string, Some 7%nat)]) (cnet 2) None [call_hi; refused].

Abbreviation any_bytes := (fun _ : bytes => True).

Definition cl_writing : Client unit :=
  mk_Client cl_written [("r1"%string, Some 7%nat)] [] [] [] (CWrites hi_write) RReads [] [] [] [("r1"%string, Some 7%nat)].

Lemma cl_writing_reached :
  rtc (tcl_step plain_client "svr" any_bytes) (tcl_init cl0 th_1k 0) (mk_TClient cl_writing (cnet 2) (Some 0%nat) [call_hi; refused]).
Proof.
  eapply rtc_l; [by eapply tl_local, cs_check|].
  eapply rtc_l; [eapply tl_local, (cs_send plain_client "svr" _ cl_sent 2 (Some 7%nat) "r1"); vm_compute; reflexivity|].
  eapply rtc_l; [eapply tl_local, (cs_receive plain_client "svr" _ [] hi_write []); [done | vm_compute; reflexivity]|].
  eapply rtc_l; [apply (tl_call plain_client "svr" any_bytes _ _ (cnet 1) [] hi_write 0); [done | vm_compute; reflexivity]|].
  apply rtc_once. apply (tl_conn plain_client "svr" any_bytes _ _ (cnet 2) (Some 0%nat) [call_hi] refused);
    [vm_compute; reflexivity | vm_compute; reflexivity].
Qed.

Lemma tcl_erring_reached : rtc (tcl_step plain_client "svr" any_bytes) (tcl_init cl0 th_1k 0) tcl_erring.
Proof.
  eapply rtc_r; [exact cl_writing_reached|].
  apply (tl_fail plain_client "svr" any_bytes cl_writing cl_erred (cnet 2) [call_hi; refused] hi_write 0
    (mk_writeStatus 0 (Some "refused"%string)) "refused" 7 5);
    [reflexivity | vm_compute; reflexivity | reflexivity | reflexivity | vm_compute; reflexivity].
Qed.

Lemma client_io_witness :
  failed [(hi_write, Some "refused"%string)] = [7%nat] /\
  sys_out (cnet 2) ++ ((fun q => (p_data q, p_to q)) <$> sendq (th (cnet 2)))
    = (attempt "svr" <$> [(hi_write, Some "refused"%string)]) ++ [].
Proof.
  split.
  - exact (proj2 (proj2 (proj2 (proj2 (client_io plain_client "svr" any_bytes Rate1k 4 th_1k 0 eq_refl cl0
      tcl_erring tcl_erring_reached))))).
  - exact (proj1 (proj2 (client_io plain_client "svr" any_bytes Rate1k 4 th_1k 0 eq_refl cl0
      tcl_erring tcl_erring_reached))).
Defined.

Lemma client_equivalent_witness :
  rtc (fit_step plain_client "svr" any_bytes 4) (client_start cl0) (tc tcl_erring).
Proof.
  apply (client_equivalent plain_client "svr" any_bytes Rate1k 4 th_1k 0 eq_refl cl0 (tc tcl_erring)).
  by exists tcl_erring; split; [apply tcl_erring_reached|].
Defined.

Lemma client_rate_witness : starts_in 0 1000000 (wr_log (cnet 2)) <= 1000000 / (sec / Rate1k) + 1.
Proof.
  refine (proj2 (client_rate plain_client "svr" any_bytes Rate1k 4 th_1k 0 eq_refl cl0 tcl_erring 0 1000000 _ _
    tcl_erring_reached)); [unfold Rate1k, sec; lia | lia].
Defined.

(** Meanwhile the request is registered and another one waits. *)
Definition tcl_waiting : TClient :=
  let c := tc tcl_erring in
  let w1 := exec (Send_register "r1" (Some 7%nat)) cl_erred in
  let w2 := exec (Send_write plain_client 2 (Some 8%nat)) w1 in
  mk_TClient (log_sent ("r1"%string, Some 8%nat) (set_cli w2 (set_unregistered [] (set_cli w1 c)))) (cnet 2) None
    [call_hi; refused].

Lemma tcl_waiting_reached : rtc (tcl_step plain_client "svr" any_bytes) tcl_erring tcl_waiting.
Proof.
  eapply rtc_l; [eapply tl_local, (cs_register plain_client "svr" _ (exec (Send_register "r1" (Some 7%nat)) cl_erred)
    [] "r1" (Some 7%nat) []); [done | vm_compute; reflexivity]|].
  eapply rtc_once, tl_local.
  apply (cs_send plain_client "svr" _ _ 2 (Some 8%nat) "r1"). vm_compute. reflexivity.
Qed.

Lemma write_error_blocks_witness :
  writing (tc tcl_waiting) = CErring 7 5 /\ sys_out (cnet 2) = sys_out (cnet 2).
Proof.
  exact (write_error_blocks plain_client "svr" any_bytes Rate1k 4 th_1k 0 eq_refl cl0 tcl_erring tcl_waiting 7 5
    tcl_erring_reached eq_refl tcl_waiting_reached eq_refl).
Defined.

(** [Cleanup] while [recv] waits for data: it gets one more datagram and
    returns. *)
Definition late : event := EvRead 0 10 (Datagram (b_of_s "x") "svr").
Definition late_net (k : nat) : System :=
  default (sys_init th_1k 0) (run (take k [late; EvReadFrom]) (sys_init th_1k 0)).
Definition closed_client : Client unit := set_receiving RReads (client_start (mk_CliState heap_hi tt [] ∅ [] true)).
Definition tcl_closed : TClient := mk_TClient closed_client (sys_init th_1k 0) None [].
Definition stopped_client : Client unit := set_receiving RStopped (set_receiving RChecks (set_incoming [b_of_s "x"] closed_client)).
Definition tcl_stopped : TClient := mk_TClient stopped_client (late_net 2) None [late; EvReadFrom].

Lemma tcl_stopped_reached : rtc (tcl_step plain_client "svr" any_bytes) tcl_closed tcl_stopped.
Proof.
  eapply rtc_l; [apply (tl_conn plain_client "svr" any_bytes closed_client _ (late_net 1) None [] late);
    [split; [vm_compute; reflexivity | done] | vm_compute; reflexivity]|].
  eapply rtc_l; [apply (tl_read plain_client "svr" any_bytes closed_client (late_net 1) (late_net 2) None [late]
    (mk_readPkt (b_of_s "x") "svr" None)); [done | vm_compute; reflexivity | done]|].
  by eapply rtc_once, tl_local, cs_stop_recv.
Qed.

Lemma cleanup_stops_reading_witness : (reads [late; EvReadFrom] <= reads [] + 1)%nat.
Proof.
  exact (cleanup_stops_reading plain_client "svr" any_bytes tcl_closed tcl_stopped plain_keeps eq_refl
    tcl_stopped_reached).
Defined.

(** ** Both *)

Definition th_4k : UDPThrottle := mk_UDPThrottle Rate1k 1000000 4096 [] [] None 2.

