(* ===== verification/ExampleWitnesses.v ===== *)
(** * ExampleWitnesses: the secured conversations, the key exchange between
    clients and the example programs on concrete inputs *)

From Stdlib Require Import ZArith Lia Ascii String.
From stdpp Require Import base list strings gmap fin_maps relations.
From S2P Require Import Prelude Base64 Utf8 JsonText Decimal Json Packet PacketSpec PacketProps.
From S2P Require Import Fmt Pipeline Cipher Crypto CryptoSpec UDPServer UDPServerSpec UDPServerProps Channel.
From S2P Require Import Throttle UDPClient UDPClientProps Network EchoServer LoadClient Handshake SecureRelay.
From S2P Require Import CryptoExample ExampleWorld ExampleMain Samples.
Open Scope Z_scope.

(** ** The echo example *)

Definition clock (n : nat) : string := "noon".
Definition echo_meta : gmap string string := {[KeyRef := "r1"; KeyTarget := TargetEcho]}%string.

Lemma echo_meta_utf8 : utf8_map echo_meta.
Proof. by apply map_Forall_insert_2; [|apply map_Forall_singleton]. Qed.

Definition echo_sv : SvrState App := server0 (mk_App 0 0).

Lemma echo_server_behaviour_witness :
  decode_msg hello = Some "hello"%string /\
  wp (processIncoming (echo_server_main clock) (datagram echo_meta hello) "peer")
     (fun _ w' => match decode_msg hello with
        | Some _ => sends_one (upd (echo_app (s_ext echo_sv)) echo_sv) w'
            (eq (echo_resp clock (s_ext echo_sv) (default ""%string (echo_meta !! KeyRef)) "peer"))
        | None => sends_one echo_sv w' (is_err (default ""%string (echo_meta !! KeyRef)) "peer"
            "packet pipeline error: malformed packet data")
        end) echo_sv.
Proof.
  split; [reflexivity|].
  apply (echo_server_behaviour clock echo_meta hello "peer" echo_sv);
    [apply server0_inv | apply echo_meta_utf8 | reflexivity].
Defined.

Definition echo_cl : CliState unit := client0 tt.

Lemma echo_roundtrip_witness :
  exists wc1 data ref ws1 r ws2 data' wc2 l resp,
    echo_client_main NewUDPClient "127.0.0.1:10000" 7 echo_cl = Ok (tt, wc1) /\
    cl_writeStream wc1 = cl_writeStream echo_cl ++ [mk_cwritePacket data (Some 7%nat) ref] /\
    processIncoming (echo_server_main clock) data "peer" echo_sv = Ok (tt, ws1) /\
    sendStream ws1 = [r] /\
    processOutgoing (echo_server_main clock) r
      (mk_SvrState (s_heap ws1) (s_ext ws1) [] (writeStream ws1) (closed ws1)) = Ok (tt, ws2) /\
    writeStream ws2 = writeStream echo_sv ++ [mk_writePacket data' "peer"] /\
    processIncoming_send NewUDPClient "svr" data' wc1 = Ok (Some (ToRequest 7 l ref), wc2) /\
    abs (cl_heap wc2) l = Some resp /\ a_buff resp = echo_text clock (s_ext echo_sv) /\
    requestsServed (s_ext ws2) = i64 (requestsServed (s_ext echo_sv) + 1).
Proof.
  refine (echo_roundtrip clock NewUDPClient (conj eq_refl eq_refl) echo_cl echo_sv
    "127.0.0.1:10000" 7 "peer" "peer" "svr" _ _ _ _);
    [apply client0_good | apply server0_inv | reflexivity | reflexivity].
Defined.

(** One client with one request: eight steps to the end. *)
Lemma load_run :
  exists s, nsteps (load_step 1 1) 8 load_init s /\ forall s', ~ load_step 1 1 s s'.
Proof.
  exists (mk_load [mk_client 1 0 0 0 1 0 0 true] 2 false 0 true). split.
  - eapply nsteps_l; [by apply ls_client|]. simpl.
    eapply nsteps_l; [by apply (ls_request 1 1 [] 0 0 0 0 0 0 0 [])|]. simpl.
    eapply nsteps_l; [apply (ls_response 1 1 [] 1 0 0 0 0 0 1 false [])|]. simpl.
    eapply nsteps_l; [by apply (ls_report 1 1 [] 1 0 0 0 0 0 1 false [] 1)|]. simpl.
    eapply nsteps_l; [apply (ls_leave 1 1 [] 1 0 0 0 0 0 0 false [])|]. simpl.
    eapply nsteps_l; [by apply (ls_return 1 1 [] 1 0 0 0 1 0 [])|]. simpl.
    eapply nsteps_l; [by apply ls_counted|].
    eapply nsteps_l; [by apply ls_finish|]. apply nsteps_O.
  - intros s' Hs. inversion Hs; subst; simpl in *; try lia;
      repeat match goal with
      | H : ?l ++ _ = [_] |- _ => destruct l as [|? [|? ?]]; simpl in H; simplify_eq
      end.
Qed.

Lemma load_terminates_witness :
  exists s, nsteps (load_step 1 1) 8 load_init s /\ load_final 1 1 s.
Proof.
  destruct load_run as (s & Hn & Hs). exists s. split; [done|].
  refine (proj1 (proj2 (load_terminates 1 1 _ _ _ 8 s Hn) Hs)); lia.
Defined.

(** ** Secured clients *)

(** Three secrets: between the clients, and between each of them and the
    server.  The server's keys count as sent. *)
Definition ks_of (s : Z) : keyStore := mk_keyStore true s (mk_PublicKey (Some (7 * 2 ^ 250)) (Some 0)).
Definition s_e2e : Z := 2 ^ 250.
Definition s_a : Z := 2 ^ 251.
Definition s_b : Z := 2 ^ 252.

Definition crypto_a : Crypto :=
  mk_Crypto {[svrAddr := ks_of s_a; clientB_Addr := ks_of s_e2e]} (key_of 1) [] [inr nonce0; inr nonce0].
Definition crypto_b : Crypto :=
  mk_Crypto {[svrAddr := ks_of s_b; clientA_Addr := ks_of s_e2e]} (key_of 7) [] [inr nonce0; inr nonce0].
Definition crypto_s : Crypto :=
  mk_Crypto {[clientA_Addr := ks_of s_a; clientB_Addr := ks_of s_b]} (key_of 5) [] [inr nonce0; inr nonce0].

Definition secured_cl : Processor (CliState Crypto) := (Extend "client" NewUDPClient).1.
Definition secured_sv : Processor (SvrState Crypto) := (Extend "server" NewUDPServer).1.

Lemma secured_sv_ok : secured secured_sv.
Proof. by split. Qed.

(** Client A with a packet for client B. *)
Definition compose_relay (l : nat) : M Heap unit :=
  SetDest l svrAddr ;;; Meta_Add l KeyTarget TargetRelay ;;; Meta_Add l KeyRelayTo clientB_Addr ;;;
  Write l msg_A ;;; Close l.

Definition to_b : APkt :=
  a_close (a_write msg_A (a_add KeyRelayTo clientB_Addr (a_add KeyTarget TargetRelay
    (a_set_dest svrAddr blank)))).

Definition heap_to_b : Heap := exec (compose_relay 2) (heap1 []).

Lemma heap_to_b_ok : heap_ok heap_to_b /\ abs heap_to_b 2 = Some to_b /\ pool heap_to_b = [].
Proof.
  apply (exec_acts (compose_relay 2) 2 (fun a => a_close (a_write msg_A (a_add KeyRelayTo clientB_Addr
    (a_add KeyTarget TargetRelay (a_set_dest svrAddr a))))) (fun _ => tt)); [|apply heap1_ok | reflexivity].
  eapply acts_ext; [unfold compose_relay; repeat (eapply acts_seq; [eauto with concord|]);
    eauto with concord | done | done].
Qed.

Definition cl_a : CliState Crypto := cli_init heap_to_b crypto_a [].
Definition cl_b : CliState Crypto := client0 crypto_b.
Definition sv : SvrState Crypto := server0 crypto_s.

Lemma cl_a_good : heap_good cl_a.
Proof. destruct heap_to_b_ok as (Hok & _ & Hp). split; [done | by apply unpooled_healthy]. Qed.

Lemma linked_e2e : linked (BigBytes s_e2e) crypto_a crypto_b clientB_Addr clientA_Addr.
Proof. eexists (ks_of s_e2e), (ks_of s_e2e). by split_and!. Qed.
Lemma linked_a : linked (BigBytes s_a) crypto_a crypto_s svrAddr clientA_Addr.
Proof. eexists (ks_of s_a), (ks_of s_a). by split_and!. Qed.
Lemma linked_b : linked (BigBytes s_b) crypto_s crypto_b clientB_Addr svrAddr.
Proof. eexists (ks_of s_b), (ks_of s_b). by split_and!. Qed.

Lemma relay_meta_ok : utf8_map (a_meta (send_pkt (sealed_pkt (BigBytes s_e2e) nonce0 to_b) cl_a)).
Proof.
  apply map_Forall_insert_2; [by split; [|apply genRef_utf8]|].
  apply map_Forall_insert_2; [done|]. apply map_Forall_insert_2; [done|]. apply map_Forall_empty.
Qed.

(** B receives what A wrote, from A. *)
Lemma secure_relay_witness :
  let fwd := forwarded (a_meta (send_pkt (sealed_pkt (BigBytes s_e2e) nonce0 to_b) cl_a))
    (nonce0 ++ Seal (BigBytes s_e2e) nonce0 msg_A) clientA_Addr in
  exists wa1 wa2 data ref ws1 l ws2 data' wb1 l' wb2 x,
    EncryptE2E clientB_Addr 2 cl_a = Ok (None, wa1) /\
    Send secured_cl 2 (Some 7%nat) wa1 = Ok (None, wa2) /\
    cl_writeStream wa2 = cl_writeStream cl_a ++ [mk_cwritePacket data (Some 7%nat) ref] /\
    processIncoming secured_sv data clientA_Addr sv = Ok (tt, ws1) /\ sendStream ws1 = [l] /\
    abs (s_heap ws1) l = Some fwd /\ a_buff fwd = nonce0 ++ Seal (BigBytes s_e2e) nonce0 msg_A /\
    processOutgoing secured_sv l
      (mk_SvrState (s_heap ws1) (s_ext ws1) [] (writeStream ws1) (closed ws1)) = Ok (tt, ws2) /\
    writeStream ws2 = writeStream sv ++ [mk_writePacket data' clientB_Addr] /\
    processIncoming_send secured_cl svrAddr data' cl_b = Ok (Some (route cl_b ref l'), wb1) /\
    DecryptE2E clientA_Addr l' wb1 = Ok (None, wb2) /\ abs (cl_heap wb2) l' = Some x /\
    a_buff x = msg_A /\ a_get KeyRelayFrom x = clientA_Addr /\ a_get KeyRef x = ref.
Proof.
  refine (secure_relay secured_cl secured_cl secured_sv cl_a cl_b sv 2 to_b (Some 7%nat)
    clientA_Addr clientB_Addr svrAddr clientB_Addr (BigBytes s_e2e) nonce0 [inr nonce0]
    (BigBytes s_a) (BigBytes s_b) _ _ _ _ _ _ _ _ _ _ _ _ _ _ _ _ _ _ _ _ _ _);
    [apply secured_client | apply secured_client | apply secured_sv_ok | reflexivity | apply cl_a_good
    | apply heap_to_b_ok | apply client0_good | apply server0_inv | reflexivity | reflexivity
    | reflexivity | reflexivity | reflexivity | apply relay_meta_ok | reflexivity | apply linked_e2e
    | apply linked_a | apply linked_b | reflexivity | reflexivity
    | vm_compute; reflexivity | vm_compute; reflexivity].
Defined.

(** ** The key exchanges *)

Definition new_cl : CliState Crypto := client0 (crypto_of (key_of 1) []).
Definition new_sv : SvrState Crypto := server0 (crypto_of (key_of 5) []).

Lemma createSecureClient_secured_witness :
  exists wc1 data ref ws1 r ws2 data' wc2 l wc3 p,
    createSecureClient_request (inr (key_of 3)) [inr nonce0] 7 new_cl = Ok (inr None, wc1) /\
    cl_writeStream wc1 = cl_writeStream new_cl ++ [mk_cwritePacket data (Some 7%nat) ref] /\
    processIncoming secured_sv data clientA_Addr new_sv = Ok (tt, ws1) /\ sendStream ws1 = [r] /\
    processOutgoing secured_sv r
      (mk_SvrState (s_heap ws1) (s_ext ws1) [] (writeStream ws1) (closed ws1)) = Ok (tt, ws2) /\
    writeStream ws2 = writeStream new_sv ++ [mk_writePacket data' clientA_Addr] /\
    processIncoming_send NewUDPClient svrAddr data' wc1 = Ok (Some (ToRequest 7 l ref), wc2) /\
    createSecureClient_response l wc2 = Ok (Some p, wc3) /\
    secured p /\
    linked (BigBytes (ScalarMult (PX (key_of 5)) (PY (key_of 5)) (BigBytes (D (key_of 3)))).1)
      (cl_ext wc3) (s_ext ws2) svrAddr clientA_Addr.
Proof.
  refine (createSecureClient_secured secured_sv new_cl new_sv (key_of 3) [inr nonce0] 7 clientA_Addr
    clientA_Addr _ _ _ _ _ _ _ _ _ _ _);
    [apply secured_sv_ok | reflexivity | reflexivity | by vm_compute | by vm_compute | vm_compute; reflexivity
    | apply client0_good | apply server0_inv | reflexivity | reflexivity | reflexivity].
Defined.

Lemma clientB_plain : plain_addr clientB_Addr.
Proof. by split. Qed.

Lemma client_kex_witness :
  exists wc1 data ref ws1 l ws2 data' wc2 l' wc3 ks,
    ClientKEx_request secured_cl clientB_Addr 2 7 cl_a = Ok (None, wc1) /\
    cl_writeStream wc1 = cl_writeStream cl_a ++ [mk_cwritePacket data (Some 7%nat) ref] /\
    processIncoming secured_sv data clientA_Addr sv = Ok (tt, ws1) /\ sendStream ws1 = [l] /\
    processOutgoing secured_sv l
      (mk_SvrState (s_heap ws1) (s_ext ws1) [] (writeStream ws1) (closed ws1)) = Ok (tt, ws2) /\
    writeStream ws2 = writeStream sv ++ [mk_writePacket data' clientA_Addr] /\
    processIncoming_send secured_cl svrAddr data' wc1 = Ok (Some (ToRequest 7 l' ref), wc2) /\
    ClientKEx_response clientB_Addr l' wc2 = Ok (true, wc3) /\
    keys (cl_ext wc3) !! clientB_Addr = Some ks /\ keySent ks = true /\
    shared ks = (ScalarMult (PX (key_of 1)) (PY (key_of 1)) (BigBytes (D (key_of 7)))).1.
Proof.
  refine (client_kex secured_cl secured_sv cl_a sv 2 to_b 7 clientA_Addr clientB_Addr svrAddr
    clientA_Addr (BigBytes s_a) (ks_of s_b) (key_of 7) _ _ _ _ _ _ _ _ _ _ _ _ _ _ _ _ _ _ _);
    [apply secured_client | apply secured_sv_ok | reflexivity | apply cl_a_good | apply heap_to_b_ok
    | reflexivity | apply server0_inv | reflexivity | reflexivity | | apply clientB_plain
    | apply linked_a | apply linked_sym, linked_a | vm_compute; reflexivity | vm_compute; reflexivity
    | reflexivity | reflexivity | by vm_compute | by vm_compute].
  apply map_Forall_insert_2; [by split; [|apply genRef_utf8]|].
  apply map_Forall_insert_2; [done|]. apply map_Forall_insert_2; [done|]. 
  apply map_Forall_insert_2; [done|]. apply map_Forall_empty.
Defined.

(** B's exchange through A: the server holds A's key. *)
Definition ks_a : keyStore := mk_keyStore true s_a (mk_PublicKey (Some (2 ^ 250)) (Some 0)).
Definition sv_a : SvrState Crypto :=
  server0 (mk_Crypto {[clientA_Addr := ks_a]} (key_of 5) [] [inr nonce0]).

Lemma kex_B_agrees_witness :
  exists wa1 data ref ws1 l ws2 data' wa2 resp wb1 ks,
    kex_B secured_cl 7 cl_a = Ok (None, wa1) /\
    cl_writeStream wa1 = cl_writeStream cl_a ++ [mk_cwritePacket data (Some 7%nat) ref] /\
    processIncoming secured_sv data clientA_Addr sv_a = Ok (tt, ws1) /\ sendStream ws1 = [l] /\
    processOutgoing secured_sv l
      (mk_SvrState (s_heap ws1) (s_ext ws1) [] (writeStream ws1) (closed ws1)) = Ok (tt, ws2) /\
    writeStream ws2 = writeStream sv_a ++ [mk_writePacket data' clientA_Addr] /\
    processIncoming_send secured_cl svrAddr data' wa1 = Ok (Some (ToRequest 7 resp ref), wa2) /\
    kex_B_response resp wa2 cl_b = Ok (true, wb1) /\
    keys (cl_ext wb1) !! clientA_Addr = Some ks /\
    shared ks = (ScalarMult (PX (key_of 1)) (PY (key_of 1)) (BigBytes (D (key_of 7)))).1.
Proof.
  refine (kex_B_agrees secured_cl secured_sv cl_a cl_b sv_a 7 clientA_Addr (BigBytes s_a) ks_a
    _ _ _ _ _ _ _ _ _ _ _ _);
    [apply secured_client | apply secured_sv_ok | reflexivity | apply cl_a_good | apply server0_inv
    | reflexivity | reflexivity | | vm_compute; reflexivity | vm_compute; reflexivity | reflexivity
    | reflexivity].
  exists (ks_of s_a), ks_a. by split_and!.
Defined.

(** Requests the server refuses: data that is no key, and an address without a
    key. *)
Definition kexs_meta : gmap string string := {[KeyRef := "r1"; KeyTarget := TargetKeyExchangeServer]}%string.
Definition kexc_req : gmap string string := {[KeyRef := "r1"; KeyTarget := TargetKeyExchangeClient]}%string.

Lemma kex_refused_witness :
  let reports m b msg := wp (processIncoming secured_sv (datagram m b) "peer") (fun _ ws' =>
    sends_one sv ws' (is_err (default ""%string (m !! KeyRef)) "peer"
      ("packet pipeline error: " +:+ msg))) sv in
  reports kexs_meta (b_of_s "x") "malformed packet"%string /\
  reports kexc_req (b_of_s "x") "malformed packet"%string /\
  reports kexc_req (ip_text "nobody") "client non-existent"%string.
Proof.
  assert (U1 : utf8_map kexs_meta) by (by apply map_Forall_insert_2; [|apply map_Forall_singleton]).
  assert (U2 : utf8_map kexc_req) by (by apply map_Forall_insert_2; [|apply map_Forall_singleton]).
  intros reports. split_and!.
  - exact (proj1 (kex_refused secured_sv sv kexs_meta (b_of_s "x") (datagram kexs_meta (b_of_s "x")) "peer"
      secured_sv_ok eq_refl eq_refl (server0_inv _) U1 eq_refl) eq_refl eq_refl).
  - exact (proj1 (proj2 (kex_refused secured_sv sv kexc_req (b_of_s "x") (datagram kexc_req (b_of_s "x"))
      "peer" secured_sv_ok eq_refl eq_refl (server0_inv _) U2 eq_refl)) eq_refl eq_refl).
  - exact (proj2 (proj2 (kex_refused secured_sv sv kexc_req (ip_text "nobody")
      (datagram kexc_req (ip_text "nobody")) "peer" secured_sv_ok eq_refl eq_refl (server0_inv _) U2 eq_refl))
      "nobody"%string eq_refl eq_refl eq_refl).
Defined.

(** ** The conversation of the example *)

Lemma sample_session :
  session secured_cl secured_cl secured_sv cl_a cl_b sv nonce0 nonce0 (BigBytes s_e2e) (BigBytes s_a)
    (BigBytes s_b) [inr nonce0] [inr nonce0] clientA_Addr clientB_Addr.
Proof.
  split; [apply secured_client | apply secured_client | apply secured_sv_ok | reflexivity | apply cl_a_good
    | apply client0_good | apply server0_inv | reflexivity | reflexivity | reflexivity | reflexivity
    | apply linked_e2e | apply linked_a | apply linked_b | reflexivity | reflexivity | reflexivity
    | reflexivity | vm_compute; reflexivity..].
Qed.

Lemma conversation_witness :
  exists wa1 wb1 l' wb2 wa2 resp wa3,
    send_A secured_cl 7 cl_a = Ok (None, wa1) /\
    listen_B secured_cl l' wb1 = Ok (inr msg_A, wb2) /\
    receive_A resp wa2 = Ok (msg_B, wa3).
Proof.
  destruct (conversation secured_cl secured_cl secured_sv cl_a cl_b sv nonce0 nonce0 (BigBytes s_e2e)
    (BigBytes s_a) (BigBytes s_b) [inr nonce0] [inr nonce0] clientA_Addr clientB_Addr 7 sample_session)
    as (wa1 & data & ws1 & l & ws2 & data' & wb1 & l' & wb2 & data2 & ws3 & k & ws4 & data2' & wa2
      & resp & wa3 & H1 & H2 & H3 & H4 & H5 & H6 & H7 & H8 & H9 & H10 & H11 & H12 & H13 & H14 & H15).
  exists wa1, wb1, l', wb2, wa2, resp, wa3. exact (conj H1 (conj H8 H15)).
Defined.

(** ** The whole encryption example *)

Definition rest0 : CliRest := mk_CliRest NewUDPClient (crypto_of (key_of 0) []) [] ∅ [] false.
Definition world0 : World := mk_World (heap0 []) rest0 rest0 (server0 (crypto_of (key_of 5) [])).

(** The toy cipher never opens a text of JSON. *)
Lemma toy_clear key m b : clear_text key (datagram m b).
Proof. apply toy_text_clear. Qed.

Lemma setting0 :
  setting (key_of 2) (key_of 3) (key_of 5) nonce0 nonce0 nonce0 nonce0 nonce0 nonce0 (crypto_of (key_of 5) []).
Proof. split; try (by vm_compute); intros ref _; apply toy_clear. Qed.

Lemma example_main_witness :
  exists r, rtc (x_step secured_sv) (x_start (main None None (inr (key_of 2)) (inr (key_of 3))
      [inr nonce0; inr nonce0; inr nonce0; inr nonce0] [inr nonce0; inr nonce0]) world0) r /\
    goroutines (x_proc r) = [GReturn; GReturn] /\
    logged (x_proc r) = [LogSent; LogRelayed msg_A; LogResponse msg_B].
Proof.
  refine (example_main secured_sv secured_sv_ok _ _ _ _ (key_of 2) (key_of 3) (key_of 5)
    nonce0 nonce0 nonce0 nonce0 nonce0 nonce0 [] [] (crypto_of (key_of 5) []) setting0 world0 _ _ _);
    [reflexivity | reflexivity | reflexivity | by intros [] | | | reflexivity].
  - split; [apply heap0_ok | by apply unpooled_healthy].
  - split; [apply server0_inv | reflexivity | reflexivity | reflexivity].
Defined.
