(* ===== verification/SecuredWitnesses.v ===== *)
(** * SecuredWitnesses: the properties of a secured server and of processors
    behind the interfaces on concrete inputs *)

From Stdlib Require Import ZArith Lia Ascii String.
From stdpp Require Import base list strings gmap fin_maps relations.
From S2P Require Import Prelude Base64 Utf8 JsonText Decimal Json Packet PacketSpec PacketProps.
From S2P Require Import Fmt Pipeline Cipher Crypto CryptoSpec UDPServer UDPServerSpec UDPServerProps.
From S2P Require Import ServerThreads ServerThreadsProps Channel CryptoServer Processors.
From S2P Require Import Throttle UDPClient UDPClientProps Handshake SecureRelay SecuredServer.
From S2P Require Import CryptoExample Samples ExampleWitnesses.
Open Scope Z_scope.

Abbreviation W := (SvrState Crypto).

(** ** What a secured server writes *)

(** A text that is no packet and no sealed data; the server reports it to
    client A. *)
Definition greeting : bytes := b_of_s "hello, server".
Definition sv1 : W := exec (processIncoming secured_sv greeting clientA_Addr) sv.
Definition sv1_taken : W := mk_SvrState (s_heap sv1) (s_ext sv1) [] (writeStream sv1) (closed sv1).
Definition sv2 : W := exec (processOutgoing secured_sv (hd 0%nat (sendStream sv1))) sv1_taken.
Definition to_a : writePacket := hd (mk_writePacket [] "") (writeStream sv2).
Definition sv3 : W := mk_SvrState (s_heap sv2) (s_ext sv2) (sendStream sv2) [] (closed sv2).

Lemma greeting_adm : crypto_adm_as no_exchange greeting.
Proof.
  split; [vm_compute; lia|]. split; [by split; vm_compute|].
  intros key d'. unfold Open, toy_aead. cbv zeta. by rewrite decide_False by done.
Qed.

Lemma reach_sv3 : reachable secured_sv (crypto_adm_as no_exchange) (Serve_init sv) (mk_Server sv3 5 [to_a]).
Proof.
  eapply reach_step; [eapply reach_step; [eapply reach_step; [apply reach_init|]|]|].
  - apply (step_read _ _ sv sv1 5 [] greeting clientA_Addr); [lia | apply greeting_adm | vm_compute; reflexivity].
  - apply (step_send _ _ sv1 sv2 5 [] [] (hd 0%nat (sendStream sv1)) []); vm_compute; reflexivity.
  - apply (step_write _ _ sv2 5 [] [] to_a []). vm_compute. reflexivity.
Qed.

Lemma transport_confidential_witness :
  w_addr to_a = clientA_Addr /\
  ((exists n d, w_data to_a = n ++ Seal (BigBytes s_a) n d) \/
   exists m d, w_data to_a = render_pkt (Some m) d /\
     skips_crypto (default ""%string (m !! KeyNoCrypto)) = true).
Proof.
  split; [vm_compute; reflexivity|].
  refine (transport_confidential clientA_Addr clientA_Addr s_a sv (idle_threads (mk_Server sv3 5 [to_a]))
    _ _ _ _ _ to_a _ _).
  - apply server0_inv.
  - reflexivity.
  - exists (ks_of s_a). split_and!; reflexivity.
  - eapply rtc_subrel; [|exact (reachable_threads _ _ _ _ reach_sv3)].
    intros s s' Hs. split; [|exact Hs]. intros l a _ _ Hr. unfold ResolveUDPAddr, toy_resolver in Hr. congruence.
  - simpl. lia.
  - simpl. left.
  - vm_compute. reflexivity.
Defined.

(** ** A key exchange in the client's name *)

(** The key of a third party, from client A's address. *)
Definition rekey_meta : gmap string string := {[KeyTarget := TargetKeyExchangeServer]}%string.
Definition other_key : bytes := publicKey (crypto_of (key_of 9) []).

Lemma rekey_unauthenticated_witness :
  exists w1 r w2,
    processIncoming secured_sv (datagram rekey_meta other_key) clientA_Addr sv = Ok (tt, w1) /\
    sendStream w1 = [r] /\
    processOutgoing secured_sv r
      (mk_SvrState (s_heap w1) (s_ext w1) [] (writeStream w1) (closed w1)) = Ok (tt, w2) /\
    keys (s_ext w2) !! clientA_Addr
      = Some (mk_keyStore false (ScalarMult (PX (key_of 9)) (PY (key_of 9)) (BigBytes (D (key_of 5)))).1
               (mk_PublicKey (Some (PX (key_of 9))) (Some (PY (key_of 9))))) /\
    forall l a w3, s_ext w3 = s_ext w2 -> inv [l] w3 -> abs (s_heap w3) l = Some a -> a_dest a = clientA_Addr ->
      exists w4, processOutgoing secured_sv l w3 = Ok (tt, w4) /\
        writeStream w4 = writeStream w3
          ++ [mk_writePacket (render_pkt (Some (a_meta a)) (a_data a)) clientA_Addr].
Proof.
  refine (rekey_unauthenticated secured_sv secured_sv_ok rekey_meta other_key clientA_Addr clientA_Addr sv
    (ks_of s_a) (PX (key_of 9)) (PY (key_of 9)) _ _ _ _ _ _ _ _ _ _).
  - reflexivity.
  - apply server0_inv.
  - reflexivity.
  - reflexivity.
  - reflexivity.
  - by apply map_Forall_singleton.
  - reflexivity.
  - vm_compute. reflexivity.
  - vm_compute. lia.
  - vm_compute. reflexivity.
Defined.

(** A packet for client B at a server that knows B under another text. *)
Definition b_alias : string := "localhost:10002".
#[local] Instance alias_resolver : Resolver :=
  { ResolveUDPAddr s := Some (if String.eqb s b_alias then clientB_Addr else s) }.
Definition heap_alias : Heap := exec (SetDest 2 b_alias) (heap1 []).
Definition sv_alias : W := svr_init heap_alias crypto_s.

Lemma heap_alias_ok : heap_ok heap_alias /\ abs heap_alias 2 = Some (a_set_dest b_alias blank) /\ pool heap_alias = [].
Proof. apply (exec_acts (SetDest 2 b_alias) 2 _ _ (heap1 []) blank (SetDest_acts _ _)); [apply heap1_ok | reflexivity]. Qed.

Lemma alias_in_clear_witness :
  exists w', processOutgoing (H := alias_resolver) secured_sv 2 sv_alias = Ok (tt, w') /\
    writeStream w' = writeStream sv_alias ++ [mk_writePacket (render_pkt (Some ∅) "") clientB_Addr].
Proof.
  refine (alias_in_clear (R := alias_resolver) secured_sv secured_sv_ok sv_alias 2 (a_set_dest b_alias blank)
    clientB_Addr clientB_Addr (ks_of s_b) _ _ _ _ _ _).
  - destruct heap_alias_ok as (Hok & Ha & Hp). split; [exact Hok | by apply unpooled_healthy | | | done].
    + apply NoDup_singleton.
    + intros l Hl. apply list_elem_of_singleton in Hl as ->. simpl. rewrite Hp, Ha. split; [apply not_elem_of_nil | done].
  - apply heap_alias_ok.
  - reflexivity.
  - reflexivity.
  - reflexivity.
  - reflexivity.
Defined.

(** ** Processors behind the interfaces *)

Lemma extend_any_processor_witness :
  ((ext_Extend "server" (NewUDPServer (E := Crypto))).2 = None <->
     "server"%string = "server"%string \/ "server"%string = "client"%string) /\
  (forall ctx pw w, TargetName ctx = TargetRelay ->
     pp_Process (proc_PacketProcessor (extended "server" (NewUDPServer (E := Crypto)))) ctx pw w
     = pp_Process (proc_PacketProcessor (NewUDPServer (E := Crypto))) ctx pw w).
Proof.
  destruct (extend_any_processor (IP := pipelines_processor) (LP := pipelines_laws) "server" (NewUDPServer (E := Crypto)) eq_refl) as (H1 & _ & _ & H4 & _).
  split; [exact H1|]. intros ctx pw w Ht. apply H4. right. rewrite Ht. split; discriminate.
Defined.

(** Client A's packet for client B, from the client's to the server's pipeline. *)
Lemma channel_any_processor_witness :
  exists sent,
    dp_Process (proc_DataProcessor (extended "client" (NewUDPClient (E := Crypto)))) (out_tctx 2)
        (render_pkt (Some (a_meta to_b)) (a_data to_b)) cl_a
      = Ok ((out_tctx 2, sent, None), upd (out_crypto to_b (proj (S := Crypto) cl_a)) cl_a) /\
    dp_Process (proc_DataProcessor (extended "server" (NewUDPServer (E := Crypto)))) (in_ctx clientA_Addr) sent sv
      = Ok ((in_ctx clientA_Addr, render_pkt (Some (a_meta to_b)) (a_data to_b), None), sv).
Proof.
  apply (channel_any_processor (IP1 := pipelines_processor) (IP2 := pipelines_processor) (NewUDPClient (E := Crypto))
    (NewUDPServer (E := Crypto)) "client" "server" cl_a sv 2 to_b clientA_Addr (BigBytes s_a)).
  - reflexivity.
  - reflexivity.
  - by intros [pc n f] data w Hn _; simpl in Hn; subst n.
  - by intros [pc n f] data w Hn _; simpl in Hn; subst n.
  - apply heap_to_b_ok.
  - apply heap_to_b_ok.
  - apply linked_a.
  - vm_compute. reflexivity.
Defined.
